(* ===== verification/_CoqProject ===== *)
-Q . S2P
Prelude.v
RustStr.v
External.v
Reference.v
Merkle.v
Payment.v
PaymentStore.v
PaymentHandlers.v
Threads.v
Ownership.v
PaymentConcurrency.v
Grpc.v
EcoCash.v
PaymentGrpc.v
AuditStore.v
AuditHandler.v
AuditCron.v
AuditConcurrency.v
AuditGrpc.v
Session.v
SessionService.v
SessionConcurrency.v
Recon.v
Matching.v
ReconStore.v
ReconConcurrency.v
ReconGrpc.v
Messaging.v
MessagingStore.v
MessagingGrpc.v
Ledger.v
LedgerStore.v
LedgerProto.v
LedgerGrpc.v
LedgerSpec.v
SocketAddr.v
Host.v
Startup.v
Methods.v
Telemetry.v
