(* ===== verification/Prelude.v ===== *)
(** * Verification of the Rust engines of the USSD kernel

    The repository is a USSD kernel: a gateway, an orchestrator and a set of
    Rust services ([src/rust-engine/]) that take mobile-money payments, rebuild
    and check sessions from their events, audit the ledger, answer queries on
    it, reconcile provider statements and send messages.  This library models the
    Rust services and proves what they promise.

    ** The program and its parts

    Each service has the same layers: a pure domain, an application handler,
    ports (gRPC methods, and traits for what the handler needs) and
    infrastructure (PostgreSQL statements, caches, provider clients).  A request
    enters by a gRPC method, which converts it and calls the handler, which
    calls the domain and the stores; every call that can fail returns a
    [Result], and statements are not grouped in transactions, so what was done
    before a failure stays done.

    - Payment engine: the payment aggregate and its status machine
      ([domain/payment.rs]), initiation with idempotency keys and a retry loop
      ([application/initiate.rs]), signed provider callbacks
      ([application/callback.rs]), payments and outbox tables, the EcoCash
      client, the gRPC service.
    - Audit service: Merkle trees over the day's events ([domain/merkle.rs]),
      signed daily batches, proofs, checksums, the transaction chain and the
      audit trail ([application/audit.rs]).
    - Session reconstructor: folding a session's events into its state, checking
      their hash chain, Merkle proofs over the event hashes, a cache.
    - Reconciliation engine: matching internal against external transactions,
      runs, discrepancies and their resolution.
    - Messaging engine: routing by number prefix, templates, delivery log,
      batches, rate limiting.
    - Ledger query service: six gRPC services of 29 read methods over one
      handler and a read model that, as written, answers constants.
    - Common crate and entry points: every [main.rs] reads its environment,
      connects to the database, loads keys and credentials and serves, with
      mutual TLS or in plaintext; the audit service also runs a daily job.

    ** Files

    Shared: [Prelude] (this file: results with panics, the state-and-error
    monad of the handlers, machine integers, generic lemmas and tactics),
    [RustStr] (the [str] operations on UTF-8 bytes), [External] (interfaces of
    third-party crates: operations, and the documented laws theorems use),
    [Reference] (one executable instance of each interface, so that the laws
    are satisfiable and every model runs), [Threads] (handlers cut into steps,
    their interleavings, rely-guarantee rules), [Ownership] (threads that alone
    write what they create), [Grpc] (statuses, error blocks, timestamps).

    Payment engine: [Payment] (domain), [PaymentStore] (postgres.rs, outbox.rs,
    outbox_adapter.rs), [PaymentHandlers] (initiate.rs, callback.rs),
    [PaymentConcurrency] (the same handlers as interleaved threads), [EcoCash]
    (ecocash.rs, vault.rs), [PaymentGrpc] (ports/grpc.rs).
    Audit service: [Merkle] (merkle.rs), [AuditStore] (postgres.rs,
    signing*.rs), [AuditHandler] (audit.rs), [AuditCron] (the daily job of
    main.rs), [AuditConcurrency] (concurrent runs of the job), [AuditGrpc]
    (ports/grpc.rs).
    Session reconstructor: [Session] (session.rs and the pure part of
    reconstruct.rs), [SessionService] (the rest, with cache and gRPC),
    [SessionConcurrency] (requests, invalidations and new events interleaved).
    Reconciliation engine: [Recon] (domain and handler.rs, against the port
    class [ReconPorts]), [Matching] (the matching loops against a declarative
    pairing), [ReconStore] (postgres_recon_store.rs and the two sources, an
    instance of the ports), [ReconConcurrency] (runs and resolutions
    interleaved), [ReconGrpc] (ports/grpc.rs).
    Messaging engine: [Messaging] (domain and handler.rs, against [MsgPorts] and
    records of provider operations), [MessagingStore] (stores, adapters, rate
    limiter, the instance of the ports), [MessagingGrpc] (ports/grpc.rs).
    Ledger query service: [Ledger] (domain and handler.rs, against the port
    class [ReadModelPort]), [LedgerStore] (postgres_read_model.rs, its
    instance), [LedgerProto] (messages and conversions of ports/grpc.rs),
    [LedgerGrpc] (its methods), [LedgerSpec] (requests and answers of all
    methods as data, and the theorems).
    Start-up: [SocketAddr] (parsing of ports and addresses), [Host] (files, TLS
    loading, the Vault exchange, the signing key), [Startup] (the six
    [main.rs]), [Methods] (health, methods that are not implemented, the
    interceptor), [Telemetry] (metrics and their page, the trace header, the
    layer of the common crate).

    ** How the code is modelled

    Pure functions are functions; an [async fn] of a handler is a function in
    the monad [M W E A] over a world [W] that holds the tables and caches it
    uses.  What a service gets from outside is the environment of its section
    (a class): which statement fails, the clock, fresh identifiers, row-level
    security, the provider's answers; each step consumes a tick, so that two
    readings of the clock may differ.  A SQL statement is the operation on the
    list of rows it performs ([ON CONFLICT] as an update in place, [ORDER BY] as
    a sort, [LIMIT]/[OFFSET] as take and drop).  Integers are [Z] with the wrap
    of [as] casts written out; decimals are the interface [DecimalOps], whose
    arithmetic panics on overflow.  Hash functions, signatures, HTTP and caches
    are interfaces with laws, never axioms.

    Loops are structural recursion, except the Merkle builder and the proof
    loops, which run on fuel equal to the number of nodes (every round halves a
    level): the theorems about them state that they return their result for
    every input, not only when they return.  The retry loop is bounded by its
    three attempts.  The endless loop of the daily job is its first [n] rounds,
    for every [n]; the timer that wakes it is the class [Timer], with the law
    that it resumes the task within an hour of each deadline.  The groups of an
    IPv6 address are read by recursion on how many may follow.

    Concurrent requests are threads: a handler cut at each [await], one step per
    statement, provider call or reading of the clock.  A configuration is a list
    of threads and the world they share; one step of any of them is one step of
    the system ([interleave]), so a theorem on its closure holds for every
    schedule, also across replicas, which share the tables.  A thread is a
    finite tree, so every schedule ends ([interleave_terminates]).  Theorems on
    all schedules go by an invariant of the tables, a guarantee kept by each
    step, and what a thread still knows after the steps of the others
    ([assures]), or by the identifiers a thread has drawn and alone writes
    ([owned]).

    A starting process is a function on the files of its machine and the list
    of what it did (pool opened, job spawned, server started); the operating
    system, the network and the random generator are the class [Host].

    ** What the theorems show

    - Merkle: proofs made by the code verify; a proof that verifies is the
      genuine one, unless among the inputs hashed by the two verifications
      there are two different ones with the same digest; and the flat index
      arithmetic builds the same tree as the level-by-level definition (also
      that of the session service).  (That SHA-256 has collisions at all is a
      matter of counting, so no theorem concludes that: collisions are of the
      texts at hand, [collision_on].)
    - Payments: the methods implement exactly the transition table and keep the
      invariant; an idempotency key stops every later initiation before it has
      any effect, whatever was served in between and whatever fails; the exact
      tables, calls, events and answers of initiation and callbacks; the HMAC
      of the payload under the secret is accepted as a signature and nothing
      else is; what a client reads back over gRPC.
    - Sessions: when the fold succeeds; the chain check accepts exactly the
      linked, consecutive, correctly hashed lists; two accepted histories with
      the same final hash, of any lengths, have the same hashed texts from
      their ends backwards or two of these texts collide (the first events can
      be cut off); proofs verify by the audit verifier.
    - Audit: the proof of an event leads to the root of its day, which is that
      of the stored batch exactly as long as no late event changed it; what the
      integrity check answers; the checksum answered for a period is accepted
      by the check of its sequence numbers, whatever else is stored.
    - Reconciliation: matching is a maximal one-to-one pairing and the items
      are what it implies; agreeing statements give no items; no overflow
      within stated bounds; what runs and resolutions read back as, with
      amount columns that decode as text and with the numeric ones of the
      migrations, where the code falls back to 0.
    - Messaging: rendering, and where it depends on the order of the variables;
      the life of an SMS, by the adapter of its prefix; the account of a batch;
      exact, tenant-confined listings; the rate limiter's count.
    - Ledger queries: exactly the malformed requests are refused, before
      anything is read; the read model never sees a page size outside 1 to
      1000; what each method answers over the PostgreSQL read model; amounts
      reach the client to the cent.
    - Concurrent requests: a request alone is the sequential handler; under
      every interleaving, whatever fails, the payments table keeps its
      invariant and its rows, and a stored key refuses later initiations; a key
      not stored yet can be charged twice, and a callback can be overwritten by
      the initiation it overtakes.  Concurrent daily jobs leave one row per
      date with the root of its day and only signatures that verify, unless an
      event of the day arrives between them.  Concurrent reconstructions answer
      and cache only what the event store held at some moment, though an
      invalidation can be lost.  Concurrent reconciliations are isolated: a run
      that returned is stored as it was computed.
    - Daily job: every day from a week before the start on eventually has a
      stored batch; its signature verifies where the table may be updated, and
      is never stored where the table is write-once, as the migrations make it;
      the backfill leaves its rows unlinked.
    - Metrics: the page never shows what the engines record.
    - Start-up: a server is started only after the database of the
      configuration, is local by default and uses the configured TLS files; a
      configured service, with credentials from the environment or from Vault,
      does reach its serving state at its address and port (the session
      reconstructor always at port 50051); the signing key survives a restart; without a secret key callbacks can be
      forged.

    Some theorems state behaviour the code surely does not intend (a refused
    callback still announced, an intact chain reported broken, a match count
    that is always zero, a partially resolved run read back as completed,
    batches that are never signed), and some state what the code does where the
    guides under [docs/] or the integration tests ask for something else (the
    status machine, the answer to a used key, retried payments, the text hashed
    for an event); both are recorded as findings beside the library.

    ** Not modelled

    Left out: what is logged besides metric lines, the internals of Prometheus,
    the generated protocol code, constructors that only store their arguments,
    unit tests, the HSM backend of a build with the feature [hsm] (it does not
    compile), and the Go, Python and SQL parts.  SQL statements are modelled one
    by one, each atomic; what the schema adds to them is a parameter: the
    row-level policies, whether batches are write-once, whether amount columns
    decode as text, and which statements fail.  The rate limiter is called by no method, so there is nothing
    to compose it with.  What remains of the Rust code is repetition: the
    health method, the time and identifier conversions and the shutdown handler
    are written out in several services and modelled once. *)

From stdpp Require Import base list strings gmap numbers sorting.
From Stdlib Require Import ZArith Lia.

(** ** Rust results and panics

    A fallible Rust function returns [Result<A, E>]; any function may also
    panic.  [Result E A] has the three outcomes; the error type comes first so
    that [Result E] is a functor. *)

Inductive Result (E A : Type) : Type :=
  | Ok (a : A)
  | Err (e : E)
  | Panic.
Arguments Ok {E A} a.
Arguments Err {E A} e.
Arguments Panic {E A}.

#[export] Instance Result_ret {E} : MRet (Result E) := fun A a => Ok a.
#[export] Instance Result_bind {E} : MBind (Result E) := fun A B f r =>
  match r with Ok a => f a | Err e => Err e | Panic => Panic end.
#[export] Instance Result_fmap {E} : FMap (Result E) := fun A B f r =>
  match r with Ok a => Ok (f a) | Err e => Err e | Panic => Panic end.

Definition ok_or {E A} (o : option A) (e : E) : Result E A :=
  match o with Some a => Ok a | None => Err e end.

Definition unwrap_or {A} (o : option A) (d : A) : A :=
  match o with Some a => a | None => d end.

Definition map_err {E E' A} (f : E -> E') (r : Result E A) : Result E' A :=
  match r with Ok a => Ok a | Err e => Err (f e) | Panic => Panic end.

(** [collect] of results: the first error stops it. *)
Fixpoint collect {E A} (l : list (Result E A)) : Result E (list A) :=
  match l with
  | [] => mret []
  | r :: l' => a ← r; rest ← collect l'; mret (a :: rest)
  end.

(** ** The state-and-error monad of the async handlers

    [M W E A] runs against a world [W] (database tables, caches, the tick of
    the clock, the log of provider calls) and ends in a [Result].  The world
    is kept on errors: a statement executed before a failing one stays
    executed, as the handlers run no transaction. *)

Definition M (W E A : Type) : Type := W -> Result E A * W.

#[export] Instance M_ret {W E} : MRet (M W E) := fun A a w => (Ok a, w).
#[export] Instance M_bind {W E} : MBind (M W E) := fun A B f m w =>
  match m w with
  | (Ok a, w') => f a w'
  | (Err e, w') => (Err e, w')
  | (Panic, w') => (Panic, w')
  end.

Section monad.
Context {W E : Type}.

Definition throw {A} (e : E) : M W E A := fun w => (Err e, w).
Definition gets {A} (f : W -> A) : M W E A := fun w => (Ok (f w), w).
Definition modify (f : W -> W) : M W E unit := fun w => (Ok tt, f w).
Definition lift {A} (r : Result E A) : M W E A := fun w => (r, w).

(** The result of [m] as a value: Rust code that matches on the [Result] of
    a call instead of propagating it with [?]. Panics are not caught. *)
Definition attempt {E' A} (m : M W E' A) : M W E (Result E' A) := fun w =>
  match m w with
  | (Panic, w') => (Panic, w')
  | (r, w') => (Ok r, w')
  end.

Definition with_err {E' A} (f : E' -> E) (m : M W E' A) : M W E A := fun w =>
  let (r, w') := m w in (map_err f r, w').

Fixpoint forM {A} (l : list A) (f : A -> M W E unit) : M W E unit :=
  match l with
  | [] => mret tt
  | x :: xs => f x ;; forM xs f
  end.
End monad.

(** ** Machine integers: [as] casts wrap *)

Definition wrap (bits z : Z) : Z := ((z + 2 ^ (bits - 1)) mod 2 ^ bits - 2 ^ (bits - 1))%Z.
Definition as_i32 (z : Z) : Z := wrap 32 z.
Definition as_i64 (z : Z) : Z := wrap 64 z.
Definition in_i32 (z : Z) : Prop := (- 2 ^ 31 <= z < 2 ^ 31)%Z.
Definition in_i64 (z : Z) : Prop := (- 2 ^ 63 <= z < 2 ^ 63)%Z.

Lemma wrap_id bits z : (0 < bits)%Z -> (- 2 ^ (bits - 1) <= z < 2 ^ (bits - 1))%Z -> wrap bits z = z.
Proof.
  intros Hb Hz. unfold wrap.
  assert (2 ^ bits = 2 * 2 ^ (bits - 1))%Z as E.
  { rewrite <- Z.pow_succ_r by lia. f_equal. lia. }
  rewrite Z.mod_small by lia. lia.
Qed.

Lemma as_i32_id z : in_i32 z -> as_i32 z = z.
Proof. intros H. apply wrap_id; [lia | exact H]. Qed.

Lemma as_i64_id z : in_i64 z -> as_i64 z = z.
Proof. intros H. apply wrap_id; [lia | exact H]. Qed.

Lemma wrap_range bits z : (0 < bits)%Z -> (- 2 ^ (bits - 1) <= wrap bits z < 2 ^ (bits - 1))%Z.
Proof.
  intros Hb. unfold wrap.
  assert (2 ^ bits = 2 * 2 ^ (bits - 1))%Z as E.
  { rewrite <- Z.pow_succ_r by lia. f_equal. lia. }
  pose proof (Z.mod_pos_bound (z + 2 ^ (bits - 1)) (2 ^ bits) ltac:(lia)). lia.
Qed.

(** ** Lists *)

Lemma list_ind2 {A} (P : list A -> Prop) :
  P [] -> (forall a, P [a]) -> (forall a b r, P r -> P (a :: b :: r)) -> forall l, P l.
Proof.
  intros P0 P1 P2. fix IH 1. intros [|a [|b r]]; [done | done |]. apply P2, IH.
Qed.

Lemma half_SS n : (S (S n) + 1) / 2 = S ((n + 1) / 2).
Proof.
  replace (S (S n) + 1) with ((n + 1) + 1 * 2) by lia. rewrite Nat.div_add by lia. lia.
Qed.

Lemma half_lt n : 1 < n -> (n + 1) / 2 < n.
Proof.
  intros. pose proof (Nat.div_mod_eq (n + 1) 2).
  pose proof (Nat.mod_upper_bound (n + 1) 2). lia.
Qed.

Lemma half_pos n : 0 < n -> 0 < (n + 1) / 2.
Proof.
  intros. pose proof (Nat.div_mod_eq (n + 1) 2).
  pose proof (Nat.mod_upper_bound (n + 1) 2). lia.
Qed.

(** ** Running the monad *)

Section run.
Context {W E : Type}.

Lemma bind_ok {A B} (m : M W E A) (f : A -> M W E B) w a w' :
  m w = (Ok a, w') -> (m ≫= f) w = f a w'.
Proof. intros Hm. unfold mbind, M_bind. by rewrite Hm. Qed.

Lemma bind_err {A B} (m : M W E A) (f : A -> M W E B) w e w' :
  m w = (Err e, w') -> (m ≫= f) w = (Err e, w').
Proof. intros Hm. unfold mbind, M_bind. by rewrite Hm. Qed.

Lemma attempt_ok {E' A} (m : M W E' A) w r w' :
  m w = (r, w') -> r <> Panic -> attempt (E := E) m w = (Ok r, w').
Proof. intros Hm Hr. unfold attempt. rewrite Hm. by destruct r. Qed.
End run.

(** [run_step H]: run the first action of a sequence with the equation [H]. *)
Tactic Notation "run_step" uconstr(H) := erewrite bind_ok; [|eapply H].
Tactic Notation "run_step" uconstr(H) "by" tactic(t) := erewrite bind_ok; [|eapply H; t].

Lemma StronglySorted_take {A} (R : A -> A -> Prop) n l :
  StronglySorted R l -> StronglySorted R (take n l).
Proof.
  intros Hs. revert n. induction Hs as [|x l Hs IH Hf]; intros [|n]; simpl; constructor; auto.
  by apply Forall_take.
Qed.

Lemma StronglySorted_filter {A} (R : A -> A -> Prop) (f : A -> bool) l :
  StronglySorted R l -> StronglySorted R (List.filter f l).
Proof.
  induction 1 as [|x l Hs IH Hf]; simpl; [constructor|]. destruct (f x); [|done].
  constructor; [done|]. rewrite Forall_forall in *. intros y Hy.
  apply Hf. apply list_elem_of_In in Hy. apply list_elem_of_In. by apply List.filter_In in Hy as [].
Qed.

Lemma NoDup_map_filter {A B} (g : A -> B) (f : A -> bool) l :
  NoDup (map g l) -> NoDup (map g (List.filter f l)).
Proof.
  intros Hn. induction l as [|e l IH]; [constructor|].
  cbn [map] in Hn. apply NoDup_cons in Hn as [He Hn]. cbn [List.filter].
  destruct (f e); [|by apply IH]. cbn [map]. apply NoDup_cons. split; [|by apply IH].
  intros Hin. apply He. rewrite list_elem_of_In in Hin |- *.
  apply in_map_iff in Hin as (x & <- & Hx). apply in_map. by apply List.filter_In in Hx as [].
Qed.

Lemma filter_andb {A} (f g : A -> bool) l :
  List.filter f (List.filter g l) = List.filter (fun x => g x && f x) l.
Proof.
  induction l as [|x l IH]; simpl; [done|]. destruct (g x); simpl; [|done]. destruct (f x); by rewrite IH.
Qed.

Lemma filter_Permutation {A} (f : A -> bool) l1 l2 :
  l1 ≡ₚ l2 -> List.filter f l1 ≡ₚ List.filter f l2.
Proof.
  induction 1 as [|x l1 l2 _ IH|x y l1|l1 l2 l3 _ IH1 _ IH2]; simpl; [done | | | by etrans].
  - destruct (f x); [by constructor | done].
  - destruct (f x), (f y); first [done | apply perm_swap].
Qed.

Lemma filter_ext_elem {A} (f g : A -> bool) l : (forall x, x ∈ l -> f x = g x) ->
  List.filter f l = List.filter g l.
Proof. intros Hfg. apply List.filter_ext_in. intros x Hx. by apply Hfg, list_elem_of_In. Qed.

Lemma find_app_r {A} (f : A -> bool) l1 l2 :
  List.find f l1 = None -> List.find f (l1 ++ l2) = List.find f l2.
Proof. induction l1 as [|x l1 IH]; simpl; [done|]. by destruct (f x). Qed.

Lemma filter_all {A} (f : A -> bool) l : (forall x, x ∈ l -> f x = true) -> List.filter f l = l.
Proof.
  induction l as [|x l IH]; intros Hf; [done|]. simpl.
  rewrite (Hf x) by (by left). f_equal. apply IH. intros y Hy. apply Hf. by right.
Qed.
