(* ===== verification/RustStr.v ===== *)
(** * Rust strings

    A Rust [String]/[&str] is modelled by the [string] of its UTF-8 bytes.
    This file has the [str] operations the engines call, written on bytes:
    prefix tests and splitting by ASCII patterns work on bytes directly, the
    operations that count or classify characters decode the code points. *)

From stdpp Require Import base list strings numbers.
From Stdlib Require Import ZArith Lia Ascii.
From S2P Require Import Prelude.

Local Open Scope N_scope.

Definition byte_at (c : ascii) : N := N_of_ascii c.

(** A UTF-8 continuation byte is [10xxxxxx]. *)
Definition is_cont (c : ascii) : bool := N.land (byte_at c) 192 =? 128.

Fixpoint bytes (s : string) : list N :=
  match s with
  | EmptyString => []
  | String c s' => byte_at c :: bytes s'
  end.

(** [str::chars]: the code points of a well-formed UTF-8 string.  A lone or
    truncated sequence cannot occur in a Rust [String]; it decodes to
    U+FFFD here. *)
Definition tail6 (b : N) : N := N.land b 63.

Fixpoint chars_bytes (l : list N) : list N :=
  match l with
  | [] => []
  | b :: l1 =>
      if b <? 128 then b :: chars_bytes l1
      else match l1 with
      | b1 :: l2 =>
          if b <? 224 then (N.land b 31 * 64 + tail6 b1) :: chars_bytes l2
          else match l2 with
          | b2 :: l3 =>
              if b <? 240
              then (N.land b 15 * 4096 + tail6 b1 * 64 + tail6 b2) :: chars_bytes l3
              else match l3 with
              | b3 :: l4 =>
                  (N.land b 7 * 262144 + tail6 b1 * 4096 + tail6 b2 * 64 + tail6 b3)
                    :: chars_bytes l4
              | [] => [65533]
              end
          | [] => [65533]
          end
      | [] => [65533]
      end
  end.

Definition chars (s : string) : list N := chars_bytes (bytes s).

(** [char::is_whitespace]: the Unicode [White_Space] property. *)
Definition is_whitespace (c : N) : bool :=
  ((9 <=? c) && (c <=? 13)) || (c =? 32) || (c =? 133) || (c =? 160) || (c =? 5760)
  || ((8192 <=? c) && (c <=? 8202)) || (c =? 8232) || (c =? 8233) || (c =? 8239)
  || (c =? 8287) || (c =? 12288).

(** [s.trim().is_empty()]: trimming leaves nothing exactly when every
    character is white space. *)
Definition trim_is_empty (s : string) : bool := forallb is_whitespace (chars s).

(** [s.is_empty()] *)
Definition is_empty (s : string) : bool :=
  match s with EmptyString => true | _ => false end.

(** [s.starts_with(p)] *)
Fixpoint starts_with (p s : string) : bool :=
  match p, s with
  | EmptyString, _ => true
  | String a p', String b s' => Ascii.eqb a b && starts_with p' s'
  | String _ _, EmptyString => false
  end.

(** [s.trim_start_matches(c)] for an ASCII character [c] *)
Fixpoint trim_start_matches (c : ascii) (s : string) : string :=
  match s with
  | String b s' => if Ascii.eqb b c then trim_start_matches c s' else s
  | EmptyString => EmptyString
  end.

(** [s.split(c).next()]: the part before the first [c]; it always exists. *)
Fixpoint split_next (c : ascii) (s : string) : string :=
  match s with
  | String b s' => if Ascii.eqb b c then EmptyString else String b (split_next c s')
  | EmptyString => EmptyString
  end.

(** [s.chars().take(n).collect()]: the first [n] characters; a byte that is
    not a continuation byte starts a character. *)
Fixpoint take_chars (n : nat) (s : string) : string :=
  match s with
  | EmptyString => EmptyString
  | String c s' =>
      if is_cont c then String c (take_chars n s')
      else match n with
           | O => EmptyString
           | S n' => String c (take_chars n' s')
           end
  end.

Definition char_count (s : string) : nat :=
  length (List.filter (fun b => negb (N.land b 192 =? 128)) (bytes s)).

(** [s.to_lowercase()], as far as it can be observed by comparing the result
    with an ASCII string: ASCII letters are lowered, U+212A (KELVIN SIGN, the
    only other character that lowers to a single ASCII one) becomes [k], other
    characters are left as they are (they never become ASCII). *)
Definition lower_ascii (c : ascii) : ascii :=
  if (65 <=? byte_at c) && (byte_at c <=? 90) then ascii_of_N (byte_at c + 32) else c.

Fixpoint to_lowercase (s : string) : string :=
  match s with
  | EmptyString => EmptyString
  | String c1 s1 =>
      match s1 with
      | String c2 (String c3 s3) =>
          if (byte_at c1 =? 226) && (byte_at c2 =? 132) && (byte_at c3 =? 170)
          then String "k" (to_lowercase s3)
          else String (lower_ascii c1) (to_lowercase s1)
      | _ => String (lower_ascii c1) (to_lowercase s1)
      end
  end.

(** [s.replace(p, r)] for a non-empty pattern: left to right, without
    overlaps.  [skip] counts the bytes of a match still to be dropped. *)
Fixpoint replace_from (p r : string) (skip : nat) (s : string) : string :=
  match s with
  | EmptyString => EmptyString
  | String c s' =>
      match skip with
      | S k => replace_from p r k s'
      | O => if starts_with p s
             then r +:+ replace_from p r (String.length p - 1) s'
             else String c (replace_from p r O s')
      end
  end.

Definition replace (p r s : string) : string := replace_from p r O s.

(** ** Lemmas *)

Lemma starts_with_app p s : starts_with p s = true <-> exists t, s = p +:+ t.
Proof.
  revert s; induction p as [|a p IH]; intros s; simpl.
  - split; [intros _; by exists s | done].
  - destruct s as [|b s]; [split; [done | intros [t Ht]; done]|].
    rewrite andb_true_iff, Ascii.eqb_eq, IH. split.
    + intros [-> [t ->]]. by exists t.
    + intros [t Ht]. injection Ht as -> ->. split; [done | by exists t].
Qed.

Lemma take_chars_prefix n s : starts_with (take_chars n s) s = true.
Proof.
  revert n; induction s as [|c s IH]; intros n; simpl; [done|].
  destruct (is_cont c); [simpl; by rewrite Ascii.eqb_refl, IH|].
  destruct n; simpl; [done | by rewrite Ascii.eqb_refl, IH].
Qed.

Lemma char_count_take n s : (char_count (take_chars n s) <= n)%nat.
Proof.
  revert n; induction s as [|c s IH]; intros n; cbn; [unfold char_count; simpl; lia|].
  destruct (is_cont c) eqn:Hc.
  - unfold char_count, is_cont in *. simpl. rewrite Hc. apply IH.
  - destruct n; [unfold char_count; simpl; lia|].
    unfold char_count, is_cont in *. simpl. rewrite Hc. simpl.
    specialize (IH n). lia.
Qed.

Lemma take_chars_short n s : (char_count s <= n)%nat -> take_chars n s = s.
Proof.
  revert n; induction s as [|c s IH]; intros n Hn; [done|].
  unfold char_count, is_cont in *; simpl in *. unfold is_cont.
  destruct (N.land (byte_at c) 192 =? 128) eqn:Hc; simpl in *; [by rewrite IH|].
  destruct n; [lia|]. rewrite IH; [done | lia].
Qed.

Lemma split_next_app c a b :
  split_next c a = a -> split_next c (a +:+ String c b) = a.
Proof.
  induction a as [|x a IH]; simpl.
  - by rewrite Ascii.eqb_refl.
  - destruct (Ascii.eqb x c) eqn:E; [done|].
    intros [= Ha]. by rewrite IH.
Qed.

Lemma is_empty_spec s : is_empty s = true <-> s = EmptyString.
Proof. by destruct s. Qed.

(** [str::parse::<i32>()]: an optional sign and decimal digits, in range. *)
Definition digit_of (c : ascii) : option Z :=
  let n := byte_at c in
  if ((48 <=? n) && (n <=? 57))%N then Some (Z.of_N n - 48)%Z else None.

Fixpoint parse_digits (acc : Z) (s : string) : option Z :=
  match s with
  | EmptyString => Some acc
  | String c s' =>
      match digit_of c with
      | Some d => parse_digits (acc * 10 + d)%Z s'
      | None => None
      end
  end.

Definition parse_int (s : string) : option Z :=
  match s with
  | EmptyString => None
  | String c s' =>
      if Ascii.eqb c "-" then
        (if is_empty s' then None else Z.opp <$> parse_digits 0 s')
      else if Ascii.eqb c "+" then
        (if is_empty s' then None else parse_digits 0 s')
      else parse_digits 0 s
  end.

Definition parse_i32 (s : string) : option Z :=
  match parse_int s with
  | Some z => if ((- 2 ^ 31 <=? z) && (z <? 2 ^ 31))%Z then Some z else None
  | None => None
  end.

(** ** Concatenation *)

Lemma append_cons x (s t : string) : String x s +:+ t = String x (s +:+ t).
Proof. done. Qed.
Lemma append_nil (t : string) : "" +:+ t = t.
Proof. done. Qed.
Ltac app_simpl := rewrite ?append_cons, ?append_nil in *.

Lemma append_assoc (a b c : string) : (a +:+ b) +:+ c = a +:+ (b +:+ c).
Proof. induction a as [|x a IH]; [done|]. app_simpl. by rewrite IH. Qed.

Lemma append_nil_r (a : string) : a +:+ "" = a.
Proof. induction a as [|x a IH]; [done|]. app_simpl. by rewrite IH. Qed.

Lemma string_length_app (a b : string) :
  String.length (a +:+ b) = (String.length a + String.length b)%nat.
Proof. induction a as [|x a IH]; [done|]. app_simpl. simpl. by rewrite IH. Qed.
