(* ===== verification/External.v ===== *)
(** * Interfaces of the third-party crates

    The engines call crates whose code is not part of the repository: [sha2],
    [hmac], [hex], [uuid], [rust_decimal], [regex], [serde_json], [chrono].
    Each is an interface here: a class of operations, and, where a theorem
    relies on documented behaviour of the crate, a class of laws.  The models
    of the engines are parameterised by the operations and their theorems by
    the laws they use.  The file [Reference] has one executable instance of
    each, so that the laws are satisfiable and the models run. *)

From stdpp Require Import base list strings numbers.
From Stdlib Require Import ZArith Lia Ascii Strings.Byte.
From S2P Require Import Prelude RustStr.

(** ** Bytes *)

Abbreviation bytestring := (list Byte.byte).

#[export] Instance byte_eq_dec : EqDecision Byte.byte := Byte.byte_eq_dec.

(** [s.as_bytes()] *)
Definition as_bytes (s : string) : bytestring := String.list_byte_of_string s.

(** ** sha2, hmac *)

Class HashOps := {
  (** [Sha256::new(); update(data); finalize().to_vec()] *)
  sha256_digest : bytestring -> bytestring;
  (** [Hmac::<Sha256>::new_from_slice(key)], [update(msg)], [finalize()] *)
  hmac_sha256 : bytestring -> bytestring -> bytestring;
}.

Class HashLaws `{HashOps} : Prop := {
  sha256_len : forall x, length (sha256_digest x) = 32;
  hmac_len : forall k x, length (hmac_sha256 k x) = 32;
}.

(** Two lists of inputs, compared position by position, contain a collision: at
    some position the inputs differ and their digests are the same.  It speaks
    of the inputs that were hashed, so it is decidable and says more than that
    SHA-256, whose digests have 32 bytes, has collisions at all. *)
Definition collides `{HashOps} (ab : bytestring * bytestring) : Prop :=
  fst ab <> snd ab /\ sha256_digest (fst ab) = sha256_digest (snd ab).

Definition collision_on `{HashOps} (xs ys : list bytestring) : Prop := Exists collides (zip xs ys).

#[export] Instance collides_dec `{HashOps} ab : Decision (collides ab).
Proof. unfold collides. apply _. Defined.

#[export] Instance collision_on_dec `{HashOps} xs ys : Decision (collision_on xs ys).
Proof. unfold collision_on. apply _. Defined.

Lemma collision_on_at `{HashOps} xs ys k x y :
  xs !! k = Some x -> ys !! k = Some y -> x <> y -> sha256_digest x = sha256_digest y ->
  collision_on xs ys.
Proof.
  intros Hx Hy Hne Hh. apply list.Exists_exists. exists (x, y). split; [|done].
  apply list_elem_of_lookup. exists k. by apply lookup_zip_with_Some; eexists _, _.
Qed.

Lemma as_bytes_inj s t : as_bytes s = as_bytes t -> s = t.
Proof.
  intros E. unfold as_bytes in E.
  by rewrite <- (String.string_of_list_byte_of_string s), E,
    String.string_of_list_byte_of_string.
Qed.

(** ** constant_time_eq *)

Class CtEqOps := {
  constant_time_eq : bytestring -> bytestring -> bool;
}.

Class CtEqLaws `{CtEqOps} : Prop := {
  constant_time_eq_spec : forall a b, constant_time_eq a b = true <-> a = b;
}.

(** ** hex *)

Class HexOps := {
  hex_encode : bytestring -> string;
  hex_decode : string -> option bytestring;
}.

Class HexLaws `{HexOps} : Prop := {
  hex_decode_encode : forall b, hex_decode (hex_encode b) = Some b;
  hex_encode_lower : forall b, to_lowercase (hex_encode b) = hex_encode b;
  hex_encode_len : forall b, String.length (hex_encode b) = 2 * length b;
}.

Lemma hex_encode_inj `{HexOps} `{!HexLaws} a b : hex_encode a = hex_encode b -> a = b.
Proof.
  intros E. pose proof (hex_decode_encode a) as Ha. rewrite E, hex_decode_encode in Ha. by injection Ha.
Qed.

(** ** uuid *)

(** A [Uuid] is its 128-bit value. *)
Abbreviation Uuid := N.
Definition uuid_nil : Uuid := 0%N.

Class UuidOps := {
  uuid_to_string : Uuid -> string;
  (** [Uuid::parse_str(s).ok()] *)
  uuid_parse : string -> option Uuid;
}.

Class UuidLaws `{UuidOps} : Prop := {
  uuid_parse_to_string : forall u, uuid_parse (uuid_to_string u) = Some u;
}.

(** ** rust_decimal *)

Class DecimalOps := {
  Dec : Type;
  dec_zero : Dec;
  (** [Decimal::new(mantissa, scale)] *)
  dec_new : Z -> Z -> Dec;
  dec_leb : Dec -> Dec -> bool;
  dec_abs : Dec -> Dec;
  (** The arithmetic operators panic on overflow: [None]. *)
  dec_add : Dec -> Dec -> option Dec;
  dec_sub : Dec -> Dec -> option Dec;
  dec_mul : Dec -> Dec -> option Dec;
  dec_to_i64 : Dec -> option Z;
  dec_to_string : Dec -> string;
  (** [s.parse::<Decimal>()], with the text of the error *)
  dec_parse : string -> Result string Dec;
}.

(** [money d c]: the decimal [d] is exactly [c] hundredths.  The laws are the
    exactness of the operations on such amounts within 28 significant
    digits. *)
Class DecimalLaws `{DecimalOps} := {
  money : Dec -> Z -> Prop;
  money_zero : money dec_zero 0;
  money_new : forall c, in_i64 c -> money (dec_new c 2) c;
  money_leb : forall a b x y, money a x -> money b y -> dec_leb a b = (x <=? y)%Z;
  money_abs : forall a x, money a x -> money (dec_abs a) (Z.abs x);
  money_sub : forall a b x y, money a x -> money b y ->
    (Z.abs x < 10 ^ 26 -> Z.abs y < 10 ^ 26 ->
     exists d, dec_sub a b = Some d /\ money d (x - y))%Z;
  money_add : forall a b x y, money a x -> money b y ->
    (Z.abs x < 10 ^ 26 -> Z.abs y < 10 ^ 26 ->
     exists d, dec_add a b = Some d /\ money d (x + y))%Z;
  money_cents : forall a x, money a x -> in_i64 x ->
    exists d, dec_mul a (dec_new 100 0) = Some d /\ dec_to_i64 d = Some x;
  money_parse : forall a x, money a x -> dec_parse (dec_to_string a) = Ok a;
  money_parse_zero : exists d, dec_parse "0"%string = Ok d /\ money d 0;
}.

(** [d.round_dp(dp)] *)
Class DecimalRounding `{DecimalOps} := {
  dec_round_dp : Dec -> Z -> Dec;
}.

(** A whole number of hundredths times a hundred has no fractional digit, and
    [round_dp(0)] keeps its value. *)
Class RoundingLaws `{DecimalRounding} `{!DecimalLaws} : Prop := {
  round_cents : forall a x d, money a x -> in_i64 x -> dec_mul a (dec_new 100 0) = Some d ->
    dec_to_i64 (dec_round_dp d 0) = dec_to_i64 d;
}.

(** [a > b] *)
Definition dec_gtb `{DecimalOps} (a b : Dec) : bool := negb (dec_leb a b).

(** ** regex *)

Class RegexOps := {
  (** The class [\d] of the [regex] crate (Unicode mode). *)
  re_digit : N -> bool;
}.

Class RegexLaws `{RegexOps} : Prop := {
  re_digit_ascii : forall c, (c < 128)%N ->
    re_digit c = ((48 <=? c) && (c <=? 57))%N;
}.

(** ** serde_json *)

(** [serde_json::Value]; an object is the list of its entries, a number its
    literal text. *)
Inductive json : Type :=
  | JNull
  | JBool (b : bool)
  | JNumber (text : string)
  | JString (s : string)
  | JArray (l : list json)
  | JObject (fields : list (string * json)).

(** [v.get(key)] *)
Definition json_get (key : string) (v : json) : option json :=
  match v with
  | JObject fs =>
      match List.find (fun kv => String.eqb (fst kv) key) fs with
      | Some (_, x) => Some x
      | None => None
      end
  | _ => None
  end.

(** [v.as_str()] *)
Definition as_str (v : json) : option string :=
  match v with JString s => Some s | _ => None end.

(** [v.get(key).and_then(|v| v.as_str())] *)
Definition json_get_str (key : string) (v : json) : option string :=
  json_get key v ≫= as_str.

(** The floating-point numbers of the protocol: [f64] with its default [0.0],
    and [serde_json::Value::from(x)]. *)
Class F64Ops := {
  F64 : Type;
  f64_zero : F64;
  f64_to_json : F64 -> json;
}.

Class TextOps := {
  (** [serde_json::to_string(v).unwrap_or_default()] *)
  json_to_string : json -> string;
  (** [dt.to_rfc3339()] *)
  to_rfc3339 : Z -> string;
}.

(** ** chrono *)

(** A [DateTime<Utc>] is the number of nanoseconds since the Unix epoch. *)
Abbreviation DateTime := Z.
Definition nanos_per_sec : Z := 1000000000.
Definition nanos_per_day : Z := 86400 * nanos_per_sec.

(** [prost_types::Timestamp] *)
Record Timestamp := mkTimestamp { seconds : Z; nanos : Z }.

(** [dt.timestamp()] and [dt.timestamp_subsec_nanos()] *)
Definition timestamp (dt : DateTime) : Z := (dt / nanos_per_sec)%Z.
Definition timestamp_subsec_nanos (dt : DateTime) : Z := (dt mod nanos_per_sec)%Z.

(** [NaiveDate]: the number of days since the epoch; [dt.date_naive()] and
    [d.and_hms_opt(0,0,0).unwrap().and_utc()]. *)
Definition date_naive (dt : DateTime) : Z := (dt / nanos_per_day)%Z.
Definition midnight (d : Z) : DateTime := (d * nanos_per_day)%Z.

Class TimeOps := {
  (** [DateTime::from_timestamp(secs, nsecs)] *)
  from_timestamp : Z -> Z -> option DateTime;
}.

(** Exact for the instants between the years 1900 and 2200. *)
Class TimeLaws `{TimeOps} : Prop := {
  from_timestamp_exact : forall s n,
    (-2208988800 <= s < 7258118400)%Z -> (0 <= n < nanos_per_sec)%Z ->
    from_timestamp s n = Some (s * nanos_per_sec + n)%Z;
}.

(** [t.nanos as u32] *)
Definition as_u32 (z : Z) : Z := (z mod 2 ^ 32)%Z.
