(* ===== verification/Reference.v ===== *)
(** * Reference instances of the external interfaces

    One executable instance of every interface of [External], with its laws
    proved.  [Sha256.digest] follows FIPS 180-4 and [hex_encode] is lower-case
    hexadecimal; the decimal instance keeps hundredths only, and the UUID and
    decimal texts are plain decimal numbers.  The theorems about the engines
    never depend on these choices; the witnesses evaluate the models on
    them. *)

From stdpp Require Import base list strings numbers.
From Stdlib Require Import ZArith Lia Ascii Strings.Byte DecimalString DecimalZ DecimalN DecimalFacts.
From S2P Require Import Prelude RustStr External.

(** ** SHA-256 *)

Module Sha256.
Local Open Scope N_scope.

Definition w32 (x : N) : N := N.land x 4294967295.
Definition rotr (n x : N) : N := N.lor (N.shiftr x n) (w32 (N.shiftl x (32 - n))).

Definition K : list N :=
  [1116352408; 1899447441; 3049323471; 3921009573; 961987163; 1508970993;
     2453635748; 2870763221; 3624381080; 310598401; 607225278; 1426881987;
     1925078388; 2162078206; 2614888103; 3248222580; 3835390401; 4022224774;
     264347078; 604807628; 770255983; 1249150122; 1555081692; 1996064986;
     2554220882; 2821834349; 2952996808; 3210313671; 3336571891; 3584528711;
     113926993; 338241895; 666307205; 773529912; 1294757372; 1396182291;
     1695183700; 1986661051; 2177026350; 2456956037; 2730485921; 2820302411;
     3259730800; 3345764771; 3516065817; 3600352804; 4094571909; 275423344;
     430227734; 506948616; 659060556; 883997877; 958139571; 1322822218;
     1537002063; 1747873779; 1955562222; 2024104815; 2227730452; 2361852424;
     2428436474; 2756734187; 3204031479; 3329325298].

Definition H0 : list N :=
  [1779033703; 3144134277; 1013904242; 2773480762; 1359893119; 2600822924;
     528734635; 1541459225].

(** The message padded to a multiple of 64 bytes. *)
Definition pad (m : list N) : list N :=
  let len := N.of_nat (length m) in
  let zeros := (119 - len mod 64) mod 64 in
  m ++ 128 :: replicate (N.to_nat zeros) 0
    ++ map (fun i => N.land (N.shiftr (len * 8) (8 * i)) 255) [7; 6; 5; 4; 3; 2; 1; 0].

Fixpoint words (l : list N) : list N :=
  match l with
  | a :: b :: c :: d :: l' => (a * 16777216 + b * 65536 + c * 256 + d) :: words l'
  | _ => []
  end.

(** The message schedule, most recent word first. *)
Fixpoint extend (n : nat) (ws : list N) : list N :=
  match n with
  | O => ws
  | S n' =>
      let w i := nth i ws 0 in
      let s0 := N.lxor (N.lxor (rotr 7 (w 14%nat)) (rotr 18 (w 14%nat))) (N.shiftr (w 14%nat) 3) in
      let s1 := N.lxor (N.lxor (rotr 17 (w 1%nat)) (rotr 19 (w 1%nat))) (N.shiftr (w 1%nat) 10) in
      extend n' (w32 (w 15%nat + s0 + w 6%nat + s1) :: ws)
  end.

Definition round (st : list N) (kw : N * N) : list N :=
  match st with
  | [a; b; c; d; e; f; g; h] =>
      let s1 := N.lxor (N.lxor (rotr 6 e) (rotr 11 e)) (rotr 25 e) in
      let ch := N.lxor (N.land e f) (N.land (N.lxor e 4294967295) g) in
      let t1 := h + s1 + ch + fst kw + snd kw in
      let s0 := N.lxor (N.lxor (rotr 2 a) (rotr 13 a)) (rotr 22 a) in
      let maj := N.lxor (N.lxor (N.land a b) (N.land a c)) (N.land b c) in
      [w32 (t1 + s0 + maj); a; b; c; w32 (d + t1); e; f; g]
  | _ => st
  end.

Definition compress (h : list N) (block : list N) : list N :=
  let ws := rev (extend 48 (rev block)) in
  zip_with (fun a b => w32 (a + b)) h (foldl round h (zip K ws)).

Fixpoint blocks (n : nat) (h ws : list N) : list N :=
  match n with
  | O => h
  | S n' => blocks n' (compress h (take 16 ws)) (drop 16 ws)
  end.

Definition be_bytes (x : N) : list N :=
  map (fun i => N.land (N.shiftr x (8 * i)) 255) [3; 2; 1; 0].

Definition to_byte (x : N) : Byte.byte := unwrap_or (Byte.of_N x) Byte.x00.

(** The digest as 32 bytes: the eight words, big-endian. *)
Definition digest (m : bytestring) : bytestring :=
  let p := words (pad (map Byte.to_N m)) in
  let h := blocks (length p / 16) H0 p in
  map to_byte (take 32 (concat (map be_bytes h) ++ replicate 32 0)).

Lemma digest_len m : length (digest m) = 32%nat.
Proof. unfold digest. rewrite length_map, length_take, length_app, length_replicate. lia. Qed.

(** HMAC (RFC 2104) with the 64-byte block of SHA-256. *)
Definition hmac (key msg : bytestring) : bytestring :=
  let k := if (64 <? length key)%nat then digest key else key in
  let k := k ++ replicate (64 - length k) Byte.x00 in
  let x n := map (fun b => to_byte (N.lxor (Byte.to_N b) n)) k in
  digest (x 92 ++ digest (x 54 ++ msg)).

Lemma hmac_length k m : length (hmac k m) = 32%nat.
Proof. apply digest_len. Qed.

End Sha256.

#[export] Instance ref_hash : HashOps := {|
  sha256_digest := Sha256.digest;
  hmac_sha256 := Sha256.hmac;
|}.

#[export] Instance ref_hash_laws : HashLaws.
Proof. split; intros; [apply Sha256.digest_len | apply Sha256.hmac_length]. Qed.

(** ** Hexadecimal *)

Module Hex.

Definition digit (n : N) : ascii :=
  ascii_of_N (if (n <? 10)%N then 48 + n else 87 + n)%N.

Definition undigit (c : ascii) : option N :=
  let n := N_of_ascii c in
  if ((48 <=? n) && (n <=? 57))%N then Some (n - 48)%N
  else if ((97 <=? n) && (n <=? 102))%N then Some (n - 87)%N
  else if ((65 <=? n) && (n <=? 70))%N then Some (n - 55)%N
  else None.

Fixpoint encode (b : bytestring) : string :=
  match b with
  | [] => EmptyString
  | x :: b' =>
      String (digit (Byte.to_N x / 16)) (String (digit (Byte.to_N x mod 16)) (encode b'))
  end.

Fixpoint decode (s : string) : option bytestring :=
  match s with
  | EmptyString => Some []
  | String _ EmptyString => None
  | String a (String b s') =>
      hi ← undigit a; lo ← undigit b; x ← Byte.of_N (hi * 16 + lo)%N;
      rest ← decode s'; mret (x :: rest)
  end.

Lemma decode_digits x :
  (hi ← undigit (digit (Byte.to_N x / 16)); lo ← undigit (digit (Byte.to_N x mod 16));
   Byte.of_N (hi * 16 + lo)%N) = Some x.
Proof. destruct x; vm_compute; reflexivity. Qed.

Lemma decode_encode b : decode (encode b) = Some b.
Proof.
  induction b as [|x b IH]; [done|]. cbn [encode decode].
  pose proof (decode_digits x) as E.
  destruct (undigit (digit (Byte.to_N x / 16))) as [hi|]; [|done]. simpl in *.
  destruct (undigit (digit (Byte.to_N x mod 16))) as [lo|]; [|done]. simpl in *.
  rewrite E. simpl. by rewrite IH.
Qed.

Lemma digit_low x : lower_ascii (digit (Byte.to_N x / 16)) = digit (Byte.to_N x / 16)
  /\ lower_ascii (digit (Byte.to_N x mod 16)) = digit (Byte.to_N x mod 16)
  /\ (byte_at (digit (Byte.to_N x / 16)) =? 226)%N = false
  /\ (byte_at (digit (Byte.to_N x mod 16)) =? 226)%N = false.
Proof. destruct x; vm_compute; repeat split; reflexivity. Qed.

Lemma encode_lower b : to_lowercase (encode b) = encode b.
Proof.
  induction b as [|x b IH]; [done|]. cbn [encode].
  destruct (digit_low x) as (L1 & L2 & N1 & N2).
  destruct b as [|y b]; cbn [encode to_lowercase] in *; rewrite ?N1, ?N2; simpl;
    rewrite L1, L2; [done|]. by rewrite IH.
Qed.

Lemma encode_length b : String.length (encode b) = (2 * length b)%nat.
Proof. induction b as [|x b IH]; [done|]. cbn [encode String.length length]. rewrite IH. lia. Qed.

End Hex.

#[export] Instance ref_cteq : CtEqOps := {|
  constant_time_eq a b := bool_decide (a = b);
|}.

#[export] Instance ref_cteq_laws : CtEqLaws.
Proof. constructor. intros a b. apply bool_decide_eq_true. Qed.

#[export] Instance ref_hex : HexOps := {| hex_encode := Hex.encode; hex_decode := Hex.decode |}.

#[export] Instance ref_hex_laws : HexLaws.
Proof. split; [apply Hex.decode_encode | apply Hex.encode_lower | apply Hex.encode_length]. Qed.

(** ** Decimal texts of integers *)

Definition text_of_Z (z : Z) : string := NilZero.string_of_int (Z.to_int z).
Definition Z_of_text (s : string) : option Z := Z.of_int <$> NilZero.int_of_string s.

Lemma Z_of_text_of_Z z : Z_of_text (text_of_Z z) = Some z.
Proof.
  unfold Z_of_text, text_of_Z. rewrite NilZero.isi.
  - simpl. by rewrite DecimalZ.of_to.
  - destruct z; simpl; try done; intros [=E]; by apply DecimalPos.Unsigned.to_uint_nonnil in E.
  - destruct z; simpl; try done; intros [=E]; by apply DecimalPos.Unsigned.to_uint_nonnil in E.
Qed.

(** ** UUIDs *)

#[export] Instance ref_uuid : UuidOps := {|
  uuid_to_string u := text_of_Z (Z.of_N u);
  uuid_parse s := Z.to_N <$> Z_of_text s;
|}.

#[export] Instance ref_uuid_laws : UuidLaws.
Proof. split. intros u. simpl. rewrite Z_of_text_of_Z. simpl. by rewrite N2Z.id. Qed.

(** ** Decimals in hundredths *)

Definition dec_limit : Z := 2 ^ 96.
Definition dec_fit (z : Z) : option Z := if (Z.abs z <? dec_limit)%Z then Some z else None.

#[export] Instance ref_decimal : DecimalOps := {|
  Dec := Z;
  dec_zero := 0%Z;
  dec_new m s := (m * 100 / 10 ^ s)%Z;
  dec_leb := Z.leb;
  dec_abs := Z.abs;
  dec_add a b := dec_fit (a + b);
  dec_sub a b := dec_fit (a - b);
  dec_mul a b := dec_fit (a * b / 100);
  dec_to_i64 d := let q := (d / 100)%Z in
    if ((- 2 ^ 63 <=? q) && (q <? 2 ^ 63))%Z then Some q else None;
  dec_to_string := text_of_Z;
  dec_parse s := ok_or (Z_of_text s) "Invalid decimal: unknown character"%string;
|}.

Lemma dec_fit_ok z : (Z.abs z < dec_limit)%Z -> dec_fit z = Some z.
Proof. intros H. unfold dec_fit. by rewrite (proj2 (Z.ltb_lt _ _) H). Qed.

#[export] Instance ref_decimal_laws : DecimalLaws.
Proof.
  refine {| money := fun (d : @Dec ref_decimal) c => d = c |}; simpl; intros; subst; try done.
  - by rewrite Z.div_mul.
  - eexists. split; [apply dec_fit_ok; unfold dec_limit; lia | done].
  - eexists. split; [apply dec_fit_ok; unfold dec_limit; lia | done].
  - unfold in_i64 in *. exists (x * 100)%Z. split.
    + rewrite <- (dec_fit_ok (x * 100)) by (unfold dec_limit; lia). f_equal.
      change (100 * 100 / 10 ^ 0)%Z with (100 * 100)%Z. by rewrite Z.mul_assoc, Z.div_mul.
    + rewrite Z.div_mul by lia.
      destruct (Z.leb_spec (- 2 ^ 63) x); [|lia].
      by destruct (Z.ltb_spec x (2 ^ 63)); [|lia].
  - by rewrite Z_of_text_of_Z.
  - by exists 0%Z.
Defined.

(** Rounding to whole units, halves to even; more digits are kept as they
    are. *)
Definition round_half_even (z : Z) : Z :=
  let q := (z / 100)%Z in
  let r := (z mod 100)%Z in
  if (r <? 50)%Z then q else if (50 <? r)%Z then (q + 1)%Z
  else if Z.even q then q else (q + 1)%Z.

#[export] Instance ref_rounding : DecimalRounding := {|
  dec_round_dp d dp := (if (dp =? 0)%Z then round_half_even d * 100 else d)%Z;
|}.

#[export] Instance ref_rounding_laws : RoundingLaws.
Proof.
  constructor. intros a x d Hm Hx. simpl in *. subst a. unfold in_i64 in Hx.
  change (100 * 100 / 10 ^ 0)%Z with (100 * 100)%Z.
  rewrite Z.mul_assoc, Z.div_mul, dec_fit_ok by (unfold dec_limit; lia).
  intros E. simplify_eq. unfold round_half_even. by rewrite Z.mod_mul, !Z.div_mul.
Qed.

(** Floating-point numbers as whole numbers. *)
#[export] Instance ref_f64 : F64Ops := {|
  F64 := Z;
  f64_zero := 0%Z;
  f64_to_json x := JNumber (text_of_Z x);
|}.

(** ** Regex classes, JSON and date texts *)

(** [\\d] restricted to ASCII and the Arabic-Indic digits. *)
#[export] Instance ref_regex : RegexOps := {|
  re_digit c := (((48 <=? c) && (c <=? 57)) || ((1632 <=? c) && (c <=? 1641)))%N;
|}.

#[export] Instance ref_regex_laws : RegexLaws.
Proof.
  split. intros c Hc. simpl.
  destruct (N.leb_spec 1632 c); [lia|]. by rewrite orb_false_r.
Qed.

#[export] Instance ref_text : TextOps := {|
  json_to_string v := match v with JString s => s | _ => "{}"%string end;
  to_rfc3339 := text_of_Z;
|}.

(** The digest of the empty message and of [abc] (FIPS 180-4 test vectors). *)
Example sha256_empty : hex_encode (sha256_digest []) =
  "e3b0c44298fc1c149afbf4c8996fb92427ae41e4649b934ca495991b7852b855"%string.
Proof. vm_compute. reflexivity. Qed.

Example sha256_abc : hex_encode (sha256_digest (as_bytes "abc")) =
  "ba7816bf8f01cfea414140de5dae2223b00361a396177a9cb410ff61f20015ad"%string.
Proof. vm_compute. reflexivity. Qed.

#[export] Instance ref_time : TimeOps := {|
  from_timestamp s n :=
    if ((-8334601228800 <=? s) && (s <=? 8210266876799) && (0 <=? n) && (n <? nanos_per_sec))%Z
    then Some (s * nanos_per_sec + n)%Z else None;
|}.

#[export] Instance ref_time_laws : TimeLaws.
Proof.
  constructor. intros s n Hs Hn. simpl.
  rewrite !(proj2 (Z.leb_le _ _)), (proj2 (Z.ltb_lt _ _)) by lia. done.
Qed.
