(* ===== verification/Merkle.v ===== *)
(** * Merkle trees of the audit service

    [audit/src/domain/merkle.rs]: the flat level-order tree, membership proofs
    and their verification, translated with their index arithmetic ([None] is
    an out-of-range index, a panic in Rust, or exhausted fuel).  The module
    [Spec] has the level-by-level reference definitions; the refinement lemmas
    show that the code computes them and that the fuel [length leaves] is
    enough. *)

From Stdlib Require Import ZArith Lia.
From Equations Require Import Equations.
From stdpp Require Import base list strings numbers.
From S2P Require Import Prelude External Reference.

Section merkle.
Context `{HashOps}.

(** [sha256] *)
Definition sha256 (data : bytestring) : bytestring := sha256_digest data.

(** [(0..n).step_by(2)] *)
Definition step_by2 (n : nat) : list nat := map (fun k => 2 * k) (seq 0 ((n + 1) / 2)).

(** The body of the [for] loop: one parent of the level that starts at
    [level_start] and has [level_len] nodes. *)
Definition parent (tree : list bytestring) (level_start level_len i : nat) : option bytestring :=
  left ← tree !! (level_start + i);
  right ← (if i + 1 <? level_len then tree !! (level_start + i + 1) else Some left);
  mret (sha256 (left ++ right)).

(** [while level_len > 1] *)
Fixpoint build_loop (fuel : nat) (tree : list bytestring) (level_start level_len : nat)
    : option (list bytestring) :=
  if level_len <=? 1 then Some tree
  else match fuel with
  | O => None
  | S fuel' =>
      next_level ← mapM (parent tree level_start level_len) (step_by2 level_len);
      build_loop fuel' (tree ++ next_level) (level_start + level_len) (length next_level)
  end.

Definition build_merkle_tree (leaves : list bytestring)
    : option (bytestring * list bytestring) :=
  match leaves with
  | [] => let root := sha256 [] in Some (root, [root])
  | _ =>
      tree ← build_loop (length leaves) leaves 0 (length leaves);
      let root := unwrap_or (list.last tree) (sha256 []) in
      Some (root, tree)
  end.

Definition sibling_idx (idx level_len : nat) : nat :=
  if Nat.even idx then (if idx + 1 <? level_len then idx + 1 else idx) else idx - 1.

Fixpoint proof_loop (fuel : nat) (tree : list bytestring) (idx level_start level_len : nat)
    : option (list bytestring) :=
  if level_len <=? 1 then Some []
  else match fuel with
  | O => None
  | S fuel' =>
      h ← tree !! (level_start + sibling_idx idx level_len);
      rest ← proof_loop fuel' tree (idx / 2) (level_start + level_len) ((level_len + 1) / 2);
      mret (h :: rest)
  end.

Definition merkle_proof (tree : list bytestring) (leaf_count leaf_index : nat)
    : option (list bytestring) :=
  match tree with
  | [] => Some []
  | _ => if leaf_count =? 0 then Some []
         else proof_loop leaf_count tree leaf_index 0 leaf_count
  end.

(** The loop of [verify_merkle_proof]: the root recomputed from a leaf. *)
Fixpoint verify_loop (current : bytestring) (idx : nat) (proof_hashes : list bytestring)
    : bytestring :=
  match proof_hashes with
  | [] => current
  | sibling :: rest =>
      let combined := if Nat.even idx then current ++ sibling else sibling ++ current in
      verify_loop (sha256 combined) (idx / 2) rest
  end.

Definition verify_merkle_proof (leaf_hash : bytestring) (leaf_index : nat)
    (proof_hashes : list bytestring) (expected_root : bytestring) : bool :=
  bool_decide (verify_loop leaf_hash leaf_index proof_hashes = expected_root).

(** ** Reference definitions, level by level *)

Definition node (a b : bytestring) : bytestring := sha256 (a ++ b).

Fixpoint next_level (l : list bytestring) : list bytestring :=
  match l with
  | a :: b :: r => node a b :: next_level r
  | [a] => [node a a]
  | [] => []
  end.

Lemma next_level_length l : length (next_level l) = (length l + 1) / 2.
Proof.
  induction l as [|a|a b r IH] using list_ind2; [done..|].
  cbn [next_level length]. by rewrite half_SS, IH.
Qed.

Lemma next_level_lookup l k :
  next_level l !! k =
    (left ← l !! (2 * k); Some (node left (unwrap_or (l !! (2 * k + 1)) left))).
Proof.
  revert k; induction l as [|a|a b r IH] using list_ind2; intros k.
  - by rewrite !lookup_nil.
  - by destruct k as [|k].
  - destruct k as [|k]; [done|]. cbn [next_level].
    replace (2 * S k) with (S (S (2 * k))) by lia. simpl. apply IH.
Qed.

(** The levels of the tree from the leaves to the root, flattened; the root;
    the siblings on the path of a leaf. *)
Equations? flat (l : list bytestring) : list bytestring by wf (length l) lt :=
  flat [] := [];
  flat [a] := [a];
  flat (a :: b :: r) := (a :: b :: r) ++ flat (next_level (a :: b :: r)).
Proof. rewrite (next_level_length (a :: b :: r)). apply half_lt. simpl. lia. Qed.

Equations? root_of (l : list bytestring) : bytestring by wf (length l) lt :=
  root_of [] := sha256 [];
  root_of [a] := a;
  root_of (a :: b :: r) := root_of (next_level (a :: b :: r)).
Proof. rewrite (next_level_length (a :: b :: r)). apply half_lt. simpl. lia. Qed.

Definition sibling (l : list bytestring) (i : nat) : option bytestring :=
  l !! sibling_idx i (length l).

Equations? path_of (l : list bytestring) (i : nat) : list bytestring by wf (length l) lt :=
  path_of [] _ := [];
  path_of [a] _ := [];
  path_of (a :: b :: r) i :=
    unwrap_or (sibling (a :: b :: r) i) [] :: path_of (next_level (a :: b :: r)) (i / 2).
Proof. rewrite (next_level_length (a :: b :: r)). apply half_lt. simpl. lia. Qed.

(** Induction on the levels. *)
Lemma levels_ind (P : list bytestring -> Prop) :
  P [] -> (forall a, P [a]) ->
  (forall l, 1 < length l -> P (next_level l) -> P l) -> forall l, P l.
Proof.
  intros P0 P1 P2 l. remember (length l) as n eqn:Hn.
  revert l Hn. induction (lt_wf n) as [n _ IH]. intros l ->.
  destruct l as [|a [|b r]]; [done | done |].
  apply P2; [simpl; lia|]. eapply IH; [|done].
  rewrite next_level_length. apply half_lt. simpl. lia.
Qed.

Lemma flat_step l : 1 < length l -> flat l = l ++ flat (next_level l).
Proof. destruct l as [|a [|b r]]; intros Hl; [simpl in Hl; lia..|]. by rewrite flat_equation_3. Qed.

Lemma root_of_step l : 1 < length l -> root_of l = root_of (next_level l).
Proof. destruct l as [|a [|b r]]; intros Hl; [simpl in Hl; lia..|]. by rewrite root_of_equation_3. Qed.

Lemma path_of_step l i : 1 < length l ->
  path_of l i = unwrap_or (sibling l i) [] :: path_of (next_level l) (i / 2).
Proof. destruct l as [|a [|b r]]; intros Hl; [simpl in Hl; lia..|]. by rewrite path_of_equation_3. Qed.

(** ** Refinement: the loops compute the reference definitions *)

Lemma parent_spec pre l k :
  2 * k < length l -> parent (pre ++ l) (length pre) (length l) (2 * k) = next_level l !! k.
Proof.
  intros Hk. unfold parent. rewrite next_level_lookup, !lookup_app_r by lia.
  replace (length pre + 2 * k - length pre) with (2 * k) by lia.
  replace (length pre + 2 * k + 1 - length pre) with (2 * k + 1) by lia.
  remember (2 * k) as j. destruct (l !! j) as [x|] eqn:E; [|done]. simpl.
  destruct (Nat.ltb_spec (j + 1) (length l)) as [Hlt|Hge].
  - by destruct (lookup_lt_is_Some_2 l (j + 1) Hlt) as [y ->].
  - by rewrite (lookup_ge_None_2 l (j + 1)) by lia.
Qed.

Lemma parents_spec pre l :
  mapM (parent (pre ++ l) (length pre) (length l)) (step_by2 (length l)) = Some (next_level l).
Proof.
  apply mapM_Some_2, Forall2_same_length_lookup. split.
  { unfold step_by2. by rewrite length_map, length_seq, next_level_length. }
  intros j x y Hx Hy. unfold step_by2 in Hx. rewrite list_lookup_fmap in Hx.
  apply fmap_Some in Hx as (k & Hk & ->). apply lookup_seq in Hk as [-> Hlt].
  rewrite parent_spec; [done|].
  pose proof (Nat.div_mod_eq (length l + 1) 2). lia.
Qed.

Lemma build_loop_spec l : l <> [] -> forall pre fuel, length l <= fuel ->
  build_loop fuel (pre ++ l) (length pre) (length l) = Some (pre ++ flat l).
Proof.
  induction l as [|a|l Hl IH] using levels_ind; intros Hne pre fuel Hf; [done | |].
  - by destruct fuel; simpl; rewrite flat_equation_2.
  - assert (length (next_level l) < length l) as Hlt
      by (rewrite next_level_length; by apply half_lt).
    destruct fuel as [|fuel]; [lia|]. simpl.
    destruct (Nat.leb_spec (length l) 1); [lia|].
    rewrite parents_spec. simpl. rewrite flat_step by done.
    rewrite <- length_app, app_assoc. apply IH; [|lia].
    intros E. rewrite <- length_zero_iff_nil, next_level_length in E.
    pose proof (half_pos (length l)). lia.
Qed.

Lemma sibling_idx_lt i n : i < n -> sibling_idx i n < n.
Proof.
  intros Hi. unfold sibling_idx.
  destruct (Nat.even i); [destruct (Nat.ltb_spec (i + 1) n); lia | lia].
Qed.

Lemma half_idx_lt i n : i < n -> i / 2 < (n + 1) / 2.
Proof.
  intros Hi. pose proof (Nat.div_mod_eq (n + 1) 2). pose proof (Nat.div_mod_eq i 2).
  pose proof (Nat.mod_upper_bound (n + 1) 2). lia.
Qed.

Lemma proof_loop_spec l : forall pre i fuel, i < length l -> length l <= fuel ->
  proof_loop fuel (pre ++ flat l) i (length pre) (length l) = Some (path_of l i).
Proof.
  induction l as [|a|l Hl IH] using levels_ind; intros pre i fuel Hi Hf; [simpl in Hi; lia | |].
  - by destruct fuel; simpl; rewrite path_of_equation_2.
  - assert (length (next_level l) < length l) as Hlt
      by (rewrite next_level_length; by apply half_lt).
    destruct fuel as [|fuel]; [lia|]. cbn [proof_loop].
    destruct (Nat.leb_spec (length l) 1); [lia|].
    rewrite path_of_step, flat_step by done. unfold sibling.
    pose proof (sibling_idx_lt i (length l) Hi) as Hs.
    rewrite lookup_app_r by lia.
    replace (length pre + sibling_idx i (length l) - length pre)
      with (sibling_idx i (length l)) by lia.
    rewrite lookup_app_l by done.
    destruct (lookup_lt_is_Some_2 l _ Hs) as [h ->]. cbn [mbind option_bind].
    rewrite <- length_app, app_assoc, <- next_level_length, IH; [done | | lia].
    rewrite next_level_length. by apply half_idx_lt.
Qed.

Lemma flat_last l : l <> [] -> list.last (flat l) = Some (root_of l).
Proof.
  induction l as [|a|l Hl IH] using levels_ind; intros Hne; [done | |].
  - by rewrite flat_equation_2, root_of_equation_2.
  - rewrite flat_step, root_of_step by done. rewrite last_app, IH; [done|].
    intros E. rewrite <- length_zero_iff_nil, next_level_length in E.
    pose proof (half_pos (length l)). lia.
Qed.

Lemma build_merkle_tree_spec leaves : leaves <> [] ->
  build_merkle_tree leaves = Some (root_of leaves, flat leaves).
Proof.
  intros Hne. destruct leaves as [|a l]; [done|].
  unfold build_merkle_tree.
  pose proof (build_loop_spec (a :: l) Hne [] (length (a :: l)) ltac:(done)) as E.
  cbn [app length] in E |- *. rewrite E. cbn [mbind option_bind].
  by rewrite (flat_last (a :: l) Hne).
Qed.

Lemma flat_cons l : l <> [] -> exists x r, flat l = x :: r.
Proof.
  destruct l as [|a [|b r]]; intros Hne; [done | |].
  - rewrite flat_equation_2. by eexists _, _.
  - rewrite flat_step by (simpl; lia). by eexists _, _.
Qed.

Lemma merkle_proof_spec leaves i : i < length leaves ->
  merkle_proof (flat leaves) (length leaves) i = Some (path_of leaves i).
Proof.
  intros Hi. assert (leaves <> []) as Hne by (by intros ->; simpl in Hi; lia).
  unfold merkle_proof. destruct (flat_cons leaves Hne) as (x & r & E). rewrite E.
  destruct (Nat.eqb_spec (length leaves) 0); [lia|]. rewrite <- E.
  by apply (proof_loop_spec leaves []).
Qed.

(** One verification step goes from a node to its parent. *)
Lemma combine_parent l i x s :
  l !! i = Some x -> sibling l i = Some s ->
  next_level l !! (i / 2)
    = Some (sha256 (if Nat.even i then x ++ s else s ++ x)).
Proof.
  intros Hx Hs. unfold sibling, sibling_idx in Hs. rewrite next_level_lookup.
  pose proof (Nat.div_mod_eq i 2) as Hd.
  destruct (Nat.even i) eqn:Ev.
  - apply Nat.even_spec in Ev as [k ->].
    replace (2 * k / 2) with k by (apply (Nat.div_unique _ _ _ 0); lia).
    rewrite Hx. remember (2 * k) as j. simpl.
    destruct (Nat.ltb_spec (j + 1) (length l)); [by rewrite Hs|].
    rewrite (lookup_ge_None_2 l (j + 1)) by lia. simpl.
    rewrite Hx in Hs. by injection Hs as ->.
  - assert (Nat.odd i = true) as Od by (by rewrite <- Nat.negb_even, Ev).
    apply Nat.odd_spec in Od as [k Hk].
    assert (i / 2 = k) as -> by (symmetry; apply (Nat.div_unique _ _ _ 1); lia).
    replace (i - 1) with (2 * k) in Hs by lia. replace (2 * k + 1) with i by lia.
    remember (2 * k) as j. rewrite Hs. simpl. by rewrite Hx.
Qed.

Lemma sibling_some l i : i < length l -> exists s, sibling l i = Some s.
Proof. intros Hi. apply lookup_lt_is_Some_2. by apply sibling_idx_lt. Qed.

Lemma verify_path l : forall i x, l !! i = Some x -> verify_loop x i (path_of l i) = root_of l.
Proof.
  induction l as [|a|l Hl IH] using levels_ind; intros i x Hx; [done | |].
  - apply list_lookup_singleton_Some in Hx as [-> ->].
    by rewrite path_of_equation_2, root_of_equation_2.
  - destruct (sibling_some l i (lookup_lt_Some _ _ _ Hx)) as [s Hs].
    rewrite path_of_step, root_of_step, Hs by done. simpl.
    apply IH. by apply combine_parent.
Qed.

Lemma path_of_length l : forall i j, length (path_of l i) = length (path_of l j).
Proof.
  induction l as [|a|l Hl IH] using levels_ind; intros i j.
  - by rewrite !path_of_equation_1.
  - by rewrite !path_of_equation_2.
  - rewrite (path_of_step l i), (path_of_step l j) by done. cbn [length]. f_equal. apply IH.
Qed.

Lemma log2_up_half n : 1 < n -> Nat.log2_up n = S (Nat.log2_up ((n + 1) / 2)).
Proof.
  intros Hn. apply Nat.log2_up_unique; [lia|].
  pose proof (Nat.div_mod_eq (n + 1) 2). pose proof (Nat.mod_upper_bound (n + 1) 2).
  set (m := (n + 1) / 2) in *.
  destruct (decide (m = 1)) as [->|]; [simpl; lia|].
  destruct (Nat.log2_up_spec m ltac:(lia)) as [Hlo Hhi].
  cbn [Nat.pred]. rewrite Nat.pow_succ_r'.
  assert (Nat.log2_up m = S (Nat.pred (Nat.log2_up m))) as E.
  { pose proof (Nat.log2_up_pos m ltac:(lia)). lia. }
  rewrite E in Hhi |- *. rewrite Nat.pow_succ_r' in *. lia.
Qed.

Lemma path_of_log l i : l <> [] -> length (path_of l i) = Nat.log2_up (length l).
Proof.
  revert i. induction l as [|a|l Hl IH] using levels_ind; intros i Hne; [done | |].
  - by rewrite path_of_equation_2.
  - rewrite path_of_step, (log2_up_half (length l)) by done. cbn [length].
    rewrite IH, next_level_length; [done|].
    intros E. rewrite <- length_zero_iff_nil, next_level_length in E.
    pose proof (half_pos (length l)). lia.
Qed.

(** ** Soundness up to collisions *)

(** What [verify_loop] hashes, from the leaf up. *)
Fixpoint verify_inputs (current : bytestring) (idx : nat) (proof_hashes : list bytestring)
    : list bytestring :=
  match proof_hashes with
  | [] => []
  | sibling :: rest =>
      let combined := if Nat.even idx then current ++ sibling else sibling ++ current in
      combined :: verify_inputs (sha256 combined) (idx / 2) rest
  end.

Lemma combined_inj (i : nat) (x y s s' : bytestring) : length x = length y ->
  (if Nat.even i then x ++ s else s ++ x) = (if Nat.even i then y ++ s' else s' ++ y) ->
  x = y /\ s = s'.
Proof.
  intros Hl. destruct (Nat.even i); intros E; [by apply app_inj_1 in E|].
  by apply app_inj_2 in E as [-> ->].
Qed.

(** Two paths of the same height and position to the same root are the same,
    or a collision is met on the way. *)
Lemma verify_unique `{!HashLaws} p p' : length p = length p' ->
  forall i x y, length x = length y -> verify_loop x i p = verify_loop y i p' ->
  (x = y /\ p = p') \/ collision_on (verify_inputs x i p) (verify_inputs y i p').
Proof.
  revert p'. induction p as [|s p IH]; intros [|s' p'] Hlen i x y Hxy E; simplify_eq/=; [by left|].
  set (cx := if Nat.even i then x ++ s else s ++ x) in *.
  set (cy := if Nat.even i then y ++ s' else s' ++ y) in *.
  apply IH in E as [[Eh ->]|Hc]; [|right; by apply Exists_cons_tl|done|unfold sha256; by rewrite !sha256_len].
  destruct (decide (cx = cy)) as [Ec|Ec].
  - left. by apply combined_inj in Ec as [-> ->].
  - right. apply Exists_cons_hd. by split.
Qed.

(** ** Trees that end in a duplicated leaf *)

Lemma next_level_dup l x : Nat.odd (length l) = true -> list.last l = Some x ->
  next_level (l ++ [x]) = next_level l.
Proof.
  induction l as [|a|a b r IH] using list_ind2; intros Ho Hx; [done | |].
  - simpl in Hx. by injection Hx as ->.
  - cbn [next_level app]. f_equal. apply IH; [done|].
    destruct r; [done|]. exact Hx.
Qed.

End merkle.

(** ** Theorems *)

(** C1. Completeness of membership proofs: for every leaf of every non-empty
    list of leaves, [build_merkle_tree] returns a root and a tree,
    [merkle_proof] returns a proof for the leaf's index (no index is out of
    range, the loops end), the proof has ceil(log2 n) hashes, and
    [verify_merkle_proof] accepts it against the root. *)
Theorem merkle_proof_complete `{HashOps} (leaves : list bytestring) (i : nat) (leaf : bytestring) :
  leaves !! i = Some leaf ->
  exists root tree proof,
    build_merkle_tree leaves = Some (root, tree)
    /\ merkle_proof tree (length leaves) i = Some proof
    /\ length proof = Nat.log2_up (length leaves)
    /\ verify_merkle_proof leaf i proof root = true.
Proof.
  intros Hi. pose proof (lookup_lt_Some _ _ _ Hi) as Hlt.
  assert (leaves <> []) as Hne by (by intros ->).
  exists (root_of leaves), (flat leaves), (path_of leaves i).
  repeat split.
  - by apply build_merkle_tree_spec.
  - by apply merkle_proof_spec.
  - by apply path_of_log.
  - apply bool_decide_eq_true. by apply verify_path.
Qed.

Definition sample_leaves : list bytestring :=
  map (fun s => sha256 (as_bytes s)) ["a"%string; "b"%string; "c"%string].

Lemma merkle_proof_complete_witness :
  exists root tree proof,
    build_merkle_tree sample_leaves = Some (root, tree)
    /\ merkle_proof tree (length sample_leaves) 2 = Some proof
    /\ length proof = Nat.log2_up (length sample_leaves)
    /\ verify_merkle_proof (sha256 (as_bytes "c")) 2 proof root = true.
Proof. apply (merkle_proof_complete sample_leaves 2). reflexivity. Defined.

(** C5. Soundness of membership proofs: suppose [verify_merkle_proof] accepts
    some hash [x] at the index of a leaf [y], with a proof of the tree's height
    (whatever the hashes in it), against the root that [build_merkle_tree]
    computed.  Then [x] is the leaf and the proof is the one [merkle_proof]
    gives, or at some height the inputs hashed by this verification and by that
    of the genuine proof differ and have the same SHA-256 digest. *)
Theorem merkle_proof_sound `{HashOps} `{!HashLaws} (leaves : list bytestring) root tree i x y
    proof genuine :
  build_merkle_tree leaves = Some (root, tree) ->
  leaves !! i = Some y -> length x = length y ->
  merkle_proof tree (length leaves) i = Some genuine ->
  length proof = Nat.log2_up (length leaves) ->
  verify_merkle_proof x i proof root = true ->
  (x = y /\ proof = genuine)
  \/ collision_on (verify_inputs x i proof) (verify_inputs y i genuine).
Proof.
  intros Hb Hy Hx Hg Hp Hv. pose proof (lookup_lt_Some _ _ _ Hy) as Hi.
  assert (leaves <> []) as Hne by (by intros ->).
  rewrite build_merkle_tree_spec in Hb by done. injection Hb as <- <-.
  rewrite merkle_proof_spec in Hg by done. injection Hg as <-.
  apply bool_decide_eq_true in Hv.
  apply verify_unique; [by rewrite Hp, path_of_log | done | by rewrite Hv, (verify_path _ _ y)].
Qed.

(** Another leaf with the hashes of the right proof is refused, the right one
    is accepted. *)
Lemma merkle_proof_sound_witness : exists root tree proof,
  build_merkle_tree sample_leaves = Some (root, tree)
  /\ verify_merkle_proof (sha256 (as_bytes "a")) 1 proof root = false
  /\ verify_merkle_proof (sha256 (as_bytes "b")) 1 proof root = true
  /\ ((sha256 (as_bytes "b") = sha256 (as_bytes "b")
       /\ proof = [sha256 (as_bytes "a");
                   sha256 (sha256 (as_bytes "c") ++ sha256 (as_bytes "c"))])
      \/ collision_on (verify_inputs (sha256 (as_bytes "b")) 1 proof)
           (verify_inputs (sha256 (as_bytes "b")) 1
              [sha256 (as_bytes "a"); sha256 (sha256 (as_bytes "c") ++ sha256 (as_bytes "c"))])).
Proof.
  set (genuine := [sha256 (as_bytes "a"); sha256 (sha256 (as_bytes "c") ++ sha256 (as_bytes "c"))]).
  eexists _, _, genuine. split; [vm_compute; reflexivity|].
  do 2 (split; [vm_compute; reflexivity|]).
  eapply (merkle_proof_sound sample_leaves _ _ 1 _ (sha256 (as_bytes "b")) genuine genuine);
    vm_compute; reflexivity.
Defined.

(** C23. The tree built from a list of leaves is the level-order concatenation
    of its levels, starting with the leaves themselves, its last node is the
    returned root, and a non-empty list always gives a tree (the loop needs at
    most one iteration per leaf and never indexes out of range). *)
Theorem build_merkle_tree_levels `{HashOps} (leaves : list bytestring) :
  exists root tree, build_merkle_tree leaves = Some (root, tree)
    /\ list.last tree = Some root
    /\ (leaves <> [] -> root = root_of leaves /\ tree = flat leaves
                        /\ take (length leaves) tree = leaves).
Proof.
  destruct (decide (leaves = [])) as [->|Hne].
  { exists (sha256 []), [sha256 []]. by repeat split. }
  exists (root_of leaves), (flat leaves). rewrite build_merkle_tree_spec by done.
  repeat split; [by apply flat_last |].
  destruct (decide (1 < length leaves)) as [Hl|Hl].
  - rewrite flat_step by done. by rewrite take_app_length.
  - destruct leaves as [|a [|b r]]; [done | by rewrite flat_equation_2 | simpl in Hl; lia].
Qed.

(** The root does not determine the number of leaves: a list of an odd
    number (at least three) of leaves and the same list with its last leaf
    repeated have the same root, so an event appended a second time at the end
    of such a day is not detected by comparing roots. *)
Theorem merkle_root_duplicate_tail `{HashOps} (leaves : list bytestring) (x : bytestring) :
  Nat.odd (length leaves) = true -> 3 <= length leaves -> list.last leaves = Some x ->
  fst <$> build_merkle_tree (leaves ++ [x]) = fst <$> build_merkle_tree leaves.
Proof.
  intros Ho Hl Hx.
  rewrite !build_merkle_tree_spec by (intros E; apply (f_equal length) in E;
    rewrite ?length_app in E; simpl in E; lia).
  simpl. f_equal.
  rewrite (root_of_step leaves), (root_of_step (leaves ++ [x]))
    by (rewrite ?length_app; simpl; lia).
  by rewrite next_level_dup.
Qed.

Lemma merkle_root_duplicate_tail_witness :
  fst <$> build_merkle_tree (sample_leaves ++ [sha256 (as_bytes "c")])
  = fst <$> build_merkle_tree sample_leaves.
Proof.
  apply merkle_root_duplicate_tail; [reflexivity | vm_compute; lia | reflexivity].
Defined.
