(* ===== verification/Payment.v ===== *)
(** * Payment aggregate

    [payment-engine/src/domain/]: the payment entity, its status machine and
    the provider enums.  [&mut self] methods return the updated payment; the
    calls of [Utc::now()] are the [now] argument. *)

From Stdlib Require Import ZArith Lia.
From stdpp Require Import base list strings numbers relations.
From S2P Require Import Prelude RustStr External Reference.

Local Open Scope string_scope.

(** ** Data *)

(** [DomainError] *)
Inductive DomainError : Type :=
  | InvalidPhoneNumber (s : string)
  | InvalidAmount (s : string)
  | InvalidReference (s : string)
  | ProviderError (s : string)
  | IdempotencyViolation
  | NotFound (s : string)
  | InvalidStatusTransition (from to : string)
  | DatabaseError (s : string).

(** The [#[error]] texts: [e.to_string()] *)
Definition error_to_string (e : DomainError) : string :=
  match e with
  | InvalidPhoneNumber s => "Invalid phone number: " +:+ s
  | InvalidAmount s => "Invalid amount: " +:+ s
  | InvalidReference s => "Invalid reference: " +:+ s
  | ProviderError s => "Provider error: " +:+ s
  | IdempotencyViolation => "Idempotency violation"
  | NotFound s => "Not found: " +:+ s
  | InvalidStatusTransition f t => "Invalid status transition from " +:+ f +:+ " to " +:+ t
  | DatabaseError s => "Database error: " +:+ s
  end.

Inductive PaymentStatus : Type :=
  | Pending | Processing | Completed | Failed | Cancelled | Refunded.

#[export] Instance PaymentStatus_eq_dec : EqDecision PaymentStatus.
Proof. solve_decision. Defined.

(** [PaymentStatus::as_str], also [Display] *)
Definition status_as_str (s : PaymentStatus) : string :=
  match s with
  | Pending => "pending"
  | Processing => "processing"
  | Completed => "completed"
  | Failed => "failed"
  | Cancelled => "cancelled"
  | Refunded => "refunded"
  end.

Inductive MobileMoneyProvider : Type := EcoCash | OneMoney | Telecash.

#[export] Instance MobileMoneyProvider_eq_dec : EqDecision MobileMoneyProvider.
Proof. solve_decision. Defined.

Definition provider_as_str (p : MobileMoneyProvider) : string :=
  match p with
  | EcoCash => "ecocash"
  | OneMoney => "onemoney"
  | Telecash => "telecash"
  end.

(** [ProviderStatus] *)
Inductive ProviderStatus : Type :=
  | PsPending | PsProcessing | PsCompleted | PsFailed | PsCancelled | PsRefunded | PsUnknown.

#[export] Instance ProviderStatus_eq_dec : EqDecision ProviderStatus.
Proof. solve_decision. Defined.

(** [ProviderStatus::as_str] *)
Definition provider_status_as_str (s : ProviderStatus) : string :=
  match s with
  | PsPending => "pending"
  | PsProcessing => "processing"
  | PsCompleted => "completed"
  | PsFailed => "failed"
  | PsCancelled => "cancelled"
  | PsRefunded => "refunded"
  | PsUnknown => "unknown"
  end.

#[export] Instance provider_status_as_str_inj : Inj (=) (=) provider_status_as_str.
Proof. by intros [] []. Qed.

Record ProviderResponse := mkResponse {
  resp_provider_reference : string;
  resp_status : ProviderStatus;
  resp_message : option string;
}.

Section payment.
Context `{DecimalOps} `{RegexOps}.

Record Payment := mkPayment {
  payment_id : Uuid;
  tenant_id : Uuid;
  idempotency_key : string;
  provider : MobileMoneyProvider;
  phone_number : string;
  amount : Dec;
  currency : string;
  reference : string;
  description : string;
  status : PaymentStatus;
  provider_reference : option string;
  failure_reason : option string;
  initiated_at : DateTime;
  completed_at : option DateTime;
}.

(** ** Operations *)

(** The pattern [^2637[1378]\d{8}$], one character class per position. *)
Definition lit (n : N) (c : N) : bool := N.eqb c n.

Definition phone_pattern : list (N -> bool) :=
  [lit 50; lit 54; lit 51; lit 55;
   (fun c => lit 49 c || lit 51 c || lit 55 c || lit 56 c)]
  ++ replicate 8 re_digit.

Fixpoint match_classes (pat : list (N -> bool)) (cs : list N) : bool :=
  match pat, cs with
  | [], [] => true
  | p :: pat', c :: cs' => p c && match_classes pat' cs'
  | _, _ => false
  end.

(** [PHONE_RE.is_match(phone)] *)
Definition phone_is_match (phone : string) : bool := match_classes phone_pattern (chars phone).

(** [Payment::new] *)
Definition new (payment_id tenant_id : Uuid) (idempotency_key : string)
    (provider : MobileMoneyProvider) (phone_number : string) (amount : Dec)
    (currency reference description : string) (now : DateTime) : Result DomainError Payment :=
  if dec_leb amount dec_zero then Err (InvalidAmount "Amount must be greater than zero")
  else if trim_is_empty reference then Err (InvalidReference "Reference must not be empty")
  else if negb (phone_is_match phone_number) then Err (InvalidPhoneNumber phone_number)
  else Ok {|
    payment_id := payment_id;
    tenant_id := tenant_id;
    idempotency_key := idempotency_key;
    provider := provider;
    phone_number := phone_number;
    amount := amount;
    currency := currency;
    reference := reference;
    description := description;
    status := Pending;
    provider_reference := None;
    failure_reason := None;
    initiated_at := now;
    completed_at := None;
  |}.

(** [validate] *)
Definition validate (p : Payment) : Result DomainError unit :=
  if dec_leb (amount p) dec_zero then Err (InvalidAmount "Amount must be greater than zero")
  else if trim_is_empty (reference p) then Err (InvalidReference "Reference must not be empty")
  else if negb (phone_is_match (phone_number p)) then Err (InvalidPhoneNumber (phone_number p))
  else Ok tt.

(** The fields the methods assign. *)
Definition update (p : Payment) (st : PaymentStatus) (pref fr : option string)
    (done_at : option DateTime) : Payment := {|
  payment_id := payment_id p;
  tenant_id := tenant_id p;
  idempotency_key := idempotency_key p;
  provider := provider p;
  phone_number := phone_number p;
  amount := amount p;
  currency := currency p;
  reference := reference p;
  description := description p;
  status := st;
  provider_reference := pref;
  failure_reason := fr;
  initiated_at := initiated_at p;
  completed_at := done_at;
|}.

Definition bad_transition {A} (p : Payment) (to : PaymentStatus) : Result DomainError A :=
  Err (InvalidStatusTransition (status_as_str (status p)) (status_as_str to)).

(** [mark_processing] *)
Definition mark_processing (p : Payment) : Result DomainError Payment :=
  match status p with
  | Pending | Processing =>
      Ok (update p Processing (provider_reference p) (failure_reason p) (completed_at p))
  | _ => bad_transition p Processing
  end.

(** [mark_completed] *)
Definition mark_completed (now : DateTime) (provider_ref : string) (p : Payment)
    : Result DomainError Payment :=
  match status p with
  | Pending | Processing =>
      Ok (update p Completed (Some provider_ref) (failure_reason p) (Some now))
  | _ => bad_transition p Completed
  end.

(** [mark_failed] *)
Definition mark_failed (now : DateTime) (reason : string) (p : Payment)
    : Result DomainError Payment :=
  match status p with
  | Pending | Processing =>
      Ok (update p Failed (provider_reference p) (Some reason) (Some now))
  | _ => bad_transition p Failed
  end.

(** [mark_refunded] *)
Definition mark_refunded (now : DateTime) (p : Payment) : Result DomainError Payment :=
  match status p with
  | Completed =>
      Ok (update p Refunded (provider_reference p) (failure_reason p) (Some now))
  | _ => bad_transition p Refunded
  end.

(** [let _ = self.mark_...()]: a refused transition leaves the payment. *)
Definition or_same (p : Payment) (r : Result DomainError Payment) : Payment :=
  match r with Ok p' => p' | _ => p end.

(** [apply_provider_status] *)
Definition apply_provider_status (now : DateTime) (st : ProviderStatus)
    (provider_ref : option string) (p : Payment) : Payment :=
  match st with
  | PsCompleted => or_same p (mark_completed now (unwrap_or provider_ref "") p)
  | PsFailed => or_same p (mark_failed now "Provider reported failure" p)
  | PsCancelled =>
      if bool_decide (status p = Pending) || bool_decide (status p = Processing)
      then update p Cancelled (provider_reference p) (failure_reason p) (Some now)
      else p
  | PsRefunded => or_same p (mark_refunded now p)
  | PsProcessing => or_same p (mark_processing p)
  | PsPending | PsUnknown => p
  end.

(** ** The status machine *)

(** What the state machine of a payment may do, as a table. *)
Definition allowed (from to : PaymentStatus) : bool :=
  match from, to with
  | Pending, Processing | Pending, Completed | Pending, Failed | Pending, Cancelled
  | Processing, Completed | Processing, Failed | Processing, Cancelled
  | Completed, Refunded => true
  | _, _ => false
  end.

Definition terminal (s : PaymentStatus) : bool :=
  match s with Failed | Cancelled | Refunded => true | _ => false end.

(** One successful call of a method of the aggregate.  [step_reference] is
    the direct assignment of the provider's reference to a payment that
    [mark_processing] has accepted. *)
Inductive step : Payment -> Payment -> Prop :=
  | step_processing p p' : mark_processing p = Ok p' -> step p p'
  | step_completed now r p p' : mark_completed now r p = Ok p' -> step p p'
  | step_failed now r p p' : mark_failed now r p = Ok p' -> step p p'
  | step_refunded now p p' : mark_refunded now p = Ok p' -> step p p'
  | step_provider now st r p : step p (apply_provider_status now st r p)
  | step_reference r p : status p = Processing ->
      step p (update p (status p) (Some r) (failure_reason p) (completed_at p)).

(** The payments that [new] and the methods produce. *)
Inductive reachable : Payment -> Prop :=
  | reach_new pid tid k pr ph a c r d now p :
      new pid tid k pr ph a c r d now = Ok p -> reachable p
  | reach_step p p' : reachable p -> step p p' -> reachable p'.

(** Which optional fields are set in which status. *)
Definition fields_ok (p : Payment) : Prop :=
  match status p with
  | Pending => provider_reference p = None /\ failure_reason p = None /\ completed_at p = None
  | Processing => failure_reason p = None /\ completed_at p = None
  | Completed | Refunded =>
      is_Some (provider_reference p) /\ failure_reason p = None /\ is_Some (completed_at p)
  | Failed => is_Some (failure_reason p) /\ is_Some (completed_at p)
  | Cancelled => failure_reason p = None /\ is_Some (completed_at p)
  end.

(** The fields no method changes. *)
Definition same_terms (p q : Payment) : Prop :=
  payment_id p = payment_id q /\ tenant_id p = tenant_id q
  /\ idempotency_key p = idempotency_key q /\ provider p = provider q
  /\ phone_number p = phone_number q /\ amount p = amount q /\ currency p = currency q
  /\ reference p = reference q /\ description p = description q
  /\ initiated_at p = initiated_at q.

Ltac payment_cases :=
  repeat (simpl in *; match goal with
  | H : Ok _ = Ok _ |- _ => injection H as H; subst
  | H : Err _ = Ok _ |- _ => discriminate H
  | H : bad_transition _ _ = Ok _ |- _ => discriminate H
  | H : context [match ?s with Pending => _ | _ => _ end] |- _ => destruct s eqn:?
  | H : step _ _ |- _ => destruct H
  | st : ProviderStatus |- _ => destruct st
  | |- context [match ?s with Pending => _ | _ => _ end] => destruct s eqn:?
  | |- context [bool_decide ?P] => destruct (bool_decide_reflect P)
  end; try congruence).

Ltac payment_unfold :=
  unfold apply_provider_status, or_same in *;
  unfold mark_processing, mark_completed, mark_failed, mark_refunded, bad_transition in *.

Lemma step_terms p p' : step p p' -> same_terms p' p.
Proof. intros Hs. destruct Hs; payment_unfold; payment_cases; by repeat split. Qed.

Lemma step_status p p' : step p p' -> status p' = status p \/ allowed (status p) (status p') = true.
Proof.
  intros Hs. destruct Hs; payment_unfold; payment_cases;
    repeat match goal with H : status _ = _ |- _ => rewrite H end; auto.
Qed.

Lemma step_fields p p' : fields_ok p -> step p p' -> fields_ok p'.
Proof.
  intros Hf Hs. unfold fields_ok in *.
  destruct Hs; payment_unfold; payment_cases; naive_solver.
Qed.

Lemma validate_terms p q : same_terms p q -> validate p = validate q.
Proof.
  intros (_ & _ & _ & _ & E1 & E2 & _ & E3 & _). unfold validate. by rewrite E1, E2, E3.
Qed.

Lemma new_ok pid tid k pr ph a c r d now p :
  new pid tid k pr ph a c r d now = Ok p ->
  validate p = Ok tt /\ fields_ok p /\ status p = Pending.
Proof.
  unfold new. intros E. repeat case_match; try done. injection E as <-.
  unfold validate, fields_ok. simpl. by repeat case_match; naive_solver.
Qed.

Lemma reachable_ok p : reachable p -> validate p = Ok tt /\ fields_ok p.
Proof.
  induction 1 as [pid tid k pr ph a c r d now p E | p p' _ [IHv IHf] Hs].
  - by apply new_ok in E as (? & ? & _).
  - split; [|by eapply step_fields].
    by rewrite (validate_terms p' p) by (by apply step_terms).
Qed.

Lemma terminal_step p p' : terminal (status p) = true -> step p p' -> status p' = status p.
Proof.
  intros Ht Hs. destruct (step_status _ _ Hs) as [|Ha]; [done|].
  destruct (status p), (status p'); done.
Qed.

Lemma allowed_taken p to : allowed (status p) to = true -> exists p', step p p' /\ status p' = to.
Proof.
  intros Ha. exists (apply_provider_status 0%Z
    (match to with Pending => PsPending | Processing => PsProcessing
     | Completed => PsCompleted | Failed => PsFailed | Cancelled => PsCancelled
     | Refunded => PsRefunded end) None p).
  split; [apply step_provider|].
  destruct p as [? ? ? ? ? ? ? ? ? s ? ? ? ?]. destruct s, to; try discriminate Ha; reflexivity.
Qed.

End payment.

Arguments Payment {_}.

(** ** Theorems *)

(** [Payment::new] accepts exactly the payments with a positive amount, a
    reference that is not blank and a phone number that matches the pattern;
    an accepted payment is [Pending], carries its arguments and has no
    reference, failure or completion; a refused one reports the first failing
    check in the order amount, reference, phone number.  It never panics. *)
Theorem new_accepts_iff `{DecimalOps} `{RegexOps} pid tid k pr ph a c r d now :
  let res := new pid tid k pr ph a c r d now in
  (dec_leb a dec_zero = false /\ trim_is_empty r = false /\ phone_is_match ph = true
   <-> res = Ok (mkPayment pid tid k pr ph a c r d Pending None None now None))
  /\ (dec_leb a dec_zero = true <->
      res = Err (InvalidAmount "Amount must be greater than zero"))
  /\ (dec_leb a dec_zero = false /\ trim_is_empty r = true <->
      res = Err (InvalidReference "Reference must not be empty"))
  /\ (dec_leb a dec_zero = false /\ trim_is_empty r = false /\ phone_is_match ph = false <->
      res = Err (InvalidPhoneNumber ph)).
Proof.
  unfold new. simpl.
  destruct (dec_leb a dec_zero), (trim_is_empty r), (phone_is_match ph); naive_solver.
Qed.

(** C6. Invariant of the aggregate: every payment obtained from [new] by any
    sequence of method calls still passes [validate], and its optional fields
    agree with its status: no reference, failure or completion time while
    [Pending], a completion time exactly in the finished statuses, a provider
    reference when [Completed] or [Refunded], a reason when and only when
    [Failed]. *)
Theorem payment_invariant `{DecimalOps} `{RegexOps} p :
  reachable p ->
  validate p = Ok tt /\ fields_ok p
  /\ (is_Some (completed_at p) <-> status p <> Pending /\ status p <> Processing)
  /\ (is_Some (failure_reason p) <-> status p = Failed).
Proof.
  intros Hr. destruct (reachable_ok p Hr) as [Hv Hf]. split_and!; [done | done | |].
  all: unfold fields_ok in Hf; destruct (status p);
    destruct_and?; simplify_eq; rewrite ?is_Some_alt in *;
    repeat match goal with H : _ = None |- _ => rewrite H in * end; naive_solver.
Qed.

Definition sample_payment : Payment :=
  mkPayment 1%N 2%N "idem-123" EcoCash "2637123456789" (dec_new 10000 2) "USD" "REF-001"
    "Test payment" Pending None None 5%Z None.

Lemma sample_reachable : reachable sample_payment.
Proof.
  eapply (reach_new 1%N 2%N "idem-123" EcoCash "2637123456789" (dec_new 10000 2) "USD"
            "REF-001" "Test payment" 5%Z). reflexivity.
Qed.

Lemma payment_invariant_witness :
  validate sample_payment = Ok tt /\ fields_ok sample_payment
  /\ (is_Some (completed_at sample_payment)
      <-> status sample_payment <> Pending /\ status sample_payment <> Processing)
  /\ (is_Some (failure_reason sample_payment) <-> status sample_payment = Failed).
Proof. apply payment_invariant, sample_reachable. Defined.

(** C2. The methods implement the transition table [allowed]: a call changes
    the status only along the table and never the terms of the payment
    (identity, tenant, key, provider, phone, amount, currency, reference,
    description, creation time); every entry of the table is taken by some
    call; and [Failed], [Cancelled] and [Refunded] are final whatever calls
    follow.  (The strategy guide draws another machine, in which every end is
    reached from [Processing], refunds included.) *)
Theorem payment_status_machine `{DecimalOps} `{RegexOps} :
  (forall p p', step p p' ->
     same_terms p' p /\ (status p' = status p \/ allowed (status p) (status p') = true))
  /\ (forall p to, allowed (status p) to = true -> exists p', step p p' /\ status p' = to)
  /\ (forall p p', terminal (status p) = true -> rtc step p p' -> status p' = status p).
Proof.
  split_and!.
  - intros p p' Hs. split; [by apply step_terms | by apply step_status].
  - apply allowed_taken.
  - intros p p' Ht Hr. induction Hr as [|p q p' Hs Hr IH]; [done|].
    rewrite <- (terminal_step p q Ht Hs). apply IH. by rewrite (terminal_step p q Ht Hs).
Qed.

(** A provider status moves the payment to the matching status when the
    table allows it (a repeated [Processing] report keeps [Processing]), and in
    every other case leaves the whole payment as it was. *)
Theorem apply_provider_status_spec `{DecimalOps} `{RegexOps} now st r p :
  let to := match st with
            | PsCompleted => Some Completed | PsFailed => Some Failed
            | PsCancelled => Some Cancelled | PsRefunded => Some Refunded
            | PsProcessing => Some Processing | PsPending | PsUnknown => None
            end in
  let p' := apply_provider_status now st r p in
  match to with
  | Some t => if allowed (status p) t then status p' = t else p' = p
  | None => p' = p
  end.
Proof.
  destruct p as [? ? ? ? ? ? ? ? ? s ? ? ? ?]. destruct st, s; reflexivity.
Qed.

(** The phone pattern accepts only numbers of exactly 13 characters that
    start with 26371, 26373, 26377 or 26378; the 12-digit subscriber number
    [263712345678] of the API documentation is refused. *)
Theorem phone_pattern_shape `{DecimalOps} `{RegexOps} :
  (forall ph, phone_is_match ph = true ->
     length (chars ph) = 13
     /\ take 4 (chars ph) = [50; 54; 51; 55]%N
     /\ exists c, chars ph !! 4 = Some c /\ (c = 49 \/ c = 51 \/ c = 55 \/ c = 56)%N)
  /\ phone_is_match "263712345678" = false.
Proof.
  split.
  - intros ph. unfold phone_is_match, phone_pattern, lit.
    generalize (chars ph) as cs. intros cs Hm.
    do 13 (destruct cs as [|? cs]; [by repeat (simpl in Hm; rewrite ?andb_false_r in Hm)|]).
    simpl in Hm. repeat setoid_rewrite andb_true_iff in Hm.
    destruct Hm as (?%N.eqb_eq & ?%N.eqb_eq & ?%N.eqb_eq & ?%N.eqb_eq & Hc & _ & _ & _ & _ & _ & _ & _ & _ & Hn).
    destruct cs; [|done]. subst. split_and!; [done..|].
    exists n3. split; [done|].
    rewrite !orb_true_iff, !N.eqb_eq in Hc. tauto.
  - unfold phone_is_match. vm_compute. by repeat case_match.
Qed.
