(* ===== verification/PaymentStore.v ===== *)
(** * Payment persistence

    [payment-engine/src/infrastructure/]: [postgres.rs] (the payments table),
    [outbox.rs] and [outbox_adapter.rs] (the event outbox).  The database is a
    service: [Env] says which statement fails and with what text, which rows
    the row-level policy shows, the active topic and the identifiers it
    generates.  The statements themselves (upsert, select by one column,
    insert, select in creation order) act on the tables of [World]. *)

From Stdlib Require Import ZArith Lia.
From stdpp Require Import base list strings numbers sorting sets.
From S2P Require Import Prelude RustStr External Reference Payment.

Local Open Scope string_scope.

(** ** Rows *)

(** [PaymentRow] *)
Record PaymentRow := mkRow {
  row_payment_id : Uuid;
  row_tenant_id : Uuid;
  row_idempotency_key : string;
  row_provider : string;
  row_phone_number : string;
  row_amount : string;
  row_currency : string;
  row_reference : string;
  row_description : string;
  row_status : string;
  row_provider_reference : option string;
  row_failure_reason : option string;
  row_initiated_at : DateTime;
  row_completed_at : option DateTime;
}.

(** A row of [events.cdc_outbox]. *)
Record OutboxRow := mkOutboxRow {
  ob_outbox_id : Uuid;
  ob_topic_id : Uuid;
  ob_event_type : string;
  ob_aggregate_type : string;
  ob_aggregate_id : Uuid;
  ob_payload : json;
  ob_created_at : DateTime;
  ob_published : bool;
  ob_published_at : option DateTime;
}.

(** [OutboxEntry] *)
Record OutboxEntry := mkEntry {
  entry_outbox_id : Z;
  entry_event_type : string;
  entry_payload : json;
  entry_aggregate_id : Uuid;
  entry_idempotency_key : string;
  entry_tenant_id : Uuid;
  entry_occurred_at : DateTime;
  entry_processed_at : option DateTime;
}.

(** [ORDER BY created_at ASC] *)
Definition created_le (a b : OutboxRow) : Prop := (ob_created_at a <= ob_created_at b)%Z.
#[export] Instance created_le_dec : RelDecision created_le.
Proof. intros a b. apply Z.le_dec. Defined.
#[export] Instance created_le_trans : Transitive created_le.
Proof. intros x y z. unfold created_le. lia. Qed.
#[export] Instance created_le_total : Total created_le.
Proof. intros x y. unfold created_le. lia. Qed.

(** ** The environment of the payment engine *)

Class Env `{DecimalOps} := {
  (** The error of the [n]-th statement, if it fails. *)
  db_fault : nat -> option string;
  (** The [n]-th reading of the clock. *)
  clock : nat -> DateTime;
  (** Row-level security: the rows a statement sees under the tenant set. *)
  rls : option Uuid -> PaymentRow -> bool;
  (** [SELECT topic_id FROM events.cdc_topics WHERE is_active LIMIT 1] *)
  active_topic : option Uuid;
  (** The identifiers generated: column defaults and [Uuid::new_v4()]. *)
  gen_uuid : nat -> Uuid;
  (** The provider's answer to the [n]-th initiate request. *)
  provider_initiate : nat -> Payment -> Result DomainError ProviderResponse;
  (** The provider's callback signature check. *)
  verify_callback_signature : bytestring -> string -> bool;
  (** [rand::thread_rng().gen_range(0..500)], the [n]-th draw. *)
  jitter : nat -> Z;
}.

Section store.
Context `{DecimalOps} `{!Env}.

Record World := mkWorld {
  payments : list PaymentRow;
  outbox : list OutboxRow;
  (** statements executed and clock readings so far *)
  tick : nat;
  (** initiate requests sent to the provider, oldest first *)
  sent : list Payment;
  (** pauses between the attempts, in milliseconds *)
  slept : list Z;
}.

Definition set_payments (l : list PaymentRow) (w : World) : World :=
  mkWorld l (outbox w) (tick w) (sent w) (slept w).
Definition set_outbox (l : list OutboxRow) (w : World) : World :=
  mkWorld (payments w) l (tick w) (sent w) (slept w).
Definition next_tick (w : World) : World :=
  mkWorld (payments w) (outbox w) (S (tick w)) (sent w) (slept w).

(** One statement: it may fail, and then has no effect. *)
Definition sql_statement : M World string unit := fun w =>
  match db_fault (tick w) with
  | Some e => (Err e, next_tick w)
  | None => (Ok tt, next_tick w)
  end.

(** [.map_err(|e| DomainError::DatabaseError(e.to_string()))] *)
Definition statement : M World DomainError unit := with_err DatabaseError sql_statement.

(** [chrono::Utc::now()] *)
Definition utc_now : M World DomainError DateTime := fun w => (Ok (clock (tick w)), next_tick w).

(** ** Conversions between payments and rows *)

Definition to_row (p : Payment) : PaymentRow := {|
  row_payment_id := payment_id p;
  row_tenant_id := tenant_id p;
  row_idempotency_key := idempotency_key p;
  row_provider := provider_as_str (provider p);
  row_phone_number := phone_number p;
  row_amount := dec_to_string (amount p);
  row_currency := currency p;
  row_reference := reference p;
  row_description := description p;
  row_status := status_as_str (status p);
  row_provider_reference := provider_reference p;
  row_failure_reason := failure_reason p;
  row_initiated_at := initiated_at p;
  row_completed_at := completed_at p;
|}.

Definition parse_provider (s : string) : Result DomainError MobileMoneyProvider :=
  if String.eqb s "ecocash" then Ok EcoCash
  else if String.eqb s "onemoney" then Ok OneMoney
  else if String.eqb s "telecash" then Ok Telecash
  else Err (DatabaseError ("Unknown provider: " +:+ s)).

Definition parse_status (s : string) : Result DomainError PaymentStatus :=
  if String.eqb s "pending" then Ok Pending
  else if String.eqb s "processing" then Ok Processing
  else if String.eqb s "completed" then Ok Completed
  else if String.eqb s "failed" then Ok Failed
  else if String.eqb s "cancelled" then Ok Cancelled
  else if String.eqb s "refunded" then Ok Refunded
  else Err (DatabaseError ("Unknown status: " +:+ s)).

(** [TryFrom<PaymentRow> for Payment] *)
Definition try_from (row : PaymentRow) : Result DomainError Payment :=
  pr ← parse_provider (row_provider row);
  st ← parse_status (row_status row);
  a ← map_err (fun e => DatabaseError ("Invalid amount in DB: " +:+ e))
        (dec_parse (row_amount row));
  mret {|
    payment_id := row_payment_id row;
    tenant_id := row_tenant_id row;
    idempotency_key := row_idempotency_key row;
    provider := pr;
    phone_number := row_phone_number row;
    amount := a;
    currency := row_currency row;
    reference := row_reference row;
    description := row_description row;
    status := st;
    provider_reference := row_provider_reference row;
    failure_reason := row_failure_reason row;
    initiated_at := row_initiated_at row;
    completed_at := row_completed_at row;
  |}.

(** ** [PgPaymentRepository] *)

(** The statement of [set_tenant]. *)
Definition set_tenant (tenant : Uuid) : M World DomainError unit := statement.

(** [DO UPDATE SET status, provider_reference, failure_reason, completed_at] *)
Definition conflict_update (old new : PaymentRow) : PaymentRow := {|
  row_payment_id := row_payment_id old;
  row_tenant_id := row_tenant_id old;
  row_idempotency_key := row_idempotency_key old;
  row_provider := row_provider old;
  row_phone_number := row_phone_number old;
  row_amount := row_amount old;
  row_currency := row_currency old;
  row_reference := row_reference old;
  row_description := row_description old;
  row_status := row_status new;
  row_provider_reference := row_provider_reference new;
  row_failure_reason := row_failure_reason new;
  row_initiated_at := row_initiated_at old;
  row_completed_at := row_completed_at new;
|}.

(** [INSERT ... ON CONFLICT (payment_id) DO UPDATE] *)
Fixpoint upsert (r : PaymentRow) (rows : list PaymentRow) : list PaymentRow :=
  match rows with
  | [] => [r]
  | x :: rows' =>
      if N.eqb (row_payment_id x) (row_payment_id r)
      then conflict_update x r :: rows'
      else x :: upsert r rows'
  end.

(** [save_payment] *)
Definition save_payment (p : Payment) : M World DomainError unit :=
  set_tenant (tenant_id p) ;;
  statement ;;
  modify (fun w => set_payments (upsert (to_row p) (payments w)) w).

(** [fetch_optional] and [row.map(TryInto::try_into).transpose()] *)
Definition select_one (tenant : option Uuid) (cond : PaymentRow -> bool)
    : M World DomainError (option Payment) :=
  statement ;;
  rows ← gets payments;
  match List.find (fun r => cond r && rls tenant r) rows with
  | None => mret None
  | Some r => p ← lift (try_from r); mret (Some p)
  end.

(** [find_by_idempotency_key] *)
Definition find_by_idempotency_key (tenant : Uuid) (key : string)
    : M World DomainError (option Payment) :=
  set_tenant tenant ;;
  select_one (Some tenant) (fun r => String.eqb (row_idempotency_key r) key).

(** [get_payment_by_provider_ref] *)
Definition get_payment_by_provider_ref (tenant : option Uuid) (provider_ref : string)
    : M World DomainError (option Payment) :=
  match tenant with Some t => set_tenant t | None => mret tt end ;;
  select_one tenant (fun r => bool_decide (row_provider_reference r = Some provider_ref)).

(** [get_payment_by_id] *)
Definition get_payment_by_id (tenant pid : Uuid) : M World DomainError (option Payment) :=
  set_tenant tenant ;;
  select_one (Some tenant) (fun r => N.eqb (row_payment_id r) pid).

(** [get_payment_by_id_untenantized] *)
Definition get_payment_by_id_untenantized (pid : Uuid) : M World DomainError (option Payment) :=
  select_one None (fun r => N.eqb (row_payment_id r) pid).

(** ** [OutboxRepository] *)

(** [append_outbox]; the idempotency key is not stored. *)
Definition append_outbox (event_type : string) (aggregate_id : Uuid) (payload : json)
    (_idempotency_key : string) (tenant : Uuid) : M World DomainError unit :=
  statement ;;
  statement ;;
  let topic_id := unwrap_or active_topic uuid_nil in
  statement ;;
  modify (fun w => set_outbox (outbox w ++
    [mkOutboxRow (gen_uuid (tick w)) topic_id event_type "payment" aggregate_id payload
       (clock (tick w)) false None]) w).

(** [PostgresOutboxAdapter::write_outbox] *)
Definition write_outbox (event_type aggregate_type : string) (aggregate_id : Uuid)
    (payload : json) (tenant : Uuid) : M World string unit :=
  sql_statement ;;
  sql_statement ;;
  let topic_id := unwrap_or active_topic uuid_nil in
  sql_statement ;;
  modify (fun w => set_outbox (outbox w ++
    [mkOutboxRow (gen_uuid (tick w)) topic_id event_type aggregate_type aggregate_id payload
       (clock (tick w)) false None]) w).

(** [From<OutboxRow> for OutboxEntry], after the select list of
    [get_unprocessed]: an empty idempotency key, the aggregate as tenant, and
    [row.outbox_id.as_u128() as i64]. *)
Definition entry_of_row (r : OutboxRow) : OutboxEntry := {|
  entry_outbox_id := as_i64 (Z.of_N (ob_outbox_id r));
  entry_event_type := ob_event_type r;
  entry_payload := ob_payload r;
  entry_aggregate_id := ob_aggregate_id r;
  entry_idempotency_key := "";
  entry_tenant_id := ob_aggregate_id r;
  entry_occurred_at := ob_created_at r;
  entry_processed_at := ob_published_at r;
|}.

(** [get_unprocessed] *)
Definition get_unprocessed (limit : Z) : M World DomainError (list OutboxEntry) :=
  statement ;;
  rows ← gets outbox;
  if (limit <? 0)%Z then throw (DatabaseError "LIMIT must not be negative")
  else mret (map entry_of_row
    (take (Z.to_nat limit)
       (merge_sort created_le (List.filter (fun r => negb (ob_published r)) rows)))).

(** ** Lemmas *)

Definition no_faults : Prop := forall n, db_fault n = None.

Definition row_of (pid : Uuid) (rows : list PaymentRow) : option PaymentRow :=
  List.find (fun r => N.eqb (row_payment_id r) pid) rows.

Lemma upsert_same r rows :
  row_of (row_payment_id r) (upsert r rows)
  = Some (match row_of (row_payment_id r) rows with Some x => conflict_update x r | None => r end).
Proof.
  unfold row_of. induction rows as [|x rows IH]; simpl; [by rewrite N.eqb_refl|].
  destruct (N.eqb_spec (row_payment_id x) (row_payment_id r)) as [E|E]; simpl.
  - by rewrite (proj2 (N.eqb_eq _ _) E).
  - by rewrite (proj2 (N.eqb_neq _ _) E).
Qed.

Lemma upsert_other r rows pid : pid <> row_payment_id r ->
  row_of pid (upsert r rows) = row_of pid rows.
Proof.
  intros Hne. unfold row_of. induction rows as [|x rows IH]; simpl.
  - by rewrite (proj2 (N.eqb_neq _ _)) by congruence.
  - destruct (N.eqb_spec (row_payment_id x) (row_payment_id r)) as [E|E]; simpl.
    + rewrite E, (proj2 (N.eqb_neq _ _)) by congruence. done.
    + by rewrite IH.
Qed.

Lemma upsert_map_ids r rows :
  map row_payment_id (upsert r rows) =
  if decide (row_payment_id r ∈ map row_payment_id rows) then map row_payment_id rows
  else (map row_payment_id rows ++ [row_payment_id r])%list.
Proof.
  induction rows as [|x rows IH]; cbn [upsert map].
  - rewrite decide_False; [done | apply not_elem_of_nil].
  - destruct (N.eqb_spec (row_payment_id x) (row_payment_id r)) as [E|E]; cbn [map].
    + rewrite decide_True; [done | rewrite E; apply elem_of_cons; by left].
    + rewrite IH. destruct (decide (row_payment_id r ∈ map row_payment_id rows)).
      * rewrite decide_True; [done | apply elem_of_cons; by right].
      * rewrite decide_False; [done | rewrite elem_of_cons; naive_solver].
Qed.

Lemma upsert_ids r rows : NoDup (map row_payment_id rows) ->
  NoDup (map row_payment_id (upsert r rows)).
Proof.
  intros Hnd. rewrite upsert_map_ids. case_decide; [done|].
  apply NoDup_app. split_and!; [done | set_solver | apply NoDup_singleton].
Qed.

Lemma row_of_Some pid rows r : row_of pid rows = Some r -> row_payment_id r = pid /\ r ∈ rows.
Proof.
  intros Hf. apply List.find_some in Hf as [Hin E]. apply N.eqb_eq in E.
  split; [done | by apply list_elem_of_In].
Qed.

Lemma parse_provider_str p : parse_provider (provider_as_str p) = Ok p.
Proof. by destruct p. Qed.

Lemma parse_status_str s : parse_status (status_as_str s) = Ok s.
Proof. by destruct s. Qed.

Lemma try_from_to_row `{!DecimalLaws} p c : money (amount p) c -> try_from (to_row p) = Ok p.
Proof.
  intros Hm. unfold try_from. simpl. rewrite parse_provider_str, parse_status_str. simpl.
  rewrite (money_parse _ _ Hm). by destruct p.
Qed.

Lemma statement_ok w : no_faults -> statement w = (Ok tt, next_tick w).
Proof. intros Hf. unfold statement, with_err, sql_statement. by rewrite Hf. Qed.

Lemma save_payment_ok p w : no_faults ->
  save_payment p w
  = (Ok tt, set_payments (upsert (to_row p) (payments w)) (next_tick (next_tick w))).
Proof.
  intros Hf. unfold save_payment, set_tenant.
  run_step (statement_ok _ Hf). by run_step (statement_ok _ Hf).
Qed.

Lemma select_one_ok t cond w : no_faults ->
  select_one t cond w =
  match List.find (fun r => cond r && rls t r) (payments w) with
  | None => (Ok None, next_tick w)
  | Some r => (Some <$> try_from r, next_tick w)
  end.
Proof.
  intros Hf. unfold select_one. run_step (statement_ok _ Hf).
  unfold gets, mbind at 1, M_bind. simpl.
  destruct (List.find _ _) as [r|]; [|done].
  unfold lift, mbind, M_bind. by destruct (try_from r).
Qed.

Lemma get_payment_by_id_ok t pid w : no_faults ->
  get_payment_by_id t pid w =
  select_one (Some t) (fun r => N.eqb (row_payment_id r) pid) (next_tick w).
Proof. intros Hf. unfold get_payment_by_id, set_tenant. by run_step (statement_ok _ Hf). Qed.

Lemma find_by_idempotency_key_ok t k w : no_faults ->
  find_by_idempotency_key t k w =
  select_one (Some t) (fun r => String.eqb (row_idempotency_key r) k) (next_tick w).
Proof. intros Hf. unfold find_by_idempotency_key, set_tenant. by run_step (statement_ok _ Hf). Qed.

Lemma append_outbox_ok ev agg payload k t w : no_faults ->
  exists r, append_outbox ev agg payload k t w
    = (Ok tt, set_outbox (outbox w ++ [r])%list (next_tick (next_tick (next_tick w))))
    /\ ob_event_type r = ev /\ ob_aggregate_id r = agg /\ ob_payload r = payload
    /\ ob_published r = false.
Proof.
  intros Hf. unfold append_outbox. eexists.
  run_step (statement_ok _ Hf). run_step (statement_ok _ Hf). run_step (statement_ok _ Hf).
  by split.
Qed.

(** The tenant of a row decides whether its own tenant sees it. *)
Definition rls_own : Prop := forall t r, row_tenant_id r = t -> rls (Some t) r = true.

Lemma find_and_visible (cond : PaymentRow -> bool) t rows r :
  List.find cond rows = Some r -> rls t r = true ->
  (forall r', r' ∈ rows -> cond r' = true -> r' = r) ->
  List.find (fun r => cond r && rls t r) rows = Some r.
Proof.
  intros Hf Hv Hu. destruct (List.find (fun r => cond r && rls t r) rows) as [r'|] eqn:E.
  - apply List.find_some in E as [Hin Hc]. apply andb_true_iff in Hc as [Hc _].
    f_equal. apply Hu; [by apply list_elem_of_In | done].
  - apply List.find_some in Hf as [Hin Hc].
    pose proof (List.find_none _ _ E r Hin) as Hn. simpl in Hn. by rewrite Hc, Hv in Hn.
Qed.

Lemma row_of_unique pid rows r : NoDup (map row_payment_id rows) ->
  row_of pid rows = Some r -> forall r', r' ∈ rows -> N.eqb (row_payment_id r') pid = true -> r' = r.
Proof.
  intros Hnd Hr r' Hin E. apply N.eqb_eq in E. apply row_of_Some in Hr as [E' Hin'].
  apply list_elem_of_lookup in Hin as [i Hi]. apply list_elem_of_lookup in Hin' as [j Hj].
  assert (i = j) as ->; [|congruence].
  apply (NoDup_lookup _ i j pid Hnd); rewrite list_lookup_fmap.
  - by rewrite Hi, <- E.
  - by rewrite Hj, <- E'.
Qed.

End store.

Arguments World {_}.

(** ** A concrete environment for the witnesses: no statement fails, tenants
    see their own rows only, the provider accepts every payment. *)

#[export] Instance test_env : Env := {|
  db_fault _ := None;
  clock n := Z.of_nat n;
  rls t r := match t with Some t => N.eqb (row_tenant_id r) t | None => true end;
  active_topic := Some 77%N;
  gen_uuid n := N.of_nat n;
  provider_initiate n p := Ok (mkResponse "PROV-1" PsPending None);
  verify_callback_signature payload sig := String.eqb sig "good";
  jitter n := 42%Z;
|}.

Definition empty_world : World := mkWorld [] [] 0 [] [].

Lemma test_no_faults : no_faults.
Proof. by intros n. Qed.

Lemma test_rls_own : rls_own.
Proof. intros t r E. simpl. by apply N.eqb_eq. Qed.

(** ** Theorems *)

(** A payment read back from its row is the payment: the texts of the
    provider, the status and the amount are parsed to what was printed. *)
Theorem payment_row_roundtrip `{DecimalOps} `{!DecimalLaws} (p : Payment) (cents : Z) :
  money (amount p) cents -> try_from (to_row p) = Ok p.
Proof. apply try_from_to_row. Qed.

Lemma payment_row_roundtrip_witness : try_from (to_row sample_payment) = Ok sample_payment.
Proof. apply (payment_row_roundtrip sample_payment 10000). reflexivity. Defined.

(** Insert and lookup: when no statement fails, a payment saved under a
    new id, or over a row of the same payment, is what [get_payment_by_id]
    returns to its tenant; all other rows keep their contents and the ids stay
    unique. *)
Theorem save_then_get `{DecimalOps} `{!DecimalLaws} `{!Env} (p : Payment) (cents : Z) (w : World) :
  no_faults -> rls_own -> money (amount p) cents ->
  NoDup (map row_payment_id (payments w)) ->
  (forall r, row_of (payment_id p) (payments w) = Some r -> conflict_update r (to_row p) = to_row p) ->
  exists w', save_payment p w = (Ok tt, w')
    /\ NoDup (map row_payment_id (payments w'))
    /\ (forall pid, pid <> payment_id p -> row_of pid (payments w') = row_of pid (payments w))
    /\ fst (get_payment_by_id (tenant_id p) (payment_id p) w') = Ok (Some p).
Proof.
  intros Hf Ho Hm Hnd Hsame. eexists. rewrite save_payment_ok by done. split; [done|].
  simpl. split; [by apply upsert_ids|]. split; [by intros; apply upsert_other|].
  rewrite get_payment_by_id_ok, select_one_ok by done. simpl.
  assert (row_of (payment_id p) (upsert (to_row p) (payments w)) = Some (to_row p)) as Hrow.
  { rewrite (upsert_same (to_row p)). simpl.
    destruct (row_of (payment_id p) (payments w)) as [r|] eqn:E; [|done]. by rewrite Hsame. }
  rewrite (find_and_visible _ _ _ (to_row p) Hrow).
  - by rewrite (try_from_to_row p cents).
  - by apply Ho.
  - apply row_of_unique; [by apply upsert_ids | done].
Qed.

Lemma save_then_get_witness : exists w', save_payment sample_payment empty_world = (Ok tt, w')
    /\ NoDup (map row_payment_id (payments w'))
    /\ (forall pid, pid <> payment_id sample_payment ->
          row_of pid (payments w') = row_of pid (payments empty_world))
    /\ fst (get_payment_by_id (tenant_id sample_payment) (payment_id sample_payment) w')
       = Ok (Some sample_payment).
Proof.
  apply (save_then_get sample_payment 10000 empty_world);
    [exact test_no_faults | exact test_rls_own | reflexivity | constructor | discriminate].
Defined.

(** [get_unprocessed] returns unpublished events only, in creation order
    and at most [limit] of them; when they fit it returns them all.  Every
    entry reports the aggregate as its tenant and no idempotency key, and its
    64-bit id is a truncation of the 128-bit one. *)
Theorem get_unprocessed_spec `{DecimalOps} `{!Env} (limit : Z) (w : World) :
  no_faults -> (0 <= limit)%Z ->
  exists rows, fst (get_unprocessed limit w) = Ok (map entry_of_row rows)
    /\ StronglySorted created_le rows
    /\ Forall (fun r => r ∈ outbox w /\ ob_published r = false) rows
    /\ (Z.of_nat (length rows) <= limit)%Z
    /\ ((Z.of_nat (length (outbox w)) <= limit)%Z ->
        rows ≡ₚ List.filter (fun r => negb (ob_published r)) (outbox w))
    /\ Forall (fun e => entry_tenant_id e = entry_aggregate_id e
                        /\ entry_idempotency_key e = "" /\ in_i64 (entry_outbox_id e))
         (map entry_of_row rows).
Proof.
  intros Hf Hl. unfold get_unprocessed. run_step (statement_ok _ Hf).
  unfold gets, mbind, M_bind. simpl. destruct (Z.ltb_spec limit 0); [lia|].
  set (l := List.filter _ (outbox w)). eexists. split; [done|].
  pose proof (merge_sort_Permutation created_le l) as Hp.
  split_and!.
  - apply StronglySorted_take, StronglySorted_merge_sort; apply _.
  - apply Forall_take. rewrite Hp. apply Forall_forall. intros r Hr.
    apply list_elem_of_In, List.filter_In in Hr as [Hin Hn].
    split; [by apply list_elem_of_In | by destruct (ob_published r)].
  - rewrite length_take. lia.
  - intros Hlen. rewrite take_ge; [done|]. rewrite Hp.
    assert (length l <= length (outbox w)) by apply List.filter_length_le. lia.
  - apply Forall_map, Forall_true. intros r. simpl. split_and!; [done | done |].
    apply (wrap_range 64). lia.
Qed.

Lemma get_unprocessed_spec_witness :
  exists rows, fst (get_unprocessed 10 empty_world) = Ok (map entry_of_row rows)
    /\ StronglySorted created_le rows
    /\ Forall (fun r => r ∈ outbox empty_world /\ ob_published r = false) rows
    /\ (Z.of_nat (length rows) <= 10)%Z
    /\ ((Z.of_nat (length (outbox empty_world)) <= 10)%Z ->
        rows ≡ₚ List.filter (fun r => negb (ob_published r)) (outbox empty_world))
    /\ Forall (fun e => entry_tenant_id e = entry_aggregate_id e
                        /\ entry_idempotency_key e = "" /\ in_i64 (entry_outbox_id e))
         (map entry_of_row rows).
Proof. apply (get_unprocessed_spec 10 empty_world); [exact test_no_faults | lia]. Defined.
