(* ===== verification/PaymentHandlers.v ===== *)
(** * Payment use cases

    [payment-engine/src/application/]: [initiate.rs] (idempotency check,
    creation, the provider call with retries, the outcome recorded) and
    [callback.rs] (a provider's report applied to a payment). *)

From Stdlib Require Import ZArith Lia.
From stdpp Require Import base list strings numbers.
From S2P Require Import Prelude RustStr External Reference Payment PaymentStore.

Local Open Scope string_scope.

Section handlers.
Context `{DecimalOps} `{RegexOps} `{UuidOps} `{!Env}.

(** ** [InitiatePaymentHandler] *)

Record InitiatePaymentCommand := mkInitiate {
  cmd_payment_id : Uuid;
  cmd_tenant_id : Uuid;
  cmd_idempotency_key : string;
  cmd_provider : MobileMoneyProvider;
  cmd_phone_number : string;
  cmd_amount : Dec;
  cmd_currency : string;
  cmd_reference : string;
  cmd_description : string;
}.

Record InitiateResult := mkInitiateResult {
  res_payment : Payment;
  res_provider_reference : option string;
}.

(** [self.provider.initiate(payment).await] *)
Definition call_initiate (p : Payment) : M World DomainError ProviderResponse := fun w =>
  (provider_initiate (length (sent w)) p,
   mkWorld (payments w) (outbox w) (tick w) (sent w ++ [p])%list (slept w)).

(** [tokio::time::sleep], in milliseconds *)
Definition sleep (ms : Z) : M World DomainError unit :=
  modify (fun w => mkWorld (payments w) (outbox w) (tick w) (sent w) (slept w ++ [ms])%list).

Definition max_attempts : nat := 3.

(** The [for attempt in 0..max_attempts] loop. *)
Fixpoint retry_loop (p : Payment) (last_error : option DomainError) (attempts : list nat)
    : M World DomainError ProviderResponse :=
  match attempts with
  | [] => throw (unwrap_or last_error (ProviderError "Unknown provider error after retries"))
  | attempt_no :: rest =>
      r ← attempt (call_initiate p);
      match r with
      | Ok response => mret response
      | Err e =>
          (if (attempt_no <? max_attempts - 1)%nat then
             n ← gets (fun w => length (slept w));
             sleep (2 ^ Z.of_nat attempt_no * 1000 + jitter n)%Z
           else mret tt) ;;
          retry_loop p (Some e) rest
      | Panic => lift Panic
      end
  end.

(** [call_provider_with_retry] *)
Definition call_provider_with_retry (p : Payment) : M World DomainError ProviderResponse :=
  retry_loop p None (seq 0 max_attempts).

Definition with_reference (p : Payment) (r : string) : Payment :=
  update p (status p) (Some r) (failure_reason p) (completed_at p).

(** [match provider_result { ... }]: the outcome is recorded. *)
Definition record_outcome (cmd : InitiatePaymentCommand) (payment : Payment)
    (provider_result : Result DomainError ProviderResponse) : M World DomainError InitiateResult :=
  match provider_result with
  | Ok response =>
      processing ← lift (mark_processing payment);
      let payment := with_reference processing (resp_provider_reference response) in
      save_payment payment ;;
      append_outbox "PaymentInitiated" (payment_id payment)
        (JObject [("event", JString "PaymentInitiated");
                  ("payment_id", JString (uuid_to_string (payment_id payment)));
                  ("provider_reference", JString (resp_provider_reference response));
                  ("status", JString (status_as_str (status payment)))])
        (cmd_idempotency_key cmd +:+ "-initiated") (tenant_id payment) ;;
      mret (mkInitiateResult payment (Some (resp_provider_reference response)))
  | Err e =>
      failed_at ← utc_now;
      let payment := or_same payment (mark_failed failed_at (error_to_string e) payment) in
      save_payment payment ;;
      _ ← attempt (append_outbox "PaymentFailed" (payment_id payment)
        (JObject [("event", JString "PaymentFailed");
                  ("payment_id", JString (uuid_to_string (payment_id payment)));
                  ("reason", JString (error_to_string e));
                  ("status", JString (status_as_str (status payment)))])
        (cmd_idempotency_key cmd +:+ "-failed") (tenant_id payment));
      throw e
  | Panic => lift Panic
  end.

(** The payment [handle] creates from a command at time [now]. *)
Definition new_of (cmd : InitiatePaymentCommand) (now : DateTime) : Result DomainError Payment :=
  new (cmd_payment_id cmd) (cmd_tenant_id cmd) (cmd_idempotency_key cmd)
    (cmd_provider cmd) (cmd_phone_number cmd) (cmd_amount cmd)
    (cmd_currency cmd) (cmd_reference cmd) (cmd_description cmd) now.

(** [handle] after the idempotency check: the payment is created and stored,
    the provider asked, the outcome recorded. *)
Definition initiate_new (cmd : InitiatePaymentCommand) : M World DomainError InitiateResult :=
  now ← utc_now;
  payment ← lift (new_of cmd now);
  save_payment payment ;;
  provider_result ← attempt (call_provider_with_retry payment);
  record_outcome cmd payment provider_result.

(** [InitiatePaymentHandler::handle] *)
Definition initiate (cmd : InitiatePaymentCommand) : M World DomainError InitiateResult :=
  existing ← find_by_idempotency_key (cmd_tenant_id cmd) (cmd_idempotency_key cmd);
  match existing with
  | Some _ => throw IdempotencyViolation
  | None => initiate_new cmd
  end.

(** ** [ProcessCallbackHandler] *)

Record ProcessCallbackCommand := mkCallback {
  cb_tenant_id : Uuid;
  cb_provider_reference : string;
  cb_payment_id : option Uuid;
  cb_status : ProviderStatus;
  cb_signature : string;
  cb_raw_payload : bytestring;
}.

Record CallbackResult := mkCallbackResult {
  cbr_payment : Payment;
  cbr_accepted : bool;
  cbr_new_status : string;
}.

(** The event recorded for a callback status. *)
Definition callback_event_type (s : ProviderStatus) : string :=
  match s with
  | PsCompleted => "PaymentCompleted"
  | PsFailed => "PaymentFailed"
  | PsCancelled => "PaymentCancelled"
  | PsRefunded => "PaymentRefunded"
  | _ => "PaymentStatusUpdated"
  end.

Definition callback_not_found (r : string) : DomainError :=
  NotFound ("Payment with provider_reference " +:+ r +:+ " not found").

(** Step 2: lookup by provider reference, then by id. *)
Definition callback_lookup (cmd : ProcessCallbackCommand) : M World DomainError Payment :=
  found ← get_payment_by_provider_ref (Some (cb_tenant_id cmd)) (cb_provider_reference cmd);
  match found with
  | Some p => mret p
  | None =>
      match cb_payment_id cmd with
      | Some pid =>
          by_id ← get_payment_by_id (cb_tenant_id cmd) pid;
          match by_id with
          | Some p => mret p
          | None => throw (callback_not_found (cb_provider_reference cmd))
          end
      | None => throw (callback_not_found (cb_provider_reference cmd))
      end
  end.

(** [ProcessCallbackHandler::handle] *)
Definition process_callback (cmd : ProcessCallbackCommand) : M World DomainError CallbackResult :=
  if negb (verify_callback_signature (cb_raw_payload cmd) (cb_signature cmd))
  then throw (ProviderError "Invalid callback signature")
  else
    payment ← callback_lookup cmd;
    let previous_status := status payment in
    now ← utc_now;
    let payment := apply_provider_status now (cb_status cmd) (Some (cb_provider_reference cmd))
                     payment in
    save_payment payment ;;
    let event_type := callback_event_type (cb_status cmd) in
    append_outbox event_type (payment_id payment)
      (JObject [("event", JString event_type);
                ("payment_id", JString (uuid_to_string (payment_id payment)));
                ("previous_status", JString (status_as_str previous_status));
                ("new_status", JString (status_as_str (status payment)));
                ("provider_reference", JString (cb_provider_reference cmd))])
      (cb_provider_reference cmd +:+ "-" +:+ event_type) (tenant_id payment) ;;
    mret (mkCallbackResult payment true (status_as_str (status payment))).

(** ** Lemmas *)

(** The tables and the provider log are the same. *)
Definition frame (w w' : World) : Prop :=
  payments w' = payments w /\ outbox w' = outbox w /\ sent w' = sent w /\ slept w' = slept w.

Lemma frame_refl w : frame w w.
Proof. done. Qed.

Lemma frame_trans w1 w2 w3 : frame w1 w2 -> frame w2 w3 -> frame w1 w3.
Proof. unfold frame. naive_solver congruence. Qed.

Definition reads {E A} (m : M World E A) : Prop := forall w, frame w (snd (m w)).

Lemma reads_ret {E A} (a : A) : reads (E := E) (mret a).
Proof. intros w. apply frame_refl. Qed.

Lemma reads_throw {E A} (e : E) : reads (A := A) (throw e).
Proof. intros w. apply frame_refl. Qed.

Lemma reads_lift {E A} (r : Result E A) : reads (lift r).
Proof. intros w. apply frame_refl. Qed.

Lemma reads_statement : reads statement.
Proof.
  intros w. unfold statement, with_err, sql_statement.
  by destruct (db_fault (tick w)).
Qed.

Lemma reads_now : reads utc_now.
Proof. intros w. done. Qed.

Lemma reads_gets {E A} (f : World -> A) : reads (E := E) (gets f).
Proof. intros w. done. Qed.

Lemma reads_bind {E A B} (m : M World E A) (f : A -> M World E B) :
  reads m -> (forall a, reads (f a)) -> reads (m ≫= f).
Proof.
  intros Hm Hf w. unfold mbind, M_bind. specialize (Hm w).
  destruct (m w) as [[a|e|] w']; simpl in *; [|done..].
  eapply frame_trans; [exact Hm | apply Hf].
Qed.

Lemma reads_attempt {E E' A} (m : M World E' A) : reads m -> reads (E := E) (attempt m).
Proof.
  intros Hm w. unfold attempt. specialize (Hm w). by destruct (m w) as [[| |] w'].
Qed.

#[local] Hint Resolve reads_ret reads_throw reads_lift reads_statement reads_now reads_gets
  reads_bind reads_attempt : reads.

Lemma reads_select t cond : reads (select_one t cond).
Proof.
  unfold select_one. apply reads_bind; [auto with reads|]. intros _.
  apply reads_bind; [auto with reads|]. intros rows. case_match; auto with reads.
Qed.

#[local] Hint Resolve reads_select : reads.

Lemma reads_lookup cmd : reads (callback_lookup cmd).
Proof.
  unfold callback_lookup, get_payment_by_provider_ref, get_payment_by_id, set_tenant.
  repeat (apply reads_bind; [auto with reads|]; intros ?).
  repeat case_match; auto with reads.
  repeat (apply reads_bind; [auto with reads|]; intros ?).
  case_match; auto with reads.
Qed.

Lemma reads_unsigned cmd :
  verify_callback_signature (cb_raw_payload cmd) (cb_signature cmd) = false ->
  reads (process_callback cmd).
Proof. intros Hv. unfold process_callback. rewrite Hv. apply reads_throw. Qed.

Definition provider_total : Prop := forall n p, provider_initiate n p <> Panic.

Definition pause (k : nat) (w : World) : list Z :=
  if (k <? max_attempts - 1)%nat
  then [2 ^ Z.of_nat k * 1000 + jitter (length (slept w))]%Z else [].

Definition called (p : Payment) (pauses : list Z) (w : World) : World :=
  mkWorld (payments w) (outbox w) (tick w) (sent w ++ [p])%list (slept w ++ pauses)%list.

Lemma retry_loop_ok p le k rest w r :
  provider_initiate (length (sent w)) p = Ok r ->
  retry_loop p le (k :: rest) w = (Ok r, called p [] w).
Proof.
  intros E. cbn [retry_loop]. unfold attempt, call_initiate, mbind, M_bind. rewrite E.
  unfold called. by rewrite app_nil_r.
Qed.

Lemma retry_loop_err p le k rest w e :
  provider_initiate (length (sent w)) p = Err e ->
  retry_loop p le (k :: rest) w = retry_loop p (Some e) rest (called p (pause k w) w).
Proof.
  intros E. cbn [retry_loop]. unfold attempt, call_initiate, mbind, M_bind, called, pause.
  rewrite E. destruct (k <? max_attempts - 1)%nat; [done|]. simpl. by rewrite app_nil_r.
Qed.

(** The pauses after [n] refused attempts, the first of them number [k]. *)
Definition pauses_from (k n drawn : nat) : list Z :=
  map (fun i => 2 ^ Z.of_nat (k + i) * 1000 + jitter (drawn + i))%Z (seq 0 n).

Lemma pauses_from_S k n drawn :
  pauses_from k (S n) drawn
  = ((2 ^ Z.of_nat k * 1000 + jitter drawn)%Z :: pauses_from (S k) n (S drawn))%list.
Proof.
  unfold pauses_from. cbn [seq map]. rewrite !Nat.add_0_r. f_equal.
  rewrite <- seq_shift, map_map. apply map_ext. intros i. by rewrite <- !plus_n_Sm.
Qed.

(** What the retries do: [n] refused calls and then a last one. *)
Lemma retry_run p : provider_total -> forall m k le w, k + m = 2 ->
  let f i := provider_initiate (length (sent w) + i) p in
  exists n w', n <= m /\ retry_loop p le (seq k (S m)) w = (f n, w')
    /\ (forall i, i < n -> exists e, f i = Err e)
    /\ (n < m -> exists r, f n = Ok r)
    /\ payments w' = payments w /\ outbox w' = outbox w /\ tick w' = tick w
    /\ sent w' = (sent w ++ replicate (S n) p)%list
    /\ slept w' = (slept w ++ pauses_from k n (length (slept w)))%list.
Proof.
  intros Hp. induction m as [|m IH]; intros k le w Hk f;
    assert (f 0 = provider_initiate (length (sent w)) p) as E0
      by (unfold f; by rewrite Nat.add_0_r);
    destruct (provider_initiate (length (sent w)) p) as [r|e|] eqn:E; try (by destruct (Hp _ _ E)).
  1, 3: exists 0, (called p [] w); rewrite E0; split_and!; try done; try lia; eauto;
    by apply retry_loop_ok.
  - exists 0, (called p [] w). rewrite E0. split_and!; try done; try lia.
    cbn [seq]. rewrite (retry_loop_err _ _ _ _ _ e E). by replace k with 2 by lia.
  - cbn [seq]. rewrite (retry_loop_err _ _ _ _ _ e E).
    destruct (IH (S k) (Some e) (called p (pause k w) w)) as
      (n & w' & Hn & Hr & Hf & Ho & E1 & E2 & E3 & E4 & E5); [lia|].
    exists (S n), w'. simpl in E1, E2, E3, E4, E5. simpl sent in Hr, Hf, Ho.
    rewrite length_app in Hr, Hf, Ho. cbn [length] in Hr, Hf, Ho.
    assert (forall i, length (sent w) + 1 + i = length (sent w) + S i) as Hs by lia.
    setoid_rewrite Hs in Hr. setoid_rewrite Hs in Hf. setoid_rewrite Hs in Ho.
    split_and!; try done; try lia.
    + intros [|i] Hi; [by exists e | apply Hf; lia].
    + intros Hi. apply Ho. lia.
    + by rewrite E4, <- app_assoc.
    + rewrite pauses_from_S, E5. unfold pause.
      destruct (Nat.ltb_spec k (max_attempts - 1)); [|unfold max_attempts in *; lia].
      by rewrite length_app, Nat.add_1_r, <- app_assoc.
Qed.

Lemma conflict_same p q : same_terms p q -> conflict_update (to_row p) (to_row q) = to_row q.
Proof.
  intros (E1 & E2 & E3 & E4 & E5 & E6 & E7 & E8 & E9 & E10).
  unfold conflict_update, to_row. simpl.
  by rewrite E1, E2, E3, E4, E5, E6, E7, E8, E9, E10.
Qed.

Lemma upsert_fresh r rows : row_of (row_payment_id r) rows = None ->
  upsert r rows = (rows ++ [r])%list.
Proof.
  unfold row_of. induction rows as [|x rows IH]; simpl; [done|]. case_match; [done|].
  intros Hn. by rewrite IH.
Qed.

Lemma upsert_last r x rows : row_payment_id x = row_payment_id r ->
  row_of (row_payment_id r) rows = None ->
  upsert r (rows ++ [x]) = (rows ++ [conflict_update x r])%list.
Proof.
  unfold row_of. intros E. induction rows as [|y rows IH]; simpl.
  - by rewrite E, N.eqb_refl.
  - case_match; [done|]. intros Hn. by rewrite IH.
Qed.

Lemma upsert_twice p q rows : same_terms p q -> row_of (payment_id p) rows = None ->
  upsert (to_row q) (upsert (to_row p) rows) = (rows ++ [to_row q])%list.
Proof.
  intros Hs Hn. assert (payment_id p = payment_id q) as E by apply Hs.
  rewrite (upsert_fresh (to_row p)) by done.
  rewrite upsert_last; [|done | by simpl; rewrite <- E]. by rewrite conflict_same.
Qed.

(** No visible payment of the tenant has the command's key. *)
Definition key_unused (cmd : InitiatePaymentCommand) (w : World) : Prop :=
  List.find (fun r => String.eqb (row_idempotency_key r) (cmd_idempotency_key cmd)
                      && rls (Some (cmd_tenant_id cmd)) r) (payments w) = None.

(** The payment after the provider's acceptance or refusal. *)
Definition accepted (p : Payment) (ref : string) : Payment :=
  update p Processing (Some ref) (failure_reason p) (completed_at p).
Definition refused (p : Payment) (now : DateTime) (e : DomainError) : Payment :=
  update p Failed (provider_reference p) (Some (error_to_string e)) (Some now).

Lemma same_terms_update p st r f c : same_terms p (update p st r f c).
Proof. by repeat split. Qed.

Lemma record_accepted cmd p resp w : no_faults -> status p = Pending ->
  exists w' ev, record_outcome cmd p (Ok resp) w
    = (Ok (mkInitiateResult (accepted p (resp_provider_reference resp))
             (Some (resp_provider_reference resp))), w')
    /\ payments w' = upsert (to_row (accepted p (resp_provider_reference resp))) (payments w)
    /\ outbox w' = (outbox w ++ [ev])%list /\ sent w' = sent w
    /\ ob_event_type ev = "PaymentInitiated" /\ ob_aggregate_id ev = payment_id p.
Proof.
  intros Hf Hst. unfold record_outcome.
  erewrite bind_ok; [|unfold lift, mark_processing; rewrite Hst; reflexivity].
  run_step (save_payment_ok _ _ Hf).
  edestruct append_outbox_ok as (ev & Ha & A1 & A2 & _); [done|].
  erewrite bind_ok; [|exact Ha]. by eexists _, ev.
Qed.

Lemma record_refused cmd p e w : no_faults -> status p = Pending ->
  exists w' ev, record_outcome cmd p (Err e) w = (Err e, w')
    /\ payments w' = upsert (to_row (refused p (clock (tick w)) e)) (payments w)
    /\ outbox w' = (outbox w ++ [ev])%list /\ sent w' = sent w
    /\ ob_event_type ev = "PaymentFailed" /\ ob_aggregate_id ev = payment_id p.
Proof.
  intros Hf Hst. unfold record_outcome.
  erewrite bind_ok; [|reflexivity]. unfold or_same, mark_failed. rewrite Hst.
  run_step (save_payment_ok _ _ Hf).
  edestruct append_outbox_ok as (ev & Ha & A1 & A2 & _); [done|].
  erewrite bind_ok; [|eapply attempt_ok; [exact Ha | done]]. by eexists _, ev.
Qed.

(** The run of [initiate_new] up to the outcome: the payment is stored pending
    and the provider is asked. *)
Lemma initiate_new_run cmd p w : no_faults -> provider_total ->
  new_of cmd (clock (tick w)) = Ok p ->
  exists n w1, n <= 2
    /\ initiate_new cmd w = record_outcome cmd p (provider_initiate (length (sent w) + n) p) w1
    /\ payments w1 = upsert (to_row p) (payments w) /\ outbox w1 = outbox w
    /\ sent w1 = (sent w ++ replicate (S n) p)%list
    /\ (forall i, i < n -> exists e, provider_initiate (length (sent w) + i) p = Err e)
    /\ (n < 2 -> exists r, provider_initiate (length (sent w) + n) p = Ok r).
Proof.
  intros Hf Hp Hn. unfold initiate_new.
  destruct (retry_run p Hp 2 0 None
    (set_payments (upsert (to_row p) (payments w)) (Nat.iter 3 next_tick w)) eq_refl)
    as (n & w2 & Hle & Hr & Herr & Hok & P2 & O2 & T2 & S2 & _).
  exists n, w2. simpl sent in *. split_and!; try done.
  erewrite bind_ok; [|reflexivity].
  erewrite bind_ok; [|unfold lift; rewrite Hn; reflexivity].
  run_step (save_payment_ok _ _ Hf).
  erewrite bind_ok; [reflexivity|]. eapply attempt_ok; [exact Hr | apply Hp].
Qed.

(** An unused key leads there. *)
Lemma initiate_unused cmd w : no_faults -> key_unused cmd w ->
  initiate cmd w = initiate_new cmd (next_tick (next_tick w)).
Proof.
  intros Hf Hk. unfold initiate.
  erewrite (bind_ok _ _ _ None); [reflexivity|].
  rewrite find_by_idempotency_key_ok, select_one_ok by done.
  cbn [payments next_tick]. unfold key_unused in Hk. by rewrite Hk.
Qed.

Lemma initiate_run cmd p w : no_faults -> provider_total -> key_unused cmd w ->
  new_of cmd (clock (S (S (tick w)))) = Ok p ->
  exists n w1, n <= 2
    /\ initiate cmd w = record_outcome cmd p (provider_initiate (length (sent w) + n) p) w1
    /\ payments w1 = upsert (to_row p) (payments w) /\ outbox w1 = outbox w
    /\ sent w1 = (sent w ++ replicate (S n) p)%list
    /\ (forall i, i < n -> exists e, provider_initiate (length (sent w) + i) p = Err e)
    /\ (n < 2 -> exists r, provider_initiate (length (sent w) + n) p = Ok r).
Proof.
  intros Hf Hp Hk Hn. rewrite (initiate_unused cmd w Hf Hk).
  exact (initiate_new_run cmd p (next_tick (next_tick w)) Hf Hp Hn).
Qed.

(** What a new payment takes from the command. *)
Lemma new_of_ok cmd now p : new_of cmd now = Ok p ->
  status p = Pending /\ payment_id p = cmd_payment_id cmd /\ tenant_id p = cmd_tenant_id cmd
  /\ idempotency_key p = cmd_idempotency_key cmd /\ amount p = cmd_amount cmd
  /\ currency p = cmd_currency cmd.
Proof.
  unfold new_of, new. intros Hn. repeat (case_match; [done|]). destruct (phone_is_match _); simplify_eq/=.
  done.
Qed.

End handlers.

(** ** Theorems *)

(** C24. The provider is called at most three times, one call after another
    with the same payment; the first acceptance is the result, and if all three
    are refused the last error is.  Before attempt [i + 1] the handler pauses
    [2^i] seconds plus less than half a second.  No table is touched.  (The
    request is repeated after any error, a lost answer included; the strategy
    guide forbids that for [POST /payment].) *)
Theorem retry_spec `{DecimalOps} `{!Env} (p : Payment) (w : World) :
  provider_total -> (forall n, 0 <= jitter n < 500)%Z ->
  let answer i := provider_initiate (length (sent w) + i) p in
  exists n w' pauses, n <= 2
    /\ call_provider_with_retry p w = (answer n, w')
    /\ (forall i, i < n -> exists e, answer i = Err e)
    /\ (n < 2 -> exists r, answer n = Ok r)
    /\ sent w' = (sent w ++ replicate (S n) p)%list
    /\ payments w' = payments w /\ outbox w' = outbox w
    /\ slept w' = (slept w ++ pauses)%list /\ length pauses = n
    /\ (forall (i : nat) z, pauses !! i = Some z ->
          (2 ^ Z.of_nat i * 1000 <= z < 2 ^ Z.of_nat i * 1000 + 500)%Z).
Proof.
  intros Hp Hj answer.
  destruct (retry_run p Hp 2 0 None w eq_refl)
    as (n & w' & Hle & Hr & Herr & Hok & P & O & T & S & L).
  exists n, w', (pauses_from 0 n (length (slept w))). unfold pauses_from.
  split_and!; try done; [by rewrite length_map, length_seq|].
  intros i z Hz. rewrite list_lookup_fmap in Hz. apply fmap_Some in Hz as (k & Hk & ->).
  apply lookup_seq in Hk as [-> _]. specialize (Hj (length (slept w) + i)). simpl. lia.
Qed.

Lemma retry_spec_witness :
  let answer i := provider_initiate (length (sent empty_world) + i) sample_payment in
  exists n w' pauses, n <= 2
    /\ call_provider_with_retry sample_payment empty_world = (answer n, w')
    /\ (forall i, i < n -> exists e, answer i = Err e)
    /\ (n < 2 -> exists r, answer n = Ok r)
    /\ sent w' = (sent empty_world ++ replicate (S n) sample_payment)%list
    /\ payments w' = payments empty_world /\ outbox w' = outbox empty_world
    /\ slept w' = (slept empty_world ++ pauses)%list /\ length pauses = n
    /\ (forall (i : nat) z, pauses !! i = Some z ->
          (2 ^ Z.of_nat i * 1000 <= z < 2 ^ Z.of_nat i * 1000 + 500)%Z).
Proof.
  apply (retry_spec sample_payment empty_world); [by intros n p | intros n; simpl; lia].
Defined.

(** The stored payment and the event after the provider's answer. *)
Definition recorded `{DecimalOps} (w w' : World) (p : Payment) (event_type : string) : Prop :=
  payments w' = (payments w ++ [to_row p])%list
  /\ exists ev, outbox w' = (outbox w ++ [ev])%list
       /\ ob_event_type ev = event_type /\ ob_aggregate_id ev = payment_id p.

Lemma initiate_recorded `{DecimalOps} `{RegexOps} `{UuidOps} `{!Env} cmd p w :
  no_faults -> provider_total -> key_unused cmd w ->
  row_of (cmd_payment_id cmd) (payments w) = None ->
  new_of cmd (clock (S (S (tick w)))) = Ok p ->
  exists n w', n <= 2 /\ sent w' = (sent w ++ replicate (S n) p)%list
    /\ (forall i, i < n -> exists e, provider_initiate (length (sent w) + i) p = Err e)
    /\ (n < 2 -> exists r, provider_initiate (length (sent w) + n) p = Ok r) /\
    match provider_initiate (length (sent w) + n) p with
    | Ok resp =>
        let q := accepted p (resp_provider_reference resp) in
        initiate cmd w = (Ok (mkInitiateResult q (Some (resp_provider_reference resp))), w')
        /\ recorded w w' q "PaymentInitiated"
    | Err e => exists now,
        initiate cmd w = (Err e, w') /\ recorded w w' (refused p now e) "PaymentFailed"
    | Panic => False
    end.
Proof.
  intros Hf Hp Hk Hr Hn. destruct (new_of_ok _ _ _ Hn) as (Hs & Hid & _).
  destruct (initiate_run cmd p w Hf Hp Hk Hn) as (n & w1 & Hle & E & P1 & O1 & S1 & Herr & Hok).
  rewrite <- Hid in Hr. unfold recorded.
  destruct (provider_initiate (length (sent w) + n) p) as [resp|e|] eqn:Ea; [| |by apply Hp in Ea].
  - destruct (record_accepted cmd p resp w1 Hf Hs) as (w' & ev & E' & P' & O' & S' & Ht & Ha).
    exists n, w'. rewrite Ea, E, E', S', P', P1, O', O1. split_and!; eauto.
    apply upsert_twice; [apply same_terms_update | done].
  - destruct (record_refused cmd p e w1 Hf Hs) as (w' & ev & E' & P' & O' & S' & Ht & Ha).
    exists n, w'. rewrite Ea, E, E', S', P', P1, O', O1. split_and!; [done|done|done| |].
    { intros Hlt. destruct (Hok Hlt) as [r Er]. congruence. }
    eexists. split_and!; eauto. apply upsert_twice; [apply same_terms_update | done].
Qed.

(** C7. [initiate] with an unused key and a new payment id always answers:
    when the provider accepts, one [Processing] row with the provider's
    reference and one [PaymentInitiated] event are added and the payment is
    returned; when it refuses every attempt, one [Failed] row with the error as
    reason and one [PaymentFailed] event are added and the provider's error is
    returned.  Nothing else in the tables changes.  The provider is called at
    most three times, every call before the last was answered with an error,
    and the last of fewer than three was accepted. *)
Theorem initiate_outcome `{DecimalOps} `{RegexOps} `{UuidOps} `{!Env} cmd p w :
  no_faults -> provider_total -> key_unused cmd w ->
  row_of (cmd_payment_id cmd) (payments w) = None ->
  new_of cmd (clock (S (S (tick w)))) = Ok p ->
  exists n w', n <= 2 /\ sent w' = (sent w ++ replicate (S n) p)%list
    /\ (forall i, i < n -> exists e, provider_initiate (length (sent w) + i) p = Err e)
    /\ (n < 2 -> exists r, provider_initiate (length (sent w) + n) p = Ok r) /\
    match provider_initiate (length (sent w) + n) p with
    | Ok resp =>
        let q := accepted p (resp_provider_reference resp) in
        initiate cmd w = (Ok (mkInitiateResult q (Some (resp_provider_reference resp))), w')
        /\ recorded w w' q "PaymentInitiated"
    | Err e => exists now,
        initiate cmd w = (Err e, w') /\ recorded w w' (refused p now e) "PaymentFailed"
    | Panic => False
    end.
Proof. apply initiate_recorded. Qed.

Definition sample_command : InitiatePaymentCommand :=
  mkInitiate 1%N 2%N "idem-123" EcoCash "2637123456789" (dec_new 10000 2) "USD" "REF-001"
    "Test payment".

Definition sample_created : Payment :=
  mkPayment 1%N 2%N "idem-123" EcoCash "2637123456789" (dec_new 10000 2) "USD" "REF-001"
    "Test payment" Pending None None 2%Z None.

Lemma initiate_outcome_witness :
  exists n w', n <= 2
    /\ sent w' = (sent empty_world ++ replicate (S n) sample_created)%list
    /\ (forall i, i < n -> exists e,
          provider_initiate (length (sent empty_world) + i) sample_created = Err e)
    /\ (n < 2 -> exists r, provider_initiate (length (sent empty_world) + n) sample_created = Ok r) /\
    match provider_initiate (length (sent empty_world) + n) sample_created with
    | Ok resp =>
        let q := accepted sample_created (resp_provider_reference resp) in
        initiate sample_command empty_world
        = (Ok (mkInitiateResult q (Some (resp_provider_reference resp))), w')
        /\ recorded empty_world w' q "PaymentInitiated"
    | Err e => exists now, initiate sample_command empty_world = (Err e, w')
        /\ recorded empty_world w' (refused sample_created now e) "PaymentFailed"
    | Panic => False
    end.
Proof.
  apply (initiate_outcome sample_command sample_created empty_world);
    [exact test_no_faults | by intros n p | reflexivity | reflexivity | reflexivity].
Defined.

(** A callback whose signature does not verify changes nothing at all: no
    statement is even executed. *)
Theorem callback_unsigned `{DecimalOps} `{UuidOps} `{!Env} cmd w :
  verify_callback_signature (cb_raw_payload cmd) (cb_signature cmd) = false ->
  process_callback cmd w = (Err (ProviderError "Invalid callback signature"), w).
Proof. intros Hv. unfold process_callback. by rewrite Hv. Qed.

Definition forged : ProcessCallbackCommand :=
  mkCallback 2%N "PROV-1" None PsCompleted "forged" [].

Lemma callback_unsigned_witness : process_callback forged empty_world
  = (Err (ProviderError "Invalid callback signature"), empty_world).
Proof. apply (callback_unsigned forged empty_world). reflexivity. Defined.

(** What a signed callback does once the payment is found. *)
Lemma process_found `{DecimalOps} `{UuidOps} `{!Env} cmd p w w1 :
  no_faults -> verify_callback_signature (cb_raw_payload cmd) (cb_signature cmd) = true ->
  callback_lookup cmd w = (Ok p, w1) ->
  let p' := apply_provider_status (clock (tick w1)) (cb_status cmd)
              (Some (cb_provider_reference cmd)) p in
  exists w' ev,
    process_callback cmd w = (Ok (mkCallbackResult p' true (status_as_str (status p'))), w')
    /\ payments w' = upsert (to_row p') (payments w)
    /\ outbox w' = (outbox w ++ [ev])%list
    /\ ob_event_type ev = callback_event_type (cb_status cmd)
    /\ ob_aggregate_id ev = payment_id p' /\ sent w' = sent w
    /\ ob_payload ev = JObject [("event", JString (callback_event_type (cb_status cmd)));
         ("payment_id", JString (uuid_to_string (payment_id p')));
         ("previous_status", JString (status_as_str (status p)));
         ("new_status", JString (status_as_str (status p')));
         ("provider_reference", JString (cb_provider_reference cmd))].
Proof.
  intros Hf Hv Hl p'. unfold process_callback. rewrite Hv. cbn [negb].
  pose proof (reads_lookup cmd w) as Hr. rewrite Hl in Hr. destruct Hr as (P & O & S & _).
  simpl in P, O, S.
  erewrite bind_ok; [|exact Hl]. erewrite bind_ok; [|reflexivity]. cbn beta zeta.
  run_step (save_payment_ok _ _ Hf).
  edestruct append_outbox_ok as (ev & Ha & A1 & A2 & A3 & _); [exact Hf|].
  erewrite bind_ok; [|exact Ha]. eexists _, ev. split; [reflexivity|]. simpl.
  by rewrite P, O, S.
Qed.

(** C8. A signed callback answers in every case: when neither the provider
    reference nor the payment id finds a payment the lookup's error is
    returned and the tables are as before; when one is found the payment that
    [apply_provider_status] gives is saved and returned as accepted, and one
    event named after the reported status is appended, whose payload tells the
    status before and after. *)
Theorem callback_outcome `{DecimalOps} `{UuidOps} `{!Env} cmd w r w1 :
  no_faults -> verify_callback_signature (cb_raw_payload cmd) (cb_signature cmd) = true ->
  callback_lookup cmd w = (r, w1) ->
  match r with
  | Ok p =>
      let p' := apply_provider_status (clock (tick w1)) (cb_status cmd)
                  (Some (cb_provider_reference cmd)) p in
      exists w' ev,
        process_callback cmd w = (Ok (mkCallbackResult p' true (status_as_str (status p'))), w')
        /\ payments w' = upsert (to_row p') (payments w)
        /\ outbox w' = (outbox w ++ [ev])%list
        /\ ob_event_type ev = callback_event_type (cb_status cmd)
        /\ ob_aggregate_id ev = payment_id p' /\ sent w' = sent w
        /\ ob_payload ev = JObject [("event", JString (callback_event_type (cb_status cmd)));
             ("payment_id", JString (uuid_to_string (payment_id p')));
             ("previous_status", JString (status_as_str (status p)));
             ("new_status", JString (status_as_str (status p')));
             ("provider_reference", JString (cb_provider_reference cmd))]
  | Err e => process_callback cmd w = (Err e, w1) /\ frame w w1
  | Panic => process_callback cmd w = (Panic, w1) /\ frame w w1
  end.
Proof.
  intros Hf Hv Hl. destruct r as [p|e|]; [by apply process_found|..].
  all: pose proof (reads_lookup cmd w) as Hr; rewrite Hl in Hr; split; [|exact Hr];
    unfold process_callback; rewrite Hv; cbn [negb]; unfold mbind, M_bind; by rewrite Hl.
Qed.

Definition genuine (st : ProviderStatus) : ProcessCallbackCommand :=
  mkCallback 2%N "PROV-1" None st "good" [].

Definition paid_world : World := snd (initiate sample_command empty_world).

Lemma callback_outcome_witness :
  exists w' ev p',
    process_callback (genuine PsCompleted) paid_world
    = (Ok (mkCallbackResult p' true "completed"), w')
    /\ outbox w' = (outbox paid_world ++ [ev])%list /\ ob_event_type ev = "PaymentCompleted".
Proof.
  destruct (callback_outcome (genuine PsCompleted) paid_world
    (Ok (accepted sample_created "PROV-1")) _ test_no_faults eq_refl eq_refl)
    as (w' & ev & E1 & _ & E2 & E3 & _).
  exists w', ev. eexists. split_and!; [exact E1 | exact E2 | exact E3].
Defined.

(** The status a report asks for. *)
Definition wanted (st : ProviderStatus) : option PaymentStatus :=
  match st with
  | PsCompleted => Some Completed | PsFailed => Some Failed
  | PsCancelled => Some Cancelled | PsRefunded => Some Refunded
  | PsProcessing => Some Processing | PsPending | PsUnknown => None
  end.

Lemma apply_refused `{DecimalOps} now st r p to :
  wanted st = Some to -> allowed (status p) to = false -> apply_provider_status now st r p = p.
Proof.
  destruct p as [? ? ? ? ? ? ? ? ? s ? ? ? ?]. destruct st, s; intros [= <-] ?;
    first [done | discriminate].
Qed.

Lemma upsert_id r rows : row_of (row_payment_id r) rows = Some r -> upsert r rows = rows.
Proof.
  unfold row_of. induction rows as [|x rows IH]; simpl; [done|].
  case_match; [|by intros Hn; rewrite IH]. intros [= ->]. by destruct r.
Qed.

(** A report that the status machine does not allow (a completion for a
    failed payment, a second completion) leaves every payment as it was, but
    is still answered as accepted and still appends an event named after the
    report: the event stream then announces a status the payment never took,
    or announces it again on every redelivery. *)
Theorem callback_refused_still_announced `{DecimalOps} `{UuidOps} `{!Env} cmd p to w w1 :
  no_faults -> verify_callback_signature (cb_raw_payload cmd) (cb_signature cmd) = true ->
  callback_lookup cmd w = (Ok p, w1) -> row_of (payment_id p) (payments w) = Some (to_row p) ->
  wanted (cb_status cmd) = Some to -> allowed (status p) to = false ->
  exists w' ev,
    process_callback cmd w = (Ok (mkCallbackResult p true (status_as_str (status p))), w')
    /\ payments w' = payments w
    /\ outbox w' = (outbox w ++ [ev])%list
    /\ ob_event_type ev = callback_event_type (cb_status cmd).
Proof.
  intros Hf Hv Hl Hrow Hw Ha.
  destruct (process_found cmd p w w1 Hf Hv Hl) as (w' & ev & E & P & O & T & _).
  rewrite (apply_refused _ _ _ _ _ Hw Ha) in E, P. exists w', ev.
  rewrite E, P. split_and!; [done | by apply upsert_id | done | done].
Qed.

Lemma callback_refused_still_announced_witness :
  exists w' ev p,
    process_callback (genuine PsRefunded) paid_world
    = (Ok (mkCallbackResult p true "processing"), w')
    /\ payments w' = payments paid_world
    /\ outbox w' = (outbox paid_world ++ [ev])%list /\ ob_event_type ev = "PaymentRefunded".
Proof.
  destruct (callback_refused_still_announced (genuine PsRefunded) (accepted sample_created "PROV-1")
    Refunded paid_world _ test_no_faults eq_refl eq_refl eq_refl eq_refl eq_refl)
    as (w' & ev & E1 & E2 & E3 & E4).
  exists w', ev. eexists. split_and!; [exact E1 | exact E2 | exact E3 | exact E4].
Defined.
