(* ===== verification/Threads.v ===== *)
(** * Interleaved handlers

    The handlers of one process run concurrently: an [async fn] gives way to
    others at every [await], so requests interleave statement by statement.  A
    [Thread] is a handler cut at these points: it is finished, or it has one
    atomic step to do and a continuation that sees the world before the step.
    Alone, a thread is a computation of the monad [M] ([run]); together,
    threads take turns in any order ([interleave], or [play] for a given
    schedule).  Properties of every interleaving are proved by the guarantee of
    each thread ([guarantees]). *)

From stdpp Require Import base list relations.
From S2P Require Import Prelude.

Section threads.
Context {W E : Type}.

Inductive Thread (A : Type) : Type :=
  | Done (r : Result E A)
  | Step (f : W -> W) (k : W -> Thread A).
Arguments Done {A} r.
Arguments Step {A} f k.

(** The thread alone. *)
Fixpoint run {A} (t : Thread A) : M W E A := fun w =>
  match t with
  | Done r => (r, w)
  | Step f k => run (k w) (f w)
  end.

(** A computation without an [await] inside: one statement, one request. *)
Definition atom {A} (m : M W E A) : Thread A :=
  Step (fun w => snd (m w)) (fun w => Done (fst (m w))).

Fixpoint thread_bind {A B} (f : A -> Thread B) (t : Thread A) : Thread B :=
  match t with
  | Done (Ok a) => f a
  | Done (Err e) => Done (Err e)
  | Done Panic => Done Panic
  | Step g k => Step g (fun w => thread_bind f (k w))
  end.

#[global] Instance Thread_ret : MRet Thread := fun A a => Done (Ok a).
#[global] Instance Thread_bind : MBind Thread := fun A B f t => thread_bind f t.

(** ** One thread *)

(** The thread is the computation [m], cut into steps. *)
Definition implements {A} (t : Thread A) (m : M W E A) : Prop := forall w, run t w = m w.

Lemma implements_done {A} (r : Result E A) : implements (Done r) (lift r).
Proof. by intros w. Qed.

Lemma implements_ret {A} (a : A) : implements (mret a) (mret a).
Proof. by intros w. Qed.

Lemma implements_atom {A} (m : M W E A) : implements (atom m) m.
Proof. intros w. simpl. by destruct (m w). Qed.

Lemma run_bind {A B} (t : Thread A) (f : A -> Thread B) w :
  run (t ≫= f) w = match run t w with
                   | (Ok a, w') => run (f a) w'
                   | (Err e, w') => (Err e, w')
                   | (Panic, w') => (Panic, w')
                   end.
Proof.
  unfold mbind, Thread_bind. revert w.
  induction t as [[a|e|]|g k IH]; intros w; simpl; [done | done | done | by rewrite IH].
Qed.

Lemma implements_bind {A B} (t : Thread A) (f : A -> Thread B) m g :
  implements t m -> (forall a, implements (f a) (g a)) -> implements (t ≫= f) (m ≫= g).
Proof.
  intros Ht Hf w. rewrite run_bind, Ht. unfold mbind, M_bind.
  destruct (m w) as [[a|e|] w']; [apply Hf | done | done].
Qed.

(** ** Many threads *)

(** One step of the [i]-th of them. *)
Inductive interleave {A} : list (Thread A) * W -> list (Thread A) * W -> Prop :=
  | interleave_at i f k ts w : ts !! i = Some (Step f k) ->
      interleave (ts, w) (<[i := k w]> ts, f w).

(** A schedule: whose turn it is; a finished thread passes. *)
Fixpoint play {A} (schedule : list nat) (ts : list (Thread A)) (w : W) : list (Thread A) * W :=
  match schedule with
  | [] => (ts, w)
  | i :: rest =>
      match ts !! i with
      | Some (Step f k) => play rest (<[i := k w]> ts) (f w)
      | _ => play rest ts w
      end
  end.

Lemma play_app {A} s1 s2 (ts : list (Thread A)) w :
  play (s1 ++ s2) ts w = let '(ts', w') := play s1 ts w in play s2 ts' w'.
Proof.
  revert ts w. induction s1 as [|i s1 IH]; intros ts w; simpl; [done|].
  destruct (ts !! i) as [[r|f k]|]; apply IH.
Qed.

(** The schedules are the interleavings. *)
Lemma interleave_play {A} (ts : list (Thread A)) w ts' w' :
  rtc interleave (ts, w) (ts', w') <-> exists schedule, play schedule ts w = (ts', w').
Proof.
  split.
  - intros Hr. remember (ts, w) as x eqn:Ex. remember (ts', w') as y eqn:Ey. revert ts w Ex.
    induction Hr as [x|x x1 y Hs Hr IH]; intros ts w Ex.
    + exists []. simpl. congruence.
    + destruct Hs as [i f k ts0 w0 Hi]. injection Ex as -> ->.
      destruct (IH Ey _ _ eq_refl) as [s Hs]. exists (i :: s). simpl. by rewrite Hi.
  - intros [s Hs]. revert ts w Hs. induction s as [|i s IH]; intros ts w Hs; simpl in Hs.
    + simplify_eq. apply rtc_refl.
    + destruct (ts !! i) as [[r|f k]|] eqn:Hi; [by apply IH | | by apply IH].
      eapply rtc_l; [by apply interleave_at | by apply IH].
Qed.

(** A part of a thread left alone for long enough ends with what [run] gives;
    [F] is the rest of the thread around the part. *)
Lemma part_steps {A B} (F : Thread A -> Thread B) i (ts : list (Thread B)) t w r w' :
  (forall f k, F (Step f k) = Step f (fun w => F (k w))) ->
  ts !! i = Some (F t) -> run t w = (r, w') ->
  rtc interleave (ts, w) (<[i := F (Done r)]> ts, w').
Proof.
  intros HF. revert ts w. induction t as [r0|f k IH]; intros ts w Hi Hr; simpl in Hr.
  - simplify_eq. rewrite list_insert_id by done. apply rtc_refl.
  - rewrite HF in Hi. eapply rtc_l; [by apply interleave_at|].
    rewrite <- (list_insert_insert_eq ts i (F (Done r)) (F (k w))). apply (IH w); [|done].
    apply list_lookup_insert_eq. by eapply lookup_lt_Some.
Qed.

Lemma solo_steps {A} i (ts : list (Thread A)) t w r w' :
  ts !! i = Some t -> run t w = (r, w') -> rtc interleave (ts, w) (<[i := Done r]> ts, w').
Proof. by apply (part_steps (fun t => t)). Qed.

(** The first part of a sequence, inside another one. *)
Lemma seq_steps {A B C} i (ts : list (Thread C)) (t : Thread A) (f : A -> Thread B) (g : B -> Thread C)
    w a w' :
  ts !! i = Some ((t ≫= f) ≫= g) -> run t w = (Ok a, w') ->
  rtc interleave (ts, w) (<[i := f a ≫= g]> ts, w').
Proof. exact (part_steps (fun t => (t ≫= f) ≫= g) i ts t w (Ok a) w' (fun _ _ => eq_refl)). Qed.

(** ** Every schedule ends *)

(** One thread of a list makes a step, in any world. *)
Inductive advances {A} : list (Thread A) -> list (Thread A) -> Prop :=
  | advances_at i f k ts w : ts !! i = Some (Step f k) -> advances (<[i := k w]> ts) ts.

Lemma advances_acc_cons {A} (t : Thread A) ts : Acc advances ts -> Acc advances (t :: ts).
Proof.
  revert ts. induction t as [r|f k IH]; intros ts Hts; induction Hts as [ts Hts IHts]; constructor;
    intros ts' Ha; inversion Ha as [[|i] f' k' ts0 w Hi]; simplify_eq/=.
  - apply IHts. by eapply advances_at.
  - apply IH. by constructor.
  - apply IHts. by eapply advances_at.
Qed.

Lemma advances_wf {A} : well_founded (advances (A := A)).
Proof.
  intros ts. induction ts as [|t ts IH]; [|by apply advances_acc_cons].
  constructor. intros ts' Ha. by inversion Ha.
Qed.

(** There is no endless schedule, and where no thread can go on all are done. *)
Lemma interleave_terminates {A} (ts : list (Thread A)) w :
  Acc (fun x y => interleave y x) (ts, w)
  /\ forall ts' w', rtc interleave (ts, w) (ts', w') ->
     (forall x, ~ interleave (ts', w') x) -> Forall (fun t => exists r, t = Done r) ts'.
Proof.
  split.
  - revert w. induction (advances_wf ts) as [ts _ IH]. intros w. constructor. intros [ts' w'] Hs.
    inversion Hs as [i f k ts0 w0 Hi]; simplify_eq. apply IH. by eapply advances_at.
  - intros ts' w' _ Hstuck. apply Forall_lookup. intros i [r|f k] Hi; [by exists r|].
    destruct (Hstuck (<[i := k w']> ts', f w')). by apply interleave_at.
Qed.

(** ** What every interleaving keeps *)

Section guarantee.
Variable I : W -> Prop.
Variable G : W -> W -> Prop.

(** From worlds in [I] every step of the thread is in [G], whatever the others
    did in between, and its result is in [Q]. *)
Fixpoint ensures {A} (Q : Result E A -> Prop) (t : Thread A) : Prop :=
  match t with
  | Done r => Q r
  | Step f k => forall w, I w -> G w (f w) /\ ensures Q (k w)
  end.

Definition guarantees {A} (Q : A -> Prop) (t : Thread A) : Prop :=
  ensures (fun r => forall a, r = Ok a -> Q a) t.

Lemma ensures_bind {A B} (Q : Result E A -> Prop) (R : Result E B -> Prop) t (f : A -> Thread B) :
  ensures Q t ->
  (forall r, Q r -> match r with
                    | Ok a => ensures R (f a) | Err e => R (Err e) | Panic => R Panic
                    end) ->
  ensures R (t ≫= f).
Proof.
  unfold mbind, Thread_bind. intros Ht Hf. induction t as [r|g k IH]; simpl in *.
  - specialize (Hf r Ht). by destruct r.
  - intros w Hw. destruct (Ht w Hw) as [Hg Hk]. split; [done|]. by apply IH.
Qed.

Lemma ensures_atom {A} (Q : Result E A -> Prop) (m : M W E A) :
  (forall w, I w -> G w (snd (m w)) /\ Q (fst (m w))) -> ensures Q (atom m).
Proof. intros Hm w Hw. by apply Hm. Qed.

Lemma guarantees_bind {A B} Q R (t : Thread A) (f : A -> Thread B) :
  guarantees Q t -> (forall a, Q a -> guarantees R (f a)) -> guarantees R (t ≫= f).
Proof. intros Ht Hf. eapply ensures_bind; [exact Ht|]. intros [a|e|] Hr; [by apply Hf, Hr | done | done]. Qed.

Lemma guarantees_atom {A} (Q : A -> Prop) (m : M W E A) :
  (forall w, I w -> G w (snd (m w)) /\ forall a, fst (m w) = Ok a -> Q a) -> guarantees Q (atom m).
Proof. apply (ensures_atom (fun r => forall a, r = Ok a -> Q a)). Qed.

Lemma guarantees_done {A} (Q : A -> Prop) (a : A) : Q a -> guarantees Q (Done (Ok a)).
Proof. by intros Hq b [= <-]. Qed.

Lemma ensures_weaken {A} (Q R : Result E A -> Prop) (t : Thread A) :
  ensures Q t -> (forall r, Q r -> R r) -> ensures R t.
Proof.
  intros Ht Hq. induction t as [r|g k IH]; simpl in *; [by apply Hq|].
  intros w Hw. destruct (Ht w Hw) as [Hg Hk]. split; [done | by apply IH].
Qed.

Hypothesis I_stable : forall w w', I w -> G w w' -> I w'.

(** A thread that runs alone. *)
Lemma ensures_run {A} (Q : Result E A -> Prop) (t : Thread A) w : I w -> ensures Q t ->
  I (snd (run t w)) /\ rtc G w (snd (run t w)) /\ Q (fst (run t w)).
Proof.
  revert w. induction t as [r|f k IH]; intros w Hw Ht; simpl in *; [by split_and!; try apply rtc_refl|].
  destruct (Ht w Hw) as [Hg Hk]. destruct (IH w (f w)) as (Hi & Hr & Hq); [by eapply I_stable | done |].
  split_and!; [done | by eapply rtc_l | done].
Qed.

(** What a thread knows of the worlds it runs in: at first [S], after a step
    that it is in a world the others reach from there.  The result is judged in
    the world in which it is looked at. *)
Fixpoint assures {A} (S : W -> Prop) (Q : Result E A -> W -> Prop) (t : Thread A) : Prop :=
  match t with
  | Done r => forall w, I w -> S w -> Q r w
  | Step f k => forall w, I w -> S w -> G w (f w) /\ assures (rtc G (f w)) Q (k w)
  end.

Lemma ensures_assures {A} (Q : Result E A -> Prop) t S : ensures Q t -> assures S (fun r _ => Q r) t.
Proof.
  revert S. induction t as [r|f k IH]; intros S Ht; simpl in *; [done|].
  intros w Hw _. destruct (Ht w Hw) as [Hg Hk]. split; [done | by apply IH].
Qed.

(** It is enough to know the thread from each world it may start in. *)
Lemma assures_from {A} S (Q : Result E A -> W -> Prop) t :
  (forall w, I w -> S w -> assures (rtc G w) Q t) -> assures S Q t.
Proof.
  destruct t as [r|f k]; simpl; intros Ht w Hw Hs;
    [by apply (Ht w Hw Hs) | by apply (Ht w Hw Hs w Hw)].
Qed.

Lemma assures_bind {A B} S (Q : Result E A -> W -> Prop) (R : Result E B -> W -> Prop) t f :
  assures S Q t ->
  (forall r w, I w -> Q r w -> match r with
    | Ok a => assures (rtc G w) R (f a)
    | Err e => forall w', I w' -> rtc G w w' -> R (Err e) w'
    | Panic => forall w', I w' -> rtc G w w' -> R Panic w'
    end) ->
  assures S R (t ≫= f).
Proof.
  unfold mbind, Thread_bind. intros Ht Hf. revert S Ht.
  induction t as [r|g k IH]; intros S Ht; simpl in *.
  - apply assures_from. intros w Hw Hs. specialize (Hf r w Hw (Ht w Hw Hs)). by destruct r.
  - intros w Hw Hs. destruct (Ht w Hw Hs) as [Hg Hk]. split; [done | by apply IH].
Qed.

Lemma assures_atom {A} S (Q : Result E A -> W -> Prop) (m : M W E A) :
  (forall w, I w -> S w -> G w (snd (m w))
    /\ forall w', I w' -> rtc G (snd (m w)) w' -> Q (fst (m w)) w') ->
  assures S Q (atom m).
Proof. intros Hm w Hw Hs. by apply Hm. Qed.

(** A claim about successful results only. *)
Definition if_ok {A} (Q : A -> W -> Prop) : Result E A -> W -> Prop :=
  fun r w => forall a, r = Ok a -> Q a w.

Lemma assures_then {A B} S (Q : A -> W -> Prop) (R : B -> W -> Prop) (t : Thread A) (f : A -> Thread B) :
  assures S (if_ok Q) t -> (forall a w, I w -> Q a w -> assures (rtc G w) (if_ok R) (f a)) ->
  assures S (if_ok R) (t ≫= f).
Proof.
  intros Ht Hf. eapply assures_bind; [exact Ht|].
  intros [a|e|] w Hw Hq; [by apply Hf, Hq | done | done].
Qed.

Lemma assures_ret {A} S (Q : A -> W -> Prop) (a : A) :
  (forall w, I w -> S w -> Q a w) -> assures S (if_ok Q) (Done (Ok a)).
Proof. by intros Hq w Hw Hs b [= <-]; apply Hq. Qed.

(** The thread in the world [w]. *)
Definition holds {A} (w : W) (Q : Result E A -> W -> Prop) (t : Thread A) : Prop :=
  exists S : W -> Prop, S w /\ (forall w w', S w -> G w w' -> S w') /\ assures S Q t.

Lemma holds_step {A} (Q : Result E A -> W -> Prop) t w w' : holds w Q t -> G w w' -> holds w' Q t.
Proof. intros (S & Hs & Hc & Ha) Hg. exists S. split_and!; [by eapply Hc | done | done]. Qed.

Lemma holds_start {A} (Q : Result E A -> W -> Prop) t w : assures (fun _ => True) Q t -> holds w Q t.
Proof. intros Ha. by exists (fun _ => True). Qed.

Lemma holds_done {A} (Q : Result E A -> W -> Prop) r w : I w -> holds w Q (Done r) -> Q r w.
Proof. intros Hi (S & Hs & _ & Ha). by apply Ha. Qed.

(** Each thread with what its own result is to be. *)
Lemma interleave_holds {A} (Qs : list (Result E A -> W -> Prop)) ts w ts' w' :
  I w -> Forall2 (holds w) Qs ts -> rtc interleave (ts, w) (ts', w') ->
  I w' /\ rtc G w w' /\ Forall2 (holds w') Qs ts'.
Proof.
  intros Hi Ht Hr. remember (ts, w) as x eqn:Ex. remember (ts', w') as y eqn:Ey.
  revert ts w Ex Hi Ht. induction Hr as [x|x x1 y Hs Hr IH]; intros ts w Ex Hi Ht.
  - simplify_eq. split_and!; [done | apply rtc_refl | done].
  - destruct Hs as [i f k ts0 w0 Hl]. injection Ex as -> ->.
    destruct (Forall2_lookup_r _ _ _ _ _ Ht Hl) as (Q & HQ & S & Hs & _ & Hens).
    destruct (Hens w Hi Hs) as [Hg Hk].
    destruct (IH Ey (<[i := k w]> ts) (f w) eq_refl) as (Hi' & Hr' & Ht').
    { by eapply I_stable. }
    { rewrite <- (list_insert_id Qs i Q) by done. apply Forall2_insert.
      - eapply Forall2_impl; [exact Ht|]. intros Q' t' Hh. by eapply holds_step.
      - exists (rtc G (f w)). split_and!; [apply rtc_refl | | done].
        intros w1 w2 H1 H2. by eapply rtc_r. }
    split_and!; [done | by eapply rtc_l | done].
Qed.

Lemma interleave_ensures {A} (Qs : list (Result E A -> Prop)) ts w ts' w' :
  I w -> Forall2 ensures Qs ts -> rtc interleave (ts, w) (ts', w') ->
  I w' /\ rtc G w w' /\ Forall2 (fun Q t => holds w' (fun r _ => Q r) t) Qs ts'.
Proof.
  intros Hi Ht Hr.
  destruct (interleave_holds (map (fun Q r _ => Q r) Qs) ts w ts' w' Hi) as (Hi' & Hg & Ht').
  - apply Forall2_fmap_l. eapply Forall2_impl; [exact Ht|]. intros Q t Hq.
    apply holds_start. exact (ensures_assures Q t _ Hq).
  - done.
  - split_and!; [done | done|]. exact (proj1 (Forall2_fmap_l _ _ _ _) Ht').
Qed.
End guarantee.

End threads.
Arguments Thread : clear implicits.
Arguments Done {W E A} r.
Arguments Step {W E A} f k.

(** [attempt] on threads: the result of [t] as a value. *)
Fixpoint thread_attempt {W E E' A} (t : Thread W E' A) : Thread W E (Result E' A) :=
  match t with
  | Done Panic => Done Panic
  | Done r => Done (Ok r)
  | Step f k => Step f (fun w => thread_attempt (k w))
  end.

Lemma implements_attempt {W E E' A} (t : Thread W E' A) (m : M W E' A) :
  implements t m -> implements (E := E) (thread_attempt t) (attempt m).
Proof.
  intros Ht w. unfold attempt. rewrite <- Ht. clear Ht. revert w.
  induction t as [[a|e|]|f k IH]; intros w; simpl; [done | done | done | by rewrite IH].
Qed.

Lemma guarantees_attempt {W E E' A} I G (Q : A -> Prop) (t : Thread W E' A) :
  guarantees I G Q t ->
  guarantees (E := E) I G (fun r => forall a, r = Ok a -> Q a) (thread_attempt t).
Proof.
  unfold guarantees. intros Ht. induction t as [[a|e|]|f k IH]; simpl in *;
    [by intros r [= <-] | by intros r [= <-] | done |].
  intros w Hw. destruct (Ht w Hw) as [Hg Hk]. split; [done | by apply IH].
Qed.

Create HintDb threads.
#[export] Hint Resolve implements_done implements_ret implements_atom implements_bind
  implements_attempt : threads.
