(* ===== verification/Ownership.v ===== *)
(** * Threads that own what they create

    A thread that draws a fresh identifier is the only one to write the rows
    under it.  [owned] says what a thread may rely on then: what it knows of the
    rows under its own identifiers lasts, whatever the others do
    ([interleave_owned]).  The identifiers in use ([born]) and what is stored
    under one ([view]) are those of a given system. *)

From Stdlib Require Import Lia.
From stdpp Require Import base list relations.
From S2P Require Import Prelude Threads.

(** One place of three lists, and what holds of the others. *)
Lemma Forall3_update {A B C} (P P' : A -> B -> C -> Prop) l k m i x y z :
  Forall3 P l k m -> l !! i = Some x -> P' x y z ->
  (forall j a b c, j <> i -> k !! j = Some b -> P a b c -> P' a b c) ->
  Forall3 P' l (<[i := y]> k) (<[i := z]> m).
Proof.
  intros Hl. revert i. induction Hl as [|a b c l k m Ha Hl IH]; intros [|i] Hi Hz Hp; simplify_eq/=.
  - constructor; [done|]. clear IH Hz.
    assert (forall j a b c, k !! j = Some b -> P a b c -> P' a b c) as Hp'.
    { intros j a' b' c' Hj. by apply (Hp (S j)). }
    clear Hp. induction Hl as [|a' b' c' l k m Ha' Hl IH]; constructor.
    + by apply (Hp' 0 a' b').
    + apply IH. intros j. apply (Hp' (S j)).
  - constructor; [by apply (Hp 0 a b)|]. apply IH; [done | done|].
    intros j a' b' c' Hne Hj. apply (Hp (S j)); [lia | done].
Qed.

Section ownership.
Context {W E Id V : Type}.

(** An invariant of the shared world *)
Variable I : W -> Prop.
Variable born : W -> Id -> Prop.
Variable view : W -> Id -> V.

(** Knowledge about the identifiers [X] only *)
Definition local (X : list Id) (S : W -> Prop) : Prop :=
  forall w w', I w' -> (forall x, x ∈ X -> view w' x = view w x) -> S w -> S w'.

(** A step of the owner of [X] that draws the identifiers [new] *)
Definition owner_step (X new : list Id) (w w' : W) : Prop :=
  I w' /\ (forall x, born w x -> born w' x)
  /\ (forall x, x ∈ new -> ~ born w x /\ born w' x)
  /\ (forall x, x ∉ X -> x ∉ new -> view w' x = view w x).

(** A thread that owns [X] and knows [S]: every step is one of an owner and
    ends in knowledge about what is owned then; the result is in [Q]. *)
Fixpoint owned {A} (Q : list Id -> Result E A -> W -> Prop) (X : list Id) (S : W -> Prop)
    (t : Thread W E A) : Prop :=
  match t with
  | Done r => forall w, I w -> S w -> Q X r w
  | Step f k => forall w, I w -> (forall x, x ∈ X -> born w x) -> S w -> exists new S',
      owner_step X new w (f w) /\ local (new ++ X) S' /\ S' (f w) /\ owned Q (new ++ X) S' (k w)
  end.

(** A claim about successful results only *)
Definition on_ok {A} (Q : list Id -> A -> W -> Prop) : list Id -> Result E A -> W -> Prop :=
  fun X r w => forall a, r = Ok a -> Q X a w.

(** ** Rules *)

Lemma owned_know {A} (Q : list Id -> Result E A -> W -> Prop) X (S S' : W -> Prop) t :
  owned Q X S t -> (forall w, I w -> S' w -> S w) -> owned Q X S' t.
Proof.
  destruct t as [r|f k]; simpl; intros Ht Hs w Hw.
  - intros Hw'. by apply Ht; [|apply Hs].
  - intros Hb Hw'. by apply Ht; [| |apply Hs].
Qed.

Lemma owned_bind {A B} (Q : list Id -> Result E A -> W -> Prop) (R : list Id -> Result E B -> W -> Prop)
    X S t f :
  owned Q X S t ->
  (forall X' r, match r with
    | Ok a => owned R X' (Q X' (Ok a)) (f a)
    | Err e => forall w, I w -> Q X' (Err e) w -> R X' (Err e) w
    | Panic => forall w, I w -> Q X' Panic w -> R X' Panic w
    end) ->
  owned R X S (t ≫= f).
Proof.
  unfold mbind, Thread_bind. intros Ht Hf. revert X S Ht.
  induction t as [r|g k IH]; intros X S Ht; simpl in *.
  - specialize (Hf X r). destruct r as [a|e|]; [by eapply owned_know | simpl; auto | simpl; auto].
  - intros w Hw Hb Hs. destruct (Ht w Hw Hb Hs) as (new & S' & Ho & Hl & Hs' & Hk).
    exists new, S'. split_and!; try done. by apply IH.
Qed.

(** A fact that does not depend on the world is known throughout. *)
Lemma owned_fact {A} (Q : list Id -> Result E A -> W -> Prop) X (P : Prop) (S : W -> Prop) t :
  (P -> owned Q X S t) -> owned Q X (fun w => P /\ S w) t.
Proof.
  intros Ht. destruct t as [r|f k]; simpl in *.
  - intros w Hw [HX Hs]. by apply Ht.
  - intros w Hw Hb [HX Hs]. by apply Ht.
Qed.

Lemma owned_then {A B} (Q : list Id -> A -> W -> Prop) (R : list Id -> B -> W -> Prop) X S t f :
  owned (on_ok Q) X S t -> (forall X' a, owned (on_ok R) X' (Q X' a) (f a)) ->
  owned (on_ok R) X S (t ≫= f).
Proof.
  intros Ht Hf. eapply owned_bind; [exact Ht|]. intros X' [a|e|]; [|done|done].
  eapply owned_know; [apply Hf|]. intros w Hw Hq. by apply Hq.
Qed.

Lemma owned_ret {A} (Q : list Id -> A -> W -> Prop) X S a :
  (forall w, I w -> S w -> Q X a w) -> owned (on_ok Q) X S (Done (Ok a)).
Proof. by intros Hq w Hw Hs b [= <-]; apply Hq. Qed.

Lemma owned_atom {A} (Q : list Id -> A -> W -> Prop) X S (m : M W E A) :
  (forall w, I w -> (forall x, x ∈ X -> born w x) -> S w -> exists new, owner_step X new w (snd (m w))
    /\ forall a, fst (m w) = Ok a -> local (new ++ X) (Q (new ++ X) a) /\ Q (new ++ X) a (snd (m w))) ->
  owned (on_ok Q) X S (atom m).
Proof.
  intros Hm w Hw Hb Hs. destruct (Hm w Hw Hb Hs) as (new & Ho & Hq). exists new.
  destruct (fst (m w)) as [a|e|] eqn:Er.
  - destruct (Hq a eq_refl) as [Hl Ha]. exists (Q (new ++ X)%list a). split_and!; try done.
    by apply owned_ret.
  - by exists (fun _ => True).
  - by exists (fun _ => True).
Qed.

(** A step that leaves every view alone: what is known stays known, whatever
    its result. *)
Definition keeping {A} (X : list Id) (S : W -> Prop) : list Id -> A -> W -> Prop :=
  fun X' _ w => X' = X /\ S w.

Lemma owned_quiet {A} X S (m : M W E A) : local X S ->
  (forall w, I w -> owner_step [] [] w (snd (m w))) -> owned (keeping X S) X S (atom m).
Proof.
  intros Hl Hm w Hw _ Hs. exists [], S. destruct (Hm w Hw) as (Hi & Hb & _ & Hv).
  assert (forall x, view (snd (m w)) x = view w x) as Hv'.
  { intros x. apply Hv; apply not_elem_of_nil. }
  split_and!; [| done | by eapply Hl; [exact Hi | |exact Hs] | done].
  split_and!; [done | done | by intros x Hx%not_elem_of_nil | by auto].
Qed.

Lemma owned_keeping {A} X S (t : Thread W E A) : owned (keeping X S) X S t ->
  owned (on_ok (keeping X S)) X S t.
Proof.
  enough (forall Y T, owned (keeping X S) Y T t -> owned (on_ok (keeping X S)) Y T t) as Hgen by apply Hgen.
  induction t as [r|f k IH]; intros Y T Ht; simpl in *.
  - intros w Hw HT a _. by apply (Ht w).
  - intros w Hw Hb HT. destruct (Ht w Hw Hb HT) as (new & T' & Ho & Hl & HT' & Hk).
    exists new, T'. split_and!; try done. by apply IH.
Qed.

(** ** All threads together *)

(** Thread [i] owns [Xs !! i]: what is owned was born, nothing twice, and every
    thread knows something of what it owns that takes it to its end. *)
Definition system {A} (Qs : list (list Id -> Result E A -> W -> Prop)) (Xs : list (list Id))
    (ts : list (Thread W E A)) (w : W) : Prop :=
  (forall i X x, Xs !! i = Some X -> x ∈ X -> born w x)
  /\ (forall i j X Y x, i <> j -> Xs !! i = Some X -> Xs !! j = Some Y -> x ∈ X -> x ∉ Y)
  /\ Forall3 (fun Q X t => exists S, local X S /\ S w /\ owned Q X S t) Qs Xs ts.

Lemma system_step {A} (Qs : list (list Id -> Result E A -> W -> Prop)) Xs ts w i f k :
  I w -> system Qs Xs ts w -> ts !! i = Some (Step f k) ->
  I (f w) /\ exists Xs', system Qs Xs' (<[i := k w]> ts) (f w).
Proof.
  intros Hi (Hb & Hd & Hh) Ht. destruct (Forall3_lookup_r _ _ _ _ _ _ Hh Ht) as (Q & X & HQ & HX & S & Hl & Hs & Ho).
  destruct (Ho w Hi (fun x => Hb i X x HX) Hs) as (new & S' & (Hi' & Hmono & Hnew & Hframe) & Hl' & Hs' & Hk).
  split; [done|]. exists (<[i := (new ++ X)%list]> Xs).
  assert (Hup : forall j Y, <[i := (new ++ X)%list]> Xs !! j = Some Y ->
    (j = i /\ Y = (new ++ X)%list) \/ (j <> i /\ Xs !! j = Some Y)).
  { intros j Y HY. apply list_lookup_insert_Some in HY. naive_solver. }
  assert (Hdis : forall j Y x, j <> i -> Xs !! j = Some Y -> x ∈ (new ++ X)%list -> x ∉ Y).
  { intros j Y x Hne HY [Hx|Hx]%elem_of_app Hin; [|by apply (Hd i j X Y x)].
    by apply (proj1 (Hnew x Hx)), (Hb j Y x). }
  split_and!.
  - intros j Y x [[-> ->]|[Hne HY]]%Hup Hx; [|by eapply Hmono, Hb].
    apply elem_of_app in Hx as [Hx|Hx]; [by apply Hnew | by eapply Hmono, Hb].
  - intros j1 j2 Y1 Y2 x Hne [[-> ->]|[N1 H1]]%Hup [[-> ->]|[N2 H2]]%Hup Hx; try done.
    + by apply (Hdis j2).
    + intros Hx'. by apply (Hdis j1 Y1 x N1 H1 Hx').
    + by apply (Hd j1 j2 Y1 Y2).
  - eapply Forall3_update; [exact Hh | exact HQ | by exists S'|].
    intros j Qj Y t Hne HY (T & HlT & HT & HoT). exists T. split_and!; [done | | done].
    eapply (HlT w); [done | | done]. intros y Hy. apply Hframe; intros Hx;
      apply (Hdis j Y y Hne HY); try done; apply elem_of_app; auto.
Qed.

(** Every result is right in the world in which it is looked at. *)
Lemma interleave_owned {A} (Qs : list (list Id -> Result E A -> W -> Prop)) ts w ts' w' :
  I w -> Forall2 (fun Q t => owned Q [] (fun _ => True) t) Qs ts -> rtc interleave (ts, w) (ts', w') ->
  I w' /\ forall i Q r, Qs !! i = Some Q -> ts' !! i = Some (Done r) -> exists X, Q X r w'.
Proof.
  intros Hi Ht Hr. assert (Hsys : exists Xs, system Qs Xs ts w).
  { exists (replicate (length ts) []). split_and!.
    - intros i X x [-> _]%lookup_replicate Hx. by apply not_elem_of_nil in Hx.
    - intros i j X Y x _ [-> _]%lookup_replicate _ Hx. by apply not_elem_of_nil in Hx.
    - clear Hr. induction Ht as [|Q t Qs ts Hq Ht IH]; simpl; constructor; [|done].
      by exists (fun _ => True). }
  clear Ht. remember (ts, w) as x eqn:Ex. remember (ts', w') as y eqn:Ey. revert ts w Ex Hi Hsys.
  induction Hr as [x|x x1 y Hs Hr IH]; intros ts w Ex Hi [Xs Hsys].
  - simplify_eq. split; [done|]. intros i Q r HQ Hr. destruct Hsys as (_ & _ & Hh).
    destruct (Forall3_lookup_r _ _ _ _ _ _ Hh Hr) as (Q' & X & HQ' & _ & S & _ & Hs & Ho).
    simplify_eq. exists X. by apply Ho.
  - destruct Hs as [i f k ts0 w0 Hl]. injection Ex as -> ->.
    destruct (system_step _ _ _ _ _ _ _ Hi Hsys Hl) as [Hi' Hsys']. by eapply IH.
Qed.
End ownership.

Arguments keeping {W Id A}.

(** [attempt]: the result of the part, whatever it is *)
Lemma owned_attempt {W E E' Id V A} (I : W -> Prop) (born : W -> Id -> Prop) (view : W -> Id -> V)
    (X : list Id) (S : W -> Prop) (t : Thread W E' A) :
  owned I born view (keeping X S) X S t ->
  owned (E := E) I born view (keeping X S) X S (thread_attempt t).
Proof.
  enough (forall Y T, owned I born view (keeping X S) Y T t ->
    owned (E := E) I born view (keeping X S) Y T (thread_attempt t)) as Hgen by apply Hgen.
  induction t as [[a|e|]|f k IH]; intros Y T Ht; simpl in *; try done.
  intros w Hw Hb HT. destruct (Ht w Hw Hb HT) as (new & T' & Ho & Hl & HT' & Hk).
  exists new, T'. split_and!; try done. by apply IH.
Qed.
