(* ===== verification/PaymentConcurrency.v ===== *)
(** * Concurrent payment requests

    The handlers of the payment engine ([application/initiate.rs],
    [application/callback.rs]) as threads: every statement, reading of the
    clock, pause and provider call is one step, and the steps of concurrent
    requests interleave, as there is no transaction around them.  A thread
    alone is the handler of [PaymentHandlers]. *)

From Stdlib Require Import ZArith Lia.
From stdpp Require Import base list strings numbers relations.
From S2P Require Import Prelude RustStr External Reference Payment PaymentStore PaymentHandlers.
From S2P Require Import Threads.

Local Open Scope string_scope.

(** The requests that run concurrently, and their results. *)
Inductive PaymentRequest `{DecimalOps} : Type :=
  | Initiate (cmd : InitiatePaymentCommand)
  | Callback (cmd : ProcessCallbackCommand).

Inductive PaymentReply `{DecimalOps} : Type :=
  | Initiated (r : InitiateResult)
  | CalledBack (r : CallbackResult).

Section concurrent.
Context `{DecimalOps} `{RegexOps} `{UuidOps} `{!Env}.

Abbreviation PaymentThread := (Thread World DomainError).

(** ** The repositories, statement by statement *)

Definition save_payment_thread (p : Payment) : PaymentThread unit :=
  atom (set_tenant (tenant_id p)) ;;
  atom (statement ;; modify (fun w => set_payments (upsert (to_row p) (payments w)) w)).

Definition find_by_idempotency_key_thread (tenant : Uuid) (key : string)
    : PaymentThread (option Payment) :=
  atom (set_tenant tenant) ;;
  atom (select_one (Some tenant) (fun r => String.eqb (row_idempotency_key r) key)).

Definition get_payment_by_provider_ref_thread (tenant : Uuid) (provider_ref : string)
    : PaymentThread (option Payment) :=
  atom (set_tenant tenant) ;;
  atom (select_one (Some tenant)
          (fun r => bool_decide (row_provider_reference r = Some provider_ref))).

Definition get_payment_by_id_thread (tenant pid : Uuid) : PaymentThread (option Payment) :=
  atom (set_tenant tenant) ;;
  atom (select_one (Some tenant) (fun r => N.eqb (row_payment_id r) pid)).

Definition append_outbox_thread (event_type : string) (aggregate_id : Uuid) (payload : json)
    (_idempotency_key : string) (tenant : Uuid) : PaymentThread unit :=
  atom statement ;;
  atom statement ;;
  let topic_id := unwrap_or active_topic uuid_nil in
  atom (statement ;;
    modify (fun w => set_outbox (outbox w ++
      [mkOutboxRow (gen_uuid (tick w)) topic_id event_type "payment" aggregate_id payload
         (clock (tick w)) false None]) w)).

(** ** [initiate.rs] *)

Fixpoint retry_loop_thread (p : Payment) (last_error : option DomainError) (attempts : list nat)
    : PaymentThread ProviderResponse :=
  match attempts with
  | [] => Done (Err (unwrap_or last_error (ProviderError "Unknown provider error after retries")))
  | attempt_no :: rest =>
      r ← thread_attempt (atom (call_initiate p));
      match r with
      | Ok response => mret response
      | Err e =>
          (if (attempt_no <? max_attempts - 1)%nat then
             atom (n ← gets (fun w => length (slept w));
                   sleep (2 ^ Z.of_nat attempt_no * 1000 + jitter n)%Z)
           else mret tt) ;;
          retry_loop_thread p (Some e) rest
      | Panic => Done Panic
      end
  end.

Definition record_outcome_thread (cmd : InitiatePaymentCommand) (payment : Payment)
    (provider_result : Result DomainError ProviderResponse) : PaymentThread InitiateResult :=
  match provider_result with
  | Ok response =>
      processing ← Done (mark_processing payment);
      let payment := with_reference processing (resp_provider_reference response) in
      save_payment_thread payment ;;
      append_outbox_thread "PaymentInitiated" (payment_id payment)
        (JObject [("event", JString "PaymentInitiated");
                  ("payment_id", JString (uuid_to_string (payment_id payment)));
                  ("provider_reference", JString (resp_provider_reference response));
                  ("status", JString (status_as_str (status payment)))])
        (cmd_idempotency_key cmd +:+ "-initiated") (tenant_id payment) ;;
      mret (mkInitiateResult payment (Some (resp_provider_reference response)))
  | Err e =>
      failed_at ← atom utc_now;
      let payment := or_same payment (mark_failed failed_at (error_to_string e) payment) in
      save_payment_thread payment ;;
      _ ← thread_attempt (append_outbox_thread "PaymentFailed" (payment_id payment)
        (JObject [("event", JString "PaymentFailed");
                  ("payment_id", JString (uuid_to_string (payment_id payment)));
                  ("reason", JString (error_to_string e));
                  ("status", JString (status_as_str (status payment)))])
        (cmd_idempotency_key cmd +:+ "-failed") (tenant_id payment));
      Done (Err e)
  | Panic => Done Panic
  end.

(** After the idempotency check. *)
Definition initiate_new_thread (cmd : InitiatePaymentCommand) : PaymentThread InitiateResult :=
  now ← atom utc_now;
  payment ← Done (new_of cmd now);
  save_payment_thread payment ;;
  provider_result ← thread_attempt (retry_loop_thread payment None (seq 0 max_attempts));
  record_outcome_thread cmd payment provider_result.

Definition initiate_thread (cmd : InitiatePaymentCommand) : PaymentThread InitiateResult :=
  existing ← find_by_idempotency_key_thread (cmd_tenant_id cmd) (cmd_idempotency_key cmd);
  match existing with
  | Some _ => Done (Err IdempotencyViolation)
  | None => initiate_new_thread cmd
  end.

(** ** [callback.rs] *)

Definition callback_lookup_thread (cmd : ProcessCallbackCommand) : PaymentThread Payment :=
  found ← get_payment_by_provider_ref_thread (cb_tenant_id cmd) (cb_provider_reference cmd);
  match found with
  | Some p => mret p
  | None =>
      match cb_payment_id cmd with
      | Some pid =>
          by_id ← get_payment_by_id_thread (cb_tenant_id cmd) pid;
          match by_id with
          | Some p => mret p
          | None => Done (Err (callback_not_found (cb_provider_reference cmd)))
          end
      | None => Done (Err (callback_not_found (cb_provider_reference cmd)))
      end
  end.

Definition process_callback_thread (cmd : ProcessCallbackCommand) : PaymentThread CallbackResult :=
  if negb (verify_callback_signature (cb_raw_payload cmd) (cb_signature cmd))
  then Done (Err (ProviderError "Invalid callback signature"))
  else
    payment ← callback_lookup_thread cmd;
    let previous_status := status payment in
    now ← atom utc_now;
    let payment := apply_provider_status now (cb_status cmd) (Some (cb_provider_reference cmd))
                     payment in
    save_payment_thread payment ;;
    let event_type := callback_event_type (cb_status cmd) in
    append_outbox_thread event_type (payment_id payment)
      (JObject [("event", JString event_type);
                ("payment_id", JString (uuid_to_string (payment_id payment)));
                ("previous_status", JString (status_as_str previous_status));
                ("new_status", JString (status_as_str (status payment)));
                ("provider_reference", JString (cb_provider_reference cmd))])
      (cb_provider_reference cmd +:+ "-" +:+ event_type) (tenant_id payment) ;;
    mret (mkCallbackResult payment true (status_as_str (status payment))).

(** ** A request *)

Definition request_thread (req : PaymentRequest) : PaymentThread PaymentReply :=
  match req with
  | Initiate cmd => r ← initiate_thread cmd; mret (Initiated r)
  | Callback cmd => r ← process_callback_thread cmd; mret (CalledBack r)
  end.

Definition handle (req : PaymentRequest) : M World DomainError PaymentReply :=
  match req with
  | Initiate cmd => r ← initiate cmd; mret (Initiated r)
  | Callback cmd => r ← process_callback cmd; mret (CalledBack r)
  end.

(** ** Alone, a thread is its handler *)

(** Two statements, the second with an effect, are cut between them. *)
Lemma implements_seq {A} (m : M World DomainError unit) (n : M World DomainError A) :
  implements (atom m ;; atom n) (m ;; n).
Proof. apply implements_bind; [apply implements_atom | intros []; apply implements_atom]. Qed.

Hint Resolve implements_seq : threads.

Lemma save_payment_implements p : implements (save_payment_thread p) (save_payment p).
Proof. apply implements_seq. Qed.

Lemma append_outbox_implements ev agg pl k t :
  implements (append_outbox_thread ev agg pl k t) (append_outbox ev agg pl k t).
Proof. unfold append_outbox_thread, append_outbox. auto 6 with threads. Qed.

Hint Resolve save_payment_implements append_outbox_implements : threads.

Ltac implements := repeat first
  [ solve [auto with threads] | apply implements_bind; [|intros ?]
  | match goal with
    | |- implements (match ?x with _ => _ end) _ => destruct x
    end ].

Lemma retry_loop_implements p le attempts :
  implements (retry_loop_thread p le attempts) (retry_loop p le attempts).
Proof.
  revert le. induction attempts as [|a rest IH]; intros le; [by intros w|].
  cbn [retry_loop_thread retry_loop]. apply implements_bind; [auto with threads|].
  intros [r|e|]; [auto with threads | | auto with threads]. implements; done.
Qed.

Lemma record_outcome_implements cmd p res :
  implements (record_outcome_thread cmd p res) (record_outcome cmd p res).
Proof. destruct res as [resp|e|]; unfold record_outcome_thread, record_outcome; implements; done. Qed.

Lemma initiate_new_implements cmd : implements (initiate_new_thread cmd) (initiate_new cmd).
Proof.
  unfold initiate_new_thread, initiate_new. implements;
    [apply implements_attempt, retry_loop_implements | apply record_outcome_implements].
Qed.

Lemma initiate_implements cmd : implements (initiate_thread cmd) (initiate cmd).
Proof.
  apply implements_bind; [apply implements_seq|]. intros [q|]; [done | apply initiate_new_implements].
Qed.

Lemma callback_implements cmd : implements (process_callback_thread cmd) (process_callback cmd).
Proof.
  unfold process_callback_thread, process_callback. destruct (negb _); [done|].
  apply implements_bind; [|intros p; implements].
  unfold callback_lookup_thread, callback_lookup, get_payment_by_provider_ref_thread,
    get_payment_by_id_thread, get_payment_by_provider_ref, get_payment_by_id.
  implements; done.
Qed.

Lemma request_implements req : implements (request_thread req) (handle req).
Proof.
  destruct req; (apply implements_bind; [|auto with threads]);
    [apply initiate_implements | apply callback_implements].
Qed.


(** ** What the tables keep under every interleaving *)

Context `{!DecimalLaws}.

(** A payment that may be stored: valid, with the optional fields of its
    status, and an amount of whole cents. *)
Definition payment_ok (p : Payment) : Prop :=
  validate p = Ok tt /\ fields_ok p /\ exists cents, money (amount p) cents.

(** The table: payment ids are unique, every row is such a payment. *)
Definition row_ok (r : PaymentRow) : Prop := exists p, r = to_row p /\ payment_ok p.

Definition tables_ok (w : World) : Prop :=
  NoDup (map row_payment_id (payments w)) /\ Forall row_ok (payments w).

(** Rows stay where they are with the terms they were created with; events and
    requests to the provider are only added. *)
Definition row_terms (r : PaymentRow) :=
  (row_payment_id r, row_tenant_id r, row_idempotency_key r, row_provider r, row_phone_number r,
   row_amount r, row_currency r, row_reference r, row_description r, row_initiated_at r).

Definition evolves (w w' : World) : Prop :=
  map row_terms (payments w) `prefix_of` map row_terms (payments w')
  /\ outbox w `prefix_of` outbox w' /\ sent w `prefix_of` sent w'.

#[global] Instance evolves_preorder : PreOrder evolves.
Proof.
  split; [done|]. intros w1 w2 w3 (P1 & O1 & S1) (P2 & O2 & S2). split_and!; by etrans.
Qed.

(** One step keeps both. *)
Definition kept (w w' : World) : Prop := evolves w w' /\ tables_ok w'.

Lemma kept_frame w w' : frame w w' -> tables_ok w -> kept w w'.
Proof.
  unfold frame, kept, evolves, tables_ok. intros (-> & -> & -> & _) [Hn Hr]. by split_and!.
Qed.

Lemma payment_ok_step p p' : payment_ok p -> step p p' -> payment_ok p'.
Proof.
  intros (Hv & Hf & c & Hm) Hs. pose proof (step_terms _ _ Hs) as Ht. split_and!.
  - by rewrite (validate_terms p' p).
  - by eapply step_fields.
  - exists c. destruct Ht as (_ & _ & _ & _ & _ & -> & _). done.
Qed.

Lemma row_ok_parse r : row_ok r -> exists p, try_from r = Ok p /\ payment_ok p.
Proof.
  intros (p & -> & Hp). exists p. split; [|done]. destruct Hp as (_ & _ & c & Hm).
  by eapply try_from_to_row.
Qed.

Lemma row_ok_conflict old q : row_ok old -> payment_ok q -> row_ok (conflict_update old (to_row q)).
Proof.
  intros (p & -> & Hv & Hf & c & Hm) (_ & Hq & _).
  exists (update p (status q) (provider_reference q) (failure_reason q) (completed_at q)).
  split; [done|]. split_and!; [by rewrite (validate_terms _ p) by (by repeat split) | done | by exists c].
Qed.

Lemma upsert_terms r rows : map row_terms rows `prefix_of` map row_terms (upsert r rows).
Proof.
  induction rows as [|x rows IH]; simpl; [apply prefix_nil|].
  destruct (N.eqb _ _); simpl; [done | by apply prefix_cons].
Qed.

Lemma upsert_rows_ok q rows : payment_ok q -> Forall row_ok rows -> Forall row_ok (upsert (to_row q) rows).
Proof.
  intros Hq Hr. induction Hr as [|x rows Hx Hr IH]; simpl.
  - constructor; [by exists q | done].
  - destruct (N.eqb _ _); constructor; auto using row_ok_conflict.
Qed.

(** ** Guarantees of the threads *)

Abbreviation guards := (guarantees tables_ok kept).

Lemma guards_frame {A} (Q : A -> Prop) (m : M World DomainError A) :
  reads m -> (forall w a, tables_ok w -> fst (m w) = Ok a -> Q a) -> guards Q (atom m).
Proof.
  intros Hm Hq. apply guarantees_atom. intros w Hw. split; [by apply kept_frame | by eauto].
Qed.

Lemma guards_statement : guards (fun _ => True) (atom statement).
Proof. by apply guards_frame; [apply reads_statement|]. Qed.

Lemma guards_now : guards (fun _ => True) (atom utc_now).
Proof. by apply guards_frame; [apply reads_now|]. Qed.

(** A statement and its effect. *)
Lemma guards_effect (f : World -> World) :
  (forall w, tables_ok w -> kept w (f w)) -> guards (fun _ => True) (atom (statement ;; modify f)).
Proof.
  intros Hf. apply guarantees_atom. intros w Hw. split; [|done].
  pose proof (reads_statement w) as Hr. unfold mbind, M_bind.
  destruct (statement w) as [[[]|e|] w1]; simpl in *; try by apply kept_frame.
  pose proof (kept_frame _ _ Hr Hw) as [He Hw1]. destruct (Hf w1 Hw1) as [He' Hw2].
  split; [by etrans | done].
Qed.

Lemma guards_save p : payment_ok p -> guards (fun _ => True) (save_payment_thread p).
Proof.
  intros Hp. eapply guarantees_bind; [apply guards_statement|]. intros _ _.
  apply guards_effect. intros w [Hn Hr]. split; [split_and!|split]; simpl; try done.
  - apply upsert_terms.
  - by apply upsert_ids.
  - by apply upsert_rows_ok.
Qed.

Lemma guards_append ev agg pl k t : guards (fun _ => True) (append_outbox_thread ev agg pl k t).
Proof.
  eapply guarantees_bind; [apply guards_statement|]. intros _ _.
  eapply guarantees_bind; [apply guards_statement|]. intros _ _.
  apply guards_effect. intros w Hw. split; [|done]. split_and!; simpl; try done. by apply prefix_app_r.
Qed.

Lemma guards_select t cond :
  guards (fun o => forall p, o = Some p -> payment_ok p) (atom (select_one t cond)).
Proof.
  apply guards_frame; [apply reads_select|]. intros w o [_ Hr] Ho p ->. revert Ho.
  pose proof (reads_statement w) as Hs. unfold select_one, mbind, M_bind, gets, lift.
  destruct (statement w) as [[[]|e|] w1]; [|done|done]. simpl in Hs. destruct Hs as (Hp & _).
  rewrite Hp. destruct (List.find _ (payments w)) as [r|] eqn:Hf; [|done].
  apply List.find_some in Hf as [Hin _]. apply list_elem_of_In in Hin.
  destruct (row_ok_parse r) as (q & Hq & Hok); [by eapply Forall_forall|].
  rewrite Hq. by intros [= ->].
Qed.

Lemma guards_call p : guards (fun _ => True) (atom (call_initiate p)).
Proof.
  apply guarantees_atom. intros w Hw. split; [|done]. split; [|done].
  split_and!; simpl; try done. by apply prefix_app_r.
Qed.

Lemma guards_retry p le attempts : guards (fun _ => True) (retry_loop_thread p le attempts).
Proof.
  revert le. induction attempts as [|a rest IH]; intros le; [done|].
  eapply guarantees_bind; [by apply guarantees_attempt, guards_call|].
  intros [r|e|] _; [by apply guarantees_done | | done]. eapply (guarantees_bind _ _ (fun _ => True)); [|done].
  destruct (_ <? _)%nat; [by apply guarantees_atom | by apply guarantees_done].
Qed.

Lemma guards_record cmd p res : payment_ok p -> guards (fun _ => True) (record_outcome_thread cmd p res).
Proof.
  intros Hp. destruct res as [resp|e|]; [| |done].
  - eapply (guarantees_bind _ _ (fun q => payment_ok q /\ status q = Processing)).
    { destruct (mark_processing p) as [q|e|] eqn:Hm; [apply guarantees_done | done | done].
      split; [by eapply payment_ok_step, step_processing|].
      unfold mark_processing in Hm. by destruct (status p); simplify_eq. }
    intros q [Hq Hs]. eapply guarantees_bind.
    { apply guards_save. by eapply payment_ok_step, step_reference. }
    intros _ _. eapply guarantees_bind; [apply guards_append|]. intros _ _. by apply guarantees_done.
  - eapply guarantees_bind; [apply guards_now|]. intros now _. eapply guarantees_bind.
    { apply guards_save. unfold or_same. destruct (mark_failed _ _ p) eqn:Hm; try done.
      by eapply payment_ok_step, step_failed. }
    intros _ _. by eapply guarantees_bind; [apply guarantees_attempt, guards_append|].
Qed.

Lemma new_of_payment_ok cmd now p : new_of cmd now = Ok p ->
  (exists cents, money (cmd_amount cmd) cents) -> payment_ok p.
Proof.
  intros Hn Hm. destruct (new_ok _ _ _ _ _ _ _ _ _ _ _ Hn) as (Hv & Hf & _).
  destruct (new_of_ok _ _ _ Hn) as (_ & _ & _ & _ & Ha & _). split_and!; [done | done | by rewrite Ha].
Qed.

(** Amounts come from the protocol in whole cents. *)
Definition request_ok (req : PaymentRequest) : Prop :=
  match req with
  | Initiate cmd => exists cents, money (cmd_amount cmd) cents
  | Callback _ => True
  end.

Lemma guards_initiate_new cmd : request_ok (Initiate cmd) ->
  guards (fun _ => True) (initiate_new_thread cmd).
Proof.
  intros Hm. eapply guarantees_bind; [apply guards_now|]. intros now _.
  eapply (guarantees_bind _ _ payment_ok).
  { destruct (new_of cmd now) eqn:Hn; [|done|done].
    apply guarantees_done. by eapply new_of_payment_ok. }
  intros p Hp. eapply guarantees_bind; [by apply guards_save|]. intros _ _.
  eapply guarantees_bind; [apply guarantees_attempt, guards_retry|]. intros res _.
  by apply guards_record.
Qed.

Lemma guards_initiate cmd : request_ok (Initiate cmd) -> guards (fun _ => True) (initiate_thread cmd).
Proof.
  intros Hm. eapply guarantees_bind.
  { eapply guarantees_bind; [apply guards_statement | intros _ _; apply guards_select]. }
  intros [q|] _; [done | by apply guards_initiate_new].
Qed.

Lemma guards_lookup cmd : guards payment_ok (callback_lookup_thread cmd).
Proof.
  eapply guarantees_bind.
  { eapply guarantees_bind; [apply guards_statement | intros _ _; apply guards_select]. }
  intros [p|] Hp; [by apply guarantees_done, Hp|]. destruct (cb_payment_id cmd) as [pid|]; [|done].
  eapply guarantees_bind.
  { eapply guarantees_bind; [apply guards_statement | intros _ _; apply guards_select]. }
  intros [p|] Hp'; [by apply guarantees_done, Hp' | done].
Qed.

Lemma guards_request req : request_ok req -> guards (fun _ => True) (request_thread req).
Proof.
  intros Hr. destruct req as [cmd|cmd]; cbn [request_thread].
  - eapply guarantees_bind; [by apply guards_initiate|]. intros r _. by apply guarantees_done.
  - eapply (guarantees_bind _ _ (fun _ => True)); [|intros r _; by apply guarantees_done].
    unfold process_callback_thread. destruct (negb _); [done|].
    eapply guarantees_bind; [apply guards_lookup|]. intros p Hp.
    eapply guarantees_bind; [apply guards_now|]. intros now _.
    eapply guarantees_bind; [by apply guards_save; eapply payment_ok_step, step_provider|].
    intros _ _. eapply guarantees_bind; [apply guards_append|]. intros _ _. by apply guarantees_done.
Qed.

Lemma kept_stable w w' : tables_ok w -> kept w w' -> tables_ok w'.
Proof. by intros _ [_ Hw]. Qed.

Lemma kept_evolves w w' : rtc kept w w' -> evolves w w'.
Proof. induction 1 as [w|w1 w2 w3 [He _] _ IH]; [done | by etrans]. Qed.

(** ** A stored key *)

(** A payment of the tenant with the key of the command is stored. *)
Definition key_stored (cmd : InitiatePaymentCommand) (w : World) : Prop :=
  tables_ok w /\ exists r, r ∈ payments w
    /\ row_idempotency_key r = cmd_idempotency_key cmd /\ row_tenant_id r = cmd_tenant_id cmd.

Lemma key_stored_stable cmd w w' : key_stored cmd w -> kept w w' -> key_stored cmd w'.
Proof.
  intros [_ (r & Hin & Hk & Ht)] [(Hp & _) Hw]. split; [done|].
  assert (Hr : row_terms r ∈ map row_terms (payments w')).
  { eapply elem_of_prefix; [|exact Hp]. by apply list_elem_of_fmap_2. }
  apply list_elem_of_fmap_1 in Hr as (r' & E & Hin'). exists r'. unfold row_terms in E. simplify_eq.
  split_and!; [done | congruence | congruence].
Qed.

Lemma find_stored cmd w : rls_own -> key_stored cmd w ->
  exists r, List.find (fun r => String.eqb (row_idempotency_key r) (cmd_idempotency_key cmd)
      && rls (Some (cmd_tenant_id cmd)) r) (payments w) = Some r /\ row_ok r.
Proof.
  intros Ho [[_ Hr] (r & Hin & Hk & Ht)]. destruct (List.find _ (payments w)) as [r'|] eqn:Hf.
  - exists r'. split; [done|]. apply List.find_some in Hf as [Hin' _]. apply list_elem_of_In in Hin'.
    by eapply Forall_forall.
  - apply list_elem_of_In in Hin. pose proof (List.find_none _ _ Hf r Hin) as Hn. simpl in Hn.
    by rewrite (proj2 (String.eqb_eq _ _) Hk), Ho in Hn.
Qed.

Lemma select_stored cmd w : no_faults -> rls_own -> key_stored cmd w ->
  exists q w', select_one (Some (cmd_tenant_id cmd))
    (fun r => String.eqb (row_idempotency_key r) (cmd_idempotency_key cmd)) w = (Ok (Some q), w').
Proof.
  intros Hf Ho Hk. rewrite select_one_ok by done. destruct (find_stored cmd w Ho Hk) as (r & -> & Hr).
  destruct (row_ok_parse r Hr) as (q & -> & _). by eexists _, _.
Qed.

Lemma initiate_stored cmd : no_faults -> rls_own ->
  ensures (key_stored cmd) kept (fun r => r = Err IdempotencyViolation) (request_thread (Initiate cmd)).
Proof.
  intros Hf Ho. apply (ensures_bind _ _ (fun r => r = Err IdempotencyViolation)); [|by intros r ->].
  apply (ensures_bind _ _ (fun r => exists q, r = Ok (Some q))); [|by intros r [q ->]].
  eapply (ensures_bind _ _ (fun r => r = Ok tt)).
  { apply ensures_atom. intros w [Hw _]. unfold set_tenant. rewrite statement_ok by done.
    split; [by apply kept_frame | done]. }
  intros r ->. apply ensures_atom. intros w Hw. split.
  - apply kept_frame; [apply reads_select | apply Hw].
  - destruct (select_stored cmd w Hf Ho Hw) as (q & w' & ->). by exists q.
Qed.

Lemma ensures_mono {A} (I I' : World -> Prop) (Q : Result DomainError A -> Prop) (t : PaymentThread A) :
  (forall w, I' w -> I w) -> ensures I kept Q t -> ensures I' kept Q t.
Proof.
  intros HI Ht. induction t as [r|f k IH]; simpl in *; [done|].
  intros w Hw. destruct (Ht w (HI w Hw)) as [Hg Hk]. split; [done | by apply IH].
Qed.










(** ** Two races *)

Lemma find_unused_run cmd w : no_faults -> key_unused cmd w ->
  run (find_by_idempotency_key_thread (cmd_tenant_id cmd) (cmd_idempotency_key cmd)) w
  = (Ok None, next_tick (next_tick w)).
Proof.
  intros Hf Hk.
  transitivity (find_by_idempotency_key (cmd_tenant_id cmd) (cmd_idempotency_key cmd) w);
    [apply implements_seq|].
  rewrite find_by_idempotency_key_ok, select_one_ok by done.
  cbn [payments next_tick]. unfold key_unused in Hk. by rewrite Hk.
Qed.

(** The idempotency check of one of several requests. *)
Lemma check_steps cmd i (ts : list (PaymentThread PaymentReply)) w : no_faults -> key_unused cmd w ->
  ts !! i = Some (request_thread (Initiate cmd)) ->
  rtc interleave (ts, w)
    (<[i := initiate_new_thread cmd ≫= (fun r => mret (Initiated r))]> ts, next_tick (next_tick w)).
Proof.
  intros Hf Hk Hi. apply (seq_steps i ts _ (fun existing => match existing with
      | Some _ => Done (Err IdempotencyViolation) | None => initiate_new_thread cmd end)
    (fun r => mret (Initiated r)) w None _ Hi). by apply find_unused_run.
Qed.

Definition provider_accepts : Prop := forall n p, exists r, provider_initiate n p = Ok r.

Lemma accepts_total : provider_accepts -> provider_total.
Proof. intros Ha n p. destruct (Ha n p) as [r ->]. done. Qed.

(** The rest of an initiation alone, when the provider accepts. *)
Lemma initiate_new_steps cmd p i (ts : list (PaymentThread PaymentReply)) w :
  no_faults -> provider_accepts -> new_of cmd (clock (tick w)) = Ok p ->
  row_of (cmd_payment_id cmd) (payments w) = None ->
  ts !! i = Some (initiate_new_thread cmd ≫= (fun r => mret (Initiated r))) ->
  exists r q w', rtc interleave (ts, w) (<[i := Done (Ok (Initiated r))]> ts, w')
    /\ payments w' = (payments w ++ [to_row q])%list /\ same_terms p q
    /\ exists n, sent w' = (sent w ++ replicate (S n) p)%list.
Proof.
  intros Hf Ha Hn Hr Hi. destruct (new_of_ok _ _ _ Hn) as (Hs & Hid & _).
  destruct (initiate_new_run cmd p w Hf (accepts_total Ha) Hn) as (n & w1 & _ & E & P1 & _ & S1 & _).
  destruct (Ha (length (sent w) + n) p) as [resp Hresp].
  destruct (record_accepted cmd p resp w1 Hf Hs) as (w' & ev & E' & P' & _ & S' & _).
  rewrite Hresp, E' in E. rewrite <- Hid in Hr.
  eexists _, (accepted p (resp_provider_reference resp)), w'. split_and!.
  - exact (part_steps (fun t => t ≫= (fun r => mret (Initiated r))) i ts _ w _ w' (fun f k => eq_refl)
      Hi (eq_trans (initiate_new_implements cmd w) E)).
  - rewrite P', P1. apply upsert_twice; [apply same_terms_update | done].
  - apply same_terms_update.
  - exists n. by rewrite S', S1.
Qed.

(** An initiation up to the provider's acceptance: the payment is stored as
    pending, the outcome is still to be recorded. *)
Lemma initiate_asked_steps cmd p resp i (ts : list (PaymentThread PaymentReply)) w :
  no_faults -> key_unused cmd w -> new_of cmd (clock (S (S (tick w)))) = Ok p ->
  provider_initiate (length (sent w)) p = Ok resp -> row_of (cmd_payment_id cmd) (payments w) = None ->
  ts !! i = Some (request_thread (Initiate cmd)) ->
  exists w', rtc interleave (ts, w)
      (<[i := record_outcome_thread cmd p (Ok resp) ≫= (fun r => mret (Initiated r))]> ts, w')
    /\ payments w' = (payments w ++ [to_row p])%list /\ outbox w' = outbox w.
Proof.
  intros Hf Hk Hn Hp Hr Hi. destruct (new_of_ok _ _ _ Hn) as (_ & Hid & _).
  pose proof (lookup_lt_Some _ _ _ Hi) as Hlt. rewrite <- Hid in Hr.
  set (w2 := next_tick (next_tick w)).
  set (w5 := set_payments (upsert (to_row p) (payments w)) (Nat.iter 3 next_tick w2)).
  set (w6 := called p [] w5).
  exists w6. split_and!; [|simpl; by rewrite upsert_fresh | done].
  etrans; [by apply check_steps|].
  etrans; [eapply (seq_steps i _ (atom utc_now)); [by apply list_lookup_insert_eq | reflexivity]|].
  cbv beta. rewrite list_insert_insert_eq. change (clock (tick _)) with (clock (S (S (tick w)))).
  rewrite Hn.
  etrans; [eapply (seq_steps i _ (save_payment_thread p)); [by apply list_lookup_insert_eq|]|].
  { rewrite save_payment_implements. by apply save_payment_ok. }
  cbv beta. rewrite list_insert_insert_eq.
  etrans; [eapply (seq_steps i _ (thread_attempt _)); [by apply list_lookup_insert_eq|]|].
  { rewrite (implements_attempt _ _ (retry_loop_implements _ _ _)).
    apply (attempt_ok _ _ (Ok resp)); [|done]. by apply retry_loop_ok. }
  cbv beta. rewrite list_insert_insert_eq. apply rtc_refl.
Qed.

(** The outcome recorded at the end, over whatever row is there by then. *)
Lemma record_steps cmd p resp i (ts : list (PaymentThread PaymentReply)) w :
  no_faults -> status p = Pending ->
  ts !! i = Some (record_outcome_thread cmd p (Ok resp) ≫= (fun r => mret (Initiated r))) ->
  let q := accepted p (resp_provider_reference resp) in
  exists w' ev, rtc interleave (ts, w) (<[i := Done (Ok (Initiated (mkInitiateResult q
      (Some (resp_provider_reference resp)))))]> ts, w')
    /\ payments w' = upsert (to_row q) (payments w) /\ outbox w' = (outbox w ++ [ev])%list
    /\ ob_event_type ev = "PaymentInitiated".
Proof.
  intros Hf Hs Hi q. destruct (record_accepted cmd p resp w Hf Hs) as (w' & ev & E & P & O & _ & T & _).
  exists w', ev. split_and!; try done.
  exact (part_steps (fun t => t ≫= (fun r => mret (Initiated r))) i ts _ w _ w' (fun f k => eq_refl)
    Hi (eq_trans (record_outcome_implements cmd p (Ok resp) w) E)).
Qed.

(** A callback that finds its payment by id. *)
Lemma lookup_by_id cmd p c rows w : no_faults -> rls_own -> money (amount p) c ->
  payments w = (rows ++ [to_row p])%list -> row_of (payment_id p) rows = None ->
  cb_tenant_id cmd = tenant_id p -> cb_payment_id cmd = Some (payment_id p) ->
  List.find (fun r => bool_decide (row_provider_reference r = Some (cb_provider_reference cmd))
                      && rls (Some (cb_tenant_id cmd)) r) (payments w) = None ->
  exists w', callback_lookup cmd w = (Ok p, w').
Proof.
  intros Hf Ho Hm Hp Hr Ht Hid Hnone. eexists. unfold callback_lookup.
  erewrite (bind_ok _ _ _ None).
  2: { unfold get_payment_by_provider_ref, set_tenant. run_step (statement_ok _ Hf).
       rewrite select_one_ok by done. cbn [payments next_tick]. by rewrite Hnone. }
  rewrite Hid. erewrite (bind_ok _ _ _ (Some p)); [reflexivity|].
  rewrite get_payment_by_id_ok, select_one_ok by done. cbn [payments next_tick].
  assert (Hfind : List.find (fun r => N.eqb (row_payment_id r) (payment_id p)
                               && rls (Some (cb_tenant_id cmd)) r) (payments w) = Some (to_row p)).
  { rewrite Hp, find_app_r.
    - simpl. by rewrite N.eqb_refl, Ho.
    - unfold row_of in Hr. clear -Hr. induction rows as [|x rows IH]; simpl in *; [done|].
      destruct (N.eqb _ _); [done | by apply IH]. }
  rewrite Hfind. by rewrite (try_from_to_row p c).
Qed.
End concurrent.

(** ** Requests for the witnesses *)

(** Another payment under the key of [sample_command]. *)
Definition rival_command : InitiatePaymentCommand :=
  mkInitiate 9%N 2%N "idem-123" OneMoney "2637323456789" (dec_new 500 2) "USD" "REF-002" "other".

Definition early_callback : ProcessCallbackCommand :=
  mkCallback 2%N "PROV-1" (Some 1%N) PsCompleted "good" [].

Definition stored_world : World := mkWorld [to_row sample_created] [] 0 [] [].

Lemma empty_tables_ok : tables_ok empty_world.
Proof. split; [apply NoDup_nil_2 | constructor]. Qed.

Lemma stored_tables_ok : tables_ok stored_world.
Proof.
  split; [apply NoDup_singleton|]. constructor; [|done]. exists sample_created.
  split; [done|]. split_and!; [done | done | by exists 10000%Z].
Qed.

(** ** Theorems *)

(** A request that runs alone, cut at its statements, is the sequential
    handler: the thread of every request ends, with the result of the handler
    and in the same world, whatever fails. *)
Theorem thread_alone `{DecimalOps} `{RegexOps} `{UuidOps} `{!Env} (req : PaymentRequest) (w : World) :
  rtc interleave ([request_thread req], w) ([Done (fst (handle req w))], snd (handle req w)).
Proof.
  apply (solo_steps 0 [request_thread req] (request_thread req)); [done|].
  rewrite request_implements. by destruct (handle req w).
Qed.

(** C11. Under every interleaving of any requests, with any failing statements
    and any answers of the provider, the payments table stays well typed: ids
    are unique, every row is the row of a valid payment whose optional fields
    agree with its status; rows are never removed and keep the terms they were
    created with, and events and provider calls are only added. *)
Theorem concurrent_tables_typed `{DecimalOps} `{!DecimalLaws} `{RegexOps} `{UuidOps} `{!Env}
    (reqs : list PaymentRequest) (w w' : World) ts' :
  tables_ok w -> Forall request_ok reqs ->
  rtc interleave (map request_thread reqs, w) (ts', w') ->
  tables_ok w' /\ evolves w w'.
Proof.
  intros Hw Hr Hs.
  assert (Hens : Forall2 (ensures tables_ok kept)
    (map (fun _ => fun r => forall a : PaymentReply, r = Ok a -> True) reqs) (map request_thread reqs)).
  { clear Hs. induction Hr as [|req reqs Hq Hr IH]; simpl; constructor; [|done].
    by apply guards_request. }
  destruct (interleave_ensures _ _ kept_stable _ _ w ts' w' Hw Hens Hs) as (Hw' & Hk & _).
  split; [done | by apply kept_evolves].
Qed.

Lemma concurrent_tables_typed_witness :
  let played := play [0; 1; 0; 0; 0; 0; 0; 1; 1; 1; 0; 1; 1; 0]
    (map request_thread [Initiate sample_command; Callback early_callback]) empty_world in
  tables_ok (snd played) /\ evolves empty_world (snd played).
Proof.
  intros played.
  apply (concurrent_tables_typed [Initiate sample_command; Callback early_callback]
    empty_world (snd played) (fst played)).
  - exact empty_tables_ok.
  - constructor; [by exists 10000%Z | constructor; [done | constructor]].
  - apply interleave_play. eexists. apply surjective_pairing.
Defined.


(** A payment with another key, served in between. *)
Definition other_command : InitiatePaymentCommand :=
  mkInitiate 5%N 2%N "idem-456" EcoCash "2637123456789" (dec_new 700 2) "USD" "REF-003" "".


(** C12. Once a payment with a key is stored, a later initiation of the tenant
    with that key is refused in every interleaving with any other requests: the
    only result it can end with is an [IdempotencyViolation].  (The guides have
    the existing payment returned.) *)
Theorem stored_key_refuses `{DecimalOps} `{!DecimalLaws} `{RegexOps} `{UuidOps} `{!Env}
    cmd (others : list PaymentRequest) (w w' : World) ts' r :
  no_faults -> rls_own -> key_stored cmd w -> Forall request_ok others ->
  rtc interleave (map request_thread (Initiate cmd :: others), w) (Done r :: ts', w') ->
  r = Err IdempotencyViolation.
Proof.
  intros Hf Ho Hk Hr Hs.
  assert (Hens : Forall2 (ensures (key_stored cmd) kept)
    ((fun r => r = Err IdempotencyViolation)
     :: map (fun _ => fun r => forall a : PaymentReply, r = Ok a -> True) others)
    (map request_thread (Initiate cmd :: others))).
  { constructor; [by apply initiate_stored|]. clear Hs.
    induction Hr as [|req reqs Hq Hr IH]; simpl; constructor; [|done].
    eapply (ensures_mono tables_ok); [by intros x [Hx _] | by apply guards_request]. }
  destruct (interleave_ensures _ _ (key_stored_stable cmd) _ _ w _ w' Hk Hens Hs) as (Hk' & _ & Hd).
  apply Forall2_cons_1 in Hd as [Hd _]. by apply holds_done in Hd.
Qed.

(** The refused initiation, a callback and another initiation take turns. *)
Lemma stored_key_refuses_witness :
  let played := play [1; 0; 2; 1; 2; 1; 1; 0; 2; 1; 1; 2; 2; 1; 2]
    (map request_thread [Initiate rival_command; Callback early_callback; Initiate other_command])
    stored_world in
  (exists r ts', fst played = Done r :: ts')
  /\ forall r ts', fst played = Done r :: ts' -> r = Err IdempotencyViolation.
Proof.
  intros played. split; [by eexists _, _|]. intros r ts' Hp.
  apply (stored_key_refuses rival_command [Callback early_callback; Initiate other_command]
    stored_world (snd played) ts').
  - exact test_no_faults.
  - exact test_rls_own.
  - split; [exact stored_tables_ok|]. exists (to_row sample_created). split; [by left | done].
  - constructor; [done | constructor; [by exists 700%Z | constructor]].
  - rewrite <- Hp. apply interleave_play. eexists. apply surjective_pairing.
Defined.

(** C15. Before it is stored the key protects nothing: of two concurrent
    initiations of one tenant with the same new key both can pass the check, be
    sent to the provider, be stored and be answered as initiated. *)
Theorem concurrent_key_charged_twice `{DecimalOps} `{RegexOps} `{UuidOps} `{!Env} c1 c2 (w : World) :
  no_faults -> provider_accepts -> key_unused c1 w ->
  cmd_tenant_id c2 = cmd_tenant_id c1 -> cmd_idempotency_key c2 = cmd_idempotency_key c1 ->
  cmd_payment_id c2 <> cmd_payment_id c1 ->
  row_of (cmd_payment_id c1) (payments w) = None -> row_of (cmd_payment_id c2) (payments w) = None ->
  (forall now, exists p, new_of c1 now = Ok p) -> (forall now, exists p, new_of c2 now = Ok p) ->
  exists r1 r2 p1 p2 w',
    rtc interleave (map request_thread [Initiate c1; Initiate c2], w)
      ([Done (Ok (Initiated r1)); Done (Ok (Initiated r2))], w')
    /\ p1 ∈ sent w' /\ p2 ∈ sent w'
    /\ payment_id p1 = cmd_payment_id c1 /\ payment_id p2 = cmd_payment_id c2
    /\ idempotency_key p1 = cmd_idempotency_key c1 /\ idempotency_key p2 = cmd_idempotency_key c1
    /\ length (payments w') = length (payments w) + 2.
Proof.
  intros Hf Ha Hk Et Ek Hne Hr1 Hr2 Hn1 Hn2.
  set (w2 := next_tick (next_tick w)). set (w4 := next_tick (next_tick w2)).
  destruct (Hn1 (clock (tick w4))) as [p1 E1].
  destruct (initiate_new_steps c1 p1 0 [initiate_new_thread c1 ≫= (fun r => mret (Initiated r));
    initiate_new_thread c2 ≫= (fun r => mret (Initiated r))] w4 Hf Ha E1 Hr1 eq_refl)
    as (r1 & q1 & w5 & S1 & P5 & T1 & n1 & N1).
  destruct (Hn2 (clock (tick w5))) as [p2 E2].
  destruct (new_of_ok _ _ _ E1) as (_ & I1 & _ & K1 & _), (new_of_ok _ _ _ E2) as (_ & I2 & _ & K2 & _).
  assert (Hr2' : row_of (cmd_payment_id c2) (payments w5) = None).
  { rewrite P5. unfold row_of in *. rewrite find_app_r by done. simpl.
    rewrite (proj2 (N.eqb_neq _ _)); [done|]. destruct T1 as [<- _]. congruence. }
  destruct (initiate_new_steps c2 p2 1 [Done (Ok (Initiated r1));
    initiate_new_thread c2 ≫= (fun r => mret (Initiated r))] w5 Hf Ha E2 Hr2' eq_refl)
    as (r2 & q2 & w6 & S2 & P6 & _ & n2 & N2).
  exists r1, r2, p1, p2, w6. split_and!; try congruence.
  - etrans; [by apply (check_steps c1 0)|].
    etrans; [apply (check_steps c2 1); [done | | done]|].
    { unfold key_unused in *. by rewrite Ek, Et. }
    etrans; [exact S1 | exact S2].
  - rewrite N2, N1. apply elem_of_app. left. apply elem_of_app. right. by left.
  - rewrite N2. apply elem_of_app. right. by left.
  - rewrite P6, P5, !length_app. simpl. lia.
Qed.

Lemma concurrent_key_charged_twice_witness :
  exists r1 r2 p1 p2 w',
    rtc interleave (map request_thread [Initiate sample_command; Initiate rival_command], empty_world)
      ([Done (Ok (Initiated r1)); Done (Ok (Initiated r2))], w')
    /\ p1 ∈ sent w' /\ p2 ∈ sent w'
    /\ payment_id p1 = cmd_payment_id sample_command /\ payment_id p2 = cmd_payment_id rival_command
    /\ idempotency_key p1 = cmd_idempotency_key sample_command
    /\ idempotency_key p2 = cmd_idempotency_key sample_command
    /\ length (payments w') = length (payments empty_world) + 2.
Proof.
  apply (concurrent_key_charged_twice sample_command rival_command empty_world).
  - exact test_no_faults.
  - intros n p. by eexists.
  - reflexivity.
  - reflexivity.
  - reflexivity.
  - discriminate.
  - reflexivity.
  - reflexivity.
  - intros now. eexists. reflexivity.
  - intros now. eexists. reflexivity.
Defined.

(** C16. A callback that arrives while the provider's answer is still on its way
    is lost: it is accepted and announced, and the payment completed, but the
    initiation then stores the state it knows, and the payment is left
    [Processing] without a completion time. *)
Theorem callback_lost_to_initiation `{DecimalOps} `{!DecimalLaws} `{RegexOps} `{UuidOps} `{!Env}
    cmd cb p resp c (w : World) :
  no_faults -> rls_own -> key_unused cmd w -> row_of (cmd_payment_id cmd) (payments w) = None ->
  new_of cmd (clock (S (S (tick w)))) = Ok p -> money (cmd_amount cmd) c ->
  provider_initiate (length (sent w)) p = Ok resp ->
  verify_callback_signature (cb_raw_payload cb) (cb_signature cb) = true ->
  cb_status cb = PsCompleted -> cb_tenant_id cb = cmd_tenant_id cmd ->
  cb_payment_id cb = Some (cmd_payment_id cmd) ->
  List.find (fun r => bool_decide (row_provider_reference r = Some (cb_provider_reference cb))
                      && rls (Some (cb_tenant_id cb)) r) (payments w) = None ->
  exists ri rc w' e1 e2,
    rtc interleave (map request_thread [Initiate cmd; Callback cb], w)
      ([Done (Ok (Initiated ri)); Done (Ok (CalledBack rc))], w')
    /\ cbr_accepted rc = true /\ cbr_new_status rc = "completed"
    /\ row_of (cmd_payment_id cmd) (payments w')
       = Some (to_row (accepted p (resp_provider_reference resp)))
    /\ outbox w' = (outbox w ++ [e1; e2])%list
    /\ ob_event_type e1 = "PaymentCompleted" /\ ob_event_type e2 = "PaymentInitiated".
Proof.
  intros Hf Ho Hk Hr Hn Hm Hp Hv Hst Ht Hid Hnone.
  destruct (new_of_ok _ _ _ Hn) as (Hs & Ei & Et & _ & Ea & _).
  destruct (initiate_asked_steps cmd p resp 0 (map request_thread [Initiate cmd; Callback cb]) w
    Hf Hk Hn Hp Hr eq_refl) as (w1 & S1 & P1 & O1).
  rewrite <- Ei in *. rewrite <- Ea in Hm.
  destruct (lookup_by_id cb p c (payments w) w1) as (w2 & Hl); try done; [congruence | |].
  { rewrite P1, find_app_r by done. simpl.
    destruct (new_ok _ _ _ _ _ _ _ _ _ _ _ Hn) as (_ & Hfo & _). unfold fields_ok in Hfo.
    rewrite Hs in Hfo. destruct Hfo as (-> & _). done. }
  destruct (process_found cb p w1 w2 Hf Hv Hl) as (w3 & e1 & R & P3 & O3 & T3 & _).
  rewrite Hst in *. set (p' := apply_provider_status _ _ _ p) in *.
  destruct (record_steps cmd p resp 0 [record_outcome_thread cmd p (Ok resp) ≫= (fun r => mret (Initiated r));
    Done (Ok (CalledBack (mkCallbackResult p' true (status_as_str (status p')))))] w3 Hf Hs eq_refl)
    as (w4 & e2 & S4 & P4 & O4 & T4).
  assert (Hp' : same_terms p' p) by (apply step_terms, step_provider).
  assert (S3 := solo_steps 1 [record_outcome_thread cmd p (Ok resp) ≫= (fun r => mret (Initiated r));
    request_thread (Callback cb)] _ w1 _ w3 eq_refl (eq_trans (request_implements (Callback cb) w1)
    (bind_ok _ (fun r => mret (CalledBack r)) _ _ _ R))).
  eexists _, _, w4, e1, e2. split_and!; [| | | | |done|done].
  - etrans; [exact S1|]. etrans; [exact S3 | exact S4].
  - done.
  - simpl. unfold p', apply_provider_status, or_same, mark_completed. by rewrite Hs.
  - change (payment_id p) with (row_payment_id (to_row (accepted p (resp_provider_reference resp)))).
    rewrite P4, upsert_same. simpl row_payment_id. rewrite P3.
    replace (payment_id p) with (row_payment_id (to_row p')) at 1 by apply Hp'.
    rewrite upsert_same, P1. simpl row_payment_id. rewrite (proj1 Hp').
    unfold row_of in *. rewrite find_app_r by done. simpl. rewrite N.eqb_refl.
    rewrite (conflict_same p p') by (unfold same_terms in *; naive_solver).
    by rewrite conflict_same.
  - by rewrite O4, O3, O1, <- app_assoc.
Qed.

Lemma callback_lost_to_initiation_witness :
  exists ri rc w' e1 e2,
    rtc interleave (map request_thread [Initiate sample_command; Callback early_callback], empty_world)
      ([Done (Ok (Initiated ri)); Done (Ok (CalledBack rc))], w')
    /\ cbr_accepted rc = true /\ cbr_new_status rc = "completed"
    /\ row_of (cmd_payment_id sample_command) (payments w')
       = Some (to_row (accepted sample_created "PROV-1"))
    /\ outbox w' = (outbox empty_world ++ [e1; e2])%list
    /\ ob_event_type e1 = "PaymentCompleted" /\ ob_event_type e2 = "PaymentInitiated".
Proof.
  apply (callback_lost_to_initiation sample_command early_callback sample_created
    (mkResponse "PROV-1" PsPending None) 10000 empty_world);
    first [exact test_no_faults | exact test_rls_own | reflexivity].
Defined.
