(* ===== verification/Grpc.v ===== *)
(** * gRPC statuses and shared messages

    [tonic::Status] with its code, and the messages of
    [protos/v1/common/common.proto] that every service returns: the error
    block and amounts of money.  Field values are the numbers of the
    protocol's enums. *)

From Stdlib Require Import ZArith Lia.
From stdpp Require Import base list strings numbers.
From S2P Require Import Prelude RustStr External.

Local Open Scope string_scope.
Local Open Scope Z_scope.

(** [tonic::Code], the codes the services use. *)
Inductive Code : Type :=
  | CodeInvalidArgument
  | CodeNotFound
  | CodeAlreadyExists
  | CodePermissionDenied
  | CodeResourceExhausted
  | CodeFailedPrecondition
  | CodeAborted
  | CodeUnimplemented
  | CodeInternal
  | CodeUnavailable
  | CodeDataLoss
  | CodeUnauthenticated.

(** [code as i32], the numbers of the gRPC standard. *)
Definition code_i32 (c : Code) : Z :=
  match c with
  | CodeInvalidArgument => 3
  | CodeNotFound => 5
  | CodeAlreadyExists => 6
  | CodePermissionDenied => 7
  | CodeResourceExhausted => 8
  | CodeFailedPrecondition => 9
  | CodeAborted => 10
  | CodeUnimplemented => 12
  | CodeInternal => 13
  | CodeUnavailable => 14
  | CodeDataLoss => 15
  | CodeUnauthenticated => 16
  end.

Record Status := mkStatus { st_code : Code; st_message : string }.

(** [ErrorCode as i32]. *)
Definition EC_INVALID_ARGUMENT : Z := 1.
Definition EC_NOT_FOUND : Z := 2.
Definition EC_ALREADY_EXISTS : Z := 3.
Definition EC_FAILED_PRECONDITION : Z := 6.
Definition EC_INTERNAL : Z := 8.
Definition EC_UNAVAILABLE : Z := 9.
Definition EC_IDEMPOTENCY_CONFLICT : Z := 12.
Definition EC_RATE_LIMIT_EXCEEDED : Z := 14.
Definition EC_HASH_CHAIN_BROKEN : Z := 16.
Definition EC_PAYMENT_PROVIDER_ERROR : Z := 18.

(** [common.Error] *)
Record ProtoError := mkProtoError {
  pe_code : Z;
  pe_message : string;
  pe_details : list (string * string);
  pe_trace_id : string;
  pe_grpc_code : Z;
}.

(** [common.Money] *)
Record ProtoMoney := mkProtoMoney {
  pm_currency_code : string;
  pm_amount_cents : Z;
  pm_currency : Z;
}.

(** [Timestamp { seconds: dt.timestamp(), nanos: dt.timestamp_subsec_nanos() as i32 }],
    the [chrono_to_prost] of every service. *)
Definition chrono_to_prost (dt : DateTime) : Timestamp :=
  mkTimestamp (timestamp dt) (as_i32 (timestamp_subsec_nanos dt)).

(** [common.HealthResponse] *)
Record HealthResponse := mkHealthResponse {
  hr_status : Z;
  hr_version : string;
  hr_timestamp : option Timestamp;
  hr_dependencies : list (string * string);
  hr_metadata : list (string * string);
}.

(** [ServingStatus::Serving as i32] *)
Definition SERVING : Z := 1.

(** [env!("CARGO_PKG_VERSION")]: the version of the workspace. *)
Definition CARGO_PKG_VERSION : string := "0.1.0".

(** The answer of the health methods at the instant [now]. *)
Definition serving (dependencies : list (string * string)) (now : DateTime) : HealthResponse :=
  mkHealthResponse SERVING CARGO_PKG_VERSION (Some (chrono_to_prost now)) dependencies [].

(** [Uuid::parse_str(s).map_err(|_| Status::invalid_argument(..))] *)
Definition parse_uuid `{UuidOps} (s : string) : Result Status Uuid :=
  ok_or (uuid_parse s) (mkStatus CodeInvalidArgument ("Invalid UUID: " +:+ s)).

Lemma subsec_i32 dt : as_i32 (timestamp_subsec_nanos dt) = timestamp_subsec_nanos dt.
Proof.
  apply as_i32_id. unfold timestamp_subsec_nanos, nanos_per_sec, in_i32.
  pose proof (Z.mod_pos_bound dt 1000000000). lia.
Qed.

(** The timestamp of an instant determines it, and its nanoseconds are in
    range. *)
Lemma chrono_to_prost_exact dt :
  let ts := chrono_to_prost dt in
  seconds ts * nanos_per_sec + nanos ts = dt /\ 0 <= nanos ts < nanos_per_sec.
Proof.
  unfold chrono_to_prost. simpl. rewrite subsec_i32.
  unfold timestamp, timestamp_subsec_nanos, nanos_per_sec.
  pose proof (Z.div_mod dt 1000000000). pose proof (Z.mod_pos_bound dt 1000000000). lia.
Qed.
