(* ===== verification/EcoCash.v ===== *)
(** * The EcoCash client and the credentials vault

    [payment-engine/src/infrastructure/providers/ecocash.rs] (requests signed
    with HMAC-SHA256, answers parsed, callback signatures checked) and
    [infrastructure/vault.rs] (where the credentials come from).  The network
    and the JSON codecs of the request and response structs are parameters
    ([HttpOps]); so are the environment variables. *)

From Stdlib Require Import ZArith Lia.
From stdpp Require Import base list strings numbers.
From S2P Require Import Prelude RustStr External Reference Payment PaymentStore PaymentHandlers.

Local Open Scope string_scope.

(** [ProviderCredentials] *)
Record ProviderCredentials := mkCredentials {
  base_url : string;
  merchant_id : string;
  api_key : string;
  secret_key : string;
}.

(** [EcoCashInitiateRequest] *)
Record EcoCashInitiateRequest := mkEcoRequest {
  er_merchant_id : string;
  er_phone_number : string;
  er_amount : string;
  er_currency : string;
  er_reference : string;
  er_description : string;
  er_callback_url : option string;
}.

(** [EcoCashInitiateResponse] *)
Record EcoCashInitiateResponse := mkEcoResponse {
  eresp_provider_reference : string;
  eresp_status : string;
  eresp_message : option string;
}.

(** The outcome of [send().await]: the request's error, or the status line,
    whether it is a success, and the body ([None] when it cannot be read). *)
Inductive HttpOutcome : Type :=
  | HttpFailed (e : string)
  | HttpAnswered (success : bool) (status_line : string) (body : option string).

Class HttpOps := {
  (** [POST url] with headers and body; the [n]-th request *)
  http_post : nat -> string -> list (string * string) -> bytestring -> HttpOutcome;
  http_get : nat -> string -> list (string * string) -> HttpOutcome;
  (** [serde_json::to_vec(&body)] *)
  request_to_vec : EcoCashInitiateRequest -> Result string bytestring;
  (** [response.json().await] *)
  parse_initiate_response : option string -> Result string EcoCashInitiateResponse;
  parse_status_response : option string -> Result string string;
}.

(** The codecs return errors as values. *)
Class HttpLaws `{HttpOps} : Prop := {
  request_to_vec_total : forall r, request_to_vec r <> Panic;
  parse_initiate_total : forall b, parse_initiate_response b <> Panic;
}.

Section ecocash.
Context `{DecimalOps} `{HashOps} `{HexOps} `{CtEqOps} `{HttpOps}.
Variable credentials : ProviderCredentials.

(** [generate_signature] *)
Definition generate_signature (payload : bytestring) : string :=
  hex_encode (hmac_sha256 (as_bytes (secret_key credentials)) payload).

(** [parse_provider_status] *)
Definition parse_provider_status (status : string) : ProviderStatus :=
  let s := to_lowercase status in
  if String.eqb s "pending" then PsPending
  else if String.eqb s "processing" then PsProcessing
  else if String.eqb s "completed" || String.eqb s "success" then PsCompleted
  else if String.eqb s "failed" || String.eqb s "failure" then PsFailed
  else if String.eqb s "cancelled" then PsCancelled
  else if String.eqb s "refunded" then PsRefunded
  else PsUnknown.

Definition initiate_request (p : Payment) : EcoCashInitiateRequest :=
  mkEcoRequest (merchant_id credentials) (phone_number p) (dec_to_string (amount p))
    (currency p) (reference p) (description p) None.

(** [EcoCashClient::initiate], the [n]-th request of the client *)
Definition ecocash_initiate (n : nat) (p : Payment) : Result DomainError ProviderResponse :=
  let url := base_url credentials +:+ "/v1/payments/initiate" in
  payload ← map_err ProviderError (request_to_vec (initiate_request p));
  let signature := generate_signature payload in
  match http_post n url [("X-Api-Key", api_key credentials); ("X-Signature", signature);
                         ("Content-Type", "application/json")] payload with
  | HttpFailed e => Err (ProviderError e)
  | HttpAnswered success line body =>
      if negb success
      then Err (ProviderError ("EcoCash error " +:+ line +:+ ": " +:+ unwrap_or body ""))
      else
        parsed ← map_err ProviderError (parse_initiate_response body);
        mret (mkResponse (eresp_provider_reference parsed)
                (parse_provider_status (eresp_status parsed)) (eresp_message parsed))
  end.

(** [EcoCashClient::check_status] *)
Definition check_status (n : nat) (provider_ref : string) : Result DomainError ProviderStatus :=
  let url := base_url credentials +:+ "/v1/payments/" +:+ provider_ref +:+ "/status" in
  match http_get n url [("X-Api-Key", api_key credentials)] with
  | HttpFailed e => Err (ProviderError e)
  | HttpAnswered success line body =>
      if negb success
      then Err (ProviderError ("EcoCash status error " +:+ line +:+ ": " +:+ unwrap_or body ""))
      else
        parsed ← map_err (fun e => ProviderError ("Failed to parse status response: " +:+ e))
                   (parse_status_response body);
        mret (parse_provider_status parsed)
  end.

(** [EcoCashClient::verify_callback_signature] *)
Definition ecocash_verify (payload : bytestring) (signature : string) : bool :=
  let expected := generate_signature payload in
  Nat.eqb (String.length signature) (String.length expected)
  && constant_time_eq (as_bytes signature) (as_bytes expected).

(** The environment of a payment engine whose provider is this client. *)
Definition with_ecocash (env : Env) : Env := {|
  db_fault := db_fault;
  clock := clock;
  rls := rls;
  active_topic := active_topic;
  gen_uuid := gen_uuid;
  provider_initiate := ecocash_initiate;
  verify_callback_signature := ecocash_verify;
  jitter := jitter;
|}.

Lemma ecocash_verify_spec `{!CtEqLaws} payload sig :
  ecocash_verify payload sig = true <-> sig = generate_signature payload.
Proof.
  unfold ecocash_verify. rewrite andb_true_iff, Nat.eqb_eq, constant_time_eq_spec.
  split; [by intros [_ E%as_bytes_inj] | by intros ->].
Qed.

Lemma ecocash_initiate_total `{!HttpLaws} n p : ecocash_initiate n p <> Panic.
Proof.
  unfold ecocash_initiate. pose proof (request_to_vec_total (initiate_request p)) as Hr.
  destruct (request_to_vec _) as [b|e|]; [simpl | done | done].
  destruct (http_post _ _ _ _) as [e|[] line body]; [done | simpl | done].
  pose proof (parse_initiate_total body) as Hp. by destruct (parse_initiate_response body).
Qed.

End ecocash.

(** ** [vault.rs] *)

Section vault.
Variable env_var : string -> option string.

(** [str::to_uppercase], for ASCII text *)
Definition upper_ascii (c : Ascii.ascii) : Ascii.ascii :=
  let n := Ascii.N_of_ascii c in
  if ((97 <=? n) && (n <=? 122))%N then Ascii.ascii_of_N (n - 32)%N else c.

Fixpoint to_uppercase (s : string) : string :=
  match s with
  | EmptyString => EmptyString
  | String c s' => String (upper_ascii c) (to_uppercase s')
  end.

(** [MockVaultClient::get_credentials] *)
Definition mock_credentials (provider : string) : Result string ProviderCredentials :=
  let prefix := to_uppercase provider in
  Ok (mkCredentials
    (unwrap_or (env_var (prefix +:+ "_BASE_URL")) "https://api.example.com")
    (unwrap_or (env_var (prefix +:+ "_MERCHANT_ID")) "")
    (unwrap_or (env_var (prefix +:+ "_API_KEY")) "")
    (unwrap_or (env_var (prefix +:+ "_SECRET_KEY")) "")).

(** [HttpVaultClient::get_credentials] on the secret that [read_secret] gives *)
Definition http_credentials (read_secret : string -> Result string json) (provider : string)
    : Result string ProviderCredentials :=
  secret ← read_secret ("ussd-kernel/providers/" +:+ provider);
  mret (mkCredentials
    (unwrap_or (json_get_str "base_url" secret) "https://api.example.com")
    (unwrap_or (json_get_str "merchant_id" secret) "")
    (unwrap_or (json_get_str "api_key" secret) "")
    (unwrap_or (json_get_str "secret_key" secret) "")).

Inductive VaultClient : Type :=
  | MockVault
  | HttpVault (address token : string).

Definition vault_addr : string := unwrap_or (env_var "VAULT_ADDR") "http://127.0.0.1:8200".

(** [get_vault_client]; [login] is the exchange with the Vault server. *)
Definition get_vault_client (login : string -> string -> Result string string)
    : Result string VaultClient :=
  let role_id := unwrap_or (env_var "VAULT_ROLE_ID") "" in
  let secret_id := unwrap_or (env_var "VAULT_SECRET_ID") "" in
  if is_empty role_id || is_empty secret_id then Ok MockVault
  else
    token ← login role_id secret_id;
    mret (HttpVault vault_addr token).

End vault.

(** ** A network for the witnesses *)

#[export] Instance test_http : HttpOps := {|
  http_post n url headers body := HttpAnswered true "200 OK" (Some "ok");
  http_get n url headers := HttpAnswered true "200 OK" (Some "ok");
  request_to_vec r := Ok (as_bytes (er_reference r));
  parse_initiate_response b := Ok (mkEcoResponse "PROV-9" "Pending" None);
  parse_status_response b := Ok "SUCCESS";
|}.

#[export] Instance test_http_laws : HttpLaws.
Proof. by split. Qed.

Definition test_credentials : ProviderCredentials :=
  mkCredentials "https://api.ecocash.test" "MERCH-001" "api-key-123" "super-secret-key".

(** ** Theorems *)

(** C9. With the EcoCash client as provider the callbacks that are let in are
    exactly those whose signature is the hexadecimal HMAC-SHA256 of the raw
    payload under the secret key.  Any other signature, a prefix or another case
    included, is refused with the world as before; with that signature the
    callback of a payment that is found is applied: it is answered as accepted
    and one event is appended. *)
Theorem ecocash_callback_authentic `{DecimalOps} `{HashOps} `{HexOps} `{CtEqOps} `{!CtEqLaws}
    `{HttpOps} `{UuidOps} (creds : ProviderCredentials) (env : Env)
    (cmd : ProcessCallbackCommand) (w : World) (p : Payment) (w1 : World) :
  @no_faults _ env -> @callback_lookup _ env cmd w = (Ok p, w1) ->
  let signature := generate_signature creds (cb_raw_payload cmd) in
  (ecocash_verify creds (cb_raw_payload cmd) (cb_signature cmd) = true <-> cb_signature cmd = signature)
  /\ (cb_signature cmd <> signature ->
      @process_callback _ _ (with_ecocash creds env) cmd w
      = (Err (ProviderError "Invalid callback signature"), w))
  /\ (cb_signature cmd = signature ->
      let p' := apply_provider_status (@clock _ env (tick w1)) (cb_status cmd)
                  (Some (cb_provider_reference cmd)) p in
      exists w' ev, @process_callback _ _ (with_ecocash creds env) cmd w
          = (Ok (mkCallbackResult p' true (status_as_str (status p'))), w')
        /\ payments w' = upsert (to_row p') (payments w) /\ outbox w' = (outbox w ++ [ev])%list).
Proof.
  intros Hf Hl signature. pose proof (ecocash_verify_spec creds (cb_raw_payload cmd) (cb_signature cmd)) as Hv.
  split_and!; [done | |].
  - intros Hs. unfold process_callback. simpl.
    destruct (ecocash_verify creds (cb_raw_payload cmd) (cb_signature cmd)); [|done].
    by destruct Hs; apply Hv.
  - intros Hs. destruct (@process_found _ _ (with_ecocash creds env) cmd p w w1 Hf (proj2 Hv Hs) Hl)
      as (w' & ev & E & P & O & _). by exists w', ev.
Qed.

Definition paid_callback (signature : string) : ProcessCallbackCommand :=
  mkCallback 2%N "PROV-1" None PsCompleted signature (as_bytes "paid").

Lemma ecocash_callback_authentic_witness :
  @process_callback _ _ (with_ecocash test_credentials test_env) (paid_callback "forged") paid_world
  = (Err (ProviderError "Invalid callback signature"), paid_world)
  /\ exists r w', @process_callback _ _ (with_ecocash test_credentials test_env)
       (paid_callback (generate_signature test_credentials (as_bytes "paid"))) paid_world
     = (Ok (mkCallbackResult r true "completed"), w').
Proof.
  split.
  - apply (ecocash_callback_authentic test_credentials test_env (paid_callback "forged") paid_world
      (accepted sample_created "PROV-1") _ test_no_faults eq_refl).
    intros E. apply (f_equal String.length) in E. vm_compute in E. discriminate E.
  - destruct (ecocash_callback_authentic test_credentials test_env
      (paid_callback (generate_signature test_credentials (as_bytes "paid"))) paid_world
      (accepted sample_created "PROV-1") _ test_no_faults eq_refl) as (_ & _ & Hs).
    destruct (Hs (@eq_refl string (generate_signature test_credentials (as_bytes "paid"))))
      as (w' & ev & E & _). eexists _, w'. exact E.
Defined.
