(* ===== verification/PaymentGrpc.v ===== *)
(** * The payment engine's gRPC service

    [payment-engine/src/ports/grpc.rs]: requests are parsed into commands, the
    handlers run, and results and errors become responses.  Telemetry spans
    and metrics are left out.  The numbers of the protocol's enums are those of
    [protos/v1/payment/payment.proto]. *)

From Stdlib Require Import ZArith Lia.
From stdpp Require Import base list strings numbers pretty.
From S2P Require Import Prelude RustStr External Reference Payment PaymentStore PaymentHandlers.
From S2P Require Import Grpc EcoCash.

Local Open Scope string_scope.

(** ** Messages *)





Record ProcessCallbackRequest := mkCallbackRequest {
  creq_payment_id : string;
  creq_provider_reference : string;
  creq_status : Z;
  creq_signature : string;
  creq_raw_payload : bytestring;
}.

Record ProcessCallbackResponse := mkCallbackResponse {
  cresp_accepted : bool;
  cresp_message : string;
  cresp_payment_id : string;
  cresp_new_status : Z;
  cresp_error : option ProtoError;
}.

Section grpc.
Context `{DecimalOps} `{RegexOps} `{UuidOps} `{!Env}.

(** ** Conversions *)

(** [map_domain_error] *)
Definition map_domain_error (e : DomainError) (trace_id : string) : Status * option ProtoError :=
  let '(code, proto_code) :=
    match e with
    | InvalidPhoneNumber _ | InvalidAmount _ | InvalidReference _ =>
        (mkStatus CodeInvalidArgument (error_to_string e), EC_INVALID_ARGUMENT)
    | ProviderError _ =>
        (mkStatus CodeFailedPrecondition (error_to_string e), EC_PAYMENT_PROVIDER_ERROR)
    | IdempotencyViolation =>
        (mkStatus CodeAlreadyExists (error_to_string e), EC_IDEMPOTENCY_CONFLICT)
    | NotFound _ => (mkStatus CodeNotFound (error_to_string e), EC_NOT_FOUND)
    | InvalidStatusTransition _ _ =>
        (mkStatus CodeFailedPrecondition (error_to_string e), EC_FAILED_PRECONDITION)
    | DatabaseError _ => (mkStatus CodeInternal (error_to_string e), EC_INTERNAL)
    end in
  (code, Some (mkProtoError proto_code (error_to_string e) [("trace_id", trace_id)] trace_id
                 (code_i32 (st_code code)))).


(** [map_domain_status] *)
Definition map_domain_status (s : PaymentStatus) : Z :=
  match s with
  | Pending => 1
  | Processing => 2
  | Completed => 4
  | Failed => 5
  | Cancelled => 6
  | Refunded => 7
  end%Z.

(** [map_proto_money]; the product panics when it overflows. *)
Definition map_proto_money {E} (amount : Dec) (currency : string) : Result E (option ProtoMoney) :=
  match dec_mul amount (dec_new 100 0) with
  | Some cents => Ok (Some (mkProtoMoney currency (unwrap_or (dec_to_i64 cents) 0%Z) 0))
  | None => Panic
  end.

(** [map_callback_status] *)
Definition map_callback_status (status : Z) : Result Status ProviderStatus :=
  if (status =? 1)%Z then Ok PsCompleted
  else if (status =? 2)%Z then Ok PsFailed
  else if (status =? 3)%Z then Ok PsFailed
  else if (status =? 4)%Z then Ok PsCancelled
  else if (status =? 5)%Z then Ok PsPending
  else Err (mkStatus CodeInvalidArgument ("Unknown callback status: " +:+ pretty status)).

(** [extract_trace_id], on the value of the header when it is readable text *)
Definition extract_trace_id (x_trace_id : option string) : string :=
  unwrap_or x_trace_id "unknown".

(** [proto_money_to_decimal] *)
Definition proto_money_to_decimal (money : option ProtoMoney) : Result Status Dec :=
  ok_or ((fun m => dec_new (pm_amount_cents m) 2) <$> money)
    (mkStatus CodeInvalidArgument "Amount is required").


(** ** Service methods *)






(** The two answers for a payment that is not there. *)
Definition callback_missing (pid trace_id : string) : ProcessCallbackResponse :=
  mkCallbackResponse false "Payment not found" pid 0
    (Some (mkProtoError EC_NOT_FOUND "Payment not found" [] trace_id (code_i32 CodeNotFound))).

(** The lookup of [process_callback], without a tenant. *)
Definition untenantized_lookup (trace_id : string) (pid : option Uuid) (provider_ref : string)
    : M World Status (Payment + ProcessCallbackResponse) :=
  r ← attempt (get_payment_by_provider_ref None provider_ref);
  match r with
  | Ok (Some p) => mret (inl p)
  | Ok None =>
      match pid with
      | Some u =>
          r' ← attempt (get_payment_by_id_untenantized u);
          match r' with
          | Ok (Some p) => mret (inl p)
          | Panic => lift Panic
          | _ => mret (inr (callback_missing (uuid_to_string u) trace_id))
          end
      | None => mret (inr (callback_missing "" trace_id))
      end
  | Err e =>
      mret (inr (mkCallbackResponse false "Database error"
                   (unwrap_or (uuid_to_string <$> pid) "") 0
                   (snd (map_domain_error e trace_id))))
  | Panic => lift Panic
  end.

(** [process_callback] *)
Definition process_callback_rpc (x_trace_id : option string) (req : ProcessCallbackRequest)
    : M World Status ProcessCallbackResponse :=
  let trace_id := extract_trace_id x_trace_id in
  pid ← (if is_empty (creq_payment_id req) then mret None
         else lift (Some <$> parse_uuid (creq_payment_id req)));
  provider_status ← lift (map_callback_status (creq_status req));
  found ← untenantized_lookup trace_id pid (creq_provider_reference req);
  match found with
  | inr response => mret response
  | inl payment =>
      r ← attempt (process_callback (mkCallback (tenant_id payment) (creq_provider_reference req)
             (Some (payment_id payment)) provider_status (creq_signature req)
             (creq_raw_payload req)));
      match r with
      | Ok result =>
          mret (mkCallbackResponse (cbr_accepted result) "Callback processed"
                  (uuid_to_string (payment_id (cbr_payment result)))
                  (map_domain_status (status (cbr_payment result))) None)
      | Err e =>
          mret (mkCallbackResponse false "Callback processing failed"
                  (uuid_to_string (payment_id payment)) 0 (snd (map_domain_error e trace_id)))
      | Panic => lift Panic
      end
  end.

(** ** Lemmas *)

(** A payment of [c] hundredths is reported as [c] cents. *)
Lemma map_proto_money_cents `{!DecimalLaws} {E} a c cur : money a c -> in_i64 c ->
  map_proto_money (E := E) a cur = Ok (Some (mkProtoMoney cur c 0)).
Proof.
  intros Hm Hc. unfold map_proto_money.
  destruct (money_cents _ _ Hm Hc) as (d & -> & Hd). by rewrite Hd.
Qed.





End grpc.

#[local] Hint Resolve reads_ret reads_throw reads_lift reads_bind reads_attempt reads_select
  reads_statement : reads.

Lemma reads_untenantized `{DecimalOps} `{UuidOps} `{!Env} tr pid ref :
  reads (untenantized_lookup tr pid ref).
Proof.
  unfold untenantized_lookup, get_payment_by_provider_ref, get_payment_by_id_untenantized.
  apply reads_bind; [auto with reads|]. intros [[p|]|e|]; auto with reads.
  destruct pid; auto with reads. apply reads_bind; [auto with reads|].
  intros [[p|]|e|]; auto with reads.
Qed.

(** The answers of the lookup that stop the callback are negative. *)
Lemma untenantized_answer `{DecimalOps} `{UuidOps} `{!Env} tr pid ref w :
  match fst (untenantized_lookup tr pid ref w) with
  | Ok (inr resp) => cresp_accepted resp = false
  | Err s => False
  | _ => True
  end.
Proof.
  unfold untenantized_lookup, mbind, M_bind, attempt.
  destruct (get_payment_by_provider_ref None ref w) as [[[p|]|e|] w1]; simpl; try done.
  destruct pid; [|done].
  by destruct (get_payment_by_id_untenantized _ w1) as [[[p|]|e|] w2].
Qed.

(** ** Theorems *)

(** Money survives the wire: an amount received in cents and sent back is
    the same number of cents, for every 64-bit amount. *)
Theorem grpc_money_roundtrip `{DecimalOps} `{!DecimalLaws} (m : ProtoMoney) (cur : string) :
  in_i64 (pm_amount_cents m) ->
  exists d, proto_money_to_decimal (Some m) = Ok d
    /\ map_proto_money (E := Status) d cur = Ok (Some (mkProtoMoney cur (pm_amount_cents m) 0)).
Proof.
  intros Hc. eexists. split; [done|]. apply map_proto_money_cents; [by apply money_new | done].
Qed.

Lemma grpc_money_roundtrip_witness :
  exists d, proto_money_to_decimal (Some (mkProtoMoney "USD" 12345 0)) = Ok d
    /\ map_proto_money (E := Status) d "USD" = Ok (Some (mkProtoMoney "USD" 12345 0)).
Proof. apply (grpc_money_roundtrip (mkProtoMoney "USD" 12345 0)). unfold in_i64. simpl. lia. Defined.



(** A [ProcessCallback] request whose signature does not verify never
    changes the payments or the events, whatever payment it names, and is
    answered with [accepted = false] or refused as an invalid argument. *)
Theorem callback_rpc_unsigned `{DecimalOps} `{UuidOps} `{!Env} tr req (w : World) :
  verify_callback_signature (creq_raw_payload req) (creq_signature req) = false ->
  let (r, w') := process_callback_rpc tr req w in
  frame w w' /\
  match r with
  | Ok resp => cresp_accepted resp = false
  | Err s => st_code s = CodeInvalidArgument
  | Panic => True
  end.
Proof.
  intros Hv. unfold process_callback_rpc.
  set (pre := if is_empty _ then _ else _).
  assert (exists r, pre w = (r, w) /\
            match r with Err s => st_code s = CodeInvalidArgument | _ => True end) as (r0 & E0 & Hr0).
  { subst pre. destruct (is_empty _); [by eexists|]. unfold lift, parse_uuid.
    destruct (uuid_parse _); by eexists. }
  unfold mbind, M_bind. rewrite E0. destruct r0 as [pid|s|]; [|by split..].
  unfold lift at 1. destruct (map_callback_status _) as [st|s|] eqn:Es.
  2, 3: split; [done|]; unfold map_callback_status in Es; repeat case_match; by simplify_eq.
  pose proof (reads_untenantized (extract_trace_id tr) pid (creq_provider_reference req) w) as Hl.
  pose proof (untenantized_answer (extract_trace_id tr) pid (creq_provider_reference req) w) as Ha.
  destruct (untenantized_lookup _ _ _ w) as [[[p|resp]|s|] w1]; simpl in Hl, Ha; [|done..].
  set (cmd := mkCallback _ _ _ _ _ _).
  unfold attempt, process_callback, throw. simpl. rewrite Hv. simpl. done.
Qed.

Lemma callback_rpc_unsigned_witness :
  let (r, w') := process_callback_rpc None (mkCallbackRequest "" "PROV-1" 1 "forged" []) paid_world in
  frame paid_world w' /\
  match r with
  | Ok resp => cresp_accepted resp = false
  | Err s => st_code s = CodeInvalidArgument
  | Panic => True
  end.
Proof. apply (callback_rpc_unsigned None (mkCallbackRequest "" "PROV-1" 1 "forged" [])). done. Defined.
