(* ===== verification/AuditStore.v ===== *)
(** * Audit persistence and signing

    [audit/src/infrastructure/]: [postgres.rs] (queries over the event store,
    the transaction log, the batch hashes, the change log and the exports) and
    [signing.rs], [signing_backend.rs]; [audit/src/domain/error.rs].

    The database is a service: [AuditEnv] says which statement fails, what
    time it is, which identifiers are generated and how the database prints a
    payload; the statements act on the tables of [AuditWorld].  Ed25519 is a
    parameter with its two laws. *)

From Stdlib Require Import ZArith Lia.
From stdpp Require Import base list strings numbers sorting pretty.
From S2P Require Import Prelude RustStr External Reference Merkle Grpc.

Local Open Scope string_scope.

(** ** Errors *)

Inductive AuditError : Type :=
  | AuditDatabase (e : string)
  | EventNotFound (what : string)
  | BatchNotFound (what : string)
  | HashChainBroken (what : string)
  | InvalidDateRange (what : string)
  | ExportFailed (what : string)
  | AuditSerialization (e : string)
  | AuditInternal (e : string).

Definition audit_error_to_string (e : AuditError) : string :=
  match e with
  | AuditDatabase s => "Database error: " +:+ s
  | EventNotFound s => "Event not found: " +:+ s
  | BatchNotFound s => "Batch not found for date: " +:+ s
  | HashChainBroken s => "Hash chain broken at transaction: " +:+ s
  | InvalidDateRange s => "Invalid date range: " +:+ s
  | ExportFailed s => "Export generation failed: " +:+ s
  | AuditSerialization s => "Serialization error: " +:+ s
  | AuditInternal s => "Internal error: " +:+ s
  end.

(** [From<AuditError> for tonic::Status] *)
Definition audit_status (e : AuditError) : Status :=
  mkStatus
    (match e with
     | EventNotFound _ | BatchNotFound _ => CodeNotFound
     | HashChainBroken _ => CodeFailedPrecondition
     | InvalidDateRange _ => CodeInvalidArgument
     | _ => CodeInternal
     end) (audit_error_to_string e).

(** ** Rows *)

(** A row of [events.event_store]. *)
Record StoredEvent := mkStoredEvent {
  se_event_id : Uuid;
  se_event_type : string;
  se_sequence_number : Z;
  se_payload : json;
  se_occurred_at : DateTime;
}.

Record EventRecord := mkEventRecord {
  er_event_id : Uuid;
  er_event_type : string;
  er_sequence_number : Z;
  er_payload : json;
  er_record_hash : string;
  er_previous_hash : option string;
  er_occurred_at : DateTime;
}.

Record TransactionRecord := mkTransactionRecord {
  tr_transaction_id : Z;
  tr_transaction_uuid : Uuid;
  tr_record_hash : string;
  tr_previous_hash : option string;
  tr_committed_at : DateTime;
}.

Record BatchHashRecord := mkBatch {
  bh_batch_id : Uuid;
  bh_batch_date : Z;
  bh_batch_hash : string;
  bh_record_count : Z;
  bh_source_data_hash : string;
  bh_computed_at : DateTime;
  bh_previous_batch_hash : option string;
}.

(** A row of [integrity.batch_hashes]: the record and its signature. *)
Record BatchRow := mkBatchRow {
  br_record : BatchHashRecord;
  br_signature : option bytestring;
  br_key_id : option string;
}.

(** A row of [audit.change_log]. *)
Record ChangeRow := mkChangeRow {
  ch_audit_id : Uuid;
  ch_record_id : Uuid;
  ch_table_name : string;
  ch_operation : string;
  ch_old_data : option json;
  ch_new_data : option json;
  ch_changed_at : DateTime;
  ch_record_hash : string;
  ch_previous_hash : option string;
}.

Record AuditTrailRecord := mkTrail {
  at_audit_id : Uuid;
  at_event_type : string;
  at_action : string;
  at_old_data : option json;
  at_new_data : option json;
  at_timestamp : DateTime;
  at_record_hash : string;
  at_previous_hash : option string;
}.

(** A row of [integrity.audit_trail_exports]. *)
Record ExportRow := mkExportRow {
  ex_export_id : Uuid;
  ex_reference : string;
  ex_application_id : Uuid;
  ex_requested_by : Uuid;
  ex_scope_type : string;
  ex_criteria : json;
  ex_file_location : string;
  ex_file_checksum : string;
  ex_signature : bytestring;
}.

(** A row of [integrity.consistency_checks]. *)
Record CheckRow := mkCheckRow {
  cc_check_type : string;
  cc_date_from : Z;
  cc_date_to : Z;
  cc_status : string;
  cc_records_checked : Z;
  cc_records_failed : Z;
  cc_failure_details : option json;
  cc_duration_ms : Z;
}.

(** [ORDER BY sequence_number ASC] and [ORDER BY changed_at DESC] *)
Definition seq_le (a b : StoredEvent) : Prop := (se_sequence_number a <= se_sequence_number b)%Z.
#[export] Instance seq_le_dec : RelDecision seq_le.
Proof. intros a b. apply Z.le_dec. Defined.
#[export] Instance seq_le_trans : Transitive seq_le.
Proof. intros x y z. unfold seq_le. lia. Qed.
#[export] Instance seq_le_total : Total seq_le.
Proof. intros x y. unfold seq_le. lia. Qed.

Definition changed_ge (a b : ChangeRow) : Prop := (ch_changed_at b <= ch_changed_at a)%Z.
#[export] Instance changed_ge_dec : RelDecision changed_ge.
Proof. intros a b. apply Z.le_dec. Defined.

(** ** Environment and world *)

Class AuditEnv := {
  a_fault : nat -> option string;
  a_clock : nat -> DateTime;
  (** [Uuid::new_v4()] *)
  a_uuid : nat -> Uuid;
  (** [payload::text] *)
  pg_text : json -> string;
  (** [Uuid::as_bytes] *)
  uuid_as_bytes : Uuid -> bytestring;
  (** [gen_random_bytes(64)] *)
  random64 : nat -> bytestring;
  (** The text of [Uuid::parse_str]'s error. *)
  uuid_error : string -> string;
  (** A [Vec] collected into a [HashSet] and back, in the set's order. *)
  hashset_iter : list string -> list string;
  (** The error raised when a row of [integrity.batch_hashes] is updated, if the
      table is write-once: migration V067 puts a trigger on it. *)
  batches_write_once : option string;
}.

Record AuditWorld := mkAuditWorld {
  event_store : list StoredEvent;
  transaction_log : list TransactionRecord;
  batch_hashes : list BatchRow;
  change_log : list ChangeRow;
  exports : list ExportRow;
  checks : list CheckRow;
  a_tick : nat;
}.

Definition a_next (w : AuditWorld) : AuditWorld :=
  mkAuditWorld (event_store w) (transaction_log w) (batch_hashes w) (change_log w) (exports w)
    (checks w) (S (a_tick w)).
Definition set_batches (l : list BatchRow) (w : AuditWorld) : AuditWorld :=
  mkAuditWorld (event_store w) (transaction_log w) l (change_log w) (exports w)
    (checks w) (a_tick w).

Section store.
Context `{HashOps} `{HexOps} `{UuidOps} `{AuditEnv}.

(** A statement; [?] turns its error into [AuditError::Database]. *)
Definition a_statement : M AuditWorld AuditError unit := fun w =>
  match a_fault (a_tick w) with
  | Some e => (Err (AuditDatabase e), a_next w)
  | None => (Ok tt, a_next w)
  end.

Definition a_now : M AuditWorld AuditError DateTime := fun w => (Ok (a_clock (a_tick w)), a_next w).
Definition a_new_v4 : M AuditWorld AuditError Uuid := fun w => (Ok (a_uuid (a_tick w)), a_next w).

(** [encode(digest(payload::text, 'sha256'), 'hex')] *)
Definition payload_hash (e : StoredEvent) : string :=
  hex_encode (sha256_digest (as_bytes (pg_text (se_payload e)))).

(** The select list of the event queries; [previous] is the column
    [previous_hash]. *)
Definition event_record (previous : option string) (e : StoredEvent) : EventRecord :=
  mkEventRecord (se_event_id e) (se_event_type e) (se_sequence_number e) (se_payload e)
    (payload_hash e) previous (se_occurred_at e).

(** [lag(record_hash) over (order by sequence_number)] *)
Fixpoint lagged (previous : option string) (l : list StoredEvent) : list EventRecord :=
  match l with
  | [] => []
  | e :: l' => event_record previous e :: lagged (Some (payload_hash e)) l'
  end.

(** [fetch_events_for_range] *)
Definition fetch_events_for_range (from to : DateTime) : M AuditWorld AuditError (list EventRecord) :=
  a_statement ;;
  rows ← gets event_store;
  mret (lagged None (merge_sort seq_le
    (List.filter (fun e => (from <=? se_occurred_at e) && (se_occurred_at e <? to))%Z rows))).

(** [fetch_events_by_ids] *)
Definition fetch_events_by_ids (ids : list Uuid) : M AuditWorld AuditError (list EventRecord) :=
  match ids with
  | [] => mret []
  | _ =>
      a_statement ;;
      rows ← gets event_store;
      mret (map (event_record None) (merge_sort seq_le
        (List.filter (fun e => existsb (N.eqb (se_event_id e)) ids) rows)))
  end.

(** [fetch_event] *)
Definition fetch_event (event_id : option Uuid) (sequence_number : option Z)
    : M AuditWorld AuditError (option EventRecord) :=
  match event_id, sequence_number with
  | Some id, _ =>
      a_statement ;;
      rows ← gets event_store;
      mret (event_record None <$> List.find (fun e => N.eqb (se_event_id e) id) rows)
  | None, Some s =>
      a_statement ;;
      rows ← gets event_store;
      mret (event_record None <$> List.find (fun e => Z.eqb (se_sequence_number e) s) rows)
  | None, None => mret None
  end.

(** One step of the recursive query: the rows whose hash is the previous hash
    of a row of the last step. *)
Definition chain_next (log frontier : list TransactionRecord) : list TransactionRecord :=
  flat_map (fun c => List.filter
    (fun t => bool_decide (tr_previous_hash c = Some (tr_record_hash t))) log) frontier.

(** [WITH RECURSIVE chain ... WHERE c.depth < $2 ... ORDER BY depth ASC];
    [more] is the number of further steps the bound on the depth allows. *)
Fixpoint chain_from (more : nat) (log frontier : list TransactionRecord) : list TransactionRecord :=
  (frontier ++ match more with
               | O => []
               | S more' =>
                   match chain_next log frontier with
                   | [] => []
                   | next => chain_from more' log next
                   end
               end)%list.

(** [fetch_transactions_for_chain] *)
Definition fetch_transactions_for_chain (uuid : Uuid) (max_depth : Z)
    : M AuditWorld AuditError (list TransactionRecord) :=
  a_statement ;;
  log ← gets transaction_log;
  mret (chain_from (Z.to_nat (max_depth - 1)) log
          (List.filter (fun t => N.eqb (tr_transaction_uuid t) uuid) log)).

(** [records.iter().map(|e| sha256(e.record_hash.as_bytes()))] *)
Definition leaves_of (events : list EventRecord) : list bytestring :=
  map (fun e => sha256 (as_bytes (er_record_hash e))) events.

(** [flat_map(|e| e.record_hash.as_bytes())] *)
Definition all_hash_bytes (events : list EventRecord) : bytestring :=
  concat (map (fun e => as_bytes (er_record_hash e)) events).

(** [build_merkle_tree] in a handler: an index out of range is a panic. *)
Definition tree_of (events : list EventRecord)
    : M AuditWorld AuditError (bytestring * list bytestring) :=
  lift (match build_merkle_tree (leaves_of events) with Some x => Ok x | None => Panic end).

(** [WHERE batch_date < $1 ORDER BY batch_date DESC LIMIT 1] *)
Definition latest_before (date : Z) (rows : list BatchRow) : option BatchRow :=
  fold_right (fun r best =>
    if (bh_batch_date (br_record r) <? date)%Z then
      match best with
      | Some b => if (bh_batch_date (br_record b) <? bh_batch_date (br_record r))%Z
                  then Some r else best
      | None => Some r
      end
    else best) None rows.

(** [INSERT ... ON CONFLICT (batch_date) DO UPDATE]: the id and the signature
    of an existing row are kept. *)
Fixpoint upsert_batch (b : BatchHashRecord) (rows : list BatchRow) : list BatchRow :=
  match rows with
  | [] => [mkBatchRow b None None]
  | r :: rows' =>
      if Z.eqb (bh_batch_date (br_record r)) (bh_batch_date b)
      then mkBatchRow (mkBatch (bh_batch_id (br_record r)) (bh_batch_date (br_record r))
             (bh_batch_hash b) (bh_record_count b) (bh_source_data_hash b) (bh_computed_at b)
             (bh_previous_batch_hash b)) (br_signature r) (br_key_id r) :: rows'
      else r :: upsert_batch b rows'
  end.

Definition batch_of (date : Z) (rows : list BatchRow) : option BatchRow :=
  List.find (fun r => Z.eqb (bh_batch_date (br_record r)) date) rows.

(** A statement on [integrity.batch_hashes]; [updates] says whether it updates a
    row that is there. *)
Definition batch_write (updates : list BatchRow -> bool) (f : AuditWorld -> AuditWorld)
    : M AuditWorld AuditError unit :=
  a_statement ;;
  rows ← gets batch_hashes;
  match batches_write_once with
  | Some e => if updates rows then throw (AuditDatabase e) else modify f
  | None => modify f
  end.

Definition has_date (date : Z) (rows : list BatchRow) : bool :=
  existsb (fun r => Z.eqb (bh_batch_date (br_record r)) date) rows.
Definition has_id (id : Uuid) (rows : list BatchRow) : bool :=
  existsb (fun r => N.eqb (bh_batch_id (br_record r)) id) rows.

(** [get_or_compute_batch_hash]: the hash of the day's events, its link to the
    latest earlier date, and the [INSERT]. *)
Definition store_batch_hash (date : Z) (events : list EventRecord)
    : M AuditWorld AuditError BatchHashRecord :=
  rt ← tree_of events;
  let batch_hash := hex_encode (fst rt) in
  let source_data_hash :=
    match events with
    | [] => hex_encode (sha256 [])
    | _ => hex_encode (sha256 (all_hash_bytes events))
    end in
  previous ← (a_statement ;;
              rows ← gets batch_hashes;
              mret (bh_batch_hash ∘ br_record <$> latest_before date rows));
  batch_id ← a_new_v4;
  computed_at ← a_now;
  let b := mkBatch batch_id date batch_hash (as_i32 (Z.of_nat (length events)))
             source_data_hash computed_at previous in
  batch_write (has_date date) (fun w => set_batches (upsert_batch b (batch_hashes w)) w) ;;
  mret b.

(** The date has no row yet. *)
Definition compute_batch_hash (date : Z) : M AuditWorld AuditError BatchHashRecord :=
  let from := midnight date in
  let to := (from + nanos_per_day)%Z in
  events ← fetch_events_for_range from to;
  store_batch_hash date events.

Definition get_or_compute_batch_hash (date : Z) : M AuditWorld AuditError BatchHashRecord :=
  existing ← (a_statement ;; rows ← gets batch_hashes; mret (batch_of date rows));
  match existing with
  | Some r => mret (br_record r)
  | None => compute_batch_hash date
  end.

(** [update_batch_signature] *)
Definition update_batch_signature (batch_id : Uuid) (signature : bytestring) (key_id : string)
    : M AuditWorld AuditError unit :=
  batch_write (has_id batch_id) (fun w => set_batches (map (fun r =>
    let b := br_record r in
    if N.eqb (bh_batch_id b) batch_id
    then mkBatchRow (mkBatch (bh_batch_id b) (bh_batch_date b) (bh_batch_hash b)
           (bh_record_count b) (bh_source_data_hash b) (a_clock (a_tick w))
           (bh_previous_batch_hash b)) (Some signature) (Some key_id)
    else r) (batch_hashes w)) w).

Definition trail_record (r : ChangeRow) : AuditTrailRecord :=
  mkTrail (ch_audit_id r) (ch_operation r) (ch_operation r) (ch_old_data r) (ch_new_data r)
    (ch_changed_at r) (ch_record_hash r) (ch_previous_hash r).

(** [fetch_audit_trail]; PostgreSQL refuses negative limits and offsets. *)
Definition fetch_audit_trail (record_id : Uuid) (table_name : string) (limit offset : Z)
    : M AuditWorld AuditError (list AuditTrailRecord) :=
  a_statement ;;
  rows ← gets change_log;
  if (limit <? 0)%Z then throw (AuditDatabase "LIMIT must not be negative")
  else if (offset <? 0)%Z then throw (AuditDatabase "OFFSET must not be negative")
  else mret (map trail_record (take (Z.to_nat limit) (drop (Z.to_nat offset)
    (merge_sort changed_ge (List.filter
       (fun r => N.eqb (ch_record_id r) record_id && String.eqb (ch_table_name r) table_name)
       rows))))).

(** [AuditRepository::stream_audit_events] *)
Definition stream_events (from : DateTime) (types : list string)
    : M AuditWorld AuditError (list EventRecord) :=
  a_statement ;;
  rows ← gets event_store;
  mret (map (event_record None) (merge_sort seq_le (List.filter (fun e =>
    (from <=? se_occurred_at e)%Z
    && match types with
       | [] => true
       | _ => existsb (String.eqb (se_event_type e)) types
       end) rows))).

(** [hex::encode(Uuid::new_v4().as_bytes())[..16]]; slicing beyond the end
    panics. *)
Definition short_id (u : Uuid) : Result AuditError string :=
  let s := hex_encode (uuid_as_bytes u) in
  if (16 <=? String.length s)%nat then Ok (String.substring 0 16 s) else Panic.

(** [create_audit_export] *)
Definition create_audit_export (application_id requested_by : Uuid) (scope_type : string)
    (criteria : json) (file_checksum : string) : M AuditWorld AuditError (Uuid * string) :=
  a_statement ;;
  export_id ← a_new_v4;
  u ← a_new_v4;
  tag ← lift (short_id u);
  let reference := "AUD-" +:+ tag in
  let file_location := "/exports/" +:+ reference +:+ ".json" in
  a_statement ;;
  modify (fun w => mkAuditWorld (event_store w) (transaction_log w) (batch_hashes w)
    (change_log w)
    (exports w ++ [mkExportRow export_id reference application_id requested_by scope_type
                     criteria file_location file_checksum (random64 (a_tick w))])%list
    (checks w) (a_tick w)) ;;
  mret (export_id, reference).

(** [record_consistency_check] *)
Definition record_consistency_check (c : CheckRow) : M AuditWorld AuditError unit :=
  a_statement ;;
  modify (fun w => mkAuditWorld (event_store w) (transaction_log w) (batch_hashes w)
    (change_log w) (exports w) (checks w ++ [c])%list (a_tick w)).

End store.

(** ** Signing *)

(** The trait [SigningBackend]. *)
Class SigningBackend := {
  sb_sign : bytestring -> Result AuditError bytestring;
  sb_verify : bytestring -> bytestring -> Result AuditError bool;
  sb_fingerprint : string;
  sb_key_id : string;
}.

(** What the audit service relies on: a signature the backend made verifies. *)
Class SigningLaws `{SigningBackend} : Prop := {
  sign_verifies : forall m s, sb_sign m = Ok s -> sb_verify m s = Ok true;
}.

(** [ed25519_dalek] *)
Class Ed25519 := {
  SigningKey : Type;
  ed_sign : SigningKey -> bytestring -> bytestring;
  ed_public : SigningKey -> bytestring;
  ed_verify_strict : bytestring -> bytestring -> bytestring -> bool;
}.

Class Ed25519Laws `{Ed25519} : Prop := {
  ed_signature_len : forall k m, length (ed_sign k m) = 64;
  ed_sign_verifies : forall k m, ed_verify_strict (ed_public k) m (ed_sign k m) = true;
}.

(** [SoftwareSigningBackend] *)
Definition software_backend `{HexOps} `{Ed25519} (key_id : string) (key : SigningKey)
    : SigningBackend := {|
  sb_sign m := Ok (ed_sign key m);
  sb_verify m s :=
    if Nat.eqb (length s) 64 then Ok (ed_verify_strict (ed_public key) m s) else Ok false;
  sb_fingerprint := hex_encode (take 16 (ed_public key));
  sb_key_id := key_id;
|}.

(** [HsmSigningBackend] *)
Definition hsm_backend (key_id : string) : SigningBackend := {|
  sb_sign m := Err (AuditInternal "HSM signing not yet implemented");
  sb_verify m s := Err (AuditInternal "HSM verify not yet implemented");
  sb_fingerprint := "hsm-stub-fingerprint";
  sb_key_id := key_id;
|}.

#[export] Instance software_laws `{HexOps} `{Ed25519} `{!Ed25519Laws} id key :
  @SigningLaws (software_backend id key).
Proof.
  constructor. intros m s [= <-]. simpl. by rewrite ed_signature_len, Nat.eqb_refl, ed_sign_verifies.
Qed.

(** [SigningService::sign_batch_hash] and [verify_batch_hash] *)
Definition sign_batch_hash `{SigningBackend} (batch_hash : string)
    : Result AuditError (bytestring * string) :=
  signature ← sb_sign (as_bytes batch_hash);
  mret (signature, sb_fingerprint).

Definition verify_batch_hash `{SigningBackend} (batch_hash : string) (signature : bytestring)
    : Result AuditError bool :=
  sb_verify (as_bytes batch_hash) signature.
