(* ===== verification/AuditHandler.v ===== *)
(** * Audit use cases

    [audit/src/application/audit.rs]: the daily batch hash, Merkle proofs,
    ledger checksums, batch and chain verification, the audit trail and the
    reports. *)

From Stdlib Require Import ZArith Lia.
From stdpp Require Import base list strings numbers sorting pretty.
From S2P Require Import Prelude RustStr External Reference Merkle Grpc AuditStore.

Local Open Scope string_scope.

(** ** Results *)

Record MerkleProofResult := mkProofResult {
  mp_event_id : string;
  mp_target_id : string;
  mp_sequence_number : Z;
  mp_merkle_root : bytestring;
  mp_proof_hashes : list bytestring;
  mp_valid : bool;
  mp_computed_at : DateTime;
  mp_signature : string;
  mp_signer_key_id : string;
}.

Record LedgerChecksumResult := mkChecksum {
  lc_merkle_root : bytestring;
  lc_event_count : Z;
  lc_computed_at : DateTime;
  lc_checksum_id : string;
  lc_latest_sequence_number : Z;
  lc_total_events : Z;
  lc_signature : string;
  lc_signer_key_id : string;
}.

Record IntegrityViolation := mkViolation {
  iv_transaction_id : string;
  iv_expected_hash : string;
  iv_actual_hash : string;
  iv_violation_type : string;
}.

Record BatchIntegrityResult := mkIntegrity {
  bi_valid : bool;
  bi_computed_root : string;
  bi_period_start : option DateTime;
  bi_period_end : option DateTime;
  bi_total_transactions : Z;
  bi_verified_transactions : Z;
  bi_failed_transactions : Z;
  bi_is_fully_valid : bool;
  bi_previous_batch_hash : option string;
  bi_violations : list IntegrityViolation;
}.

Record ChainReportResult := mkChainReport {
  cr_start_transaction_id : string;
  cr_is_valid : bool;
  cr_chain_length : Z;
  cr_broken_at_transaction_id : option string;
  cr_expected_hash : option string;
  cr_actual_hash : option string;
}.

Record AuditTrailResult := mkTrailResult {
  ar_audit_id : string;
  ar_event_type : string;
  ar_action : string;
  ar_old_data : option json;
  ar_new_data : option json;
  ar_timestamp : DateTime;
  ar_record_hash : string;
  ar_previous_hash : option string;
}.

Record AuditReportResult := mkReport {
  rp_report_id : string;
  rp_total_events : Z;
  rp_included_event_types : list string;
  rp_generated_at : DateTime;
  rp_checksum : string;
}.

Record AuditExportResult := mkExport {
  xp_report_id : string;
  xp_download_url : string;
  xp_checksum : string;
  xp_signature : bytestring;
  xp_expires_at : DateTime;
}.

Section audit.
Context `{HashOps} `{HexOps} `{UuidOps} `{AuditEnv}.

(** [Uuid::parse_str(..).map_err(|e| AuditError::Internal(e.to_string()))] *)
Definition audit_parse_uuid (s : string) : Result AuditError Uuid :=
  ok_or (uuid_parse s) (AuditInternal (uuid_error s)).

Definition count_i64 {A} (l : list A) : Z := as_i64 (Z.of_nat (length l)).

(** [compute_daily_batch] *)
Definition compute_daily_batch `{SigningBackend} (date : Z) : M AuditWorld AuditError BatchHashRecord :=
  record ← get_or_compute_batch_hash date;
  sk ← lift (sign_batch_hash (bh_batch_hash record));
  update_batch_signature (bh_batch_id record) (fst sk) (snd sk) ;;
  mret record.

(** [day_events.iter().position(|e| e.event_id == id)] *)
Fixpoint position (id : Uuid) (l : list EventRecord) : option nat :=
  match l with
  | [] => None
  | e :: l' => if N.eqb (er_event_id e) id then Some O else S <$> position id l'
  end.

(** [get_merkle_proof] *)
Definition get_merkle_proof (transaction_id event_id : option string) (sequence_number : option Z)
    : M AuditWorld AuditError MerkleProofResult :=
  target ← (match event_id with
            | Some id => u ← lift (audit_parse_uuid id); mret (Some u)
            | None => mret None
            end);
  let lookup_key :=
    match event_id with
    | Some id => id
    | None => unwrap_or (pretty <$> sequence_number) ""
    end in
  found ← fetch_event target sequence_number;
  event ← lift (ok_or found (EventNotFound lookup_key));
  let date := date_naive (er_occurred_at event) in
  let from := midnight date in
  let to := (from + nanos_per_day)%Z in
  day_events ← fetch_events_for_range from to;
  let missing := EventNotFound (uuid_to_string (er_event_id event)) in
  match day_events with
  | [] => throw missing
  | _ =>
      rt ← tree_of day_events;
      leaf_index ← lift (ok_or (position (er_event_id event) day_events) missing);
      proof_hashes ← lift (match merkle_proof (snd rt) (length (leaves_of day_events)) leaf_index
                           with Some p => Ok p | None => Panic end);
      let valid := verify_merkle_proof (sha256 (as_bytes (er_record_hash event))) leaf_index
                     proof_hashes (fst rt) in
      now ← a_now;
      mret (mkProofResult (uuid_to_string (er_event_id event))
              (unwrap_or transaction_id (uuid_to_string (er_event_id event)))
              (er_sequence_number event) (fst rt) proof_hashes valid now "" "")
  end.

(** [iter().max()] *)
Definition max_sequence (l : list EventRecord) : option Z :=
  fold_left (fun m e => match m with
                        | None => Some (er_sequence_number e)
                        | Some x => Some (Z.max x (er_sequence_number e))
                        end) l None.

(** [get_ledger_checksum] *)
Definition get_ledger_checksum (from_date to_date : DateTime)
    : M AuditWorld AuditError LedgerChecksumResult :=
  if (to_date <? from_date)%Z
  then throw (InvalidDateRange "from_date must be before to_date")
  else
    events ← fetch_events_for_range from_date to_date;
    rt ← tree_of events;
    let max_seq := unwrap_or (max_sequence events) 0%Z in
    now ← a_now;
    u ← a_new_v4;
    tag ← lift (short_id u);
    mret (mkChecksum (fst rt) (count_i64 events) now ("CHK-" +:+ tag) max_seq
            (count_i64 events) "" "").

(** [verify_batch_integrity] *)
Definition verify_batch_integrity (start_event_id end_event_id : Z)
    (expected_root_hex : option string) : M AuditWorld AuditError BatchIntegrityResult :=
  if (end_event_id <? start_event_id)%Z
  then throw (InvalidDateRange "start_event_id must be <= end_event_id")
  else
    now ← a_now;
    all_events ← fetch_events_for_range 0 (now + 365 * 10 * nanos_per_day)%Z;
    let events := List.filter (fun e => (start_event_id <=? er_sequence_number e)
                                 && (er_sequence_number e <=? end_event_id))%Z all_events in
    rt ← tree_of events;
    let computed_root_hex := hex_encode (fst rt) in
    let valid := match expected_root_hex with
                 | Some exp => String.eqb (to_lowercase exp) (to_lowercase computed_root_hex)
                 | None => true
                 end in
    let violations :=
      if negb valid then
        [mkViolation (unwrap_or (uuid_to_string ∘ er_event_id <$> head events) "")
           (unwrap_or expected_root_hex "") computed_root_hex "ROOT_MISMATCH"]
      else [] in
    mret (mkIntegrity valid computed_root_hex (er_occurred_at <$> head events)
            (er_occurred_at <$> list.last events) (count_i64 events)
            (if valid then count_i64 events else 0%Z) (if valid then 0%Z else count_i64 events)
            valid None violations).

(** The loop of [verify_transaction_chain]: the first record, with the one
    before it in the list, whose previous hash is not that one's hash. *)
Fixpoint first_break (prev : TransactionRecord) (records : list TransactionRecord)
    : option (TransactionRecord * TransactionRecord) :=
  match records with
  | [] => None
  | record :: rest =>
      if bool_decide (tr_previous_hash record = Some (tr_record_hash prev))
      then first_break record rest
      else Some (prev, record)
  end.

(** [verify_transaction_chain] *)
Definition verify_transaction_chain (transaction_id : string) (max_depth : Z)
    : M AuditWorld AuditError ChainReportResult :=
  tx_uuid ← lift (audit_parse_uuid transaction_id);
  records ← fetch_transactions_for_chain tx_uuid max_depth;
  match records with
  | [] => throw (EventNotFound transaction_id)
  | r0 :: rest =>
      let len := as_i32 (Z.of_nat (length records)) in
      mret (match first_break r0 rest with
            | None => mkChainReport transaction_id true len None None None
            | Some (prev, record) =>
                mkChainReport transaction_id false len
                  (Some (uuid_to_string (tr_transaction_uuid record)))
                  (Some (tr_record_hash prev)) (tr_previous_hash record)
            end)
  end.

Definition trail_result (r : AuditTrailRecord) : AuditTrailResult :=
  mkTrailResult (uuid_to_string (at_audit_id r)) (at_event_type r) (at_action r) (at_old_data r)
    (at_new_data r) (at_timestamp r) (at_record_hash r) (at_previous_hash r).

(** [get_audit_trail] *)
Definition get_audit_trail (record_id table_name : string) (page_size : Z) (page_token : string)
    : M AuditWorld AuditError (list AuditTrailResult) :=
  record_uuid ← lift (audit_parse_uuid record_id);
  let offset := unwrap_or (parse_i32 page_token) 0%Z in
  let limit := if (0 <? page_size)%Z then page_size else 50%Z in
  records ← fetch_audit_trail record_uuid table_name limit offset;
  mret (map trail_result records).

(** [get_audit_report]; the tenant is not used. *)
Definition get_audit_report (tenant_id : string) (from_date to_date : DateTime)
    (event_types : list string) : M AuditWorld AuditError AuditReportResult :=
  events ← fetch_events_for_range from_date to_date;
  let filtered := match event_types with
                  | [] => events
                  | _ => List.filter (fun e => existsb (String.eqb (er_event_type e)) event_types) events
                  end in
  let included_types := hashset_iter (map er_event_type filtered) in
  let checksum := hex_encode (sha256 (all_hash_bytes filtered)) in
  u ← a_new_v4;
  tag ← lift (short_id u);
  now ← a_now;
  mret (mkReport ("RPT-" +:+ tag) (count_i64 filtered) included_types now checksum).

(** [export_audit_report]; the tenant is not used. *)
Definition export_audit_report (report_id tenant_id : string)
    : M AuditWorld AuditError AuditExportResult :=
  let checksum := hex_encode (sha256 (as_bytes report_id)) in
  let download_url := "https://api.ussd-kernel.org/exports/" +:+ report_id +:+ ".json" in
  let signature := sha256 (as_bytes checksum) in
  now ← a_now;
  mret (mkExport report_id download_url checksum signature (now + 7 * nanos_per_day)%Z).

(** [stream_audit_events] *)
Definition stream_audit_events (from : DateTime) (event_types : list string)
    : M AuditWorld AuditError (list EventRecord) :=
  stream_events from event_types.

(** ** Lemmas *)

Definition a_no_faults : Prop := forall n, a_fault n = None.

Lemma a_statement_ok w : a_no_faults -> a_statement w = (Ok tt, a_next w).
Proof. intros Hf. unfold a_statement. by rewrite Hf. Qed.

(** The stored events of a period, oldest first. *)
Definition events_in (from to : DateTime) (w : AuditWorld) : list StoredEvent :=
  merge_sort seq_le
    (List.filter (fun e => (from <=? se_occurred_at e) && (se_occurred_at e <? to))%Z (event_store w)).

Lemma fetch_range_ok from to w : a_no_faults ->
  fetch_events_for_range from to w = (Ok (lagged None (events_in from to w)), a_next w).
Proof. intros Hf. unfold fetch_events_for_range. by run_step (a_statement_ok _ Hf). Qed.



Lemma lagged_lookup p l i r : lagged p l !! i = Some r ->
  exists q e, l !! i = Some e /\ r = event_record q e.
Proof.
  revert p i. induction l as [|e l IH]; intros p [|i] Hr; simplify_eq/=; [by eexists _, _|].
  by apply IH in Hr.
Qed.

Lemma lagged_length p l : length (lagged p l) = length l.
Proof. revert p. induction l as [|e l IH]; intros p; [done|]. simpl. by rewrite IH. Qed.

Lemma lagged_leaves p l :
  leaves_of (lagged p l) = map (fun e => sha256 (as_bytes (payload_hash e))) l.
Proof. revert p. induction l as [|e l IH]; intros p; [done|]. simpl. f_equal. apply IH. Qed.

(** The Merkle leaves of a list of events. *)
Definition event_leaves (l : list StoredEvent) : list bytestring :=
  map (fun e => sha256 (as_bytes (payload_hash e))) l.


(** The tree of a list of records is that of its leaves, whatever its size. *)
Definition leaves_root (l : list bytestring) : bytestring :=
  match l with [] => sha256 [] | _ => root_of l end.

Lemma tree_of_ok es w : exists tree,
  tree_of es w = (Ok (leaves_root (leaves_of es), tree), w)
  /\ (leaves_of es <> [] -> tree = flat (leaves_of es)).
Proof.
  unfold tree_of, lift. destruct (leaves_of es) as [|a l] eqn:E.
  - by eexists.
  - rewrite build_merkle_tree_spec by done. by eexists.
Qed.





(** Whether the rows of the batch table may be updated. *)
Definition updates_allowed : Prop := batches_write_once = None.

Lemma has_date_none date rows : batch_of date rows = None -> has_date date rows = false.
Proof.
  unfold batch_of, has_date. induction rows as [|r rows IH]; simpl; [done|]. by destruct (Z.eqb _ _).
Qed.

Lemma batch_write_ok updates f w : a_no_faults ->
  updates_allowed \/ updates (batch_hashes w) = false ->
  batch_write updates f w = (Ok tt, f (a_next w)).
Proof.
  intros Hf Hu. unfold batch_write. run_step (a_statement_ok _ Hf).
  erewrite bind_ok by reflexivity. cbv beta. cbn [batch_hashes a_next].
  destruct Hu as [->| ->]; [done | by destruct batches_write_once].
Qed.

(** A row written from the events read. *)
Lemma store_batch_run date es w : a_no_faults ->
  updates_allowed \/ batch_of date (batch_hashes w) = None ->
  exists b w', store_batch_hash date es w = (Ok b, w')
    /\ bh_batch_hash b = hex_encode (leaves_root (leaves_of es))
    /\ batch_hashes w' = upsert_batch b (batch_hashes w)
    /\ bh_batch_date b = date /\ bh_batch_id b = a_uuid (S (a_tick w)) /\ a_tick w' = 4 + a_tick w
    /\ bh_record_count b = as_i32 (Z.of_nat (length es))
    /\ bh_previous_batch_hash b
       = bh_batch_hash ∘ br_record <$> latest_before date (batch_hashes w)
    /\ event_store w' = event_store w.
Proof.
  intros Hf Hu. destruct (tree_of_ok es w) as (tree & Ht & _). eexists _, _. split.
  - unfold store_batch_hash. erewrite bind_ok; [|exact Ht]. cbv beta zeta.
    erewrite bind_ok; [|run_step (a_statement_ok _ Hf); reflexivity].
    erewrite bind_ok; [|reflexivity]. erewrite bind_ok; [|reflexivity]. cbv beta zeta.
    erewrite bind_ok; [reflexivity|]. apply batch_write_ok; [done|].
    destruct Hu as [Hu|Hu]; [by left | right; by apply has_date_none].
  - simpl. split_and!; done.
Qed.

(** The row of a date that has one is returned as it is. *)
Lemma batch_existing date r w : a_no_faults -> batch_of date (batch_hashes w) = Some r ->
  get_or_compute_batch_hash date w = (Ok (br_record r), a_next w).
Proof.
  intros Hf Hb. unfold get_or_compute_batch_hash. erewrite (bind_ok _ _ _ (Some r)); [done|].
  run_step (a_statement_ok _ Hf). by rewrite <- Hb.
Qed.

(** A batch hash computed for a date that has none. *)
Lemma batch_run date w : a_no_faults -> batch_of date (batch_hashes w) = None ->
  let es := events_in (midnight date) (midnight date + nanos_per_day) w in
  exists b w', get_or_compute_batch_hash date w = (Ok b, w')
    /\ bh_batch_hash b = hex_encode (leaves_root (event_leaves es))
    /\ batch_hashes w' = upsert_batch b (batch_hashes w)
    /\ bh_batch_date b = date /\ bh_batch_id b = a_uuid (3 + a_tick w) /\ a_tick w' = 6 + a_tick w
    /\ bh_record_count b = as_i32 (Z.of_nat (length es))
    /\ bh_previous_batch_hash b
       = bh_batch_hash ∘ br_record <$> latest_before date (batch_hashes w)
    /\ event_store w' = event_store w.
Proof.
  intros Hf Hb es. unfold get_or_compute_batch_hash, compute_batch_hash.
  destruct (store_batch_run date (lagged None es) (a_next (a_next w)) Hf (or_intror Hb))
    as (b & w' & Hr & Hs).
  exists b, w'. split.
  - erewrite (bind_ok _ _ _ None); [|run_step (a_statement_ok _ Hf); by rewrite <- Hb].
    cbv zeta. erewrite bind_ok; [|by apply fetch_range_ok]. exact Hr.
  - by rewrite lagged_leaves, lagged_length in Hs.
Qed.

Lemma upsert_batch_new b rows : batch_of (bh_batch_date b) rows = None ->
  upsert_batch b rows = (rows ++ [mkBatchRow b None None])%list.
Proof.
  unfold batch_of. induction rows as [|r rows IH]; simpl; [done|].
  case_match; [done|]. intros Hn. by rewrite IH.
Qed.

Lemma update_signature_run id sig k w : a_no_faults -> updates_allowed ->
  exists w', update_batch_signature id sig k w = (Ok tt, w') /\ event_store w' = event_store w
    /\ a_tick w' = S (a_tick w)
    /\ forall rows b, batch_hashes w = (rows ++ [mkBatchRow b None None])%list ->
       bh_batch_id b = id -> (forall r, r ∈ rows -> bh_batch_id (br_record r) <> id) ->
       exists now, batch_hashes w' = (rows ++ [mkBatchRow (mkBatch id (bh_batch_date b)
         (bh_batch_hash b) (bh_record_count b) (bh_source_data_hash b) now
         (bh_previous_batch_hash b)) (Some sig) (Some k)])%list.
Proof.
  intros Hf Hu. unfold update_batch_signature. eexists. split.
  { apply batch_write_ok; [done | by left]. }
  split; [done|]. split; [done|].
  intros rows b Hw Hid Hne. eexists. simpl. rewrite Hw, map_app. f_equal.
  - rewrite <- (map_id rows) at 2. apply map_ext_in. intros r Hr.
    apply list_elem_of_In in Hr. by rewrite (proj2 (N.eqb_neq _ _) (Hne r Hr)).
  - simpl. rewrite Hid, N.eqb_refl. reflexivity.
Qed.

Lemma batch_of_last date rows r : batch_of date rows = None ->
  bh_batch_date (br_record r) = date -> batch_of date (rows ++ [r]) = Some r.
Proof.
  intros Hn Hd. unfold batch_of in *. rewrite find_app_r by done. simpl. by rewrite Hd, Z.eqb_refl.
Qed.

Lemma batch_of_elem d rows x : batch_of d rows = Some x -> x ∈ rows /\ bh_batch_date (br_record x) = d.
Proof.
  intros E. apply List.find_some in E as [Hin E]. apply Z.eqb_eq in E.
  split; [by apply list_elem_of_In | done].
Qed.

(** The daily batch of a date that has none: one more row, signed. *)
Lemma daily_batch_run `{SigningBackend} `{!SigningLaws} date w :
  a_no_faults -> updates_allowed -> (forall m, exists s, sb_sign m = Ok s) ->
  batch_of date (batch_hashes w) = None ->
  (forall r, r ∈ batch_hashes w -> bh_batch_id (br_record r) <> a_uuid (3 + a_tick w)) ->
  exists b w' row sig, compute_daily_batch date w = (Ok b, w')
    /\ batch_hashes w' = (batch_hashes w ++ [row])%list /\ event_store w' = event_store w
    /\ bh_batch_date (br_record row) = date /\ bh_batch_id (br_record row) = a_uuid (3 + a_tick w)
    /\ a_tick w' = 7 + a_tick w
    /\ bh_batch_hash (br_record row) = hex_encode (leaves_root (event_leaves
         (events_in (midnight date) (midnight date + nanos_per_day) w)))
    /\ bh_previous_batch_hash (br_record row)
       = bh_batch_hash ∘ br_record <$> latest_before date (batch_hashes w)
    /\ br_signature row = Some sig
    /\ verify_batch_hash (bh_batch_hash (br_record row)) sig = Ok true
    /\ bh_batch_hash (br_record row) = bh_batch_hash b.
Proof.
  intros Hf Hup Hs Hb Hid.
  destruct (batch_run date w Hf Hb) as (b & w1 & Hr & Hh & Hrows & Hd & Hn & Ht & _ & Hp & He).
  destruct (Hs (as_bytes (bh_batch_hash b))) as [sig Hsig].
  destruct (update_signature_run (bh_batch_id b) sig sb_fingerprint w1 Hf Hup) as (w2 & Hu & He2 & Ht2 & Hw2).
  rewrite upsert_batch_new in Hrows by (by rewrite Hd).
  destruct (Hw2 _ _ Hrows eq_refl) as [now Hw2']; [by rewrite Hn|].
  exists b, w2. eexists _, sig. split_and!;
    [| exact Hw2' | congruence | done | done | by rewrite Ht2, Ht | done | done | done | | done].
  - unfold compute_daily_batch. erewrite bind_ok; [|exact Hr].
    erewrite bind_ok; [|unfold lift, sign_batch_hash; by rewrite Hsig].
    cbn [fst snd]. by erewrite bind_ok; [|exact Hu].
  - simpl. by apply sign_verifies.
Qed.

(** The events [verify_batch_integrity] looks at. *)
Definition interval_events (lo hi : Z) (w : AuditWorld) : list EventRecord :=
  List.filter (fun e => (lo <=? er_sequence_number e) && (er_sequence_number e <=? hi))%Z
    (lagged None (events_in 0 (a_clock (a_tick w) + 365 * 10 * nanos_per_day) w)).

(** Whether a supplied root is the root of the leaves, in any case. *)
Definition root_matches (expected : option string) (root : bytestring) : bool :=
  match expected with
  | Some exp => String.eqb (to_lowercase exp) (to_lowercase (hex_encode root))
  | None => true
  end.

Lemma integrity_run lo hi expected w : a_no_faults -> (lo <= hi)%Z ->
  let es := interval_events lo hi w in
  let valid := root_matches expected (leaves_root (leaves_of es)) in
  exists r w', verify_batch_integrity lo hi expected w = (Ok r, w')
    /\ bi_valid r = valid /\ bi_computed_root r = hex_encode (leaves_root (leaves_of es))
    /\ bi_total_transactions r = count_i64 es
    /\ bi_verified_transactions r = (if valid then count_i64 es else 0%Z)
    /\ bi_failed_transactions r = (if valid then 0%Z else count_i64 es)
    /\ (bi_violations r = [] <-> valid = true).
Proof.
  intros Hf Hle es valid. unfold verify_batch_integrity. destruct (Z.ltb_spec hi lo); [lia|].
  destruct (tree_of_ok es (a_next (a_next w))) as (tree & Ht & _).
  eexists _, _. split.
  - erewrite bind_ok; [|reflexivity]. erewrite bind_ok; [|by apply fetch_range_ok].
    change (events_in ?a ?b (a_next w)) with (events_in a b w). cbv zeta.
    erewrite bind_ok; [|exact Ht]. reflexivity.
  - cbn [bi_valid bi_computed_root bi_total_transactions bi_verified_transactions
         bi_failed_transactions bi_violations fst].
    change (match expected with Some _ => _ | None => _ end) with valid.
    split_and!; try done. by destruct valid.
Qed.

(** A list of records that a predecessor link joins in the wrong direction. *)
Definition links_backwards (log : list TransactionRecord) : Prop :=
  forall c t, c ∈ log -> t ∈ log -> tr_previous_hash c = Some (tr_record_hash t) ->
  (tr_transaction_id t < tr_transaction_id c)%Z.

Lemma chain_next_elem log c t :
  t ∈ chain_next log [c] <-> t ∈ log /\ tr_previous_hash c = Some (tr_record_hash t).
Proof.
  unfold chain_next. simpl. rewrite app_nil_r, !list_elem_of_In, List.filter_In.
  by rewrite bool_decide_eq_true.
Qed.

Lemma chain_from_single more log r0 : exists rest,
  chain_from more log [r0] = r0 :: rest
  /\ (rest = [] <-> more = 0 \/ chain_next log [r0] = [])
  /\ (forall r1 rest', rest = r1 :: rest' -> r1 ∈ chain_next log [r0]).
Proof.
  destruct more as [|more]; [exists []; naive_solver|].
  cbn [chain_from app]. destruct (chain_next log [r0]) as [|r1 next] eqn:E; [exists []; naive_solver|].
  exists (chain_from more log (r1 :: next)). split; [done|].
  assert (exists rest', chain_from more log (r1 :: next) = r1 :: rest') as [rest' ->]
    by (destruct more; by eexists).
  split; [naive_solver|]. intros r rest'' [= <- _]. by left.
Qed.

End audit.

(** ** A concrete environment for the witnesses *)

#[export] Instance test_audit_env : AuditEnv := {|
  a_fault _ := None;
  a_clock n := (Z.of_nat n)%Z;
  a_uuid n := (1000 + N.of_nat n)%N;
  pg_text j := match j with JString s => s | _ => "other" end;
  uuid_as_bytes u := repeat Byte.x07 16;
  random64 n := repeat Byte.x00 64;
  uuid_error s := "invalid";
  hashset_iter l := l;
  batches_write_once := None;
|}.

Definition toy_ed : Ed25519 := {|
  SigningKey := bytestring;
  ed_sign k m := (hmac_sha256 k m ++ hmac_sha256 k m)%list;
  ed_public k := k;
  ed_verify_strict pk m s := bool_decide (s = hmac_sha256 pk m ++ hmac_sha256 pk m)%list;
|}.

Definition sample_event (n : N) (s : string) : StoredEvent :=
  mkStoredEvent n "T" (Z.of_N n) (JString s) (Z.of_N n).

Definition sample_audit : AuditWorld :=
  mkAuditWorld [sample_event 3 "c"; sample_event 1 "a"; sample_event 2 "b"] [] [] [] [] [] 0.

Lemma test_a_no_faults : a_no_faults.
Proof. by intros n. Qed.

(** ** Theorems *)






(** The daily job: for a date without a batch it appends exactly one row,
    whose hash is the hexadecimal Merkle root of the day's events, whose
    predecessor link is the hash of the latest earlier date, and whose stored
    signature verifies against that hash; the earlier rows and the events are
    untouched, and computing the batch again returns the stored hash. *)
Theorem daily_batch_signed `{HashOps} `{HexOps} `{UuidOps} `{AuditEnv} `{SigningBackend}
    `{!SigningLaws} (date : Z) (w : AuditWorld) :
  a_no_faults -> updates_allowed -> (forall m, exists s, sb_sign m = Ok s) ->
  batch_of date (batch_hashes w) = None ->
  (forall n r, r ∈ batch_hashes w -> bh_batch_id (br_record r) <> a_uuid n) ->
  exists b w' row sig, compute_daily_batch date w = (Ok b, w')
    /\ batch_hashes w' = (batch_hashes w ++ [row])%list
    /\ event_store w' = event_store w
    /\ bh_batch_hash (br_record row) = hex_encode (leaves_root (event_leaves
         (events_in (midnight date) (midnight date + nanos_per_day) w)))
    /\ bh_previous_batch_hash (br_record row)
       = bh_batch_hash ∘ br_record <$> latest_before date (batch_hashes w)
    /\ br_signature row = Some sig
    /\ verify_batch_hash (bh_batch_hash (br_record row)) sig = Ok true
    /\ fst (get_or_compute_batch_hash date w') = Ok (br_record row)
    /\ bh_batch_hash (br_record row) = bh_batch_hash b.
Proof.
  intros Hf Hup Hs Hb Hid.
  destruct (daily_batch_run date w Hf Hup Hs Hb ltac:(auto)) as
    (b & w2 & row & sig & Hrun & Hrows & He & Hd & _ & _ & Hh & Hp & Hsig & Hv & Hbh).
  exists b, w2, row, sig. split_and!; try done.
  rewrite (batch_existing date row); [done | done|]. by rewrite Hrows, (batch_of_last date).
Qed.

Definition toy_backend : SigningBackend :=
  software_backend (H0 := toy_ed) "audit-key-001" (as_bytes "key").

#[export] Instance toy_ed_laws : @Ed25519Laws toy_ed.
Proof.
  constructor; intros k m; simpl.
  - rewrite length_app, !Sha256.hmac_length. done.
  - by apply bool_decide_eq_true.
Qed.

Lemma daily_batch_signed_witness :
  exists b w' row sig, compute_daily_batch (H3 := toy_backend) 0 sample_audit = (Ok b, w')
    /\ batch_hashes w' = (batch_hashes sample_audit ++ [row])%list
    /\ event_store w' = event_store sample_audit
    /\ bh_batch_hash (br_record row) = hex_encode (leaves_root (event_leaves
         (events_in (midnight 0) (midnight 0 + nanos_per_day) sample_audit)))
    /\ bh_previous_batch_hash (br_record row)
       = bh_batch_hash ∘ br_record <$> latest_before 0 (batch_hashes sample_audit)
    /\ br_signature row = Some sig
    /\ @verify_batch_hash toy_backend (bh_batch_hash (br_record row)) sig = Ok true
    /\ fst (get_or_compute_batch_hash 0 w') = Ok (br_record row)
    /\ bh_batch_hash (br_record row) = bh_batch_hash b.
Proof.
  apply (@daily_batch_signed _ _ _ _ toy_backend (software_laws _ _) 0 sample_audit);
    [exact test_a_no_faults | reflexivity | by eexists | reflexivity
    | intros n r Hr; by apply not_elem_of_nil in Hr].
Defined.

(** [verify_batch_integrity] compares the supplied root with the Merkle root
    of the events of the interval and nothing else: with a root given in
    hexadecimal it reports valid exactly when the roots are equal, with none
    it always does; every event of the interval is counted, as verified when
    valid and as failed otherwise, and a violation is reported exactly when
    invalid. *)
Theorem verify_batch_integrity_spec `{HashOps} `{HexOps} `{!HexLaws} `{UuidOps} `{AuditEnv}
    (lo hi : Z) (expected : option bytestring) (w : AuditWorld) :
  a_no_faults -> (lo <= hi)%Z ->
  exists r, fst (verify_batch_integrity lo hi (hex_encode <$> expected) w) = Ok r
    /\ let es := interval_events lo hi w in
       bi_computed_root r = hex_encode (leaves_root (leaves_of es))
       /\ (bi_valid r = true <-> expected = None \/ expected = Some (leaves_root (leaves_of es)))
       /\ bi_total_transactions r = count_i64 es
       /\ (bi_verified_transactions r + bi_failed_transactions r = bi_total_transactions r)%Z
       /\ (bi_valid r = true -> bi_failed_transactions r = 0%Z)
       /\ (bi_valid r = true <-> bi_violations r = []).
Proof.
  intros Hf Hle.
  destruct (integrity_run lo hi (hex_encode <$> expected) w Hf Hle)
    as (r & w' & Hr & Hv & Hc & Ht & Hok & Hbad & Hviol).
  exists r. rewrite Hr. split; [done|]. cbv zeta. rewrite Hc, Hv, Ht, Hok, Hbad, Hviol.
  split_and!; try done; try (destruct (root_matches _ _); done || lia).
  destruct expected as [x|]; simpl; [|naive_solver].
  rewrite !hex_encode_lower, String.eqb_eq. split.
  - intros E%hex_encode_inj. right. by f_equal.
  - by intros [?|[= ->]].
Qed.

Lemma verify_batch_integrity_spec_witness :
  exists r, fst (verify_batch_integrity 1 2 (hex_encode <$> Some [Byte.x01]) sample_audit) = Ok r
    /\ let es := interval_events 1 2 sample_audit in
       bi_computed_root r = hex_encode (leaves_root (leaves_of es))
       /\ (bi_valid r = true <->
           Some [Byte.x01] = None \/ Some [Byte.x01] = Some (leaves_root (leaves_of es)))
       /\ bi_total_transactions r = count_i64 es
       /\ (bi_verified_transactions r + bi_failed_transactions r = bi_total_transactions r)%Z
       /\ (bi_valid r = true -> bi_failed_transactions r = 0%Z)
       /\ (bi_valid r = true <-> bi_violations r = []).
Proof.
  apply (verify_batch_integrity_spec 1 2 (Some [Byte.x01]) sample_audit);
    [exact test_a_no_faults | lia].
Defined.

(** C40. [verify_transaction_chain] walks the chain against its direction: in a
    log whose predecessor links lead to older transactions, as the kernel
    writes it, a transaction is reported valid exactly when it has no
    predecessor in the log; every transaction with one is reported as a broken
    chain, however intact its hashes are. *)
Theorem intact_chain_reported_broken `{HashOps} `{HexOps} `{UuidOps} `{AuditEnv}
    (id : string) (u : Uuid) (max_depth : Z) (r0 : TransactionRecord) (w : AuditWorld) :
  a_no_faults -> uuid_parse id = Some u -> (2 <= max_depth)%Z ->
  List.filter (fun t => N.eqb (tr_transaction_uuid t) u) (transaction_log w) = [r0] ->
  links_backwards (transaction_log w) ->
  exists r, fst (verify_transaction_chain id max_depth w) = Ok r
    /\ (cr_is_valid r = true <->
        forall t, t ∈ transaction_log w -> tr_previous_hash r0 <> Some (tr_record_hash t)).
Proof.
  intros Hf Hu Hd Hr0 Hl. unfold verify_transaction_chain.
  erewrite bind_ok; [|unfold lift, audit_parse_uuid; by rewrite Hu].
  erewrite bind_ok; [|unfold fetch_transactions_for_chain; run_step (a_statement_ok _ Hf); reflexivity].
  cbv beta zeta. change (transaction_log (a_next w)) with (transaction_log w). rewrite Hr0.
  destruct (chain_from_single (Z.to_nat (max_depth - 1)) (transaction_log w) r0)
    as (rest & -> & Hnil & Hnext). cbv iota. eexists. split; [reflexivity|].
  assert (r0 ∈ transaction_log w) as Hin.
  { apply list_elem_of_In. eapply List.filter_In. rewrite Hr0. by left. }
  destruct rest as [|r1 rest]; cbn [first_break].
  - split; [|done]. intros _ t Ht Hprev.
    destruct (proj1 Hnil eq_refl) as [E|E]; [lia|].
    assert (t ∈ chain_next (transaction_log w) [r0]) as Hc by (by apply chain_next_elem).
    rewrite E in Hc. by apply not_elem_of_nil in Hc.
  - destruct (proj1 (chain_next_elem _ _ _) (Hnext r1 rest eq_refl)) as [Hin1 Hprev].
    pose proof (Hl r0 r1 Hin Hin1 Hprev).
    rewrite bool_decide_eq_false_2 by (intros E; pose proof (Hl r1 r0 Hin1 Hin E); lia).
    split; [done|]. intros Hno. by destruct (Hno r1 Hin1).
Qed.

(** Two transactions of an intact chain. *)
Definition intact_log : AuditWorld :=
  mkAuditWorld [] [mkTransactionRecord 1 11 "h1" None 0; mkTransactionRecord 2 12 "h2" (Some "h1") 1]
    [] [] [] [] 0.

Lemma intact_chain_reported_broken_witness :
  exists r, fst (verify_transaction_chain (uuid_to_string 12) 10 intact_log) = Ok r
    /\ (cr_is_valid r = true <->
        forall t, t ∈ transaction_log intact_log -> Some "h1" <> Some (tr_record_hash t)).
Proof.
  apply (intact_chain_reported_broken (uuid_to_string 12) 12%N 10
           (mkTransactionRecord 2 12 "h2" (Some "h1") 1) intact_log);
    [exact test_a_no_faults | apply uuid_parse_to_string | lia | reflexivity |].
  intros c t Hc Ht. rewrite !list_elem_of_In in Hc, Ht. simpl in Hc, Ht.
  destruct Hc as [<-|[<-|[]]], Ht as [<-|[<-|[]]]; simpl; intros E; by simplify_eq.
Defined.

(** A Merkle proof can not be asked for by transaction id: without an event
    id or a sequence number [get_merkle_proof] fails with an empty "event not
    found" before any query, whatever transaction is named. *)
Theorem merkle_proof_by_transaction_fails `{HashOps} `{HexOps} `{UuidOps} `{AuditEnv}
    (tx : string) (w : AuditWorld) :
  get_merkle_proof (Some tx) None None w = (Err (EventNotFound ""), w).
Proof. reflexivity. Qed.
