(* ===== verification/AuditCron.v ===== *)
(** * The daily batch job of the audit service

    [run_daily_batch_cron] of [audit/src/main.rs]: on start-up the seven days
    before today are backfilled, then a ticker fires every day from 02:00 UTC on
    and the batch of the day before is computed.  Whether its signature can be
    stored depends on the table, which the migrations make write-once.  The loop never ends;
    [run_daily_batch_cron n] is the state after [n] rounds of it, and the
    liveness theorem says that every day's batch is there from some round on. *)

From Stdlib Require Import ZArith Lia.
From stdpp Require Import base list strings numbers sorting.
From S2P Require Import Prelude RustStr External Reference Merkle AuditStore AuditHandler.

Local Open Scope string_scope.

Definition nanos_per_hour : Z := 3600 * nanos_per_sec.

(** [ticker.tick()]: a task that sleeps until [deadline] from step [n] of the
    process on resumes at step [wake deadline n]. *)
Class Timer := {
  wake : DateTime -> nat -> nat;
}.

Definition at_tick (n : nat) (w : AuditWorld) : AuditWorld :=
  mkAuditWorld (event_store w) (transaction_log w) (batch_hashes w) (change_log w) (exports w)
    (checks w) n.

Section cron.
Context `{HashOps} `{HexOps} `{UuidOps} `{AuditEnv} `{SigningBackend} `{Timer}.

Definition sleep_until (deadline : DateTime) : M AuditWorld AuditError unit := fun w =>
  (Ok tt, at_tick (wake deadline (a_tick w)) w).

(** The [match] on the result of [compute_daily_batch]: either arm only logs. *)
Definition run_batch (date : Z) : M AuditWorld AuditError unit :=
  _ ← attempt (compute_daily_batch date);
  mret tt.

(** 02:00 of the day of [now], or of the next day when that has passed. *)
Definition next_run_after (now : DateTime) : DateTime :=
  let next_run := (midnight (date_naive now) + 2 * nanos_per_hour)%Z in
  if (next_run <=? now)%Z then (next_run + nanos_per_day)%Z else next_run.

(** [(next_run - now).to_std().unwrap_or(Duration::from_secs(60))] *)
Definition wait_duration (next_run now : DateTime) : Z :=
  let d := (next_run - now)%Z in
  if (d <? 0)%Z then (60 * nanos_per_sec)%Z else d.

(** [1..=7] *)
Definition backfill_days : list Z := [1; 2; 3; 4; 5; 6; 7]%Z.

(** Everything before the loop: the first deadline of the ticker. *)
Definition cron_startup : M AuditWorld AuditError DateTime :=
  now ← a_now;
  let today := date_naive now in
  forM backfill_days (fun days_back => run_batch (today - days_back)%Z) ;;
  now ← a_now;
  let next_run := next_run_after now in
  let wait := wait_duration next_run now in
  instant ← a_now;
  mret (instant + wait)%Z.

(** The body of the loop, in its round [k]. *)
Definition cron_tick (start : DateTime) (k : nat) : M AuditWorld AuditError unit :=
  sleep_until (start + Z.of_nat k * nanos_per_day)%Z ;;
  now ← a_now;
  run_batch (date_naive now - 1)%Z.

(** The rounds [k], ..., [k + n - 1]. *)
Fixpoint cron_rounds (start : DateTime) (k n : nat) : M AuditWorld AuditError unit :=
  match n with
  | O => mret tt
  | S n' => cron_tick start k ;; cron_rounds start (S k) n'
  end.

Definition run_daily_batch_cron (n : nat) : M AuditWorld AuditError unit :=
  start ← cron_startup;
  cron_rounds start 0 n.

(** ** What the job relies on *)

(** The clock does not go back, sixty steps of the process take less than an
    hour, identifiers are not drawn twice, and a sleeping task resumes after its
    deadline, within an hour of it unless it is already later. *)
Class CronLaws : Prop := {
  clock_mono : forall n m, n <= m -> (a_clock n <= a_clock m)%Z;
  clock_pace : forall n, (a_clock (60 + n) < a_clock n + nanos_per_hour)%Z;
  uuid_inj : forall n m, a_uuid n = a_uuid m -> n = m;
  wake_later : forall d n, n <= wake d n;
  wake_due : forall d n, (d <= a_clock (wake d n))%Z;
  wake_prompt : forall d n, (a_clock n < d + nanos_per_hour)%Z ->
    (a_clock (wake d n) < d + nanos_per_hour)%Z;
}.

(** The batch of a date is stored, and, where the table may be updated, with a
    signature that verifies. *)
Definition batch_done (date : Z) (w : AuditWorld) : Prop :=
  exists r, batch_of date (batch_hashes w) = Some r
    /\ (updates_allowed -> exists sig, br_signature r = Some sig
        /\ verify_batch_hash (bh_batch_hash (br_record r)) sig = Ok true).

(** What the job does to the table: no day loses its batch, and where the table
    is write-once rows without a signature are added and nothing else. *)
Definition rows_added (w w' : AuditWorld) : Prop :=
  exists new, batch_hashes w' = (batch_hashes w ++ new)%list
    /\ Forall (fun r => br_signature r = None) new.

Definition job_step (w w' : AuditWorld) : Prop :=
  (forall d, batch_done d w -> batch_done d w') /\ (~ updates_allowed -> rows_added w w').

#[global] Instance job_step_preorder : PreOrder job_step.
Proof.
  split; [intros w; split; [done|]; intros _; exists []; by rewrite app_nil_r|].
  intros w1 w2 w3 [D1 R1] [D2 R2]. split; [auto|]. intros Hu.
  destruct (R1 Hu) as (n1 & E1 & F1), (R2 Hu) as (n2 & E2 & F2).
  exists (n1 ++ n2)%list. split; [by rewrite E2, E1, app_assoc | by apply Forall_app].
Qed.

Definition batch_ids (rows : list BatchRow) : list Uuid := map (fun r => bh_batch_id (br_record r)) rows.

(** The identifiers in the table are distinct and none will be drawn again. *)
Definition ids_ok (w : AuditWorld) : Prop :=
  NoDup (batch_ids (batch_hashes w))
  /\ forall n, a_tick w <= n -> a_uuid n ∉ batch_ids (batch_hashes w).

End cron.

(** ** Lemmas *)

Section lemmas.
Context `{HashOps} `{HexOps} `{UuidOps} `{AuditEnv} `{SigningBackend} `{!SigningLaws} `{Timer}
  `{!CronLaws}.
Hypothesis no_faults : a_no_faults.
Hypothesis signs : forall m, exists s, sb_sign m = Ok s.

(** What [update_batch_signature] does to a row. *)
Definition resign (id : Uuid) (sig : bytestring) (key : string) (now : DateTime) (r : BatchRow)
    : BatchRow :=
  let b := br_record r in
  if N.eqb (bh_batch_id b) id
  then mkBatchRow (mkBatch (bh_batch_id b) (bh_batch_date b) (bh_batch_hash b)
         (bh_record_count b) (bh_source_data_hash b) now
         (bh_previous_batch_hash b)) (Some sig) (Some key)
  else r.

Lemma resign_record id sig key now r :
  bh_batch_id (br_record (resign id sig key now r)) = bh_batch_id (br_record r)
  /\ bh_batch_date (br_record (resign id sig key now r)) = bh_batch_date (br_record r)
  /\ bh_batch_hash (br_record (resign id sig key now r)) = bh_batch_hash (br_record r).
Proof. unfold resign. by destruct (N.eqb _ _). Qed.

Lemma update_run id sig key w : updates_allowed -> exists now,
  update_batch_signature id sig key w
  = (Ok tt, set_batches (map (resign id sig key now) (batch_hashes w)) (a_next w)).
Proof.
  intros Hu. exists (a_clock (a_tick (a_next w))). unfold update_batch_signature.
  by rewrite batch_write_ok by (done || by left).
Qed.

Lemma update_refused r id sig key w : ~ updates_allowed -> r ∈ batch_hashes w ->
  bh_batch_id (br_record r) = id ->
  exists e, update_batch_signature id sig key w = (Err (AuditDatabase e), a_next w).
Proof.
  intros Hu Hr Hid. unfold updates_allowed in Hu. destruct batches_write_once as [e|] eqn:Ew; [|done].
  exists e. unfold update_batch_signature, batch_write. run_step (a_statement_ok _ no_faults).
  erewrite bind_ok by reflexivity. cbv beta. cbn [batch_hashes a_next]. rewrite Ew.
  assert (has_id id (batch_hashes w) = true) as ->; [|done].
  apply existsb_exists. exists r. by rewrite <- list_elem_of_In, N.eqb_eq.
Qed.

Lemma batch_of_map d (f : BatchRow -> BatchRow) rows :
  (forall r, bh_batch_date (br_record (f r)) = bh_batch_date (br_record r)) ->
  batch_of d (map f rows) = f <$> batch_of d rows.
Proof.
  intros Hf. unfold batch_of. induction rows as [|r rows IH]; simpl; [done|].
  rewrite Hf. by destruct (Z.eqb _ _).
Qed.

Lemma batch_of_app d rows rows' x : batch_of d rows = Some x -> batch_of d (rows ++ rows') = Some x.
Proof.
  unfold batch_of. induction rows as [|r rows IH]; simpl; [done|]. by destruct (Z.eqb _ _).
Qed.

Lemma ids_inj rows x y : NoDup (batch_ids rows) -> x ∈ rows -> y ∈ rows ->
  bh_batch_id (br_record x) = bh_batch_id (br_record y) -> x = y.
Proof.
  unfold batch_ids. induction rows as [|r rows IH]; simpl; intros Hn Hx Hy E;
    [by apply not_elem_of_nil in Hx|].
  apply NoDup_cons in Hn as [Hr Hn].
  assert (forall z, z ∈ rows -> bh_batch_id (br_record z) <> bh_batch_id (br_record r)) as Hne.
  { intros z Hz E'. apply Hr. rewrite <- E'. by apply (list_elem_of_fmap_2 (fun r => bh_batch_id (br_record r))). }
  apply elem_of_cons in Hx as [->|Hx], Hy as [->|Hy]; try done.
  - by destruct (Hne y Hy).
  - by destruct (Hne x Hx).
  - by apply IH.
Qed.

(** After [get_or_compute_batch_hash] the date has a row, and no row is lost. *)
Lemma get_batch_step date w : ids_ok w -> exists r w1,
  get_or_compute_batch_hash date w = (Ok (br_record r), w1)
  /\ batch_of date (batch_hashes w1) = Some r /\ ids_ok w1 /\ rows_added w w1
  /\ a_tick w <= a_tick w1 <= 6 + a_tick w.
Proof.
  intros [Hn Hfr]. destruct (batch_of date (batch_hashes w)) as [r|] eqn:Hb.
  - exists r, (a_next w). split_and!; try done; [| | |simpl; lia..].
    + by apply batch_existing.
    + split; [done|]. simpl. intros n Hle. apply Hfr. lia.
    + exists []. by rewrite app_nil_r.
  - destruct (batch_run date w no_faults Hb) as (b & w1 & Hr & _ & Hrows & Hd & Hid & Ht & _).
    rewrite upsert_batch_new in Hrows by (by rewrite Hd).
    exists (mkBatchRow b None None), w1. rewrite Hrows, Ht.
    assert (batch_ids (batch_hashes w ++ [mkBatchRow b None None])
            = (batch_ids (batch_hashes w) ++ [bh_batch_id b])%list) as E.
    { unfold batch_ids. by rewrite map_app. }
    split_and!; try done; [by apply batch_of_last | | by exists [mkBatchRow b None None]; auto | lia..].
    split; rewrite Hrows, E.
    + apply NoDup_app. split_and!; [done | | apply NoDup_singleton].
      intros u Hu ->%list_elem_of_singleton. rewrite Hid in Hu.
      apply (Hfr (3 + a_tick w)); [lia | done].
    + intros n Hle. rewrite Ht in Hle. rewrite elem_of_app, list_elem_of_singleton, Hid.
      intros [Hu|Hu%uuid_inj]; [apply (Hfr n); [lia | done] | lia].
Qed.

Lemma rows_added_of w w' d x : rows_added w w' -> batch_of d (batch_hashes w) = Some x ->
  batch_of d (batch_hashes w') = Some x.
Proof. intros (new & -> & _). apply batch_of_app. Qed.

Lemma ids_ok_later w n : ids_ok w -> a_tick w <= n -> ids_ok (at_tick n w).
Proof. intros [Hn Hfr] Hle. split; [done|]. simpl. intros m Hm. apply Hfr. lia. Qed.

(** One run of the job for a date: where the signature can be stored ... *)
Lemma signed_step date w : updates_allowed -> ids_ok w -> exists w',
  run_batch date w = (Ok tt, w') /\ ids_ok w' /\ batch_done date w' /\ job_step w w'
  /\ a_tick w <= a_tick w' <= 7 + a_tick w.
Proof.
  intros Hup Hok. destruct (get_batch_step date w Hok) as (r & w1 & Hg & Hr & [Hn Hfr] & Hadd & Ht).
  destruct (signs (as_bytes (bh_batch_hash (br_record r)))) as [sig Hsig].
  destruct (update_run (bh_batch_id (br_record r)) sig sb_fingerprint w1 Hup) as [now Hu].
  set (f := resign _ _ _ _) in Hu. eexists. split.
  { unfold run_batch. erewrite bind_ok; [reflexivity|].
    apply (attempt_ok _ _ (Ok (br_record r))); [|done].
    unfold compute_daily_batch. erewrite bind_ok; [|exact Hg].
    erewrite bind_ok; [|unfold lift, sign_batch_hash; by rewrite Hsig].
    cbn [fst snd]. by erewrite bind_ok; [|exact Hu]. }
  assert (forall d x, batch_of d (batch_hashes w1) = Some x ->
            batch_of d (map f (batch_hashes w1)) = Some (f x)) as Hof.
  { intros d x E. by rewrite batch_of_map, E by (intros; apply resign_record). }
  assert (br_signature (f r) = Some sig
          /\ verify_batch_hash (bh_batch_hash (br_record (f r))) sig = Ok true) as Hsigned.
  { unfold f, resign. rewrite N.eqb_refl. simpl. split; [done | by apply sign_verifies]. }
  cbn [set_batches batch_hashes a_next a_tick]. split_and!; try lia.
  - split; cbn [set_batches batch_hashes a_next a_tick];
      (replace (batch_ids (map f (batch_hashes w1))) with (batch_ids (batch_hashes w1));
        [|unfold batch_ids; rewrite map_map; apply map_ext; intros; symmetry; apply resign_record]).
    + done.
    + intros n Hle. apply Hfr. lia.
  - exists (f r). split; [by apply Hof | by exists sig].
  - split; [|done]. intros d (x & Hx & Hs). apply (rows_added_of w w1) in Hx; [|done]. exists (f x).
    split; [by apply Hof|]. intros _.
    destruct (N.eq_dec (bh_batch_id (br_record x)) (bh_batch_id (br_record r))) as [E|Hne].
    + apply (ids_inj (batch_hashes w1)) in E as ->; [by exists sig | done | by eapply batch_of_elem..].
    + unfold f, resign. rewrite (proj2 (N.eqb_neq _ _)) by done. by apply Hs.
Qed.

(** ... and where the table is write-once. *)
Lemma unsigned_step date w : ~ updates_allowed -> ids_ok w -> exists w',
  run_batch date w = (Ok tt, w') /\ ids_ok w' /\ batch_done date w' /\ job_step w w'
  /\ a_tick w <= a_tick w' <= 7 + a_tick w.
Proof.
  intros Hup Hok. destruct (get_batch_step date w Hok) as (r & w1 & Hg & Hr & Hok1 & Hadd & Ht).
  destruct (signs (as_bytes (bh_batch_hash (br_record r)))) as [sig Hsig].
  destruct (update_refused r (bh_batch_id (br_record r)) sig sb_fingerprint w1 Hup) as [e Hu];
    [by eapply batch_of_elem | done |].
  exists (a_next w1). split.
  { unfold run_batch. erewrite bind_ok; [reflexivity|].
    apply (attempt_ok _ _ (Err (AuditDatabase e))); [|done].
    unfold compute_daily_batch. erewrite bind_ok; [|exact Hg].
    erewrite bind_ok; [|unfold lift, sign_batch_hash; by rewrite Hsig].
    cbn [fst snd]. by erewrite bind_err; [|exact Hu]. }
  split_and!; [by apply (ids_ok_later w1 (S (a_tick w1))); [|lia] | by exists r | | simpl; lia..].
  split; [|by intros _]. intros d (x & Hx & Hs). exists x. split; [by eapply rows_added_of | done].
Qed.

Lemma run_batch_step date w : ids_ok w -> exists w',
  run_batch date w = (Ok tt, w') /\ ids_ok w' /\ batch_done date w' /\ job_step w w'
  /\ a_tick w <= a_tick w' <= 7 + a_tick w.
Proof.
  destruct (decide (batches_write_once = None)); [by apply signed_step | by apply unsigned_step].
Qed.

(** The backfill: every listed day is done, in at most seven steps each. *)
Lemma backfill_step today ks w : ids_ok w -> exists w',
  forM ks (fun k => run_batch (today - k)%Z) w = (Ok tt, w') /\ ids_ok w'
  /\ (forall k, k ∈ ks -> batch_done (today - k) w') /\ job_step w w'
  /\ a_tick w <= a_tick w' <= 7 * length ks + a_tick w.
Proof.
  revert w. induction ks as [|k ks IH]; intros w Hok.
  - exists w. split_and!; try done; try (simpl; lia). intros k Hk. by apply not_elem_of_nil in Hk.
  - destruct (run_batch_step (today - k)%Z w Hok) as (w1 & Hr & Hok1 & Hs1 & Hk1 & Ht1).
    destruct (IH w1 Hok1) as (w' & Hf & Hok' & Hs' & Hk' & Ht').
    exists w'. split_and!; [| done | | by etrans | simpl; lia | simpl; lia].
    + cbn [forM]. by erewrite bind_ok.
    + intros j [->|Hj]%elem_of_cons; [by apply Hk' | auto].
Qed.

(** The instant of the next run is 02:00 of a day, at most a day ahead. *)
Lemma next_run_spec now : exists d,
  next_run_after now = (midnight d + 2 * nanos_per_hour)%Z
  /\ (now < next_run_after now <= now + nanos_per_day)%Z
  /\ (d = date_naive now \/ d = date_naive now + 1)%Z
  /\ (midnight (d - 1) + 2 * nanos_per_hour <= now)%Z.
Proof.
  unfold next_run_after. cbv zeta.
  assert (midnight (date_naive now) <= now < midnight (date_naive now) + nanos_per_day)%Z as Hd.
  { unfold midnight, date_naive, nanos_per_day, nanos_per_sec.
    pose proof (Z.div_mod now (86400 * 1000000000)).
    pose proof (Z.mod_pos_bound now (86400 * 1000000000)). lia. }
  unfold midnight, nanos_per_hour, nanos_per_day, nanos_per_sec in *. case_match eqn:E.
  - apply Z.leb_le in E. exists (date_naive now + 1)%Z. split_and!; lia.
  - apply Z.leb_gt in E. exists (date_naive now). split_and!; lia.
Qed.

(** The day of an instant between 02:00 and 04:00. *)
Lemma date_of_window d t :
  (midnight d + 2 * nanos_per_hour <= t < midnight d + 4 * nanos_per_hour)%Z -> date_naive t = d.
Proof.
  unfold midnight, date_naive, nanos_per_hour, nanos_per_day, nanos_per_sec. intros Ht.
  symmetry. apply (Z.div_unique _ _ _ (t - d * (86400 * 1000000000))); lia.
Qed.

(** Instants less than an hour apart. *)
Lemma clock_near n m : n <= m <= 60 + n -> (a_clock n <= a_clock m < a_clock n + nanos_per_hour)%Z.
Proof.
  intros Hm. pose proof (clock_mono n m ltac:(lia)). pose proof (clock_mono m (60 + n) ltac:(lia)).
  pose proof (clock_pace n). lia.
Qed.

Lemma date_mono a b : (a <= b)%Z -> (date_naive a <= date_naive b)%Z.
Proof. intros. unfold date_naive, nanos_per_day, nanos_per_sec. apply Z.div_le_mono; lia. Qed.

Lemma date_near a b : (a <= b < a + nanos_per_day)%Z ->
  date_naive b = date_naive a \/ date_naive b = (date_naive a + 1)%Z.
Proof.
  intros Hab. pose proof (date_mono a b ltac:(lia)).
  pose proof (date_mono b (a + 1 * nanos_per_day) ltac:(lia)).
  assert (date_naive (a + 1 * nanos_per_day) = date_naive a + 1)%Z.
  { unfold date_naive. by rewrite Z.div_add by (unfold nanos_per_day, nanos_per_sec; lia). }
  lia.
Qed.

(** A day computed from its midnight. *)
Lemma midnight_bounds t : (midnight (date_naive t) <= t < midnight (date_naive t + 1))%Z.
Proof.
  unfold midnight, date_naive, nanos_per_day, nanos_per_sec.
  pose proof (Z.div_mod t (86400 * 1000000000)). pose proof (Z.mod_pos_bound t (86400 * 1000000000)).
  lia.
Qed.

(** The start-up: the week before is done, and the first deadline lies
    between 02:00 and 03:00 of today or tomorrow. *)
Lemma startup_step w : ids_ok w -> let today := date_naive (a_clock (a_tick w)) in
  exists start w' d, cron_startup w = (Ok start, w') /\ ids_ok w'
    /\ (forall k, k ∈ backfill_days -> batch_done (today - k) w') /\ job_step w w'
    /\ (midnight d + 2 * nanos_per_hour <= start < midnight d + 3 * nanos_per_hour)%Z
    /\ (d = today \/ d = today + 1)%Z
    /\ (a_clock (a_tick w') < start + nanos_per_hour)%Z.
Proof.
  intros Hok today.
  assert (ids_ok (a_next w)) as Hok0.
  { destruct Hok as [Hn Hfr]. split; [done|]. simpl. intros n Hle. apply Hfr. lia. }
  destruct (backfill_step today backfill_days (a_next w) Hok0) as (w1 & Hf & [Hn Hfr] & Hs & Hj & Ht).
  simpl in Ht. set (now := a_clock (a_tick w1)). set (instant := a_clock (S (a_tick w1))).
  destruct (next_run_spec now) as (d & Hd & Hw & Hdd & Hlate).
  pose proof (clock_near (a_tick w) (a_tick w1) ltac:(lia)) as C1. fold now in C1.
  pose proof (clock_near (a_tick w1) (S (a_tick w1)) ltac:(lia)) as C2. fold now instant in C2.
  pose proof (clock_near (S (a_tick w1)) (S (S (a_tick w1))) ltac:(lia)) as C3. fold instant in C3.
  exists (instant + (next_run_after now - now))%Z, (a_next (a_next w1)), d. split_and!.
  - unfold cron_startup. erewrite bind_ok; [|reflexivity]. cbv zeta. erewrite bind_ok; [|exact Hf].
    erewrite bind_ok; [|reflexivity]. cbv zeta. erewrite bind_ok; [|reflexivity].
    fold now. unfold wait_duration. cbv zeta.
    rewrite (proj2 (Z.ltb_ge _ _)) by lia. reflexivity.
  - split; [done|]. simpl. intros n Hle. apply Hfr. lia.
  - done.
  - exact Hj.
  - lia.
  - lia.
  - destruct (date_near (a_clock (a_tick w)) now) as [E|E];
      [unfold nanos_per_hour, nanos_per_day, nanos_per_sec in *; lia | fold today in E; lia |].
    pose proof (midnight_bounds (a_clock (a_tick w))) as Hm. fold today in E, Hm.
    destruct Hdd as [->| ->]; [lia|]. exfalso. rewrite E in Hlate.
    unfold midnight, nanos_per_hour, nanos_per_day, nanos_per_sec in *. lia.
  - simpl. unfold nanos_per_hour in *. lia.
Qed.

(** The rounds of the loop: round [j] does the batch of day [d + j - 1]. *)
Lemma rounds_step start d n : 
  (midnight d + 2 * nanos_per_hour <= start < midnight d + 3 * nanos_per_hour)%Z ->
  forall k w, ids_ok w ->
  (a_clock (a_tick w) < start + Z.of_nat k * nanos_per_day + nanos_per_hour)%Z ->
  exists w', cron_rounds start k n w = (Ok tt, w')
    /\ (forall j, k <= j < k + n -> batch_done (d + Z.of_nat j - 1) w') /\ job_step w w'.
Proof.
  intros Hstart. induction n as [|n IH]; intros k w Hok Hc.
  { exists w. split_and!; [done | intros; lia | done]. }
  set (deadline := (start + Z.of_nat k * nanos_per_day)%Z) in *.
  pose proof (wake_later deadline (a_tick w)) as Wl. pose proof (wake_due deadline (a_tick w)) as Wd.
  pose proof (wake_prompt deadline (a_tick w) Hc) as Wp.
  set (m := wake deadline (a_tick w)) in *.
  assert (date_naive (a_clock m) = d + Z.of_nat k)%Z as Hdate.
  { apply date_of_window. unfold deadline, midnight, nanos_per_hour, nanos_per_day, nanos_per_sec in *.
    lia. }
  assert (ids_ok (a_next (at_tick m w))) as Hok1.
  { destruct Hok as [Hn Hfr]. split; [done|]. simpl. intros i Hi. apply Hfr. lia. }
  destruct (run_batch_step (d + Z.of_nat k - 1)%Z _ Hok1) as (w2 & Hr & Hok2 & Hs2 & Hk2 & Ht2).
  simpl in Ht2. pose proof (clock_near m (a_tick w2) ltac:(lia)) as C2.
  destruct (IH (S k) w2 Hok2) as (w' & Hloop & Hs' & Hk').
  { unfold deadline, nanos_per_hour, nanos_per_day, nanos_per_sec in *. lia. }
  exists w'. split_and!.
  - cbn [cron_rounds]. erewrite bind_ok; [exact Hloop|]. unfold cron_tick.
    erewrite bind_ok; [|reflexivity]. erewrite bind_ok; [|reflexivity]. fold deadline m.
    cbn [at_tick a_tick]. by rewrite Hdate.
  - intros j Hj. destruct (decide (j = k)) as [->|Hne]; [by apply Hk' | apply Hs'; lia].
  - etrans; [exact Hk2 | exact Hk'].
Qed.

(** ** The links of backfilled batches *)

Lemma latest_before_none date rows :
  (forall r, r ∈ rows -> (date <= bh_batch_date (br_record r))%Z) -> latest_before date rows = None.
Proof.
  unfold latest_before. induction rows as [|r rows IH]; intros Hr; [done|]. simpl.
  rewrite (proj2 (Z.ltb_ge _ _)) by (by apply Hr; left). apply IH. intros; apply Hr. by right.
Qed.

Lemma batch_of_none date rows :
  (forall r, r ∈ rows -> (date < bh_batch_date (br_record r))%Z) -> batch_of date rows = None.
Proof.
  unfold batch_of. induction rows as [|r rows IH]; intros Hr; [done|]. simpl.
  rewrite (proj2 (Z.eqb_neq _ _)) by (pose proof (Hr r ltac:(by left)); lia).
  apply IH. intros; apply Hr. by right.
Qed.

(** The date of a row and its link. *)
Definition date_and_link (r : BatchRow) : Z * option string :=
  (bh_batch_date (br_record r), bh_previous_batch_hash (br_record r)).

(** A run for a date before all the stored ones. *)
Lemma run_batch_earlier date w : updates_allowed -> ids_ok w ->
  (forall r, r ∈ batch_hashes w -> (date < bh_batch_date (br_record r))%Z) ->
  exists w' row, run_batch date w = (Ok tt, w') /\ ids_ok w'
    /\ batch_hashes w' = (batch_hashes w ++ [row])%list /\ date_and_link row = (date, None).
Proof.
  intros Hup Hok Hlt.
  destruct (daily_batch_run date w no_faults Hup signs) as
    (b & w' & row & sig & Hrun & Hrows & _ & Hd & _ & _ & _ & Hp & _).
  { by apply batch_of_none. }
  { intros r Hr E. destruct Hok as [_ Hfr]. apply (Hfr (3 + a_tick w)); [lia|]. rewrite <- E.
    by apply (list_elem_of_fmap_2 (fun r => bh_batch_id (br_record r))). }
  assert (run_batch date w = (Ok tt, w')) as Hb.
  { unfold run_batch. erewrite bind_ok; [reflexivity|]. by apply (attempt_ok _ _ (Ok b)). }
  destruct (run_batch_step date w Hok) as (w1 & Hb1 & Hok1 & _). rewrite Hb in Hb1. simplify_eq.
  exists w1, row. split_and!; try done. unfold date_and_link. rewrite Hp, latest_before_none; [done|].
  intros r Hr. pose proof (Hlt r Hr). lia.
Qed.

Lemma backfill_links today ks w : updates_allowed -> ids_ok w -> Sorted Z.lt ks ->
  (forall r k, r ∈ batch_hashes w -> k ∈ ks -> (today - k < bh_batch_date (br_record r))%Z) ->
  exists w', forM ks (fun k => run_batch (today - k)%Z) w = (Ok tt, w')
    /\ map date_and_link (batch_hashes w')
       = (map date_and_link (batch_hashes w) ++ map (fun k => (today - k, None)%Z) ks)%list.
Proof.
  intros Hup Hok Hs. apply Sorted_StronglySorted in Hs; [|intros ???; lia]. revert w Hok.
  induction Hs as [|k ks Hs IH Hk]; intros w Hok Hlt.
  { exists w. simpl. by rewrite app_nil_r. }
  destruct (run_batch_earlier (today - k)%Z w Hup Hok) as (w1 & row & Hr & Hok1 & Hrows & Hrow).
  { intros r Hr. apply Hlt; [done | by left]. }
  destruct (IH w1 Hok1) as (w' & Hf & Hrows').
  { intros r j Hin Hj. rewrite Hrows in Hin. apply elem_of_app in Hin as [Hin|Hin].
    - apply Hlt; [done | by right].
    - apply list_elem_of_singleton in Hin as ->. apply (f_equal fst) in Hrow. simpl in Hrow.
      rewrite Forall_forall in Hk. pose proof (Hk j Hj). lia. }
  exists w'. split; [cbn [forM]; by erewrite bind_ok|].
  rewrite Hrows', Hrows, map_app, <- app_assoc. simpl. by rewrite Hrow.
Qed.
End lemmas.

(** ** Theorems *)

(** C37. The daily job is live: with statements that do not fail, a backend that
    signs, and a timer that resumes the task within an hour of each deadline,
    for every day from a week before the start on there is a round of the loop
    from which on its batch is found in the table.  Where the rows of the table
    may be updated the batch has a signature that verifies.  Where the table is
    write-once, as migration V067 makes it, the signature is refused: then the
    job only ever adds rows, and none of them is signed. *)
Theorem daily_batches_eventually `{HashOps} `{HexOps} `{UuidOps} `{AuditEnv} `{SigningBackend}
    `{!SigningLaws} `{Timer} `{!CronLaws} (w : AuditWorld) (D : Z) :
  a_no_faults -> (forall m, exists s, sb_sign m = Ok s) -> ids_ok w ->
  (date_naive (a_clock (a_tick w)) - 7 <= D)%Z ->
  exists n, forall n', n <= n' -> exists w' r,
    run_daily_batch_cron n' w = (Ok tt, w') /\ batch_of D (batch_hashes w') = Some r
    /\ match batches_write_once with
       | None => exists sig, br_signature r = Some sig
                   /\ verify_batch_hash (bh_batch_hash (br_record r)) sig = Ok true
       | Some _ => exists new, batch_hashes w' = (batch_hashes w ++ new)%list
                     /\ Forall (fun r => br_signature r = None) new
       end.
Proof.
  intros Hf Hsig Hok HD.
  destruct (startup_step Hf Hsig w Hok) as (start & w1 & d & Hst & Hok1 & Hback & Hj & Hstart & Hd & Hc).
  exists (Z.to_nat (D - d + 2)). intros n' Hn'.
  destruct (rounds_step Hf Hsig start d n' Hstart 0 w1 Hok1) as (w' & Hloop & Hs & Hkeep);
    [lia|].
  assert (batch_done D w') as (r & Hr & Hrs).
  { set (today := date_naive (a_clock (a_tick w))) in *. destruct (Z.lt_ge_cases D today).
    - apply Hkeep. replace D with (today - (today - D))%Z by lia. apply Hback.
      apply list_elem_of_In. unfold backfill_days. simpl. lia.
    - replace D with (d + Z.of_nat (Z.to_nat (D - d + 1)) - 1)%Z by lia. apply Hs. lia. }
  exists w', r. split_and!; [unfold run_daily_batch_cron; by erewrite bind_ok | done |].
  assert (job_step w w') as [_ Hadd] by (by etrans). unfold updates_allowed in *.
  destruct batches_write_once; [by apply Hadd | by apply Hrs].
Qed.

(** A clock of half a minute per step and its timer, with a table that may be
    updated and with one that is write-once. *)
Definition step_env_with (write_once : option string) : AuditEnv := {|
  a_fault _ := None;
  a_clock n := (Z.of_nat n * (30 * nanos_per_sec))%Z;
  a_uuid n := N.of_nat n;
  pg_text := json_to_string;
  uuid_as_bytes u := as_bytes (uuid_to_string u);
  random64 _ := [];
  uuid_error s := s;
  hashset_iter l := l;
  batches_write_once := write_once;
|}.

#[export] Instance step_env : AuditEnv := step_env_with None.

#[export] Instance step_timer : Timer := {|
  wake d n := Nat.max n (Z.to_nat (d / (30 * nanos_per_sec) + 1));
|}.

#[export] Instance step_laws e : @CronLaws (step_env_with e) step_timer.
Proof.
  split; simpl; unfold nanos_per_hour, nanos_per_sec.
  - intros. lia.
  - intros. lia.
  - intros. lia.
  - intros. lia.
  - intros d n. pose proof (Z.div_mod d (30 * 1000000000)).
    pose proof (Z.mod_pos_bound d (30 * 1000000000)). lia.
  - intros d n Hn. pose proof (Z.div_mod d (30 * 1000000000)).
    pose proof (Z.mod_pos_bound d (30 * 1000000000)). lia.
Qed.

Lemma no_batch_ids e : @ids_ok (step_env_with e) sample_audit.
Proof. split; [apply NoDup_nil_2 | intros n _ Hn; by apply not_elem_of_nil in Hn]. Qed.

Lemma daily_batches_eventually_witness :
  (exists n, forall n', n <= n' -> exists w' r,
     run_daily_batch_cron (H3 := toy_backend) n' sample_audit = (Ok tt, w')
     /\ batch_of 100 (batch_hashes w') = Some r
     /\ exists sig, br_signature r = Some sig
          /\ @verify_batch_hash toy_backend (bh_batch_hash (br_record r)) sig = Ok true)
  /\ exists n, forall n', n <= n' -> exists w' r,
     run_daily_batch_cron (H2 := step_env_with (Some "UPDATE not allowed")) (H3 := toy_backend) n' sample_audit
     = (Ok tt, w')
     /\ batch_of 100 (batch_hashes w') = Some r
     /\ exists new, batch_hashes w' = (batch_hashes sample_audit ++ new)%list
          /\ Forall (fun r => br_signature r = None) new.
Proof.
  split.
  - apply (@daily_batches_eventually _ _ _ (step_env_with None) toy_backend (software_laws _ _) _ _
      sample_audit 100); [by intros n | by eexists | apply no_batch_ids | by vm_compute].
  - apply (@daily_batches_eventually _ _ _ (step_env_with (Some "UPDATE not allowed")) toy_backend
      (software_laws _ _) _ _ sample_audit 100);
      [by intros n | by eexists | apply no_batch_ids | by vm_compute].
Defined.

(** The chain of batches is not linked by the backfill: the days are
    computed from yesterday backwards, so on a table without batches each of the
    seven rows is written before any earlier one exists, and its
    [previous_batch_hash] is empty. *)
Theorem backfill_unlinked `{HashOps} `{HexOps} `{UuidOps} `{AuditEnv} `{SigningBackend}
    `{!SigningLaws} `{Timer} `{!CronLaws} (w : AuditWorld) :
  a_no_faults -> updates_allowed -> (forall m, exists s, sb_sign m = Ok s) -> batch_hashes w = [] ->
  let today := date_naive (a_clock (a_tick w)) in
  exists start w', cron_startup w = (Ok start, w')
    /\ map date_and_link (batch_hashes w')
       = [((today - 1)%Z, None); ((today - 2)%Z, None); ((today - 3)%Z, None); ((today - 4)%Z, None);
          ((today - 5)%Z, None); ((today - 6)%Z, None); ((today - 7)%Z, None)].
Proof.
  intros Hf Hup Hsig Hw today. assert (ids_ok (a_next w)) as Hok.
  { split; simpl; rewrite Hw; [apply NoDup_nil_2 | intros n _ Hn; by apply not_elem_of_nil in Hn]. }
  destruct (backfill_links Hf Hsig today backfill_days (a_next w) Hup Hok) as (w1 & Hrun & Hlinks).
  { unfold backfill_days. repeat constructor. }
  { simpl. rewrite Hw. intros r k Hr. by apply not_elem_of_nil in Hr. }
  eexists _, _. split.
  - unfold cron_startup. erewrite bind_ok; [|reflexivity]. cbv zeta. erewrite bind_ok; [|exact Hrun].
    erewrite bind_ok; [|reflexivity]. cbv zeta. erewrite bind_ok; [|reflexivity]. reflexivity.
  - cbn [a_next batch_hashes]. rewrite Hlinks. simpl. by rewrite Hw.
Qed.

Lemma backfill_unlinked_witness :
  let today := date_naive (a_clock (a_tick sample_audit)) in
  exists start w', cron_startup (H3 := toy_backend) sample_audit = (Ok start, w')
    /\ map date_and_link (batch_hashes w')
       = [((today - 1)%Z, None); ((today - 2)%Z, None); ((today - 3)%Z, None); ((today - 4)%Z, None);
          ((today - 5)%Z, None); ((today - 6)%Z, None); ((today - 7)%Z, None)].
Proof.
  apply (@backfill_unlinked _ _ _ _ toy_backend (software_laws _ _) _ _ sample_audit);
    [by intros n | reflexivity | by eexists | reflexivity].
Defined.
