(* ===== verification/AuditConcurrency.v ===== *)
(** * Concurrent batch computations

    The daily job of [audit/src/application/audit.rs] and
    [audit/src/infrastructure/postgres.rs] as a thread, one step per statement:
    the replicas of the service, the backfill at start-up and the scheduler all
    run it, and nothing holds a lock between its statements.  The other services
    store events meanwhile. *)

From Stdlib Require Import ZArith Lia.
From stdpp Require Import base list strings numbers sorting relations.
From S2P Require Import Prelude RustStr External Reference Merkle Grpc AuditStore AuditHandler.
From S2P Require Import Threads.

Local Open Scope string_scope.

(** The date and the identifier of a row: its two unique keys. *)
Definition row_key (r : BatchRow) : Z * Uuid :=
  (bh_batch_date (br_record r), bh_batch_id (br_record r)).

Definition row_keys (w : AuditWorld) : list (Z * Uuid) := map row_key (batch_hashes w).

Definition store_event (e : StoredEvent) (w : AuditWorld) : AuditWorld :=
  mkAuditWorld (event_store w ++ [e]) (transaction_log w) (batch_hashes w) (change_log w)
    (exports w) (checks w) (a_tick w).

(** What runs concurrently: the job for a date; another service's event. *)
Inductive AuditTask : Type :=
  | ComputeBatch (date : Z)
  | EventStored (e : StoredEvent).

Section concurrent.
Context `{HashOps} `{HexOps} `{UuidOps} `{AuditEnv} `{SigningBackend}.

Abbreviation AuditThread := (Thread AuditWorld AuditError).

(** ** The job, statement by statement *)

(** The identifier and the time are taken by the process itself, so they belong
    to the step of the [INSERT]. *)
Definition store_batch_hash_thread (date : Z) (events : list EventRecord)
    : AuditThread BatchHashRecord :=
  rt ← Done (match build_merkle_tree (leaves_of events) with Some x => Ok x | None => Panic end);
  let batch_hash := hex_encode (fst rt) in
  let source_data_hash :=
    match events with
    | [] => hex_encode (sha256 [])
    | _ => hex_encode (sha256 (all_hash_bytes events))
    end in
  previous ← atom (a_statement ;;
                   rows ← gets batch_hashes;
                   mret (bh_batch_hash ∘ br_record <$> latest_before date rows));
  atom (batch_id ← a_new_v4;
        computed_at ← a_now;
        let b := mkBatch batch_id date batch_hash (as_i32 (Z.of_nat (length events)))
                   source_data_hash computed_at previous in
        batch_write (has_date date) (fun w => set_batches (upsert_batch b (batch_hashes w)) w) ;;
        mret b).

Definition compute_batch_hash_thread (date : Z) : AuditThread BatchHashRecord :=
  let from := midnight date in
  let to := (from + nanos_per_day)%Z in
  events ← atom (fetch_events_for_range from to);
  store_batch_hash_thread date events.

Definition get_or_compute_batch_hash_thread (date : Z) : AuditThread BatchHashRecord :=
  existing ← atom (a_statement ;; rows ← gets batch_hashes; mret (batch_of date rows));
  match existing with
  | Some r => mret (br_record r)
  | None => compute_batch_hash_thread date
  end.

(** After the hash is known. *)
Definition sign_thread (record : BatchHashRecord) : AuditThread (option BatchHashRecord) :=
  sk ← Done (sign_batch_hash (bh_batch_hash record));
  atom (update_batch_signature (bh_batch_id record) (fst sk) (snd sk)) ;;
  mret (Some record).

Definition compute_daily_batch_thread (date : Z) : AuditThread (option BatchHashRecord) :=
  record ← get_or_compute_batch_hash_thread date;
  sign_thread record.

Definition task_thread (t : AuditTask) : AuditThread (option BatchHashRecord) :=
  match t with
  | ComputeBatch date => compute_daily_batch_thread date
  | EventStored e => atom (modify (store_event e) ;; mret None)
  end.

(** ** Alone, the thread is the job *)

Lemma store_batch_implements date es :
  implements (store_batch_hash_thread date es) (store_batch_hash date es).
Proof. unfold store_batch_hash_thread, store_batch_hash, tree_of. auto 6 with threads. Qed.

Lemma compute_batch_implements date : implements (compute_batch_hash_thread date) (compute_batch_hash date).
Proof. apply implements_bind; [apply implements_atom | apply store_batch_implements]. Qed.

Lemma get_or_compute_implements date :
  implements (get_or_compute_batch_hash_thread date) (get_or_compute_batch_hash date).
Proof.
  apply implements_bind; [apply implements_atom|].
  intros [r|]; [apply implements_ret | apply compute_batch_implements].
Qed.

Lemma sign_implements b : implements (sign_thread b)
  (sk ← lift (sign_batch_hash (bh_batch_hash b));
   update_batch_signature (bh_batch_id b) (fst sk) (snd sk) ;; mret (Some b)).
Proof. unfold sign_thread. auto 6 with threads. Qed.

(** The job alone. *)
Lemma daily_implements date : implements (compute_daily_batch_thread date)
  (record ← compute_daily_batch date; mret (Some record)).
Proof.
  intros w. unfold compute_daily_batch_thread. rewrite run_bind, get_or_compute_implements.
  unfold compute_daily_batch, mbind, M_bind.
  destruct (get_or_compute_batch_hash date w) as [[b|e|] w']; [|done|done].
  rewrite (sign_implements b w'). unfold mbind, M_bind, lift.
  destruct (sign_batch_hash (bh_batch_hash b)) as [sk|e|]; [|done|done].
  by destruct (update_batch_signature _ _ _ w') as [[[]|e|] w''].
Qed.

(** ** What every interleaving keeps *)

(** The hash of the events of a day. *)
Definition day_hash (date : Z) (w : AuditWorld) : string :=
  hex_encode (leaves_root (event_leaves (events_in (midnight date) (midnight date + nanos_per_day) w))).

(** The days that are over: no event of them is stored any more. *)
Variable closed : Z -> Prop.

(** The row has the hash of its day, and its signature, once there, is one of
    that hash. *)
Definition row_sound (w : AuditWorld) (r : BatchRow) : Prop :=
  let b := br_record r in
  closed (bh_batch_date b) /\ bh_batch_hash b = day_hash (bh_batch_date b) w
  /\ forall sig, br_signature r = Some sig -> verify_batch_hash (bh_batch_hash b) sig = Ok true.

(** One row per date and identifier, all of them sound; identifiers not drawn
    yet are not in use. *)
Definition batches_ok (w : AuditWorld) : Prop :=
  NoDup (map fst (row_keys w)) /\ NoDup (map snd (row_keys w))
  /\ (forall n, a_tick w <= n -> a_uuid n ∉ map snd (row_keys w))
  /\ Forall (row_sound w) (batch_hashes w).

(** A step: rows stay with their keys, a new one has a new identifier, and the
    hashes of the days that are over stay. *)
Definition batches_step (w w' : AuditWorld) : Prop :=
  batches_ok w' /\ a_tick w <= a_tick w'
  /\ (exists new, row_keys w' = (row_keys w ++ new)%list
       /\ Forall (fun k => exists n, a_tick w <= n /\ k.2 = a_uuid n) new)
  /\ forall d, closed d -> day_hash d w' = day_hash d w.

Lemma batches_stable w w' : batches_ok w -> batches_step w w' -> batches_ok w'.
Proof. by intros _ [Hw _]. Qed.

Lemma step_nothing w n : batches_ok w -> a_tick w <= n ->
  batches_step w (mkAuditWorld (event_store w) (transaction_log w) (batch_hashes w) (change_log w)
                    (exports w) (checks w) n).
Proof.
  intros (Hd & Hi & Hf & Hr) Hn. split; [split_and!; try done|split_and!; try done].
  - intros m Hm. apply Hf. simpl in Hm. lia.
  - exists []. by rewrite app_nil_r.
Qed.

Lemma step_next w : batches_ok w -> batches_step w (a_next w).
Proof. intros Hw. apply (step_nothing w (S (a_tick w))); [done | lia]. Qed.

(** ** The knowledge of a thread *)

(** The record is of its date: it has the hash of the day, its identifier will
    not be drawn again, and if a row has it, it is the row of that date. *)
Definition known (date : Z) (b : BatchHashRecord) (w : AuditWorld) : Prop :=
  bh_batch_hash b = day_hash date w /\ closed date
  /\ (forall n, a_tick w <= n -> bh_batch_id b <> a_uuid n)
  /\ forall k, k ∈ row_keys w -> k.2 = bh_batch_id b -> k.1 = date.

Lemma known_step date b w w' : batches_step w w' -> known date b w -> known date b w'.
Proof.
  intros (_ & Ht & (new & Hk & Hnew) & Hd) (Hh & Hc & Hid & Hrows). split_and!.
  - by rewrite Hd.
  - done.
  - intros n Hn. apply Hid. lia.
  - intros k Hin E. rewrite Hk in Hin. apply elem_of_app in Hin as [Hin|Hin]; [by apply Hrows|].
    rewrite Forall_forall in Hnew. destruct (Hnew k Hin) as (n & Hn & En).
    destruct (Hid n Hn). congruence.
Qed.

Lemma known_rtc date b w w' : rtc batches_step w w' -> known date b w -> known date b w'.
Proof. induction 1; eauto using known_step. Qed.

(** The hash read from the events of a closed day. *)
Lemma day_hash_rtc d w w' : closed d -> rtc batches_step w w' -> day_hash d w' = day_hash d w.
Proof.
  intros Hc. induction 1 as [|w1 w2 w3 (_ & _ & _ & Hd) _ IH]; [done|]. by rewrite IH, Hd.
Qed.

(** ** The steps *)

Hypothesis uuid_inj : forall m n, a_uuid m = a_uuid n -> m = n.

Lemma upsert_keys b rows : map row_key (upsert_batch b rows)
  = (map row_key rows ++ match batch_of (bh_batch_date b) rows with
                         | Some _ => []
                         | None => [(bh_batch_date b, bh_batch_id b)]
                         end)%list.
Proof.
  unfold batch_of. induction rows as [|r rows IH]; simpl; [done|].
  destruct (Z.eqb _ _); simpl; [by rewrite app_nil_r | by rewrite IH].
Qed.

Lemma no_row_date date rows : batch_of date rows = None -> date ∉ map fst (map row_key rows).
Proof.
  intros Hn Hin. apply list_elem_of_fmap_1 in Hin as (k & -> & Hin).
  apply list_elem_of_fmap_1 in Hin as (r & -> & Hin).
  apply list_elem_of_In in Hin. by apply (List.find_none _ _ Hn), Z.eqb_neq in Hin.
Qed.

(** Rows written over: all are sound if the new one is. *)
Lemma upsert_sound w b rows : Forall (row_sound w) rows -> row_sound w (mkBatchRow b None None) ->
  Forall (row_sound w) (upsert_batch b rows).
Proof.
  intros Hr Hb. induction Hr as [|r rows Hx Hr IH]; simpl;
    [by constructor; [|constructor]|].
  destruct (Z.eqb_spec (bh_batch_date (br_record r)) (bh_batch_date b)) as [E|]; constructor; try done.
  destruct Hx as (Hc & Hh & Hs), Hb as (_ & Hb & _). simpl in *. split_and!; simpl; [done | by rewrite E|].
  intros sig Hsig. rewrite Hb, <- E, <- Hh. by apply Hs.
Qed.

Lemma step_upsert w b : batches_ok w -> bh_batch_id b = a_uuid (a_tick w) ->
  closed (bh_batch_date b) -> bh_batch_hash b = day_hash (bh_batch_date b) w ->
  batches_step w (set_batches (upsert_batch b (batch_hashes w)) (a_next (a_next (a_next w)))).
Proof.
  intros (Hd & Hi & Hf & Hr) Hid Hc Hh. set (w' := set_batches _ _).
  assert (row_keys w' = (row_keys w ++ match batch_of (bh_batch_date b) (batch_hashes w) with
      | Some _ => [] | None => [(bh_batch_date b, bh_batch_id b)] end)%list) as Hk by apply upsert_keys.
  assert (a_uuid (a_tick w) ∉ map snd (row_keys w)) as Hnew by (by apply Hf).
  split; [split_and!|split_and!]; try done.
  - rewrite Hk, map_app. destruct (batch_of _ _) eqn:E; simpl; [by rewrite app_nil_r|].
    apply NoDup_app. split_and!; [done | | apply NoDup_singleton].
    intros x Hx ->%list_elem_of_singleton. by apply no_row_date in E.
  - rewrite Hk, map_app. destruct (batch_of _ _) eqn:E; simpl; [by rewrite app_nil_r|].
    apply NoDup_app. split_and!; [done | | apply NoDup_singleton].
    intros x Hx ->%list_elem_of_singleton. by rewrite Hid in Hx.
  - intros n Hn. rewrite Hk, map_app, elem_of_app. simpl in Hn. intros [Hin|Hin].
    + apply (Hf n); [lia | done].
    + destruct (batch_of _ _); simpl in Hin; [by apply not_elem_of_nil in Hin|].
      apply list_elem_of_singleton in Hin. rewrite Hid in Hin. apply uuid_inj in Hin. lia.
  - apply (upsert_sound w'); [|by split_and!]. exact Hr.
  - simpl. lia.
  - eexists. split; [exact Hk|]. destruct (batch_of _ _); constructor; [|constructor].
    exists (a_tick w). by split.
Qed.

Lemma step_signature `{!SigningLaws} date b sig w n : batches_ok w -> known date b w ->
  sb_sign (as_bytes (bh_batch_hash b)) = Ok sig ->
  batches_step w (set_batches (map (fun r =>
    let x := br_record r in
    if N.eqb (bh_batch_id x) (bh_batch_id b)
    then mkBatchRow (mkBatch (bh_batch_id x) (bh_batch_date x) (bh_batch_hash x)
           (bh_record_count x) (bh_source_data_hash x) n
           (bh_previous_batch_hash x)) (Some sig) (Some sb_fingerprint)
    else r) (batch_hashes w)) (a_next w)).
Proof.
  intros (Hd & Hi & Hf & Hr) (Hh & Hc & _ & Hrows) Hsig. set (w' := set_batches _ _).
  assert (row_keys w' = row_keys w) as Hk.
  { unfold row_keys, w'. simpl. rewrite map_map. apply map_ext. intros r. by destruct (N.eqb _ _). }
  split; [split_and!|split_and!]; rewrite ?Hk; try done.
  - intros m Hm. apply Hf. simpl in Hm. lia.
  - apply Forall_map. rewrite Forall_forall in *. intros r Hin. specialize (Hr r Hin). cbv zeta.
    destruct (N.eqb_spec (bh_batch_id (br_record r)) (bh_batch_id b)) as [E|]; [|exact Hr].
    destruct Hr as (Hrc & Hrh & _). split_and!; try done. intros s [= <-]. simpl.
    assert (bh_batch_date (br_record r) = date) as Hdate.
    { apply (Hrows (row_key r)); [by apply (list_elem_of_fmap_2 row_key) | done]. }
    rewrite Hrh, Hdate, <- Hh. by apply sign_verifies.
  - simpl. lia.
  - exists []. by rewrite app_nil_r.
Qed.

Lemma date_of_day d t : (midnight d <= t < midnight d + nanos_per_day)%Z -> date_naive t = d.
Proof.
  unfold midnight, date_naive, nanos_per_day, nanos_per_sec. intros Ht.
  symmetry. apply (Z.div_unique_pos _ _ _ (t - d * (86400 * 1000000000))); lia.
Qed.

Lemma step_event e w : batches_ok w -> ~ closed (date_naive (se_occurred_at e)) ->
  batches_step w (store_event e w).
Proof.
  intros (Hd & Hi & Hf & Hr) He.
  assert (forall d, closed d -> day_hash d (store_event e w) = day_hash d w) as Hh.
  { intros d Hc. unfold day_hash, events_in. simpl. rewrite List.filter_app. simpl.
    destruct (_ && _)%bool eqn:E; [|by rewrite app_nil_r]. destruct He.
    apply andb_true_iff in E as [E1 E2]. rewrite (date_of_day d); [done|lia]. }
  split; [split_and!|split_and!]; try done.
  - eapply Forall_impl; [exact Hr|]. intros r (Hc & Hrh & Hs). split_and!; [done | | done].
    by rewrite Hh.
  - exists []. by rewrite app_nil_r.
Qed.

(** ** The threads *)

Context `{!SigningLaws}.

Abbreviation secures := (assures batches_ok batches_step).

(** A query: it sees the tables and changes nothing. *)
Definition query {A} (m : M AuditWorld AuditError A) (g : AuditWorld -> A) : Prop :=
  forall w, snd (m w) = a_next w /\ forall a, fst (m w) = Ok a -> a = g w.

Lemma query_gets {A B} (p : AuditWorld -> A) (g : A -> B) : (forall w, p (a_next w) = p w) ->
  query (a_statement ;; x ← gets p; mret (g x)) (fun w => g (p w)).
Proof.
  intros Hp w. unfold a_statement, mbind, M_bind. destruct (a_fault (a_tick w)); simpl; [done|].
  split; [done|]. intros a [= <-]. by rewrite Hp.
Qed.

Lemma secures_query {A} S (Q : A -> AuditWorld -> Prop) m g : query m g ->
  (forall w w', batches_ok w -> S w -> rtc batches_step w w' -> Q (g w) w') ->
  secures S (if_ok Q) (atom m).
Proof.
  intros Hm Hq. apply assures_atom. intros w Hw Hs. destruct (Hm w) as [-> Ha].
  split; [by apply step_next|]. intros w' _ Hr a E. rewrite (Ha a E). apply (Hq w); try done.
  by eapply rtc_l; [apply step_next|].
Qed.

(** The row of a date is what a thread may sign. *)
Lemma known_row date w r : batches_ok w -> batch_of date (batch_hashes w) = Some r -> known date (br_record r) w.
Proof.
  intros (Hd & Hi & Hf & Hr) Hb. apply batch_of_elem in Hb as [Hin <-].
  assert (row_key r ∈ row_keys w) as Hk by (by apply (list_elem_of_fmap_2 row_key)).
  rewrite Forall_forall in Hr. destruct (Hr r Hin) as (Hc & Hh & _). split_and!; [done | done | |].
  - intros n Hn E. apply (Hf n Hn). rewrite <- E. by apply (list_elem_of_fmap_2 snd) in Hk.
  - intros k Hkin E. apply list_elem_of_lookup in Hk as [i Hk], Hkin as [j Hj].
    assert (i = j) as ->.
    { eapply (NoDup_lookup (map snd (row_keys w)));
        [exact Hi | by rewrite list_lookup_fmap, Hk | by rewrite list_lookup_fmap, Hj; simpl; f_equal]. }
    rewrite Hk in Hj. by injection Hj as <-.
Qed.

(** The record just inserted. *)
Lemma known_insert w b : batches_ok w -> bh_batch_id b = a_uuid (a_tick w) ->
  closed (bh_batch_date b) -> bh_batch_hash b = day_hash (bh_batch_date b) w ->
  known (bh_batch_date b) b
    (set_batches (upsert_batch b (batch_hashes w)) (a_next (a_next (a_next w)))).
Proof.
  intros (Hd & Hi & Hf & Hr) Hid Hc Hh. split_and!; [done | done | |].
  - intros n Hn E. rewrite Hid in E. apply uuid_inj in E. simpl in Hn. lia.
  - intros k Hk E. change (row_keys _) with (map row_key (upsert_batch b (batch_hashes w))) in Hk.
    rewrite upsert_keys in Hk. apply elem_of_app in Hk as [Hk|Hk].
    + destruct (Hf (a_tick w)); [done|]. rewrite <- Hid, <- E. by apply (list_elem_of_fmap_2 snd).
    + destruct (batch_of _ _); [by apply not_elem_of_nil in Hk|].
      by apply list_elem_of_singleton in Hk as ->.
Qed.

(** A statement on the table of batches is done, or refused and nothing is. *)
Lemma batch_write_cases updates f w :
  batch_write updates f w = (Ok tt, f (a_next w))
  \/ exists e, batch_write updates f w = (Err (AuditDatabase e), a_next w).
Proof.
  unfold batch_write, a_statement, mbind, M_bind. destruct (a_fault _) as [e|]; cbn [fst snd]; [eauto|].
  unfold gets. cbn. destruct batches_write_once as [e|]; [|eauto]. destruct (updates _); eauto.
Qed.

Lemma secures_insert S date hash count source previous : closed date ->
  (forall w, batches_ok w -> S w -> hash = day_hash date w) ->
  secures S (if_ok (known date))
    (atom (batch_id ← a_new_v4;
           computed_at ← a_now;
           let b := mkBatch batch_id date hash count source computed_at previous in
           batch_write (has_date date) (fun w => set_batches (upsert_batch b (batch_hashes w)) w) ;;
           mret b)).
Proof.
  intros Hc Hh. apply assures_atom. intros w Hw Hs. specialize (Hh w Hw Hs).
  unfold a_new_v4, a_now. erewrite bind_ok by reflexivity. erewrite bind_ok by reflexivity. cbv zeta.
  set (b := mkBatch _ _ _ _ _ _ _).
  destruct (batch_write_cases (has_date date)
    (fun w => set_batches (upsert_batch b (batch_hashes w)) w) (a_next (a_next w))) as [E|[e E]];
    [rewrite (bind_ok _ _ _ _ _ E) | rewrite (bind_err _ _ _ _ _ E)]; cbn [fst snd].
  - split; [exact (step_upsert w b Hw eq_refl Hc Hh)|].
    intros w' _ Hr b' [= <-]. eapply known_rtc; [exact Hr|].
    exact (known_insert w b Hw eq_refl Hc Hh).
  - split; [|done]. apply (step_nothing w (3 + a_tick w)); [done | lia].
Qed.

Lemma secures_store S date events : closed date ->
  (forall w, batches_ok w -> S w -> hex_encode (leaves_root (leaves_of events)) = day_hash date w) ->
  secures S (if_ok (known date)) (store_batch_hash_thread date events).
Proof.
  intros Hc Hh. unfold store_batch_hash_thread.
  destruct (tree_of_ok events (mkAuditWorld [] [] [] [] [] [] 0)) as (tree & Ht & _).
  unfold tree_of, lift in Ht. destruct (build_merkle_tree _) as [rt|]; [|done].
  injection Ht as ->. cbn [mbind Thread_bind thread_bind fst].
  eapply (assures_then _ _ S (fun _ w => hex_encode (leaves_root (leaves_of events)) = day_hash date w)).
  - eapply secures_query; [by apply query_gets|]. intros w w' Hw Hs Hr.
    by rewrite (day_hash_rtc date w w'), (Hh w).
  - intros previous w _ E. apply secures_insert; [done|]. intros w' _ Hr.
    by rewrite (day_hash_rtc date w w').
Qed.

Lemma fetch_query from to : query (fetch_events_for_range from to)
  (fun w => lagged None (events_in from to w)).
Proof. by apply (query_gets event_store). Qed.

Lemma secures_get_or_compute S date : closed date ->
  secures S (if_ok (known date)) (get_or_compute_batch_hash_thread date).
Proof.
  intros Hc. eapply (assures_then _ _ _ (fun r w => forall x, r = Some x -> known date (br_record x) w)).
  { eapply secures_query; [by apply (query_gets batch_hashes)|]. intros w w' Hw _ Hr x Hx.
    by eapply known_rtc, known_row. }
  intros [r|] w _ Hk.
  - apply assures_ret. intros w' _ Hr. eapply known_rtc; [exact Hr | by apply Hk].
  - eapply (assures_then _ _ _ (fun es w => hex_encode (leaves_root (leaves_of es)) = day_hash date w)).
    { eapply secures_query; [apply fetch_query|]. intros w1 w2 _ _ Hr.
      by rewrite (day_hash_rtc date w1 w2), lagged_leaves. }
    intros es w1 _ E. apply secures_store; [done|]. intros w2 _ Hr. by rewrite (day_hash_rtc date w1 w2).
Qed.

Lemma secures_sign date b w : known date b w ->
  secures (rtc batches_step w) (if_ok (fun _ _ => True)) (sign_thread b).
Proof.
  intros Hk. unfold sign_thread, sign_batch_hash.
  destruct (sb_sign (as_bytes (bh_batch_hash b))) as [sig|e|] eqn:Hs; [|done|done].
  cbn [mbind Result_bind Thread_bind thread_bind fst snd mret Result_ret].
  apply (assures_then _ _ _ (fun _ _ => True)); [|by intros a w1 _ _; apply assures_ret].
  apply assures_atom. intros w1 Hw1 Hr. split; [|done].
  unfold update_batch_signature.
  edestruct (batch_write_cases (has_id (bh_batch_id b))) as [E|[e E]]; rewrite E;
    [|by apply step_next].
  exact (step_signature date b sig w1 _ Hw1 (known_rtc date b w w1 Hr Hk) Hs).
Qed.

(** Batches are computed of days that are over, and events stored of others. *)
Definition task_ok (t : AuditTask) : Prop :=
  match t with
  | ComputeBatch date => closed date
  | EventStored e => ~ closed (date_naive (se_occurred_at e))
  end.

Lemma secures_task t : task_ok t -> secures (fun _ => True) (if_ok (fun _ _ => True)) (task_thread t).
Proof.
  destruct t as [date|e]; intros Ht.
  - eapply (assures_then _ _ _ (known date)); [by apply secures_get_or_compute|].
    intros b w _ Hk. by eapply secures_sign.
  - apply assures_atom. intros w Hw _. split; [by apply step_event | done].
Qed.

Lemma steps_keys w w' : rtc batches_step w w' -> row_keys w `prefix_of` row_keys w'.
Proof.
  induction 1 as [|w1 w2 w3 (_ & _ & (new & -> & _) & _) _ IH]; [done|].
  etrans; [by apply prefix_app_r | exact IH].
Qed.

(** ** A late event *)

(** The job without a row of its identifier signs nothing. *)
Lemma update_absent id sig k w : a_no_faults -> updates_allowed -> id ∉ map snd (row_keys w) ->
  exists w', update_batch_signature id sig k w = (Ok tt, w')
    /\ batch_hashes w' = batch_hashes w /\ event_store w' = event_store w.
Proof.
  intros Hf Hup Hid. unfold update_batch_signature. eexists. split.
  { apply batch_write_ok; [done | by left]. }
  split; [|done]. simpl. rewrite <- (map_id (batch_hashes w)) at 2. apply map_ext_in. intros r Hr.
  destruct (N.eqb_spec (bh_batch_id (br_record r)) id) as [<-|]; [|done]. destruct Hid.
  unfold row_keys. rewrite map_map. apply list_elem_of_In, (in_map (fun r => snd (row_key r))), Hr.
Qed.

Lemma upsert_batch_last b rows r : batch_of (bh_batch_date b) rows = None ->
  bh_batch_date (br_record r) = bh_batch_date b ->
  upsert_batch b (rows ++ [r]) = (rows ++ [mkBatchRow (mkBatch (bh_batch_id (br_record r))
    (bh_batch_date (br_record r)) (bh_batch_hash b) (bh_record_count b) (bh_source_data_hash b)
    (bh_computed_at b) (bh_previous_batch_hash b)) (br_signature r) (br_key_id r)])%list.
Proof.
  unfold batch_of. induction rows as [|x rows IH]; simpl; intros Hn E; [by rewrite E, Z.eqb_refl|].
  destruct (Z.eqb _ _); [done | by rewrite IH].
Qed.

(** The rest of a job, from the point where it has its record. *)
Lemma sign_run b sig w w' : sb_sign (as_bytes (bh_batch_hash b)) = Ok sig ->
  update_batch_signature (bh_batch_id b) sig sb_fingerprint w = (Ok tt, w') ->
  run (sign_thread b) w = (Ok (Some b), w').
Proof.
  intros Hs Hu. rewrite (sign_implements b w).
  rewrite (bind_ok _ _ _ (sig, sb_fingerprint) w) by (unfold lift, sign_batch_hash; by rewrite Hs).
  by erewrite bind_ok; [|exact Hu].
Qed.

(** The check of a date that has no row. *)
Lemma check_run date w : a_no_faults -> batch_of date (batch_hashes w) = None ->
  run (atom (a_statement ;; rows ← gets batch_hashes; mret (batch_of date rows))) w = (Ok None, a_next w).
Proof.
  intros Hf Hb. rewrite (implements_atom _ w). run_step (a_statement_ok _ Hf). by rewrite <- Hb.
Qed.

(** A job that has read its events and finds no row of its date. *)
Lemma job_signs date es w sig : a_no_faults -> updates_allowed -> batch_of date (batch_hashes w) = None ->
  (forall n, a_uuid n ∉ map snd (row_keys w)) ->
  sb_sign (as_bytes (hex_encode (leaves_root (leaves_of es)))) = Ok sig ->
  exists b w' now, run (store_batch_hash_thread date es ≫= sign_thread) w = (Ok (Some b), w')
    /\ batch_hashes w' = (batch_hashes w ++ [mkBatchRow (mkBatch (bh_batch_id b) (bh_batch_date b)
         (bh_batch_hash b) (bh_record_count b) (bh_source_data_hash b) now
         (bh_previous_batch_hash b)) (Some sig) (Some sb_fingerprint)])%list
    /\ bh_batch_date b = date /\ bh_batch_id b = a_uuid (S (a_tick w)) /\ S (a_tick w) < a_tick w'
    /\ event_store w' = event_store w.
Proof.
  intros Hf Hup Hb Hids Hs.
  destruct (store_batch_run date es w Hf (or_introl Hup)) as (b & w1 & R & Hh & P & D & Ib & T & _ & _ & E).
  rewrite upsert_batch_new in P by (by rewrite D).
  destruct (update_signature_run (bh_batch_id b) sig sb_fingerprint w1 Hf Hup) as (w2 & U & E2 & T2 & P2).
  destruct (P2 (batch_hashes w) b P eq_refl) as [now P2'].
  { intros r Hr Er. apply (Hids (S (a_tick w))). rewrite <- Ib, <- Er.
    unfold row_keys. rewrite map_map. by apply (list_elem_of_fmap_2 (fun r => snd (row_key r))). }
  exists b, w2, now. split_and!; [| done | done | done | lia | congruence].
  rewrite run_bind, (store_batch_implements date es w), R. apply (sign_run b sig); [by rewrite Hh | done].
Qed.

Lemma day_check_steps date i (ts : list (AuditThread (option BatchHashRecord))) w :
  a_no_faults -> batch_of date (batch_hashes w) = None -> ts !! i = Some (task_thread (ComputeBatch date)) ->
  rtc interleave (ts, w) (<[i := compute_batch_hash_thread date ≫= sign_thread]> ts, a_next w).
Proof.
  intros Hf Hb Hi. exact (seq_steps i ts _ (fun existing => match existing with
    | Some r => mret (br_record r) | None => compute_batch_hash_thread date end) sign_thread
    w None (a_next w) Hi (check_run date w Hf Hb)).
Qed.

Lemma day_fetch_steps date i (ts : list (AuditThread (option BatchHashRecord))) w :
  a_no_faults -> ts !! i = Some (compute_batch_hash_thread date ≫= sign_thread) ->
  rtc interleave (ts, w) (<[i := store_batch_hash_thread date (lagged None
    (events_in (midnight date) (midnight date + nanos_per_day) w)) ≫= sign_thread]> ts, a_next w).
Proof.
  intros Hf Hi. exact (seq_steps i ts _ (store_batch_hash_thread date) sign_thread w _ _ Hi
    (eq_trans (implements_atom _ w) (fetch_range_ok _ _ w Hf))).
Qed.

End concurrent.

(** ** Theorems *)

(** C14. The daily job is safe to run concurrently.  Take any number of runs, for
    any days that are over, on any replicas, with any failing statements, while
    other services store events of other days: in every interleaving there is
    one row per date, identifiers are unique, every row has the Merkle root of
    the events of its day, every stored signature verifies against the hash of
    its row, and no row loses its date or identifier. *)
Theorem concurrent_batches_sound `{HashOps} `{HexOps} `{UuidOps} `{AuditEnv} `{SigningBackend}
    `{!SigningLaws} (closed : Z -> Prop) (tasks : list AuditTask) (w w' : AuditWorld) ts' :
  (forall m n, a_uuid m = a_uuid n -> m = n) ->
  batches_ok closed w -> Forall (task_ok closed) tasks ->
  rtc interleave (map task_thread tasks, w) (ts', w') ->
  batches_ok closed w' /\ row_keys w `prefix_of` row_keys w'.
Proof.
  intros Hinj Hw Ht Hs.
  destruct (interleave_holds (batches_ok closed) (batches_step closed) (batches_stable closed)
    (map (fun _ => if_ok (fun _ _ => True)) tasks) (map task_thread tasks) w ts' w' Hw) as (Hw' & Hr & _).
  - clear Hs. induction Ht as [|t tasks Ht _ IH]; simpl; constructor; [|done].
    by apply holds_start, secures_task.
  - done.
  - split; [done | by eapply steps_keys].
Qed.

Lemma concurrent_batches_sound_witness :
  let played := play [0; 2; 0; 1; 2; 0; 2; 0; 2; 0; 2]
    (map (task_thread (H3 := toy_backend))
      [ComputeBatch 0; EventStored (mkStoredEvent 9 "T" 9 (JString "z") nanos_per_day); ComputeBatch 0])
    sample_audit in
  batches_ok (H3 := toy_backend) (fun d => d = 0%Z) (snd played)
  /\ row_keys sample_audit `prefix_of` row_keys (snd played).
Proof.
  intros played.
  apply (@concurrent_batches_sound _ _ _ _ toy_backend (software_laws _ _) (fun d => d = 0%Z)
    [ComputeBatch 0; EventStored (mkStoredEvent 9 "T" 9 (JString "z") nanos_per_day); ComputeBatch 0]
    sample_audit (snd played) (fst played)).
  - intros m n E. simpl in E. lia.
  - split_and!; [apply NoDup_nil_2 | apply NoDup_nil_2 | | constructor].
    intros n _ Hin. by apply not_elem_of_nil in Hin.
  - constructor; [done|]. constructor; [|by constructor]. done.
  - apply interleave_play. eexists. apply surjective_pairing.
Defined.

(** Without the day being over this fails where the table of batches may be
    updated: when an event of the day is stored
    between the readings of two concurrent runs, both can succeed and leave one
    row with the root of all events and, as its signature, that of the root
    without the late event. *)
Theorem late_event_missigned `{HashOps} `{HexOps} `{UuidOps} `{AuditEnv} `{SigningBackend}
    (date : Z) (e : StoredEvent) (w : AuditWorld) sig1 sig2 :
  a_no_faults -> updates_allowed -> (forall m n, a_uuid m = a_uuid n -> m = n) ->
  (forall n, a_uuid n ∉ map snd (row_keys w)) -> batch_of date (batch_hashes w) = None ->
  sb_sign (as_bytes (day_hash date w)) = Ok sig1 ->
  sb_sign (as_bytes (day_hash date (store_event e w))) = Ok sig2 ->
  exists b1 b2 row w',
    rtc interleave (map task_thread [ComputeBatch date; EventStored e; ComputeBatch date], w)
      ([Done (Ok (Some b1)); Done (Ok None); Done (Ok (Some b2))], w')
    /\ batch_hashes w' = (batch_hashes w ++ [row])%list
    /\ bh_batch_date (br_record row) = date
    /\ event_store w' = (event_store w ++ [e])%list
    /\ bh_batch_hash (br_record row) = day_hash date w'
    /\ br_signature row = Some sig1.
Proof.
  intros Hf Hup Hinj Hids Hb Hs1 Hs2.
  set (w1 := a_next (store_event e (a_next (a_next w)))).
  destruct (job_signs date (lagged None (events_in (midnight date) (midnight date + nanos_per_day) w))
    w1 sig1 Hf Hup Hb Hids) as (b1 & w3 & now & S1 & P3' & D1 & I1 & T3 & E3); [by rewrite lagged_leaves|].
  set (es2 := lagged None (events_in (midnight date) (midnight date + nanos_per_day) w3)).
  destruct (store_batch_run date es2 (a_next w3) Hf (or_introl Hup)) as (b2 & w4 & R2 & Hh2 & P4 & D2 & I2 & _ & _ & _ & E4).
  change (batch_hashes (a_next w3)) with (batch_hashes w3) in P4.
  rewrite P3', upsert_batch_last in P4 by (simpl; congruence).
  unfold es2 in Hh2. rewrite lagged_leaves in Hh2.
  assert (event_store w3 = event_store w ++ [e])%list as Ev by (by rewrite E3).
  assert (day_hash date w3 = day_hash date (store_event e w)) as Hd3.
  { unfold day_hash, events_in. by rewrite Ev. }
  destruct (update_absent (bh_batch_id b2) sig2 sb_fingerprint w4 Hf Hup) as (w5 & U2 & P5 & E5).
  { unfold row_keys. rewrite P4, !map_app, elem_of_app. simpl. intros [Hin|Hin%list_elem_of_singleton].
    - rewrite I2 in Hin. by apply Hids in Hin.
    - rewrite I2, I1 in Hin. apply Hinj in Hin. change (a_tick (a_next w3)) with (S (a_tick w3)) in Hin. lia. }
  assert (run (compute_batch_hash_thread date ≫= sign_thread) w3 = (Ok (Some b2), w5)) as S2.
  { rewrite run_bind, (compute_batch_implements date w3). unfold compute_batch_hash.
    rewrite (bind_ok _ _ _ es2 (a_next w3)) by (by apply fetch_range_ok). rewrite R2. apply (sign_run b2 sig2); [|done].
    by rewrite Hh2, <- Hs2, <- Hd3. }
  eexists b1, b2, _, w5. split_and!.
  - etrans; [by apply (day_check_steps date 0)|]. etrans; [by apply (day_fetch_steps date 0)|].
    etrans; [by apply (solo_steps 1 _ (task_thread (EventStored e)))|].
    etrans; [by apply (day_check_steps date 2)|].
    etrans; [exact (solo_steps 0 [_; Done (Ok None); compute_batch_hash_thread date ≫= sign_thread]
      _ w1 _ _ eq_refl S1)|].
    exact (solo_steps 2 [_; _; _] _ _ _ _ eq_refl S2).
  - rewrite P5, P4. reflexivity.
  - simpl. done.
  - rewrite E5, E4. exact Ev.
  - simpl. rewrite Hh2. unfold day_hash, events_in. by rewrite E5, E4.
  - done.
Qed.

Lemma late_event_missigned_witness :
  let e := sample_event 4 "d" in
  exists b1 b2 row w',
    rtc interleave (map (task_thread (H3 := toy_backend))
        [ComputeBatch 0; EventStored e; ComputeBatch 0], sample_audit)
      ([Done (Ok (Some b1)); Done (Ok None); Done (Ok (Some b2))], w')
    /\ batch_hashes w' = (batch_hashes sample_audit ++ [row])%list
    /\ bh_batch_date (br_record row) = 0%Z
    /\ event_store w' = (event_store sample_audit ++ [e])%list
    /\ bh_batch_hash (br_record row) = day_hash 0 w'
    /\ br_signature row
       = Some (@ed_sign toy_ed (as_bytes "key") (as_bytes (day_hash 0 sample_audit))).
Proof.
  intros e. eapply (@late_event_missigned _ _ _ _ toy_backend 0 e sample_audit).
  - exact test_a_no_faults.
  - reflexivity.
  - intros m n E. simpl in E. lia.
  - intros n Hin. by apply not_elem_of_nil in Hin.
  - reflexivity.
  - reflexivity.
  - reflexivity.
Defined.
