(* ===== verification/AuditGrpc.v ===== *)
(** * The audit service's gRPC methods

    [audit/src/ports/grpc.rs]: request fields with their defaults, calls of
    the handler, responses.  The JSON text codec and the conversion of JSON
    numbers to [f64] are parameters. *)

From Stdlib Require Import ZArith Lia.
From stdpp Require Import base list strings numbers sorting.
From S2P Require Import Prelude RustStr External Reference Merkle Grpc AuditStore AuditHandler.

Local Open Scope string_scope.

(** ** Messages *)

Inductive ProofTarget : Type :=
  | TargetTransactionId (id : string)
  | TargetEventId (id : string)
  | TargetSequenceNumber (n : Z).

Record GetMerkleProofResponse := mkProofResponse {
  pr_event_id : string;
  pr_merkle_root : bytestring;
  pr_proof_hashes : list bytestring;
  pr_computed_at : option Timestamp;
  pr_valid : bool;
  pr_target_id : string;
  pr_sequence_number : Z;
  pr_block_number : Z;
  pr_signature : string;
  pr_signer_key_id : string;
}.

Record GetLedgerChecksumResponse := mkChecksumResponse {
  cks_merkle_root : bytestring;
  cks_event_count : Z;
  cks_computed_at : option Timestamp;
  cks_checksum_id : string;
  cks_latest_sequence_number : Z;
  cks_total_events : Z;
  cks_signature : string;
  cks_signer_key_id : string;
}.

Record VerifyBatchIntegrityResponse := mkIntegrityResponse {
  vb_valid : bool;
  vb_computed_root : string;
  vb_period_start : option Timestamp;
  vb_period_end : option Timestamp;
  vb_total_transactions : Z;
  vb_verified_transactions : Z;
  vb_failed_transactions : Z;
  vb_is_fully_valid : bool;
  vb_previous_batch_hash : string;
  vb_violations : list IntegrityViolation;
}.

Record TransactionChainReport := mkChainResponse {
  tc_start_transaction_id : string;
  tc_is_valid : bool;
  tc_chain_length : Z;
  tc_broken_at_transaction_id : string;
  tc_expected_hash : string;
  tc_actual_hash : string;
}.

Record GetAuditReportResponse := mkReportResponse {
  gr_report_id : string;
  gr_total_events : Z;
  gr_included_event_types : list string;
  gr_generated_at : option Timestamp;
  gr_checksum : string;
}.

Record ExportAuditReportResponse := mkExportResponse {
  ge_report_id : string;
  ge_download_url : string;
  ge_checksum : string;
  ge_signature : bytestring;
  ge_expires_at : option Timestamp;
}.

(** [prost_types::Value] over the [f64]s. *)
Inductive ProstValue (F64 : Type) : Type :=
  | NullValue
  | BoolValue (b : bool)
  | NumberValue (x : F64)
  | StringValue (s : string)
  | ListValue (l : list (ProstValue F64))
  | StructValue (fields : list (string * ProstValue F64)).
Arguments NullValue {F64}.
Arguments BoolValue {F64} b.
Arguments NumberValue {F64} x.
Arguments StringValue {F64} s.
Arguments ListValue {F64} l.
Arguments StructValue {F64} fields.

(** [EventEnvelope], the fields the service sets. *)
Record EventEnvelope (F64 : Type) := mkEnvelope {
  en_event_id : string;
  en_event_type : string;
  en_aggregate_type : string;
  en_aggregate_id : string;
  en_version : Z;
  en_payload : list (string * ProstValue F64);
  en_occurred_at : Timestamp;
  en_record_hash : string;
  en_previous_hash : string;
}.
Arguments mkEnvelope {F64}.

(** [AuditEntry] *)
Record AuditEntry (F64 : Type) := mkAuditEntry {
  ae_audit_id : string;
  ae_event_type : string;
  ae_action : string;
  ae_old_data : option (list (string * ProstValue F64));
  ae_new_data : option (list (string * ProstValue F64));
  ae_timestamp : Timestamp;
  ae_record_hash : string;
  ae_previous_hash : string;
}.
Arguments mkAuditEntry {F64}.

Section rpc.
Context `{HashOps} `{HexOps} `{UuidOps} `{AuditEnv} `{TimeOps}.
Context {F64 : Type} (f64_zero : F64) (number_as_f64 : string -> option F64).
(** [payload.to_string()] and [serde_json::from_str::<Map<..>>] *)
Context (value_to_string : json -> string) (parse_map : string -> option (list (string * json))).

(** [to_prost_timestamp] *)
Definition to_prost_timestamp (dt : DateTime) : Timestamp := chrono_to_prost dt.

(** [json_to_prost_value] *)
Fixpoint json_to_prost_value (v : json) : ProstValue F64 :=
  match v with
  | JNull => NullValue
  | JBool b => BoolValue b
  | JNumber n => NumberValue (unwrap_or (number_as_f64 n) f64_zero)
  | JString s => StringValue s
  | JArray arr => ListValue (map json_to_prost_value arr)
  | JObject m => StructValue (map (fun kv => (fst kv, json_to_prost_value (snd kv))) m)
  end.

Definition struct_of (m : list (string * json)) : list (string * ProstValue F64) :=
  map (fun kv => (fst kv, json_to_prost_value (snd kv))) m.

(** Handler errors become statuses: [e.into()]. *)
Definition rpc_of {A B} (m : M AuditWorld AuditError A) (k : A -> B) : M AuditWorld Status B :=
  r ← with_err audit_status m;
  mret (k r).

Definition rpc_now : M AuditWorld Status DateTime := with_err audit_status a_now.

(** A timestamp field with the values used when it is invalid or absent. *)
Definition date_or (invalid absent : DateTime -> DateTime) (t : option Timestamp)
    : M AuditWorld Status DateTime :=
  match t with
  | Some t =>
      match from_timestamp (seconds t) (as_u32 (nanos t)) with
      | Some d => mret d
      | None => now ← rpc_now; mret (invalid now)
      end
  | None => now ← rpc_now; mret (absent now)
  end.

Definition yesterday (now : DateTime) : DateTime := (now - nanos_per_day)%Z.
Definition at_now (now : DateTime) : DateTime := now.

(** [get_merkle_proof] *)
Definition get_merkle_proof_rpc (target : option ProofTarget)
    : M AuditWorld Status GetMerkleProofResponse :=
  let '(target_id, event_id, sequence_number) :=
    match target with
    | Some (TargetTransactionId id) => (Some id, None, None)
    | Some (TargetEventId id) => (None, Some id, None)
    | Some (TargetSequenceNumber n) => (None, None, Some n)
    | None => (None, None, None)
    end in
  rpc_of (get_merkle_proof target_id event_id sequence_number) (fun r =>
    mkProofResponse (mp_event_id r) (mp_merkle_root r) (mp_proof_hashes r)
      (Some (to_prost_timestamp (mp_computed_at r))) (mp_valid r)
      (unwrap_or target_id (mp_event_id r)) (mp_sequence_number r) (mp_sequence_number r)
      (mp_signature r) (mp_signer_key_id r)).

(** [get_ledger_checksum] *)
Definition get_ledger_checksum_rpc (from_date to_date : option Timestamp)
    : M AuditWorld Status GetLedgerChecksumResponse :=
  from ← date_or at_now yesterday from_date;
  to ← date_or at_now at_now to_date;
  rpc_of (get_ledger_checksum from to) (fun r =>
    mkChecksumResponse (lc_merkle_root r) (lc_event_count r)
      (Some (to_prost_timestamp (lc_computed_at r))) (lc_checksum_id r)
      (lc_latest_sequence_number r) (lc_total_events r) (lc_signature r) (lc_signer_key_id r)).

(** [verify_batch_integrity] *)
Definition verify_batch_integrity_rpc (start_event_id end_event_id : Z) (expected_root : bytestring)
    : M AuditWorld Status VerifyBatchIntegrityResponse :=
  let expected := match expected_root with [] => None | _ => Some (hex_encode expected_root) end in
  rpc_of (verify_batch_integrity start_event_id end_event_id expected) (fun r =>
    mkIntegrityResponse (bi_valid r) (bi_computed_root r)
      (to_prost_timestamp <$> bi_period_start r) (to_prost_timestamp <$> bi_period_end r)
      (bi_total_transactions r) (bi_verified_transactions r) (bi_failed_transactions r)
      (bi_is_fully_valid r) (unwrap_or (bi_previous_batch_hash r) "") (bi_violations r)).

(** The envelope of a streamed event. *)
Definition envelope_of (e : EventRecord) : EventEnvelope F64 :=
  mkEnvelope (uuid_to_string (er_event_id e)) (er_event_type e) "EVENT"
    (uuid_to_string (er_event_id e)) (er_sequence_number e)
    (unwrap_or (struct_of <$> parse_map (value_to_string (er_payload e))) [])
    (to_prost_timestamp (er_occurred_at e)) (er_record_hash e)
    (unwrap_or (er_previous_hash e) "").

(** [stream_audit_events] *)
Definition stream_audit_events_rpc (from_timestamp : option Timestamp) (event_types : list string)
    : M AuditWorld Status (list (EventEnvelope F64)) :=
  from ← date_or yesterday yesterday from_timestamp;
  rpc_of (stream_audit_events from event_types) (map envelope_of).

(** [verify_transaction_chain] *)
Definition verify_transaction_chain_rpc (transaction_id : string) (max_depth : Z)
    : M AuditWorld Status TransactionChainReport :=
  rpc_of (verify_transaction_chain transaction_id max_depth) (fun r =>
    mkChainResponse (cr_start_transaction_id r) (cr_is_valid r) (cr_chain_length r)
      (unwrap_or (cr_broken_at_transaction_id r) "") (unwrap_or (cr_expected_hash r) "")
      (unwrap_or (cr_actual_hash r) "")).

(** [serde_json::from_value::<Map<..>>(v).unwrap_or_default()] *)
Definition as_map (v : json) : list (string * json) :=
  match v with JObject m => m | _ => [] end.

Definition entry_of (r : AuditTrailResult) : AuditEntry F64 :=
  mkAuditEntry (ar_audit_id r) (ar_event_type r) (ar_action r)
    (struct_of ∘ as_map <$> ar_old_data r) (struct_of ∘ as_map <$> ar_new_data r)
    (to_prost_timestamp (ar_timestamp r)) (ar_record_hash r)
    (unwrap_or (ar_previous_hash r) "").

(** [get_audit_trail]; the pagination block is a page size and a token. *)
Definition get_audit_trail_rpc (record_id table_name : string) (pagination : option (Z * string))
    : M AuditWorld Status (list (AuditEntry F64)) :=
  let page_size := unwrap_or (fst <$> pagination) 50%Z in
  let page_token := unwrap_or (snd <$> pagination) "" in
  rpc_of (get_audit_trail record_id table_name page_size page_token) (map entry_of).

(** [get_audit_report] *)
Definition get_audit_report_rpc (tenant_id : string) (from_date to_date : option Timestamp)
    (event_types : list string) : M AuditWorld Status GetAuditReportResponse :=
  from ← date_or yesterday yesterday from_date;
  to ← date_or at_now at_now to_date;
  rpc_of (get_audit_report tenant_id from to event_types) (fun r =>
    mkReportResponse (rp_report_id r) (rp_total_events r) (rp_included_event_types r)
      (Some (to_prost_timestamp (rp_generated_at r))) (rp_checksum r)).

(** [export_audit_report] *)
Definition export_audit_report_rpc (report_id tenant_id : string)
    : M AuditWorld Status ExportAuditReportResponse :=
  rpc_of (export_audit_report report_id tenant_id) (fun r =>
    mkExportResponse (xp_report_id r) (xp_download_url r) (xp_checksum r) (xp_signature r)
      (Some (to_prost_timestamp (xp_expires_at r)))).

End rpc.

Section lemmas.
Context `{HashOps} `{HexOps} `{UuidOps} `{AuditEnv} `{TimeOps}.

(** A sort by distinct sequence numbers and a filter commute. *)
Lemma sort_filter (f : StoredEvent -> bool) l : NoDup (map se_sequence_number l) ->
  List.filter f (merge_sort seq_le l) = merge_sort seq_le (List.filter f l).
Proof.
  intros Hn. apply (StronglySorted_unique_strong seq_le).
  - intros x y Hx Hy Hxy Hyx.
    assert (x ∈ l /\ y ∈ l) as [Hx' Hy'].
    { rewrite merge_sort_Permutation in Hy. apply list_elem_of_In in Hx, Hy.
      apply List.filter_In in Hx as [Hx _], Hy as [Hy _].
      apply list_elem_of_In in Hx, Hy. by rewrite merge_sort_Permutation in Hx. }
    apply list_elem_of_lookup in Hx' as [i Hi], Hy' as [j Hj].
    assert (i = j) as ->; [|congruence]. apply (NoDup_lookup _ i j (se_sequence_number x) Hn);
      rewrite list_lookup_fmap; [by rewrite Hi | rewrite Hj; simpl; f_equal].
    unfold seq_le in *. lia.
  - apply StronglySorted_filter, StronglySorted_merge_sort; apply _.
  - apply StronglySorted_merge_sort; apply _.
  - rewrite (merge_sort_Permutation seq_le (List.filter f l)).
    apply filter_Permutation, merge_sort_Permutation.
Qed.

(** The records of a part of the events have the leaves of these events. *)
Lemma lagged_filter (f : EventRecord -> bool) (g : StoredEvent -> bool) p l :
  (forall q e, f (event_record q e) = g e) ->
  leaves_of (List.filter f (lagged p l)) = event_leaves (List.filter g l)
  /\ length (List.filter f (lagged p l)) = length (List.filter g l).
Proof.
  intros Hfg. revert p. induction l as [|e l IH]; intros p; [done|]. cbn [lagged List.filter].
  rewrite Hfg. destruct (IH (Some (payload_hash e))) as [E1 E2].
  destruct (g e); [|done]. cbn [leaves_of event_leaves map length]. split; [|by rewrite E2].
  unfold leaves_of, event_leaves in *. cbn [map]. by rewrite E1.
Qed.

(** The sequence numbers [lo] to [hi] are the period [from] to [to]. *)
Lemma interval_period lo hi from to w : NoDup (map se_sequence_number (event_store w)) ->
  (forall e, e ∈ event_store w -> from <= se_occurred_at e < to <-> lo <= se_sequence_number e <= hi)%Z ->
  (forall e, e ∈ event_store w -> from <= se_occurred_at e < to ->
     0 <= se_occurred_at e < a_clock (a_tick w) + 365 * 10 * nanos_per_day)%Z ->
  leaves_of (interval_events lo hi w) = event_leaves (events_in from to w)
  /\ length (interval_events lo hi w) = length (events_in from to w).
Proof.
  intros Hn Hsel Ht. unfold interval_events.
  set (g e := ((lo <=? se_sequence_number e) && (se_sequence_number e <=? hi))%Z).
  enough (List.filter g (events_in 0 (a_clock (a_tick w) + 365 * 10 * nanos_per_day) w)
          = events_in from to w) as <- by (by apply lagged_filter).
  unfold events_in. rewrite sort_filter.
  - f_equal. rewrite filter_andb. apply filter_ext_elem. intros e He. subst g. simpl.
    apply eq_bool_prop_intro. rewrite !andb_True, !Is_true_true, !Z.leb_le, !Z.ltb_lt.
    specialize (Hsel e He). specialize (Ht e He). lia.
  - apply NoDup_map_filter, Hn.
Qed.

Lemma date_or_some f g t d w : from_timestamp (seconds t) (as_u32 (nanos t)) = Some d ->
  date_or f g (Some t) w = (Ok d, w).
Proof. intros E. unfold date_or. by rewrite E. Qed.

Lemma checksum_run from to w : a_no_faults -> (from <= to)%Z ->
  (forall u, 16 <= String.length (hex_encode (uuid_as_bytes u))) ->
  exists r w', get_ledger_checksum from to w = (Ok r, w')
    /\ lc_merkle_root r = leaves_root (event_leaves (events_in from to w))
    /\ lc_event_count r = as_i64 (Z.of_nat (length (events_in from to w)))
    /\ event_store w' = event_store w.
Proof.
  intros Hf Hle Hu. unfold get_ledger_checksum. destruct (Z.ltb_spec to from); [lia|].
  destruct (tree_of_ok (lagged None (events_in from to w)) (a_next w)) as (tree & Ht & _).
  eexists _, _. split.
  - erewrite bind_ok; [|by apply fetch_range_ok]. erewrite bind_ok; [|exact Ht]. cbv beta zeta.
    erewrite bind_ok; [|reflexivity]. erewrite bind_ok; [|reflexivity].
    erewrite bind_ok; [reflexivity|]. unfold lift, short_id.
    by rewrite (proj2 (Nat.leb_le _ _) (Hu _)).
  - cbn [lc_merkle_root lc_event_count fst event_store a_next]. unfold count_i64.
    by rewrite lagged_leaves, lagged_length.
Qed.

End lemmas.

(** C26. A checksum verifies: when the sequence numbers from [lo] to [hi] are
    those of the events of the requested period, the root that
    [GetLedgerChecksum] returned is accepted by a following
    [VerifyBatchIntegrity], which counts the same number of events and reports
    no violation, whatever other events are stored. *)
Theorem checksum_then_verify `{HashOps} `{HexOps} `{!HexLaws} `{UuidOps} `{AuditEnv} `{TimeOps}
    (f t : Timestamp) (from to lo hi : Z) (w : AuditWorld) :
  a_no_faults -> (from <= to)%Z -> (lo <= hi)%Z ->
  from_timestamp (seconds f) (as_u32 (nanos f)) = Some from ->
  from_timestamp (seconds t) (as_u32 (nanos t)) = Some to ->
  (forall u, 16 <= String.length (hex_encode (uuid_as_bytes u))) ->
  NoDup (map se_sequence_number (event_store w)) ->
  (forall e, e ∈ event_store w ->
     from <= se_occurred_at e < to <-> lo <= se_sequence_number e <= hi)%Z ->
  (forall e n, e ∈ event_store w -> from <= se_occurred_at e < to ->
     0 <= se_occurred_at e < a_clock n + 365 * 10 * nanos_per_day)%Z ->
  exists c w' v, get_ledger_checksum_rpc (Some f) (Some t) w = (Ok c, w')
    /\ fst (verify_batch_integrity_rpc lo hi (cks_merkle_root c) w') = Ok v
    /\ vb_valid v = true /\ vb_violations v = []
    /\ vb_total_transactions v = cks_event_count c.
Proof.
  intros Hf Hle Hlh Ef Et Hu Hn Hsel H10.
  destruct (checksum_run from to w Hf Hle Hu) as (r & w' & Hr & Hroot & Hcount & He).
  set (expected := match lc_merkle_root r with [] => None | _ => Some (hex_encode (lc_merkle_root r)) end).
  destruct (integrity_run lo hi expected w' Hf Hlh) as (v & w2 & Hv & Hok & _ & Ht & _ & _ & Hviol).
  destruct (interval_period lo hi from to w') as [El Ec]; rewrite ?He; [done | done | eauto |].
  assert (events_in from to w' = events_in from to w) as Ein by (unfold events_in; by rewrite He).
  rewrite Ein in El, Ec. rewrite El, <- Hroot in Hok, Hviol.
  assert (root_matches expected (lc_merkle_root r) = true) as Hm.
  { subst expected. destruct (lc_merkle_root r); [done | apply String.eqb_refl]. }
  eexists _, w', _. split_and!.
  { unfold get_ledger_checksum_rpc, rpc_of.
    erewrite bind_ok by (by apply date_or_some). erewrite bind_ok by (by apply date_or_some).
    by erewrite bind_ok by (unfold with_err; rewrite Hr; reflexivity). }
  { cbn [cks_merkle_root]. unfold verify_batch_integrity_rpc, rpc_of, with_err, mbind, M_bind.
    fold expected. rewrite Hv. reflexivity. }
  all: cbn [cks_event_count].
  - cbn [vb_valid]. by rewrite Hok.
  - by apply Hviol.
  - cbn [vb_total_transactions]. rewrite Ht. unfold count_i64. by rewrite Hcount, Ec.
Qed.

(** The period ends after the third of four events. *)
Definition longer_audit : AuditWorld :=
  mkAuditWorld (sample_event 9 "z" :: event_store sample_audit) [] [] [] [] [] 0.

Lemma checksum_then_verify_witness :
  exists c w' v,
    get_ledger_checksum_rpc (Some (mkTimestamp 0 0)) (Some (mkTimestamp 0 4)) longer_audit = (Ok c, w')
    /\ fst (verify_batch_integrity_rpc 1 3 (cks_merkle_root c) w') = Ok v
    /\ vb_valid v = true /\ vb_violations v = []
    /\ vb_total_transactions v = cks_event_count c.
Proof.
  assert (forall e, e ∈ event_store longer_audit -> se_occurred_at e = se_sequence_number e
    /\ (se_sequence_number e = 9 \/ 1 <= se_sequence_number e <= 3))%Z as Hs.
  { intros e He. apply list_elem_of_In in He. simpl in He.
    destruct He as [<-|[<-|[<-|[<-|[]]]]]; simpl; lia. }
  apply (checksum_then_verify (mkTimestamp 0 0) (mkTimestamp 0 4) 0 4 1 3 longer_audit);
    try reflexivity; try lia; [exact test_a_no_faults | | | |].
  - intros u. vm_compute. lia.
  - by apply (bool_decide_unpack _); vm_compute.
  - intros e He. destruct (Hs e He). lia.
  - intros e n He. unfold nanos_per_day, nanos_per_sec. destruct (Hs e He). simpl. lia.
Defined.
