(* ===== verification/Session.v ===== *)
(** * Session reconstruction: the event fold, the hash chain and the proof

    [session-reconstructor/src/domain/session.rs], [domain/error.rs] and the
    pure functions of [application/reconstruct.rs]: the fold of a session's
    events into its state, the recomputation of the hash chain, and the Merkle
    proof over the event hashes. *)

From Stdlib Require Import ZArith Lia.
From stdpp Require Import base list strings numbers gmap.
From S2P Require Import Prelude RustStr External Reference Merkle.

Local Open Scope string_scope.

(** ** Domain *)

Inductive SessionError : Type :=
  | SessionNotFound
  | EventSequenceGap (expected found : Z)
  | HashMismatch (version : Z)
  | InvalidEventType (t : string)
  | SessionInternal (msg : string).

(** [SessionState]: a [HashMap<String, String>] *)
Abbreviation SessionState := (gmap string string).

Record SessionEvent := mkSessionEvent {
  sv_event_id : Uuid;
  sv_event_type : string;
  sv_version : Z;
  sv_payload : json;
  sv_occurred_at : DateTime;
  sv_record_hash : string;
  sv_previous_hash : option string;
}.

(** [if let Some(x) = payload.get(field).and_then(as_str) { state.insert(key, x) }] *)
Definition set_from (payload : json) (field key : string) (state : SessionState) : SessionState :=
  match json_get_str field payload with
  | Some x => <[key := x]> state
  | None => state
  end.

(** The [match event.event_type.as_str()] of the fold. *)
Definition apply_event (state : SessionState) (e : SessionEvent) : Result SessionError SessionState :=
  let p := sv_payload e in
  let t := sv_event_type e in
  if String.eqb t "SessionCreated" then
    Ok (set_from p "tenant_id" "tenant_id"
          (set_from p "phone_number" "phone_number" (<["status" := "active"]> state)))
  else if String.eqb t "MenuNavigated" then
    Ok (set_from p "menu_id" "current_menu" state)
  else if String.eqb t "InputReceived" then
    Ok (set_from p "input" "last_input" state)
  else if String.eqb t "PaymentInitiated" then
    Ok (set_from p "currency" "currency"
          (set_from p "amount" "amount" (<["payment_status" := "initiated"]> state)))
  else if String.eqb t "PaymentConfirmed" then
    Ok (set_from p "reference_id" "payment_reference"
          (<["payment_status" := "confirmed"]> state))
  else if String.eqb t "SessionEnded" then
    Ok (set_from p "reason" "end_reason" (<["status" := "ended"]> state))
  else Err (InvalidEventType t).

(** The [for] loop of [fold_session_state]. *)
Fixpoint fold_loop (expected_version : Z) (state : SessionState) (events : list SessionEvent)
    : Result SessionError SessionState :=
  match events with
  | [] => Ok state
  | e :: rest =>
      if negb (Z.eqb (sv_version e) expected_version)
      then Err (EventSequenceGap expected_version (sv_version e))
      else
        state' ← apply_event state e;
        fold_loop (expected_version + 1) state' rest
  end.

(** [fold_session_state] *)
Definition fold_session_state (events : list SessionEvent) : Result SessionError SessionState :=
  match events with
  | [] => Err SessionNotFound
  | _ => fold_loop 1 ∅ events
  end.

(** ** The hash chain *)

Record IntegrityResult := mkIntegrityResult {
  ir_is_valid : bool;
  ir_computed_hash : string;
  ir_event_count : Z;
  ir_broken_at_version : option Z;
}.

Section session.
Context `{HashOps} `{HexOps} `{TextOps}.

Definition hash_input (previous_hash event_type : string) (payload : json) (occurred_at : DateTime)
    : string :=
  previous_hash +:+ event_type +:+ json_to_string payload +:+ to_rfc3339 occurred_at.

(** [compute_event_hash] *)
Definition compute_event_hash (previous_hash event_type : string) (payload : json)
    (occurred_at : DateTime) : string :=
  hex_encode (sha256_digest (as_bytes (hash_input previous_hash event_type payload occurred_at))).

(** The loop of [verify_integrity] over the stored events; [count] is their
    number. *)
Fixpoint verify_chain (count expected_version : Z) (last_computed_hash : string)
    (events : list SessionEvent) : Result SessionError IntegrityResult :=
  match events with
  | [] => Ok (mkIntegrityResult true last_computed_hash count None)
  | e :: rest =>
      if negb (Z.eqb (sv_version e) expected_version)
      then Err (EventSequenceGap expected_version (sv_version e))
      else
        let prev := unwrap_or (sv_previous_hash e) "" in
        if (1 <? expected_version)%Z && negb (String.eqb prev last_computed_hash)
        then Err (HashMismatch (sv_version e))
        else
          let previous_hash := if Z.eqb expected_version 1 then prev else last_computed_hash in
          let computed := compute_event_hash previous_hash (sv_event_type e) (sv_payload e)
                            (sv_occurred_at e) in
          if negb (String.eqb computed (sv_record_hash e))
          then Ok (mkIntegrityResult false computed count (Some (sv_version e)))
          else verify_chain count (expected_version + 1) computed rest
  end.

(** [verify_integrity], on the events fetched *)
Definition verify_events (events : list SessionEvent) : Result SessionError IntegrityResult :=
  match events with
  | [] => Err SessionNotFound
  | _ => verify_chain (as_i64 (Z.of_nat (length events))) 1 "" events
  end.

(** ** The Merkle proof *)

(** [if current.len() % 2 == 1 { current.push(last) }] *)
Definition pad (current : list bytestring) : list bytestring :=
  if Nat.odd (length current)
  then match list.last current with Some x => (current ++ [x])%list | None => current end
  else current.

(** [for i in (0..current.len()).step_by(2)], for a list of even length *)
Fixpoint pair_up (current : list bytestring) : list bytestring :=
  match current with
  | a :: b :: r => sha256_digest (a ++ b)%list :: pair_up r
  | _ => []
  end.

(** [while current.len() > 1]; [None] is an index out of range or exhausted
    fuel. *)
Fixpoint proof_while (fuel : nat) (current : list bytestring) (idx : nat) (siblings : list string)
    : option (list bytestring * list string) :=
  if (length current <=? 1)%nat then Some (current, siblings)
  else match fuel with
  | O => None
  | S fuel' =>
      let current := pad current in
      let sibling_idx := if Nat.even idx then idx + 1 else idx - 1 in
      s ← current !! sibling_idx;
      proof_while fuel' (pair_up current) (idx / 2) (siblings ++ [hex_encode s])%list
  end.

(** [compute_merkle_proof] *)
Definition compute_merkle_proof (hashes : list string) (target_index : nat)
    : option (string * list string) :=
  match hashes with
  | [] => Some ("", [])
  | _ =>
      let leaves := map (fun h => unwrap_or (hex_decode h) []) hashes in
      r ← proof_while (length leaves) leaves target_index [];
      root ← head (fst r);
      mret (hex_encode root, snd r)
  end.

(** ** Lemmas *)

Definition known_type (t : string) : bool :=
  existsb (String.eqb t) ["SessionCreated"; "MenuNavigated"; "InputReceived"; "PaymentInitiated";
                          "PaymentConfirmed"; "SessionEnded"].

Lemma apply_event_known st e :
  (exists st', apply_event st e = Ok st') <-> known_type (sv_event_type e) = true.
Proof.
  unfold apply_event, known_type. cbn [existsb].
  repeat match goal with |- context [String.eqb (sv_event_type e) ?s] =>
    destruct (String.eqb (sv_event_type e) s); [split; [done | by eexists]|] end.
  split; [by intros [? ?] | done].
Qed.

Lemma apply_event_err st e x : apply_event st e = Err x -> x = InvalidEventType (sv_event_type e).
Proof. unfold apply_event. repeat case_match; congruence. Qed.

Lemma apply_event_total st e : apply_event st e <> Panic.
Proof. unfold apply_event. by repeat case_match. Qed.

(** The versions of the events count up from [v]. *)
Definition versions_from (v : Z) (events : list SessionEvent) : Prop :=
  forall i e, events !! i = Some e -> sv_version e = (v + Z.of_nat i)%Z.

Lemma versions_cons v e es :
  versions_from v (e :: es) <-> sv_version e = v /\ versions_from (v + 1) es.
Proof.
  unfold versions_from. split.
  - intros Hv. split; [rewrite (Hv 0 e eq_refl); lia|].
    intros i e' Hi. rewrite (Hv (S i) e' Hi). lia.
  - intros [He Hv] [|i] e' Hi; simplify_eq/=; [lia|]. rewrite (Hv i e' Hi). lia.
Qed.

Lemma fold_loop_ok_iff v st es :
  (exists st', fold_loop v st es = Ok st') <->
  versions_from v es /\ Forall (fun e => known_type (sv_event_type e) = true) es.
Proof.
  revert v st. induction es as [|e es IH]; intros v st; cbn [fold_loop].
  - split; [|by eexists]. split; [by intros i e | constructor].
  - rewrite versions_cons, Forall_cons, <- (apply_event_known st e).
    destruct (Z.eqb_spec (sv_version e) v) as [Ev|Ev]; simpl; [|naive_solver].
    destruct (apply_event st e) as [st1|x|] eqn:E; simpl.
    + rewrite IH. naive_solver.
    + split; [by intros [? ?]|]. intros [_ [[? ?] _]]. done.
    + by apply apply_event_total in E.
Qed.

Lemma fold_loop_app v st es1 es2 :
  fold_loop v st (es1 ++ es2) =
  (st' ← fold_loop v st es1; fold_loop (v + Z.of_nat (length es1)) st' es2).
Proof.
  revert v st. induction es1 as [|e es1 IH]; intros v st; cbn [fold_loop app length].
  - simpl. f_equal. lia.
  - case_match; [done|]. destruct (apply_event st e); [simpl | done..]. rewrite IH.
    by replace (v + 1 + Z.of_nat (length es1))%Z with (v + Z.of_nat (S (length es1)))%Z by lia.
Qed.

(** The chain as a property of the list: versions count from 1, every event's
    hash is that of its own contents, and every event names the hash of the
    one before it. *)
Definition intact (events : list SessionEvent) : Prop :=
  forall i e, events !! i = Some e ->
    sv_version e = (1 + Z.of_nat i)%Z
    /\ sv_record_hash e = compute_event_hash (unwrap_or (sv_previous_hash e) "") (sv_event_type e)
                            (sv_payload e) (sv_occurred_at e)
    /\ forall j p, i = S j -> events !! j = Some p ->
       unwrap_or (sv_previous_hash e) "" = sv_record_hash p.

(** The same, for the events from version [v] on after one with hash [last]. *)
Definition intact_from (v : Z) (last : string) (events : list SessionEvent) : Prop :=
  forall i e, events !! i = Some e ->
    sv_version e = (v + Z.of_nat i)%Z
    /\ sv_record_hash e = compute_event_hash (unwrap_or (sv_previous_hash e) "") (sv_event_type e)
                            (sv_payload e) (sv_occurred_at e)
    /\ match i with
       | O => v = 1%Z \/ unwrap_or (sv_previous_hash e) "" = last
       | S j => forall p, events !! j = Some p ->
                unwrap_or (sv_previous_hash e) "" = sv_record_hash p
       end.

Lemma intact_from_1 events : intact_from 1 "" events <-> intact events.
Proof.
  unfold intact_from, intact. split; intros Hi i e He; destruct (Hi i e He) as (H1' & H2' & H3');
    split_and!; try done.
  - intros j p -> Hp. by apply H3'.
  - destruct i as [|j]; [by left|]. intros p Hp. by eapply H3'.
Qed.

Lemma intact_from_cons v last e es : (0 < v)%Z ->
  intact_from v last (e :: es) <->
  sv_version e = v /\ (v = 1%Z \/ unwrap_or (sv_previous_hash e) "" = last)
  /\ sv_record_hash e = compute_event_hash (unwrap_or (sv_previous_hash e) "") (sv_event_type e)
                          (sv_payload e) (sv_occurred_at e)
  /\ intact_from (v + 1) (sv_record_hash e) es.
Proof.
  intros Hv. unfold intact_from. split.
  - intros Hi. destruct (Hi 0 e eq_refl) as (E1 & E2 & E3). split_and!; try done; [lia|].
    intros i e' Hi'. destruct (Hi (S i) e' Hi') as (F1 & F2 & F3).
    split_and!; [lia | done |]. destruct i as [|i]; [right; by apply F3 | by apply F3].
  - intros (E1 & E2 & E3 & Hi) [|i] e' Hi'; simplify_eq/=.
    + split_and!; [lia | done | done].
    + destruct (Hi i e' Hi') as (F1 & F2 & F3). split_and!; [lia | done |].
      destruct i as [|i]; [|done]. intros p [= <-]. destruct F3 as [|]; [lia | done].
Qed.

Lemma verify_chain_valid n v last es : (0 < v)%Z ->
  (exists r, verify_chain n v last es = Ok r /\ ir_is_valid r = true) <-> intact_from v last es.
Proof.
  revert v last. induction es as [|e es IH]; intros v last Hv; cbn [verify_chain].
  - split; [by intros _ i e | by intros _; eexists].
  - rewrite intact_from_cons by done.
    destruct (Z.eqb_spec (sv_version e) v) as [Ev|Ev]; [|naive_solver]. cbn [negb]. cbv zeta.
    set (prev := unwrap_or (sv_previous_hash e) "").
    destruct ((1 <? v)%Z && negb (String.eqb prev last)) eqn:Eb.
    { apply andb_true_iff in Eb as [?%Z.ltb_lt ?%negb_true_iff%String.eqb_neq].
      split; [naive_solver | intros (_ & [?|?] & _); [lia | done]]. }
    assert (v = 1%Z \/ prev = last) as Hp.
    { apply andb_false_iff in Eb as [?%Z.ltb_ge|?%negb_false_iff%String.eqb_eq]; [left; lia | by right]. }
    replace (if Z.eqb v 1 then prev else last) with prev
      by (destruct (Z.eqb_spec v 1); naive_solver).
    destruct (String.eqb_spec (compute_event_hash prev (sv_event_type e) (sv_payload e)
                (sv_occurred_at e)) (sv_record_hash e)) as [E|E]; cbn [negb].
    + rewrite IH by lia. rewrite E. naive_solver.
    + split; [by intros (r & [= <-] & ?) | intros (_ & _ & ? & _); congruence].
Qed.

Lemma verify_chain_hash n v last es r : verify_chain n v last es = Ok r -> ir_is_valid r = true ->
  ir_computed_hash r = unwrap_or (sv_record_hash <$> list.last es) last.
Proof.
  revert v last. induction es as [|e es IH]; intros v last; cbn [verify_chain]; [by intros [= <-]|].
  destruct (negb (Z.eqb (sv_version e) v)); [done|]. cbv zeta.
  destruct ((1 <? v)%Z && _); [done|].
  set (h := compute_event_hash _ _ _ _).
  destruct (String.eqb_spec h (sv_record_hash e)) as [E|E]; cbn [negb]; [|by intros [= <-]].
  intros Hr Hval. rewrite (IH _ _ Hr Hval). destruct es as [|e' es]; [done|].
  rewrite last_cons_cons. destruct (list.last (e' :: es)) as [x|] eqn:El; [done|].
  by apply last_None in El.
Qed.

(** What is hashed for an event. *)
Definition event_input (e : SessionEvent) : string :=
  hash_input (unwrap_or (sv_previous_hash e) "") (sv_event_type e) (sv_payload e) (sv_occurred_at e).

(** The inputs of the hashes of a list of events, the last event first. *)
Definition hashed (events : list SessionEvent) : list bytestring :=
  map (fun e => as_bytes (event_input e)) (reverse events).

Lemma append_prefix_eq (a b s t : string) : String.length a = String.length b ->
  a +:+ s = b +:+ t -> a = b.
Proof.
  revert b. induction a as [|c a IH]; intros [|d b] Hl E; simplify_eq/=; [done|].
  f_equal. by apply IH.
Qed.

(** The event before the one at distance [k] from the end. *)
Lemma intact_prev es k e f : intact es -> reverse es !! k = Some e -> reverse es !! S k = Some f ->
  unwrap_or (sv_previous_hash e) "" = sv_record_hash f.
Proof.
  intros Hi He Hf. apply reverse_lookup_Some in He as [He Hk], Hf as [Hf Hk'].
  destruct (Hi _ _ He) as (_ & _ & Hp). apply (Hp (length es - S (S k))); [lia | done].
Qed.

Lemma intact_hash es k e : intact es -> reverse es !! k = Some e ->
  sv_record_hash e = hex_encode (sha256_digest (as_bytes (event_input e))).
Proof. intros Hi [He _]%reverse_lookup_Some. by destruct (Hi _ _ He) as (_ & -> & _). Qed.

Lemma intact_hash_len `{!HashLaws} `{!HexLaws} es k e : intact es -> reverse es !! k = Some e ->
  String.length (sv_record_hash e) = 64.
Proof. intros Hi He. by rewrite (intact_hash es k e Hi He), hex_encode_len, sha256_len. Qed.

Lemma event_input_eq `{!HexLaws} es es' k e e' : intact es -> intact es' ->
  reverse es !! k = Some e -> reverse es' !! k = Some e' -> sv_record_hash e = sv_record_hash e' ->
  event_input e = event_input e' \/ collision_on (hashed es) (hashed es').
Proof.
  intros Hi Hi' He He' E.
  rewrite (intact_hash es k e Hi He), (intact_hash es' k e' Hi' He') in E. apply hex_encode_inj in E.
  destruct (decide (event_input e = event_input e')) as [|Hne]; [by left|]. right.
  eapply (collision_on_at _ _ k); unfold hashed; [by rewrite list_lookup_fmap, He
    | by rewrite list_lookup_fmap, He' | by intros ?%as_bytes_inj | done].
Qed.

(** Two intact chains that end in the same hash agree backwards from it. *)
Lemma intact_agree `{!HashLaws} `{!HexLaws} es es' : intact es -> intact es' ->
  sv_record_hash <$> list.last es = sv_record_hash <$> list.last es' ->
  forall k e e', reverse es !! k = Some e -> reverse es' !! k = Some e' ->
  (event_input e = event_input e' /\ sv_record_hash e = sv_record_hash e')
  \/ collision_on (hashed es) (hashed es').
Proof.
  intros Hi Hi' Hlast. induction k as [|k IH]; intros e e' He He'.
  - assert (sv_record_hash e = sv_record_hash e') as E.
    { rewrite <- !head_reverse in Hlast. rewrite <- !head_lookup in He, He'.
      rewrite He, He' in Hlast. by injection Hlast. }
    destruct (event_input_eq es es' 0 e e'); auto.
  - destruct (lookup_lt_is_Some_2 (reverse es) k) as [g Hg]; [apply lookup_lt_Some in He; lia|].
    destruct (lookup_lt_is_Some_2 (reverse es') k) as [g' Hg']; [apply lookup_lt_Some in He'; lia|].
    destruct (IH g g' Hg Hg') as [[Ein _]|]; [|by right].
    assert (sv_record_hash e = sv_record_hash e') as E.
    { unfold event_input, hash_input in Ein.
      rewrite (intact_prev es k g e), (intact_prev es' k g' e') in Ein by done.
      eapply append_prefix_eq; [|exact Ein].
      by rewrite (intact_hash_len es (S k) e), (intact_hash_len es' (S k) e'). }
    destruct (event_input_eq es es' (S k) e e'); auto.
Qed.

Lemma verify_events_intact es r : verify_events es = Ok r -> ir_is_valid r = true ->
  intact es /\ sv_record_hash <$> list.last es = Some (ir_computed_hash r).
Proof.
  destruct es as [|e es]; [done|]. intros Hr Hv. cbn [verify_events] in Hr. split.
  - apply intact_from_1. eapply verify_chain_valid; [lia | eauto].
  - rewrite (verify_chain_hash _ _ _ _ _ Hr Hv).
    destruct (list.last (e :: es)) eqn:E; [done|]. by apply last_None in E.
Qed.

(** *** The padded levels are the levels of the audit tree *)

Lemma pad_SS a b r : pad (a :: b :: r) = (a :: b :: pad r)%list.
Proof.
  unfold pad. cbn [length]. change (Nat.odd (S (S (length r)))) with (Nat.odd (length r)).
  destruct (Nat.odd (length r)) eqn:E; [|done]. destruct r as [|c r]; [done|].
  rewrite !last_cons_cons. by destruct (list.last (c :: r)).
Qed.

Lemma pair_up_pad l : pair_up (pad l) = next_level l.
Proof.
  induction l as [|a|a b r IH] using list_ind2; [done..|].
  rewrite pad_SS. cbn [pair_up next_level]. by rewrite IH.
Qed.

Lemma pad_lookup l i x : l !! i = Some x -> pad l !! i = Some x.
Proof. intros Hi. unfold pad. repeat case_match; try done. by apply lookup_app_l_Some. Qed.

Lemma pad_sibling l i : i < length l ->
  pad l !! (if Nat.even i then i + 1 else i - 1) = sibling l i.
Proof.
  intros Hi. unfold sibling, sibling_idx. destruct (Nat.even i) eqn:Ei.
  - destruct (Nat.ltb_spec (i + 1) (length l)) as [Hl|Hl].
    + destruct (lookup_lt_is_Some_2 l (i + 1) Hl) as [x Hx]. rewrite Hx. by apply pad_lookup.
    + assert (length l = S i) as El by lia. unfold pad. rewrite El.
      replace (Nat.odd (S i)) with true by (rewrite Nat.odd_succ; done).
      rewrite last_lookup, El. cbn [pred].
      destruct (lookup_lt_is_Some_2 l i Hi) as [x Hx]. rewrite Hx.
      rewrite lookup_app_r by lia. by replace (i + 1 - length l) with 0 by lia.
  - assert (i - 1 < length l) as Hl by lia.
    destruct (lookup_lt_is_Some_2 l (i - 1) Hl) as [x Hx]. rewrite Hx. by apply pad_lookup.
Qed.

Lemma proof_while_spec l : l <> [] -> forall i sibs fuel, i < length l -> length l <= fuel ->
  proof_while fuel l i sibs = Some ([root_of l], sibs ++ map hex_encode (path_of l i))%list.
Proof.
  induction l as [|a|l Hl IH] using levels_ind; intros Hne i sibs fuel Hi Hf; [done| |].
  - destruct fuel; simpl; by rewrite path_of_equation_2, root_of_equation_2, app_nil_r.
  - destruct fuel as [|fuel]; [lia|]. cbn [proof_while].
    destruct (Nat.leb_spec (length l) 1); [lia|]. cbv zeta.
    rewrite pad_sibling by done. destruct (sibling_some l i Hi) as [s Hs]. rewrite Hs.
    cbn [mbind option_bind]. rewrite pair_up_pad, IH.
    + rewrite (root_of_step l), (path_of_step l), Hs by done. cbn [map unwrap_or].
      by rewrite <- app_assoc.
    + intros E. apply (f_equal length) in E. rewrite next_level_length in E.
      pose proof (half_pos (length l) ltac:(lia)) as Hp. rewrite E in Hp. simpl in Hp. lia.
    + rewrite next_level_length. by apply half_idx_lt.
    + rewrite next_level_length. pose proof (half_lt (length l) Hl). lia.
Qed.

Lemma compute_merkle_proof_spec `{!HexLaws} leaves i : i < length leaves ->
  compute_merkle_proof (map hex_encode leaves) i
  = Some (hex_encode (root_of leaves), map hex_encode (path_of leaves i)).
Proof.
  intros Hi. assert (leaves <> []) as Hne by (by intros ->; simpl in Hi; lia).
  unfold compute_merkle_proof. rewrite map_map.
  rewrite (map_ext _ id) by (intros h; by rewrite hex_decode_encode). rewrite map_id.
  rewrite proof_while_spec by done. by destruct leaves.
Qed.

End session.

Definition sample_session : list SessionEvent :=
  let h1 := compute_event_hash "" "SessionCreated" JNull 0 in
  [mkSessionEvent 1 "SessionCreated" 1 JNull 0 h1 None;
   mkSessionEvent 2 "SessionEnded" 2 JNull 5 (compute_event_hash h1 "SessionEnded" JNull 5) (Some h1)].

(** ** Theorems *)

(** An event without its place in the hash chain. *)
Definition unhashed (e : SessionEvent) : SessionEvent :=
  mkSessionEvent (sv_event_id e) (sv_event_type e) (sv_version e) (sv_payload e) (sv_occurred_at e)
    EmptyString None.

Lemma fold_loop_unhashed v st es : fold_loop v st (map unhashed es) = fold_loop v st es.
Proof.
  revert v st. induction es as [|e es IH]; intros v st; cbn [map fold_loop]; [done|].
  change (sv_version (unhashed e)) with (sv_version e). case_match; [done|].
  change (apply_event st (unhashed e)) with (apply_event st e).
  destruct (apply_event st e); [apply IH | done | done].
Qed.

(** C20. A session can be reconstructed exactly when it has events, their
    versions are 1, 2, 3, ... without a gap, and every event type is one of
    the six known ones; an empty list is reported as not found, the fold never
    panics, and its result does not depend on the hashes of the events.  (The
    integration test reconstructs events of the type [SessionEvent], which is
    none of the six, and the strategy guide has the fold verify the chain.) *)
Theorem fold_session_state_defined (events : list SessionEvent) :
  ((exists st, fold_session_state events = Ok st) <->
   events <> [] /\ versions_from 1 events
   /\ Forall (fun e => known_type (sv_event_type e) = true) events)
  /\ (fold_session_state events = Err SessionNotFound <-> events = [])
  /\ fold_session_state events <> Panic
  /\ fold_session_state (map unhashed events) = fold_session_state events.
Proof.
  assert (forall v st es, fold_loop v st es <> Err SessionNotFound /\ fold_loop v st es <> Panic) as Hn.
  { intros v st es. revert v st. induction es as [|e es IH]; intros v st; cbn [fold_loop]; [done|].
    case_match; [done|]. destruct (apply_event st e) as [st'|x|] eqn:E; simpl; [apply IH | |].
    - apply apply_event_err in E as ->. done.
    - by apply apply_event_total in E. }
  unfold fold_session_state. destruct events as [|e es].
  - split_and!; [split; [by intros [? ?] | by intros [? _]] | done | done | done].
  - rewrite fold_loop_ok_iff. split_and!; [naive_solver | | apply Hn | apply (fold_loop_unhashed 1 ∅ (e :: es))].
    split; [intros E; by apply Hn in E | done].
Qed.

(** Replay is incremental: the state after one more event is that event
    applied to the state before, so appending the next version to a
    reconstructible session never needs a full replay and never changes what
    the earlier events produced. *)
Theorem fold_session_append (events : list SessionEvent) (e : SessionEvent) (st : SessionState) :
  fold_session_state events = Ok st -> sv_version e = (Z.of_nat (length events) + 1)%Z ->
  fold_session_state (events ++ [e]) = apply_event st e.
Proof.
  intros Hf Hv. destruct events as [|e0 es]; [done|].
  change (fold_session_state ((e0 :: es) ++ [e])) with (fold_loop 1 ∅ ((e0 :: es) ++ [e])).
  rewrite fold_loop_app. change (fold_loop 1 ∅ (e0 :: es)) with (fold_session_state (e0 :: es)).
  rewrite Hf. cbn [mbind Result_bind fold_loop].
  rewrite (proj2 (Z.eqb_eq (sv_version e) _)) by lia. cbn [negb]. by destruct (apply_event st e).
Qed.

Lemma fold_session_append_witness :
  fold_session_state (take 1 sample_session ++ drop 1 sample_session)
  = apply_event (<["status" := "active"]> ∅) (mkSessionEvent 2 "SessionEnded" 2 JNull 5
      (compute_event_hash (compute_event_hash "" "SessionCreated" JNull 0) "SessionEnded" JNull 5)
      (Some (compute_event_hash "" "SessionCreated" JNull 0))).
Proof.
  apply (fold_session_append (take 1 sample_session) _ (<["status" := "active"]> ∅)); reflexivity.
Defined.

(** C19. Integrity verification accepts exactly the intact chains: versions
    without a gap, every hash that of the event's own contents, every event
    linked to the hash before it; and the hash it reports is the last event's.
    The hash of an event is the one the reconstructor computes, of the previous
    hash, the event type, the payload and the time in RFC 3339.  (The strategy
    guide leaves out the event type, and the Go orchestrator, which writes the
    events, hashes previous hash, payload and nanoseconds.) *)
Theorem verify_events_valid_iff `{HashOps} `{HexOps} `{TextOps} (events : list SessionEvent) :
  ((exists r, verify_events events = Ok r /\ ir_is_valid r = true) <->
   events <> [] /\ intact events)
  /\ (forall r, verify_events events = Ok r -> ir_is_valid r = true ->
       Some (ir_computed_hash r) = sv_record_hash <$> list.last events).
Proof.
  unfold verify_events. destruct events as [|e es].
  - split; [split; [by intros (r & ? & _) | by intros [? _]] | done].
  - rewrite verify_chain_valid, intact_from_1 by lia. split; [naive_solver|].
    intros r Hr Hv. rewrite (verify_chain_hash _ _ _ _ _ Hr Hv).
    destruct (list.last (e :: es)) eqn:E; [done|]. by apply last_None in E.
Qed.

(** C4. Tamper evidence: if two event lists, of any lengths, both verify and the
    hashes reported for them are the same, then going backwards from their last
    events the hashed texts and the record hashes are the same in both, as far
    as the shorter list goes; or at some distance from the end two different
    hashed texts of the lists have the same SHA-256 digest. *)
Theorem session_tamper_evident `{HashOps} `{!HashLaws} `{HexOps} `{!HexLaws} `{TextOps}
    (es es' : list SessionEvent) r r' :
  verify_events es = Ok r -> ir_is_valid r = true ->
  verify_events es' = Ok r' -> ir_is_valid r' = true ->
  ir_computed_hash r = ir_computed_hash r' ->
  (forall k e e', reverse es !! k = Some e -> reverse es' !! k = Some e' ->
     event_input e = event_input e' /\ sv_record_hash e = sv_record_hash e')
  \/ collision_on (hashed es) (hashed es').
Proof.
  intros Hr Hv Hr' Hv' Hh.
  destruct (verify_events_intact es r Hr Hv) as [Hi Hl], (verify_events_intact es' r' Hr' Hv') as [Hi' Hl'].
  destruct (decide (collision_on (hashed es) (hashed es'))) as [|Hn]; [by right|]. left.
  intros k e e' He He'. destruct (intact_agree es es' Hi Hi' ltac:(congruence) k e e' He He'); done.
Qed.

(** The last event of the sample alone, renumbered as the first: the chain check
    does not ask that the first event names no predecessor, so the cut list
    verifies with the same hash. *)
Definition cut_session : list SessionEvent :=
  let h1 := compute_event_hash "" "SessionCreated" JNull 0 in
  [mkSessionEvent 7 "SessionEnded" 1 JNull 5 (compute_event_hash h1 "SessionEnded" JNull 5) (Some h1)].

Definition sample_hash : string :=
  compute_event_hash (compute_event_hash "" "SessionCreated" JNull 0) "SessionEnded" JNull 5.

Definition sample_verified (count : Z) : IntegrityResult :=
  mkIntegrityResult true sample_hash count None.

Lemma sample_verifies : verify_events sample_session = Ok (sample_verified 2).
Proof. vm_compute. reflexivity. Qed.

Lemma cut_verifies : verify_events cut_session = Ok (sample_verified 1).
Proof. vm_compute. reflexivity. Qed.

Lemma session_tamper_evident_witness :
  verify_events sample_session = Ok (sample_verified 2)
  /\ verify_events cut_session = Ok (sample_verified 1)
  /\ ((forall k e e', reverse sample_session !! k = Some e -> reverse cut_session !! k = Some e' ->
        event_input e = event_input e' /\ sv_record_hash e = sv_record_hash e')
      \/ collision_on (hashed sample_session) (hashed cut_session)).
Proof.
  split; [exact sample_verifies|]. split; [exact cut_verifies|].
  exact (session_tamper_evident sample_session cut_session (sample_verified 2) (sample_verified 1)
           sample_verifies eq_refl cut_verifies eq_refl (@eq_refl string sample_hash)).
Defined.

(** C22. The session service's Merkle proof is the audit service's: for decodable
    hashes and an index in range the padded construction never runs out of
    range, gives the root and the sibling path of the audit tree over the same
    leaves, and the audit verification accepts it. *)
Theorem session_proof_is_audit_proof `{HashOps} `{HexOps} `{!HexLaws}
    (leaves : list bytestring) (i : nat) (x : bytestring) :
  leaves !! i = Some x ->
  exists root path, build_merkle_tree leaves = Some (root, flat leaves)
    /\ merkle_proof (flat leaves) (length leaves) i = Some path
    /\ compute_merkle_proof (map hex_encode leaves) i
       = Some (hex_encode root, map hex_encode path)
    /\ verify_merkle_proof x i path root = true.
Proof.
  intros Hx. pose proof (lookup_lt_Some _ _ _ Hx) as Hi.
  assert (leaves <> []) as Hne by (by intros ->).
  exists (root_of leaves), (path_of leaves i). split_and!.
  - by apply build_merkle_tree_spec.
  - by apply merkle_proof_spec.
  - by apply compute_merkle_proof_spec.
  - apply bool_decide_eq_true. by apply verify_path.
Qed.

Lemma session_proof_is_audit_proof_witness :
  exists root path, build_merkle_tree sample_leaves = Some (root, flat sample_leaves)
    /\ merkle_proof (flat sample_leaves) (length sample_leaves) 2 = Some path
    /\ compute_merkle_proof (map hex_encode sample_leaves) 2
       = Some (hex_encode root, map hex_encode path)
    /\ verify_merkle_proof (sha256 (as_bytes "c")) 2 path root = true.
Proof. apply (session_proof_is_audit_proof sample_leaves 2). reflexivity. Defined.
