(* ===== verification/SessionService.v ===== *)
(** * The session reconstructor: store, cache, handler and gRPC methods

    [session-reconstructor/src/infrastructure/postgres.rs] and [cache.rs],
    [application/reconstruct.rs] and [ports/grpc.rs].  The [moka] cache is an
    interface, [CacheOps] with its laws; the handler is verified against it
    and a map with expiry times discharges it.  The clock readings and the
    database faults come from [SessionEnv]. *)

From Stdlib Require Import ZArith Lia.
From stdpp Require Import base list strings numbers gmap sorting pretty.
From S2P Require Import Prelude RustStr External Reference Merkle Grpc Session.

Local Open Scope string_scope.

(** ** Data *)

(** [DbEvent], the columns the service reads. *)
Record DbEvent := mkDbEvent {
  db_event_id : Uuid;
  db_event_type : string;
  db_version : Z;
  db_payload : json;
  db_tenant_id : Uuid;
  db_session_id : Uuid;
  db_record_hash : string;
  db_previous_hash : option string;
  db_occurred_at : DateTime;
}.

Record CachedSession := mkCached {
  cs_state : SessionState;
  cs_event_count : nat;
  cs_integrity_hash : string;
  cs_last_activity : option DateTime;
}.

(** ** The cache *)

Abbreviation CacheKey := (Uuid * Uuid)%type.

Class CacheOps := {
  Cache : Type;
  cache_get : Cache -> CacheKey -> DateTime -> option CachedSession;
  cache_insert : Cache -> CacheKey -> CachedSession -> DateTime -> Cache;
  cache_invalidate : Cache -> CacheKey -> Cache;
}.

(** [time_to_live(Duration::from_secs(180))] *)
Definition ttl : Z := 180 * nanos_per_sec.

Class CacheLaws `{CacheOps} : Prop := {
  get_fresh : forall c k v t t', (t <= t' < t + ttl)%Z ->
    cache_get (cache_insert c k v t) k t' = Some v;
  get_expired : forall c k v t t', (t + ttl <= t')%Z ->
    cache_get (cache_insert c k v t) k t' = None;
  get_other : forall c k k' v t t', k <> k' ->
    cache_get (cache_insert c k v t) k' t' = cache_get c k' t';
  get_invalidated : forall c k t, cache_get (cache_invalidate c k) k t = None;
  get_invalidated_other : forall c k k' t, k <> k' ->
    cache_get (cache_invalidate c k) k' t = cache_get c k' t;
}.

(** A map from keys to values with their insertion times. *)
#[export] Instance ttl_cache : CacheOps := {|
  Cache := gmap CacheKey (CachedSession * DateTime);
  cache_get c k now :=
    match c !! k with
    | Some (v, t) => if (now <? t + ttl)%Z then Some v else None
    | None => None
    end;
  cache_insert c k v now := <[k := (v, now)]> c;
  cache_invalidate c k := delete k c;
|}.

#[export] Instance ttl_cache_laws : CacheLaws.
Proof.
  constructor; intros; simpl.
  - rewrite lookup_insert_eq. by rewrite (proj2 (Z.ltb_lt _ _)) by lia.
  - rewrite lookup_insert_eq. by rewrite (proj2 (Z.ltb_ge _ _)) by lia.
  - by rewrite lookup_insert_ne.
  - by rewrite lookup_delete_eq.
  - by rewrite lookup_delete_ne.
Qed.

(** ** World *)

Class SessionEnv := {
  s_fault : nat -> option string;
  s_clock : nat -> DateTime;
  (** the rows the row-level policy shows under a tenant *)
  s_rls : Uuid -> DbEvent -> bool;
}.

Definition version_le (a b : DbEvent) : Prop := (db_version a <= db_version b)%Z.
#[export] Instance version_le_dec : RelDecision version_le.
Proof. intros a b. apply Z.le_dec. Defined.

Section service.
Context `{HashOps} `{HexOps} `{TextOps} `{UuidOps} `{CacheOps} `{SessionEnv}.

Record SessionWorld := mkSessionWorld {
  db_events : list DbEvent;
  cache : Cache;
  s_tick : nat;
}.

Definition s_next (w : SessionWorld) : SessionWorld :=
  mkSessionWorld (db_events w) (cache w) (S (s_tick w)).
Definition set_cache (c : Cache) (w : SessionWorld) : SessionWorld :=
  mkSessionWorld (db_events w) c (s_tick w).

Definition s_statement : M SessionWorld string unit := fun w =>
  match s_fault (s_tick w) with
  | Some e => (Err e, s_next w)
  | None => (Ok tt, s_next w)
  end.

Definition s_now {E} : M SessionWorld E DateTime := fun w => (Ok (s_clock (s_tick w)), s_next w).

(** The visible events of a session in version order. *)
Definition session_rows (session_id tenant_id : Uuid) (rows : list DbEvent) : list DbEvent :=
  merge_sort version_le
    (List.filter (fun e => N.eqb (db_session_id e) session_id && s_rls tenant_id e) rows).

(** [fetch_events]: begin, set the tenant, select, commit. *)
Definition fetch_events (session_id tenant_id : Uuid) (limit : Z)
    : M SessionWorld string (list DbEvent) :=
  s_statement ;;
  s_statement ;;
  s_statement ;;
  rows ← gets db_events;
  (if (limit <? 0)%Z then throw "LIMIT must not be negative" else mret tt) ;;
  s_statement ;;
  mret (take (Z.to_nat limit) (session_rows session_id tenant_id rows)).

(** ** [ReconstructSessionHandler] *)

Record ReconstructSessionResult := mkReconstructed {
  rs_session_id : Uuid;
  rs_state : SessionState;
  rs_event_count : nat;
  rs_integrity_hash : string;
  rs_last_activity : option DateTime;
  rs_current_version : Z;
}.

Definition envelope (e : DbEvent) : SessionEvent :=
  mkSessionEvent (db_event_id e) (db_event_type e) (db_version e) (db_payload e)
    (db_occurred_at e) (db_record_hash e) (db_previous_hash e).

(** [SessionCache]: sessions by session and tenant; reading and writing take
    the time *)
Definition session_cache_get {E} (session_id tenant_id : Uuid) (now : DateTime)
    : M SessionWorld E (option CachedSession) :=
  gets (fun w => cache_get (cache w) (session_id, tenant_id) now).

Definition session_cache_insert {E} (session_id tenant_id : Uuid) (session : CachedSession)
    (now : DateTime) : M SessionWorld E unit :=
  modify (fun w => set_cache (cache_insert (cache w) (session_id, tenant_id) session now) w).

Definition session_cache_invalidate {E} (session_id tenant_id : Uuid) : M SessionWorld E unit :=
  modify (fun w => set_cache (cache_invalidate (cache w) (session_id, tenant_id)) w).

(** [reconstruct_session] *)
Definition reconstruct_session (session_id tenant_id : Uuid) (max_events : Z)
    : M SessionWorld SessionError ReconstructSessionResult :=
  now ← s_now;
  cached ← session_cache_get session_id tenant_id now;
  match cached with
  | Some c =>
      mret (mkReconstructed session_id (cs_state c) (cs_event_count c) (cs_integrity_hash c)
              (cs_last_activity c) (as_i64 (Z.of_nat (cs_event_count c))))
  | None =>
      events ← with_err SessionInternal (fetch_events session_id tenant_id max_events);
      match events with
      | [] => throw SessionNotFound
      | _ =>
          let envelopes := map envelope events in
          let last_activity := sv_occurred_at <$> list.last envelopes in
          let current_version := unwrap_or (sv_version <$> list.last envelopes) 0%Z in
          let integrity_hash := unwrap_or (sv_record_hash <$> list.last envelopes) "" in
          state ← lift (fold_session_state envelopes);
          let event_count := length events in
          now' ← s_now;
          session_cache_insert session_id tenant_id
            (mkCached state event_count integrity_hash last_activity) now' ;;
          mret (mkReconstructed session_id state event_count integrity_hash last_activity
                  current_version)
      end
  end.

Definition i32_max : Z := 2 ^ 31 - 1.

(** [verify_integrity] *)
Definition verify_integrity (session_id tenant_id : Uuid)
    : M SessionWorld SessionError IntegrityResult :=
  events ← with_err SessionInternal (fetch_events session_id tenant_id i32_max);
  lift (verify_events (map envelope events)).

(** [fetch_event_hashes] *)
Definition fetch_event_hashes (session_id tenant_id : Uuid)
    : M SessionWorld SessionError (list string) :=
  events ← with_err SessionInternal (fetch_events session_id tenant_id i32_max);
  match events with
  | [] => throw SessionNotFound
  | _ => mret (map db_record_hash events)
  end.

(** ** gRPC *)

Record IntegrityProof := mkIntegrityProof {
  ip_session_id : string;
  ip_event_version : Z;
  ip_event_hash : string;
  ip_sibling_hashes : list string;
  ip_merkle_root : string;
  ip_proof_generated_at : Timestamp;
  ip_signature : string;
}.

Record ReconstructSessionResponse := mkReconstructResponse {
  rr_session_id : string;
  rr_state : SessionState;
  rr_current_version : Z;
  rr_events_replayed : Z;
  rr_is_valid : bool;
  rr_integrity_hash : string;
  rr_last_activity : option Timestamp;
  rr_merkle_proof : option IntegrityProof;
}.

Record VerifySessionResponse := mkVerifyResponse {
  vs_is_valid : bool;
  vs_computed_hash : string;
  vs_expected_hash : string;
  vs_event_count : Z;
  vs_broken_at_event_id : string;
}.

(** [e.to_string()] *)
Definition session_error_to_string (e : SessionError) : string :=
  match e with
  | SessionNotFound => "session not found"
  | EventSequenceGap expected found =>
      "event sequence gap: expected " +:+ pretty expected +:+ ", found " +:+ pretty found
  | HashMismatch v => "hash mismatch at version " +:+ pretty v
  | InvalidEventType t => "invalid event type: " +:+ t
  | SessionInternal m => "internal error: " +:+ m
  end.

(** [map_domain_error] *)
Definition session_status (e : SessionError) : Status :=
  match e with
  | SessionNotFound => mkStatus CodeNotFound (session_error_to_string e)
  | HashMismatch _ => mkStatus CodeFailedPrecondition (session_error_to_string e)
  | EventSequenceGap _ _ => mkStatus CodeDataLoss (session_error_to_string e)
  | InvalidEventType _ => mkStatus CodeInvalidArgument (session_error_to_string e)
  | SessionInternal msg => mkStatus CodeInternal msg
  end.

(** [parse_uuid] *)
Definition session_parse_uuid (s : string) : Result Status Uuid :=
  ok_or (uuid_parse s) (mkStatus CodeInvalidArgument ("invalid uuid: " +:+ s)).

(** [compute_merkle_proof] in a method: an index out of range panics. *)
Definition proof_or_panic {E} (hashes : list string) (i : nat) : Result E (string * list string) :=
  match compute_merkle_proof hashes i with Some x => Ok x | None => Panic end.

(** [reconstruct_session] *)
Definition reconstruct_session_rpc (req_session_id req_tenant_id : string) (req_max_events : Z)
    (include_merkle_proof : bool) : M SessionWorld Status ReconstructSessionResponse :=
  session_id ← lift (session_parse_uuid req_session_id);
  tenant_id ← lift (session_parse_uuid req_tenant_id);
  let max_events := if (0 <? req_max_events)%Z then req_max_events else 1000%Z in
  result ← with_err session_status (reconstruct_session session_id tenant_id max_events);
  let resp proof := mkReconstructResponse (uuid_to_string session_id) (rs_state result)
      (rs_current_version result) (as_i32 (Z.of_nat (rs_event_count result))) true
      (rs_integrity_hash result) (chrono_to_prost <$> rs_last_activity result) proof in
  if include_merkle_proof then
    r ← attempt (fetch_event_hashes session_id tenant_id);
    match r with
    | Ok [] => mret (resp None)
    | Ok hashes =>
        p ← lift (proof_or_panic hashes (length hashes - 1));
        now ← s_now;
        mret (resp (Some (mkIntegrityProof (uuid_to_string session_id) (rs_current_version result)
                (unwrap_or (list.last hashes) "") [] (fst p) (chrono_to_prost now) "")))
    | Err _ => mret (resp None)
    | Panic => lift Panic
    end
  else mret (resp None).

(** [extract_tenant_id], on the baggage of the request's tracing block *)
Definition extract_tenant_id (baggage : option (gmap string string)) : option Uuid :=
  b ← baggage; v ← b !! "tenant_id"; uuid_parse v.

(** [verify_session_integrity] *)
Definition verify_session_integrity (req_session_id expected_hash : string)
    (baggage : option (gmap string string)) : M SessionWorld Status VerifySessionResponse :=
  session_id ← lift (session_parse_uuid req_session_id);
  tenant_id ← lift (ok_or (extract_tenant_id baggage)
    (mkStatus CodeInvalidArgument "tenant_id is required but not provided in request"));
  result ← with_err session_status (verify_integrity session_id tenant_id);
  let is_valid := ir_is_valid result && String.eqb (ir_computed_hash result) expected_hash in
  mret (mkVerifyResponse is_valid (ir_computed_hash result) expected_hash (ir_event_count result) "").

(** [get_integrity_proof] *)
Definition get_integrity_proof (req_session_id req_tenant_id : string) (event_version : Z)
    : M SessionWorld Status IntegrityProof :=
  session_id ← lift (session_parse_uuid req_session_id);
  tenant_id ← lift (session_parse_uuid req_tenant_id);
  hashes ← with_err session_status (fetch_event_hashes session_id tenant_id);
  match hashes with
  | [] => throw (mkStatus CodeNotFound "session not found")
  | _ =>
      let target_index :=
        if (0 <? event_version)%Z then Z.to_nat event_version - 1 else length hashes - 1 in
      let clamped_index := Nat.min target_index (length hashes - 1) in
      p ← lift (proof_or_panic hashes clamped_index);
      h ← lift (match hashes !! clamped_index with Some h => Ok h | None => Panic end);
      now ← s_now;
      mret (mkIntegrityProof (uuid_to_string session_id) (Z.of_nat clamped_index + 1) h (snd p)
              (fst p) (chrono_to_prost now) "")
  end.

(** [invalidate_cache] *)
Definition invalidate_cache (req_session_id req_tenant_id : string) : M SessionWorld Status unit :=
  session_id ← lift (session_parse_uuid req_session_id);
  tenant_id ← lift (session_parse_uuid req_tenant_id);
  session_cache_invalidate session_id tenant_id.

(** ** Lemmas *)

Definition s_no_faults : Prop := forall n, s_fault n = None.

Lemma s_statement_ok w : s_no_faults -> s_statement w = (Ok tt, s_next w).
Proof. intros Hf. unfold s_statement. by rewrite Hf. Qed.

Lemma fetch_events_ok sid tid limit w : s_no_faults -> (0 <= limit)%Z ->
  fetch_events sid tid limit w
  = (Ok (take (Z.to_nat limit) (session_rows sid tid (db_events w))), Nat.iter 4 s_next w).
Proof.
  intros Hf Hl. unfold fetch_events. do 3 run_step (s_statement_ok _ Hf).
  destruct (Z.ltb_spec limit 0); [lia|]. erewrite bind_ok; [|reflexivity].
  erewrite bind_ok; [|reflexivity]. by run_step (s_statement_ok _ Hf).
Qed.

(** A reconstructed session's last version is its number of events. *)
Lemma fold_last_version es st : fold_session_state es = Ok st ->
  unwrap_or (sv_version <$> list.last es) 0%Z = Z.of_nat (length es).
Proof.
  intros Hf. destruct es as [|e es]; [done|].
  assert (versions_from 1 (e :: es)) as Hv.
  { apply (fold_loop_ok_iff 1 ∅ (e :: es)). by exists st. }
  rewrite last_lookup. destruct (lookup_lt_is_Some_2 (e :: es) (length es)) as [x Hx]; [simpl; lia|].
  cbn [length pred]. rewrite Hx. simpl. rewrite (Hv _ _ Hx). lia.
Qed.

(** The run of a reconstruction that misses the cache. *)
Lemma reconstruct_miss sid tid max w r w1 : in_i32 max -> s_no_faults ->
  cache_get (cache w) (sid, tid) (s_clock (s_tick w)) = None ->
  reconstruct_session sid tid max w = (Ok r, w1) ->
  exists t, s_tick w1 = S t
    /\ cache w1 = cache_insert (cache w) (sid, tid)
         (mkCached (rs_state r) (rs_event_count r) (rs_integrity_hash r) (rs_last_activity r))
         (s_clock t)
    /\ rs_session_id r = sid
    /\ rs_current_version r = as_i64 (Z.of_nat (rs_event_count r)).
Proof.
  intros Hmax Hf Hmiss. unfold reconstruct_session.
  erewrite bind_ok; [|reflexivity]. erewrite bind_ok; [|reflexivity]. cbv beta.
  change (cache (s_next w)) with (cache w). rewrite Hmiss.
  destruct (Z.ltb_spec max 0) as [Hneg|Hpos].
  { unfold mbind at 1, M_bind, with_err, fetch_events.
    do 3 run_step (s_statement_ok _ Hf). rewrite (proj2 (Z.ltb_lt _ _) Hneg). done. }
  erewrite bind_ok; [|unfold with_err; by rewrite fetch_events_ok].
  set (es := take _ _). cbv beta.
  assert (Z.of_nat (length es) < 2 ^ 31)%Z as Hlen.
  { subst es. rewrite length_take. destruct Hmax. lia. }
  destruct es as [|e0 es0] eqn:Ees; [done|]. rewrite <- Ees in *. cbv zeta.
  unfold lift at 1, mbind at 1, M_bind at 1.
  destruct (fold_session_state (map envelope es)) as [st|x|] eqn:Efold; [|done..].
  intros [= <- <-]. eexists. cbn [rs_state rs_event_count rs_integrity_hash rs_last_activity
    rs_session_id rs_current_version]. split_and!; [done | done | done |].
  rewrite (fold_last_version _ _ Efold), length_map. symmetry. apply as_i64_id. unfold in_i64. lia.
Qed.

Lemma reconstruct_hit sid tid max w c :
  cache_get (cache w) (sid, tid) (s_clock (s_tick w)) = Some c ->
  fst (reconstruct_session sid tid max w)
  = Ok (mkReconstructed sid (cs_state c) (cs_event_count c) (cs_integrity_hash c)
          (cs_last_activity c) (as_i64 (Z.of_nat (cs_event_count c)))).
Proof.
  intros Hc. unfold reconstruct_session. erewrite bind_ok; [|reflexivity].
  erewrite bind_ok; [|reflexivity]. cbv beta. change (cache (s_next w)) with (cache w).
  by rewrite Hc.
Qed.

End service.

(** ** An environment for the witnesses *)

#[export] Instance test_session_env : SessionEnv := {|
  s_fault _ := None;
  s_clock n := Z.of_nat n;
  s_rls t e := N.eqb (db_tenant_id e) t;
|}.

Lemma test_s_no_faults : s_no_faults.
Proof. by intros n. Qed.

Definition stored (n : N) (t : string) (v : Z) : DbEvent :=
  mkDbEvent n t v JNull 2 1 (hex_encode (sha256 (as_bytes t))) None v.

Definition session_world : SessionWorld :=
  mkSessionWorld [stored 11 "SessionEnded" 2; stored 10 "SessionCreated" 1] ∅ 0.

(** ** Theorems *)

(** The cache is transparent for three minutes and blind after that: once a
    session was reconstructed, a repeated call within the time to live returns
    exactly the same result (state, count, hash, activity and version), also
    when events were stored in between and whatever number of events the
    second caller asks for. *)
Theorem reconstruct_cached `{HashOps} `{HexOps} `{TextOps} `{UuidOps} `{CacheOps} `{!CacheLaws}
    `{SessionEnv} sid tid max max' (w w1 : SessionWorld) r (later : list DbEvent) :
  s_no_faults -> in_i32 max ->
  cache_get (cache w) (sid, tid) (s_clock (s_tick w)) = None ->
  reconstruct_session sid tid max w = (Ok r, w1) ->
  (s_clock (pred (s_tick w1)) <= s_clock (s_tick w1) < s_clock (pred (s_tick w1)) + ttl)%Z ->
  fst (reconstruct_session sid tid max' (mkSessionWorld later (cache w1) (s_tick w1))) = Ok r.
Proof.
  intros Hf Hm Hmiss Hr Ht.
  destruct (reconstruct_miss sid tid max w r w1 Hm Hf Hmiss Hr) as (t & Et & Ec & Es & Ev).
  rewrite Et in Ht |- *. rewrite Ec. cbn [pred] in Ht.
  erewrite reconstruct_hit; [|by apply get_fresh].
  f_equal. cbn [cs_state cs_event_count cs_integrity_hash cs_last_activity].
  rewrite <- Ev, <- Es. by destruct r.
Qed.

Lemma reconstruct_cached_witness :
  fst (reconstruct_session 1 2 50
         (mkSessionWorld [] (cache (snd (reconstruct_session 1 2 1 session_world)))
            (s_tick (snd (reconstruct_session 1 2 1 session_world)))))
  = Ok (mkReconstructed 1 (<["status" := "active"]> ∅) 1
          (hex_encode (sha256 (as_bytes "SessionCreated"))) (Some 1%Z) 1).
Proof.
  apply (reconstruct_cached 1%N 2%N 1 50 session_world
           (snd (reconstruct_session 1 2 1 session_world))
           (mkReconstructed 1 (<["status" := "active"]> ∅) 1
              (hex_encode (sha256 (as_bytes "SessionCreated"))) (Some 1%Z) 1) []);
    [exact test_s_no_faults | unfold in_i32; lia | reflexivity | vm_compute; reflexivity
    | vm_compute; split; [discriminate | reflexivity]].
Defined.

(** C21. [GetIntegrityProof] returns a proof that verifies: for a session whose
    event hashes are hexadecimal, the requested version (clamped to the
    existing ones; the last when none is given) gets a proof under the Merkle
    root of all the session's event hashes, and the audit verification accepts
    that event's hash at that position. *)
Theorem integrity_proof_verifies `{HashOps} `{HexOps} `{!HexLaws} `{TextOps} `{UuidOps} `{!UuidLaws}
    `{CacheOps} `{SessionEnv} (sid tid : Uuid) (version : Z) (leaves : list bytestring)
    (w : SessionWorld) :
  s_no_faults -> leaves <> [] -> (Z.of_nat (length leaves) < 2 ^ 31)%Z ->
  map db_record_hash (session_rows sid tid (db_events w)) = map hex_encode leaves ->
  exists p x path i, fst (get_integrity_proof (uuid_to_string sid) (uuid_to_string tid) version w) = Ok p
    /\ leaves !! i = Some x /\ ip_event_version p = (Z.of_nat i + 1)%Z
    /\ ((1 <= version <= Z.of_nat (length leaves))%Z -> ip_event_version p = version)
    /\ ip_event_hash p = hex_encode x
    /\ ip_merkle_root p = hex_encode (root_of leaves)
    /\ ip_sibling_hashes p = map hex_encode path
    /\ verify_merkle_proof x i path (root_of leaves) = true.
Proof.
  intros Hf Hne Hlen Hrows. unfold get_integrity_proof, session_parse_uuid.
  rewrite !uuid_parse_to_string. erewrite bind_ok; [|reflexivity]. erewrite bind_ok; [|reflexivity].
  assert (length (session_rows sid tid (db_events w)) = length leaves) as El.
  { by rewrite <- (length_map db_record_hash), Hrows, length_map. }
  assert (exists w', with_err session_status (fetch_event_hashes sid tid) w
            = (Ok (map hex_encode leaves), w')) as [w' Hfetch].
  { eexists. unfold with_err at 1, fetch_event_hashes.
    erewrite bind_ok; [|unfold with_err; rewrite fetch_events_ok by (unfold i32_max; done || lia); done].
    rewrite take_ge by (rewrite El; unfold i32_max; lia).
    destruct (session_rows _ _ _) as [|e es] eqn:E; [destruct leaves; done|].
    rewrite Hrows. reflexivity. }
  erewrite bind_ok; [|exact Hfetch]. rewrite length_map. clear Hfetch.
  set (ti := if (0 <? version)%Z then _ else _).
  set (i := Nat.min ti (length leaves - 1)).
  assert (i < length leaves) as Hi by (destruct leaves; [done | simpl in *; lia]).
  destruct (lookup_lt_is_Some_2 leaves i Hi) as [x Hx].
  exists (mkIntegrityProof (uuid_to_string sid) (Z.of_nat i + 1) (hex_encode x)
            (map hex_encode (path_of leaves i)) (hex_encode (root_of leaves))
            (chrono_to_prost (s_clock (s_tick w'))) ""), x, (path_of leaves i), i.
  split_and!; try done.
  - destruct (map hex_encode leaves) as [|h hs] eqn:E; [by destruct leaves|]. rewrite <- E.
    erewrite bind_ok; [|unfold lift, proof_or_panic; by rewrite compute_merkle_proof_spec].
    erewrite bind_ok; [|unfold lift; by rewrite list_lookup_fmap, Hx].
    by erewrite bind_ok; [|reflexivity].
  - intros Hv. simpl. unfold i, ti. destruct (Z.ltb_spec 0 version); lia.
  - apply bool_decide_eq_true. by apply verify_path.
Qed.

Lemma integrity_proof_verifies_witness :
  exists p x path i, fst (get_integrity_proof (uuid_to_string 1) (uuid_to_string 2) 2 session_world) = Ok p
    /\ [sha256 (as_bytes "SessionCreated"); sha256 (as_bytes "SessionEnded")] !! i = Some x
    /\ ip_event_version p = (Z.of_nat i + 1)%Z
    /\ ((1 <= 2 <= 2)%Z -> ip_event_version p = 2%Z)
    /\ ip_event_hash p = hex_encode x
    /\ ip_merkle_root p
       = hex_encode (root_of [sha256 (as_bytes "SessionCreated"); sha256 (as_bytes "SessionEnded")])
    /\ ip_sibling_hashes p = map hex_encode path
    /\ verify_merkle_proof x i path
         (root_of [sha256 (as_bytes "SessionCreated"); sha256 (as_bytes "SessionEnded")]) = true.
Proof.
  apply (integrity_proof_verifies 1%N 2%N 2
           [sha256 (as_bytes "SessionCreated"); sha256 (as_bytes "SessionEnded")] session_world);
    [exact test_s_no_faults | done | simpl; lia | vm_compute; reflexivity].
Defined.
