(* ===== verification/SessionConcurrency.v ===== *)
(** * Concurrent session requests

    [reconstruct_session] of [application/reconstruct.rs] and the invalidation
    of its cache as threads, one step per statement or cache operation, while
    other services store events.  The event store is only appended to. *)

From Stdlib Require Import ZArith Lia.
From stdpp Require Import base list strings numbers gmap sorting pretty relations.
From S2P Require Import Prelude RustStr External Reference Merkle Grpc Session SessionService.
From S2P Require Import Threads.

Local Open Scope string_scope.

(** What runs concurrently *)
Inductive SessionTask : Type :=
  | Reconstruct (session_id tenant_id : Uuid) (max_events : Z)
  | Invalidate (session_id tenant_id : Uuid)
  | EventAppended (e : DbEvent).

Section concurrent.
Context `{HashOps} `{HexOps} `{TextOps} `{UuidOps} `{CacheOps} `{SessionEnv}.

Abbreviation SessionThread := (Thread SessionWorld SessionError).

(** ** The threads *)

(** A statement of the transaction of [fetch_events] *)
Definition tx_statement : M SessionWorld SessionError unit := with_err SessionInternal s_statement.

Definition fetch_events_thread (session_id tenant_id : Uuid) (limit : Z)
    : SessionThread (list DbEvent) :=
  atom tx_statement ;;
  atom tx_statement ;;
  events ← atom (tx_statement ;;
    rows ← gets db_events;
    (if (limit <? 0)%Z then throw (SessionInternal "LIMIT must not be negative") else mret tt) ;;
    mret (take (Z.to_nat limit) (session_rows session_id tenant_id rows)));
  atom tx_statement ;;
  mret events.

(** After the events were read. *)
Definition fold_thread (session_id tenant_id : Uuid) (events : list DbEvent)
    : SessionThread ReconstructSessionResult :=
  match events with
  | [] => Done (Err SessionNotFound)
  | _ =>
      let envelopes := map envelope events in
      let last_activity := sv_occurred_at <$> list.last envelopes in
      let current_version := unwrap_or (sv_version <$> list.last envelopes) 0%Z in
      let integrity_hash := unwrap_or (sv_record_hash <$> list.last envelopes) "" in
      state ← Done (fold_session_state envelopes);
      let event_count := length events in
      atom (now ← s_now;
            session_cache_insert session_id tenant_id
              (mkCached state event_count integrity_hash last_activity) now) ;;
      mret (mkReconstructed session_id state event_count integrity_hash last_activity
              current_version)
  end.

Definition reconstruct_session_thread (session_id tenant_id : Uuid) (max_events : Z)
    : SessionThread ReconstructSessionResult :=
  cached ← atom (now ← s_now; session_cache_get session_id tenant_id now);
  match cached with
  | Some c =>
      mret (mkReconstructed session_id (cs_state c) (cs_event_count c) (cs_integrity_hash c)
              (cs_last_activity c) (as_i64 (Z.of_nat (cs_event_count c))))
  | None =>
      events ← fetch_events_thread session_id tenant_id max_events;
      fold_thread session_id tenant_id events
  end.

Definition append_event (e : DbEvent) (w : SessionWorld) : SessionWorld :=
  mkSessionWorld (db_events w ++ [e])%list (cache w) (s_tick w).

Definition session_thread (t : SessionTask) : SessionThread (option ReconstructSessionResult) :=
  match t with
  | Reconstruct sid tid max => r ← reconstruct_session_thread sid tid max; mret (Some r)
  | Invalidate sid tid => atom (session_cache_invalidate sid tid) ;; mret None
  | EventAppended e => atom (modify (append_event e)) ;; mret None
  end.

(** ** Alone, the thread is the handler *)

Lemma fetch_implements sid tid limit :
  implements (fetch_events_thread sid tid limit) (with_err SessionInternal (fetch_events sid tid limit)).
Proof.
  intros w. unfold fetch_events_thread, fetch_events, tx_statement.
  rewrite !run_bind, !(implements_atom _ _).
  unfold with_err, s_statement, mbind, M_bind, gets, throw, mret, M_ret, Thread_ret, map_err.
  repeat (case_match; simplify_eq/=; try done).
Qed.

Lemma reconstruct_implements sid tid max :
  implements (reconstruct_session_thread sid tid max) (reconstruct_session sid tid max).
Proof.
  intros w. unfold reconstruct_session_thread, reconstruct_session.
  rewrite run_bind, (implements_atom _ w), !(bind_ok s_now _ w (s_clock (s_tick w)) (s_next w)) by done.
  set (c := cache_get (cache w) (sid, tid) (s_clock (s_tick w))).
  rewrite (bind_ok _ _ (s_next w) c (s_next w)) by done.
  change (session_cache_get sid tid (s_clock (s_tick w)) (s_next w)) with (Ok (E := SessionError) c, s_next w).
  cbv iota beta. destruct c as [x|]; [done|].
  apply implements_bind; [apply fetch_implements|]. intros [|e es]; [done|]. intros w'.
  unfold fold_thread. rewrite run_bind. cbn [run]. unfold lift, mbind, M_bind.
  by destruct (fold_session_state _) as [st|e'|].
Qed.

(** ** What an answer may be *)

(** The answer read from the table [rows] with a limit. *)
Definition reconstruction (sid tid : Uuid) (max : Z) (rows : list DbEvent)
    : option ReconstructSessionResult :=
  let events := take (Z.to_nat max) (session_rows sid tid rows) in
  match events, fold_session_state (map envelope events) with
  | _ :: _, Ok state =>
      let l := list.last (map envelope events) in
      Some (mkReconstructed sid state (length events) (unwrap_or (sv_record_hash <$> l) "")
              (sv_occurred_at <$> l) (unwrap_or (sv_version <$> l) 0%Z))
  | _, _ => None
  end.

Definition cached_of (r : ReconstructSessionResult) : CachedSession :=
  mkCached (rs_state r) (rs_event_count r) (rs_integrity_hash r) (rs_last_activity r).

(** The limits asked for a session. *)
Variable asked : Uuid -> Uuid -> Z -> Prop.
Hypothesis asked_i32 : forall sid tid max, asked sid tid max -> in_i32 max.
Hypothesis clock_mono : forall m n, m <= n -> (s_clock m <= s_clock n)%Z.
Context `{!CacheLaws}.

(** An answer: that of the table as it was at some time, with a limit someone
    asked for. *)
Definition genuine (sid tid : Uuid) (r : ReconstructSessionResult) (w : SessionWorld) : Prop :=
  exists max rows, asked sid tid max /\ rows `prefix_of` db_events w
    /\ reconstruction sid tid max rows = Some r.

(** The cache holds only such answers. *)
Definition cache_ok (w : SessionWorld) : Prop :=
  forall sid tid n c, s_tick w <= n -> cache_get (cache w) (sid, tid) (s_clock n) = Some c ->
  exists r, genuine sid tid r w /\ c = cached_of r.

Definition session_step (w w' : SessionWorld) : Prop :=
  cache_ok w' /\ db_events w `prefix_of` db_events w'.

Lemma session_stable w w' : cache_ok w -> session_step w w' -> cache_ok w'.
Proof. by intros _ []. Qed.

Lemma genuine_prefix sid tid r w w' : db_events w `prefix_of` db_events w' ->
  genuine sid tid r w -> genuine sid tid r w'.
Proof. intros Hp (max & rows & Ha & Hr & E). exists max, rows. split_and!; [done | by etrans | done]. Qed.

Lemma genuine_rtc sid tid r w w' : rtc session_step w w' -> genuine sid tid r w -> genuine sid tid r w'.
Proof. induction 1 as [|w1 w2 w3 [_ Hp] _ IH]; [done|]. intros Hg. by eapply IH, genuine_prefix. Qed.

(** The version of a reconstruction is its number of events. *)
Lemma reconstruction_version sid tid max rows r : in_i32 max -> reconstruction sid tid max rows = Some r ->
  rs_session_id r = sid /\ rs_current_version r = as_i64 (Z.of_nat (rs_event_count r)).
Proof.
  intros Hm. unfold reconstruction. set (es := take _ _).
  assert (Z.of_nat (length es) < 2 ^ 31)%Z as Hlen.
  { subst es. rewrite length_take. destruct Hm. lia. }
  destruct es as [|e es'] eqn:Ees; [done|]. rewrite <- Ees in *.
  destruct (fold_session_state _) as [st|x|] eqn:Ef; [|done|done]. intros [= <-]. split; [done|].
  cbn [rs_current_version rs_event_count]. rewrite (fold_last_version _ _ Ef), length_map.
  symmetry. apply as_i64_id. unfold in_i64. lia.
Qed.

(** An answer from the cache is the answer that was cached. *)
Lemma answer_of_cached sid tid r w : genuine sid tid r w ->
  let c := cached_of r in
  mkReconstructed sid (cs_state c) (cs_event_count c) (cs_integrity_hash c) (cs_last_activity c)
    (as_i64 (Z.of_nat (cs_event_count c))) = r.
Proof.
  intros (max & rows & Ha & _ & E). apply reconstruction_version in E as [<- Ev]; [|by eapply asked_i32].
  simpl. rewrite <- Ev. by destruct r.
Qed.

(** ** The steps *)

Lemma step_wait w n : cache_ok w -> s_tick w <= n ->
  session_step w (mkSessionWorld (db_events w) (cache w) n).
Proof. intros Hw Hn. split; [|done]. intros sid tid m c Hm. apply Hw. simpl in Hm. lia. Qed.

Lemma step_insert sid tid r w : cache_ok w -> genuine sid tid r w ->
  session_step w (set_cache (cache_insert (cache w) (sid, tid) (cached_of r) (s_clock (s_tick w))) (s_next w)).
Proof.
  intros Hw Hg. split; [|done]. intros sid' tid' n c Hn Hc. simpl in *.
  destruct (decide ((sid, tid) = (sid', tid'))) as [E|Hne].
  - injection E as <- <-. exists r. split; [done|].
    pose proof (clock_mono (s_tick w) n) as Ht.
    destruct (Z.ltb_spec (s_clock n) (s_clock (s_tick w) + ttl)) as [Hlt|Hge].
    + rewrite get_fresh in Hc by (split; [apply Ht; lia | done]). by injection Hc as <-.
    + by rewrite get_expired in Hc.
  - rewrite get_other in Hc by done. apply (Hw sid' tid' n c); [lia | done].
Qed.

Lemma step_invalidate sid tid w : cache_ok w ->
  session_step w (set_cache (cache_invalidate (cache w) (sid, tid)) w).
Proof.
  intros Hw. split; [|done]. intros sid' tid' n c Hn Hc. simpl in *.
  destruct (decide ((sid, tid) = (sid', tid'))) as [E|Hne].
  - injection E as <- <-. by rewrite get_invalidated in Hc.
  - rewrite get_invalidated_other in Hc by done. by apply (Hw sid' tid' n c).
Qed.

Lemma step_append e w : cache_ok w -> session_step w (append_event e w).
Proof.
  intros Hw. assert (db_events w `prefix_of` db_events (append_event e w)) as Hp by (by apply prefix_app_r).
  split; [|done]. intros sid tid n c Hn Hc. destruct (Hw sid tid n c Hn Hc) as (r & Hg & ->).
  exists r. split; [by eapply genuine_prefix | done].
Qed.

(** ** The threads keep them *)

Abbreviation keeps := (assures cache_ok session_step).

Lemma step_statement w : cache_ok w -> session_step w (s_next w).
Proof. intros Hw. by apply (step_wait w (S (s_tick w))); [|lia]. Qed.

(** What is known before a statement and lasts is known after it. *)
Lemma keeps_statement K (P : SessionWorld -> Prop) :
  (forall w, cache_ok w -> K w -> P w) -> (forall w w', rtc session_step w w' -> P w -> P w') ->
  keeps K (if_ok (fun _ => P)) (atom tx_statement).
Proof.
  intros Hk Hp. apply assures_atom. intros w Hw Hs.
  assert (snd (tx_statement w) = s_next w) as ->.
  { unfold tx_statement, with_err, s_statement. by destruct (s_fault _). }
  split; [by apply step_statement|]. intros w' _ Hr a _. eapply Hp; [|by apply Hk].
  eapply rtc_l; [by apply step_statement | exact Hr].
Qed.

(** The events of the session in the table at some time. *)
Definition read_of (sid tid : Uuid) (max : Z) (events : list DbEvent) (w : SessionWorld) : Prop :=
  exists rows, rows `prefix_of` db_events w /\ events = take (Z.to_nat max) (session_rows sid tid rows).

Lemma read_rtc sid tid max events w w' : rtc session_step w w' ->
  read_of sid tid max events w -> read_of sid tid max events w'.
Proof.
  induction 1 as [|w1 w2 w3 [_ Hp] _ IH]; [done|]. intros (rows & Hr & E). apply IH.
  exists rows. split; [by etrans | done].
Qed.

Lemma keeps_fetch K sid tid max : keeps K (if_ok (read_of sid tid max)) (fetch_events_thread sid tid max).
Proof.
  unfold fetch_events_thread. eapply assures_then; [by apply (keeps_statement _ (fun _ => True))|].
  intros [] w0 _ _. eapply assures_then; [by apply (keeps_statement _ (fun _ => True))|]. intros [] w1 _ _.
  eapply (assures_then _ _ _ (read_of sid tid max)).
  - apply assures_atom. intros w Hw _. unfold tx_statement, with_err, s_statement, mbind, M_bind.
    destruct (s_fault _); cbn [fst snd map_err]; [split; [by apply step_statement | done]|].
    unfold gets. destruct (max <? 0)%Z; cbn [fst snd throw mret M_ret];
      (split; [by apply step_statement|]); [done|].
    intros w' _ Hr es [= <-]. eapply read_rtc; [exact Hr|]. by exists (db_events w).
  - intros es w2 _ Hread. eapply (assures_then _ _ _ (fun _ => read_of sid tid max es)).
    + apply keeps_statement; [|apply read_rtc]. intros w _ Hr. by eapply read_rtc.
    + intros [] w3 _ Hr3. apply assures_ret. intros w4 _ Hr. by eapply read_rtc.
Qed.

Lemma keeps_fold sid tid max events w : asked sid tid max -> read_of sid tid max events w ->
  keeps (rtc session_step w) (if_ok (genuine sid tid)) (fold_thread sid tid events).
Proof.
  intros Ha (rows & Hp & E). unfold fold_thread.
  destruct events as [|e es] eqn:Ees; [done|]. rewrite <- Ees in *.
  destruct (fold_session_state (map envelope events)) as [st|x|] eqn:Ef; [|done|done].
  cbn [mbind Thread_bind thread_bind]. set (l := list.last (map envelope events)).
  set (r := mkReconstructed sid st (length events) (unwrap_or (sv_record_hash <$> l) "")
    (sv_occurred_at <$> l) (unwrap_or (sv_version <$> l) 0%Z)).
  assert (genuine sid tid r w) as Hg.
  { exists max, rows. split_and!; [done | done|]. unfold reconstruction. cbv zeta.
    rewrite <- E. subst r l. rewrite Ees in *. by rewrite Ef. }
  apply (assures_then _ _ _ (fun _ => genuine sid tid r)).
  - apply assures_atom. intros w1 Hw1 Hr1. split.
    + apply (step_insert sid tid r w1 Hw1). by eapply genuine_rtc.
    + intros w2 _ Hr2 [] _. eapply genuine_rtc; [|exact Hg]. etrans; [exact Hr1|].
      eapply rtc_l; [|exact Hr2]. apply (step_insert sid tid r w1 Hw1). by eapply genuine_rtc.
  - intros [] w1 _ Hg1. apply assures_ret. intros w2 _ Hr. by eapply genuine_rtc.
Qed.

Lemma keeps_reconstruct K sid tid max : asked sid tid max ->
  keeps K (if_ok (genuine sid tid)) (reconstruct_session_thread sid tid max).
Proof.
  intros Ha. eapply (assures_then _ _ _ (fun c w => forall x, c = Some x ->
    exists r, genuine sid tid r w /\ x = cached_of r)).
  - apply assures_atom. intros w Hw _. split; [by apply step_statement|].
    intros w' _ Hr c [= <-] x Hx. destruct (Hw sid tid (s_tick w) x) as (r & Hg & ->); [done | exact Hx|].
    exists r. split; [|done]. eapply genuine_rtc; [exact Hr|]. exact Hg.
  - intros [c|] w _ Hc.
    + destruct (Hc c eq_refl) as (r & Hg & ->). rewrite (answer_of_cached sid tid r w Hg).
      apply assures_ret. intros w' _ Hr. by eapply genuine_rtc.
    + eapply assures_then; [apply keeps_fetch|]. intros es w1 _ Hr. by eapply keeps_fold.
Qed.

(** What is asked, and what a finished task may have answered. *)
Definition task_asked (t : SessionTask) : Prop :=
  match t with Reconstruct sid tid max => asked sid tid max | _ => True end.

Definition task_answer (t : SessionTask) (a : option ReconstructSessionResult) (w : SessionWorld) : Prop :=
  forall r, a = Some r -> match t with
  | Reconstruct sid tid _ => genuine sid tid r w
  | _ => False
  end.

Lemma keeps_task t : task_asked t -> keeps (fun _ => True) (if_ok (task_answer t)) (session_thread t).
Proof.
  destruct t as [sid tid max|sid tid|e]; intros Ht; cbn [session_thread].
  - eapply assures_then; [by apply keeps_reconstruct|]. intros r w _ Hg.
    apply assures_ret. intros w' _ Hr r' [= <-]. by eapply genuine_rtc.
  - eapply (assures_then _ _ _ (fun _ _ => True)); [|intros [] w _ _; by apply assures_ret].
    apply assures_atom. intros w Hw _. split; [by apply step_invalidate | done].
  - eapply (assures_then _ _ _ (fun _ _ => True)); [|intros [] w _ _; by apply assures_ret].
    apply assures_atom. intros w Hw _. split; [by apply step_append | done].
Qed.

End concurrent.

(** ** Lemmas for a given schedule *)

Section schedule.
Context `{HashOps} `{HexOps} `{TextOps} `{UuidOps} `{CacheOps} `{SessionEnv}.

(** A miss and the reading of the events, in a thread of their own. *)
Lemma miss_steps sid tid max i ts w : s_no_faults -> (0 <= max)%Z ->
  cache_get (cache w) (sid, tid) (s_clock (s_tick w)) = None ->
  ts !! i = Some (session_thread (Reconstruct sid tid max)) ->
  rtc interleave (ts, w)
    (<[i := fold_thread sid tid (take (Z.to_nat max) (session_rows sid tid (db_events w)))
              ≫= (fun r => mret (Some r))]> ts, Nat.iter 5 s_next w).
Proof.
  intros Hf Hm Hc Hi. etrans.
  - refine (seq_steps i ts _ _ _ w None (s_next w) Hi _). rewrite (implements_atom _ w).
    rewrite (bind_ok s_now _ w (s_clock (s_tick w)) (s_next w)) by done. by rewrite <- Hc.
  - cbv iota beta. eapply transitivity.
    + refine (seq_steps i _ (fetch_events_thread sid tid max) (fold_thread sid tid)
        (fun r => mret (Some r)) (s_next w) _ _ _ _).
      * apply list_lookup_insert_eq. by eapply lookup_lt_Some.
      * rewrite (fetch_implements sid tid max (s_next w)). unfold with_err.
        by rewrite fetch_events_ok by done.
    + rewrite list_insert_insert_eq. apply rtc_refl.
Qed.

(** The rest of it. *)
Lemma fold_run sid tid max rows r w : reconstruction sid tid max rows = Some r ->
  run (fold_thread sid tid (take (Z.to_nat max) (session_rows sid tid rows))) w
  = (Ok r, set_cache (cache_insert (cache w) (sid, tid) (cached_of r) (s_clock (s_tick w))) (s_next w)).
Proof.
  unfold reconstruction, fold_thread. set (es := take _ _). destruct es as [|e l] eqn:Ees; [done|].
  rewrite <- Ees. destruct (fold_session_state (map envelope es)) as [st|x|]; [|done|done].
  by intros [= <-].
Qed.

End schedule.

(** ** Theorems *)

(** C13. Whatever requests, invalidations and stored events interleave, a session
    is never answered from a mixture: every reconstruction that succeeds is the
    one the handler computes from the session's own visible events in the event
    store as it was at some moment, with a limit that was asked for the session;
    and the cache holds only such answers. *)
Theorem concurrent_sessions_genuine `{HashOps} `{HexOps} `{TextOps} `{UuidOps} `{CacheOps} `{!CacheLaws}
    `{SessionEnv} (asked : Uuid -> Uuid -> Z -> Prop) (tasks : list SessionTask)
    (w w' : SessionWorld) ts' :
  (forall sid tid max, asked sid tid max -> in_i32 max) ->
  (forall m n, m <= n -> (s_clock m <= s_clock n)%Z) ->
  cache_ok asked w -> Forall (task_asked asked) tasks ->
  rtc interleave (map session_thread tasks, w) (ts', w') ->
  cache_ok asked w' /\ forall i sid tid max r,
    tasks !! i = Some (Reconstruct sid tid max) -> ts' !! i = Some (Done (Ok (Some r))) ->
    genuine asked sid tid r w'.
Proof.
  intros Ha Hc Hw Ht Hs.
  destruct (interleave_holds (cache_ok asked) (session_step asked) (session_stable asked)
    (map (fun t => if_ok (task_answer asked t)) tasks) (map session_thread tasks) w ts' w' Hw)
    as (Hw' & _ & Hd); [|done|].
  - clear Hs. induction Ht as [|t tasks Ht _ IH]; simpl; constructor; [|done].
    by apply holds_start, keeps_task.
  - split; [done|]. intros i sid tid max r Hi Hr.
    destruct (Forall2_lookup_r _ _ _ _ _ Hd Hr) as (Q & HQ & Hh).
    rewrite list_lookup_fmap, Hi in HQ. injection HQ as <-.
    apply holds_done in Hh; [|done]. by apply (Hh (Some r)).
Qed.

(** An invalidation can be lost: when it falls between the reading and the
    caching of a reconstruction, the answer without the event that was stored
    before it is cached after it, and the next request gets that answer. *)
Theorem invalidation_lost `{HashOps} `{HexOps} `{TextOps} `{UuidOps} `{CacheOps} `{!CacheLaws}
    `{SessionEnv} sid tid max max' e r (w : SessionWorld) :
  s_no_faults -> in_i32 max -> (0 <= max)%Z ->
  (forall n, s_clock n <= s_clock (S n) < s_clock n + ttl)%Z ->
  cache_get (cache w) (sid, tid) (s_clock (s_tick w)) = None ->
  reconstruction sid tid max (db_events w) = Some r ->
  exists w', rtc interleave
      (map session_thread [Reconstruct sid tid max; EventAppended e; Invalidate sid tid], w)
      ([Done (Ok (Some r)); Done (Ok None); Done (Ok None)], w')
    /\ db_events w' = (db_events w ++ [e])%list
    /\ fst (reconstruct_session sid tid max' w') = Ok r.
Proof.
  intros Hf Hi Hm Hclock Hc Hr. set (w3 := set_cache (cache_invalidate (cache w) (sid, tid))
    (append_event e (Nat.iter 5 s_next w))).
  exists (set_cache (cache_insert (cache w3) (sid, tid) (cached_of r) (s_clock (s_tick w3))) (s_next w3)).
  split_and!.
  - etrans; [by apply (miss_steps sid tid max 0)|].
    etrans; [by apply (solo_steps 1 _ (session_thread (EventAppended e)))|].
    etrans; [by apply (solo_steps 2 _ (session_thread (Invalidate sid tid)))|].
    refine (solo_steps 0 [fold_thread sid tid _ ≫= _; Done (Ok None); Done (Ok None)] _ w3 _ _ eq_refl _).
    by rewrite run_bind, (fold_run sid tid max (db_events w) r).
  - done.
  - rewrite (reconstruct_hit sid tid max' _ (cached_of r)).
    + destruct (reconstruction_version sid tid max (db_events w) r Hi Hr) as [<- Ev]. simpl.
      rewrite <- Ev. by destruct r.
    + by apply get_fresh.
Qed.

(** Limits up to fifty, for the witnesses *)
Definition up_to_fifty (sid tid : Uuid) (max : Z) : Prop := (0 <= max <= 50)%Z.

Lemma concurrent_sessions_genuine_witness :
  let tasks := [Reconstruct 1 2 50; EventAppended (stored 12 "SessionEnded" 3); Invalidate 1 2;
                Reconstruct 1 2 1] in
  let played := play [0; 3; 0; 1; 0; 3; 0; 2; 0; 0; 3; 3; 3; 3] (map session_thread tasks) session_world in
  cache_ok up_to_fifty (snd played) /\ forall i sid tid max r,
    tasks !! i = Some (Reconstruct sid tid max) -> fst played !! i = Some (Done (Ok (Some r))) ->
    genuine up_to_fifty sid tid r (snd played).
Proof.
  intros tasks played.
  apply (concurrent_sessions_genuine up_to_fifty tasks session_world (snd played) (fst played)).
  - unfold up_to_fifty, in_i32. lia.
  - intros m n Hmn. simpl. lia.
  - intros sid tid n c _ Hc. simpl in Hc. by rewrite lookup_empty in Hc.
  - repeat (constructor; [unfold task_asked, up_to_fifty; done || lia|]). constructor.
  - apply interleave_play. eexists. apply surjective_pairing.
Defined.

Lemma invalidation_lost_witness :
  let e := stored 12 "SessionEnded" 3 in
  let r := mkReconstructed 1 (<["status" := "active"]> ∅) 1
             (hex_encode (sha256 (as_bytes "SessionCreated"))) (Some 1%Z) 1 in
  exists w', rtc interleave
      (map session_thread [Reconstruct 1 2 1; EventAppended e; Invalidate 1 2], session_world)
      ([Done (Ok (Some r)); Done (Ok None); Done (Ok None)], w')
    /\ db_events w' = (db_events session_world ++ [e])%list
    /\ fst (reconstruct_session 1 2 50 w') = Ok r.
Proof.
  intros e r. apply (invalidation_lost 1 2 1 50 e r session_world).
  - exact test_s_no_faults.
  - unfold in_i32. lia.
  - lia.
  - intros n. unfold ttl, nanos_per_sec. simpl. lia.
  - reflexivity.
  - vm_compute. reflexivity.
Defined.
