(* ===== verification/Recon.v ===== *)
(** * Reconciliation: domain, matching and use cases

    [reconciliation-engine/src/domain/*.rs] and [application/handler.rs].  The
    ports of the handler (store, transaction source, statement adapter) are the
    interface [ReconPorts], over an abstract world; the handler is written
    against it.  Fresh identifiers come from the port too: the items of one
    run are numbered in the order they are pushed. *)

From Stdlib Require Import ZArith Lia.
From stdpp Require Import base list strings numbers sorting.
From S2P Require Import Prelude RustStr External Reference.

Local Open Scope string_scope.

(** ** Domain *)

Inductive DiscrepancyType : Type :=
  | MissingInternal
  | MissingExternal
  | AmountMismatch
  | StatusMismatch
  | DuplicateInternal
  | DuplicateExternal
  | FeeMismatch
  | TimestampMismatch
  | CurrencyMismatch.

#[export] Instance DiscrepancyType_eq : EqDecision DiscrepancyType.
Proof. solve_decision. Defined.

(** [DiscrepancyType::as_str] *)
Definition discrepancy_as_str (d : DiscrepancyType) : string :=
  match d with
  | MissingInternal => "missing_internal"
  | MissingExternal => "missing_external"
  | AmountMismatch => "amount_mismatch"
  | StatusMismatch => "status_mismatch"
  | DuplicateInternal => "duplicate_internal"
  | DuplicateExternal => "duplicate_external"
  | FeeMismatch => "fee_mismatch"
  | TimestampMismatch => "timestamp_mismatch"
  | CurrencyMismatch => "currency_mismatch"
  end.

Inductive ResolutionAction : Type :=
  | CorrectInternal
  | CorrectExternal
  | CreateAdjustment
  | Ignore
  | Escalate
  | Approve.

#[export] Instance ResolutionAction_eq : EqDecision ResolutionAction.
Proof. solve_decision. Defined.

(** [ResolutionAction::as_str] *)
Definition action_as_str (a : ResolutionAction) : string :=
  match a with
  | CorrectInternal => "correct_internal"
  | CorrectExternal => "correct_external"
  | CreateAdjustment => "create_adjustment"
  | Ignore => "ignore"
  | Escalate => "escalate"
  | Approve => "approve"
  end.

Inductive ReconciliationStatus : Type :=
  | RsPending
  | RsRunning
  | RsCompleted
  | RsFailed
  | RsPartiallyResolved
  | RsApproved.

#[export] Instance ReconciliationStatus_eq : EqDecision ReconciliationStatus.
Proof. solve_decision. Defined.

(** [ReconciliationStatus::as_str] *)
Definition recon_status_as_str (s : ReconciliationStatus) : string :=
  match s with
  | RsPending => "pending"
  | RsRunning => "running"
  | RsCompleted => "completed"
  | RsFailed => "failed"
  | RsPartiallyResolved => "partially_resolved"
  | RsApproved => "approved"
  end.

Inductive ReconciliationError : Type :=
  | RInvalidArgument (s : string)
  | RNotFound (s : string)
  | RDatabaseError (s : string)
  | RProviderError (s : string)
  | RAlreadyRunning
  | RInvalidStatusTransition (from to : string)
  | RStoreError (s : string).

Section recon.
Context `{DecimalOps}.

Record InternalTransaction := mkInternal {
  it_transaction_id : string;
  it_reference : string;
  it_amount : Dec;
  it_currency : string;
  it_status : string;
  it_timestamp : DateTime;
  it_metadata : option json;
}.

Record ExternalTransaction := mkExternal {
  et_external_id : string;
  et_reference : string;
  et_amount : Dec;
  et_currency : string;
  et_status : string;
  et_timestamp : DateTime;
  et_metadata : option json;
}.

Record ReconciliationItem := mkItem {
  ri_item_id : Uuid;
  ri_run_id : Uuid;
  ri_transaction_id : string;
  ri_discrepancy_type : DiscrepancyType;
  ri_internal_status : string;
  ri_external_status : string;
  ri_internal_amount : Dec;
  ri_external_amount : Dec;
  ri_difference : Dec;
  ri_resolved : bool;
  ri_resolution_action : option ResolutionAction;
  ri_resolved_by : option string;
  ri_resolved_at : option DateTime;
  ri_notes : option string;
}.

Record ReconciliationRun := mkRun {
  rn_run_id : Uuid;
  rn_tenant_id : Uuid;
  rn_provider_name : string;
  rn_status : ReconciliationStatus;
  rn_period_start : DateTime;
  rn_period_end : DateTime;
  rn_total_records : Z;
  rn_matched_count : Z;
  rn_discrepancy_count : Z;
  rn_resolved_count : Z;
  rn_internal_total : Dec;
  rn_external_total : Dec;
  rn_discrepancy_amount : Dec;
  rn_started_at : option DateTime;
  rn_completed_at : option DateTime;
  rn_initiated_by : string;
  rn_approved_by : option string;
  rn_approved_at : option DateTime;
}.

Record MatchingRule := mkRule {
  mr_rule_id : Uuid;
  mr_tenant_id : Uuid;
  mr_provider_name : string;
  mr_rule_name : string;
  mr_match_fields : list string;
  mr_tolerance_amount : Dec;
  mr_tolerance_time_seconds : Z;
  mr_auto_resolve : bool;
  mr_is_active : bool;
  mr_created_at : option DateTime;
  mr_updated_at : option DateTime;
}.

(** [ReconciliationRun::new] *)
Definition new_run (run_id tenant_id : Uuid) (provider_name : string)
    (period_start period_end : DateTime) (initiated_by : string) : ReconciliationRun :=
  mkRun run_id tenant_id provider_name RsPending period_start period_end 0 0 0 0
    dec_zero dec_zero dec_zero None None initiated_by None None.

(** ** Matching *)

(** A decimal operation that panics on overflow. *)
Definition dec_op {E} (o : option Dec) : Result E Dec :=
  match o with Some d => Ok d | None => Panic end.

(** [is_match]; both conditions are evaluated before they are combined. *)
Definition is_match {E} (i : InternalTransaction) (e : ExternalTransaction) (tolerance : Dec)
    : Result E bool :=
  let ref_match := negb (is_empty (it_reference i)) && negb (is_empty (et_reference e))
                   && String.eqb (it_reference i) (et_reference e) in
  d ← dec_op (dec_sub (it_amount i) (et_amount e));
  mret (ref_match && dec_leb (dec_abs d) tolerance).

(** The inner loop: the first external transaction not yet matched that
    matches; [idx] counts the list. *)
Fixpoint find_match {E} (i : InternalTransaction) (tolerance : Dec) (idx : nat)
    (external : list ExternalTransaction) (matched : list bool)
    : Result E (option (nat * ExternalTransaction)) :=
  match external, matched with
  | e :: external', m :: matched' =>
      if (m : bool) then find_match i tolerance (S idx) external' matched'
      else
        b ← is_match i e tolerance;
        if (b : bool) then mret (Some (idx, e))
        else find_match i tolerance (S idx) external' matched'
  | _, _ => mret None
  end.

Definition mismatch_item (id run_id : Uuid) (i : InternalTransaction) (e : ExternalTransaction)
    (diff : Dec) : ReconciliationItem :=
  mkItem id run_id (it_transaction_id i) AmountMismatch (it_status i) (et_status e)
    (it_amount i) (et_amount e) diff false None None None None.

Definition missing_external_item (id run_id : Uuid) (i : InternalTransaction) : ReconciliationItem :=
  mkItem id run_id (it_transaction_id i) MissingExternal (it_status i) ""
    (it_amount i) dec_zero (it_amount i) false None None None None.

Definition missing_internal_item (id run_id : Uuid) (e : ExternalTransaction) : ReconciliationItem :=
  mkItem id run_id (et_external_id e) MissingInternal "" (et_status e)
    dec_zero (et_amount e) (et_amount e) false None None None None.

(** The outer loop over the internal transactions. *)
Fixpoint match_internal {E} (fresh : nat -> Uuid) (run_id : Uuid) (tolerance : Dec)
    (external : list ExternalTransaction) (internal : list InternalTransaction)
    (matched : list bool) (items : list ReconciliationItem)
    : Result E (list bool * list ReconciliationItem) :=
  match internal with
  | [] => mret (matched, items)
  | i :: rest =>
      found ← find_match i tolerance 0 external matched;
      match found with
      | Some (idx, e) =>
          let matched := <[idx := true]> matched in
          d ← dec_op (dec_sub (it_amount i) (et_amount e));
          let diff := dec_abs d in
          let items := if dec_gtb diff dec_zero
                       then (items ++ [mismatch_item (fresh (length items)) run_id i e diff])%list
                       else items in
          match_internal fresh run_id tolerance external rest matched items
      | None =>
          match_internal fresh run_id tolerance external rest matched
            (items ++ [missing_external_item (fresh (length items)) run_id i])%list
      end
  end.

(** The last loop: the external transactions nobody matched. *)
Fixpoint push_unmatched (fresh : nat -> Uuid) (run_id : Uuid)
    (external : list ExternalTransaction) (matched : list bool) (items : list ReconciliationItem)
    : list ReconciliationItem :=
  match external, matched with
  | e :: external', m :: matched' =>
      push_unmatched fresh run_id external' matched'
        (if (m : bool) then items
         else (items ++ [missing_internal_item (fresh (length items)) run_id e])%list)
  | _, _ => items
  end.

(** [match_transactions] *)
Definition match_transactions {E} (fresh : nat -> Uuid) (run_id : Uuid)
    (internal : list InternalTransaction) (external : list ExternalTransaction) (tolerance : Dec)
    : Result E (list ReconciliationItem) :=
  r ← match_internal fresh run_id tolerance external internal
        (replicate (length external) false) [];
  mret (push_unmatched fresh run_id external (fst r) (snd r)).

(** [iter().sum()] *)
Definition dec_sum {E} (l : list Dec) : Result E Dec :=
  fold_left (fun acc d => a ← acc; dec_op (dec_add a d)) l (Ok dec_zero).

(** ** The handler *)

Class ReconPorts (W : Type) := {
  (** [Uuid::new_v4()], the [n]-th of the current step, and [n] of them used up *)
  rp_fresh : W -> nat -> Uuid;
  rp_used : nat -> W -> W;
  rp_now : M W ReconciliationError DateTime;
  fetch_internal_transactions : Uuid -> string -> DateTime -> DateTime ->
    M W ReconciliationError (list InternalTransaction);
  fetch_external_transactions : string -> DateTime -> DateTime ->
    M W ReconciliationError (list ExternalTransaction);
  save_run : ReconciliationRun -> M W ReconciliationError unit;
  get_run : Uuid -> Uuid -> M W ReconciliationError ReconciliationRun;
  list_runs : Uuid -> option string -> list ReconciliationStatus -> DateTime -> DateTime ->
    M W ReconciliationError (list ReconciliationRun);
  save_item : ReconciliationItem -> M W ReconciliationError unit;
  get_items : Uuid -> Uuid -> list DiscrepancyType -> bool ->
    M W ReconciliationError (list ReconciliationItem);
  get_item : Uuid -> Uuid -> M W ReconciliationError ReconciliationItem;
  update_item_resolution : Uuid -> ResolutionAction -> string -> string ->
    M W ReconciliationError unit;
  get_matching_rule : Uuid -> Uuid -> M W ReconciliationError MatchingRule;
  list_matching_rules : Uuid -> option string -> M W ReconciliationError (list MatchingRule);
}.

Context {W : Type} `{!ReconPorts W}.

Definition rp_new_v4 : M W ReconciliationError Uuid := fun w => (Ok (rp_fresh w 0), rp_used 1 w).

Definition count_i32 {A} (l : list A) : Z := as_i32 (Z.of_nat (length l)).

(** The run after the transactions were matched. *)
Definition tally (run : ReconciliationRun) (internal : list InternalTransaction)
    (external : list ExternalTransaction) (items : list ReconciliationItem)
    (internal_total external_total discrepancy_amount : Dec) : ReconciliationRun :=
  mkRun (rn_run_id run) (rn_tenant_id run) (rn_provider_name run) (rn_status run)
    (rn_period_start run) (rn_period_end run)
    (as_i32 (Z.of_nat (length internal + length external)))
    (count_i32 (List.filter ri_resolved items))
    (count_i32 (List.filter (fun i => negb (ri_resolved i)) items))
    (rn_resolved_count run) internal_total external_total discrepancy_amount
    (rn_started_at run) (rn_completed_at run) (rn_initiated_by run) (rn_approved_by run)
    (rn_approved_at run).

(** [run.status = ..; run.started_at = ..; run.completed_at = ..] *)
Definition set_status (run : ReconciliationRun) (s : ReconciliationStatus)
    (started completed : option DateTime) : ReconciliationRun :=
  mkRun (rn_run_id run) (rn_tenant_id run) (rn_provider_name run) s
    (rn_period_start run) (rn_period_end run) (rn_total_records run) (rn_matched_count run)
    (rn_discrepancy_count run) (rn_resolved_count run) (rn_internal_total run)
    (rn_external_total run) (rn_discrepancy_amount run) started completed
    (rn_initiated_by run) (rn_approved_by run) (rn_approved_at run).

(** The part of [start_reconciliation] after both lists were fetched. *)
Definition reconcile (run : ReconciliationRun) (internal : list InternalTransaction)
    (external : list ExternalTransaction) (tolerance : Dec)
    : M W ReconciliationError ReconciliationRun :=
  internal_total ← lift (dec_sum (map it_amount internal));
  external_total ← lift (dec_sum (map et_amount external));
  fresh ← gets rp_fresh;
  items ← lift (match_transactions fresh (rn_run_id run) internal external tolerance);
  modify (rp_used (length items)) ;;
  discrepancy_amount ← lift (dec_sum (map (fun i => dec_abs (ri_difference i)) items));
  let run := tally run internal external items internal_total external_total discrepancy_amount in
  forM items save_item ;;
  let status := if (0 <? rn_discrepancy_count run)%Z then RsPartiallyResolved else RsCompleted in
  now ← rp_now;
  let run := set_status run status (rn_started_at run) (Some now) in
  save_run run ;;
  mret run.

(** [start_reconciliation] *)
Definition start_reconciliation (tenant_id : Uuid) (provider_name : string)
    (period_start period_end : DateTime) (initiated_by : string) (tolerance : Dec)
    : M W ReconciliationError ReconciliationRun :=
  run_id ← rp_new_v4;
  started ← rp_now;
  let run := set_status (new_run run_id tenant_id provider_name period_start period_end
                           initiated_by) RsRunning (Some started) None in
  save_run run ;;
  internal ← attempt (fetch_internal_transactions tenant_id provider_name period_start period_end);
  external ← attempt (fetch_external_transactions provider_name period_start period_end);
  match internal, external with
  | Ok i, Ok e => reconcile run i e tolerance
  | Err x, _ | _, Err x =>
      failed ← rp_now;
      let run := set_status run RsFailed (rn_started_at run) (Some failed) in
      save_run run ;;
      throw x
  | _, _ => lift Panic
  end.

(** [resolve_discrepancy] *)
Definition resolve_discrepancy (item_id _run_id tenant_id : Uuid) (action : ResolutionAction)
    (notes resolved_by : string) : M W ReconciliationError ReconciliationItem :=
  update_item_resolution item_id action notes resolved_by ;;
  get_item item_id tenant_id.

(** The loop of [bulk_resolve_discrepancies]. *)
Fixpoint bulk_loop (item_ids : list Uuid) (action : ResolutionAction) (notes resolved_by : string)
    (count : Z) : M W ReconciliationError Z :=
  match item_ids with
  | [] => mret count
  | id :: rest =>
      r ← attempt (update_item_resolution id action notes resolved_by);
      bulk_loop rest action notes resolved_by
        (match r with Ok _ => count + 1 | _ => count end)%Z
  end.

(** [bulk_resolve_discrepancies] *)
Definition bulk_resolve_discrepancies (_run_id _tenant_id : Uuid) (item_ids : list Uuid)
    (action : ResolutionAction) (notes resolved_by : string) : M W ReconciliationError Z :=
  bulk_loop item_ids action notes resolved_by 0.

(** [generate_report] *)
Definition generate_report `{UuidOps} (run_id tenant_id : Uuid) (format : string)
    : M W ReconciliationError (Uuid * string) :=
  run ← get_run run_id tenant_id;
  report_id ← rp_new_v4;
  mret (report_id, "/reports/" +:+ uuid_to_string report_id +:+ "/reconciliation-"
          +:+ uuid_to_string (rn_run_id run) +:+ "." +:+ to_lowercase format +:+ "?tenant="
          +:+ uuid_to_string tenant_id).

(** The methods that hand a query to the store *)
Definition get_reconciliation_run (run_id tenant_id : Uuid) : M W ReconciliationError ReconciliationRun :=
  get_run run_id tenant_id.

Definition list_reconciliation_runs (tenant_id : Uuid) (provider_name : option string)
    (statuses : list ReconciliationStatus) (from to : DateTime)
    : M W ReconciliationError (list ReconciliationRun) :=
  list_runs tenant_id provider_name statuses from to.

Definition get_reconciliation_items (run_id tenant_id : Uuid) (discrepancy_types : list DiscrepancyType)
    (unresolved_only : bool) : M W ReconciliationError (list ReconciliationItem) :=
  get_items run_id tenant_id discrepancy_types unresolved_only.

Definition handler_get_matching_rule (rule_id tenant_id : Uuid) : M W ReconciliationError MatchingRule :=
  get_matching_rule rule_id tenant_id.

Definition handler_list_matching_rules (tenant_id : Uuid) (provider_name : option string)
    : M W ReconciliationError (list MatchingRule) :=
  list_matching_rules tenant_id provider_name.

End recon.

Arguments InternalTransaction {_}.
Arguments ExternalTransaction {_}.
Arguments ReconciliationItem {_}.
Arguments ReconciliationRun {_}.
Arguments MatchingRule {_}.

(** ** Lemmas on matching *)

Section matching.
Context `{DecimalOps} `{!DecimalLaws}.

(** Amounts whose difference is exact. *)
Definition sane (d : Dec) (cents : Z) : Prop := money d cents /\ (Z.abs cents < 10 ^ 26)%Z.

Definition amounts_sane (internal : list InternalTransaction) (external : list ExternalTransaction) : Prop :=
  (forall i, i ∈ internal -> exists c, sane (it_amount i) c)
  /\ (forall e, e ∈ external -> exists c, sane (et_amount e) c).

(** The condition of a match, on the references and the hundredths. *)
Definition refs_match (i : InternalTransaction) (e : ExternalTransaction) : bool :=
  negb (is_empty (it_reference i)) && negb (is_empty (et_reference e))
  && String.eqb (it_reference i) (et_reference e).

Lemma sub_exact a b x y : sane a x -> sane b y ->
  exists d, dec_sub a b = Some d /\ money d (x - y).
Proof. intros [Ha Hx] [Hb Hy]. by apply money_sub. Qed.

Lemma is_match_exact {E} i e tol x y t : sane (it_amount i) x -> sane (et_amount e) y -> money tol t ->
  is_match (E := E) i e tol = Ok (refs_match i e && (Z.abs (x - y) <=? t)%Z).
Proof.
  intros Hx Hy Ht. unfold is_match, dec_op. destruct (sub_exact _ _ _ _ Hx Hy) as (d & -> & Hd).
  simpl. by rewrite (money_leb _ _ _ _ (money_abs _ _ Hd) Ht).
Qed.

Lemma is_match_ok {E} i e tol x y : sane (it_amount i) x -> sane (et_amount e) y ->
  exists b, is_match (E := E) i e tol = Ok b /\ (b = true -> refs_match i e = true).
Proof.
  intros Hx Hy. unfold is_match, dec_op. destruct (sub_exact _ _ _ _ Hx Hy) as (d & -> & Hd).
  eexists. split; [done|]. fold (refs_match i e). by intros [? _]%andb_true_iff.
Qed.

(** The inner loop always returns; what it finds is unmatched and matches, and
    when it finds nothing no unmatched transaction matches. *)
Lemma find_match_spec {E} i tol external : (exists c, sane (it_amount i) c) ->
  (forall e, e ∈ external -> exists c, sane (et_amount e) c) ->
  forall idx matched, exists r, find_match (E := E) i tol idx external matched = Ok r /\
  match r with
  | Some (k, e) => exists j, k = idx + j /\ external !! j = Some e /\ matched !! j = Some false
      /\ is_match (E := E) i e tol = Ok true
  | None => forall j e, external !! j = Some e -> matched !! j = Some false ->
      is_match (E := E) i e tol = Ok false
  end.
Proof.
  intros [x Hx]. induction external as [|e external IH]; intros Hs idx matched.
  - exists None. by destruct matched.
  - destruct matched as [|m matched]; [by exists None|].
    destruct (IH (fun e' He => Hs e' (list_elem_of_further _ _ _ He)) (S idx) matched) as (r & Hr & Hspec).
    assert (forall o, match o with
        | Some (k, e') => exists j, k = S idx + j /\ external !! j = Some e' /\ matched !! j = Some false
            /\ is_match (E := E) i e' tol = Ok true
        | None => True end -> match o with
        | Some (k, e') => exists j, k = idx + j /\ (e :: external) !! j = Some e'
            /\ (m :: matched) !! j = Some false /\ is_match (E := E) i e' tol = Ok true
        | None => True end) as Hshift.
    { intros [[k e']|]; [|done]. intros (j & -> & ? & ? & ?). exists (S j). split; [lia | done]. }
    cbn [find_match]. destruct m.
    + exists r. split; [done|]. destruct r as [[k e']|]; [by apply (Hshift (Some (k, e')))|].
      intros [|j] e' He Hm; [done|]. by apply (Hspec j).
    + destruct (Hs e (list_elem_of_here _ _)) as [y Hy].
      destruct (is_match_ok (E := E) i e tol x y Hx Hy) as (b & Hb & _). rewrite Hb. simpl. destruct b.
      * exists (Some (idx, e)). split; [done|]. exists 0. split; [lia | done].
      * exists r. split; [done|]. destruct r as [[k e']|]; [by apply (Hshift (Some (k, e')))|].
        intros [|j] e' He Hm; [by simplify_eq/=|]. by apply (Hspec j).
Qed.

Definition of_type (t : DiscrepancyType) (items : list ReconciliationItem) : nat :=
  length (List.filter (fun i => bool_decide (ri_discrepancy_type i = t)) items).

Definition trues (l : list bool) : nat := length (List.filter id l).

Lemma of_type_app t a b : of_type t (a ++ b) = of_type t a + of_type t b.
Proof. unfold of_type. by rewrite List.filter_app, length_app. Qed.

Lemma trues_insert l i : l !! i = Some false -> trues (<[i := true]> l) = S (trues l).
Proof.
  revert i. induction l as [|b l IH]; intros [|i] Hi; simplify_eq/=; [done|].
  unfold trues in *. simpl. destruct b; simpl; by rewrite IH.
Qed.

Lemma trues_false n : trues (replicate n false) = 0.
Proof. by induction n. Qed.

(** What the outer loop adds: one item per unmatched internal transaction, at
    most one for a matched one, none resolved. *)
Lemma match_internal_count {E} fresh run tol external internal :
  amounts_sane internal external -> forall matched items,
  exists matched' new,
    match_internal (E := E) fresh run tol external internal matched items
      = Ok (matched', items ++ new)%list
    /\ Forall (fun it => ri_resolved it = false) new
    /\ length matched' = length matched
    /\ trues matched' + of_type MissingExternal new = trues matched + length internal
    /\ of_type MissingInternal new = 0
    /\ of_type MissingExternal new + of_type AmountMismatch new = length new
    /\ length new <= length internal.
Proof.
  intros [Hi He]. induction internal as [|i internal IH]; intros matched items.
  { exists matched, []. rewrite app_nil_r. split_and!; try done; simpl; lia. }
  destruct (find_match_spec (E := E) i tol external (Hi i (list_elem_of_here _ _)) He 0 matched)
    as (r & Hr & Hspec).
  specialize (IH (fun i' Hi' => Hi i' (list_elem_of_further _ _ _ Hi'))).
  cbn [match_internal]. rewrite Hr. cbn [mbind Result_bind]. destruct r as [[k e]|].
  - destruct Hspec as (j & -> & Hj & Hm & _). cbn [Nat.add].
    destruct (Hi i (list_elem_of_here _ _)) as [x Hx].
    destruct (He e (list_elem_of_lookup_2 _ _ _ Hj)) as [y Hy].
    destruct (sub_exact _ _ _ _ Hx Hy) as (d & Hd & _). rewrite Hd. cbn [dec_op mbind Result_bind].
    pose proof (trues_insert _ _ Hm) as Ht.
    destruct (dec_gtb (dec_abs d) dec_zero).
    + destruct (IH (<[j := true]> matched) (items ++ [mismatch_item (fresh (length items)) run i e (dec_abs d)])%list)
        as (m' & new & E1 & E2 & E3 & E4 & E5 & E6 & E7).
      exists m', (mismatch_item (fresh (length items)) run i e (dec_abs d) :: new).
      rewrite E1, <- app_assoc, E3, length_insert. unfold of_type in *. simpl in *.
      split_and!; try done; try lia. by constructor.
    + destruct (IH (<[j := true]> matched) items) as (m' & new & E1 & E2 & E3 & E4 & E5 & E6 & E7).
      exists m', new. rewrite E1, E3, length_insert. simpl. split_and!; try done; lia.
  - destruct (IH matched (items ++ [missing_external_item (fresh (length items)) run i])%list)
      as (m' & new & E1 & E2 & E3 & E4 & E5 & E6 & E7).
    exists m', (missing_external_item (fresh (length items)) run i :: new).
    rewrite E1, <- app_assoc, E3. unfold of_type in *. simpl in *.
    split_and!; try done; try lia. by constructor.
Qed.

Lemma push_unmatched_count fresh run external : forall matched items,
  length matched = length external ->
  exists new, push_unmatched fresh run external matched items = (items ++ new)%list
    /\ Forall (fun it => ri_resolved it = false) new
    /\ length new + trues matched = length external
    /\ of_type MissingInternal new = length new
    /\ of_type MissingExternal new = 0 /\ of_type AmountMismatch new = 0.
Proof.
  induction external as [|e external IH]; intros [|m matched] items Hl; simplify_eq/=.
  { exists []. by rewrite app_nil_r. }
  destruct m.
  - destruct (IH matched items Hl) as (new & E1 & E2 & E3 & E4 & E5).
    exists new. unfold trues in *. simpl. split_and!; try done; lia.
  - destruct (IH matched (items ++ [missing_internal_item (fresh (length items)) run e])%list Hl)
      as (new & E1 & E2 & E3 & E4 & E5 & E6).
    exists (missing_internal_item (fresh (length items)) run e :: new).
    rewrite E1, <- app_assoc. unfold of_type, trues in *. simpl in *.
    split_and!; try done; try lia. by constructor.
Qed.

(** The tally of a whole matching. *)
Lemma match_transactions_count {E} fresh run internal external tol :
  amounts_sane internal external ->
  exists items pairs, match_transactions (E := E) fresh run internal external tol = Ok items
    /\ pairs <= length internal /\ pairs <= length external
    /\ of_type MissingExternal items = length internal - pairs
    /\ of_type MissingInternal items = length external - pairs
    /\ of_type AmountMismatch items <= pairs
    /\ length items = of_type MissingExternal items + of_type MissingInternal items
                      + of_type AmountMismatch items
    /\ Forall (fun it => ri_resolved it = false) items.
Proof.
  intros Hs. unfold match_transactions.
  destruct (match_internal_count (E := E) fresh run tol external internal Hs
              (replicate (length external) false) []) as (m & new & -> & F1 & L1 & T1 & I1 & S1 & B1).
  rewrite length_replicate in L1. rewrite trues_false in T1. cbn [mbind Result_bind app fst snd].
  destruct (push_unmatched_count fresh run external m new L1) as (new' & -> & F2 & T2 & I2 & X2 & A2).
  exists (new ++ new')%list, (trues m). rewrite !of_type_app, length_app.
  split_and!; try lia; [done|]. by apply Forall_app.
Qed.

(** *** Statements that agree *)

Lemma refs_match_eq i e : refs_match i e = true ->
  it_reference i = et_reference e /\ is_empty (it_reference i) = false.
Proof.
  unfold refs_match. rewrite !andb_true_iff, !negb_true_iff, String.eqb_eq. tauto.
Qed.

(** Both sides list the same transactions: unique non-empty references, and
    every internal one has an external one of the same reference and amount. *)
Definition agree (internal : list InternalTransaction) (external : list ExternalTransaction) : Prop :=
  NoDup (map it_reference internal) /\ NoDup (map et_reference external)
  /\ forall i, i ∈ internal -> is_empty (it_reference i) = false
     /\ exists e c, e ∈ external /\ et_reference e = it_reference i
        /\ sane (it_amount i) c /\ sane (et_amount e) c.

(** Only transactions with a reference in [seen] are matched so far. *)
Definition matched_within (external : list ExternalTransaction) (matched : list bool)
    (seen : list string) : Prop :=
  length matched = length external
  /\ forall j e, external !! j = Some e -> matched !! j = Some true -> et_reference e ∈ seen.

Lemma same_reference (external : list ExternalTransaction) j k e e' :
  NoDup (map et_reference external) ->
  external !! j = Some e -> external !! k = Some e' -> et_reference e = et_reference e' -> j = k /\ e = e'.
Proof.
  intros Hn Hj Hk Er.
  assert (j = k) as ->; [|by simplify_eq].
  apply (NoDup_lookup _ j k (et_reference e) Hn); rewrite list_lookup_fmap.
  - by rewrite Hj.
  - by rewrite Hk, Er.
Qed.

(** An internal transaction that agrees is paired with its counterpart. *)
Lemma find_agreeing {E} i e c tol t external matched seen :
  (forall e, e ∈ external -> exists c, sane (et_amount e) c) ->
  NoDup (map et_reference external) -> matched_within external matched seen ->
  it_reference i ∉ seen -> is_empty (it_reference i) = false -> money tol t -> (0 <= t)%Z ->
  e ∈ external -> et_reference e = it_reference i -> sane (it_amount i) c -> sane (et_amount e) c ->
  exists k, find_match (E := E) i tol 0 external matched = Ok (Some (k, e)) /\ external !! k = Some e.
Proof.
  intros Hs Hn [Hl Hm] Hseen Hne Ht Ht0 He Er Hi Hc.
  apply list_elem_of_lookup in He as [k Hk].
  assert (matched !! k = Some false) as Hmk.
  { destruct (lookup_lt_is_Some_2 matched k) as [[] Hb]; [|exfalso|done].
    - rewrite Hl. by apply lookup_lt_Some in Hk.
    - apply Hseen. rewrite <- Er. by apply (Hm k e). }
  assert (is_match (E := E) i e tol = Ok true) as Hmatch.
  { rewrite (is_match_exact i e tol c c t) by done.
    unfold refs_match. rewrite Er, Hne, String.eqb_refl, Z.sub_diag.
    by rewrite (proj2 (Z.leb_le _ _)) by (simpl; lia). }
  destruct (find_match_spec (E := E) i tol external (ex_intro _ c Hi) Hs 0 matched) as (r & Hr & Hspec).
  destruct r as [[k' e']|].
  - destruct Hspec as (j & -> & Hj & _ & Hb). cbn [Nat.add] in Hr. exists j. rewrite Hr.
    destruct (Hs e' (list_elem_of_lookup_2 _ _ _ Hj)) as [y Hy].
    destruct (is_match_ok (E := E) i e' tol c y Hi Hy) as (b & Hb' & Hb'').
    rewrite Hb in Hb'. injection Hb' as <-. destruct (refs_match_eq _ _ (Hb'' eq_refl)) as [Er' _].
    destruct (same_reference external j k e' e Hn Hj Hk) as [-> ->]; [congruence|]. done.
  - rewrite (Hspec k e Hk Hmk) in Hmatch. done.
Qed.

Lemma match_internal_agree {E} fresh run tol t external : money tol t -> (0 <= t)%Z ->
  (forall e, e ∈ external -> exists c, sane (et_amount e) c) ->
  forall internal matched seen items, agree internal external ->
  matched_within external matched seen -> (forall i, i ∈ internal -> it_reference i ∉ seen) ->
  exists matched', match_internal (E := E) fresh run tol external internal matched items
    = Ok (matched', items).
Proof.
  intros Ht Ht0 Hs. induction internal as [|i internal IH]; intros matched seen items Hag Hw Hns.
  { by exists matched. }
  destruct Hag as (Hni & Hne & Hall).
  destruct (Hall i (list_elem_of_here _ _)) as (Hemp & e & c & He & Er & Hi & Hc).
  cbn [map] in Hni. apply NoDup_cons in Hni as [Hnotin Hni].
  destruct (find_agreeing (E := E) i e c tol t external matched seen) as (k & Hk & Hke); try done.
  { apply Hns, list_elem_of_here. }
  cbn [match_internal]. rewrite Hk. cbn [mbind Result_bind].
  destruct (sub_exact _ _ _ _ Hi Hc) as (d & Hd & Hd0). rewrite Hd. cbn [dec_op mbind Result_bind].
  rewrite Z.sub_diag in Hd0. unfold dec_gtb.
  rewrite (money_leb _ _ _ _ (money_abs _ _ Hd0) money_zero). cbn [Z.abs Z.leb Z.compare negb].
  apply (IH _ (it_reference i :: seen)).
  - split_and!; [done | done |]. intros i' Hi'. apply Hall. by right.
  - destruct Hw as [Hl Hm]. split; [by rewrite length_insert|]. intros j e' Hj Hb.
    destruct (decide (j = k)) as [->|]; [simplify_eq; rewrite Er; by left|].
    rewrite list_lookup_insert_ne in Hb by done. right. by apply (Hm j).
  - intros i' Hi' [E1|Hin]%elem_of_cons; [|by apply (Hns i'); [right|]].
    apply Hnotin. rewrite <- E1. by apply (list_elem_of_fmap_2 it_reference).
Qed.

Lemma match_agree {E} fresh run tol t internal external :
  money tol t -> (0 <= t)%Z -> agree internal external -> length internal = length external ->
  amounts_sane internal external ->
  match_transactions (E := E) fresh run internal external tol = Ok [].
Proof.
  intros Ht Ht0 Hag Hlen Hs.
  destruct (match_transactions_count (E := E) fresh run internal external tol Hs)
    as (items & pairs & Hr & _ & Hp & Hx & Hi & Ha & Hl & _).
  rewrite Hr. f_equal. apply length_zero_iff_nil.
  unfold match_transactions in Hr.
  destruct (match_internal_agree (E := E) fresh run tol t external Ht Ht0 (proj2 Hs) internal
              (replicate (length external) false) [] []) as (m & Hm).
  - done.
  - split; [by rewrite length_replicate|]. intros j e _ Hb.
    apply lookup_replicate in Hb as [? _]. done.
  - intros i _. apply not_elem_of_nil.
  - destruct (match_internal_count (E := E) fresh run tol external internal Hs
                (replicate (length external) false) []) as (m' & new & Hm' & _ & L & T & _ & _ & _).
    rewrite Hm in Hm', Hr. injection Hm' as -> <-. rewrite trues_false, length_replicate in *.
    cbn [mbind Result_bind fst snd] in Hr.
    destruct (push_unmatched_count fresh run external m' [] L) as (new' & E' & _ & T2 & _).
    rewrite E' in Hr. injection Hr as <-. simpl in *. unfold of_type in T. simpl in T. lia.
Qed.

End matching.
