(* ===== verification/Matching.v ===== *)
(** * What a reconciliation matches

    The loops of [match_transactions] ([reconciliation-engine/src/application/
    handler.rs]) against a declarative description: the step relation
    [assigned] says which external transaction each internal one is paired
    with, and the items reported are a function of that assignment. *)

From Stdlib Require Import ZArith Lia.
From stdpp Require Import base list strings numbers sorting.
From S2P Require Import Prelude RustStr External Reference Recon.

Local Open Scope string_scope.

Section greedy.
Context `{DecimalOps} `{!DecimalLaws}.
Variables (external : list ExternalTransaction) (tolerance : Dec).

Definition matches (i : InternalTransaction) (e : ExternalTransaction) (b : bool) : Prop :=
  is_match (E := ReconciliationError) i e tolerance = Ok b.

(** [assigned m internal asg m']: starting with the flags [m], the internal
    transactions get the partners [asg] and leave the flags [m']. *)
Inductive assigned : list bool -> list InternalTransaction -> list (option nat) -> list bool -> Prop :=
  | assigned_nil m : assigned m [] [] m
  | assigned_hit m i rest asg j e m' :
      external !! j = Some e -> m !! j = Some false -> matches i e true ->
      assigned (<[j := true]> m) rest asg m' ->
      assigned m (i :: rest) (Some j :: asg) m'
  | assigned_miss m i rest asg m' :
      (forall j e, external !! j = Some e -> m !! j = Some false -> matches i e false) ->
      assigned m rest asg m' ->
      assigned m (i :: rest) (None :: asg) m'.

(** The external transactions that have a partner. *)
Definition used (asg : list (option nat)) : list nat := omap id asg.

Lemma assigned_length m internal asg m' :
  assigned m internal asg m' -> length asg = length internal /\ length m' = length m.
Proof.
  induction 1 as [|m i rest asg j e m' _ _ _ _ [IH1 IH2]|m i rest asg m' _ _ [IH1 IH2]];
    simpl; rewrite ?IH1, ?IH2, ?length_insert; done.
Qed.

(** A flag is set at the end when it was set before or its transaction got a
    partner. *)
Lemma assigned_flags m internal asg m' : assigned m internal asg m' ->
  forall j, j < length m -> (m' !! j = Some true <-> m !! j = Some true \/ j ∈ used asg).
Proof.
  induction 1 as [|m i rest asg k e m' _ Hm _ _ IH|m i rest asg m' _ _ IH]; intros j Hj.
  - unfold used. simpl. rewrite elem_of_nil. tauto.
  - rewrite IH by (by rewrite length_insert). unfold used. simpl. rewrite elem_of_cons.
    destruct (decide (j = k)) as [->|Hne].
    + rewrite list_lookup_insert_eq by done. tauto.
    + rewrite list_lookup_insert_ne by done. tauto.
  - by apply IH.
Qed.

Lemma assigned_fresh m internal asg m' : assigned m internal asg m' ->
  NoDup (used asg) /\ forall j, j ∈ used asg -> m !! j = Some false /\ j < length external.
Proof.
  induction 1 as [|m i rest asg k e m' He Hm _ _ [IH1 IH2]|m i rest asg m' _ _ IH].
  - split; [constructor|]. intros j Hj. by apply not_elem_of_nil in Hj.
  - unfold used in *. simpl. split.
    + apply NoDup_cons. split; [|done]. intros [Hk _]%IH2.
      rewrite list_lookup_insert_eq in Hk by (by eapply lookup_lt_Some). done.
    + intros j [->|Hj]%elem_of_cons; [split; [done | by eapply lookup_lt_Some]|].
      destruct (IH2 j Hj) as [Hf Hl]. split; [|done].
      destruct (decide (j = k)) as [->|]; [done|]. by rewrite list_lookup_insert_ne in Hf.
  - done.
Qed.

(** Partners match. *)
Lemma assigned_sound m internal asg m' : assigned m internal asg m' ->
  forall k i j, internal !! k = Some i -> asg !! k = Some (Some j) ->
  exists e, external !! j = Some e /\ matches i e true.
Proof.
  induction 1 as [|m i rest asg j e m' He _ Hi _ IH|m i rest asg m' _ _ IH]; intros [|k] i' j' Hk Ha;
    simplify_eq/=; eauto.
Qed.

(** A transaction without a partner matches none that stayed free. *)
Lemma assigned_maximal m internal asg m' : assigned m internal asg m' ->
  forall k i j e, internal !! k = Some i -> asg !! k = Some None ->
  external !! j = Some e -> m' !! j = Some false -> matches i e false.
Proof.
  intros Hasg. induction Hasg as [|m i rest asg j e m' He Hm Hi _ IH|m i rest asg m' Hno Hrest IH];
    intros [|k] i' j' e' Hk Ha He' Hf; simplify_eq/=; eauto.
  apply (Hno j' e' He').
  pose proof (assigned_flags _ _ _ _ Hrest j') as Hfl.
  destruct (assigned_length _ _ _ _ Hrest) as [_ Hlen].
  assert (j' < length m) as Hj by (rewrite <- Hlen; by eapply lookup_lt_Some).
  destruct (lookup_lt_is_Some_2 m j' Hj) as [[] Hb]; [|done].
  apply Hfl in Hj as [_ Hj]. rewrite Hj in Hf by (by left). done.
Qed.

(** ** The items as a function of the assignment *)

Variables (fresh : nat -> Uuid) (run : Uuid).

(** What is reported for an internal transaction and its partner; the
    identifier of the item is still to come. *)
Definition report (i : InternalTransaction) (partner : option nat)
    : list (Uuid -> ReconciliationItem) :=
  match partner with
  | None => [fun id => missing_external_item id run i]
  | Some j =>
      match external !! j with
      | Some e =>
          match dec_sub (it_amount i) (et_amount e) with
          | Some d => if dec_gtb (dec_abs d) dec_zero
                      then [fun id => mismatch_item id run i e (dec_abs d)] else []
          | None => []
          end
      | None => []
      end
  end.

Definition report_free (e : ExternalTransaction) (matched : bool) : list (Uuid -> ReconciliationItem) :=
  if matched then [] else [fun id => missing_internal_item id run e].

(** The [n]-th item gets the [n]-th identifier. *)
Fixpoint numbered (n : nat) (l : list (Uuid -> ReconciliationItem)) : list ReconciliationItem :=
  match l with
  | [] => []
  | mk :: l' => mk (fresh n) :: numbered (S n) l'
  end.

Lemma numbered_app n a b : numbered n (a ++ b) = (numbered n a ++ numbered (n + length a) b)%list.
Proof.
  revert n. induction a as [|x a IH]; intros n; simpl; [by rewrite Nat.add_0_r|].
  by rewrite IH, Nat.add_succ_r.
Qed.

Lemma numbered_length n l : length (numbered n l) = length l.
Proof. revert n. induction l as [|x l IH]; intros n; simpl; [done|]. by rewrite IH. Qed.

Lemma push_numbered (items : list ReconciliationItem) mk l :
  ((items ++ [mk (fresh (length items))]) ++ numbered (length (items ++ [mk (fresh (length items))])) l
   = items ++ numbered (length items) (mk :: l))%list.
Proof. rewrite <- app_assoc, length_app, Nat.add_comm. done. Qed.

Lemma match_internal_assigned internal : amounts_sane internal external ->
  forall matched items, exists asg matched',
    match_internal (E := ReconciliationError) fresh run tolerance external internal matched items
      = Ok (matched', items ++ numbered (length items) (concat (zip_with report internal asg)))%list
    /\ assigned matched internal asg matched'.
Proof.
  intros [Hi He]. induction internal as [|i internal IH]; intros matched items.
  { exists [], matched. simpl. rewrite app_nil_r. split; [done | constructor]. }
  destruct (find_match_spec (E := ReconciliationError) i tolerance external
              (Hi i (list_elem_of_here _ _)) He 0 matched) as (r & Hr & Hspec).
  specialize (IH (fun i' Hi' => Hi i' (list_elem_of_further _ _ _ Hi'))).
  cbn [match_internal]. rewrite Hr. cbn [mbind Result_bind]. destruct r as [[k e]|].
  - destruct Hspec as (j & -> & Hj & Hm & Hb). cbn [Nat.add].
    destruct (Hi i (list_elem_of_here _ _)) as [x Hx].
    destruct (He e (list_elem_of_lookup_2 _ _ _ Hj)) as [y Hy].
    destruct (sub_exact _ _ _ _ Hx Hy) as (d & Hd & _). rewrite Hd. cbn [dec_op mbind Result_bind].
    edestruct (IH (<[j := true]> matched)) as (asg & m' & E1 & E2).
    exists (Some j :: asg), m'. split; [|by eapply assigned_hit]. rewrite E1.
    cbn [zip_with concat report]. rewrite Hj, Hd. destruct (dec_gtb _ _); [|done].
    cbn [app]. by rewrite (push_numbered items (fun id => mismatch_item id run i e (dec_abs d))).
  - edestruct (IH matched) as (asg & m' & E1 & E2).
    exists (None :: asg), m'. split; [|by apply assigned_miss]. rewrite E1.
    cbn [zip_with concat report app].
    by rewrite (push_numbered items (fun id => missing_external_item id run i)).
Qed.

Lemma push_unmatched_report ext : forall matched items,
  push_unmatched fresh run ext matched items
  = (items ++ numbered (length items) (concat (zip_with report_free ext matched)))%list.
Proof.
  induction ext as [|e ext IH]; intros [|m matched] items; simpl; try by rewrite app_nil_r.
  rewrite IH. destruct m; [done|]. cbn [report_free app].
  by rewrite (push_numbered items (fun id => missing_internal_item id run e)).
Qed.

(** The flags at the end, from the assignment. *)
Definition flags (asg : list (option nat)) : list bool :=
  map (fun j => bool_decide (j ∈ used asg)) (seq 0 (length external)).

Lemma assigned_all internal asg m' :
  assigned (replicate (length external) false) internal asg m' -> m' = flags asg.
Proof.
  intros Ha. destruct (assigned_length _ _ _ _ Ha) as [_ Hl]. rewrite length_replicate in Hl.
  apply list_eq. intros j. unfold flags. rewrite list_lookup_fmap.
  destruct (decide (j < length external)) as [Hj|Hj].
  - rewrite lookup_seq_lt by done. simpl.
    pose proof (assigned_flags _ _ _ _ Ha j) as Hf. rewrite length_replicate in Hf.
    specialize (Hf Hj). rewrite lookup_replicate_2 in Hf by done.
    destruct (lookup_lt_is_Some_2 m' j) as [b Hb]; [by rewrite Hl|]. rewrite Hb in *. f_equal.
    destruct b; case_bool_decide as Hin; try done.
    + by destruct (proj1 Hf eq_refl).
    + by pose proof (proj2 Hf (or_intror Hin)).
  - rewrite lookup_ge_None_2 by lia. rewrite lookup_seq_ge by lia. done.
Qed.

Lemma flags_free asg j e : external !! j = Some e -> j ∉ used asg -> flags asg !! j = Some false.
Proof.
  intros He Hn. unfold flags. rewrite list_lookup_fmap, lookup_seq_lt by (by eapply lookup_lt_Some).
  simpl. by rewrite bool_decide_eq_false_2.
Qed.

(** The items of a matching, given the assignment. *)
Definition expected_items (internal : list InternalTransaction) (asg : list (option nat))
    : list ReconciliationItem :=
  numbered 0 (concat (zip_with report internal asg)
              ++ concat (zip_with report_free external (flags asg))).

Lemma match_transactions_expected internal : amounts_sane internal external ->
  exists asg,
    assigned (replicate (length external) false) internal asg (flags asg)
    /\ match_transactions (E := ReconciliationError) fresh run internal external tolerance
       = Ok (expected_items internal asg).
Proof.
  intros Hs. unfold match_transactions.
  destruct (match_internal_assigned internal Hs (replicate (length external) false) [])
    as (asg & m' & -> & Ha).
  cbn [mbind Result_bind fst snd app]. rewrite push_unmatched_report.
  pose proof (assigned_all _ _ _ Ha) as ->. exists asg. split; [done|].
  unfold expected_items. by rewrite numbered_app, numbered_length.
Qed.

End greedy.

(** ** Totals *)

Section totals.
Context `{DecimalOps} `{!DecimalLaws}.

(** [t] has [amount] exactly [c] hundredths, at most [B] of them. *)
Definition priced {T} (amount : T -> Dec) (B : Z) (t : T) (c : Z) : Prop :=
  money (amount t) c /\ (Z.abs c <= B)%Z.

Definition total (cs : list Z) : Z := foldr Z.add 0%Z cs.

Lemma total_bound {T} (amount : T -> Dec) B l cs : Forall2 (priced amount B) l cs ->
  (Z.abs (total cs) <= B * Z.of_nat (length l))%Z.
Proof.
  induction 1 as [|t c l cs [_ Hc] _ IH]; [simpl; lia|].
  cbn [total foldr length]. change (foldr Z.add 0%Z cs) with (total cs). lia.
Qed.

(** The sum of amounts is exact. *)
Lemma dec_sum_exact {E T} (amount : T -> Dec) B l cs : (0 <= B)%Z ->
  Forall2 (priced amount B) l cs -> (B * Z.of_nat (length l) < 10 ^ 26)%Z ->
  exists d, dec_sum (E := E) (map amount l) = Ok d /\ money d (total cs).
Proof.
  intros HB Hl. unfold dec_sum.
  enough (forall acc a, money acc a -> (Z.abs a + B * Z.of_nat (length l) < 10 ^ 26)%Z ->
    exists d, fold_left (fun r d => x ← r; dec_op (dec_add x d)) (map amount l) (Ok acc)
              = Ok (E := E) d /\ money d (a + total cs)%Z) as Hgen.
  { intros Hb. destruct (Hgen dec_zero 0%Z money_zero) as (d & Hd & Hm); [lia|]. eauto. }
  induction Hl as [|t c l cs [Hm Hc] Hl IH]; intros acc a Ha Hb.
  { exists acc. cbn. rewrite Z.add_0_r. done. }
  cbn [length] in Hb.
  destruct (money_add acc (amount t) a c Ha Hm) as (s & Hs & Hms); [lia..|].
  destruct (IH s (a + c)%Z Hms) as (d & Hd & Hmd); [lia|].
  exists d. cbn [map fold_left]. cbn [mbind Result_bind]. rewrite Hs. cbn [dec_op]. split; [done|].
  cbn [total foldr]. by rewrite Z.add_assoc.
Qed.

Lemma priced_sane {T} (amount : T -> Dec) B l cs : (B < 10 ^ 26)%Z ->
  Forall2 (priced amount B) l cs -> forall t, t ∈ l -> exists c, sane (amount t) c.
Proof.
  intros HB Hl t Ht. apply list_elem_of_lookup in Ht as [k Hk].
  destruct (Forall2_lookup_l _ _ _ _ _ Hl Hk) as (c & _ & Hm & Hc). exists c. split; [done | lia].
Qed.

Lemma elem_numbered fresh it l : forall n, it ∈ numbered fresh n l -> exists mk id, mk ∈ l /\ it = mk id.
Proof.
  induction l as [|mk l IH]; intros n Hit; [by apply not_elem_of_nil in Hit|].
  apply elem_of_cons in Hit as [->|Hit]; [exists mk, (fresh n); split; [left | done]|].
  destruct (IH _ Hit) as (mk' & id & Hmk & ->). exists mk', id. split; [by right | done].
Qed.

Definition bounded (B : Z) (d : Dec) : Prop := exists c, money d c /\ (Z.abs c <= B)%Z.

(** No difference of an item exceeds twice the largest amount. *)
Lemma report_bounded (external : list ExternalTransaction) run B i p mk id : (0 <= B < 10 ^ 26)%Z ->
  bounded B (it_amount i) -> (forall e, e ∈ external -> bounded B (et_amount e)) ->
  mk ∈ report external run i p -> bounded (2 * B) (ri_difference (mk id)).
Proof.
  intros HB (x & Hx & Bx) He Hmk. unfold report in Hmk. destruct p as [j|].
  - destruct (external !! j) as [e|] eqn:Hj; [|by apply not_elem_of_nil in Hmk].
    destruct (He e (list_elem_of_lookup_2 _ _ _ Hj)) as (y & Hy & By).
    destruct (money_sub _ _ _ _ Hx Hy) as (d & Hd & Hmd); [lia..|]. rewrite Hd in Hmk.
    destruct (dec_gtb _ _); [|by apply not_elem_of_nil in Hmk].
    apply list_elem_of_singleton in Hmk as ->. exists (Z.abs (x - y)).
    split; [by apply money_abs | lia].
  - apply list_elem_of_singleton in Hmk as ->. exists x. split; [done | lia].
Qed.

Lemma elem_concat_zip {A B' C} (f : A -> B' -> list C) x la lb :
  x ∈ concat (zip_with f la lb) -> exists a b, a ∈ la /\ x ∈ f a b.
Proof.
  revert lb. induction la as [|a la IH]; intros [|b lb] Hx; try by apply not_elem_of_nil in Hx.
  cbn in Hx. apply elem_of_app in Hx as [Hx|Hx]; [exists a, b; split; [left | done]|].
  destruct (IH _ Hx) as (a' & b' & Ha & Hb). exists a', b'. split; [by right | done].
Qed.

Lemma expected_bounded internal external fresh run B asg : (0 <= B < 10 ^ 26)%Z ->
  (forall i, i ∈ internal -> bounded B (it_amount i)) ->
  (forall e, e ∈ external -> bounded B (et_amount e)) ->
  forall it, it ∈ expected_items external fresh run internal asg -> bounded (2 * B) (ri_difference it).
Proof.
  intros HB Hi He it Hit. apply elem_numbered in Hit as (mk & id & Hmk & ->).
  apply elem_of_app in Hmk as [Hmk|Hmk]; apply elem_concat_zip in Hmk as (t & p & Ht & Hmk).
  - by eapply report_bounded; [| apply Hi | |].
  - unfold report_free in Hmk. destruct p; [by apply not_elem_of_nil in Hmk|].
    apply list_elem_of_singleton in Hmk as ->. destruct (He t Ht) as (y & Hy & By).
    exists y. split; [done | lia].
Qed.

Lemma bounded_priced {T} (amount : T -> Dec) B l :
  (forall t, t ∈ l -> bounded B (amount t)) -> exists cs, Forall2 (priced amount B) l cs.
Proof.
  induction l as [|t l IH]; intros Hl; [by exists []|].
  destruct IH as [cs Hcs]; [intros t' Ht'; apply Hl; by right|].
  destruct (Hl t (list_elem_of_here _ _)) as (c & Hc). exists (c :: cs). by constructor.
Qed.

Lemma priced_bounded {T} (amount : T -> Dec) B l cs :
  Forall2 (priced amount B) l cs -> forall t, t ∈ l -> bounded B (amount t).
Proof.
  intros Hl t Ht. apply list_elem_of_lookup in Ht as [k Hk].
  destruct (Forall2_lookup_l _ _ _ _ _ Hl Hk) as (c & _ & Hc). by exists c.
Qed.

(** The differences of the items can be summed. *)
Lemma differences_total internal external fresh run tol B xs ys items : (0 <= B)%Z ->
  Forall2 (priced it_amount B) internal xs -> Forall2 (priced et_amount B) external ys ->
  (2 * B * Z.of_nat (length internal + length external) < 10 ^ 26)%Z -> (B < 10 ^ 26)%Z ->
  match_transactions (E := ReconciliationError) fresh run internal external tol = Ok items ->
  exists da c, dec_sum (E := ReconciliationError) (map (fun x => dec_abs (ri_difference x)) items) = Ok da
    /\ money da c /\ (Z.abs c <= 2 * B * Z.of_nat (length internal + length external))%Z.
Proof.
  intros HB Hx Hy Hb HB' Hm.
  assert (amounts_sane internal external) as Hs by (split; by eapply priced_sane).
  destruct (match_transactions_expected external tol fresh run internal Hs) as (asg & _ & Hm').
  destruct (match_transactions_count (E := ReconciliationError) fresh run internal external tol Hs)
    as (items' & pairs & Hm'' & P1 & P2 & X & I & A & L & _).
  rewrite Hm in Hm', Hm''. injection Hm'' as <-. injection Hm' as ->.
  assert (forall it, it ∈ expected_items external fresh run internal asg ->
            bounded (2 * B) (dec_abs (ri_difference it))) as Hbnd.
  { intros it Hit. destruct (expected_bounded internal external fresh run B asg ltac:(lia)
      (priced_bounded _ _ _ _ Hx) (priced_bounded _ _ _ _ Hy) it Hit) as (c & Hc & Bc).
    exists (Z.abs c). split; [by apply money_abs | lia]. }
  destruct (bounded_priced (fun x => dec_abs (ri_difference x)) (2 * B) _ Hbnd) as [cs Hcs].
  pose proof (total_bound _ _ _ _ Hcs) as Htb.
  assert (2 * B * Z.of_nat (length (expected_items external fresh run internal asg))
          <= 2 * B * Z.of_nat (length internal + length external))%Z as Hle by nia.
  destruct (dec_sum_exact (E := ReconciliationError) _ (2 * B) _ cs ltac:(lia) Hcs) as (da & Hda & Hmd);
    [lia|].
  exists da, (total cs). split_and!; [done | done | lia].
Qed.

End totals.

(** ** Theorems *)

Definition one_internal (ref : string) (cents : Z) : InternalTransaction :=
  mkInternal ("tx-" +:+ ref) ref (dec_new cents 2) "USD" "completed" 0 None.
Definition one_external (ref : string) (cents : Z) : ExternalTransaction :=
  mkExternal ("ext-" +:+ ref) ref (dec_new cents 2) "USD" "SUCCESS" 0 None.

Lemma sane_cents c : (Z.abs c < 10 ^ 18)%Z -> exists x, sane (dec_new c 2) x.
Proof. intros Hc. exists c. split; [apply money_new; unfold in_i64; lia | lia]. Qed.

Definition sample_internal : list InternalTransaction :=
  [one_internal "A" 1000; one_internal "B" 2000; one_internal "C" 300].
Definition sample_external : list ExternalTransaction :=
  [one_external "B" 2001; one_external "A" 1000; one_external "D" 5].

Lemma sample_sane : amounts_sane sample_internal sample_external.
Proof.
  split; intros t Ht; apply list_elem_of_In in Ht; simpl in Ht;
    destruct Ht as [<-|[<-|[<-|[]]]]; apply sane_cents; lia.
Qed.

(** C10. Matching is a maximal one-to-one pairing, and the items are exactly what
    it implies: with amounts within 26 digits the loops end with an assignment
    of partners in which no external transaction is used twice, partners match
    (same non-empty reference, amounts within the tolerance), and no internal
    transaction without a partner matches an external one without a partner.
    The items are, in this order: for each internal transaction the amount
    mismatch with its partner if the amounts differ, or that it is missing
    externally; then each external transaction without a partner as missing
    internally; the n-th item has the n-th identifier. *)
Theorem matching_greedy `{DecimalOps} `{!DecimalLaws} (fresh : nat -> Uuid) (run : Uuid)
    internal external (tolerance : Dec) :
  amounts_sane internal external ->
  exists asg,
    match_transactions (E := ReconciliationError) fresh run internal external tolerance
      = Ok (expected_items external fresh run internal asg)
    /\ length asg = length internal
    /\ NoDup (used asg)
    /\ (forall k i j, internal !! k = Some i -> asg !! k = Some (Some j) ->
         exists e, external !! j = Some e /\ matches tolerance i e true)
    /\ (forall k i j e, internal !! k = Some i -> asg !! k = Some None ->
         external !! j = Some e -> j ∉ used asg -> matches tolerance i e false).
Proof.
  intros Hs.
  destruct (match_transactions_expected external tolerance fresh run internal Hs) as (asg & Ha & Hm).
  exists asg. split_and!; [done | by apply (assigned_length _ _ _ _ _ _ Ha)
    | by apply (assigned_fresh _ _ _ _ _ _ Ha) | by apply (assigned_sound _ _ _ _ _ _ Ha) |].
  intros k i j e Hi Hk He Hfree. apply (assigned_maximal _ _ _ _ _ _ Ha k i j e); try done.
  by apply flags_free with e.
Qed.

Lemma matching_greedy_witness :
  exists asg,
    match_transactions (E := ReconciliationError) N.of_nat 7 sample_internal sample_external
      (dec_new 1 2) = Ok (expected_items sample_external N.of_nat 7 sample_internal asg)
    /\ length asg = length sample_internal
    /\ NoDup (used asg)
    /\ (forall k i j, sample_internal !! k = Some i -> asg !! k = Some (Some j) ->
         exists e, sample_external !! j = Some e /\ matches (dec_new 1 2) i e true)
    /\ (forall k i j e, sample_internal !! k = Some i -> asg !! k = Some None ->
         sample_external !! j = Some e -> j ∉ used asg -> matches (dec_new 1 2) i e false).
Proof.
  apply (matching_greedy N.of_nat 7%N sample_internal sample_external (dec_new 1 2)).
  exact sample_sane.
Defined.

(** Statements that agree reconcile without discrepancy: when both sides
    have unique, non-empty references, are equally long, and every internal
    transaction has an external one of the same reference and amount in any
    order, no item is produced, for any tolerance that is not negative. *)
Theorem agreeing_statements_match `{DecimalOps} `{!DecimalLaws} (fresh : nat -> Uuid) (run : Uuid)
    internal external (tolerance : Dec) (t : Z) :
  money tolerance t -> (0 <= t)%Z -> agree internal external ->
  length internal = length external -> amounts_sane internal external ->
  match_transactions (E := ReconciliationError) fresh run internal external tolerance = Ok [].
Proof. apply match_agree. Qed.

Lemma agreeing_statements_match_witness :
  match_transactions (E := ReconciliationError) N.of_nat 7
    [one_internal "A" 1000; one_internal "B" 2000] [one_external "B" 2000; one_external "A" 1000]
    (dec_new 0 2) = Ok [].
Proof.
  apply (agreeing_statements_match N.of_nat 7%N _ _ (dec_new 0 2) 0);
    [apply money_new; unfold in_i64; lia | lia | | reflexivity |].
  - split_and!; [by apply (bool_decide_unpack _); vm_compute..|].
    intros i Hi. apply list_elem_of_In in Hi. simpl in Hi.
    destruct Hi as [<-|[<-|[]]]; (split; [reflexivity|]).
    + exists (one_external "A" 1000), 1000%Z. split_and!; [right; left | done | |];
        split; try (apply money_new; unfold in_i64); lia.
    + exists (one_external "B" 2000), 2000%Z. split_and!; [left | done | |];
        split; try (apply money_new; unfold in_i64); lia.
  - split; intros t Ht; apply list_elem_of_In in Ht; simpl in Ht;
      destruct Ht as [<-|[<-|[]]]; apply sane_cents; lia.
Defined.

