(* ===== verification/ReconStore.v ===== *)
(** * Reconciliation persistence

    [reconciliation-engine/src/infrastructure/]: [postgres_recon_store.rs]
    (runs, items and matching rules), the transaction source and the statement
    adapter.  The amounts are bound and read as text; whether the columns
    decode as text is part of the environment, as is whether the database
    accepts a statement at all.  [recon_ports] is the implementation of the
    handler's interface. *)

From Stdlib Require Import ZArith Lia Ascii.
From stdpp Require Import base list strings numbers sorting.
From S2P Require Import Prelude RustStr External Reference Recon Matching.

Local Open Scope string_scope.

(** ** Rows *)

(** A row of [reconciliation.reports]. *)
Record ReportRow := mkReportRow {
  rep_report_id : Uuid;
  rep_report_reference : string;
  rep_provider_id : string;
  rep_period_start : Z;
  rep_period_end : Z;
  rep_status : string;
  rep_kernel_count : Z;
  rep_provider_count : Z;
  rep_matched_count : Z;
  rep_unmatched_kernel : Z;
  rep_unmatched_provider : Z;
  rep_kernel_total : string;
  rep_provider_total : string;
  rep_started_at : option DateTime;
  rep_completed_at : option DateTime;
  rep_created_by : option string;
}.

(** A row of [reconciliation.mismatches]. *)
Record MismatchRow := mkMismatchRow {
  mm_mismatch_id : Uuid;
  mm_report_id : Uuid;
  mm_mismatch_type : string;
  mm_kernel_reference : string;
  mm_kernel_amount : string;
  mm_provider_reference : string;
  mm_provider_amount : string;
  mm_amount_difference : string;
  mm_discrepancy_reason : string;
  mm_resolution_status : string;
  mm_resolution_notes : option string;
  mm_resolved_by : option Uuid;
  mm_resolved_at : option DateTime;
  mm_created_at : DateTime;
}.

(** A row of [app.matching_rules]; [rule_tolerance] is [None] when the column
    does not decode as text. *)
Record RuleRow := mkRuleRow {
  rule_rule_id : Uuid;
  rule_application_id : Uuid;
  rule_rule_code : string;
  rule_source_entity_type : string;
  rule_match_criteria : option json;
  rule_tolerance : option string;
  rule_date_tolerance_days : Z;
  rule_auto_match : bool;
  rule_status : string;
  rule_created_at : DateTime;
  rule_execution_order : Z;
}.

(** [ORDER BY started_at DESC NULLS LAST], [created_at DESC],
    [execution_order] *)
Definition started_ge (a b : ReportRow) : Prop :=
  match rep_started_at a, rep_started_at b with
  | Some x, Some y => (y <= x)%Z
  | None, Some _ => False
  | _, None => True
  end.
#[export] Instance started_ge_dec : RelDecision started_ge.
Proof.
  intros a b. unfold Decision, started_ge.
  destruct (rep_started_at a), (rep_started_at b); [apply Z.le_dec | left | right | left]; done || tauto.
Defined.

Definition created_ge (a b : MismatchRow) : Prop := (mm_created_at b <= mm_created_at a)%Z.
#[export] Instance created_ge_dec : RelDecision created_ge.
Proof. intros a b. apply Z.le_dec. Defined.

Definition order_le (a b : RuleRow) : Prop := (rule_execution_order a <= rule_execution_order b)%Z.
#[export] Instance order_le_dec : RelDecision order_le.
Proof. intros a b. apply Z.le_dec. Defined.

(** ** Environment and world *)

Class ReconEnv := {
  r_fault : nat -> option string;
  r_clock : nat -> DateTime;
  r_uuid : nat -> Uuid;
  (** row-level security on reports, mismatches and rules *)
  r_sees_report : Uuid -> ReportRow -> bool;
  r_sees_item : Uuid -> MismatchRow -> bool;
  r_sees_rule : Uuid -> RuleRow -> bool;
  (** [SELECT account_id FROM core.account_registry WHERE account_number = ..] *)
  account_of : string -> option Uuid;
  (** [ILIKE] *)
  ilike : string -> string -> bool;
  (** Whether the amount columns of reports and mismatches decode as [String]:
      columns of text do, the [NUMERIC(20, 8)] ones of migration V070 do not. *)
  amounts_decode : bool;
}.

Record ReconWorld := mkReconWorld {
  reports : list ReportRow;
  mismatches : list MismatchRow;
  rules : list RuleRow;
  r_tick : nat;
}.

Definition r_next (w : ReconWorld) : ReconWorld :=
  mkReconWorld (reports w) (mismatches w) (rules w) (S (r_tick w)).
Definition set_reports (l : list ReportRow) (w : ReconWorld) : ReconWorld :=
  mkReconWorld l (mismatches w) (rules w) (r_tick w).
Definition set_mismatches (l : list MismatchRow) (w : ReconWorld) : ReconWorld :=
  mkReconWorld (reports w) l (rules w) (r_tick w).

(** The status column of a run. *)
Definition status_column (s : ReconciliationStatus) : string :=
  match s with
  | RsPending => "pending"
  | RsRunning => "processing"
  | RsCompleted => "completed"
  | RsFailed => "failed"
  | RsPartiallyResolved => "completed"
  | RsApproved => "completed"
  end.

(** The status of a row. *)
Definition status_of_column (s : string) : ReconciliationStatus :=
  let s := to_lowercase s in
  if String.eqb s "pending" then RsPending
  else if String.eqb s "processing" then RsRunning
  else if String.eqb s "completed" then RsCompleted
  else if String.eqb s "failed" then RsFailed
  else RsPending.

(** [map_discrepancy_to_mismatch] *)
Definition map_discrepancy_to_mismatch (d : DiscrepancyType) : string :=
  match d with
  | MissingInternal => "kernel_only"
  | MissingExternal => "provider_only"
  | AmountMismatch => "amount_diff"
  | StatusMismatch => "status_diff"
  | DuplicateInternal => "duplicate"
  | DuplicateExternal => "duplicate"
  | FeeMismatch => "fee_diff"
  | TimestampMismatch => "date_mismatch"
  | CurrencyMismatch => "amount_diff"
  end.

(** The discrepancy type of a row. *)
Definition discrepancy_of_mismatch (s : string) : DiscrepancyType :=
  let s := to_lowercase s in
  if String.eqb s "kernel_only" then MissingInternal
  else if String.eqb s "provider_only" then MissingExternal
  else if String.eqb s "amount_diff" then AmountMismatch
  else if String.eqb s "status_diff" then StatusMismatch
  else if String.eqb s "duplicate" then DuplicateInternal
  else if String.eqb s "fee_diff" then FeeMismatch
  else if String.eqb s "date_mismatch" then TimestampMismatch
  else AmountMismatch.

Section store.
Context `{DecimalOps} `{UuidOps} `{ReconEnv}.

(** A statement; its error is a [DatabaseError]. *)
Definition r_statement : M ReconWorld ReconciliationError unit := fun w =>
  match r_fault (r_tick w) with
  | Some e => (Err (RDatabaseError e), r_next w)
  | None => (Ok tt, r_next w)
  end.

Definition r_now : M ReconWorld ReconciliationError DateTime := fun w =>
  (Ok (r_clock (r_tick w)), r_next w).

(** [s.parse().unwrap_or(Decimal::ZERO)] *)
Definition dec_or_zero (s : string) : Dec :=
  match dec_parse s with Ok d => d | _ => dec_zero end.

(** [row.try_get(column).unwrap_or_else(|_| "0".to_string())] on an amount *)
Definition amount_text (column : string) : string := if amounts_decode then column else "0".

Definition report_row (run : ReconciliationRun) : ReportRow :=
  mkReportRow (rn_run_id run) ("RUN-" +:+ uuid_to_string (rn_run_id run)) (rn_provider_name run)
    (date_naive (rn_period_start run)) (date_naive (rn_period_end run))
    (status_column (rn_status run)) (rn_total_records run) 0 (rn_matched_count run)
    (rn_discrepancy_count run) 0 (dec_to_string (rn_internal_total run))
    (dec_to_string (rn_external_total run)) (rn_started_at run) (rn_completed_at run) None.

(** [INSERT ... ON CONFLICT (report_id) DO UPDATE] *)
Fixpoint upsert_report (r : ReportRow) (rows : list ReportRow) : list ReportRow :=
  match rows with
  | [] => [r]
  | x :: rows' =>
      if N.eqb (rep_report_id x) (rep_report_id r)
      then mkReportRow (rep_report_id x) (rep_report_reference x) (rep_provider_id x)
             (rep_period_start x) (rep_period_end x) (rep_status r) (rep_kernel_count r)
             (rep_provider_count r) (rep_matched_count r) (rep_unmatched_kernel r)
             (rep_unmatched_provider r) (rep_kernel_total r) (rep_provider_total r)
             (rep_started_at r) (rep_completed_at r) (rep_created_by x) :: rows'
      else x :: upsert_report r rows'
  end.

(** [save_run], where the database accepts its [INSERT]; against the schema of
    V070, with a column [application_id] it does not bind and no constraint on
    [report_id] alone, the statement fails, which is a fault of the environment. *)
Definition pg_save_run (run : ReconciliationRun) : M ReconWorld ReconciliationError unit :=
  r_statement ;;
  r_statement ;;
  modify (fun w => set_reports (upsert_report (report_row run) (reports w)) w).

(** [map_run_row] *)
Definition map_run_row (row : ReportRow) (tenant_id : Uuid)
    : Result ReconciliationError ReconciliationRun :=
  let internal := dec_or_zero (amount_text (rep_kernel_total row)) in
  let external := dec_or_zero (amount_text (rep_provider_total row)) in
  d ← dec_op (dec_sub internal external);
  mret (mkRun (rep_report_id row) tenant_id (rep_provider_id row)
          (status_of_column (rep_status row)) (midnight (rep_period_start row))
          (midnight (rep_period_end row)) (as_i32 (rep_kernel_count row + rep_provider_count row))
          (rep_matched_count row) (as_i32 (rep_unmatched_kernel row + rep_unmatched_provider row))
          0 internal external (dec_abs d) (rep_started_at row) (rep_completed_at row)
          (unwrap_or (rep_created_by row) "") None None).

(** [get_run] *)
Definition pg_get_run (run_id tenant_id : Uuid) : M ReconWorld ReconciliationError ReconciliationRun :=
  r_statement ;;
  r_statement ;;
  rows ← gets reports;
  match List.find (fun r => N.eqb (rep_report_id r) run_id && r_sees_report tenant_id r) rows with
  | Some row => lift (map_run_row row tenant_id)
  | None => throw (RNotFound ("Run " +:+ uuid_to_string run_id +:+ " not found"))
  end.

(** [list_runs] *)
Definition pg_list_runs (tenant_id : Uuid) (provider : option string)
    (statuses : list ReconciliationStatus) (from to : DateTime)
    : M ReconWorld ReconciliationError (list ReconciliationRun) :=
  r_statement ;;
  let strings := map status_column statuses in
  r_statement ;;
  rows ← gets reports;
  lift (collect (map (fun r => map_run_row r tenant_id) (merge_sort started_ge
    (List.filter (fun r =>
       r_sees_report tenant_id r
       && match provider with Some p => String.eqb (rep_provider_id r) p | None => true end
       && match strings with [] => true | _ => existsb (String.eqb (rep_status r)) strings end
       && (date_naive from <=? rep_period_start r)%Z
       && (rep_period_end r <=? date_naive to)%Z) rows)))).

Definition mismatch_row (item : ReconciliationItem) (now : DateTime) : MismatchRow :=
  mkMismatchRow (ri_item_id item) (ri_run_id item)
    (map_discrepancy_to_mismatch (ri_discrepancy_type item)) (ri_transaction_id item)
    (dec_to_string (ri_internal_amount item)) (ri_transaction_id item)
    (dec_to_string (ri_external_amount item)) (dec_to_string (ri_difference item))
    (unwrap_or (ri_notes item) "") (if ri_resolved item then "resolved" else "open")
    (Some (unwrap_or (ri_notes item) "")) None (ri_resolved_at item) now.

(** [INSERT ... ON CONFLICT (mismatch_id) DO UPDATE] *)
Fixpoint upsert_mismatch (r : MismatchRow) (rows : list MismatchRow) : list MismatchRow :=
  match rows with
  | [] => [r]
  | x :: rows' =>
      if N.eqb (mm_mismatch_id x) (mm_mismatch_id r)
      then mkMismatchRow (mm_mismatch_id x) (mm_report_id x) (mm_mismatch_type r)
             (mm_kernel_reference r) (mm_kernel_amount r) (mm_provider_reference r)
             (mm_provider_amount r) (mm_amount_difference r) (mm_discrepancy_reason r)
             (mm_resolution_status r) (mm_resolution_notes r) (mm_resolved_by x)
             (mm_resolved_at r) (mm_created_at x) :: rows'
      else x :: upsert_mismatch r rows'
  end.

(** [save_item] *)
Definition pg_save_item (item : ReconciliationItem) : M ReconWorld ReconciliationError unit :=
  r_statement ;;
  modify (fun w => set_mismatches
    (upsert_mismatch (mismatch_row item (r_clock (r_tick w))) (mismatches w)) w).

(** [map_item_row] *)
Definition map_item_row (row : MismatchRow) : ReconciliationItem :=
  let s := mm_resolution_status row in
  mkItem (mm_mismatch_id row) (mm_report_id row) (mm_kernel_reference row)
    (discrepancy_of_mismatch (mm_mismatch_type row)) "" ""
    (dec_or_zero (amount_text (mm_kernel_amount row)))
    (dec_or_zero (amount_text (mm_provider_amount row)))
    (dec_or_zero (amount_text (mm_amount_difference row))) (String.eqb s "resolved")
    (if String.eqb s "resolved" then Some Approve
     else if String.eqb s "disputed" then Some Escalate
     else if String.eqb s "investigating" then Some Ignore
     else None)
    ((fun n => trim_start_matches "["%char (split_next "]"%char n)) <$> mm_resolution_notes row)
    (mm_resolved_at row) (mm_resolution_notes row).

(** [get_items] *)
Definition pg_get_items (run_id tenant_id : Uuid) (types : list DiscrepancyType)
    (unresolved_only : bool) : M ReconWorld ReconciliationError (list ReconciliationItem) :=
  r_statement ;;
  let strings := map map_discrepancy_to_mismatch types in
  r_statement ;;
  rows ← gets mismatches;
  mret (map map_item_row (merge_sort created_ge (List.filter (fun r =>
    N.eqb (mm_report_id r) run_id && r_sees_item tenant_id r
    && match strings with [] => true | _ => existsb (String.eqb (mm_mismatch_type r)) strings end
    && (negb unresolved_only || negb (String.eqb (mm_resolution_status r) "resolved"))) rows))).

(** [get_item] *)
Definition pg_get_item (item_id tenant_id : Uuid) : M ReconWorld ReconciliationError ReconciliationItem :=
  r_statement ;;
  r_statement ;;
  rows ← gets mismatches;
  match List.find (fun r => N.eqb (mm_mismatch_id r) item_id && r_sees_item tenant_id r) rows with
  | Some row => mret (map_item_row row)
  | None => throw (RNotFound ("Item " +:+ uuid_to_string item_id +:+ " not found"))
  end.

Definition resolution_column (a : ResolutionAction) : string :=
  match a with Escalate => "disputed" | _ => "resolved" end.

Definition full_notes (a : ResolutionAction) (notes : string) : string :=
  "[" +:+ action_as_str a +:+ "] " +:+ notes.

Definition resolve_row (a : ResolutionAction) (notes resolved_by : string) (now : DateTime)
    (r : MismatchRow) : MismatchRow :=
  mkMismatchRow (mm_mismatch_id r) (mm_report_id r) (mm_mismatch_type r) (mm_kernel_reference r)
    (mm_kernel_amount r) (mm_provider_reference r) (mm_provider_amount r)
    (mm_amount_difference r) (mm_discrepancy_reason r) (resolution_column a)
    (Some (full_notes a notes)) (account_of resolved_by) (Some now) (mm_created_at r).

(** [update_item_resolution]; a statement that updates no row succeeds. *)
Definition pg_update_item_resolution (item_id : Uuid) (a : ResolutionAction)
    (notes resolved_by : string) : M ReconWorld ReconciliationError unit :=
  r_statement ;;
  modify (fun w => set_mismatches (map (fun r =>
    if N.eqb (mm_mismatch_id r) item_id
    then resolve_row a notes resolved_by (r_clock (r_tick w)) r else r) (mismatches w)) w).

(** [map_rule_row]; [source_entity_type] is not among the selected columns. *)
Definition map_rule_row (row : RuleRow) (tenant_id : Uuid) : MatchingRule :=
  mkRule (rule_rule_id row) tenant_id "" (rule_rule_code row)
    (match rule_match_criteria row with Some (JObject m) => map fst m | _ => [] end)
    (dec_or_zero (unwrap_or (rule_tolerance row) "0"))
    (as_i32 (rule_date_tolerance_days row * 86400)) (rule_auto_match row)
    (String.eqb (rule_status row) "active") (Some (rule_created_at row)) None.

(** [get_matching_rule] *)
Definition pg_get_matching_rule (rule_id tenant_id : Uuid) : M ReconWorld ReconciliationError MatchingRule :=
  r_statement ;;
  r_statement ;;
  rows ← gets rules;
  match List.find (fun r => N.eqb (rule_rule_id r) rule_id && r_sees_rule tenant_id r) rows with
  | Some row => mret (map_rule_row row tenant_id)
  | None => throw (RNotFound ("Rule " +:+ uuid_to_string rule_id +:+ " not found"))
  end.

(** [list_matching_rules] *)
Definition pg_list_matching_rules (tenant_id : Uuid) (provider : option string)
    : M ReconWorld ReconciliationError (list MatchingRule) :=
  r_statement ;;
  r_statement ;;
  rows ← gets rules;
  mret (map (fun r => map_rule_row r tenant_id) (merge_sort order_le (List.filter (fun r =>
    N.eqb (rule_application_id r) tenant_id && r_sees_rule tenant_id r
    && match provider with Some p => ilike (rule_source_entity_type r) p | None => true end) rows))).

(** ** The sources of transactions *)

(** [PostgresTransactionSource::fetch_internal_transactions] *)
Definition placeholder_internal (tenant_id : Uuid) (provider : string) (from to : DateTime)
    : Result ReconciliationError (list InternalTransaction) := Ok [].

(** [ProviderStatementAdapter::fetch_external_transactions] *)
Definition statement_adapter (provider : string) (from to : DateTime)
    : Result ReconciliationError (list ExternalTransaction) :=
  let p := to_lowercase provider in
  if String.eqb p "ecocash" || String.eqb p "onemoney" || String.eqb p "telecash" then Ok []
  else Err (RProviderError ("Unknown provider: " +:+ provider)).

(** The handler's ports over this store, with the given sources. *)
Definition recon_ports
    (internal : Uuid -> string -> DateTime -> DateTime ->
                Result ReconciliationError (list InternalTransaction))
    (external : string -> DateTime -> DateTime ->
                Result ReconciliationError (list ExternalTransaction)) : ReconPorts ReconWorld := {|
  rp_fresh w n := r_uuid (n + r_tick w);
  rp_used n w := mkReconWorld (reports w) (mismatches w) (rules w) (n + r_tick w);
  rp_now := r_now;
  fetch_internal_transactions t p f u := lift (internal t p f u);
  fetch_external_transactions p f u := lift (external p f u);
  save_run := pg_save_run;
  get_run := pg_get_run;
  list_runs := pg_list_runs;
  save_item := pg_save_item;
  get_items := pg_get_items;
  get_item := pg_get_item;
  update_item_resolution := pg_update_item_resolution;
  get_matching_rule := pg_get_matching_rule;
  list_matching_rules := pg_list_matching_rules;
|}.

End store.

(** ** Lemmas *)

Section runs.
Context `{DecimalOps} `{!DecimalLaws} `{UuidOps} `{ReconEnv}.

Definition r_no_faults : Prop := forall n, r_fault n = None.

Lemma r_statement_ok w : r_no_faults -> r_statement w = (Ok tt, r_next w).
Proof. intros Hf. unfold r_statement. by rewrite Hf. Qed.

Lemma pg_save_run_ok run w : r_no_faults ->
  pg_save_run run w
  = (Ok tt, set_reports (upsert_report (report_row run) (reports w)) (r_next (r_next w))).
Proof. intros Hf. unfold pg_save_run. by do 2 run_step (r_statement_ok _ Hf). Qed.

Lemma save_items_ok items w : r_no_faults ->
  exists w', forM items pg_save_item w = (Ok tt, w') /\ reports w' = reports w.
Proof.
  intros Hf. revert w. induction items as [|it items IH]; intros w; [by exists w|].
  cbn [forM]. destruct (IH (set_mismatches (upsert_mismatch (mismatch_row it
    (r_clock (r_tick (r_next w)))) (mismatches w)) (r_next w))) as (w' & Hw & Hr).
  exists w'. split; [|by rewrite Hr].
  erewrite bind_ok; [exact Hw|]. unfold pg_save_item. by run_step (r_statement_ok _ Hf).
Qed.

Definition report_of (id : Uuid) (rows : list ReportRow) : option ReportRow :=
  List.find (fun r => N.eqb (rep_report_id r) id) rows.

Lemma upsert_report_new r rows : report_of (rep_report_id r) rows = None ->
  upsert_report r rows = (rows ++ [r])%list.
Proof.
  unfold report_of. induction rows as [|x rows IH]; simpl; [done|].
  case_match; [done|]. intros Hn. by rewrite IH.
Qed.

(** Saving the same run again overwrites its row. *)
Lemma upsert_report_again a b rows :
  rn_run_id a = rn_run_id b -> rn_provider_name a = rn_provider_name b ->
  rn_period_start a = rn_period_start b -> rn_period_end a = rn_period_end b ->
  report_of (rn_run_id a) rows = None ->
  upsert_report (report_row b) (rows ++ [report_row a]) = (rows ++ [report_row b])%list.
Proof.
  intros E1 E2 E3 E4. unfold report_of. induction rows as [|x rows IH]; simpl.
  - intros _. rewrite E1, N.eqb_refl. unfold report_row. simpl. by rewrite E2, E3, E4.
  - rewrite E1. case_match; [done|]. intros Hn. rewrite IH; [done | by rewrite E1].
Qed.

Lemma unresolved_counts (items : list ReconciliationItem) :
  Forall (fun it => ri_resolved it = false) items ->
  List.filter ri_resolved items = []
  /\ List.filter (fun i => negb (ri_resolved i)) items = items.
Proof.
  induction 1 as [|it items Hit _ [IH1 IH2]]; [done|]. simpl. rewrite Hit. simpl. by rewrite IH2.
Qed.

Variable internal_source : Uuid -> string -> DateTime -> DateTime ->
  Result ReconciliationError (list InternalTransaction).
Variable external_source : string -> DateTime -> DateTime ->
  Result ReconciliationError (list ExternalTransaction).

#[local] Instance ports : ReconPorts ReconWorld := recon_ports internal_source external_source.

Lemma find_map_resolved id a notes by' now tenant row rows :
  (forall r, r_sees_item tenant r = true) ->
  List.find (fun r => N.eqb (mm_mismatch_id r) id) rows = Some row ->
  List.find (fun r => N.eqb (mm_mismatch_id r) id && r_sees_item tenant r)
    (map (fun r => if N.eqb (mm_mismatch_id r) id then resolve_row a notes by' now r else r) rows)
  = Some (resolve_row a notes by' now row).
Proof.
  intros Hs. induction rows as [|x rows IH]; [done|]. cbn [List.find map].
  destruct (N.eqb (mm_mismatch_id x) id) eqn:E.
  - intros [= ->]. simpl. by rewrite E, Hs.
  - rewrite E. cbn [andb]. done.
Qed.

(** The part of [reconcile] that the store takes part in. *)
Lemma reconcile_run run i e tol ti te items da w : r_no_faults ->
  dec_sum (E := ReconciliationError) (map it_amount i) = Ok ti -> dec_sum (E := ReconciliationError) (map et_amount e) = Ok te ->
  match_transactions (E := ReconciliationError) (rp_fresh w) (rn_run_id run) i e tol = Ok items ->
  dec_sum (E := ReconciliationError) (map (fun x => dec_abs (ri_difference x)) items) = Ok da ->
  exists now w',
    let done_run := tally run i e items ti te da in
    let final := set_status done_run
                   (if (0 <? rn_discrepancy_count done_run)%Z then RsPartiallyResolved else RsCompleted)
                   (rn_started_at run) (Some now) in
    reconcile run i e tol w = (Ok final, w')
    /\ reports w' = upsert_report (report_row final) (reports w).
Proof.
  intros Hf Hi He Hm Hd.
  destruct (save_items_ok items (rp_used (length items) w) Hf) as (w1 & Hs & Hr).
  eexists _, _. cbv zeta. split.
  - unfold reconcile. erewrite bind_ok; [|unfold lift; by rewrite Hi].
    erewrite bind_ok; [|unfold lift; by rewrite He]. erewrite bind_ok; [|reflexivity].
    erewrite bind_ok; [|unfold lift; by rewrite Hm]. erewrite bind_ok; [|reflexivity].
    erewrite bind_ok; [|unfold lift; by rewrite Hd]. cbv zeta.
    erewrite bind_ok; [|exact Hs]. erewrite bind_ok; [|reflexivity]. cbv zeta.
    erewrite bind_ok; [|by apply pg_save_run_ok]. reflexivity.
  - cbn [reports set_reports r_next]. rewrite Hr. reflexivity.
Qed.

(** The run as [start_reconciliation] first saves it. *)
Definition running (run_id tenant : Uuid) (provider : string) (from to : DateTime) (by' : string)
    (started : DateTime) : ReconciliationRun :=
  set_status (new_run run_id tenant provider from to by') RsRunning (Some started) None.

Lemma start_ok tenant provider from to by' tol i e w : r_no_faults ->
  internal_source tenant provider from to = Ok i -> external_source provider from to = Ok e ->
  let run := running (r_uuid (r_tick w)) tenant provider from to by' (r_clock (S (r_tick w))) in
  exists w1, reports w1 = upsert_report (report_row run) (reports w)
    /\ start_reconciliation tenant provider from to by' tol w = reconcile run i e tol w1.
Proof.
  intros Hf Hi He run. subst run. eexists. split; [|unfold start_reconciliation].
  2: { erewrite bind_ok; [|reflexivity]. erewrite bind_ok; [|reflexivity]. cbv zeta.
       erewrite bind_ok; [|by apply pg_save_run_ok].
       erewrite bind_ok; [|eapply attempt_ok; [simpl; unfold lift; by rewrite Hi | done]].
       erewrite bind_ok; [|eapply attempt_ok; [simpl; unfold lift; by rewrite He | done]].
       reflexivity. }
  reflexivity.
Qed.

(** A failing source: the run is saved as failed and its error returned. *)
Lemma start_err tenant provider from to by' tol x w : r_no_faults ->
  (internal_source tenant provider from to = Err x /\ external_source provider from to <> Panic
   \/ exists i, internal_source tenant provider from to = Ok i
               /\ external_source provider from to = Err x) ->
  let run := running (r_uuid (r_tick w)) tenant provider from to by' (r_clock (S (r_tick w))) in
  exists failed w', start_reconciliation tenant provider from to by' tol w = (Err x, w')
    /\ mismatches w' = mismatches w
    /\ reports w' = upsert_report (report_row (set_status run RsFailed (rn_started_at run) (Some failed)))
                      (upsert_report (report_row run) (reports w)).
Proof.
  intros Hf Hsrc run. subst run. eexists _, _. split.
  - unfold start_reconciliation. erewrite bind_ok; [|reflexivity]. erewrite bind_ok; [|reflexivity].
    cbv zeta. erewrite bind_ok; [|by apply pg_save_run_ok].
    destruct Hsrc as [[Hi He]|(i & Hi & He)].
    + erewrite bind_ok; [|eapply attempt_ok; [simpl; unfold lift; by rewrite Hi | done]].
      erewrite bind_ok; [|eapply attempt_ok; [reflexivity | exact He]].
      cbv beta iota. erewrite bind_ok; [|reflexivity]. cbv zeta.
      erewrite bind_ok; [|by apply pg_save_run_ok]. reflexivity.
    + erewrite bind_ok; [|eapply attempt_ok; [simpl; unfold lift; by rewrite Hi | done]].
      erewrite bind_ok; [|eapply attempt_ok; [simpl; unfold lift; by rewrite He | done]].
      cbv beta iota. erewrite bind_ok; [|reflexivity]. cbv zeta.
      erewrite bind_ok; [|by apply pg_save_run_ok]. reflexivity.
  - simpl. split; [done|]. reflexivity.
Qed.

(** A reconciliation whose sources answer, from the first statement to the
    last. *)
Lemma start_outcome tenant provider from to by' tol i e xs ys B w :
  r_no_faults ->
  internal_source tenant provider from to = Ok i -> external_source provider from to = Ok e ->
  Forall2 (priced it_amount B) i xs -> Forall2 (priced et_amount B) e ys ->
  (0 <= B < 2 ^ 63)%Z -> (2 * B * Z.of_nat (length i + length e) < 2 ^ 63)%Z ->
  (Z.of_nat (length i + length e) < 2 ^ 31)%Z ->
  report_of (r_uuid (r_tick w)) (reports w) = None ->
  exists now w1 w' items ti te da dc,
    let run := running (r_uuid (r_tick w)) tenant provider from to by' (r_clock (S (r_tick w))) in
    let final := set_status (tally run i e items ti te da)
                   (if (0 <? Z.of_nat (length items))%Z then RsPartiallyResolved else RsCompleted)
                   (rn_started_at run) (Some now) in
    start_reconciliation tenant provider from to by' tol w = (Ok final, w')
    /\ match_transactions (E := ReconciliationError) (rp_fresh w1) (r_uuid (r_tick w)) i e tol = Ok items
    /\ money ti (total xs) /\ money te (total ys)
    /\ money da dc /\ (Z.abs dc <= 2 * B * Z.of_nat (length i + length e))%Z
    /\ reports w' = (reports w ++ [report_row final])%list
    /\ rn_discrepancy_count final = Z.of_nat (length items)
    /\ rn_matched_count final = 0%Z.
Proof.
  intros Hf Hi He Hx Hy HB Hb Hlen Hnew.
  assert (amounts_sane i e) as Hs by (split; (eapply priced_sane; [|done]); lia).
  destruct (start_ok tenant provider from to by' tol i e w Hf Hi He) as (w1 & Hr1 & Hstart).
  set (run := running _ _ _ _ _ _ _) in *.
  destruct (match_transactions_count (E := ReconciliationError) (rp_fresh w1)
              (rn_run_id run) i e tol Hs) as (items & pairs & Hm & P1 & P2 & X & I & A & L & F).
  destruct (differences_total i e (rp_fresh w1) (rn_run_id run) tol B xs ys items)
    as (da & dc & Hd & Hmd & Hdc); [lia | done | done | lia | lia | done |].
  destruct (dec_sum_exact (E := ReconciliationError) it_amount B i xs) as (ti & Hti & Mti); [lia | done | nia |].
  destruct (dec_sum_exact (E := ReconciliationError) et_amount B e ys) as (te & Hte & Mte); [lia | done | nia |].
  destruct (reconcile_run run i e tol ti te items da w1 Hf Hti Hte Hm Hd) as (now & w' & Hrec & Hr').
  destruct (unresolved_counts items F) as [Hf1 Hf2].
  assert (Hcnt : rn_discrepancy_count (tally run i e items ti te da) = Z.of_nat (length items)).
  { simpl. rewrite Hf2. unfold count_i32. apply as_i32_id. unfold in_i32. lia. }
  rewrite Hcnt in Hrec, Hr'.
  exists now, w1, w', items, ti, te, da, dc. cbv zeta. rewrite Hstart.
  split_and!; try done.
  - rewrite Hr', Hr1, (upsert_report_new (report_row run)) by done. by apply upsert_report_again.
  - simpl. by rewrite Hf1.
Qed.

End runs.

(** ** An environment for the witnesses *)

Definition recon_env (decode : bool) : ReconEnv := {|
  r_fault _ := None;
  r_clock n := Z.of_nat n;
  r_uuid n := N.of_nat n;
  r_sees_report _ _ := true;
  r_sees_item _ _ := true;
  r_sees_rule _ _ := true;
  account_of _ := None;
  ilike a b := String.eqb a b;
  amounts_decode := decode;
|}.

#[export] Instance test_recon_env : ReconEnv := recon_env true.

Definition empty_recon : ReconWorld := mkReconWorld [] [] [] 0.

Lemma test_r_no_faults : r_no_faults.
Proof. by intros n. Qed.

(** ** Theorems *)

(** C27. What a reconciliation reports and stores: when the sources answer with
    amounts of at most [B] hundredths and the totals stay below 2^63, no
    arithmetic panics; the run returned has the exact totals of both sides,
    status [Completed] if there is no discrepancy and [PartiallyResolved]
    otherwise, and counts every item as a discrepancy; but its number of
    matches is always 0, and the row stored (exactly one is added) reads back
    as [Completed] in both cases. *)
Theorem reconciliation_outcome `{DecimalOps} `{!DecimalLaws} `{UuidOps} `{ReconEnv}
    internal_source external_source tenant provider from to by' tol i e xs ys B (w : ReconWorld) :
  r_no_faults ->
  internal_source tenant provider from to = Ok i -> external_source provider from to = Ok e ->
  Forall2 (priced it_amount B) i xs -> Forall2 (priced et_amount B) e ys ->
  (0 <= B < 2 ^ 63)%Z -> (2 * B * Z.of_nat (length i + length e) < 2 ^ 63)%Z ->
  (Z.of_nat (length i + length e) < 2 ^ 31)%Z ->
  report_of (r_uuid (r_tick w)) (reports w) = None ->
  exists run w' items fresh,
    start_reconciliation (ReconPorts0 := recon_ports internal_source external_source)
      tenant provider from to by' tol w = (Ok run, w')
    /\ match_transactions (E := ReconciliationError) fresh (r_uuid (r_tick w)) i e tol = Ok items
    /\ money (rn_internal_total run) (total xs) /\ money (rn_external_total run) (total ys)
    /\ rn_matched_count run = 0%Z
    /\ rn_discrepancy_count run = Z.of_nat (length items)
    /\ rn_status run = (match items with [] => RsCompleted | _ => RsPartiallyResolved end)
    /\ reports w' = (reports w ++ [report_row run])%list
    /\ status_of_column (rep_status (report_row run)) = RsCompleted.
Proof.
  intros Hf Hi He Hx Hy HB Hb Hlen Hnew.
  destruct (start_outcome internal_source external_source tenant provider from to by' tol i e xs ys B w)
    as (now & w1 & w' & items & ti & te & da & dc & Hstart & Hm & Hti & Hte & _ & _ & Hr & Hcnt & Hmc); try done.
  eexists _, w', items, _. split_and!; [exact Hstart | exact Hm | done | done | done | done | | done |].
  - simpl. by destruct items.
  - simpl. by destruct items.
Qed.

Lemma reconciliation_outcome_witness :
  exists run w' items fresh,
    start_reconciliation
      (ReconPorts0 := recon_ports (fun _ _ _ _ => Ok sample_internal) (fun _ _ _ => Ok sample_external))
      5 "ecocash" 0 9 "ops" (dec_new 1 2) empty_recon = (Ok run, w')
    /\ match_transactions (E := ReconciliationError) fresh
         (r_uuid (r_tick empty_recon)) sample_internal sample_external (dec_new 1 2) = Ok items
    /\ money (rn_internal_total run) (total [1000; 2000; 300]%Z)
    /\ money (rn_external_total run) (total [2001; 1000; 5]%Z)
    /\ rn_matched_count run = 0%Z
    /\ rn_discrepancy_count run = Z.of_nat (length items)
    /\ rn_status run = (match items with [] => RsCompleted | _ => RsPartiallyResolved end)
    /\ reports w' = (reports empty_recon ++ [report_row run])%list
    /\ status_of_column (rep_status (report_row run)) = RsCompleted.
Proof.
  apply (reconciliation_outcome (fun _ _ _ _ => Ok sample_internal) (fun _ _ _ => Ok sample_external)
           5%N "ecocash" 0 9 "ops" (dec_new 1 2) sample_internal sample_external
           [1000; 2000; 300]%Z [2001; 1000; 5]%Z 5000 empty_recon);
    [exact test_r_no_faults | reflexivity | reflexivity | | | lia | simpl; lia | simpl; lia | reflexivity];
    repeat constructor; try lia; apply money_new; unfold in_i64; lia.
Defined.

(** A source that fails does not leave a run behind as running: the run's
    row is stored with status failed, no item is stored, and the caller gets
    the source's error (the transaction source's first). *)
Theorem reconciliation_source_error `{DecimalOps} `{UuidOps} `{ReconEnv}
    internal_source external_source tenant provider from to by' tol x (w : ReconWorld) :
  r_no_faults ->
  (internal_source tenant provider from to = Err x /\ external_source provider from to <> Panic
   \/ exists i, internal_source tenant provider from to = Ok i
               /\ external_source provider from to = Err x) ->
  report_of (r_uuid (r_tick w)) (reports w) = None ->
  exists row w',
    start_reconciliation (ReconPorts0 := recon_ports internal_source external_source)
      tenant provider from to by' tol w = (Err x, w')
    /\ reports w' = (reports w ++ [row])%list /\ mismatches w' = mismatches w
    /\ rep_report_id row = r_uuid (r_tick w)
    /\ status_of_column (rep_status row) = RsFailed.
Proof.
  intros Hf Hsrc Hnew.
  destruct (start_err internal_source external_source tenant provider from to by' tol x w Hf Hsrc)
    as (failed & w' & Hstart & Hm & Hr).
  eexists _, w'. split_and!; [exact Hstart | | exact Hm | |].
  - rewrite Hr, (upsert_report_new (report_row (running _ _ _ _ _ _ _))) by done.
    by apply upsert_report_again.
  - done.
  - done.
Qed.

Lemma reconciliation_source_error_witness :
  exists row w',
    start_reconciliation (ReconPorts0 := recon_ports placeholder_internal statement_adapter)
      5 "mtn" 0 9 "ops" (dec_new 1 2) empty_recon = (Err (RProviderError "Unknown provider: mtn"), w')
    /\ reports w' = (reports empty_recon ++ [row])%list /\ mismatches w' = mismatches empty_recon
    /\ rep_report_id row = r_uuid (r_tick empty_recon)
    /\ status_of_column (rep_status row) = RsFailed.
Proof.
  apply (reconciliation_source_error placeholder_internal statement_adapter 5%N "mtn" 0 9 "ops"
           (dec_new 1 2) (RProviderError "Unknown provider: mtn") empty_recon);
    [exact test_r_no_faults | right; by exists [] | reflexivity].
Defined.

(** What is read back after a resolution: the discrepancy is marked resolved
    unless it was escalated, its notes carry the action and the text; but the
    resolver read back is the name of the action, not the person, and every
    action but an escalation reads back as an approval. *)
Theorem resolution_readback `{DecimalOps} `{UuidOps} `{ReconEnv} internal_source external_source
    (item_id run_id tenant : Uuid) (a : ResolutionAction) (notes resolved_by : string)
    (row : MismatchRow) (w : ReconWorld) :
  r_no_faults -> (forall r, r_sees_item tenant r = true) ->
  List.find (fun r => N.eqb (mm_mismatch_id r) item_id) (mismatches w) = Some row ->
  exists item, fst (resolve_discrepancy (ReconPorts0 := recon_ports internal_source external_source)
                      item_id run_id tenant a notes resolved_by w) = Ok item
    /\ ri_item_id item = item_id
    /\ ri_resolved item = negb (bool_decide (a = Escalate))
    /\ ri_resolution_action item = Some (if bool_decide (a = Escalate) then Escalate else Approve)
    /\ ri_notes item = Some ("[" +:+ action_as_str a +:+ "] " +:+ notes)
    /\ ri_resolved_by item = Some (action_as_str a)
    /\ is_Some (ri_resolved_at item).
Proof.
  intros Hf Hsee Hfind. unfold resolve_discrepancy. cbn [update_item_resolution get_item recon_ports].
  erewrite bind_ok; [|unfold pg_update_item_resolution; run_step (r_statement_ok _ Hf); reflexivity].
  unfold pg_get_item. do 2 run_step (r_statement_ok _ Hf). erewrite bind_ok; [|reflexivity].
  cbn [mismatches r_next set_mismatches]. set (now := r_clock _).
  rewrite (find_map_resolved item_id a notes resolved_by now tenant row) by done.
  eexists. split; [reflexivity|]. cbn.
  apply List.find_some in Hfind as [_ Hid%N.eqb_eq]. split; [done|].
  split; [by destruct a|]. split; [by destruct a|]. split; [done|].
  split; [by destruct a | by eexists].
Qed.

Definition open_item : MismatchRow :=
  mkMismatchRow 3 7 "amount_diff" "tx" "1.00" "tx" "1.01" "0.01" "" "open" (Some "") None None 0.

Lemma resolution_readback_witness :
  exists item, fst (resolve_discrepancy
      (ReconPorts0 := recon_ports placeholder_internal statement_adapter)
      3 7 5 Ignore "small" "alice" (mkReconWorld [] [open_item] [] 0)) = Ok item
    /\ ri_item_id item = 3%N
    /\ ri_resolved item = negb (bool_decide (Ignore = Escalate))
    /\ ri_resolution_action item = Some (if bool_decide (Ignore = Escalate) then Escalate else Approve)
    /\ ri_notes item = Some ("[" +:+ action_as_str Ignore +:+ "] " +:+ "small")
    /\ ri_resolved_by item = Some (action_as_str Ignore)
    /\ is_Some (ri_resolved_at item).
Proof.
  apply (resolution_readback placeholder_internal statement_adapter 3%N 7%N 5%N Ignore "small" "alice"
           open_item); [exact test_r_no_faults | done | reflexivity].
Defined.
