(* ===== verification/ReconConcurrency.v ===== *)
(** * Concurrent reconciliation requests

    The operations of [reconciliation-engine/src/application/handler.rs] that
    write, over the store of [postgres_recon_store.rs], as threads: one step per
    statement.  Runs write only the rows of their own run, which the theorem
    turns into isolation: what a run stored is what is found, whatever else runs
    at the same time. *)

From Stdlib Require Import ZArith Lia.
From stdpp Require Import base list strings numbers sorting relations.
From S2P Require Import Prelude RustStr External Reference Recon Matching ReconStore.
From S2P Require Import Threads Ownership.

Local Open Scope string_scope.

(** What runs concurrently *)
Inductive ReconTask `{DecimalOps} : Type :=
  | StartRun (tenant_id : Uuid) (provider_name : string) (period_start period_end : DateTime)
      (initiated_by : string) (tolerance : Dec)
  | Resolve (item_id run_id tenant_id : Uuid) (action : ResolutionAction) (notes resolved_by : string)
  | BulkResolve (run_id tenant_id : Uuid) (item_ids : list Uuid) (action : ResolutionAction)
      (notes resolved_by : string).

Inductive ReconReply `{DecimalOps} : Type :=
  | Ran (run : ReconciliationRun)
  | Resolved (item : ReconciliationItem)
  | ResolvedCount (count : Z).

Section concurrent.
Context `{DecimalOps} `{UuidOps} `{ReconEnv}.

(** The sources of transactions *)
Variable internal_source : Uuid -> string -> DateTime -> DateTime ->
  Result ReconciliationError (list InternalTransaction).
Variable external_source : string -> DateTime -> DateTime ->
  Result ReconciliationError (list ExternalTransaction).

#[local] Instance ports : ReconPorts ReconWorld := recon_ports internal_source external_source.

Abbreviation ReconThread := (Thread ReconWorld ReconciliationError).

(** ** The operations, statement by statement *)

Definition save_run_thread (run : ReconciliationRun) : ReconThread unit :=
  atom r_statement ;;
  atom (r_statement ;; modify (fun w => set_reports (upsert_report (report_row run) (reports w)) w)).

Fixpoint save_items_thread (items : list ReconciliationItem) : ReconThread unit :=
  match items with
  | [] => mret tt
  | item :: rest => atom (pg_save_item item) ;; save_items_thread rest
  end.

Definition get_item_thread (item_id tenant_id : Uuid) : ReconThread ReconciliationItem :=
  atom r_statement ;;
  atom (r_statement ;;
    rows ← gets mismatches;
    match List.find (fun r => N.eqb (mm_mismatch_id r) item_id && r_sees_item tenant_id r) rows with
    | Some row => mret (map_item_row row)
    | None => throw (RNotFound ("Item " +:+ uuid_to_string item_id +:+ " not found"))
    end).

(** [match_transactions], which draws an identifier per item *)
Definition match_step (run_id : Uuid) (internal : list InternalTransaction)
    (external : list ExternalTransaction) (tolerance : Dec)
    : M ReconWorld ReconciliationError (list ReconciliationItem) :=
  fresh ← gets rp_fresh;
  items ← lift (match_transactions fresh run_id internal external tolerance);
  modify (rp_used (length items)) ;;
  mret items.

Definition reconcile_thread (run : ReconciliationRun) (internal : list InternalTransaction)
    (external : list ExternalTransaction) (tolerance : Dec) : ReconThread ReconciliationRun :=
  internal_total ← Done (dec_sum (map it_amount internal));
  external_total ← Done (dec_sum (map et_amount external));
  items ← atom (match_step (rn_run_id run) internal external tolerance);
  discrepancy_amount ← Done (dec_sum (map (fun i => dec_abs (ri_difference i)) items));
  let run := tally run internal external items internal_total external_total discrepancy_amount in
  save_items_thread items ;;
  let status := if (0 <? rn_discrepancy_count run)%Z then RsPartiallyResolved else RsCompleted in
  now ← atom r_now;
  let run := set_status run status (rn_started_at run) (Some now) in
  save_run_thread run ;;
  mret run.

Definition start_reconciliation_thread (tenant_id : Uuid) (provider_name : string)
    (period_start period_end : DateTime) (initiated_by : string) (tolerance : Dec)
    : ReconThread ReconciliationRun :=
  run_id ← atom rp_new_v4;
  started ← atom r_now;
  let run := set_status (new_run run_id tenant_id provider_name period_start period_end
                           initiated_by) RsRunning (Some started) None in
  save_run_thread run ;;
  internal ← thread_attempt (Done (internal_source tenant_id provider_name period_start period_end));
  external ← thread_attempt (Done (external_source provider_name period_start period_end));
  match internal, external with
  | Ok i, Ok e => reconcile_thread run i e tolerance
  | Err x, _ | _, Err x =>
      failed ← atom r_now;
      let run := set_status run RsFailed (rn_started_at run) (Some failed) in
      save_run_thread run ;;
      Done (Err x)
  | _, _ => Done Panic
  end.

Definition resolve_discrepancy_thread (item_id _run_id tenant_id : Uuid) (action : ResolutionAction)
    (notes resolved_by : string) : ReconThread ReconciliationItem :=
  atom (pg_update_item_resolution item_id action notes resolved_by) ;;
  get_item_thread item_id tenant_id.

Fixpoint bulk_loop_thread (item_ids : list Uuid) (action : ResolutionAction)
    (notes resolved_by : string) (count : Z) : ReconThread Z :=
  match item_ids with
  | [] => mret count
  | id :: rest =>
      r ← thread_attempt (E' := ReconciliationError)
            (atom (pg_update_item_resolution id action notes resolved_by));
      bulk_loop_thread rest action notes resolved_by
        (match r with Ok _ => count + 1 | _ => count end)%Z
  end.

Definition recon_thread (t : ReconTask) : ReconThread ReconReply :=
  match t with
  | StartRun tenant provider from to by_ tol =>
      r ← start_reconciliation_thread tenant provider from to by_ tol; mret (Ran r)
  | Resolve item run tenant a notes by_ =>
      r ← resolve_discrepancy_thread item run tenant a notes by_; mret (Resolved r)
  | BulkResolve run tenant items a notes by_ =>
      r ← bulk_loop_thread items a notes by_ 0; mret (ResolvedCount r)
  end.

(** ** Alone, a thread is its handler *)

Lemma save_run_implements run : implements (save_run_thread run) (pg_save_run run).
Proof. unfold save_run_thread, pg_save_run. auto 6 with threads. Qed.

Lemma save_items_implements items : implements (save_items_thread items) (forM items pg_save_item).
Proof.
  induction items as [|it items IH]; [done|]. apply implements_bind; [apply implements_atom | done].
Qed.

Lemma get_item_implements id tenant : implements (get_item_thread id tenant) (pg_get_item id tenant).
Proof. unfold get_item_thread, pg_get_item. auto 6 with threads. Qed.

Hint Resolve save_run_implements save_items_implements get_item_implements : threads.

Lemma reconcile_implements run i e tol :
  implements (reconcile_thread run i e tol) (reconcile run i e tol).
Proof.
  unfold reconcile_thread, reconcile.
  apply implements_bind; [auto with threads|]. intros it.
  apply implements_bind; [auto with threads|]. intros et. intros w.
  rewrite run_bind, (implements_atom _ w). unfold match_step.
  rewrite !(bind_ok (gets rp_fresh) _ w (rp_fresh w) w) by done.
  destruct (match_transactions _ _ _ _ _) as [items|x|]; [|done|done].
  rewrite !(bind_ok (lift (Ok items)) _ w items w) by done.
  rewrite !(bind_ok (modify (rp_used (length items))) _ w tt (rp_used (length items) w)) by done.
  apply implements_bind; [auto with threads|]. intros d.
  apply implements_bind; [apply save_items_implements|]. intros [].
  apply implements_bind; [apply implements_atom|]. intros now.
  apply implements_bind; [apply save_run_implements|]. auto with threads.
Qed.

Lemma start_implements tenant provider from to by_ tol :
  implements (start_reconciliation_thread tenant provider from to by_ tol)
    (start_reconciliation tenant provider from to by_ tol).
Proof.
  unfold start_reconciliation_thread, start_reconciliation.
  apply implements_bind; [apply implements_atom|]. intros id.
  apply implements_bind; [apply implements_atom|]. intros started.
  apply implements_bind; [apply save_run_implements|]. intros [].
  apply implements_bind; [apply implements_attempt, implements_done|]. intros i.
  apply implements_bind; [apply implements_attempt, implements_done|]. intros e.
  assert (Hfail : forall x, implements
    (failed ← atom r_now;
     let run := set_status (set_status (new_run id tenant provider from to by_) RsRunning (Some started) None)
                  RsFailed (Some started) (Some failed) in
     save_run_thread run ;; Done (Err x) : ReconThread ReconciliationRun)
    (failed ← r_now;
     let run := set_status (set_status (new_run id tenant provider from to by_) RsRunning (Some started) None)
                  RsFailed (Some started) (Some failed) in
     pg_save_run run ;; throw x)).
  { intros x. apply implements_bind; [apply implements_atom|]. intros failed.
    by apply implements_bind; [apply save_run_implements|]. }
  destruct i as [i|x|], e as [e|y|]; first [apply reconcile_implements | apply Hfail | done].
Qed.

Definition recon_handle (t : ReconTask) : M ReconWorld ReconciliationError ReconReply :=
  match t with
  | StartRun tenant provider from to by_ tol =>
      r ← start_reconciliation tenant provider from to by_ tol; mret (Ran r)
  | Resolve item run tenant a notes by_ =>
      r ← resolve_discrepancy item run tenant a notes by_; mret (Resolved r)
  | BulkResolve run tenant items a notes by_ =>
      r ← bulk_resolve_discrepancies run tenant items a notes by_; mret (ResolvedCount r)
  end.

Lemma bulk_implements ids a notes by_ n :
  implements (bulk_loop_thread ids a notes by_ n) (bulk_loop ids a notes by_ n).
Proof.
  revert n. induction ids as [|id ids IH]; intros n; [done|].
  apply implements_bind; [apply implements_attempt, implements_atom | intros r; apply IH].
Qed.

Lemma recon_implements t : implements (recon_thread t) (recon_handle t).
Proof.
  destruct t; (apply implements_bind; [|auto with threads]).
  - apply start_implements.
  - apply implements_bind; [apply implements_atom | intros []; apply get_item_implements].
  - apply bulk_implements.
Qed.

(** ** The items of a run *)

(** Identifiers in the order they were drawn, all of the run, none resolved. *)
Definition items_of (fresh : nat -> Uuid) (run_id : Uuid) (items : list ReconciliationItem) : Prop :=
  forall k it, items !! k = Some it ->
  ri_item_id it = fresh k /\ ri_run_id it = run_id /\ ri_resolved it = false.

Lemma items_of_snoc fresh run_id items it : items_of fresh run_id items ->
  ri_item_id it = fresh (length items) -> ri_run_id it = run_id -> ri_resolved it = false ->
  items_of fresh run_id (items ++ [it]).
Proof.
  intros Hi H1' H2' H3' k x [[_ Hx]|[-> <-]]%lookup_snoc_Some; [by apply Hi | done].
Qed.

Lemma match_internal_items {E} fresh run_id tol external internal matched items m' items' :
  items_of fresh run_id items ->
  match_internal (E := E) fresh run_id tol external internal matched items = Ok (m', items') ->
  items_of fresh run_id items'.
Proof.
  revert matched items. induction internal as [|i internal IH]; intros matched items Hi; simpl.
  { by intros [= <- <-]. }
  unfold mbind, Result_bind. destruct (find_match _ _ _ _ _) as [[[idx e]|]|x|]; [| |done|done].
  - destruct (dec_op _) as [d|x|]; [|done|done]. apply IH.
    destruct (dec_gtb _ _); [by apply items_of_snoc | done].
  - apply IH. by apply items_of_snoc.
Qed.

Lemma push_unmatched_items fresh run_id external matched items :
  items_of fresh run_id items -> items_of fresh run_id (push_unmatched fresh run_id external matched items).
Proof.
  revert matched items. induction external as [|e external IH]; intros [|[] matched] items Hi; simpl; try done.
  - by apply IH.
  - apply IH. by apply items_of_snoc.
Qed.

Lemma match_transactions_items {E} fresh run_id internal external tol items :
  match_transactions (E := E) fresh run_id internal external tol = Ok items -> items_of fresh run_id items.
Proof.
  unfold match_transactions, mbind, Result_bind.
  destruct (match_internal _ _ _ _ _ _ _) as [[m' items']|x|] eqn:Em; [|done|done]. intros [= <-].
  apply push_unmatched_items. eapply match_internal_items; [|exact Em]. by intros k it.
Qed.

(** ** What is stored under an identifier *)

(** What a mismatch row says, apart from its resolution and its time *)
Definition facts (r : MismatchRow) :=
  (mm_mismatch_id r, mm_report_id r, mm_mismatch_type r, mm_kernel_reference r, mm_kernel_amount r,
   mm_provider_reference r, mm_provider_amount r, mm_amount_difference r, mm_discrepancy_reason r).

Definition item_facts (item : ReconciliationItem) := facts (mismatch_row item 0).

Definition reports_of (x : Uuid) (w : ReconWorld) : list ReportRow :=
  List.filter (fun r => N.eqb (rep_report_id r) x) (reports w).

Definition facts_of (x : Uuid) (w : ReconWorld) :=
  map facts (List.filter (fun r => N.eqb (mm_report_id r) x) (mismatches w)).

Definition facts_at (x : Uuid) (w : ReconWorld) :=
  map facts (List.filter (fun r => N.eqb (mm_mismatch_id r) x) (mismatches w)).

Definition view (w : ReconWorld) (x : Uuid) := (reports_of x w, facts_of x w, facts_at x w).

Definition born (w : ReconWorld) (x : Uuid) : Prop := exists n, n < r_tick w /\ x = r_uuid n.

(** Nothing is stored under an identifier not drawn yet. *)
Definition fresh_ok (w : ReconWorld) : Prop := forall n, r_tick w <= n -> view w (r_uuid n) = ([], [], []).

Hypothesis uuid_inj : forall m n, r_uuid m = r_uuid n -> m = n.

Lemma unborn_fresh w x n : born w x -> r_tick w <= n -> x <> r_uuid n.
Proof. intros (m & Hm & ->) Hn E. apply uuid_inj in E. lia. Qed.

Abbreviation step := (owner_step fresh_ok born view).
Abbreviation knows := (local fresh_ok view).

(** The tables stay, time passes, identifiers may be drawn. *)
Lemma step_draw X w w' new : fresh_ok w -> reports w' = reports w -> mismatches w' = mismatches w ->
  r_tick w <= r_tick w' -> (forall x, x ∈ new -> exists n, r_tick w <= n < r_tick w' /\ x = r_uuid n) ->
  step X new w w'.
Proof.
  intros Hw Hr Hm Ht Hn.
  assert (forall x, view w' x = view w x) as Hv.
  { intros x. unfold view, reports_of, facts_of, facts_at. by rewrite Hr, Hm. }
  split_and!.
  - intros n Hle. rewrite Hv. apply Hw. lia.
  - intros x (n & Hlt & ->). exists n. split; [lia | done].
  - intros x Hx. destruct (Hn x Hx) as (n & Hb & ->). split; [|by exists n; split; [lia|]].
    intros Hb'. by apply (unborn_fresh w (r_uuid n) n); [|lia|].
  - auto.
Qed.

(** Rows are written under identifiers of the owner only. *)
Lemma step_write X w w' : fresh_ok w -> (forall x, x ∈ X -> born w x) -> r_tick w <= r_tick w' ->
  (forall x, x ∉ X -> view w' x = view w x) -> step X [] w w'.
Proof.
  intros Hw Hb Ht Hv. split_and!.
  - intros n Hle. rewrite Hv; [apply Hw; lia|].
    intros Hx. by apply (unborn_fresh w (r_uuid n) n); [apply Hb | lia|].
  - intros x (n & Hlt & ->). exists n. split; [lia | done].
  - by intros x Hx%not_elem_of_nil.
  - auto.
Qed.

(** ** Writing a row *)

Lemma upsert_report_other x r rows : rep_report_id r <> x ->
  List.filter (fun y => N.eqb (rep_report_id y) x) (upsert_report r rows)
  = List.filter (fun y => N.eqb (rep_report_id y) x) rows.
Proof.
  intros Hne. apply N.eqb_neq in Hne. induction rows as [|y rows IH]; simpl; [by rewrite Hne|].
  destruct (N.eqb_spec (rep_report_id y) (rep_report_id r)) as [E|]; simpl; [by rewrite E, Hne|].
  by rewrite IH.
Qed.

(** The first row of a run, and later ones over it *)
Lemma upsert_report_own r rows :
  List.filter (fun y => N.eqb (rep_report_id y) (rep_report_id r)) (upsert_report r rows)
  = match List.filter (fun y => N.eqb (rep_report_id y) (rep_report_id r)) rows with
    | [] => [r]
    | y :: rest => upsert_report r [y] ++ rest
    end%list.
Proof.
  induction rows as [|y rows IH]; simpl; [by rewrite N.eqb_refl|].
  destruct (N.eqb_spec (rep_report_id y) (rep_report_id r)) as [E|Hne]; simpl.
  - by rewrite E, N.eqb_refl.
  - apply N.eqb_neq in Hne. by rewrite Hne, IH.
Qed.

Lemma upsert_mismatch_new r rows :
  List.filter (fun y => N.eqb (mm_mismatch_id y) (mm_mismatch_id r)) rows = [] ->
  upsert_mismatch r rows = (rows ++ [r])%list.
Proof.
  induction rows as [|y rows IH]; simpl; [done|]. destruct (N.eqb _ _); [done|].
  intros Hn. by rewrite IH.
Qed.

(** ** What the owner of a run knows: its report, what its items say, and
    identifiers under which no item is stored *)

Definition run_state (rid : Uuid) (rs : list ReportRow) fs (unused : list Uuid) (w : ReconWorld) : Prop :=
  reports_of rid w = rs /\ facts_of rid w = fs /\ forall y, y ∈ unused -> facts_at y w = [].

Lemma run_state_local rid rs fs unused X : rid ∈ X -> (forall y, y ∈ unused -> y ∈ X) ->
  knows X (run_state rid rs fs unused).
Proof.
  intros Hr Hu w w' _ Hv (<- & <- & Hy). pose proof (Hv rid Hr) as E. unfold view in E. simplify_eq.
  split_and!; [done | done|]. intros y Hin. pose proof (Hv y (Hu y Hin)) as E'. unfold view in E'.
  rewrite <- (Hy y Hin). congruence.
Qed.

Lemma nothing_unused (X : list Uuid) : forall y, y ∈ [] -> y ∈ X.
Proof. by intros y Hy%not_elem_of_nil. Qed.

Hint Resolve nothing_unused : core.

(** ** Rules for the statements *)

Abbreviation owns := (owned fresh_ok born view).

Lemma quiet_atom {A} X S (m : M ReconWorld ReconciliationError A) : knows X S ->
  (forall w, reports (snd (m w)) = reports w /\ mismatches (snd (m w)) = mismatches w
             /\ r_tick w <= r_tick (snd (m w))) ->
  owns (keeping X S) X S (atom m).
Proof.
  intros Hl Hm. apply owned_quiet; [done|]. intros w Hw. destruct (Hm w) as (Hr & Hi & Ht).
  apply step_draw; try done. by intros x Hx%not_elem_of_nil.
Qed.

Lemma statement_atom X S : knows X S -> owns (keeping X S) X S (atom r_statement).
Proof.
  intros Hl. apply quiet_atom; [done|]. intros w. unfold r_statement.
  destruct (r_fault _); simpl; split_and!; done || lia.
Qed.

Lemma now_atom X S : knows X S -> owns (keeping X S) X S (atom r_now).
Proof. intros Hl. apply quiet_atom; [done|]. intros w. simpl. split_and!; done || lia. Qed.

(** A resolution changes nothing any thread relies on. *)
Lemma resolve_atom X S id a notes by_ : knows X S ->
  owns (keeping X S) X S (atom (pg_update_item_resolution id a notes by_)).
Proof.
  intros Hl. apply owned_quiet; [done|]. intros w Hw. apply step_write; [done | | |].
  - by intros x Hx%not_elem_of_nil.
  - unfold pg_update_item_resolution, r_statement, mbind, M_bind. destruct (r_fault _); simpl; lia.
  - intros x _. unfold pg_update_item_resolution, r_statement, mbind, M_bind.
    destruct (r_fault _); [done|]. unfold view, reports_of, facts_of, facts_at. simpl.
    f_equal; [f_equal|]; induction (mismatches w) as [|r rows IH]; simpl; try done;
      destruct (N.eqb (mm_mismatch_id r) id); simpl; case_match; simpl; by rewrite ?IH.
Qed.

(** The report of a run over what the owner had there *)
Lemma own_report run rs fs unused X : rn_run_id run ∈ X -> (forall y, y ∈ unused -> y ∈ X) ->
  owns (on_ok (keeping X (run_state (rn_run_id run)
          (match rs with [] => [report_row run] | y :: rest => upsert_report (report_row run) [y] ++ rest end)%list
          fs unused)))
    X (run_state (rn_run_id run) rs fs unused) (save_run_thread run).
Proof.
  intros Hr Hu. eapply owned_then; [by apply owned_keeping, statement_atom, run_state_local|].
  intros X' []. apply owned_atom. intros w Hw Hb [-> (Hrs & Hfs & Hy)]. exists [].
  unfold r_statement, mbind, M_bind. destruct (r_fault _); cbn [fst snd modify].
  { split; [|done]. apply step_draw; simpl; try done; [lia | by intros x Hx%not_elem_of_nil]. }
  split.
  - apply step_write; [done | done | simpl; lia|]. intros x Hx. unfold view, reports_of. simpl.
    rewrite upsert_report_other; [done|]. simpl. by intros <-.
  - intros [] _. split.
    + intros w1 w2 Hw2 Hv [_ Hs]. split; [done|]. by eapply (run_state_local _ _ _ _ X).
    + split; [done|]. split_and!; [|done|done]. unfold reports_of in *. simpl.
      change (rn_run_id run) with (rep_report_id (report_row run)). rewrite upsert_report_own.
      simpl in Hrs |- *. by rewrite Hrs.
Qed.

(** An item not stored yet *)
Lemma own_item rid rs fs item rest X : ri_run_id item = rid -> rid ∈ X ->
  NoDup (map ri_item_id (item :: rest)) -> (forall it, it ∈ item :: rest -> ri_item_id it ∈ X) ->
  owns (on_ok (keeping X (run_state rid rs (fs ++ [item_facts item])%list (map ri_item_id rest))))
    X (run_state rid rs fs (map ri_item_id (item :: rest))) (atom (pg_save_item item)).
Proof.
  intros Hid Hr Hn Hx. apply owned_atom. intros w Hw Hb (Hrs & Hfs & Hy). exists [].
  assert (forall y, y ∈ map ri_item_id rest -> y ∈ X) as Hrest.
  { intros y (it & -> & Hit)%list_elem_of_fmap_1. apply Hx. by right. }
  assert (ri_item_id item ∈ X) as Hitem by (apply Hx; by left).
  assert (facts_at (ri_item_id item) w = []) as Hnone by (apply Hy; by left).
  unfold pg_save_item, r_statement, mbind, M_bind. destruct (r_fault _); cbn [fst snd modify].
  { split; [|done]. apply step_draw; simpl; try done; [lia | by intros x Hx'%not_elem_of_nil]. }
  set (row := mismatch_row item _). simpl mismatches.
  assert (upsert_mismatch row (mismatches w) = (mismatches w ++ [row])%list) as ->.
  { apply upsert_mismatch_new. by apply map_eq_nil in Hnone. }
  split.
  - apply step_write; [done | done | simpl; lia|]. intros x Hx'. unfold view, reports_of, facts_of, facts_at.
    simpl. rewrite !List.filter_app. simpl. rewrite Hid.
    rewrite (proj2 (N.eqb_neq rid x)), (proj2 (N.eqb_neq (ri_item_id item) x)), !app_nil_r;
      [done | by intros <- | by intros <-].
  - intros [] _. split.
    + intros w1 w2 Hw2 Hv [_ Hs]. split; [done|]. by eapply (run_state_local _ _ _ _ X).
    + split; [done|]. split_and!; [done | |].
      * unfold facts_of in *. simpl. rewrite List.filter_app, map_app, Hfs. simpl.
        by rewrite Hid, N.eqb_refl.
      * intros y Hin. unfold facts_at. simpl. rewrite List.filter_app. simpl.
        cbn [map] in Hn. apply NoDup_cons in Hn as [Hne _].
        rewrite (proj2 (N.eqb_neq (ri_item_id item) y)), app_nil_r by (by intros <-).
        apply (Hy y). by right.
Qed.

Lemma own_items rid rs items X : forall fs,
  Forall (fun it => ri_run_id it = rid) items -> rid ∈ X -> NoDup (map ri_item_id items) ->
  (forall it, it ∈ items -> ri_item_id it ∈ X) ->
  owns (on_ok (keeping X (run_state rid rs (fs ++ map item_facts items)%list [])))
    X (run_state rid rs fs (map ri_item_id items)) (save_items_thread items).
Proof.
  induction items as [|item rest IH]; intros fs Hid Hr Hn Hx;
    cbn [save_items_thread map].
  { apply owned_ret. intros w _ Hs. by rewrite app_nil_r. }
  apply Forall_cons in Hid as [Hi Hid]. eapply owned_then; [by apply own_item|].
  intros X' []. apply owned_fact. intros ->. cbn [map] in Hn. apply NoDup_cons in Hn as [_ Hn].
  replace (fs ++ item_facts item :: map item_facts rest)%list
    with ((fs ++ [item_facts item]) ++ map item_facts rest)%list by (by rewrite <- app_assoc).
  apply IH; [done | done | done|]. intros it Hit. apply Hx. by right.
Qed.

(** ** A run *)

(** What matching yields *)
Definition matched (rid : Uuid) (i : list InternalTransaction) (e : list ExternalTransaction) (tol : Dec)
    (items : list ReconciliationItem) : Prop :=
  NoDup (map ri_item_id items) /\ Forall (fun it => ri_run_id it = rid) items
  /\ Forall (fun it => ri_resolved it = false) items
  /\ exists fresh, match_transactions (E := ReconciliationError) fresh rid i e tol = Ok items.

Lemma matched_of_fresh n rid i e tol items :
  match_transactions (E := ReconciliationError) (fun k => r_uuid (k + n)) rid i e tol = Ok items ->
  matched rid i e tol items /\ forall k it, items !! k = Some it -> ri_item_id it = r_uuid (k + n).
Proof.
  intros Hm. pose proof (match_transactions_items _ _ _ _ _ _ Hm) as Hi.
  split; [split_and!|intros k it Hk; by apply Hi]; [|apply Forall_lookup|apply Forall_lookup|by eexists].
  - apply NoDup_alt. intros k1 k2 x. rewrite !list_lookup_fmap, !fmap_Some.
    intros (a & Ha & ->) (b & Hb & E). apply Hi in Ha as [Ha _], Hb as [Hb _].
    rewrite Ha, Hb in E. apply uuid_inj in E. lia.
  - intros k it Hk. by apply Hi in Hk as (_ & ? & _).
  - intros k it Hk. by apply Hi in Hk as (_ & _ & ?).
Qed.

Lemma own_match rid rs i e tol :
  owns (on_ok (fun X items w => X = (map ri_item_id items ++ [rid])%list /\ matched rid i e tol items
                 /\ run_state rid rs [] (map ri_item_id items) w))
    [rid] (run_state rid rs [] []) (atom (match_step rid i e tol)).
Proof.
  apply owned_atom. intros w Hw Hb Hs. unfold match_step.
  rewrite (bind_ok (gets rp_fresh) _ w (rp_fresh w) w) by done.
  change (rp_fresh w) with (fun k => r_uuid (k + r_tick w)).
  destruct (match_transactions _ rid i e tol) as [items|x|] eqn:Em.
  - destruct (matched_of_fresh _ _ _ _ _ _ Em) as [Hm Hids]. exists (map ri_item_id items).
    rewrite (bind_ok (lift (Ok items)) _ w items w) by done.
    rewrite (bind_ok (modify _) _ w tt (rp_used (length items) w)) by done. cbn [fst snd mret M_ret].
    assert (forall y, y ∈ map ri_item_id items -> exists k, k < length items /\ y = r_uuid (k + r_tick w)) as Hy.
    { intros y (it & -> & Hit)%list_elem_of_fmap_1. apply list_elem_of_lookup in Hit as [k Hk].
      exists k. split; [by eapply lookup_lt_Some | by apply Hids]. }
    split.
    + apply step_draw; simpl; try done; [lia|]. intros x Hx. destruct (Hy x Hx) as (k & Hk & ->).
      eexists. split; [|reflexivity]. lia.
    + intros its [= <-]. split.
      * intros w1 w2 Hw2 Hv (HX & Hm' & Hs1). split_and!; [done | done|].
        eapply (run_state_local rid); [| |done|exact Hv|exact Hs1]; set_solver.
      * split_and!; [done | done|]. destruct Hs as (Hrs & Hfs & _). split_and!; [done | done|].
        intros y Hin. destruct (Hy y Hin) as (k & _ & ->).
        pose proof (Hw (k + r_tick w) ltac:(lia)) as E. unfold view in E. by simplify_eq.
  - exists []. split; [|done]. apply step_draw; simpl; try done. by intros y Hin%not_elem_of_nil.
  - exists []. split; [|done]. apply step_draw; simpl; try done. by intros y Hin%not_elem_of_nil.
Qed.

(** A run that returned is stored: one report with its final figures, and of
    its discrepancies exactly those found by matching, in their order. *)
Definition run_stored (tenant : Uuid) (provider : string) (from to : DateTime) (tol : Dec)
    (run : ReconciliationRun) (w : ReconWorld) : Prop :=
  exists i e fresh items, internal_source tenant provider from to = Ok i
    /\ external_source provider from to = Ok e
    /\ match_transactions (E := ReconciliationError) fresh (rn_run_id run) i e tol = Ok items
    /\ reports_of (rn_run_id run) w = [report_row run]
    /\ facts_of (rn_run_id run) w = map item_facts items
    /\ rn_discrepancy_count run = count_i32 items
    /\ dec_sum (E := ReconciliationError) (map it_amount i) = Ok (rn_internal_total run)
    /\ dec_sum (E := ReconciliationError) (map et_amount e) = Ok (rn_external_total run).

(** The result of a pure step *)
Lemma owned_pure {A B} (r : Result ReconciliationError A) (f : A -> ReconThread B) Q X S :
  (forall a, r = Ok a -> owns (on_ok Q) X S (f a)) -> owns (on_ok Q) X S (Done r ≫= f).
Proof. intros Hf. destruct r as [a|x|]; [by apply Hf | done | done]. Qed.

Lemma own_reconcile tenant provider from to tol i e run0 :
  internal_source tenant provider from to = Ok i -> external_source provider from to = Ok e ->
  owns (on_ok (fun _ run => run_stored tenant provider from to tol run))
    [rn_run_id run0] (run_state (rn_run_id run0) [report_row run0] [] []) (reconcile_thread run0 i e tol).
Proof.
  intros Hi He. unfold reconcile_thread. apply owned_pure. intros it Hit. apply owned_pure. intros et Het.
  eapply owned_then; [apply own_match|]. intros X items. apply owned_pure. intros d Hd.
  set (rid := rn_run_id run0). apply owned_fact. intros ->. apply owned_fact.
  intros (Hn & Hrun & Hun & fresh & Hm). set (X := (map ri_item_id items ++ [rid])%list).
  assert (rid ∈ X) as HrX by (apply elem_of_app; right; by left).
  set (run1 := tally run0 i e items it et d).
  eapply owned_then; [apply own_items; [done | done | done|]|].
  { intros x Hx. apply elem_of_app. left. by apply (list_elem_of_fmap_2 ri_item_id). }
  intros X' []. apply owned_fact. intros ->. cbn [app].
  eapply owned_then; [apply owned_keeping, now_atom, run_state_local; auto|].
  intros X' now. apply owned_fact. intros ->.
  eapply owned_then; [apply (own_report (set_status run1 _ (rn_started_at run1) (Some now))); auto|].
  intros X' []. apply owned_fact. intros ->. apply owned_ret. intros w _ (Hrs & Hfs & _).
  exists i, e, fresh, items. split_and!; try done.
  - rewrite Hrs. simpl. by rewrite N.eqb_refl.
  - simpl. by rewrite (proj2 (unresolved_counts items Hun)).
Qed.

(** The whole operation, from nothing owned *)
Lemma own_start tenant provider from to by_ tol :
  owns (on_ok (fun _ run => run_stored tenant provider from to tol run)) [] (fun _ => True)
    (start_reconciliation_thread tenant provider from to by_ tol).
Proof.
  unfold start_reconciliation_thread.
  eapply (owned_then _ _ _ (fun X rid w => X = [rid] /\ run_state rid [] [] [] w)).
  { apply owned_atom. intros w Hw _ _. exists [r_uuid (r_tick w)]. split.
    - apply step_draw; simpl; try done; [lia|]. intros x ->%list_elem_of_singleton.
      exists (r_tick w). split; [lia | done].
    - intros rid [= <-]. split.
      + intros w1 w2 Hw2 Hv [_ Hs]. split; [done|]. 
        eapply (run_state_local _ _ _ _ [_]); [by left | auto | done | exact Hv | exact Hs].
      + split; [done|]. pose proof (Hw (r_tick w) ltac:(lia)) as E. injection E as E1 E2 _.
        split_and!; [exact E1 | exact E2 | by intros y Hy%not_elem_of_nil]. }
  intros X rid. apply owned_fact. intros ->.
  eapply owned_then; [apply owned_keeping, now_atom, run_state_local; [by left | auto]|].
  intros X started. apply owned_fact. intros ->.
  set (run0 := set_status _ _ _ _).
  eapply owned_then; [apply (own_report run0); [by left | auto]|].
  intros X []. apply owned_fact. intros ->.
  assert (Hfail : forall x, owns (on_ok (fun _ run => run_stored tenant provider from to tol run))
    [rid] (run_state rid [report_row run0] [] [])
    (failed ← atom r_now;
     let run := set_status run0 RsFailed (rn_started_at run0) (Some failed) in
     save_run_thread run ;; Done (Err x))).
  { intros x. eapply owned_then; [apply owned_keeping, now_atom, run_state_local; [by left | auto]|].
    intros X failed. apply owned_fact. intros ->.
    eapply owned_then; [apply (own_report (set_status run0 RsFailed (rn_started_at run0) (Some failed))); [by left | auto]|].
    by intros X []. }
  destruct (internal_source tenant provider from to) as [i|x|] eqn:Ei;
    [| |done]; (destruct (external_source provider from to) as [e|y|] eqn:Ee;
    [| |done]); cbn [thread_attempt mbind Thread_bind thread_bind];
    first [by apply (own_reconcile tenant provider from to tol i e run0) | apply Hfail].
Qed.

(** ** Every task *)

Lemma nothing_known X : knows X (fun _ => True).
Proof. done. Qed.

Lemma own_resolve item run tenant a notes by_ :
  owns (on_ok (keeping [] (fun _ => True))) [] (fun _ => True)
    (resolve_discrepancy_thread item run tenant a notes by_).
Proof.
  unfold resolve_discrepancy_thread, get_item_thread.
  eapply owned_then; [apply owned_keeping, resolve_atom, nothing_known|].
  intros X []. apply owned_fact. intros ->.
  eapply owned_then; [apply owned_keeping, statement_atom, nothing_known|].
  intros X []. apply owned_fact. intros ->. apply owned_keeping, quiet_atom; [done|].
  intros w. unfold r_statement, mbind, M_bind, gets. destruct (r_fault _); cbn [fst snd].
  - simpl. split_and!; done || lia.
  - case_match; simpl; split_and!; done || lia.
Qed.

Lemma own_bulk ids a notes by_ n :
  owns (on_ok (keeping [] (fun _ => True))) [] (fun _ => True) (bulk_loop_thread ids a notes by_ n).
Proof.
  revert n. induction ids as [|id ids IH]; intros n; cbn [bulk_loop_thread]; [by apply owned_ret|].
  eapply owned_then; [apply owned_keeping, owned_attempt, resolve_atom, nothing_known|].
  intros X r. apply owned_fact. intros ->. apply IH.
Qed.

Definition recon_answer (t : ReconTask) (reply : ReconReply) (w : ReconWorld) : Prop :=
  match t, reply with
  | StartRun tenant provider from to _ tol, Ran run => run_stored tenant provider from to tol run w
  | _, _ => True
  end.

Lemma own_task t : owns (on_ok (fun _ => recon_answer t)) [] (fun _ => True) (recon_thread t).
Proof.
  destruct t as [tenant provider from to by_ tol|item run tenant a notes by_|run tenant ids a notes by_];
    cbn [recon_thread].
  - eapply owned_then; [apply own_start|]. intros X run. by apply owned_ret.
  - eapply owned_then; [apply own_resolve|]. intros X r. by apply owned_ret.
  - eapply owned_then; [apply own_bulk|]. intros X r. by apply owned_ret.
Qed.

End concurrent.

(** ** Theorems *)

(** C17. Concurrent reconciliations do not disturb each other: with identifiers
    never drawn twice, whatever runs and resolutions interleave and whatever
    statements fail, a run that returns is found in the tables as it was
    computed: one report with its final status, counts and totals, and exactly
    the discrepancies that matching its own transactions yields, in their
    order; the others may only change how these are resolved. *)
Theorem concurrent_runs_isolated `{DecimalOps} `{UuidOps} `{ReconEnv} internal_source external_source
    (tasks : list ReconTask) (w w' : ReconWorld) ts' :
  (forall m n, r_uuid m = r_uuid n -> m = n) -> fresh_ok w ->
  rtc interleave (map (recon_thread internal_source external_source) tasks, w) (ts', w') ->
  fresh_ok w' /\ forall k tenant provider from to by_ tol run,
    tasks !! k = Some (StartRun tenant provider from to by_ tol) ->
    ts' !! k = Some (Done (Ok (Ran run))) ->
    run_stored internal_source external_source tenant provider from to tol run w'.
Proof.
  intros Hinj Hw Hs.
  destruct (interleave_owned fresh_ok born view
    (map (fun t => on_ok (fun _ => recon_answer internal_source external_source t)) tasks)
    (map (recon_thread internal_source external_source) tasks) w ts' w' Hw) as [Hw' Hd]; [|done|].
  - clear Hs. induction tasks as [|t tasks IH]; simpl; constructor; [by apply own_task | done].
  - split; [done|]. intros k tenant provider from to by_ tol run Hk Hr.
    destruct (Hd k _ _ ltac:(rewrite list_lookup_fmap, Hk; reflexivity) Hr) as [X HX].
    by apply (HX (Ran run)).
Qed.

Lemma concurrent_runs_isolated_witness :
  let int := fun _ _ _ _ => Ok sample_internal in
  let ext := fun _ _ _ => Ok sample_external in
  let tasks := [StartRun 5 "ecocash" 0 9 "ops" (dec_new 1 2); Resolve 3 0 5 Ignore "n" "ops";
                StartRun 6 "onemoney" 0 9 "ops" (dec_new 1 2)] in
  let played := play [0; 2; 2; 0; 0; 2; 1; 0; 2; 0; 0; 2; 2; 0; 1; 2; 0; 2; 0; 2; 0; 2; 0; 2; 0; 2; 1]
                  (map (recon_thread int ext) tasks) empty_recon in
  fresh_ok (snd played) /\ forall k tenant provider from to by_ tol run,
    tasks !! k = Some (StartRun tenant provider from to by_ tol) ->
    fst played !! k = Some (Done (Ok (Ran run))) ->
    run_stored int ext tenant provider from to tol run (snd played).
Proof.
  intros int ext tasks played.
  apply (concurrent_runs_isolated int ext tasks empty_recon (snd played) (fst played)).
  - intros m n E. simpl in E. lia.
  - by intros n _.
  - apply interleave_play. eexists. apply surjective_pairing.
Defined.
