(* ===== verification/ReconGrpc.v ===== *)
(** * Reconciliation gRPC service

    [reconciliation-engine/src/ports/grpc.rs]: the conversions between the
    domain and the protocol ([protos/v1/reconciliation/reconciliation.proto];
    enum fields carry their numbers) and the nine data methods of the service,
    over the handler's ports. *)

From Stdlib Require Import ZArith Lia.
From stdpp Require Import base list strings numbers pretty sorting.
From S2P Require Import Prelude RustStr External Reference Recon Matching ReconStore Grpc.

Local Open Scope string_scope.

(** [ReconciliationError]'s [Display] *)
Definition recon_error_to_string (e : ReconciliationError) : string :=
  match e with
  | RInvalidArgument s => "Invalid argument: " +:+ s
  | RNotFound s => "Not found: " +:+ s
  | RDatabaseError s => "Database error: " +:+ s
  | RProviderError s => "Provider error: " +:+ s
  | RAlreadyRunning => "Reconciliation already running"
  | RInvalidStatusTransition from to =>
      "Invalid status transition from " +:+ from +:+ " to " +:+ to
  | RStoreError s => "Store error: " +:+ s
  end.

(** [map_domain_error] *)
Definition recon_map_domain_error (e : ReconciliationError) (trace_id : string)
    : Status * option ProtoError :=
  let msg := recon_error_to_string e in
  let '(code, proto_code) :=
    match e with
    | RInvalidArgument _ => (mkStatus CodeInvalidArgument msg, EC_INVALID_ARGUMENT)
    | RNotFound _ => (mkStatus CodeNotFound msg, EC_NOT_FOUND)
    | RAlreadyRunning => (mkStatus CodeAlreadyExists msg, EC_ALREADY_EXISTS)
    | RProviderError _ => (mkStatus CodeFailedPrecondition msg, EC_PAYMENT_PROVIDER_ERROR)
    | RInvalidStatusTransition _ _ =>
        (mkStatus CodeFailedPrecondition msg, EC_FAILED_PRECONDITION)
    | _ => (mkStatus CodeInternal msg, EC_INTERNAL)
    end in
  (code, Some (mkProtoError proto_code msg [("trace_id", trace_id)] trace_id
                 (code_i32 (st_code code)))).

(** ** Enums *)

Definition recon_map_domain_status (s : ReconciliationStatus) : Z :=
  match s with
  | RsPending => 1
  | RsRunning => 2
  | RsCompleted => 3
  | RsFailed => 4
  | RsPartiallyResolved => 5
  | RsApproved => 6
  end%Z.

Definition map_proto_status (n : Z) : Result Status ReconciliationStatus :=
  match n with
  | 1%Z => Ok RsPending
  | 2%Z => Ok RsRunning
  | 3%Z => Ok RsCompleted
  | 4%Z => Ok RsFailed
  | 5%Z => Ok RsPartiallyResolved
  | 6%Z => Ok RsApproved
  | _ => Err (mkStatus CodeInvalidArgument ("Invalid status: " +:+ pretty n))
  end.

Definition map_domain_discrepancy_type (d : DiscrepancyType) : Z :=
  match d with
  | MissingInternal => 1
  | MissingExternal => 2
  | AmountMismatch => 3
  | StatusMismatch => 4
  | DuplicateInternal => 5
  | DuplicateExternal => 6
  | FeeMismatch => 7
  | TimestampMismatch => 8
  | CurrencyMismatch => 9
  end%Z.

Definition map_proto_discrepancy_type (n : Z) : Result Status DiscrepancyType :=
  match n with
  | 1%Z => Ok MissingInternal
  | 2%Z => Ok MissingExternal
  | 3%Z => Ok AmountMismatch
  | 4%Z => Ok StatusMismatch
  | 5%Z => Ok DuplicateInternal
  | 6%Z => Ok DuplicateExternal
  | 7%Z => Ok FeeMismatch
  | 8%Z => Ok TimestampMismatch
  | 9%Z => Ok CurrencyMismatch
  | _ => Err (mkStatus CodeInvalidArgument ("Invalid discrepancy type: " +:+ pretty n))
  end.

Definition map_domain_resolution_action (a : ResolutionAction) : Z :=
  match a with
  | CorrectInternal => 1
  | CorrectExternal => 2
  | CreateAdjustment => 3
  | Ignore => 4
  | Escalate => 5
  | Approve => 6
  end%Z.

Definition map_proto_resolution_action (n : Z) : Result Status ResolutionAction :=
  match n with
  | 1%Z => Ok CorrectInternal
  | 2%Z => Ok CorrectExternal
  | 3%Z => Ok CreateAdjustment
  | 4%Z => Ok Ignore
  | 5%Z => Ok Escalate
  | 6%Z => Ok Approve
  | _ => Err (mkStatus CodeInvalidArgument ("Invalid resolution action: " +:+ pretty n))
  end.

(** ** Messages *)

Record ProtoReconciliationRun := mkProtoRun {
  pr_run_id : string;
  pr_tenant_id : string;
  pr_provider_name : string;
  pr_status : Z;
  pr_period_start : option Timestamp;
  pr_period_end : option Timestamp;
  pr_started_at : option Timestamp;
  pr_completed_at : option Timestamp;
  pr_total_records : Z;
  pr_matched_count : Z;
  pr_discrepancy_count : Z;
  pr_resolved_count : Z;
  pr_initiated_by : string;
  pr_approved_by : string;
  pr_approved_at : option Timestamp;
  pr_internal_total_amount : option ProtoMoney;
  pr_external_total_amount : option ProtoMoney;
  pr_discrepancy_amount : option ProtoMoney;
}.

Record ProtoReconciliationItem := mkProtoItem {
  pi_item_id : string;
  pi_run_id : string;
  pi_transaction_id : string;
  pi_discrepancy_type : Z;
  pi_internal_status : string;
  pi_external_status : string;
  pi_internal_amount : option ProtoMoney;
  pi_external_amount : option ProtoMoney;
  pi_difference : option ProtoMoney;
  pi_resolved : bool;
  pi_resolution_action : Z;
  pi_resolved_by : string;
  pi_resolved_at : option Timestamp;
  pi_notes : string;
}.

Record ProtoMatchingRule := mkProtoRule {
  pl_rule_id : string;
  pl_tenant_id : string;
  pl_provider_name : string;
  pl_rule_name : string;
  pl_match_fields : list string;
  pl_tolerance_amount : option ProtoMoney;
  pl_tolerance_time_seconds : Z;
  pl_auto_resolve : bool;
  pl_is_active : bool;
  pl_created_at : option Timestamp;
  pl_updated_at : option Timestamp;
}.

(** A page of runs, items or rules: the messages, the total of the pagination
    block (there are never further pages), the error block. *)
Record Page (A : Type) := mkPage {
  pg_entries : list A;
  pg_total_count : option Z;
  pg_error : option ProtoError;
}.
Arguments mkPage {_}. Arguments pg_entries {_}. Arguments pg_total_count {_}. Arguments pg_error {_}.

Record BatchOperationResult := mkBatchResult {
  bo_batch_id : string;
  bo_total_count : Z;
  bo_success_count : Z;
  bo_failure_count : Z;
}.

Record GenerateReportResponse := mkReportAnswer {
  gr_report_id : string;
  gr_download_url : string;
  gr_generated_at : option Timestamp;
  gr_error : option ProtoError;
}.

Section service.
Context `{DecimalOps} `{UuidOps} `{TimeOps}.

(** [map_proto_money]; the product panics when it overflows. *)
Definition recon_money {E} (amount : Dec) (currency : string) : Result E (option ProtoMoney) :=
  match dec_mul amount (dec_new 100 0) with
  | Some cents => Ok (Some (mkProtoMoney currency (unwrap_or (dec_to_i64 cents) 0%Z) 0))
  | None => Panic
  end.

Definition map_run_to_proto {E} (run : ReconciliationRun) : Result E ProtoReconciliationRun :=
  internal ← recon_money (rn_internal_total run) "USD";
  external ← recon_money (rn_external_total run) "USD";
  discrepancy ← recon_money (rn_discrepancy_amount run) "USD";
  mret (mkProtoRun (uuid_to_string (rn_run_id run)) (uuid_to_string (rn_tenant_id run))
    (rn_provider_name run) (recon_map_domain_status (rn_status run))
    (Some (chrono_to_prost (rn_period_start run))) (Some (chrono_to_prost (rn_period_end run)))
    (chrono_to_prost <$> rn_started_at run) (chrono_to_prost <$> rn_completed_at run)
    (rn_total_records run) (rn_matched_count run) (rn_discrepancy_count run)
    (rn_resolved_count run) (rn_initiated_by run) (unwrap_or (rn_approved_by run) "")
    (chrono_to_prost <$> rn_approved_at run) internal external discrepancy).

Definition map_item_to_proto {E} (item : ReconciliationItem) : Result E ProtoReconciliationItem :=
  internal ← recon_money (ri_internal_amount item) "USD";
  external ← recon_money (ri_external_amount item) "USD";
  difference ← recon_money (ri_difference item) "USD";
  mret (mkProtoItem (uuid_to_string (ri_item_id item)) (uuid_to_string (ri_run_id item))
    (ri_transaction_id item) (map_domain_discrepancy_type (ri_discrepancy_type item))
    (ri_internal_status item) (ri_external_status item) internal external difference
    (ri_resolved item)
    (unwrap_or (map_domain_resolution_action <$> ri_resolution_action item) 0%Z)
    (unwrap_or (ri_resolved_by item) "") (chrono_to_prost <$> ri_resolved_at item)
    (unwrap_or (ri_notes item) "")).

Definition map_rule_to_proto {E} (rule : MatchingRule) : Result E ProtoMatchingRule :=
  tolerance ← recon_money (mr_tolerance_amount rule) "USD";
  mret (mkProtoRule (uuid_to_string (mr_rule_id rule)) (uuid_to_string (mr_tenant_id rule))
    (mr_provider_name rule) (mr_rule_name rule) (mr_match_fields rule) tolerance
    (mr_tolerance_time_seconds rule) (mr_auto_resolve rule) (mr_is_active rule)
    (chrono_to_prost <$> mr_created_at rule) (chrono_to_prost <$> mr_updated_at rule)).

Context {W : Type} `{!ReconPorts W}.

(** The clock, a fresh identifier and the handler's errors in a method. *)
Definition status_of_error (trace_id : string) (e : ReconciliationError) : Status :=
  fst (recon_map_domain_error e trace_id).
Definition recon_now : M W Status DateTime := with_err (status_of_error "") rp_now.
Definition recon_new_v4 : M W Status Uuid := with_err (status_of_error "") rp_new_v4.

(** A timestamp field: a value out of range is replaced by the current time,
    an absent one by [absent] of it. *)
Definition recon_date (absent : DateTime -> DateTime) (t : option Timestamp) : M W Status DateTime :=
  match t with
  | Some t =>
      match from_timestamp (seconds t) (as_u32 (nanos t)) with
      | Some d => mret d
      | None => recon_now
      end
  | None => now ← recon_now; mret (absent now)
  end.

(** [None] for an empty filter. *)
Definition filter_of (s : string) : option string := if is_empty s then None else Some s.

(** A handler call whose failure becomes the status. *)
Definition or_status {A} (trace_id : string) (m : M W ReconciliationError A) : M W Status A :=
  with_err (status_of_error trace_id) m.

(** [start_reconciliation] *)
Definition start_reconciliation_rpc (trace_id tenant_id provider_name : string)
    (period_start period_end : option Timestamp) (initiated_by : string)
    (tolerance_amount : option ProtoMoney) : M W Status ProtoReconciliationRun :=
  tenant ← lift (parse_uuid tenant_id);
  from ← recon_date id period_start;
  to ← recon_date id period_end;
  let tolerance := match tolerance_amount with
                   | Some m => dec_new (pm_amount_cents m) 2
                   | None => dec_new 1 2
                   end in
  run ← or_status trace_id (start_reconciliation tenant provider_name from to initiated_by tolerance);
  lift (map_run_to_proto run).

(** [get_reconciliation_run] *)
Definition get_reconciliation_run_rpc (trace_id run_id tenant_id : string)
    : M W Status ProtoReconciliationRun :=
  run ← lift (parse_uuid run_id);
  tenant ← lift (parse_uuid tenant_id);
  r ← or_status trace_id (get_reconciliation_run run tenant);
  lift (map_run_to_proto r).

(** The answer of a listing method: the entries, or the error block. *)
Definition page_of {A B} (trace_id : string) (convert : A -> Result Status B)
    (m : M W ReconciliationError (list A)) : M W Status (Page B) :=
  r ← attempt m;
  match r with
  | Ok l =>
      entries ← lift (collect (map convert l));
      mret (mkPage entries (Some (as_i32 (Z.of_nat (length l)))) None)
  | Err e => mret (mkPage [] None (snd (recon_map_domain_error e trace_id)))
  | Panic => lift Panic
  end.

(** [list_reconciliation_runs] *)
Definition list_reconciliation_runs_rpc (trace_id tenant_id provider_name : string)
    (statuses : list Z) (from_date to_date : option Timestamp)
    : M W Status (Page ProtoReconciliationRun) :=
  tenant ← lift (parse_uuid tenant_id);
  statuses ← lift (collect (map map_proto_status statuses));
  from ← recon_date (fun now => now - 30 * nanos_per_day)%Z from_date;
  to ← recon_date id to_date;
  page_of trace_id map_run_to_proto (list_reconciliation_runs tenant (filter_of provider_name) statuses from to).

(** [get_reconciliation_items] *)
Definition get_reconciliation_items_rpc (trace_id run_id tenant_id : string)
    (discrepancy_types : list Z) (unresolved_only : bool)
    : M W Status (Page ProtoReconciliationItem) :=
  run ← lift (parse_uuid run_id);
  tenant ← lift (parse_uuid tenant_id);
  types ← lift (collect (map map_proto_discrepancy_type discrepancy_types));
  page_of trace_id map_item_to_proto (get_reconciliation_items run tenant types unresolved_only).

(** [resolve_discrepancy] *)
Definition resolve_discrepancy_rpc (trace_id item_id run_id tenant_id : string) (action : Z)
    (notes resolved_by : string) : M W Status ProtoReconciliationItem :=
  item ← lift (parse_uuid item_id);
  run ← lift (parse_uuid run_id);
  tenant ← lift (parse_uuid tenant_id);
  action ← lift (map_proto_resolution_action action);
  r ← or_status trace_id (resolve_discrepancy item run tenant action notes resolved_by);
  lift (map_item_to_proto r).

(** [bulk_resolve_discrepancies] *)
Definition bulk_resolve_discrepancies_rpc (trace_id run_id tenant_id : string)
    (item_ids : list string) (action : Z) (notes resolved_by : string)
    : M W Status BatchOperationResult :=
  run ← lift (parse_uuid run_id);
  tenant ← lift (parse_uuid tenant_id);
  ids ← lift (collect (map parse_uuid item_ids));
  action ← lift (map_proto_resolution_action action);
  r ← attempt (bulk_resolve_discrepancies run tenant ids action notes resolved_by);
  let total := as_i32 (Z.of_nat (length ids)) in
  match r with
  | Ok success_count =>
      batch ← recon_new_v4;
      mret (mkBatchResult (uuid_to_string batch) total success_count (as_i32 (total - success_count)))
  | Err _ =>
      batch ← recon_new_v4;
      mret (mkBatchResult (uuid_to_string batch) total 0 total)
  | Panic => lift Panic
  end.

(** [generate_report] *)
Definition generate_report_rpc (trace_id run_id tenant_id format : string)
    : M W Status GenerateReportResponse :=
  run ← lift (parse_uuid run_id);
  tenant ← lift (parse_uuid tenant_id);
  r ← attempt (generate_report run tenant format);
  match r with
  | Ok (report_id, url) =>
      now ← recon_now;
      mret (mkReportAnswer (uuid_to_string report_id) url (Some (chrono_to_prost now)) None)
  | Err e => mret (mkReportAnswer "" "" None (snd (recon_map_domain_error e trace_id)))
  | Panic => lift Panic
  end.

(** [get_matching_rule] *)
Definition get_matching_rule_rpc (trace_id rule_id tenant_id : string) : M W Status ProtoMatchingRule :=
  rule ← lift (parse_uuid rule_id);
  tenant ← lift (parse_uuid tenant_id);
  r ← or_status trace_id (handler_get_matching_rule rule tenant);
  lift (map_rule_to_proto r).

(** [list_matching_rules] *)
Definition list_matching_rules_rpc (trace_id tenant_id provider_name : string)
    : M W Status (Page ProtoMatchingRule) :=
  tenant ← lift (parse_uuid tenant_id);
  page_of trace_id map_rule_to_proto (handler_list_matching_rules tenant (filter_of provider_name)).

End service.

(** ** Lemmas *)

Section lemmas.
Context `{DecimalOps} `{!DecimalLaws} `{UuidOps} `{!UuidLaws} `{TimeOps} `{ReconEnv}.

Lemma parse_uuid_ok u : parse_uuid (uuid_to_string u) = Ok u.
Proof. unfold parse_uuid. by rewrite uuid_parse_to_string. Qed.

Lemma recon_money_exact {E} d c cur : money d c -> in_i64 c ->
  recon_money (E := E) d cur = Ok (Some (mkProtoMoney cur c 0)).
Proof.
  intros Hm Hc. unfold recon_money. destruct (money_cents d c Hm Hc) as (p & -> & Hp).
  by rewrite Hp.
Qed.

(** The message of a run whose amounts are exact. *)
Lemma map_run_exact {E} (run : ReconciliationRun) x y z :
  money (rn_internal_total run) x -> money (rn_external_total run) y ->
  money (rn_discrepancy_amount run) z -> in_i64 x -> in_i64 y -> in_i64 z ->
  map_run_to_proto (E := E) run
  = Ok (mkProtoRun (uuid_to_string (rn_run_id run)) (uuid_to_string (rn_tenant_id run))
    (rn_provider_name run) (recon_map_domain_status (rn_status run))
    (Some (chrono_to_prost (rn_period_start run))) (Some (chrono_to_prost (rn_period_end run)))
    (chrono_to_prost <$> rn_started_at run) (chrono_to_prost <$> rn_completed_at run)
    (rn_total_records run) (rn_matched_count run) (rn_discrepancy_count run)
    (rn_resolved_count run) (rn_initiated_by run) (unwrap_or (rn_approved_by run) "")
    (chrono_to_prost <$> rn_approved_at run) (Some (mkProtoMoney "USD" x 0))
    (Some (mkProtoMoney "USD" y 0)) (Some (mkProtoMoney "USD" z 0))).
Proof.
  intros Hx Hy Hz Ix Iy Iz. unfold map_run_to_proto.
  rewrite (recon_money_exact (rn_internal_total run) x) by done.
  rewrite (recon_money_exact (rn_external_total run) y) by done.
  by rewrite (recon_money_exact (rn_discrepancy_amount run) z).
Qed.

(** What an amount column shows of an amount. *)
Definition shown (cents : Z) : Z := if amounts_decode then cents else 0%Z.

Lemma amount_shown d c : money d c -> money (dec_or_zero (amount_text (dec_to_string d))) (shown c).
Proof.
  intros Hm. unfold dec_or_zero, amount_text, shown. destruct amounts_decode.
  - by rewrite (money_parse _ _ Hm).
  - destruct money_parse_zero as (z & -> & Hz). done.
Qed.

Lemma in_i32_as z : in_i32 (as_i32 z).
Proof. unfold in_i32, as_i32. pose proof (wrap_range 32 z ltac:(lia)). lia. Qed.

Lemma shown_abs c B : (0 < B)%Z -> (Z.abs c < B)%Z -> (Z.abs (shown c) < B)%Z.
Proof. unfold shown. destruct amounts_decode; lia. Qed.

(** Reading back the row of a run. *)
Lemma map_run_row_exact run tenant x y :
  money (rn_internal_total run) x -> money (rn_external_total run) y ->
  (Z.abs x < 10 ^ 26)%Z -> (Z.abs y < 10 ^ 26)%Z ->
  in_i32 (rn_total_records run) -> in_i32 (rn_discrepancy_count run) ->
  exists a b d, money a (shown x) /\ money b (shown y) /\ money d (Z.abs (shown x - shown y)) /\
    map_run_row (report_row run) tenant
    = Ok (mkRun (rn_run_id run) tenant (rn_provider_name run)
            (status_of_column (status_column (rn_status run)))
            (midnight (date_naive (rn_period_start run))) (midnight (date_naive (rn_period_end run)))
            (rn_total_records run) (rn_matched_count run) (rn_discrepancy_count run) 0
            a b d (rn_started_at run) (rn_completed_at run) "" None None).
Proof.
  intros Hx Hy Bx By Ht Hd. apply amount_shown in Hx, Hy.
  destruct (money_sub _ _ _ _ Hx Hy) as (d & Hsub & Hmd); [by apply shown_abs.. |].
  eexists _, _, (dec_abs d). split_and!; [exact Hx | exact Hy | by apply money_abs |].
  unfold map_run_row. cbn [report_row rep_kernel_total rep_provider_total rep_kernel_count
    rep_provider_count rep_unmatched_kernel rep_unmatched_provider].
  by rewrite Hsub, !Z.add_0_r, !as_i32_id by done.
Qed.

Lemma find_saved run_id tenant rows row : (forall r, r_sees_report tenant r = true) ->
  report_of run_id rows = None -> rep_report_id row = run_id ->
  List.find (fun r => N.eqb (rep_report_id r) run_id && r_sees_report tenant r) (rows ++ [row])%list
  = Some row.
Proof.
  intros Hsee. unfold report_of. induction rows as [|r rows IH]; cbn [List.find app].
  - intros _ <-. by rewrite N.eqb_refl, Hsee.
  - destruct (N.eqb _ _); [done|]. cbn [andb]. done.
Qed.

Variable internal_source : Uuid -> string -> DateTime -> DateTime ->
  Result ReconciliationError (list InternalTransaction).
Variable external_source : string -> DateTime -> DateTime ->
  Result ReconciliationError (list ExternalTransaction).
#[local] Instance grpc_ports : ReconPorts ReconWorld := recon_ports internal_source external_source.

Lemma recon_date_some f t d (w : ReconWorld) : from_timestamp (seconds t) (as_u32 (nanos t)) = Some d ->
  recon_date f (Some t) w = (Ok d, w).
Proof. intros E. unfold recon_date. by rewrite E. Qed.

Lemma get_run_rpc_ok trace run_id tenant run (w : ReconWorld) msg : r_no_faults ->
  List.find (fun r => N.eqb (rep_report_id r) run_id && r_sees_report tenant r) (reports w)
    = Some (report_row run) ->
  (exists r, map_run_row (report_row run) tenant = Ok r /\ map_run_to_proto (E := Status) r = Ok msg) ->
  exists w', get_reconciliation_run_rpc trace (uuid_to_string run_id) (uuid_to_string tenant) w
             = (Ok msg, w').
Proof.
  intros Hf Hfind (r & Hr & Hmsg). exists (r_next (r_next w)).
  unfold get_reconciliation_run_rpc. rewrite !parse_uuid_ok. do 2 (erewrite bind_ok; [|reflexivity]).
  erewrite bind_ok; [unfold lift; by rewrite Hmsg|]. unfold or_status, with_err.
  cbn [get_reconciliation_run get_run grpc_ports recon_ports]. unfold pg_get_run. do 2 run_step (r_statement_ok _ Hf).
  erewrite bind_ok; [|reflexivity]. cbn [reports r_next]. rewrite Hfind.
  unfold lift. by rewrite Hr.
Qed.

End lemmas.

(** ** Theorems *)

(** The numbers of the protocol's enums are one-to-one with the domain's
    values: each conversion accepts exactly the numbers of its values. *)
Theorem recon_enums_bijective :
  (forall n s, map_proto_status n = Ok s <-> n = recon_map_domain_status s)
  /\ (forall n d, map_proto_discrepancy_type n = Ok d <-> n = map_domain_discrepancy_type d)
  /\ (forall n a, map_proto_resolution_action n = Ok a <-> n = map_domain_resolution_action a).
Proof.
  split_and!; intros n x; (split; [|intros ->; by destruct x]);
    destruct n as [|[[[]|[]|]|[[]|[]|]|]|]; simpl; intros E; simplify_eq; try done.
  all: by destruct p; simplify_eq.
Qed.

(** C28. What a client reads after a reconciliation: under the conditions in
    which no arithmetic overflows, [start_reconciliation] answers and
    [get_reconciliation_run] on the identifier it returned finds the run with
    the same provider and counts.  Where the amount columns decode as text the
    totals of both sides are exact and the discrepancy amount is their
    difference; where they do not, as with the [NUMERIC] columns of the
    migration, all three are shown as 0.  In any case a run answered as
    partially resolved (5) is read back as completed (3), and the name of who
    started it is gone. *)
Theorem run_readback `{DecimalOps} `{!DecimalLaws} `{UuidOps} `{!UuidLaws} `{TimeOps} `{ReconEnv}
    internal_source external_source trace (tenant : Uuid) provider t1 t2 from to by' cents i e xs ys B
    (w : ReconWorld) :
  r_no_faults -> (forall r, r_sees_report tenant r = true) ->
  from_timestamp (seconds t1) (as_u32 (nanos t1)) = Some from ->
  from_timestamp (seconds t2) (as_u32 (nanos t2)) = Some to ->
  internal_source tenant provider from to = Ok i -> external_source provider from to = Ok e ->
  Forall2 (priced it_amount B) i xs -> Forall2 (priced et_amount B) e ys ->
  (0 <= B < 2 ^ 63)%Z -> (2 * B * Z.of_nat (length i + length e) < 2 ^ 63)%Z ->
  (Z.of_nat (length i + length e) < 2 ^ 31)%Z ->
  report_of (r_uuid (r_tick w)) (reports w) = None ->
  exists msg w' got w'',
    start_reconciliation_rpc (ReconPorts0 := recon_ports internal_source external_source)
      trace (uuid_to_string tenant) provider (Some t1) (Some t2) by' (Some (mkProtoMoney "USD" cents 0)) w
      = (Ok msg, w')
    /\ get_reconciliation_run_rpc (ReconPorts0 := recon_ports internal_source external_source)
         trace (pr_run_id msg) (uuid_to_string tenant) w' = (Ok got, w'')
    /\ pr_run_id got = pr_run_id msg /\ pr_provider_name got = provider
    /\ pr_total_records got = Z.of_nat (length i + length e)
    /\ pr_discrepancy_count got = pr_discrepancy_count msg
    /\ pr_internal_total_amount got
       = Some (mkProtoMoney "USD" (if amounts_decode then total xs else 0) 0)
    /\ pr_external_total_amount got
       = Some (mkProtoMoney "USD" (if amounts_decode then total ys else 0) 0)
    /\ pr_discrepancy_amount got
       = Some (mkProtoMoney "USD" (if amounts_decode then Z.abs (total xs - total ys) else 0) 0)
    /\ pr_status msg = (if (0 <? pr_discrepancy_count msg)%Z then 5 else 3)%Z
    /\ pr_status got = 3%Z
    /\ pr_initiated_by msg = by' /\ pr_initiated_by got = "".
Proof.
  intros Hf Hsee Ht1 Ht2 Hi He Hx Hy HB Hb Hlen Hnew.
  pose proof (total_bound _ _ _ _ Hx) as Bx. pose proof (total_bound _ _ _ _ Hy) as By.
  destruct (start_outcome internal_source external_source tenant provider from to by' (dec_new cents 2)
              i e xs ys B w) as (now & w1 & w' & items & ti & te & da & dc & Hstart & _ & Hti & Hte
              & Hda & Hdc & Hr & Hcnt & _); try done.
  unfold ports in Hstart. set (final := set_status _ _ _ _) in *.
  destruct (map_run_row_exact final tenant (total xs) (total ys)) as (a & b & d & Ha & Hb' & Hd & Hrow);
    [done | done | lia | lia | apply in_i32_as | apply in_i32_as |].
  edestruct (get_run_rpc_ok internal_source external_source trace (r_uuid (r_tick w)) tenant final w')
    as (w'' & Hget); [done | by rewrite Hr; apply find_saved | |].
  { eexists. split; [exact Hrow|].
    apply (map_run_exact _ (shown (total xs)) (shown (total ys)) (Z.abs (shown (total xs) - shown (total ys))));
      simpl; try done; unfold in_i64, shown; destruct amounts_decode; lia. }
  unfold grpc_ports in Hget. eexists _, w', _, w''. split_and!.
  { unfold start_reconciliation_rpc. rewrite parse_uuid_ok. erewrite bind_ok; [|reflexivity].
    erewrite bind_ok; [|by apply recon_date_some]. erewrite bind_ok; [|by apply recon_date_some].
    cbv zeta. erewrite bind_ok; [|unfold or_status, with_err; cbn [pm_amount_cents]; rewrite Hstart; reflexivity].
    unfold lift. erewrite (map_run_exact final (total xs) (total ys) dc); [reflexivity | done..| | |];
      unfold in_i64; lia. }
  { exact Hget. }
  all: try done.
  - simpl. apply as_i32_id. unfold in_i32. lia.
  - simpl. unfold shown. by destruct amounts_decode.
  - cbn [pr_status pr_discrepancy_count]. rewrite Hcnt. simpl. by destruct (0 <? _)%Z.
  - simpl. by destruct (0 <? _)%Z.
Qed.

(** The sample with columns of text, and with columns that do not decode. *)
Definition sample_ports (decode : bool) : ReconPorts ReconWorld :=
  @recon_ports _ _ (recon_env decode) (fun _ _ _ _ => Ok sample_internal) (fun _ _ _ => Ok sample_external).

Lemma sample_priced :
  Forall2 (priced it_amount 5000) sample_internal [1000; 2000; 300]%Z
  /\ Forall2 (priced et_amount 5000) sample_external [2001; 1000; 5]%Z.
Proof. split; repeat constructor; try lia; apply money_new; unfold in_i64; lia. Qed.

Lemma run_readback_witness :
  (exists msg w' got w'',
    start_reconciliation_rpc (ReconPorts0 := sample_ports true)
      "t" (uuid_to_string 5) "ecocash" (Some (mkTimestamp 0 0)) (Some (mkTimestamp 1 0)) "ops"
      (Some (mkProtoMoney "USD" 1 0)) empty_recon = (Ok msg, w')
    /\ get_reconciliation_run_rpc (ReconPorts0 := sample_ports true)
         "t" (pr_run_id msg) (uuid_to_string 5) w' = (Ok got, w'')
    /\ pr_internal_total_amount got = Some (mkProtoMoney "USD" 3300 0)
    /\ pr_external_total_amount got = Some (mkProtoMoney "USD" 3006 0)
    /\ pr_discrepancy_amount got = Some (mkProtoMoney "USD" 294 0)
    /\ pr_status msg = (if (0 <? pr_discrepancy_count msg)%Z then 5 else 3)%Z
    /\ pr_status got = 3%Z)
  /\ exists msg w' got w'',
    start_reconciliation_rpc (ReconPorts0 := sample_ports false)
      "t" (uuid_to_string 5) "ecocash" (Some (mkTimestamp 0 0)) (Some (mkTimestamp 1 0)) "ops"
      (Some (mkProtoMoney "USD" 1 0)) empty_recon = (Ok msg, w')
    /\ get_reconciliation_run_rpc (ReconPorts0 := sample_ports false)
         "t" (pr_run_id msg) (uuid_to_string 5) w' = (Ok got, w'')
    /\ pr_internal_total_amount got = Some (mkProtoMoney "USD" 0 0).
Proof.
  destruct sample_priced as [Hi He]. split.
  - destruct (@run_readback _ _ _ _ _ (recon_env true) (fun _ _ _ _ => Ok sample_internal)
      (fun _ _ _ => Ok sample_external) "t" 5%N "ecocash" (mkTimestamp 0 0) (mkTimestamp 1 0) 0
      nanos_per_sec "ops" 1 sample_internal sample_external _ _ 5000 empty_recon test_r_no_faults
      (fun _ => eq_refl) ltac:(by vm_compute) ltac:(by vm_compute) eq_refl eq_refl Hi He ltac:(lia) ltac:(simpl; lia)
      ltac:(simpl; lia) eq_refl)
      as (msg & w' & got & w'' & R1 & R2 & _ & _ & _ & _ & R3 & R4 & R5 & R6 & R7 & _).
    exists msg, w', got, w''. split_and!; assumption.
  - destruct (@run_readback _ _ _ _ _ (recon_env false) (fun _ _ _ _ => Ok sample_internal)
      (fun _ _ _ => Ok sample_external) "t" 5%N "ecocash" (mkTimestamp 0 0) (mkTimestamp 1 0) 0
      nanos_per_sec "ops" 1 sample_internal sample_external _ _ 5000 empty_recon test_r_no_faults
      (fun _ => eq_refl) ltac:(by vm_compute) ltac:(by vm_compute) eq_refl eq_refl Hi He ltac:(lia) ltac:(simpl; lia)
      ltac:(simpl; lia) eq_refl)
      as (msg & w' & got & w'' & R1 & R2 & _ & _ & _ & _ & R3 & _).
    exists msg, w', got, w''. split_and!; assumption.
Defined.
