(* ===== verification/Messaging.v ===== *)
(** * Messaging: domain and use cases

    [messaging-engine/src/domain/*.rs], the port traits of [src/ports/] and
    [application/handler.rs].  A provider adapter is a record of operations
    (the trait object [dyn SmsProviderPort]); the delivery log and the template
    store are the interface [MsgPorts].  The handler is written against them,
    over an abstract world. *)

From Stdlib Require Import ZArith Lia Ascii.
From stdpp Require Import base list strings gmap numbers pretty.
From S2P Require Import Prelude RustStr External Grpc.

Local Open Scope string_scope.

(** ** Domain *)

Inductive MessagingError : Type :=
  | InvalidPhone (s : string)
  | ProviderUnavailable (s : string)
  | RateLimitExceeded (s : string)
  | TemplateNotFound (s : string)
  | MsgDatabase (s : string)
  | MsgSerialization (s : string)
  | MsgInternal (s : string)
  | MsgProviderError (s : string)
  | MsgValidation (s : string).

Definition msg_error_to_string (e : MessagingError) : string :=
  match e with
  | InvalidPhone s => "Invalid phone number: " +:+ s
  | ProviderUnavailable s => "Provider unavailable: " +:+ s
  | RateLimitExceeded s => "Rate limit exceeded for tenant: " +:+ s
  | TemplateNotFound s => "Template not found: " +:+ s
  | MsgDatabase s => "Database error: " +:+ s
  | MsgSerialization s => "Serialization error: " +:+ s
  | MsgInternal s => "Internal error: " +:+ s
  | MsgProviderError s => "Provider error: " +:+ s
  | MsgValidation s => "Validation error: " +:+ s
  end.

(** [From<MessagingError> for tonic::Status] *)
Definition msg_status (e : MessagingError) : Status :=
  mkStatus
    (match e with
     | InvalidPhone _ | MsgValidation _ => CodeInvalidArgument
     | TemplateNotFound _ => CodeNotFound
     | RateLimitExceeded _ => CodeResourceExhausted
     | ProviderUnavailable _ => CodeUnavailable
     | _ => CodeInternal
     end) (msg_error_to_string e).

Inductive Provider : Type := MpEcoCash | MpOneMoney | MpTeleCash.

Inductive MessageChannel : Type := Sms | WhatsApp | Email | Push.

Inductive Priority : Type := Low | Normal | High | Critical.

Inductive DeliveryStatus : Type :=
  | DsQueued | DsSent | DsDelivered | DsRead | DsFailed | DsRejected | DsExpired | DsCancelled.

#[export] Instance Provider_eq : EqDecision Provider.
Proof. solve_decision. Defined.
#[export] Instance MessageChannel_eq : EqDecision MessageChannel.
Proof. solve_decision. Defined.
#[export] Instance DeliveryStatus_eq : EqDecision DeliveryStatus.
Proof. solve_decision. Defined.

Record Message := mkMessage {
  msg_id : Uuid;
  msg_recipient : string;
  msg_body : string;
  msg_channel : MessageChannel;
  msg_priority : Priority;
  msg_tenant_id : Uuid;
  msg_session_id : option string;
}.

Record ProviderReceipt := mkReceipt { provider_ref : string; raw_response : string }.

Record DeliveryAttempt := mkAttempt {
  da_message_id : Uuid;
  da_tenant_id : Uuid;
  da_recipient : string;
  da_channel : MessageChannel;
  da_body_preview : string;
  da_session_id : option string;
  da_provider : Provider;
  da_status : DeliveryStatus;
  da_sent_at : option DateTime;
  da_delivered_at : option DateTime;
  da_provider_ref : option string;
  da_error_message : option string;
  da_retry_count : Z;
}.

Record Template := mkTemplate {
  tpl_id : string;
  tpl_tenant_id : Uuid;
  tpl_name : string;
  tpl_channel : MessageChannel;
  tpl_subject : option string;
  tpl_body : string;
  tpl_variables : list string;
  tpl_is_active : bool;
}.

Record MessageFilters := mkFilters {
  mf_channels : list MessageChannel;
  mf_statuses : list DeliveryStatus;
  mf_recipient : option string;
  mf_from_date : option DateTime;
  mf_to_date : option DateTime;
  mf_session_id : option string;
}.

(** [route_provider] *)
Definition route_provider (recipient : string) : option Provider :=
  let normalized := trim_start_matches "+" recipient in
  if starts_with "26377" normalized || starts_with "26378" normalized then Some MpEcoCash
  else if starts_with "26371" normalized || starts_with "26372" normalized then Some MpOneMoney
  else if starts_with "26373" normalized || starts_with "26374" normalized then Some MpTeleCash
  else None.

(** [render_template]; [vars] are the entries of the map in the order the
    iteration meets them. *)
Definition render_template (t : Template) (vars : list (string * string)) : string :=
  fold_left (fun result kv => replace ("{{" +:+ fst kv +:+ "}}") (snd kv) result) vars (tpl_body t).

(** ** Ports *)

(** [dyn SmsProviderPort] *)
Record SmsProvider (W : Type) := mkSmsProvider {
  provider_name : string;
  provider_send_sms : string -> string -> string -> M W MessagingError ProviderReceipt;
  provider_get_status : string -> M W MessagingError DeliveryStatus;
}.
Arguments mkSmsProvider {_}. Arguments provider_name {_}.
Arguments provider_send_sms {_}. Arguments provider_get_status {_}.

Class MsgPorts (W : Type) := {
  providers : list (SmsProvider W);
  log_attempt : DeliveryAttempt -> M W MessagingError unit;
  get_attempt : Uuid -> M W MessagingError (option DeliveryAttempt);
  list_attempts : Uuid -> MessageFilters -> M W MessagingError (list DeliveryAttempt);
  get_template : Uuid -> string -> M W MessagingError Template;
  list_templates : Uuid -> option MessageChannel -> M W MessagingError (list Template);
  mp_now : M W MessagingError DateTime;
  mp_new_v4 : M W MessagingError Uuid;
}.

(** ** The handler *)

Section handler.
Context {W : Type} `{!MsgPorts W} `{UuidOps}.

(** The [matches!] of [select_provider]. *)
Definition serves (expected : Provider) (name : string) : bool :=
  match expected with
  | MpEcoCash => String.eqb name "ecocash"
  | MpOneMoney => String.eqb name "onemoney"
  | MpTeleCash => String.eqb name "telecash"
  end.

(** [select_provider] *)
Definition select_provider (recipient : string) : Result MessagingError (SmsProvider W) :=
  expected ← ok_or (route_provider recipient) (InvalidPhone recipient);
  ok_or (List.find (fun p => serves expected (provider_name p)) providers)
    (ProviderUnavailable ("No adapter found for recipient " +:+ recipient)).

(** The attempt recorded for a message a provider took. *)
Definition sent_attempt (msg : Message) (channel : MessageChannel) (provider : Provider)
    (now : DateTime) (receipt : ProviderReceipt) : DeliveryAttempt :=
  mkAttempt (msg_id msg) (msg_tenant_id msg) (msg_recipient msg) channel
    (take_chars 160 (msg_body msg)) (msg_session_id msg) provider DsSent (Some now) None
    (Some (provider_ref receipt)) None 0.

(** [send_sms] *)
Definition send_sms (msg : Message) : M W MessagingError DeliveryAttempt :=
  p ← lift (select_provider (msg_recipient msg));
  receipt ← provider_send_sms p (msg_recipient msg) (msg_body msg) "USSD-KERNEL";
  now ← mp_now;
  let attempt := sent_attempt msg (msg_channel msg)
                   (unwrap_or (route_provider (msg_recipient msg)) MpEcoCash) now receipt in
  log_attempt attempt ;;
  mret attempt.

(** [send_whatsapp] *)
Definition send_whatsapp (msg : Message) : M W MessagingError DeliveryAttempt :=
  p ← lift (select_provider (msg_recipient msg));
  receipt ← provider_send_sms p (msg_recipient msg) (msg_body msg) "USSD-KERNEL";
  now ← mp_now;
  let attempt := sent_attempt msg WhatsApp
                   (unwrap_or (route_provider (msg_recipient msg)) MpEcoCash) now receipt in
  log_attempt attempt ;;
  mret attempt.

(** [send_email] *)
Definition send_email (msg : Message) : M W MessagingError DeliveryAttempt :=
  p ← lift (ok_or (head providers) (ProviderUnavailable "No providers configured"));
  receipt ← provider_send_sms p (msg_recipient msg) (msg_body msg) "USSD-KERNEL";
  now ← mp_now;
  let attempt := sent_attempt msg Email MpEcoCash now receipt in
  log_attempt attempt ;;
  mret attempt.

(** [send_otp] *)
Definition send_otp (recipient code : string) : M W MessagingError DeliveryAttempt :=
  id ← mp_new_v4;
  send_sms (mkMessage id recipient ("Your OTP code is: " +:+ code) Sms High uuid_nil None).

(** The attempt with the status the provider reports. *)
Definition refreshed (a : DeliveryAttempt) (status : DeliveryStatus) (delivered : option DateTime)
    : DeliveryAttempt :=
  mkAttempt (da_message_id a) (da_tenant_id a) (da_recipient a) (da_channel a) (da_body_preview a)
    (da_session_id a) (da_provider a) status (da_sent_at a) delivered (da_provider_ref a)
    (da_error_message a) (da_retry_count a).

(** [get_message_status] *)
Definition get_message_status (message_id : Uuid) : M W MessagingError DeliveryAttempt :=
  found ← get_attempt message_id;
  attempt_ ← lift (ok_or found
    (MsgInternal ("Message " +:+ uuid_to_string message_id +:+ " not found")));
  match da_provider_ref attempt_, select_provider (da_recipient attempt_) with
  | Some ref, Ok p =>
      r ← attempt (provider_get_status p ref);
      match r with
      | Ok status =>
          if bool_decide (status = da_status attempt_) then mret attempt_
          else
            delivered ← (if bool_decide (status = DsDelivered)
                         then now ← mp_now; mret (Some now)
                         else mret (da_delivered_at attempt_));
            let updated := refreshed attempt_ status delivered in
            log_attempt updated ;;
            mret updated
      | _ => mret attempt_
      end
  | _, _ => mret attempt_
  end.

Definition message_of_attempt (a : DeliveryAttempt) : Message :=
  mkMessage (da_message_id a) (da_recipient a) (da_body_preview a) (da_channel a) Normal
    (da_tenant_id a) (da_session_id a).

(** [list_messages] *)
Definition list_messages (tenant_id : Uuid) (filters : MessageFilters)
    : M W MessagingError (list Message) :=
  attempts ← list_attempts tenant_id filters;
  mret (map message_of_attempt attempts).

(** The methods that hand a query to the template store *)
Definition handler_get_template (tenant_id : Uuid) (template_id : string) : M W MessagingError Template :=
  get_template tenant_id template_id.

Definition handler_list_templates (tenant_id : Uuid) (channel : option MessageChannel)
    : M W MessagingError (list Template) :=
  list_templates tenant_id channel.

Record BatchResult := mkBatchOutcome {
  success_count : nat;
  failure_count : nat;
  batch_errors : list (nat * MessagingError);
}.

(** One message of a batch; [None] for a push, which is counted but not
    sent. *)
Definition send_one (msg : Message) : M W MessagingError (option (Result MessagingError DeliveryAttempt)) :=
  match msg_channel msg with
  | Sms => r ← attempt (send_sms msg); mret (Some r)
  | WhatsApp => r ← attempt (send_whatsapp msg); mret (Some r)
  | Email => r ← attempt (send_email msg); mret (Some r)
  | Push => mret None
  end.

(** The loop of [send_batch]. *)
Fixpoint batch_loop (idx : nat) (messages : list Message) (continue_on_error : bool)
    (acc : BatchResult) : M W MessagingError BatchResult :=
  match messages with
  | [] => mret acc
  | msg :: rest =>
      r ← send_one msg;
      match r with
      | Some (Err e) =>
          let acc := mkBatchOutcome (success_count acc) (S (failure_count acc))
                       (batch_errors acc ++ [(idx, e)])%list in
          if (continue_on_error : bool) then batch_loop (S idx) rest continue_on_error acc
          else mret acc
      | _ =>
          batch_loop (S idx) rest continue_on_error
            (mkBatchOutcome (S (success_count acc)) (failure_count acc) (batch_errors acc))
      end
  end.

(** [send_batch] *)
Definition send_batch (messages : list Message) (continue_on_error : bool)
    : M W MessagingError BatchResult :=
  batch_loop 0 messages continue_on_error (mkBatchOutcome 0 0 []).

End handler.

(** ** Rendering *)

Section rendering.

Fixpoint has_char (c : ascii) (s : string) : bool :=
  match s with
  | EmptyString => false
  | String b s' => Ascii.eqb b c || has_char c s'
  end.

(** A template body, read as literal text and placeholders. *)
Inductive Segment : Type :=
  | Lit (s : string)
  | Var (k : string).

Definition placeholder (k : string) : string := "{{" +:+ k +:+ "}}".

Definition segment_text (seg : Segment) : string :=
  match seg with Lit s => s | Var k => placeholder k end.

Definition text (segs : list Segment) : string :=
  foldr (fun seg rest => segment_text seg +:+ rest) "" segs.

(** Names have no braces, literal text no opening one. *)
Definition name_ok (k : string) : Prop := has_char "{" k = false /\ has_char "}" k = false.
Definition segment_ok (seg : Segment) : Prop :=
  match seg with Lit s => has_char "{" s = false | Var k => name_ok k end.

(** The placeholders of [k] become the value, which may hold placeholders itself. *)
Definition fill (k : string) (v : list Segment) (seg : Segment) : list Segment :=
  match seg with
  | Var k' => if String.eqb k' k then v else [seg]
  | Lit _ => [seg]
  end.

Lemma text_app a b : text (a ++ b) = text a +:+ text b.
Proof.
  induction a as [|seg a IH]; [done|]. cbn [app text foldr]. fold (text (a ++ b)) (text a).
  by rewrite IH, append_assoc.
Qed.

Lemma has_char_app c a b : has_char c (a +:+ b) = has_char c a || has_char c b.
Proof. induction a as [|x a IH]; [done|]. app_simpl. cbn [has_char]. by rewrite IH, orb_assoc. Qed.

Lemma replace_step p r x s : starts_with p (String x s) = false ->
  replace_from p r 0 (String x s) = String x (replace_from p r 0 s).
Proof. intros Hs. cbn [replace_from]. by rewrite Hs. Qed.

(** Text without an opening brace is passed over. *)
Lemma replace_literal p r s t : has_char "{" s = false ->
  replace_from (String "{" p) r 0 (s +:+ t) = s +:+ replace_from (String "{" p) r 0 t.
Proof.
  induction s as [|x s IH]; [done|]. cbn [has_char]. intros [Hx Hs]%orb_false_iff.
  app_simpl. rewrite replace_step; [by rewrite IH|].
  cbn [starts_with]. by rewrite Ascii.eqb_sym, Hx.
Qed.

Lemma replace_skip p r s t : replace_from p r (String.length s) (s +:+ t) = replace_from p r 0 t.
Proof. induction s as [|x s IH]; [by destruct t|]. app_simpl. cbn [String.length replace_from]. done. Qed.

(** The pattern itself is replaced. *)
Lemma replace_hit p r t : replace_from (String "{" p) r 0 (String "{" p +:+ t)
  = r +:+ replace_from (String "{" p) r 0 t.
Proof.
  assert (starts_with (String "{" p) (String "{" p +:+ t) = true) as Hs
    by (apply starts_with_app; by exists t).
  app_simpl. cbn [replace_from]. rewrite Hs. cbn [String.length Nat.sub].
  by rewrite Nat.sub_0_r, replace_skip.
Qed.

Lemma other_name k k' t : has_char "}" k = false -> has_char "}" k' = false -> k <> k' ->
  starts_with (k +:+ "}}") (k' +:+ ("}}" +:+ t)) = false.
Proof.
  revert k'. induction k as [|x k IH]; intros [|y k'] Hk Hk' Hne; app_simpl.
  - done.
  - cbn [has_char] in Hk'. apply orb_false_iff in Hk' as [Hy _].
    cbn [starts_with]. by rewrite Ascii.eqb_sym, Hy.
  - cbn [has_char] in Hk. apply orb_false_iff in Hk as [Hx _]. cbn [starts_with]. by rewrite Hx.
  - cbn [has_char] in Hk, Hk'. apply orb_false_iff in Hk as [_ Hk]. apply orb_false_iff in Hk' as [_ Hk'].
    cbn [starts_with]. destruct (Ascii.eqb_spec x y) as [->|]; [|done]. cbn [andb].
    apply IH; [done | done |]. intros ->. by apply Hne.
Qed.

Lemma placeholder_app k t : placeholder k +:+ t = String "{" (String "{" (k +:+ ("}}" +:+ t))).
Proof. unfold placeholder. by rewrite !append_assoc. Qed.

(** A placeholder of another name is passed over. *)
Lemma replace_miss k k' r t : name_ok k -> name_ok k' -> k <> k' ->
  replace_from (placeholder k) r 0 (placeholder k' +:+ t)
  = placeholder k' +:+ replace_from (placeholder k) r 0 t.
Proof.
  intros [Ho Hc] [Ho' Hc'] Hne. rewrite !placeholder_app.
  change (placeholder k) with (String "{" (String "{" (k +:+ "}}"))).
  rewrite replace_step; [|cbn [starts_with]; by rewrite (other_name k k' t Hc Hc' Hne)].
  rewrite replace_step.
  - rewrite <- (append_assoc k' "}}" t), replace_literal, append_assoc; [done|].
    by rewrite has_char_app, Ho'.
  - destruct k' as [|y k']; [done|]. cbn [has_char] in Ho'. apply orb_false_iff in Ho' as [Hy _].
    app_simpl. cbn [starts_with]. by rewrite (Ascii.eqb_sym _ y), Hy.
Qed.

Lemma replace_text k v segs : name_ok k -> Forall segment_ok segs ->
  replace (placeholder k) (text v) (text segs) = text (flat_map (fill k v) segs).
Proof.
  intros Hk. induction 1 as [|seg segs Hseg _ IH]; [done|].
  unfold replace in *. cbn [text foldr flat_map]. fold (text segs). rewrite text_app, <- IH.
  destruct seg as [s|k']; cbn [segment_text fill].
  - rewrite (replace_literal ("{" +:+ k +:+ "}}") (text v) s) by done. cbn. by rewrite append_nil_r.
  - destruct (String.eqb_spec k' k) as [->|Hne]; [apply (replace_hit ("{" +:+ k +:+ "}}"))|].
    rewrite replace_miss by congruence || done. cbn [text foldr segment_text]. by rewrite append_nil_r.
Qed.

Lemma fill_ok k v segs : Forall segment_ok v -> Forall segment_ok segs ->
  Forall segment_ok (flat_map (fill k v) segs).
Proof.
  intros Hv Hs. rewrite Forall_forall in *. intros x (seg & Hin & Hx)%list_elem_of_In%in_flat_map.
  apply list_elem_of_In in Hin, Hx. destruct seg as [s|k']; cbn [fill] in Hx.
  - apply list_elem_of_singleton in Hx as ->. by apply Hs.
  - destruct (String.eqb k' k); [by apply Hv | apply list_elem_of_singleton in Hx as ->; by apply Hs].
Qed.

(** Variables with their values as segments, and as the handler has them. *)
Abbreviation Vars := (list (string * list Segment)).
Definition plain (vars : Vars) : list (string * string) := map (fun kv => (fst kv, text (snd kv))) vars.

(** The value of a name, the first entry of it. *)
Fixpoint assoc (vars : Vars) (k : string) : option (list Segment) :=
  match vars with
  | [] => None
  | (k', v) :: vars' => if String.eqb k' k then Some v else assoc vars' k
  end.

(** All placeholders at once. *)
Definition filled (vars : Vars) (seg : Segment) : list Segment :=
  match seg with
  | Lit _ => [seg]
  | Var k => default [seg] (assoc vars k)
  end.

Definition vars_ok (vars : Vars) : Prop :=
  Forall (fun kv => name_ok (fst kv) /\ Forall segment_ok (snd kv)) vars.

(** No value holds a placeholder of one of the names. *)
Definition foreign (names : list string) (v : list Segment) : Prop := forall k, Var k ∈ v -> k ∉ names.
Definition values_foreign (names : list string) (vars : Vars) : Prop :=
  Forall (fun kv => foreign names (snd kv)) vars.

Lemma assoc_absent vars k : k ∉ map fst vars -> assoc vars k = None.
Proof.
  induction vars as [|[k' v] vars IH]; [done|]. cbn [map fst assoc]. intros Hk.
  apply not_elem_of_cons in Hk as [Hne Hk]. destruct (String.eqb_spec k' k); [done | by apply IH].
Qed.

Lemma filled_foreign vars v : foreign (map fst vars) v -> flat_map (filled vars) v = v.
Proof.
  induction v as [|seg v IH]; [done|]. intros Hf. cbn [flat_map].
  rewrite IH by (intros k Hk; apply Hf; by right).
  destruct seg as [s|k]; [done|]. cbn [filled]. by rewrite assoc_absent by (apply Hf; by left).
Qed.

Lemma fill_then_filled k v vars segs : foreign (map fst vars) v ->
  flat_map (filled vars) (flat_map (fill k v) segs) = flat_map (filled ((k, v) :: vars)) segs.
Proof.
  intros Hv. induction segs as [|seg segs IH]; [done|]. cbn [flat_map].
  rewrite flat_map_app, IH. f_equal. destruct seg as [s|k']; [done|]. cbn [fill filled assoc].
  rewrite (String.eqb_sym k k'). destruct (String.eqb k' k); [by apply filled_foreign|].
  cbn [flat_map filled]. by rewrite app_nil_r.
Qed.

Lemma filled_none segs : flat_map (filled []) segs = segs.
Proof. apply filled_foreign. intros k _ Hk. by apply not_elem_of_nil in Hk. Qed.

Lemma render_segments vars segs : vars_ok vars -> values_foreign (map fst vars) vars ->
  Forall segment_ok segs ->
  fold_left (fun result kv => replace ("{{" +:+ fst kv +:+ "}}") (snd kv) result) (plain vars) (text segs)
  = text (flat_map (filled vars) segs).
Proof.
  intros Hv. revert segs. induction Hv as [|[k v] vars [Hk Hval] _ IH]; intros segs Hf Hs.
  - cbn [plain map fold_left]. by rewrite filled_none.
  - assert (forall x, foreign (k :: map fst vars) x -> foreign (map fst vars) x) as Hsub
      by (intros x Hx k' Hk' Hin; apply (Hx k' Hk'); by right).
    apply Forall_cons in Hf as [Hfv Hf]. cbn [plain map fold_left fst snd]. fold (plain vars).
    change ("{{" +:+ k +:+ "}}") with (placeholder k). rewrite (replace_text k v segs Hk Hs), IH.
    + by rewrite fill_then_filled by (by apply Hsub).
    + eapply Forall_impl; [exact Hf|]. intros x. apply Hsub.
    + by apply fill_ok.
Qed.

(** A placeholder in the value of a name met earlier is expanded, in that of a
    name met later it is not. *)
Lemma render_nested k1 k2 v : name_ok k1 -> name_ok k2 -> k1 <> k2 ->
  replace (placeholder k2) v (replace (placeholder k1) (placeholder k2) (placeholder k1)) = v
  /\ replace (placeholder k1) (placeholder k2) (replace (placeholder k2) v (placeholder k1))
     = placeholder k2.
Proof.
  intros H1 H2 Hne. unfold replace.
  assert (forall k r, replace_from (placeholder k) r 0 (placeholder k) = r) as Hhit.
  { intros k r. rewrite <- (append_nil_r (placeholder k)) at 2.
    unfold placeholder. rewrite (replace_hit ("{" +:+ k +:+ "}}")). apply append_nil_r. }
  split; [by rewrite !Hhit|].
  rewrite <- (append_nil_r (placeholder k1)) at 2. rewrite replace_miss by congruence || done.
  cbn [replace_from]. by rewrite append_nil_r, Hhit.
Qed.

Lemma assoc_In vars k v : NoDup (map fst vars) -> assoc vars k = Some v <-> (k, v) ∈ vars.
Proof.
  induction vars as [|[k' v'] vars IH]; cbn [map fst assoc]; intros Hn.
  - split; [done | intros Hx; by apply not_elem_of_nil in Hx].
  - apply NoDup_cons in Hn as [Hni Hn]. rewrite elem_of_cons. destruct (String.eqb_spec k' k) as [->|Hne].
    + split; [intros [= ->]; by left|]. intros [[= ->]|Hin]; [done|].
      destruct Hni. apply (list_elem_of_fmap_2 fst _ _ Hin).
    + rewrite IH by done. split; [by right|]. intros [[= -> ->]|Hin]; [done | done].
Qed.

(** The value of a name does not depend on the order. *)
Lemma assoc_perm vars vars' k : NoDup (map fst vars) -> Permutation vars vars' ->
  assoc vars' k = assoc vars k.
Proof.
  intros Hn Hp. assert (NoDup (map fst vars')) as Hn' by (by rewrite <- Hp).
  destruct (assoc vars k) as [v|] eqn:E.
  - apply assoc_In; [done|]. rewrite <- Hp. by apply assoc_In.
  - destruct (assoc vars' k) as [v|] eqn:E'; [|done].
    apply assoc_In in E'; [|done]. rewrite <- Hp in E'. apply assoc_In in E'; [|done]. congruence.
Qed.

Lemma vars_ok_perm vars vars' : Permutation vars vars' -> vars_ok vars -> vars_ok vars'.
Proof. intros Hp. unfold vars_ok. by rewrite Hp. Qed.

Lemma values_foreign_perm vars vars' : Permutation vars vars' ->
  values_foreign (map fst vars) vars -> values_foreign (map fst vars') vars'.
Proof.
  intros Hp Hf. unfold values_foreign in *. rewrite Hp in Hf.
  eapply Forall_impl; [exact Hf|]. intros kv Hkv k Hk. rewrite <- Hp. by apply Hkv.
Qed.

End rendering.
