(* ===== verification/MessagingStore.v ===== *)
(** * Messaging: stores, adapters and rate limiting

    [messaging-engine/src/infrastructure/]: the delivery log and the template
    store with their in-memory fallbacks ([postgres_delivery.rs],
    [postgres_template.rs]), the three provider adapters, and the rate limiter
    ([redis_rate_limit.rs]).  The handler's ports over them are the instance
    [msg_ports].

    The database, Redis, the clock and the identifiers are the environment
    [MsgEnv]; the order in which a [HashMap] is iterated is part of it. *)

From Stdlib Require Import ZArith Lia Ascii.
From stdpp Require Import base list strings gmap numbers pretty.
From S2P Require Import Prelude RustStr External Reference Grpc Messaging.

Local Open Scope string_scope.

(** ** Environment and world *)

(** A row of [messaging.sms_templates] or [messaging.whatsapp_templates]. *)
Record TemplateRow := mkTemplateRow {
  tr_application_id : Uuid;
  tr_template_code : string;
  tr_template_name : string;
  tr_text : string;
  tr_is_active : bool;
  tr_variables : option json;
}.

Class MsgEnv := {
  (** [db: Option<PgPool>] *)
  has_db : bool;
  m_fault : nat -> option string;
  m_clock : nat -> DateTime;
  m_uuid : nat -> Uuid;
  (** row-level security on the template tables *)
  m_sees : Uuid -> TemplateRow -> bool;
  (** the order of [HashMap::values] *)
  attempt_values : gmap Uuid DeliveryAttempt -> list DeliveryAttempt;
  template_values : gmap string Template -> list Template;
  (** the text of a uuid parse error *)
  m_uuid_error : string -> string;
}.

(** [values] yields every value once. *)
Class MsgEnvLaws `{MsgEnv} : Prop := {
  attempt_values_perm : forall m, Permutation (attempt_values m) (map snd (map_to_list m));
  template_values_perm : forall m, Permutation (template_values m) (map snd (map_to_list m));
}.

Record MsgWorld := mkMsgWorld {
  attempts : gmap Uuid DeliveryAttempt;
  fallback_templates : gmap string Template;
  sms_rows : list TemplateRow;
  whatsapp_rows : list TemplateRow;
  m_tick : nat;
}.

Definition m_next (w : MsgWorld) : MsgWorld :=
  mkMsgWorld (attempts w) (fallback_templates w) (sms_rows w) (whatsapp_rows w) (S (m_tick w)).
Definition set_attempts (a : gmap Uuid DeliveryAttempt) (w : MsgWorld) : MsgWorld :=
  mkMsgWorld a (fallback_templates w) (sms_rows w) (whatsapp_rows w) (m_tick w).

Section stores.
Context `{UuidOps} `{HashOps} `{HexOps} `{MsgEnv}.

(** A statement with its error converted by [err]. *)
Definition m_statement (err : string -> MessagingError) : M MsgWorld MessagingError unit := fun w =>
  match m_fault (m_tick w) with
  | Some e => (Err (err e), m_next w)
  | None => (Ok tt, m_next w)
  end.

Definition m_now : M MsgWorld MessagingError DateTime := fun w => (Ok (m_clock (m_tick w)), m_next w).
Definition m_new_v4 : M MsgWorld MessagingError Uuid := fun w => (Ok (m_uuid (m_tick w)), m_next w).

(** [set_tenant_context] *)
Definition set_tenant_context (err : string -> MessagingError) : M MsgWorld MessagingError unit :=
  if has_db then m_statement err else mret tt.

(** ** The delivery log *)

Definition context_error (e : string) : MessagingError :=
  MsgDatabase ("Failed to set tenant context: " +:+ e).

(** [log_attempt]: nothing is written to the database. *)
Definition pg_log_attempt (a : DeliveryAttempt) : M MsgWorld MessagingError unit :=
  set_tenant_context context_error ;;
  modify (fun w => set_attempts (<[da_message_id a := a]> (attempts w)) w).

(** [get_attempt] *)
Definition pg_get_attempt (id : Uuid) : M MsgWorld MessagingError (option DeliveryAttempt) :=
  gets (fun w => attempts w !! id).

(** The [retain] calls of [list_attempts]. *)
Definition passes (f : MessageFilters) (a : DeliveryAttempt) : bool :=
  match mf_channels f with [] => true | l => existsb (fun c => bool_decide (c = da_channel a)) l end
  && match mf_statuses f with [] => true | l => existsb (fun s => bool_decide (s = da_status a)) l end
  && match mf_recipient f with None => true | Some r => String.eqb (da_recipient a) r end
  && match mf_from_date f with
     | None => true
     | Some from => match da_sent_at a with Some t => (from <=? t)%Z | None => false end
     end
  && match mf_to_date f with
     | None => true
     | Some to => match da_sent_at a with Some t => (t <=? to)%Z | None => false end
     end
  && match mf_session_id f with
     | None => true
     | Some s => match da_session_id a with Some s' => String.eqb s' s | None => false end
     end.

(** [list_attempts] *)
Definition pg_list_attempts (tenant_id : Uuid) (f : MessageFilters)
    : M MsgWorld MessagingError (list DeliveryAttempt) :=
  set_tenant_context context_error ;;
  gets (fun w => List.filter (passes f)
    (List.filter (fun a => N.eqb (da_tenant_id a) tenant_id) (attempt_values (attempts w)))).

(** ** Templates *)

(** [parse_variables] *)
Definition parse_variables (v : option json) : list string :=
  match v with Some (JArray arr) => omap as_str arr | _ => [] end.

Definition template_of_row (channel : MessageChannel) (tenant_id : Uuid) (r : TemplateRow) : Template :=
  mkTemplate (tr_template_code r) tenant_id (tr_template_name r) channel None (tr_text r)
    (parse_variables (tr_variables r)) (tr_is_active r).

(** The rows a query of the tenant's active templates sees. *)
Definition active_rows (tenant_id : Uuid) (rows : list TemplateRow) : list TemplateRow :=
  List.filter (fun r => N.eqb (tr_application_id r) tenant_id && tr_is_active r && m_sees tenant_id r) rows.

Definition row_of_code (tenant_id : Uuid) (code : string) (rows : list TemplateRow) : option TemplateRow :=
  List.find (fun r => String.eqb (tr_template_code r) code) (active_rows tenant_id rows).

Definition template_key (tenant_id : Uuid) (id : string) : string :=
  uuid_to_string tenant_id +:+ ":" +:+ id.

(** [seed_fallback] *)
Definition seed_fallback (ts : list Template) : M MsgWorld MessagingError unit :=
  modify (fun w => mkMsgWorld (attempts w)
    (fold_left (fun m t => <[template_key (tpl_tenant_id t) (tpl_id t) := t]> m) ts (fallback_templates w))
    (sms_rows w) (whatsapp_rows w) (m_tick w)).

Definition fallback_template (tenant_id : Uuid) (id : string) : M MsgWorld MessagingError Template :=
  found ← gets (fun w => fallback_templates w !! template_key tenant_id id);
  lift (ok_or found (TemplateNotFound id)).

(** [get_template] *)
Definition pg_get_template (tenant_id : Uuid) (id : string) : M MsgWorld MessagingError Template :=
  if has_db then
    set_tenant_context MsgDatabase ;;
    m_statement MsgDatabase ;;
    sms ← gets (fun w => row_of_code tenant_id id (sms_rows w));
    match sms with
    | Some r => mret (template_of_row Sms tenant_id r)
    | None =>
        m_statement MsgDatabase ;;
        wa ← gets (fun w => row_of_code tenant_id id (whatsapp_rows w));
        match wa with
        | Some r => mret (template_of_row WhatsApp tenant_id r)
        | None => fallback_template tenant_id id
        end
    end
  else fallback_template tenant_id id.

(** The query of one template table in [list_templates]. *)
Definition list_table (channel : option MessageChannel) (mine : MessageChannel) (tenant_id : Uuid)
    (table : MsgWorld -> list TemplateRow) : M MsgWorld MessagingError (list Template) :=
  if bool_decide (channel = None) || bool_decide (channel = Some mine) then
    m_statement MsgDatabase ;;
    gets (fun w => map (template_of_row mine tenant_id) (active_rows tenant_id (table w)))
  else mret [].

(** [list_templates] *)
Definition pg_list_templates (tenant_id : Uuid) (channel : option MessageChannel)
    : M MsgWorld MessagingError (list Template) :=
  results ← (if has_db then
               set_tenant_context MsgDatabase ;;
               sms ← list_table channel Sms tenant_id sms_rows;
               wa ← list_table channel WhatsApp tenant_id whatsapp_rows;
               mret (sms ++ wa)%list
             else mret []);
  match results with
  | [] =>
      gets (fun w =>
        let mine := List.filter (fun t => N.eqb (tpl_tenant_id t) tenant_id)
                      (template_values (fallback_templates w)) in
        match channel with
        | Some ch => List.filter (fun t => bool_decide (tpl_channel t = ch)) mine
        | None => mine
        end)
  | _ => mret results
  end.

(** ** Provider adapters *)

(** [EcoCashAdapter::sign_payload] *)
Definition sign_payload (api_secret payload : string) : string :=
  hex_encode (hmac_sha256 (as_bytes api_secret) (as_bytes payload)).

(** The adapters' [send_sms]: nothing leaves the process, the reference is
    fresh. *)
Definition stub_send (prefix response : string) (_to _body _sender : string)
    : M MsgWorld MessagingError ProviderReceipt :=
  id ← m_new_v4;
  mret (mkReceipt (prefix +:+ uuid_to_string id) response).

Definition quoted (s : string) : string :=
  let q := String (Ascii.ascii_of_nat 34) EmptyString in q +:+ s +:+ q.

(** A flat JSON object with text values. *)
Definition json_pairs (a b c d : string) : string :=
  "{" +:+ quoted a +:+ ":" +:+ quoted b +:+ "," +:+ quoted c +:+ ":" +:+ quoted d +:+ "}".

Definition ecocash_adapter : SmsProvider MsgWorld :=
  mkSmsProvider "ecocash"
    (stub_send "ECO-" (json_pairs "status" "accepted" "message_id" "stub"))
    (fun _ => mret DsDelivered).

Definition onemoney_adapter : SmsProvider MsgWorld :=
  mkSmsProvider "onemoney"
    (stub_send "OM-" ("<?xml version=" +:+ quoted "1.0" +:+ "?><Response><Status>OK</Status></Response>"))
    (fun _ => mret DsDelivered).

Definition telecash_adapter : SmsProvider MsgWorld :=
  mkSmsProvider "telecash"
    (stub_send "TC-" (json_pairs "status" "queued" "message_id" "stub"))
    (fun _ => mret DsSent).

(** The ports as [main.rs] wires them. *)
#[export] Instance msg_ports : MsgPorts MsgWorld := {|
  providers := [ecocash_adapter; onemoney_adapter; telecash_adapter];
  log_attempt := pg_log_attempt;
  get_attempt := pg_get_attempt;
  list_attempts := pg_list_attempts;
  get_template := pg_get_template;
  list_templates := pg_list_templates;
  mp_now := m_now;
  mp_new_v4 := m_new_v4;
|}.

End stores.

(** ** Rate limiting *)

Section limiter.

(** The counters of the fallback. *)
Abbreviation Counters := (gmap string Z).

(** [fallback_check]; the counter is a [u32] and wraps. *)
Definition fallback_check (tenant_id : string) (limit : Z) (c : Counters) : bool * Counters :=
  let count := as_u32 (default 0%Z (c !! tenant_id) + 1) in
  ((count <=? limit)%Z, <[tenant_id := count]> c).

(** [check_and_increment]; [incr] is the answer of Redis to [INCR], if there is
    a connection. *)
Definition check_and_increment (incr : option (Result string Z)) (tenant_id : string) (limit : Z)
    (c : Counters) : bool * Counters :=
  match incr with
  | Some (Ok n) => ((n <=? limit)%Z, c)
  | _ => fallback_check tenant_id limit c
  end.

(** A sequence of calls without Redis, with their answers. *)
Fixpoint run_checks (calls : list string) (limit : Z) (c : Counters) : list bool :=
  match calls with
  | [] => []
  | t :: calls' =>
      let (b, c') := check_and_increment None t limit c in b :: run_checks calls' limit c'
  end.

(** The number of calls of [t] among [calls]. *)
Definition calls_of (t : string) (calls : list string) : Z :=
  Z.of_nat (length (List.filter (String.eqb t) calls)).

Lemma run_checks_spec calls limit : forall c,
  (forall t, (0 <= default 0 (c !! t) /\ default 0 (c !! t) + Z.of_nat (length calls) < 2 ^ 32)%Z) ->
  forall i t, calls !! i = Some t ->
  run_checks calls limit c !! i
  = Some (default 0 (c !! t) + calls_of t (take i calls) + 1 <=? limit)%Z.
Proof.
  induction calls as [|t0 calls IH]; intros c Hc i t Hi; [done|].
  cbn [run_checks check_and_increment fallback_check]. cbn [length] in Hc.
  assert (as_u32 (default 0 (c !! t0) + 1) = default 0 (c !! t0) + 1)%Z as Hw.
  { unfold as_u32. apply Z.mod_small. specialize (Hc t0). lia. }
  rewrite Hw. destruct i as [|i].
  - simplify_eq/=. by rewrite Z.add_0_r.
  - cbn in Hi. assert (forall x, default 0%Z (<[t0 := (default 0 (c !! t0) + 1)%Z]> c !! x)
      = default 0 (c !! x) + (if String.eqb x t0 then 1 else 0))%Z as Hins.
    { intros x. destruct (String.eqb_spec x t0) as [->|Hne].
      - by rewrite lookup_insert_eq.
      - rewrite lookup_insert_ne by congruence. lia. }
    etransitivity; [exact (IH _ ltac:(intros x; rewrite Hins; specialize (Hc x); destruct (String.eqb x t0); lia) i t Hi)|].
    rewrite Hins. cbn [take]. do 2 f_equal. unfold calls_of. cbn [List.filter].
    destruct (String.eqb t t0); cbn [length]; lia.
Qed.

End limiter.

(** ** Lemmas *)

Section lemmas.
Context `{UuidOps} `{MsgEnv}.

Definition m_no_faults : Prop := forall n, m_fault n = None.

(** Everything but the attempts and the tick. *)
Definition same_templates (w w' : MsgWorld) : Prop :=
  fallback_templates w' = fallback_templates w /\ sms_rows w' = sms_rows w
  /\ whatsapp_rows w' = whatsapp_rows w.

Lemma m_statement_ok err w : m_no_faults -> m_statement err w = (Ok tt, m_next w).
Proof. intros Hf. unfold m_statement. by rewrite Hf. Qed.

Definition after_context (w : MsgWorld) : MsgWorld := if has_db then m_next w else w.

Lemma set_tenant_context_ok err w : m_no_faults ->
  set_tenant_context err w = (Ok tt, after_context w).
Proof.
  intros Hf. unfold set_tenant_context, after_context. destruct has_db; [|done].
  by apply m_statement_ok.
Qed.

Lemma attempts_after_context w : attempts (after_context w) = attempts w.
Proof. unfold after_context. by destruct has_db. Qed.

Definition logged (a : DeliveryAttempt) (w : MsgWorld) : MsgWorld :=
  set_attempts (<[da_message_id a := a]> (attempts w)) (after_context w).

Lemma pg_log_attempt_ok a w : m_no_faults -> pg_log_attempt a w = (Ok tt, logged a w).
Proof.
  intros Hf. unfold pg_log_attempt. run_step (set_tenant_context_ok _ _ Hf).
  unfold modify, logged. by rewrite attempts_after_context.
Qed.

Lemma logged_templates a w : same_templates w (logged a w).
Proof. unfold logged, after_context, same_templates. by destruct has_db. Qed.

Definition adapter (p : Provider) : SmsProvider MsgWorld :=
  match p with
  | MpEcoCash => ecocash_adapter
  | MpOneMoney => onemoney_adapter
  | MpTeleCash => telecash_adapter
  end.

Lemma select_provider_routed r p : route_provider r = Some p -> select_provider r = Ok (adapter p).
Proof. intros Hr. unfold select_provider. rewrite Hr. by destruct p. Qed.

Lemma select_provider_unrouted r : route_provider r = None ->
  select_provider (W := MsgWorld) r = Err (InvalidPhone r).
Proof. intros Hr. unfold select_provider. by rewrite Hr. Qed.

Lemma route_provider_prefix r p : route_provider r = Some p ->
  existsb (fun prefix => starts_with prefix (trim_start_matches "+"%char r))
    (match p with
     | MpEcoCash => ["26377"; "26378"]
     | MpOneMoney => ["26371"; "26372"]
     | MpTeleCash => ["26373"; "26374"]
     end) = true.
Proof.
  unfold route_provider. cbv zeta. repeat case_match; intros Hp; simplify_eq; cbn [existsb];
    by rewrite orb_false_r.
Qed.

Definition ref_prefix (p : Provider) : string :=
  match p with MpEcoCash => "ECO-" | MpOneMoney => "OM-" | MpTeleCash => "TC-" end.

Lemma adapter_send p to body sender w : exists receipt,
  provider_send_sms (adapter p) to body sender w = (Ok receipt, m_next w)
  /\ provider_ref receipt = ref_prefix p +:+ uuid_to_string (m_uuid (m_tick w)).
Proof. destruct p; eexists; (split; [reflexivity | done]). Qed.

(** Sending through a provider and recording it. *)
Lemma record_sent p to body sender (mk : DateTime -> ProviderReceipt -> DeliveryAttempt) w : m_no_faults ->
  exists receipt,
    (receipt ← provider_send_sms (adapter p) to body sender;
     now ← mp_now;
     log_attempt (mk now receipt) ;;
     mret (mk now receipt)) w
    = (Ok (mk (m_clock (S (m_tick w))) receipt), logged (mk (m_clock (S (m_tick w))) receipt) (m_next (m_next w)))
    /\ provider_ref receipt = ref_prefix p +:+ uuid_to_string (m_uuid (m_tick w)).
Proof.
  intros Hf. destruct (adapter_send p to body sender w) as (receipt & Hs & Hr).
  exists receipt. split; [|done]. run_step Hs. erewrite bind_ok; [|reflexivity].
  by run_step (pg_log_attempt_ok _ _ Hf).
Qed.

Lemma send_sms_ok msg p w : m_no_faults -> route_provider (msg_recipient msg) = Some p ->
  exists a, send_sms msg w = (Ok a, logged a (m_next (m_next w)))
    /\ a = sent_attempt msg (msg_channel msg) p (m_clock (S (m_tick w)))
             (mkReceipt (ref_prefix p +:+ uuid_to_string (m_uuid (m_tick w))) "").
Proof.
  intros Hf Hr. unfold send_sms. rewrite (select_provider_routed _ _ Hr), Hr.
  erewrite bind_ok; [|reflexivity].
  destruct (record_sent p (msg_recipient msg) (msg_body msg) "USSD-KERNEL"
              (sent_attempt msg (msg_channel msg) p) w Hf) as (receipt & Hs & Href).
  eexists. split; [exact Hs|]. unfold sent_attempt. by rewrite Href.
Qed.

Lemma send_whatsapp_ok msg p w : m_no_faults -> route_provider (msg_recipient msg) = Some p ->
  exists a, send_whatsapp msg w = (Ok a, logged a (m_next (m_next w)))
    /\ a = sent_attempt msg WhatsApp p (m_clock (S (m_tick w)))
             (mkReceipt (ref_prefix p +:+ uuid_to_string (m_uuid (m_tick w))) "").
Proof.
  intros Hf Hr. unfold send_whatsapp. rewrite (select_provider_routed _ _ Hr), Hr.
  erewrite bind_ok; [|reflexivity].
  destruct (record_sent p (msg_recipient msg) (msg_body msg) "USSD-KERNEL"
              (sent_attempt msg WhatsApp p) w Hf) as (receipt & Hs & Href).
  eexists. split; [exact Hs|]. unfold sent_attempt. by rewrite Href.
Qed.

Lemma send_email_ok msg w : m_no_faults ->
  exists a, send_email msg w = (Ok a, logged a (m_next (m_next w))) /\ da_message_id a = msg_id msg.
Proof.
  intros Hf. unfold send_email. erewrite bind_ok; [|reflexivity].
  destruct (record_sent MpEcoCash (msg_recipient msg) (msg_body msg) "USSD-KERNEL"
              (sent_attempt msg Email MpEcoCash) w Hf) as (receipt & Hs & _).
  eexists. split; [exact Hs | done].
Qed.

(** What a provider reports. *)
Definition reported (p : Provider) : DeliveryStatus :=
  match p with MpTeleCash => DsSent | _ => DsDelivered end.

Lemma adapter_status p ref w : provider_get_status (adapter p) ref w = (Ok (reported p), w).
Proof. by destruct p. Qed.

(** Refreshing the status of an attempt that was sent. *)
Lemma get_status_sent id a p ref w : m_no_faults ->
  attempts w !! id = Some a -> da_message_id a = id -> da_provider_ref a = Some ref ->
  route_provider (da_recipient a) = Some p -> da_status a = DsSent ->
  exists b w', get_message_status id w = (Ok b, w')
    /\ b = refreshed a (reported p) (da_delivered_at b)
    /\ (da_delivered_at b = match p with
                            | MpTeleCash => da_delivered_at a
                            | _ => Some (m_clock (m_tick w))
                            end)
    /\ attempts w' = <[id := b]> (attempts w).
Proof.
  intros Hf Ha Hid Href Hr Hs. unfold get_message_status.
  erewrite bind_ok; [|reflexivity]. rewrite Ha. cbn [ok_or]. erewrite bind_ok; [|reflexivity].
  rewrite Href, (select_provider_routed _ _ Hr).
  erewrite bind_ok; [|eapply attempt_ok; [apply adapter_status | done]]. cbv beta iota. rewrite Hs.
  destruct p; cbn [reported].
  3: { exists a, w. rewrite bool_decide_eq_true_2 by done. split_and!; try done.
       - destruct a; simpl in *; by subst.
       - by rewrite insert_id. }
  all: rewrite bool_decide_eq_false_2 by done; rewrite bool_decide_eq_true_2 by done;
    eexists _, _; split; [erewrite bind_ok; [|reflexivity]; by run_step (pg_log_attempt_ok _ _ Hf)|];
    cbn [logged attempts set_attempts refreshed da_message_id da_delivered_at]; by rewrite Hid.
Qed.

(** An attempt already delivered stays as it is. *)
Lemma get_status_settled id a p ref w :
  attempts w !! id = Some a -> da_provider_ref a = Some ref ->
  route_provider (da_recipient a) = Some p -> da_status a = reported p ->
  get_message_status id w = (Ok a, w).
Proof.
  intros Ha Href Hr Hs. unfold get_message_status.
  erewrite bind_ok; [|reflexivity]. rewrite Ha. cbn [ok_or]. erewrite bind_ok; [|reflexivity].
  rewrite Href, (select_provider_routed _ _ Hr).
  erewrite bind_ok; [|eapply attempt_ok; [apply adapter_status | done]]. cbv beta iota.
  by rewrite Hs, bool_decide_eq_true_2.
Qed.

End lemmas.

(** *** Batches *)

Section batches.
Context `{UuidOps} `{MsgEnv}.

(** A message that no provider takes. *)
Definition undeliverable (m : Message) : bool :=
  match msg_channel m with
  | Sms | WhatsApp => bool_decide (route_provider (msg_recipient m) = None)
  | _ => false
  end.

(** The messages a batch gets to: all of them, or up to the first failure. *)
Fixpoint processed (continue_on_error : bool) (msgs : list Message) : list Message :=
  match msgs with
  | [] => []
  | m :: rest =>
      m :: (if undeliverable m && negb continue_on_error then [] else processed continue_on_error rest)
  end.

Fixpoint failures (idx : nat) (msgs : list Message) : list (nat * MessagingError) :=
  match msgs with
  | [] => []
  | m :: rest =>
      if undeliverable m then (idx, InvalidPhone (msg_recipient m)) :: failures (S idx) rest
      else failures (S idx) rest
  end.

Definition undelivered (msgs : list Message) : nat := length (List.filter undeliverable msgs).

(** One message: it fails exactly when it is undeliverable; otherwise it is in
    the log afterwards, unless it is a push; other entries stay. *)
Lemma send_one_ok m w : m_no_faults -> exists r w', send_one m w = (Ok r, w')
  /\ (if undeliverable m then r = Some (Err (InvalidPhone (msg_recipient m)))
      else forall e, r <> Some (Err e))
  /\ (undeliverable m = false -> msg_channel m <> Push -> is_Some (attempts w' !! msg_id m))
  /\ (forall id, is_Some (attempts w !! id) -> is_Some (attempts w' !! id)).
Proof.
  intros Hf. unfold send_one, undeliverable.
  assert (forall a, attempts (logged a (m_next (m_next w))) = <[da_message_id a := a]> (attempts w)) as Hlog
    by done.
  assert (forall a id, is_Some (attempts w !! id) -> is_Some (<[da_message_id a := a]> (attempts w) !! id)) as Hkeep.
  { intros a id Hid. destruct (decide (da_message_id a = id)) as [<-|]; [by rewrite lookup_insert_eq|].
    by rewrite lookup_insert_ne. }
  destruct (msg_channel m) eqn:Hch.
  1,2: destruct (route_provider (msg_recipient m)) as [p|] eqn:Hr.
  - destruct (send_sms_ok m p w Hf Hr) as (a & Hs & Ha). eexists _, _.
    split; [erewrite bind_ok; [reflexivity | by eapply attempt_ok; [exact Hs|]]|].
    rewrite bool_decide_eq_false_2, Hlog by done. split_and!; [done | |by apply Hkeep].
    intros _ _. subst a. by rewrite lookup_insert_eq.
  - exists (Some (Err (InvalidPhone (msg_recipient m)))), w.
    split; [erewrite bind_ok; [reflexivity | apply (attempt_ok _ _ (Err (InvalidPhone (msg_recipient m)))); [|done]]|].
    { unfold send_sms. rewrite (select_provider_unrouted _ Hr). by erewrite bind_err. }
    rewrite bool_decide_eq_true_2 by done. done.
  - destruct (send_whatsapp_ok m p w Hf Hr) as (a & Hs & Ha). eexists _, _.
    split; [erewrite bind_ok; [reflexivity | by eapply attempt_ok; [exact Hs|]]|].
    rewrite bool_decide_eq_false_2, Hlog by done. split_and!; [done | |by apply Hkeep].
    intros _ _. subst a. by rewrite lookup_insert_eq.
  - exists (Some (Err (InvalidPhone (msg_recipient m)))), w.
    split; [erewrite bind_ok; [reflexivity | apply (attempt_ok _ _ (Err (InvalidPhone (msg_recipient m)))); [|done]]|].
    { unfold send_whatsapp. rewrite (select_provider_unrouted _ Hr). by erewrite bind_err. }
    rewrite bool_decide_eq_true_2 by done. done.
  - destruct (send_email_ok m w Hf) as (a & Hs & Ha). eexists _, _.
    split; [erewrite bind_ok; [reflexivity | by eapply attempt_ok; [exact Hs|]]|].
    rewrite Hlog. split_and!; [done | | by apply Hkeep].
    intros _ _. rewrite Ha. by rewrite lookup_insert_eq.
  - eexists _, w. split; [reflexivity|]. by split_and!.
Qed.

Lemma batch_loop_ok cont msgs : m_no_faults -> forall idx acc w,
  exists w', batch_loop idx msgs cont acc w
    = (Ok (mkBatchOutcome
             (success_count acc + (length (processed cont msgs) - undelivered (processed cont msgs)))
             (failure_count acc + undelivered (processed cont msgs))
             (batch_errors acc ++ failures idx (processed cont msgs))%list), w')
  /\ (forall m, m ∈ processed cont msgs -> undeliverable m = false -> msg_channel m <> Push ->
        is_Some (attempts w' !! msg_id m))
  /\ (forall id, is_Some (attempts w !! id) -> is_Some (attempts w' !! id)).
Proof.
  intros Hf. induction msgs as [|m msgs IH]; intros idx acc w.
  { exists w. cbn. destruct acc. rewrite app_nil_r, !Nat.add_0_r. split_and!; try done.
    intros m Hm. by apply not_elem_of_nil in Hm. }
  destruct (send_one_ok m w Hf) as (r & w1 & Hs & Hr & Hlog & Hkeep).
  cbn [batch_loop]. run_step Hs. cbn [processed failures]. unfold undelivered in *. cbn [List.filter length].
  destruct (undeliverable m) eqn:Hu; cbn [andb negb].
  - subst r. destruct cont; cbn [negb] in *.
    + edestruct (IH (S idx)) as (w' & Hb & Hl & Hk). exists w'. rewrite Hb.
      cbn [success_count failure_count batch_errors length]. rewrite <- app_assoc. split_and!.
      * do 2 f_equal. f_equal; lia.
      * intros m' [->|Hm']%elem_of_cons; [by rewrite Hu | by apply Hl].
      * intros id Hid. by apply Hk, Hkeep.
    + exists w1. cbn [List.filter length failures]. split_and!; [|intros m' [->|Hm']%elem_of_cons; [by rewrite Hu |
        by apply not_elem_of_nil in Hm']|done].
      unfold mret, M_ret. do 2 f_equal. f_equal; lia.
  - edestruct (IH (S idx)) as (w' & Hb & Hl & Hk). exists w'.
    destruct r as [[a|e|]|]; try (by exfalso; eapply Hr); rewrite Hb;
      (split_and!; [|intros m' [->|Hm']%elem_of_cons; [intros ??; by apply Hk, Hlog | by apply Hl]
                    |intros id Hid; by apply Hk, Hkeep]);
      cbn [success_count failure_count batch_errors];
      pose proof (List.filter_length_le undeliverable (processed cont msgs));
      do 2 f_equal; f_equal; lia.
Qed.

Lemma undelivered_le msgs : undelivered msgs <= length msgs.
Proof. apply List.filter_length_le. Qed.

Lemma failures_length idx msgs : undelivered msgs = length (failures idx msgs).
Proof.
  unfold undelivered. revert idx. induction msgs as [|m msgs IH]; intros idx; [done|].
  cbn [List.filter failures]. destruct (undeliverable m); cbn [length]; by rewrite (IH (S idx)).
Qed.

Lemma processed_all msgs : processed true msgs = msgs.
Proof. induction msgs as [|m msgs IH]; [done|]. cbn. by rewrite andb_false_r, IH. Qed.

Lemma processed_stops msgs : undelivered (processed false msgs) <= 1.
Proof.
  unfold undelivered. induction msgs as [|m msgs IH]; [simpl; lia|]. cbn [processed List.filter].
  destruct (undeliverable m); cbn [andb negb List.filter length]; [lia | done].
Qed.

End batches.

(** ** An environment for the witnesses *)

#[export] Instance test_msg_env : MsgEnv := {|
  has_db := true;
  m_fault _ := None;
  m_clock n := Z.of_nat n;
  m_uuid n := N.of_nat n;
  m_sees _ _ := true;
  attempt_values m := map snd (map_to_list m);
  template_values m := map snd (map_to_list m);
  m_uuid_error s := "invalid: " +:+ s;
|}.

#[export] Instance test_msg_laws : MsgEnvLaws.
Proof. by split. Qed.

Lemma test_m_no_faults : m_no_faults.
Proof. by intros n. Qed.

Definition empty_msgs : MsgWorld := mkMsgWorld ∅ ∅ [] [] 0.

Definition sample_sms (id : Uuid) (to : string) : Message :=
  mkMessage id to "hello" Sms Normal 5 None.

(** ** Theorems *)





(** C39. The life of an SMS.  To a number with a known prefix it is handed, with
    its body, to the adapter of that prefix (77 and 78 EcoCash, 71 and 72
    OneMoney, 73 and 74 TeleCash) and to no other; the attempt returned has
    status sent, that provider, the reference the adapter gave, and a preview of
    at most 160 characters that starts the body; the status asked afterwards is
    the one the same adapter reports for that reference, with the time of
    delivery if it is delivered; it changes nothing else of the attempt, no
    other attempt of the log changes, and asking again changes nothing. *)
Theorem sms_lifecycle `{UuidOps} `{MsgEnv} (msg : Message) (p : Provider) (w : MsgWorld) :
  m_no_faults -> route_provider (msg_recipient msg) = Some p ->
  exists q receipt a w1 b w2,
    (* the adapter *)
    q ∈ providers /\ select_provider (msg_recipient msg) = Ok q
    /\ existsb (fun prefix => starts_with prefix (trim_start_matches "+"%char (msg_recipient msg)))
         (match p with
          | MpEcoCash => ["26377"; "26378"]
          | MpOneMoney => ["26371"; "26372"]
          | MpTeleCash => ["26373"; "26374"]
          end) = true
    /\ provider_name q = match p with
                         | MpEcoCash => "ecocash" | MpOneMoney => "onemoney" | MpTeleCash => "telecash"
                         end
    /\ provider_send_sms q (msg_recipient msg) (msg_body msg) "USSD-KERNEL" w = (Ok receipt, m_next w)
    /\ provider_ref receipt
       = match p with MpEcoCash => "ECO-" | MpOneMoney => "OM-" | MpTeleCash => "TC-" end
         +:+ uuid_to_string (m_uuid (m_tick w))
    (* the attempt *)
    /\ send_sms msg w = (Ok a, w1)
    /\ da_message_id a = msg_id msg /\ da_recipient a = msg_recipient msg
    /\ da_status a = DsSent /\ da_provider a = p /\ da_provider_ref a = Some (provider_ref receipt)
    /\ starts_with (da_body_preview a) (msg_body msg) = true
    /\ char_count (da_body_preview a) <= 160
    (* its status *)
    /\ get_message_status (msg_id msg) w1 = (Ok b, w2)
    /\ provider_get_status q (provider_ref receipt) w1 = (Ok (da_status b), w1)
    /\ b = refreshed a (da_status b) (da_delivered_at b)
    /\ (is_Some (da_delivered_at b) <-> da_status b = DsDelivered)
    /\ attempts w2 = <[msg_id msg := b]> (attempts w)
    /\ get_message_status (msg_id msg) w2 = (Ok b, w2).
Proof.
  intros Hf Hr. destruct (adapter_send p (msg_recipient msg) (msg_body msg) "USSD-KERNEL" w)
    as (receipt & Hsend & Href).
  destruct (send_sms_ok msg p w Hf Hr) as (a & Hs & Ha).
  set (w1 := logged a (m_next (m_next w))) in *.
  assert (da_message_id a = msg_id msg) as Hid by (by rewrite Ha).
  assert (attempts w1 = <[msg_id msg := a]> (attempts w)) as Hw1 by (by rewrite <- Hid).
  assert (da_provider_ref a = Some (provider_ref receipt)) as Hra by (by rewrite Ha, Href).
  destruct (get_status_sent (msg_id msg) a p (provider_ref receipt) w1)
    as (b & w2 & Hb & Hbeq & Hd & Hw2); try done; try (by rewrite Ha).
  { by rewrite Hw1, lookup_insert_eq. }
  assert (da_status b = reported p) as Hst by (by rewrite Hbeq).
  exists (adapter p), receipt, a, w1, b, w2. rewrite Hst.
  split_and!; try done; try (by rewrite Ha).
  - destruct p; cbn; set_solver.
  - by apply select_provider_routed.
  - by apply route_provider_prefix.
  - by destruct p.
  - rewrite Ha. apply take_chars_prefix.
  - rewrite Ha. apply char_count_take.
  - apply adapter_status.
  - rewrite Hd, Ha. destruct p; simpl; split; intros Hx; eauto; try done; by destruct Hx.
  - by rewrite Hw2, Hw1, insert_insert_eq.
  - apply (get_status_settled _ b p (provider_ref receipt));
      [by rewrite Hw2, lookup_insert_eq | by rewrite Hbeq, <- Hra | by rewrite Hbeq, Ha | done].
Qed.

Lemma sms_lifecycle_witness : exists receipt a w1 b w2,
  provider_send_sms ecocash_adapter "+263771234567" "hello" "USSD-KERNEL" empty_msgs
    = (Ok receipt, m_next empty_msgs)
  /\ send_sms (sample_sms 7 "+263771234567") empty_msgs = (Ok a, w1)
  /\ da_provider_ref a = Some (provider_ref receipt)
  /\ get_message_status 7%N w1 = (Ok b, w2)
  /\ attempts w2 = <[7%N := b]> ∅.
Proof.
  destruct (sms_lifecycle (sample_sms 7 "+263771234567") MpEcoCash empty_msgs)
    as (q & receipt & a & w1 & b & w2 & _ & Hq & _ & _ & Hsend & _ & Hs & _ & _ & _ & _ & Href & _ & _
        & Hb & _ & _ & _ & Hw & _); [exact test_m_no_faults | reflexivity |].
  injection Hq as <-. by exists receipt, a, w1, b, w2.
Defined.

(** What a batch reports: it always answers; it gets to every message, or
    to the first failing one when it may not continue; the errors are exactly
    the messages among those whose number has no provider, with their
    positions; the counts of successes and failures add up to the messages it
    got to; every success that is not a push is in the log. *)
Theorem batch_outcome `{UuidOps} `{MsgEnv} (msgs : list Message) (cont : bool) (w : MsgWorld) :
  m_no_faults ->
  exists r w', send_batch msgs cont w = (Ok r, w')
    /\ batch_errors r = failures 0 (processed cont msgs)
    /\ failure_count r = length (batch_errors r)
    /\ success_count r + failure_count r = length (processed cont msgs)
    /\ (cont = true -> processed cont msgs = msgs)
    /\ (cont = false -> failure_count r <= 1)
    /\ (forall m, m ∈ processed cont msgs -> undeliverable m = false -> msg_channel m <> Push ->
        is_Some (attempts w' !! msg_id m)).
Proof.
  intros Hf. destruct (batch_loop_ok cont msgs Hf 0 (mkBatchOutcome 0 0 []) w) as (w' & Hb & Hl & _).
  eexists _, w'. split; [exact Hb|]. cbn [batch_errors failure_count success_count app Nat.add].
  pose proof (undelivered_le (processed cont msgs)). split_and!; try done.
  - apply failures_length.
  - lia.
  - intros ->. apply processed_all.
  - intros ->. apply processed_stops.
Qed.

Lemma batch_outcome_witness :
  exists r w', send_batch [sample_sms 1 "26377"; sample_sms 2 "12345"; sample_sms 3 "26371"] true
                 empty_msgs = (Ok r, w')
    /\ batch_errors r
       = failures 0 (processed true [sample_sms 1 "26377"; sample_sms 2 "12345"; sample_sms 3 "26371"])
    /\ failure_count r = length (batch_errors r)
    /\ success_count r + failure_count r
       = length (processed true [sample_sms 1 "26377"; sample_sms 2 "12345"; sample_sms 3 "26371"])
    /\ (true = true -> processed true [sample_sms 1 "26377"; sample_sms 2 "12345"; sample_sms 3 "26371"]
        = [sample_sms 1 "26377"; sample_sms 2 "12345"; sample_sms 3 "26371"])
    /\ (true = false -> failure_count r <= 1)
    /\ (forall m, m ∈ processed true [sample_sms 1 "26377"; sample_sms 2 "12345"; sample_sms 3 "26371"] ->
        undeliverable m = false -> msg_channel m <> Push -> is_Some (attempts w' !! msg_id m)).
Proof.
  apply (batch_outcome [sample_sms 1 "26377"; sample_sms 2 "12345"; sample_sms 3 "26371"] true empty_msgs
           test_m_no_faults).
Defined.

(** A listing is exact and stays within the tenant: a message is listed
    exactly when the log has an attempt of that tenant that passes every
    filter, of which it is the view. *)
Theorem list_messages_exact `{UuidOps} `{MsgEnv} `{!MsgEnvLaws} (tenant : Uuid) (f : MessageFilters)
    (w : MsgWorld) :
  m_no_faults ->
  exists l w', list_messages tenant f w = (Ok l, w') /\ attempts w' = attempts w
    /\ forall m, m ∈ l <-> exists id a, attempts w !! id = Some a /\ da_tenant_id a = tenant
                          /\ passes f a = true /\ m = message_of_attempt a.
Proof.
  intros Hf. eexists _, (after_context w). split_and!; [|apply attempts_after_context|].
  - unfold list_messages. cbn [list_attempts msg_ports]. unfold pg_list_attempts.
    erewrite bind_ok; [reflexivity|]. by run_step (set_tenant_context_ok _ _ Hf).
  - intros m. rewrite attempts_after_context, list_elem_of_In, in_map_iff. split.
    + intros (a & <- & [[Hin Ht%N.eqb_eq]%filter_In Hp]%filter_In).
      apply list_elem_of_In in Hin. rewrite attempt_values_perm in Hin.
      apply list_elem_of_In, in_map_iff in Hin as ([id a'] & <- & Hin).
      apply list_elem_of_In, elem_of_map_to_list in Hin. eauto 10.
    + intros (id & a & Ha & Ht & Hp & ->). exists a. split; [done|].
      apply filter_In. split; [|done]. apply filter_In. split; [|by apply N.eqb_eq].
      apply list_elem_of_In. rewrite attempt_values_perm. apply list_elem_of_In, in_map_iff.
      exists (id, a). split; [done|]. by apply list_elem_of_In, elem_of_map_to_list.
Qed.

Lemma list_messages_exact_witness :
  exists l w', list_messages 5 (mkFilters [Sms] [] None None None None) empty_msgs = (Ok l, w')
    /\ attempts w' = attempts empty_msgs
    /\ forall m, m ∈ l <-> exists id a, attempts empty_msgs !! id = Some a /\ da_tenant_id a = 5%N
                          /\ passes (mkFilters [Sms] [] None None None None) a = true
                          /\ m = message_of_attempt a.
Proof.
  apply (list_messages_exact 5%N (mkFilters [Sms] [] None None None None) empty_msgs test_m_no_faults).
Defined.

(** The rate limiter without Redis counts each tenant's calls since the
    process started and never resets: of any sequence of fewer than 2^32 calls
    of any tenants, the call number [i] is admitted exactly when it is among
    the first [limit] calls of its tenant. *)
Theorem rate_limit_fallback (calls : list string) (limit : Z) (i : nat) (t : string) :
  (Z.of_nat (length calls) < 2 ^ 32)%Z -> calls !! i = Some t ->
  run_checks calls limit ∅ !! i = Some (calls_of t (take i calls) <? limit)%Z.
Proof.
  intros Hlen Hi. rewrite (run_checks_spec calls limit ∅) with (t := t); [| |done].
  - rewrite lookup_empty. cbn [default]. f_equal.
    destruct (Z.leb_spec (0 + calls_of t (take i calls) + 1) limit),
      (Z.ltb_spec (calls_of t (take i calls)) limit); lia || done.
  - intros x. rewrite lookup_empty. cbn [default]. lia.
Qed.

Lemma rate_limit_fallback_witness :
  run_checks ["a"; "b"; "a"; "a"] 2 ∅ !! 3 = Some (calls_of "a" (take 3 ["a"; "b"; "a"; "a"]) <? 2)%Z.
Proof. apply (rate_limit_fallback ["a"; "b"; "a"; "a"] 2 3 "a"); [simpl; lia | reflexivity]. Defined.
