(* ===== verification/MessagingGrpc.v ===== *)
(** * Messaging gRPC service

    [messaging-engine/src/ports/grpc.rs]: the conversions between the domain
    and the protocol ([protos/v1/messaging/messaging.proto]) and the eight data
    methods of the service, over the handler's ports.  The entries of a map
    field come in the order the iteration meets them. *)

From Stdlib Require Import ZArith Lia.
From stdpp Require Import base list strings gmap numbers pretty.
From S2P Require Import Prelude RustStr External Reference Grpc Messaging MessagingStore.

Local Open Scope string_scope.

(** ** Conversions *)

Definition to_proto_channel (c : MessageChannel) : Z :=
  match c with Sms => 1 | WhatsApp => 2 | Email => 3 | Push => 4 end%Z.

Definition from_proto_channel (n : Z) : option MessageChannel :=
  match n with
  | 1%Z => Some Sms
  | 2%Z => Some WhatsApp
  | 3%Z => Some Email
  | 4%Z => Some Push
  | _ => None
  end.

Definition to_proto_status (s : DeliveryStatus) : Z :=
  match s with
  | DsQueued => 1
  | DsSent => 2
  | DsDelivered => 3
  | DsRead => 4
  | DsFailed => 5
  | DsRejected => 6
  | DsExpired => 7
  | DsCancelled => 8
  end%Z.

Definition from_proto_status (n : Z) : option DeliveryStatus :=
  match n with
  | 1%Z => Some DsQueued
  | 2%Z => Some DsSent
  | 3%Z => Some DsDelivered
  | 4%Z => Some DsRead
  | 5%Z => Some DsFailed
  | 6%Z => Some DsRejected
  | 7%Z => Some DsExpired
  | 8%Z => Some DsCancelled
  | _ => None
  end.

(** [to_proto_error]; the gRPC code is always INTERNAL. *)
Definition to_proto_error (e : MessagingError) : ProtoError :=
  mkProtoError
    (match e with
     | InvalidPhone _ => EC_INVALID_ARGUMENT
     | TemplateNotFound _ => EC_NOT_FOUND
     | RateLimitExceeded _ => EC_RATE_LIMIT_EXCEEDED
     | ProviderUnavailable _ => EC_UNAVAILABLE
     | _ => EC_INTERNAL
     end) (msg_error_to_string e) [] "" (code_i32 CodeInternal).

(** ** Messages *)

Record SendMessageResponse := mkSendResponse {
  sm_message_id : string;
  sm_status : Z;
  sm_channel : Z;
  sm_sent_at : option Timestamp;
}.

Record MessageStatusResponse := mkMsgStatusResponse {
  ms_message_id : string;
  ms_status : Z;
  ms_channel : Z;
  ms_recipient : string;
  ms_sent_at : option Timestamp;
  ms_delivered_at : option Timestamp;
  ms_error_message : string;
  ms_retry_count : Z;
}.

Record BatchItemError := mkItemError { ie_index : Z; ie_item_id : string; ie_error : ProtoError }.

Record BatchMessagesResult := mkBatchMessages {
  bm_batch_id : string;
  bm_total_count : Z;
  bm_success_count : Z;
  bm_failure_count : Z;
  bm_errors : list BatchItemError;
}.

Record ProtoMessage := mkProtoMessage {
  pmsg_message_id : string;
  pmsg_channel : Z;
  pmsg_recipient : string;
  pmsg_content_preview : string;
  pmsg_status : Z;
  pmsg_tenant_id : string;
  pmsg_session_id : string;
}.

Record ProtoTemplate := mkProtoTemplate {
  pt_template_id : string;
  pt_tenant_id : string;
  pt_template_name : string;
  pt_channel : Z;
  pt_subject : string;
  pt_body : string;
  pt_variables : list string;
  pt_is_active : bool;
}.

(** One message of a batch request. *)
Record BatchMessage := mkBatchMessage {
  bmsg_recipient : string;
  bmsg_message : string;
  bmsg_channel : Z;
}.

Section service.
Context `{UuidOps} `{TimeOps} `{MsgEnv} {W : Type} `{!MsgPorts W}.

(** [parse_uuid] *)
Definition msg_parse_uuid (s : string) : Result Status Uuid :=
  ok_or (uuid_parse s) (mkStatus CodeInvalidArgument ("invalid uuid: " +:+ m_uuid_error s)).

(** [to_prost_timestamp]: through [SystemTime], to the nanosecond. *)
Definition msg_timestamp (dt : DateTime) : Timestamp := chrono_to_prost dt.

(** [Some(s).filter(|s| !s.is_empty())] *)
Definition non_empty (s : string) : option string := if is_empty s then None else Some s.

(** A handler call; its error becomes the status. *)
Definition call {A} (m : M W MessagingError A) : M W Status A := with_err msg_status m.

Definition send_response (channel : MessageChannel) (a : DeliveryAttempt) : SendMessageResponse :=
  mkSendResponse (uuid_to_string (da_message_id a)) (to_proto_status (da_status a))
    (to_proto_channel channel) (msg_timestamp <$> da_sent_at a).

(** [send_sms] *)
Definition send_sms_rpc (tenant_id to_number message : string) (flash : bool) (session_id : string)
    : M W Status SendMessageResponse :=
  tenant ← lift (msg_parse_uuid tenant_id);
  id ← call mp_new_v4;
  a ← call (send_sms (mkMessage id to_number message Sms (if flash then High else Normal) tenant
                        (non_empty session_id)));
  mret (send_response Sms a).

(** The body of a WhatsApp message: the rendered template, or the message when
    there is none or it cannot be had. *)
Definition whatsapp_body (tenant : Uuid) (template_name : string) (params : list (string * string))
    (message : string) : M W Status string :=
  if is_empty template_name then mret message
  else
    r ← attempt (handler_get_template tenant template_name);
    mret (match r with Ok t => render_template t params | _ => message end).

(** [send_whats_app] *)
Definition send_whats_app_rpc (tenant_id to_number message template_name : string)
    (template_params : list (string * string)) (session_id : string)
    : M W Status SendMessageResponse :=
  tenant ← lift (msg_parse_uuid tenant_id);
  body ← whatsapp_body tenant template_name template_params message;
  id ← call mp_new_v4;
  a ← call (send_whatsapp (mkMessage id to_number body WhatsApp Normal tenant (non_empty session_id)));
  mret (send_response WhatsApp a).

Definition newline : string := String (Ascii.ascii_of_nat 10) EmptyString.

(** [send_email] *)
Definition send_email_rpc (tenant_id to_email subject body session_id : string)
    : M W Status SendMessageResponse :=
  tenant ← lift (msg_parse_uuid tenant_id);
  let text := "Subject: " +:+ subject +:+ newline +:+ newline +:+ body in
  id ← call mp_new_v4;
  a ← call (send_email (mkMessage id to_email text Email Normal tenant (non_empty session_id)));
  mret (send_response Email a).

(** The messages of a batch request, with fresh identifiers. *)
Fixpoint batch_messages (tenant : Uuid) (l : list BatchMessage) : M W Status (list Message) :=
  match l with
  | [] => mret []
  | m :: rest =>
      id ← call mp_new_v4;
      others ← batch_messages tenant rest;
      mret (mkMessage id (bmsg_recipient m) (bmsg_message m)
              (unwrap_or (from_proto_channel (bmsg_channel m)) Sms) Normal tenant None :: others)
  end.

Definition item_error (ie : nat * MessagingError) : BatchItemError :=
  mkItemError (as_i32 (Z.of_nat (fst ie))) ("batch-item-" +:+ pretty (Z.of_nat (fst ie)))
    (to_proto_error (snd ie)).

(** [send_batch_messages] *)
Definition send_batch_messages_rpc (tenant_id batch_id : string) (messages : list BatchMessage)
    (continue_on_error : bool) : M W Status BatchMessagesResult :=
  tenant ← lift (msg_parse_uuid tenant_id);
  msgs ← batch_messages tenant messages;
  r ← call (send_batch msgs continue_on_error);
  mret (mkBatchMessages batch_id
          (as_i32 (Z.of_nat (success_count r + failure_count r)))
          (as_i32 (Z.of_nat (success_count r))) (as_i32 (Z.of_nat (failure_count r)))
          (map item_error (batch_errors r))).

(** [get_message_status] *)
Definition get_message_status_rpc (message_id : string) : M W Status MessageStatusResponse :=
  id ← lift (msg_parse_uuid message_id);
  a ← call (get_message_status id);
  mret (mkMsgStatusResponse (uuid_to_string (da_message_id a)) (to_proto_status (da_status a))
          (to_proto_channel (da_channel a)) (da_recipient a) (msg_timestamp <$> da_sent_at a)
          (msg_timestamp <$> da_delivered_at a) (unwrap_or (da_error_message a) "")
          (da_retry_count a)).

(** [from_prost_timestamp], on an optional field *)
Definition msg_date (t : option Timestamp) : M W Status (option DateTime) :=
  match t with
  | Some t =>
      match from_timestamp (seconds t) (as_u32 (nanos t)) with
      | Some d => mret (Some d)
      | None => now ← call mp_now; mret (Some now)
      end
  | None => mret None
  end.

Definition proto_message (m : Message) : ProtoMessage :=
  mkProtoMessage (uuid_to_string (msg_id m)) (to_proto_channel (msg_channel m)) (msg_recipient m)
    (take_chars 100 (msg_body m)) 1 (uuid_to_string (msg_tenant_id m))
    (unwrap_or (msg_session_id m) "").

(** [list_messages]; the answer and its total. *)
Definition list_messages_rpc (tenant_id : string) (channels statuses : list Z) (recipient : string)
    (from_date to_date : option Timestamp) (session_id : string)
    : M W Status (list ProtoMessage * Z) :=
  tenant ← lift (msg_parse_uuid tenant_id);
  from ← msg_date from_date;
  to ← msg_date to_date;
  l ← call (list_messages tenant (mkFilters (omap from_proto_channel channels)
              (omap from_proto_status statuses) (non_empty recipient) from to (non_empty session_id)));
  mret (map proto_message l, as_i32 (Z.of_nat (length l))).

(** [to_proto_template] *)
Definition to_proto_template (t : Template) : ProtoTemplate :=
  mkProtoTemplate (tpl_id t) (uuid_to_string (tpl_tenant_id t)) (tpl_name t)
    (to_proto_channel (tpl_channel t)) (unwrap_or (tpl_subject t) "") (tpl_body t)
    (tpl_variables t) (tpl_is_active t).

(** [get_message_template] *)
Definition get_message_template_rpc (tenant_id template_id : string) : M W Status ProtoTemplate :=
  tenant ← lift (msg_parse_uuid tenant_id);
  t ← call (handler_get_template tenant template_id);
  mret (to_proto_template t).

(** [list_message_templates] *)
Definition list_message_templates_rpc (tenant_id : string) (channel : Z)
    : M W Status (list ProtoTemplate * Z) :=
  tenant ← lift (msg_parse_uuid tenant_id);
  l ← call (handler_list_templates tenant (from_proto_channel channel));
  mret (map to_proto_template l, as_i32 (Z.of_nat (length l))).

End service.

(** ** Lemmas *)

Section lemmas.
Context `{UuidOps} `{!UuidLaws} `{MsgEnv}.

Lemma msg_parse_uuid_ok u : msg_parse_uuid (uuid_to_string u) = Ok u.
Proof. unfold msg_parse_uuid. by rewrite uuid_parse_to_string. Qed.

(** The template a tenant gets: an active SMS row of that code, else an active
    WhatsApp row, else the seeded one. *)
Definition template_of (w : MsgWorld) (tenant : Uuid) (id : string) : option Template :=
  match row_of_code tenant id (if has_db then sms_rows w else []),
        row_of_code tenant id (if has_db then whatsapp_rows w else []) with
  | Some r, _ => Some (template_of_row Sms tenant r)
  | None, Some r => Some (template_of_row WhatsApp tenant r)
  | None, None => fallback_templates w !! template_key tenant id
  end.

Lemma pg_get_template_ok tenant id w : m_no_faults ->
  exists w', pg_get_template tenant id w = (ok_or (template_of w tenant id) (TemplateNotFound id), w')
    /\ attempts w' = attempts w.
Proof.
  intros Hf. unfold pg_get_template, template_of.
  assert (forall w0, fallback_template tenant id w0
      = (ok_or (fallback_templates w0 !! template_key tenant id) (TemplateNotFound id), w0)) as Hfb by done.
  destruct has_db eqn:Hdb; [|exists w; by rewrite Hfb].
  assert (attempts (after_context w) = attempts w /\ same_templates w (after_context w)) as [Ha (S1 & S2 & S3)].
  { unfold after_context, same_templates. by rewrite Hdb. }
  run_step (set_tenant_context_ok _ _ Hf). run_step (m_statement_ok _ _ Hf).
  erewrite bind_ok; [|reflexivity]. cbn [sms_rows m_next]. rewrite S2.
  destruct (row_of_code tenant id (sms_rows w)) as [r|]; [by eexists|].
  run_step (m_statement_ok _ _ Hf). erewrite bind_ok; [|reflexivity]. cbn [whatsapp_rows m_next].
  rewrite S3. destruct (row_of_code tenant id (whatsapp_rows w)) as [r|]; [by eexists|].
  eexists. rewrite Hfb. cbn [fallback_templates m_next]. by rewrite S1.
Qed.

End lemmas.

(** ** Theorems *)

(** The conversions of channels and statuses are inverse to each other. *)
Theorem messaging_enums_bijective :
  (forall n c, from_proto_channel n = Some c <-> n = to_proto_channel c)
  /\ (forall n s, from_proto_status n = Some s <-> n = to_proto_status s).
Proof.
  split; intros n x; (split; [|intros ->; by destruct x]);
    destruct n as [|[[[]|[]|]|[[]|[]|]|]|]; simpl; intros E; simplify_eq; try done.
  all: by destruct p; simplify_eq.
Qed.

(** A WhatsApp message by template, end to end: for a number with a known
    prefix the method answers sent on the WhatsApp channel, and the attempt
    logged under the identifier of the answer is the tenant's, with the first
    160 characters of the rendered template, taken from the tenant's active SMS
    templates, then its WhatsApp templates, then the seeded ones; when there is
    no such template the plain message is sent without an error; no other
    attempt of the log changes. *)
Theorem whatsapp_by_template `{UuidOps} `{!UuidLaws} `{MsgEnv} (tenant : Uuid)
    (to message name session : string) (params : list (string * string)) (p : Provider) (w : MsgWorld) :
  m_no_faults -> route_provider to = Some p -> is_empty name = false ->
  exists resp w' id a,
    send_whats_app_rpc (W := MsgWorld) (uuid_to_string tenant) to message name params session w
      = (Ok resp, w')
    /\ sm_message_id resp = uuid_to_string id /\ sm_status resp = 2%Z /\ sm_channel resp = 2%Z
    /\ attempts w' = <[id := a]> (attempts w)
    /\ da_tenant_id a = tenant /\ da_recipient a = to /\ da_channel a = WhatsApp /\ da_provider a = p
    /\ da_body_preview a
       = take_chars 160 (match template_of w tenant name with
                         | Some t => render_template t params
                         | None => message
                         end).
Proof.
  intros Hf Hr Hn. destruct (pg_get_template_ok tenant name w Hf) as (w1 & Ht & Ha1).
  unfold send_whats_app_rpc. rewrite msg_parse_uuid_ok. erewrite bind_ok; [|reflexivity].
  set (body := match template_of w tenant name with Some t => _ | None => _ end).
  erewrite (bind_ok _ _ _ body w1).
  2: { unfold whatsapp_body. rewrite Hn. erewrite bind_ok; [|eapply attempt_ok; [exact Ht|]];
       unfold body; by destruct (template_of w tenant name). }
  erewrite bind_ok; [|reflexivity].
  set (msg := mkMessage _ _ _ _ _ _ _).
  destruct (send_whatsapp_ok msg p (m_next w1) Hf Hr) as (a & Hs & Ha).
  eexists _, _, (msg_id msg), a. split; [erewrite bind_ok; [reflexivity|]|].
  { unfold call, with_err. rewrite Hs. reflexivity. }
  split_and!; try (by rewrite Ha).
  cbn [logged attempts set_attempts]. cbn [m_next attempts]. rewrite Ha1. by rewrite Ha.
Qed.

Lemma whatsapp_by_template_witness :
  exists resp w' id a,
    send_whats_app_rpc (W := MsgWorld) (uuid_to_string 5) "26371000" "plain" "welcome"
      [("name", "Rudo")] "" (mkMsgWorld ∅ ∅ [] [mkTemplateRow 5 "welcome" "W" "Hi {{name}}" true None] 0)
      = (Ok resp, w')
    /\ sm_message_id resp = uuid_to_string id /\ sm_status resp = 2%Z /\ sm_channel resp = 2%Z
    /\ attempts w' = <[id := a]> (attempts (mkMsgWorld ∅ ∅ []
         [mkTemplateRow 5 "welcome" "W" "Hi {{name}}" true None] 0))
    /\ da_tenant_id a = 5%N /\ da_recipient a = "26371000" /\ da_channel a = WhatsApp
    /\ da_provider a = MpOneMoney
    /\ da_body_preview a
       = take_chars 160 (match template_of (mkMsgWorld ∅ ∅ []
                             [mkTemplateRow 5 "welcome" "W" "Hi {{name}}" true None] 0) 5 "welcome" with
                         | Some t => render_template t [("name", "Rudo")]
                         | None => "plain"
                         end).
Proof.
  apply (whatsapp_by_template 5%N "26371000" "plain" "welcome" "" [("name", "Rudo")] MpOneMoney);
    [exact test_m_no_faults | reflexivity | reflexivity].
Defined.
