(* ===== verification/Ledger.v ===== *)
(** * Ledger query service: domain, read-model port and handler

    [ledger-query-service/src/domain/], [ports/read_model.rs] and
    [application/handler.rs]: the records and enums of the read side, the
    errors, the port [ReadModelPort] the handler is written against, and the
    handler's methods.  The enums cross the protocol as numbers. *)

From Stdlib Require Import ZArith Lia.
From stdpp Require Import base list strings numbers.
From S2P Require Import Prelude RustStr External.

Local Open Scope string_scope.

(** ** Enums *)

(** [AccountType], [domain/account.rs] *)
Inductive AccountType : Type :=
  | AtUnspecified
  | AtCustomer
  | AtFloat
  | AtCommission
  | AtEscrow
  | AtSuspense
  | AtMerchant
  | AtAggregator
  | AtProvider.

Definition account_type_as_i32 (t : AccountType) : Z :=
  match t with
  | AtUnspecified => 0
  | AtCustomer => 1
  | AtFloat => 2
  | AtCommission => 3
  | AtEscrow => 4
  | AtSuspense => 5
  | AtMerchant => 6
  | AtAggregator => 7
  | AtProvider => 8
  end%Z.

Definition account_type_from_i32 (v : Z) : option AccountType :=
  match v with
  | 0%Z => Some AtUnspecified
  | 1%Z => Some AtCustomer
  | 2%Z => Some AtFloat
  | 3%Z => Some AtCommission
  | 4%Z => Some AtEscrow
  | 5%Z => Some AtSuspense
  | 6%Z => Some AtMerchant
  | 7%Z => Some AtAggregator
  | 8%Z => Some AtProvider
  | _ => None
  end.

#[export] Instance AccountType_eq : EqDecision AccountType.
Proof. solve_decision. Defined.

(** [LiquidityPositionType], [domain/liquidity.rs] *)
Inductive LiquidityPositionType : Type :=
  | LtUnspecified
  | LtHeld
  | LtReserved
  | LtCollateral
  | LtFloat
  | LtPledged.

Definition liquidity_position_type_as_i32 (t : LiquidityPositionType) : Z :=
  match t with
  | LtUnspecified => 0
  | LtHeld => 1
  | LtReserved => 2
  | LtCollateral => 3
  | LtFloat => 4
  | LtPledged => 5
  end%Z.

Definition liquidity_position_type_from_i32 (v : Z) : option LiquidityPositionType :=
  match v with
  | 0%Z => Some LtUnspecified
  | 1%Z => Some LtHeld
  | 2%Z => Some LtReserved
  | 3%Z => Some LtCollateral
  | 4%Z => Some LtFloat
  | 5%Z => Some LtPledged
  | _ => None
  end.

#[export] Instance LiquidityPositionType_eq : EqDecision LiquidityPositionType.
Proof. solve_decision. Defined.

(** [LiquidityPositionStatus], [domain/liquidity.rs] *)
Inductive LiquidityPositionStatus : Type :=
  | LsUnspecified
  | LsActive
  | LsReleased
  | LsExpired
  | LsConfiscated
  | LsPending.

Definition liquidity_position_status_as_i32 (t : LiquidityPositionStatus) : Z :=
  match t with
  | LsUnspecified => 0
  | LsActive => 1
  | LsReleased => 2
  | LsExpired => 3
  | LsConfiscated => 4
  | LsPending => 5
  end%Z.

Definition liquidity_position_status_from_i32 (v : Z) : option LiquidityPositionStatus :=
  match v with
  | 0%Z => Some LsUnspecified
  | 1%Z => Some LsActive
  | 2%Z => Some LsReleased
  | 3%Z => Some LsExpired
  | 4%Z => Some LsConfiscated
  | 5%Z => Some LsPending
  | _ => None
  end.

#[export] Instance LiquidityPositionStatus_eq : EqDecision LiquidityPositionStatus.
Proof. solve_decision. Defined.

(** [SettlementType], [domain/settlement.rs] *)
Inductive SettlementType : Type :=
  | StUnspecified
  | StRtgs
  | StNet
  | StBatch
  | StImmediate
  | StMobileMoney.

Definition settlement_type_as_i32 (t : SettlementType) : Z :=
  match t with
  | StUnspecified => 0
  | StRtgs => 1
  | StNet => 2
  | StBatch => 3
  | StImmediate => 4
  | StMobileMoney => 5
  end%Z.

Definition settlement_type_from_i32 (v : Z) : option SettlementType :=
  match v with
  | 0%Z => Some StUnspecified
  | 1%Z => Some StRtgs
  | 2%Z => Some StNet
  | 3%Z => Some StBatch
  | 4%Z => Some StImmediate
  | 5%Z => Some StMobileMoney
  | _ => None
  end.

#[export] Instance SettlementType_eq : EqDecision SettlementType.
Proof. solve_decision. Defined.

(** [SettlementStatus], [domain/settlement.rs] *)
Inductive SettlementStatus : Type :=
  | SsUnspecified
  | SsPending
  | SsReady
  | SsExecuting
  | SsCompleted
  | SsFailed
  | SsCancelled.

Definition settlement_status_as_i32 (t : SettlementStatus) : Z :=
  match t with
  | SsUnspecified => 0
  | SsPending => 1
  | SsReady => 2
  | SsExecuting => 3
  | SsCompleted => 4
  | SsFailed => 5
  | SsCancelled => 6
  end%Z.

Definition settlement_status_from_i32 (v : Z) : option SettlementStatus :=
  match v with
  | 0%Z => Some SsUnspecified
  | 1%Z => Some SsPending
  | 2%Z => Some SsReady
  | 3%Z => Some SsExecuting
  | 4%Z => Some SsCompleted
  | 5%Z => Some SsFailed
  | 6%Z => Some SsCancelled
  | _ => None
  end.

#[export] Instance SettlementStatus_eq : EqDecision SettlementStatus.
Proof. solve_decision. Defined.

(** [SuspenseCategory], [domain/suspense.rs] *)
Inductive SuspenseCategory : Type :=
  | ScUnspecified
  | ScUnidentified
  | ScPendingDocs
  | ScDisputed
  | ScInvestigation
  | ScAwaitingApproval.

Definition suspense_category_as_i32 (t : SuspenseCategory) : Z :=
  match t with
  | ScUnspecified => 0
  | ScUnidentified => 1
  | ScPendingDocs => 2
  | ScDisputed => 3
  | ScInvestigation => 4
  | ScAwaitingApproval => 5
  end%Z.

Definition suspense_category_from_i32 (v : Z) : option SuspenseCategory :=
  match v with
  | 0%Z => Some ScUnspecified
  | 1%Z => Some ScUnidentified
  | 2%Z => Some ScPendingDocs
  | 3%Z => Some ScDisputed
  | 4%Z => Some ScInvestigation
  | 5%Z => Some ScAwaitingApproval
  | _ => None
  end.

#[export] Instance SuspenseCategory_eq : EqDecision SuspenseCategory.
Proof. solve_decision. Defined.

(** [SuspenseStatus], [domain/suspense.rs] *)
Inductive SuspenseStatus : Type :=
  | UsUnspecified
  | UsOpen
  | UsUnderReview
  | UsPendingApproval
  | UsResolved
  | UsWrittenOff.

Definition suspense_status_as_i32 (t : SuspenseStatus) : Z :=
  match t with
  | UsUnspecified => 0
  | UsOpen => 1
  | UsUnderReview => 2
  | UsPendingApproval => 3
  | UsResolved => 4
  | UsWrittenOff => 5
  end%Z.

Definition suspense_status_from_i32 (v : Z) : option SuspenseStatus :=
  match v with
  | 0%Z => Some UsUnspecified
  | 1%Z => Some UsOpen
  | 2%Z => Some UsUnderReview
  | 3%Z => Some UsPendingApproval
  | 4%Z => Some UsResolved
  | 5%Z => Some UsWrittenOff
  | _ => None
  end.

#[export] Instance SuspenseStatus_eq : EqDecision SuspenseStatus.
Proof. solve_decision. Defined.

(** [SuspenseResolutionType], [domain/suspense.rs] *)
Inductive SuspenseResolutionType : Type :=
  | RtUnspecified
  | RtTransfer
  | RtReturn
  | RtWriteOff
  | RtReclassify
  | RtAdjust.

Definition suspense_resolution_type_as_i32 (t : SuspenseResolutionType) : Z :=
  match t with
  | RtUnspecified => 0
  | RtTransfer => 1
  | RtReturn => 2
  | RtWriteOff => 3
  | RtReclassify => 4
  | RtAdjust => 5
  end%Z.

Definition suspense_resolution_type_from_i32 (v : Z) : option SuspenseResolutionType :=
  match v with
  | 0%Z => Some RtUnspecified
  | 1%Z => Some RtTransfer
  | 2%Z => Some RtReturn
  | 3%Z => Some RtWriteOff
  | 4%Z => Some RtReclassify
  | 5%Z => Some RtAdjust
  | _ => None
  end.

#[export] Instance SuspenseResolutionType_eq : EqDecision SuspenseResolutionType.
Proof. solve_decision. Defined.

(** [TransactionType], [domain/transaction.rs] *)
Inductive TransactionType : Type :=
  | TtUnspecified
  | TtCredit
  | TtDebit
  | TtHold
  | TtRelease
  | TtAdjustment
  | TtReversal
  | TtFee
  | TtSettlement
  | TtInterest.

Definition transaction_type_as_i32 (t : TransactionType) : Z :=
  match t with
  | TtUnspecified => 0
  | TtCredit => 1
  | TtDebit => 2
  | TtHold => 3
  | TtRelease => 4
  | TtAdjustment => 5
  | TtReversal => 6
  | TtFee => 7
  | TtSettlement => 8
  | TtInterest => 9
  end%Z.

Definition transaction_type_from_i32 (v : Z) : option TransactionType :=
  match v with
  | 0%Z => Some TtUnspecified
  | 1%Z => Some TtCredit
  | 2%Z => Some TtDebit
  | 3%Z => Some TtHold
  | 4%Z => Some TtRelease
  | 5%Z => Some TtAdjustment
  | 6%Z => Some TtReversal
  | 7%Z => Some TtFee
  | 8%Z => Some TtSettlement
  | 9%Z => Some TtInterest
  | _ => None
  end.

#[export] Instance TransactionType_eq : EqDecision TransactionType.
Proof. solve_decision. Defined.

(** [VirtualAccountType], [domain/virtual_account.rs] *)
Inductive VirtualAccountType : Type :=
  | VtUnspecified
  | VtBudget
  | VtSavingsGoal
  | VtEscrow
  | VtReserve
  | VtTemporaryHold
  | VtEcocashWallet
  | VtTelecashWallet
  | VtOnemoneyWallet
  | VtMerchantSettlement.

Definition virtual_account_type_as_i32 (t : VirtualAccountType) : Z :=
  match t with
  | VtUnspecified => 0
  | VtBudget => 1
  | VtSavingsGoal => 2
  | VtEscrow => 3
  | VtReserve => 4
  | VtTemporaryHold => 5
  | VtEcocashWallet => 6
  | VtTelecashWallet => 7
  | VtOnemoneyWallet => 8
  | VtMerchantSettlement => 9
  end%Z.

Definition virtual_account_type_from_i32 (v : Z) : option VirtualAccountType :=
  match v with
  | 0%Z => Some VtUnspecified
  | 1%Z => Some VtBudget
  | 2%Z => Some VtSavingsGoal
  | 3%Z => Some VtEscrow
  | 4%Z => Some VtReserve
  | 5%Z => Some VtTemporaryHold
  | 6%Z => Some VtEcocashWallet
  | 7%Z => Some VtTelecashWallet
  | 8%Z => Some VtOnemoneyWallet
  | 9%Z => Some VtMerchantSettlement
  | _ => None
  end.

#[export] Instance VirtualAccountType_eq : EqDecision VirtualAccountType.
Proof. solve_decision. Defined.

(** [VirtualAccountStatus], [domain/virtual_account.rs] *)
Inductive VirtualAccountStatus : Type :=
  | VsUnspecified
  | VsActive
  | VsFrozen
  | VsClosed
  | VsMatured.

Definition virtual_account_status_as_i32 (t : VirtualAccountStatus) : Z :=
  match t with
  | VsUnspecified => 0
  | VsActive => 1
  | VsFrozen => 2
  | VsClosed => 3
  | VsMatured => 4
  end%Z.

Definition virtual_account_status_from_i32 (v : Z) : option VirtualAccountStatus :=
  match v with
  | 0%Z => Some VsUnspecified
  | 1%Z => Some VsActive
  | 2%Z => Some VsFrozen
  | 3%Z => Some VsClosed
  | 4%Z => Some VsMatured
  | _ => None
  end.

#[export] Instance VirtualAccountStatus_eq : EqDecision VirtualAccountStatus.
Proof. solve_decision. Defined.

(** ** Records *)

Section domain.
Context `{DecimalOps} `{F64Ops}.

(** [AccountBalance], [domain/account.rs] *)
Record AccountBalance := mkAccountBalance {
  ab_account_id : Uuid;
  ab_tenant_id : Uuid;
  ab_account_type : AccountType;
  ab_current_balance : Dec;
  ab_available_balance : Dec;
  ab_hold_balance : Dec;
  ab_currency_code : string;
  ab_as_of : DateTime;
  ab_version : Z;
}.

(** [BalanceByType], [domain/account.rs] *)
Record BalanceByType := mkBalanceByType {
  bt_account_type : AccountType;
  bt_balance : Dec;
  bt_account_count : Z;
}.

(** [AccountSummary], [domain/account.rs] *)
Record AccountSummary := mkAccountSummary {
  asu_tenant_id : Uuid;
  asu_total_accounts : Z;
  asu_balances : list BalanceByType;
  asu_total_liabilities : Dec;
  asu_total_assets : Dec;
  asu_as_of : DateTime;
}.

(** [COAEntry], [domain/coa.rs] *)
Record COAEntry := mkCOAEntry {
  coa_coa_code : string;
  coa_tenant_id : Uuid;
  coa_account_name : string;
  coa_account_category : string;
  coa_parent_code : string;
  coa_level : Z;
  coa_is_leaf : bool;
  coa_normal_balance : string;
  coa_is_active : bool;
}.

(** [PeriodEndBalance], [domain/coa.rs] *)
Record PeriodEndBalance := mkPeriodEndBalance {
  peb_balance_id : string;
  peb_account_id : Uuid;
  peb_tenant_id : Uuid;
  peb_fiscal_period_id : string;
  peb_opening_balance : Dec;
  peb_closing_balance : Dec;
  peb_total_debits : Dec;
  peb_total_credits : Dec;
  peb_currency : string;
  peb_is_adjusted : bool;
  peb_created_at : DateTime;
}.

(** [LiquidityPosition], [domain/liquidity.rs] *)
Record LiquidityPosition := mkLiquidityPosition {
  lp_position_id : Uuid;
  lp_position_reference : string;
  lp_account_id : Uuid;
  lp_tenant_id : Uuid;
  lp_position_type : LiquidityPositionType;
  lp_amount : Dec;
  lp_currency : string;
  lp_status : LiquidityPositionStatus;
  lp_purpose_code : string;
  lp_description : string;
  lp_created_at : DateTime;
  lp_effective_date : DateTime;
  lp_expires_at : option DateTime;
  lp_released_at : option DateTime;
  lp_auto_release : bool;
  lp_release_reason : string;
}.

(** [LiquiditySummaryItem], [domain/liquidity.rs] *)
Record LiquiditySummaryItem := mkLiquiditySummaryItem {
  lsi_position_type : LiquidityPositionType;
  lsi_currency : string;
  lsi_total_amount : Dec;
  lsi_position_count : Z;
}.

(** [ExpiringPosition], [domain/liquidity.rs] *)
Record ExpiringPosition := mkExpiringPosition {
  ep_position_id : Uuid;
  ep_account_id : Uuid;
  ep_position_type : LiquidityPositionType;
  ep_amount : Dec;
  ep_currency : string;
  ep_expires_at : DateTime;
  ep_minutes_until_expiry : F64;
}.

(** [Pagination], [domain/pagination.rs] *)
Record Pagination := mkPagination {
  pgn_page_size : Z;
  pgn_page_token : string;
}.

(** [PaginationMetadata], [domain/pagination.rs] *)
Record PaginationMetadata := mkPaginationMetadata {
  pgm_total_count : Z;
  pgm_next_page_token : string;
  pgm_previous_page_token : string;
  pgm_has_more : bool;
}.

(** [SettlementInstruction], [domain/settlement.rs] *)
Record SettlementInstruction := mkSettlementInstruction {
  si_settlement_id : Uuid;
  si_settlement_reference : string;
  si_tenant_id : Uuid;
  si_counterparty_id : string;
  si_counterparty_name : string;
  si_settlement_type : SettlementType;
  si_direction : string;
  si_amount : Dec;
  si_currency : string;
  si_status : SettlementStatus;
  si_scheduled_at : option DateTime;
  si_settlement_date : option DateTime;
  si_executed_at : option DateTime;
  si_completed_at : option DateTime;
  si_settlement_account : string;
  si_counterparty_account : string;
  si_transaction_count : Z;
  si_gross_amount : Dec;
  si_net_amount : Dec;
  si_fees_amount : Dec;
  si_confirmation_reference : string;
  si_failure_reason : string;
  si_retry_count : Z;
}.

(** [SettlementSummaryItem], [domain/settlement.rs] *)
Record SettlementSummaryItem := mkSettlementSummaryItem {
  ssi_settlement_type : SettlementType;
  ssi_direction : string;
  ssi_currency : string;
  ssi_total_amount : Dec;
  ssi_count : Z;
  ssi_completed_count : Z;
  ssi_failed_count : Z;
}.

(** [SuspenseItem], [domain/suspense.rs] *)
Record SuspenseItem := mkSuspenseItem {
  su_suspense_id : Uuid;
  su_suspense_reference : string;
  su_source_transaction_id : string;
  su_amount : Dec;
  su_currency : string;
  su_category : SuspenseCategory;
  su_priority : string;
  su_status : SuspenseStatus;
  su_description : string;
  su_days_in_suspense : Z;
  su_escalation_level : Z;
  su_resolution_type : option SuspenseResolutionType;
  su_resolution_date : option DateTime;
  su_resolution_notes : string;
  su_created_at : DateTime;
}.

(** [SuspenseAgingBucket], [domain/suspense.rs] *)
Record SuspenseAgingBucket := mkSuspenseAgingBucket {
  sab_category : string;
  sab_days_range_start : Z;
  sab_days_range_end : Z;
  sab_count : Z;
  sab_total_amount : Dec;
}.

(** [SuspenseActivityEntry], [domain/suspense.rs] *)
Record SuspenseActivityEntry := mkSuspenseActivityEntry {
  sae_activity_id : string;
  sae_suspense_id : string;
  sae_activity_type : string;
  sae_from_status : string;
  sae_to_status : string;
  sae_performed_by : string;
  sae_notes : string;
  sae_created_at : DateTime;
}.

(** [Transaction], [domain/transaction.rs] *)
Record Transaction := mkTransaction {
  tx_transaction_id : Uuid;
  tx_transaction_uuid : string;
  tx_tenant_id : Uuid;
  tx_account_id : Uuid;
  tx_transaction_type : TransactionType;
  tx_amount : Dec;
  tx_balance_after : Dec;
  tx_description : string;
  tx_reference : string;
  tx_posted_at : DateTime;
  tx_effective_at : DateTime;
  tx_session_id : string;
  tx_payment_id : string;
  tx_metadata : list (string * string);
  tx_version : Z;
  tx_correlation_id : string;
  tx_idempotency_key : string;
  tx_status : string;
  tx_record_hash : string;
  tx_previous_hash : string;
}.

(** [MovementLeg], [domain/transaction.rs] *)
Record MovementLeg := mkMovementLeg {
  ml_leg_id : string;
  ml_leg_sequence : Z;
  ml_account_id : string;
  ml_direction : string;
  ml_amount : Dec;
  ml_currency : string;
  ml_coa_code : string;
  ml_description : string;
  ml_posted_at : DateTime;
}.

(** [VirtualAccount], [domain/virtual_account.rs] *)
Record VirtualAccount := mkVirtualAccount {
  va_virtual_account_id : Uuid;
  va_parent_account_id : Uuid;
  va_virtual_account_name : string;
  va_virtual_account_number : string;
  va_virtual_account_type : VirtualAccountType;
  va_status : VirtualAccountStatus;
  va_current_balance : Dec;
  va_available_balance : Dec;
  va_held_amount : Dec;
  va_currency : string;
  va_target_amount : Dec;
  va_target_date : option DateTime;
  va_progress_percentage : F64;
  va_auto_sweep_enabled : bool;
  va_opened_at : DateTime;
  va_closed_at : option DateTime;
  va_matured_at : option DateTime;
}.

(** [VirtualAccountCurrencySummary], [domain/virtual_account.rs] *)
Record VirtualAccountCurrencySummary := mkVirtualAccountCurrencySummary {
  vcs_currency : string;
  vcs_total_balance : Dec;
  vcs_total_available : Dec;
  vcs_total_held : Dec;
  vcs_account_count : Z;
}.

(** [LedgerQueryError], [domain/error.rs] *)
Inductive LedgerQueryError : Type :=
  | AccountNotFound (id : string)
  | TransactionNotFound (id : string)
  | VirtualAccountNotFound (id : string)
  | LiquidityPositionNotFound (id : string)
  | SettlementNotFound (id : string)
  | SuspenseItemNotFound (id : string)
  | CoaEntryNotFound (code : string)
  | PeriodEndBalanceNotFound (what : string)
  | InvalidDateRange (why : string)
  | InvalidArgument (why : string)
  | DatabaseError (why : string)
  | Internal (why : string).

(** [LedgerQueryError]'s [Display] *)
Definition ledger_error_to_string (e : LedgerQueryError) : string :=
  match e with
  | AccountNotFound s => "Account not found: " +:+ s
  | TransactionNotFound s => "Transaction not found: " +:+ s
  | VirtualAccountNotFound s => "Virtual account not found: " +:+ s
  | LiquidityPositionNotFound s => "Liquidity position not found: " +:+ s
  | SettlementNotFound s => "Settlement instruction not found: " +:+ s
  | SuspenseItemNotFound s => "Suspense item not found: " +:+ s
  | CoaEntryNotFound s => "COA entry not found: " +:+ s
  | PeriodEndBalanceNotFound s => "Period end balance not found: " +:+ s
  | InvalidDateRange s => "Invalid date range: " +:+ s
  | InvalidArgument s => "Invalid argument: " +:+ s
  | DatabaseError s => "Database error: " +:+ s
  | Internal s => "Internal error: " +:+ s
  end.

(** A page of transactions: the transactions, the pagination block, the total
    count, and the totals of credits, debits and fees. *)
Definition TransactionPage : Type := list Transaction * PaginationMetadata * Z * Dec * Dec * Dec.
(** A statement: transactions, pagination block, opening and closing balance,
    and the totals of credits, debits and fees. *)
Definition Statement : Type := list Transaction * PaginationMetadata * Dec * Dec * Dec * Dec * Dec.

(** ** The port of the read model *)

Class ReadModelPort (W : Type) := {
  rm_get_account_balance : Uuid -> Uuid -> option DateTime ->
    M W LedgerQueryError AccountBalance;
  rm_get_account_statement : Uuid -> Uuid -> DateTime -> DateTime -> Pagination ->
    M W LedgerQueryError Statement;
  rm_get_transaction_by_id : Uuid -> Uuid ->
    M W LedgerQueryError Transaction;
  rm_list_transactions : Uuid -> list Uuid -> list TransactionType -> DateTime -> DateTime ->
    Pagination ->
    M W LedgerQueryError TransactionPage;
  rm_search_transactions : Uuid -> string -> option json -> Pagination ->
    M W LedgerQueryError TransactionPage;
  rm_get_account_summary : Uuid -> option DateTime ->
    M W LedgerQueryError AccountSummary;
  rm_get_movement_legs : Uuid -> Uuid ->
    M W LedgerQueryError (list MovementLeg);
  rm_verify_double_entry : Uuid -> Uuid ->
    M W LedgerQueryError (bool * Dec * Dec * Dec);
  rm_get_virtual_account : Uuid -> Uuid ->
    M W LedgerQueryError VirtualAccount;
  rm_list_virtual_accounts : Uuid -> option Uuid -> list VirtualAccountType ->
    list VirtualAccountStatus -> Pagination ->
    M W LedgerQueryError (list VirtualAccount * PaginationMetadata);
  rm_get_virtual_account_summary : Uuid -> Uuid ->
    M W LedgerQueryError (list VirtualAccountCurrencySummary);
  rm_get_liquidity_position : Uuid -> Uuid ->
    M W LedgerQueryError LiquidityPosition;
  rm_list_liquidity_positions : Uuid -> option Uuid -> list LiquidityPositionType ->
    list LiquidityPositionStatus -> Pagination ->
    M W LedgerQueryError (list LiquidityPosition * PaginationMetadata);
  rm_get_liquidity_summary : Uuid -> Uuid ->
    M W LedgerQueryError (list LiquiditySummaryItem);
  rm_get_expiring_positions : Uuid -> Z ->
    M W LedgerQueryError (list ExpiringPosition);
  rm_get_settlement_instruction : Uuid -> Uuid ->
    M W LedgerQueryError SettlementInstruction;
  rm_list_settlement_instructions : Uuid -> option SettlementType -> list SettlementStatus ->
    DateTime -> DateTime -> Pagination ->
    M W LedgerQueryError (list SettlementInstruction * PaginationMetadata);
  rm_get_pending_settlements : Uuid ->
    M W LedgerQueryError (list SettlementInstruction);
  rm_get_settlement_summary : Uuid -> DateTime -> DateTime ->
    M W LedgerQueryError (list SettlementSummaryItem);
  rm_get_suspense_item : Uuid -> Uuid ->
    M W LedgerQueryError SuspenseItem;
  rm_list_suspense_items : Uuid -> list SuspenseStatus -> list SuspenseCategory ->
    option string -> Pagination ->
    M W LedgerQueryError (list SuspenseItem * PaginationMetadata);
  rm_get_suspense_aging_report : Uuid ->
    M W LedgerQueryError (list SuspenseAgingBucket);
  rm_get_suspense_activity_log : Uuid -> Uuid -> Pagination ->
    M W LedgerQueryError (list SuspenseActivityEntry * PaginationMetadata);
  rm_get_coa_entry : string -> Uuid ->
    M W LedgerQueryError COAEntry;
  rm_list_coa_entries : Uuid -> option string -> option string -> Pagination ->
    M W LedgerQueryError (list COAEntry * PaginationMetadata);
  rm_get_period_end_balance : Uuid -> Uuid -> string ->
    M W LedgerQueryError PeriodEndBalance;
  rm_list_period_end_balances : Uuid -> string -> Pagination ->
    M W LedgerQueryError (list PeriodEndBalance * PaginationMetadata);
}.

(** ** The handler *)

Context {W : Type} `{!ReadModelPort W}.

Definition get_account_balance (account_id : Uuid) (tenant_id : Uuid) (as_of : option DateTime)
    : M W LedgerQueryError AccountBalance :=
  rm_get_account_balance account_id tenant_id as_of.

Definition get_account_statement (account_id : Uuid) (tenant_id : Uuid) (from : DateTime)
    (to : DateTime) (pagination : Pagination)
    : M W LedgerQueryError Statement :=
  rm_get_account_statement account_id tenant_id from to pagination.

Definition get_transaction_by_id (transaction_id : Uuid) (tenant_id : Uuid)
    : M W LedgerQueryError Transaction :=
  rm_get_transaction_by_id transaction_id tenant_id.

Definition list_transactions (tenant_id : Uuid) (account_ids : list Uuid)
    (types : list TransactionType) (from : DateTime) (to : DateTime) (pagination : Pagination)
    : M W LedgerQueryError TransactionPage :=
  rm_list_transactions tenant_id account_ids types from to pagination.

Definition search_transactions (tenant_id : Uuid) (query : string) (filters : option json)
    (pagination : Pagination)
    : M W LedgerQueryError TransactionPage :=
  rm_search_transactions tenant_id query filters pagination.

Definition get_account_summary (tenant_id : Uuid) (as_of : option DateTime)
    : M W LedgerQueryError AccountSummary :=
  rm_get_account_summary tenant_id as_of.

(** No event is replayed: the answer is the current balance, and [dry_run] is
    not looked at. *)
Definition rebuild_account_view (account_id : Uuid) (tenant_id : Uuid) (dry_run : bool)
    : M W LedgerQueryError (bool * Z * Dec) :=
  balance ← rm_get_account_balance account_id tenant_id None;
  mret (true, 0%Z, ab_current_balance balance).

Definition get_movement_legs (transaction_id : Uuid) (tenant_id : Uuid)
    : M W LedgerQueryError (list MovementLeg) :=
  rm_get_movement_legs transaction_id tenant_id.

Definition verify_double_entry (transaction_id : Uuid) (tenant_id : Uuid)
    : M W LedgerQueryError (bool * Dec * Dec * Dec) :=
  rm_verify_double_entry transaction_id tenant_id.

Definition get_virtual_account (virtual_account_id : Uuid) (tenant_id : Uuid)
    : M W LedgerQueryError VirtualAccount :=
  rm_get_virtual_account virtual_account_id tenant_id.

Definition list_virtual_accounts (tenant_id : Uuid) (parent_account_id : option Uuid)
    (types : list VirtualAccountType) (statuses : list VirtualAccountStatus) (pagination : Pagination)
    : M W LedgerQueryError (list VirtualAccount * PaginationMetadata) :=
  rm_list_virtual_accounts tenant_id parent_account_id types statuses pagination.

Definition get_virtual_account_summary (parent_account_id : Uuid) (tenant_id : Uuid)
    : M W LedgerQueryError (list VirtualAccountCurrencySummary) :=
  rm_get_virtual_account_summary parent_account_id tenant_id.

(** The virtual account is looked up as an account. *)
Definition get_virtual_account_transactions (virtual_account_id : Uuid) (tenant_id : Uuid)
    (from : DateTime) (to : DateTime) (pagination : Pagination)
    : M W LedgerQueryError TransactionPage :=
  rm_list_transactions tenant_id [virtual_account_id] [] from to pagination.

Definition get_liquidity_position (position_id : Uuid) (tenant_id : Uuid)
    : M W LedgerQueryError LiquidityPosition :=
  rm_get_liquidity_position position_id tenant_id.

Definition list_liquidity_positions (tenant_id : Uuid) (account_id : option Uuid)
    (types : list LiquidityPositionType) (statuses : list LiquidityPositionStatus) (pagination : Pagination)
    : M W LedgerQueryError (list LiquidityPosition * PaginationMetadata) :=
  rm_list_liquidity_positions tenant_id account_id types statuses pagination.

Definition get_liquidity_summary (account_id : Uuid) (tenant_id : Uuid)
    : M W LedgerQueryError (list LiquiditySummaryItem) :=
  rm_get_liquidity_summary account_id tenant_id.

Definition get_expiring_positions (tenant_id : Uuid) (lookahead_minutes : Z)
    : M W LedgerQueryError (list ExpiringPosition) :=
  rm_get_expiring_positions tenant_id lookahead_minutes.

Definition get_settlement_instruction (settlement_id : Uuid) (tenant_id : Uuid)
    : M W LedgerQueryError SettlementInstruction :=
  rm_get_settlement_instruction settlement_id tenant_id.

Definition list_settlement_instructions (tenant_id : Uuid)
    (settlement_type : option SettlementType) (statuses : list SettlementStatus) (from : DateTime) (to : DateTime) (pagination : Pagination)
    : M W LedgerQueryError (list SettlementInstruction * PaginationMetadata) :=
  rm_list_settlement_instructions tenant_id settlement_type statuses from to pagination.

Definition get_pending_settlements (tenant_id : Uuid)
    : M W LedgerQueryError (list SettlementInstruction) :=
  rm_get_pending_settlements tenant_id.

Definition get_settlement_summary (tenant_id : Uuid) (start_date : DateTime)
    (end_date : DateTime)
    : M W LedgerQueryError (list SettlementSummaryItem) :=
  rm_get_settlement_summary tenant_id start_date end_date.

Definition get_suspense_item (suspense_id : Uuid) (tenant_id : Uuid)
    : M W LedgerQueryError SuspenseItem :=
  rm_get_suspense_item suspense_id tenant_id.

Definition list_suspense_items (tenant_id : Uuid) (statuses : list SuspenseStatus)
    (categories : list SuspenseCategory) (priority : option string) (pagination : Pagination)
    : M W LedgerQueryError (list SuspenseItem * PaginationMetadata) :=
  rm_list_suspense_items tenant_id statuses categories priority pagination.

Definition get_suspense_aging_report (tenant_id : Uuid)
    : M W LedgerQueryError (list SuspenseAgingBucket) :=
  rm_get_suspense_aging_report tenant_id.

Definition get_suspense_activity_log (suspense_id : Uuid) (tenant_id : Uuid)
    (pagination : Pagination)
    : M W LedgerQueryError (list SuspenseActivityEntry * PaginationMetadata) :=
  rm_get_suspense_activity_log suspense_id tenant_id pagination.

Definition get_coa_entry (coa_code : string) (tenant_id : Uuid)
    : M W LedgerQueryError COAEntry :=
  rm_get_coa_entry coa_code tenant_id.

Definition list_coa_entries (tenant_id : Uuid) (parent_code : option string)
    (account_category : option string) (pagination : Pagination)
    : M W LedgerQueryError (list COAEntry * PaginationMetadata) :=
  rm_list_coa_entries tenant_id parent_code account_category pagination.

Definition get_period_end_balance (account_id : Uuid) (tenant_id : Uuid)
    (fiscal_period_id : string)
    : M W LedgerQueryError PeriodEndBalance :=
  rm_get_period_end_balance account_id tenant_id fiscal_period_id.

Definition list_period_end_balances (tenant_id : Uuid) (fiscal_period_id : string)
    (pagination : Pagination)
    : M W LedgerQueryError (list PeriodEndBalance * PaginationMetadata) :=
  rm_list_period_end_balances tenant_id fiscal_period_id pagination.

End domain.

(** ** Theorems *)

(** The numbers of the enums are one-to-one with their values: each
    [from_i32] accepts exactly the numbers [as_i32] gives, and answers the value
    that has that number. *)
Theorem ledger_enums_bijective :
  (forall n t, account_type_from_i32 n = Some t <-> n = account_type_as_i32 t)
  /\ (forall n t, transaction_type_from_i32 n = Some t <-> n = transaction_type_as_i32 t)
  /\ (forall n t, virtual_account_type_from_i32 n = Some t <-> n = virtual_account_type_as_i32 t)
  /\ (forall n t, virtual_account_status_from_i32 n = Some t <-> n = virtual_account_status_as_i32 t)
  /\ (forall n t, liquidity_position_type_from_i32 n = Some t <-> n = liquidity_position_type_as_i32 t)
  /\ (forall n t, liquidity_position_status_from_i32 n = Some t
                   <-> n = liquidity_position_status_as_i32 t)
  /\ (forall n t, settlement_type_from_i32 n = Some t <-> n = settlement_type_as_i32 t)
  /\ (forall n t, settlement_status_from_i32 n = Some t <-> n = settlement_status_as_i32 t)
  /\ (forall n t, suspense_category_from_i32 n = Some t <-> n = suspense_category_as_i32 t)
  /\ (forall n t, suspense_status_from_i32 n = Some t <-> n = suspense_status_as_i32 t)
  /\ (forall n t, suspense_resolution_type_from_i32 n = Some t
                   <-> n = suspense_resolution_type_as_i32 t).
Proof.
  split_and!; intros n t; (split; [|intros ->; by destruct t]);
    destruct n as [|[[[]|[]|]|[[]|[]|]|]|]; simpl; intros E; simplify_eq; try done.
  all: by destruct p; simplify_eq.
Qed.
