(* ===== verification/LedgerStore.v ===== *)
(** * Ledger query service: the PostgreSQL read model

    [ledger-query-service/src/infrastructure/postgres_read_model.rs].  Every
    method binds its SQL text to an unused variable, sends the one statement
    that sets the tenant, and answers a constant: not found, an empty page, or
    zero totals.  [postgres_read_model] is the instance of the port. *)

From Stdlib Require Import ZArith Lia.
From stdpp Require Import base list strings numbers.
From S2P Require Import Prelude RustStr External Reference Ledger.

Local Open Scope string_scope.

(** ** Environment and world *)

(** Which statements fail, with their error text, and the clock. *)
Class LedgerEnv := {
  l_fault : nat -> option string;
  l_clock : nat -> DateTime;
}.

(** The values bound to [SET LOCAL app.current_tenant_id = $1] by the
    statements executed so far, the last one first. *)
Record LedgerWorld := mkLedgerWorld {
  l_tenants : list string;
  l_tick : nat;
}.

(** The empty pagination block of every listing. *)
Definition no_pages : PaginationMetadata := mkPaginationMetadata 0 "" "" false.

Section store.
Context `{DecimalOps} `{F64Ops} `{UuidOps} `{LedgerEnv}.

(** [Utc::now()] *)
Definition l_now {E} : M LedgerWorld E DateTime := fun w =>
  (Ok (l_clock (l_tick w)), mkLedgerWorld (l_tenants w) (S (l_tick w))).

Definition set_tenant (tenant_id : Uuid) : M LedgerWorld LedgerQueryError unit := fun w =>
  match l_fault (l_tick w) with
  | Some e => (Err (DatabaseError e), mkLedgerWorld (l_tenants w) (S (l_tick w)))
  | None => (Ok tt, mkLedgerWorld (uuid_to_string tenant_id :: l_tenants w) (S (l_tick w)))
  end.

Definition pg_get_account_balance (account_id : Uuid) (tenant_id : Uuid)
    (as_of : option DateTime)
    : M LedgerWorld LedgerQueryError AccountBalance :=
  set_tenant tenant_id ;;
  throw (AccountNotFound (uuid_to_string account_id)).

Definition pg_get_account_statement (account_id : Uuid) (tenant_id : Uuid) (from : DateTime)
    (to : DateTime) (pagination : Pagination)
    : M LedgerWorld LedgerQueryError Statement :=
  set_tenant tenant_id ;;
  if (to <? from)%Z then throw (InvalidDateRange "from_date must be before to_date")
  else mret ([], no_pages, dec_zero, dec_zero, dec_zero, dec_zero, dec_zero).

Definition pg_get_transaction_by_id (transaction_id : Uuid) (tenant_id : Uuid)
    : M LedgerWorld LedgerQueryError Transaction :=
  set_tenant tenant_id ;;
  throw (TransactionNotFound (uuid_to_string transaction_id)).

Definition pg_list_transactions (tenant_id : Uuid) (account_ids : list Uuid)
    (types : list TransactionType) (from : DateTime) (to : DateTime) (pagination : Pagination)
    : M LedgerWorld LedgerQueryError TransactionPage :=
  set_tenant tenant_id ;;
  if (to <? from)%Z then throw (InvalidDateRange "from_date must be before to_date")
  else mret ([], no_pages, 0%Z, dec_zero, dec_zero, dec_zero).

Definition pg_search_transactions (tenant_id : Uuid) (query : string) (filters : option json)
    (pagination : Pagination)
    : M LedgerWorld LedgerQueryError TransactionPage :=
  set_tenant tenant_id ;;
  mret ([], no_pages, 0%Z, dec_zero, dec_zero, dec_zero).

Definition pg_get_account_summary (tenant_id : Uuid) (as_of : option DateTime)
    : M LedgerWorld LedgerQueryError AccountSummary :=
  set_tenant tenant_id ;;
  now ← l_now;
  mret (mkAccountSummary tenant_id 0 [] dec_zero dec_zero now).

Definition pg_get_movement_legs (transaction_id : Uuid) (tenant_id : Uuid)
    : M LedgerWorld LedgerQueryError (list MovementLeg) :=
  set_tenant tenant_id ;;
  mret [].

Definition pg_verify_double_entry (transaction_id : Uuid) (tenant_id : Uuid)
    : M LedgerWorld LedgerQueryError (bool * Dec * Dec * Dec) :=
  set_tenant tenant_id ;;
  mret (true, dec_zero, dec_zero, dec_zero).

Definition pg_get_virtual_account (virtual_account_id : Uuid) (tenant_id : Uuid)
    : M LedgerWorld LedgerQueryError VirtualAccount :=
  set_tenant tenant_id ;;
  throw (VirtualAccountNotFound (uuid_to_string virtual_account_id)).

Definition pg_list_virtual_accounts (tenant_id : Uuid) (parent_account_id : option Uuid)
    (types : list VirtualAccountType) (statuses : list VirtualAccountStatus) (pagination : Pagination)
    : M LedgerWorld LedgerQueryError (list VirtualAccount * PaginationMetadata) :=
  set_tenant tenant_id ;;
  mret ([], no_pages).

Definition pg_get_virtual_account_summary (parent_account_id : Uuid) (tenant_id : Uuid)
    : M LedgerWorld LedgerQueryError (list VirtualAccountCurrencySummary) :=
  set_tenant tenant_id ;;
  mret [].

Definition pg_get_liquidity_position (position_id : Uuid) (tenant_id : Uuid)
    : M LedgerWorld LedgerQueryError LiquidityPosition :=
  set_tenant tenant_id ;;
  throw (LiquidityPositionNotFound (uuid_to_string position_id)).

Definition pg_list_liquidity_positions (tenant_id : Uuid) (account_id : option Uuid)
    (types : list LiquidityPositionType) (statuses : list LiquidityPositionStatus) (pagination : Pagination)
    : M LedgerWorld LedgerQueryError (list LiquidityPosition * PaginationMetadata) :=
  set_tenant tenant_id ;;
  mret ([], no_pages).

Definition pg_get_liquidity_summary (account_id : Uuid) (tenant_id : Uuid)
    : M LedgerWorld LedgerQueryError (list LiquiditySummaryItem) :=
  set_tenant tenant_id ;;
  mret [].

Definition pg_get_expiring_positions (tenant_id : Uuid) (lookahead_minutes : Z)
    : M LedgerWorld LedgerQueryError (list ExpiringPosition) :=
  set_tenant tenant_id ;;
  mret [].

Definition pg_get_settlement_instruction (settlement_id : Uuid) (tenant_id : Uuid)
    : M LedgerWorld LedgerQueryError SettlementInstruction :=
  set_tenant tenant_id ;;
  throw (SettlementNotFound (uuid_to_string settlement_id)).

Definition pg_list_settlement_instructions (tenant_id : Uuid)
    (settlement_type : option SettlementType) (statuses : list SettlementStatus) (from : DateTime) (to : DateTime) (pagination : Pagination)
    : M LedgerWorld LedgerQueryError (list SettlementInstruction * PaginationMetadata) :=
  set_tenant tenant_id ;;
  mret ([], no_pages).

Definition pg_get_pending_settlements (tenant_id : Uuid)
    : M LedgerWorld LedgerQueryError (list SettlementInstruction) :=
  set_tenant tenant_id ;;
  mret [].

Definition pg_get_settlement_summary (tenant_id : Uuid) (start_date : DateTime)
    (end_date : DateTime)
    : M LedgerWorld LedgerQueryError (list SettlementSummaryItem) :=
  set_tenant tenant_id ;;
  mret [].

Definition pg_get_suspense_item (suspense_id : Uuid) (tenant_id : Uuid)
    : M LedgerWorld LedgerQueryError SuspenseItem :=
  set_tenant tenant_id ;;
  throw (SuspenseItemNotFound (uuid_to_string suspense_id)).

Definition pg_list_suspense_items (tenant_id : Uuid) (statuses : list SuspenseStatus)
    (categories : list SuspenseCategory) (priority : option string) (pagination : Pagination)
    : M LedgerWorld LedgerQueryError (list SuspenseItem * PaginationMetadata) :=
  set_tenant tenant_id ;;
  mret ([], no_pages).

Definition pg_get_suspense_aging_report (tenant_id : Uuid)
    : M LedgerWorld LedgerQueryError (list SuspenseAgingBucket) :=
  set_tenant tenant_id ;;
  mret [].

Definition pg_get_suspense_activity_log (suspense_id : Uuid) (tenant_id : Uuid)
    (pagination : Pagination)
    : M LedgerWorld LedgerQueryError (list SuspenseActivityEntry * PaginationMetadata) :=
  set_tenant tenant_id ;;
  mret ([], no_pages).

Definition pg_get_coa_entry (coa_code : string) (tenant_id : Uuid)
    : M LedgerWorld LedgerQueryError COAEntry :=
  set_tenant tenant_id ;;
  throw (CoaEntryNotFound coa_code).

Definition pg_list_coa_entries (tenant_id : Uuid) (parent_code : option string)
    (account_category : option string) (pagination : Pagination)
    : M LedgerWorld LedgerQueryError (list COAEntry * PaginationMetadata) :=
  set_tenant tenant_id ;;
  mret ([], no_pages).

Definition pg_get_period_end_balance (account_id : Uuid) (tenant_id : Uuid)
    (fiscal_period_id : string)
    : M LedgerWorld LedgerQueryError PeriodEndBalance :=
  set_tenant tenant_id ;;
  throw (PeriodEndBalanceNotFound
    ("account:" +:+ uuid_to_string account_id +:+ " period:" +:+ fiscal_period_id)).

Definition pg_list_period_end_balances (tenant_id : Uuid) (fiscal_period_id : string)
    (pagination : Pagination)
    : M LedgerWorld LedgerQueryError (list PeriodEndBalance * PaginationMetadata) :=
  set_tenant tenant_id ;;
  mret ([], no_pages).

#[export] Instance postgres_read_model : ReadModelPort LedgerWorld := {|
  rm_get_account_balance := pg_get_account_balance;
  rm_get_account_statement := pg_get_account_statement;
  rm_get_transaction_by_id := pg_get_transaction_by_id;
  rm_list_transactions := pg_list_transactions;
  rm_search_transactions := pg_search_transactions;
  rm_get_account_summary := pg_get_account_summary;
  rm_get_movement_legs := pg_get_movement_legs;
  rm_verify_double_entry := pg_verify_double_entry;
  rm_get_virtual_account := pg_get_virtual_account;
  rm_list_virtual_accounts := pg_list_virtual_accounts;
  rm_get_virtual_account_summary := pg_get_virtual_account_summary;
  rm_get_liquidity_position := pg_get_liquidity_position;
  rm_list_liquidity_positions := pg_list_liquidity_positions;
  rm_get_liquidity_summary := pg_get_liquidity_summary;
  rm_get_expiring_positions := pg_get_expiring_positions;
  rm_get_settlement_instruction := pg_get_settlement_instruction;
  rm_list_settlement_instructions := pg_list_settlement_instructions;
  rm_get_pending_settlements := pg_get_pending_settlements;
  rm_get_settlement_summary := pg_get_settlement_summary;
  rm_get_suspense_item := pg_get_suspense_item;
  rm_list_suspense_items := pg_list_suspense_items;
  rm_get_suspense_aging_report := pg_get_suspense_aging_report;
  rm_get_suspense_activity_log := pg_get_suspense_activity_log;
  rm_get_coa_entry := pg_get_coa_entry;
  rm_list_coa_entries := pg_list_coa_entries;
  rm_get_period_end_balance := pg_get_period_end_balance;
  rm_list_period_end_balances := pg_list_period_end_balances;
|}.

End store.
