(* ===== verification/LedgerProto.v ===== *)
(** * Ledger query service: messages and conversions

    The messages of [protos/v1/ledger/ledger.proto] the service answers with
    (enum fields carry their numbers), and the conversion functions of
    [ledger-query-service/src/ports/grpc.rs].  Where the source repeats a
    conversion inline in several methods it is one definition here. *)

From Stdlib Require Import ZArith Lia.
From stdpp Require Import base list strings numbers.
From S2P Require Import Prelude RustStr External Grpc Ledger.

Local Open Scope string_scope.

(** ** Messages *)

(** [common.Pagination] and [common.PaginationMetadata] *)
Record ProtoPagination := mkProtoPagination {
  pp_page_size : Z;
  pp_page_token : string;
}.

Record ProtoPaginationMetadata := mkProtoPaginationMetadata {
  ppm_total_count : Z;
  ppm_next_page_token : string;
  ppm_previous_page_token : string;
  ppm_has_more : bool;
}.

Section messages.
Context `{F64Ops}.

(** [prost_types::Value]; [VUnset] is a value without a kind. *)
Inductive ProstValue : Type :=
  | VUnset
  | VNull
  | VNumber (x : F64)
  | VString (s : string)
  | VBool (b : bool)
  | VStruct (fields : list (string * ProstValue))
  | VList (values : list ProstValue).

Record ProtoBalanceByType := mkProtoBalanceByType {
  pbt_account_type : Z;
  pbt_balance : option ProtoMoney;
  pbt_account_count : Z;
}.

Record ProtoAccountBalance := mkProtoAccountBalance {
  pab_account_id : string;
  pab_tenant_id : string;
  pab_account_type : Z;
  pab_current_balance : option ProtoMoney;
  pab_available_balance : option ProtoMoney;
  pab_hold_balance : option ProtoMoney;
  pab_currency_code : string;
  pab_as_of : option Timestamp;
  pab_version : Z;
  pab_error : option ProtoError;
}.

Record ProtoTransaction := mkProtoTransaction {
  ptx_transaction_id : string;
  ptx_transaction_uuid : string;
  ptx_tenant_id : string;
  ptx_account_id : string;
  ptx_transaction_type : Z;
  ptx_amount : option ProtoMoney;
  ptx_balance_after : option ProtoMoney;
  ptx_description : string;
  ptx_reference : string;
  ptx_posted_at : option Timestamp;
  ptx_effective_at : option Timestamp;
  ptx_session_id : string;
  ptx_payment_id : string;
  ptx_metadata : list (string * string);
  ptx_version : Z;
  ptx_correlation_id : string;
  ptx_idempotency_key : string;
  ptx_status : string;
  ptx_record_hash : string;
  ptx_previous_hash : string;
  ptx_error : option ProtoError;
}.

Record GetAccountStatementResponse := mkGetAccountStatementResponse {
  gas_account_id : string;
  gas_transactions : list ProtoTransaction;
  gas_pagination : option ProtoPaginationMetadata;
  gas_opening_balance : option ProtoMoney;
  gas_closing_balance : option ProtoMoney;
  gas_total_credits : option ProtoMoney;
  gas_total_debits : option ProtoMoney;
  gas_total_fees : option ProtoMoney;
  gas_total_count : Z;
  gas_error : option ProtoError;
}.

Record ListTransactionsResponse := mkListTransactionsResponse {
  ltr_transactions : list ProtoTransaction;
  ltr_pagination : option ProtoPaginationMetadata;
  ltr_total_count : Z;
  ltr_total_credits : option ProtoMoney;
  ltr_total_debits : option ProtoMoney;
  ltr_total_fees : option ProtoMoney;
  ltr_error : option ProtoError;
}.

Record ProtoAccountSummary := mkProtoAccountSummary {
  pasu_tenant_id : string;
  pasu_total_accounts : Z;
  pasu_balances : list ProtoBalanceByType;
  pasu_total_liabilities : option ProtoMoney;
  pasu_total_assets : option ProtoMoney;
  pasu_as_of : option Timestamp;
  pasu_error : option ProtoError;
}.

Record RebuildAccountViewResponse := mkRebuildAccountViewResponse {
  rav_account_id : string;
  rav_success : bool;
  rav_events_replayed : Z;
  rav_completed_at : option Timestamp;
  rav_reconciled_balance : option ProtoMoney;
  rav_error : option ProtoError;
}.

Record ProtoMovementLeg := mkProtoMovementLeg {
  pml_leg_id : string;
  pml_leg_sequence : Z;
  pml_account_id : string;
  pml_direction : string;
  pml_amount : option ProtoMoney;
  pml_currency : string;
  pml_coa_code : string;
  pml_description : string;
  pml_posted_at : option Timestamp;
}.

Record GetMovementLegsResponse := mkGetMovementLegsResponse {
  gml_transaction_id : string;
  gml_legs : list ProtoMovementLeg;
  gml_error : option ProtoError;
}.

Record VerifyDoubleEntryResponse := mkVerifyDoubleEntryResponse {
  vde_transaction_id : string;
  vde_is_balanced : bool;
  vde_total_debits : option ProtoMoney;
  vde_total_credits : option ProtoMoney;
  vde_difference : option ProtoMoney;
  vde_error : option ProtoError;
}.

Record ProtoVirtualAccount := mkProtoVirtualAccount {
  pva_virtual_account_id : string;
  pva_parent_account_id : string;
  pva_virtual_account_name : string;
  pva_virtual_account_number : string;
  pva_virtual_account_type : Z;
  pva_status : Z;
  pva_current_balance : option ProtoMoney;
  pva_available_balance : option ProtoMoney;
  pva_held_amount : option ProtoMoney;
  pva_currency : string;
  pva_target_amount : option ProtoMoney;
  pva_target_date : option Timestamp;
  pva_progress_percentage : F64;
  pva_auto_sweep_enabled : bool;
  pva_opened_at : option Timestamp;
  pva_closed_at : option Timestamp;
  pva_matured_at : option Timestamp;
  pva_error : option ProtoError;
}.

Record ListVirtualAccountsResponse := mkListVirtualAccountsResponse {
  lva_virtual_accounts : list ProtoVirtualAccount;
  lva_pagination : option ProtoPaginationMetadata;
  lva_error : option ProtoError;
}.

Record ProtoVirtualAccountCurrencySummary := mkProtoVirtualAccountCurrencySummary {
  pvcs_currency : string;
  pvcs_total_balance : option ProtoMoney;
  pvcs_total_available : option ProtoMoney;
  pvcs_total_held : option ProtoMoney;
  pvcs_account_count : Z;
}.

Record GetVirtualAccountSummaryResponse := mkGetVirtualAccountSummaryResponse {
  gvs_parent_account_id : string;
  gvs_summaries : list ProtoVirtualAccountCurrencySummary;
  gvs_error : option ProtoError;
}.

Record ProtoLiquidityPosition := mkProtoLiquidityPosition {
  plp_position_id : string;
  plp_position_reference : string;
  plp_account_id : string;
  plp_tenant_id : string;
  plp_position_type : Z;
  plp_amount : option ProtoMoney;
  plp_currency : string;
  plp_status : Z;
  plp_purpose_code : string;
  plp_description : string;
  plp_created_at : option Timestamp;
  plp_effective_date : option Timestamp;
  plp_expires_at : option Timestamp;
  plp_released_at : option Timestamp;
  plp_auto_release : bool;
  plp_release_reason : string;
  plp_error : option ProtoError;
}.

Record ListLiquidityPositionsResponse := mkListLiquidityPositionsResponse {
  llp_positions : list ProtoLiquidityPosition;
  llp_pagination : option ProtoPaginationMetadata;
  llp_error : option ProtoError;
}.

Record ProtoLiquiditySummaryItem := mkProtoLiquiditySummaryItem {
  plsi_position_type : Z;
  plsi_currency : string;
  plsi_total_amount : option ProtoMoney;
  plsi_position_count : Z;
}.

Record GetLiquiditySummaryResponse := mkGetLiquiditySummaryResponse {
  gls_account_id : string;
  gls_items : list ProtoLiquiditySummaryItem;
  gls_error : option ProtoError;
}.

Record ProtoExpiringPosition := mkProtoExpiringPosition {
  pep_position_id : string;
  pep_account_id : string;
  pep_position_type : Z;
  pep_amount : option ProtoMoney;
  pep_currency : string;
  pep_expires_at : option Timestamp;
  pep_minutes_until_expiry : F64;
}.

Record GetExpiringPositionsResponse := mkGetExpiringPositionsResponse {
  gep_positions : list ProtoExpiringPosition;
  gep_error : option ProtoError;
}.

Record ProtoSettlementInstruction := mkProtoSettlementInstruction {
  psi_settlement_id : string;
  psi_settlement_reference : string;
  psi_tenant_id : string;
  psi_counterparty_id : string;
  psi_counterparty_name : string;
  psi_settlement_type : Z;
  psi_direction : string;
  psi_amount : option ProtoMoney;
  psi_currency : string;
  psi_status : Z;
  psi_scheduled_at : option Timestamp;
  psi_settlement_date : option Timestamp;
  psi_executed_at : option Timestamp;
  psi_completed_at : option Timestamp;
  psi_settlement_account : string;
  psi_counterparty_account : string;
  psi_transaction_count : Z;
  psi_gross_amount : option ProtoMoney;
  psi_net_amount : option ProtoMoney;
  psi_fees_amount : option ProtoMoney;
  psi_confirmation_reference : string;
  psi_failure_reason : string;
  psi_retry_count : Z;
  psi_error : option ProtoError;
}.

Record ListSettlementInstructionsResponse := mkListSettlementInstructionsResponse {
  lsr_settlements : list ProtoSettlementInstruction;
  lsr_pagination : option ProtoPaginationMetadata;
  lsr_error : option ProtoError;
}.

Record GetPendingSettlementsResponse := mkGetPendingSettlementsResponse {
  gps_settlements : list ProtoSettlementInstruction;
  gps_error : option ProtoError;
}.

Record ProtoSettlementSummaryItem := mkProtoSettlementSummaryItem {
  pssi_settlement_type : Z;
  pssi_direction : string;
  pssi_currency : string;
  pssi_total_amount : option ProtoMoney;
  pssi_count : Z;
  pssi_completed_count : Z;
  pssi_failed_count : Z;
}.

Record GetSettlementSummaryResponse := mkGetSettlementSummaryResponse {
  gss_items : list ProtoSettlementSummaryItem;
  gss_error : option ProtoError;
}.

Record ProtoSuspenseItem := mkProtoSuspenseItem {
  psu_suspense_id : string;
  psu_suspense_reference : string;
  psu_source_transaction_id : string;
  psu_amount : option ProtoMoney;
  psu_currency : string;
  psu_category : Z;
  psu_priority : string;
  psu_status : Z;
  psu_description : string;
  psu_days_in_suspense : Z;
  psu_escalation_level : Z;
  psu_resolution_type : Z;
  psu_resolution_date : option Timestamp;
  psu_resolution_notes : string;
  psu_created_at : option Timestamp;
  psu_error : option ProtoError;
}.

Record ListSuspenseItemsResponse := mkListSuspenseItemsResponse {
  lsu_items : list ProtoSuspenseItem;
  lsu_pagination : option ProtoPaginationMetadata;
  lsu_error : option ProtoError;
}.

Record ProtoSuspenseAgingBucket := mkProtoSuspenseAgingBucket {
  psab_category : string;
  psab_days_range_start : Z;
  psab_days_range_end : Z;
  psab_count : Z;
  psab_total_amount : option ProtoMoney;
}.

Record GetSuspenseAgingReportResponse := mkGetSuspenseAgingReportResponse {
  gsa_buckets : list ProtoSuspenseAgingBucket;
  gsa_error : option ProtoError;
}.

Record ProtoSuspenseActivityEntry := mkProtoSuspenseActivityEntry {
  psae_activity_id : string;
  psae_suspense_id : string;
  psae_activity_type : string;
  psae_from_status : string;
  psae_to_status : string;
  psae_performed_by : string;
  psae_notes : string;
  psae_created_at : option Timestamp;
}.

Record GetSuspenseActivityLogResponse := mkGetSuspenseActivityLogResponse {
  gsl_entries : list ProtoSuspenseActivityEntry;
  gsl_pagination : option ProtoPaginationMetadata;
  gsl_error : option ProtoError;
}.

Record ProtoCOAEntry := mkProtoCOAEntry {
  pcoa_coa_code : string;
  pcoa_tenant_id : string;
  pcoa_account_name : string;
  pcoa_account_category : string;
  pcoa_parent_code : string;
  pcoa_level : Z;
  pcoa_is_leaf : bool;
  pcoa_normal_balance : string;
  pcoa_is_active : bool;
  pcoa_error : option ProtoError;
}.

Record ListCOAEntriesResponse := mkListCOAEntriesResponse {
  lce_entries : list ProtoCOAEntry;
  lce_pagination : option ProtoPaginationMetadata;
  lce_error : option ProtoError;
}.

Record ProtoPeriodEndBalance := mkProtoPeriodEndBalance {
  ppeb_balance_id : string;
  ppeb_account_id : string;
  ppeb_tenant_id : string;
  ppeb_fiscal_period_id : string;
  ppeb_opening_balance : option ProtoMoney;
  ppeb_closing_balance : option ProtoMoney;
  ppeb_total_debits : option ProtoMoney;
  ppeb_total_credits : option ProtoMoney;
  ppeb_currency : string;
  ppeb_is_adjusted : bool;
  ppeb_created_at : option Timestamp;
  ppeb_error : option ProtoError;
}.

Record ListPeriodEndBalancesResponse := mkListPeriodEndBalancesResponse {
  lpb_balances : list ProtoPeriodEndBalance;
  lpb_pagination : option ProtoPaginationMetadata;
  lpb_error : option ProtoError;
}.

End messages.

(** ** Requests and errors *)

(** [map_error]: the status, which the methods drop, and the error block. *)
Definition map_error (e : LedgerQueryError) (trace_id : string) : Status * option ProtoError :=
  let msg := ledger_error_to_string e in
  let '(status, code) :=
    match e with
    | AccountNotFound _ | TransactionNotFound _ | VirtualAccountNotFound _
    | LiquidityPositionNotFound _ | SettlementNotFound _ | SuspenseItemNotFound _
    | CoaEntryNotFound _ | PeriodEndBalanceNotFound _ => (mkStatus CodeNotFound msg, EC_NOT_FOUND)
    | InvalidDateRange _ | InvalidArgument _ =>
        (mkStatus CodeInvalidArgument msg, EC_INVALID_ARGUMENT)
    | DatabaseError _ => (mkStatus CodeInternal msg, EC_INTERNAL)
    | Internal _ => (mkStatus CodeInternal msg, EC_INTERNAL)
    end in
  (status, Some (mkProtoError code msg [("trace_id", trace_id)] trace_id
                   (code_i32 (st_code status)))).

(** [extract_trace_id], on the value of the header when it is readable text *)
Definition extract_trace_id (x_trace_id : option string) : string :=
  unwrap_or x_trace_id "unknown".

(** [map_proto_pagination] *)
Definition map_proto_pagination (p : option ProtoPagination) : Pagination :=
  match p with
  | Some pp => mkPagination (Z.min (Z.max (pp_page_size pp) 1) 1000) (pp_page_token pp)
  | None => mkPagination 50 ""
  end.

(** [map_domain_pagination] *)
Definition map_domain_pagination (meta : PaginationMetadata) : ProtoPaginationMetadata :=
  mkProtoPaginationMetadata (pgm_total_count meta) (pgm_next_page_token meta)
    (pgm_previous_page_token meta) (pgm_has_more meta).

(** [iter().filter_map(..)] over the numbers of an enum. *)
Fixpoint filter_map {A B} (f : A -> option B) (l : list A) : list B :=
  match l with
  | [] => []
  | x :: l' => match f x with Some y => y :: filter_map f l' | None => filter_map f l' end
  end.

(** [None] for an empty text filter. *)
Definition non_empty (s : string) : option string := if is_empty s then None else Some s.

(** [prost_to_chrono] *)
Definition prost_to_chrono `{TimeOps} (ts : option Timestamp) : option DateTime :=
  t ← ts; from_timestamp (seconds t) (as_u32 (nanos t)).

(** [prost_to_chrono(..).ok_or_else(|| Status::invalid_argument(what))] *)
Definition required_date `{TimeOps} (ts : option Timestamp) (what : string) : Result Status DateTime :=
  ok_or (prost_to_chrono ts) (mkStatus CodeInvalidArgument what).

(** An identifier field that may be left empty. *)
Definition optional_uuid `{UuidOps} (s : string) : Result Status (option Uuid) :=
  if is_empty s then Ok None else u ← parse_uuid s; mret (Some u).

(** [prost_value_to_json_value] and [prost_struct_to_json_value] *)
Fixpoint prost_value_to_json_value `{F64Ops} (v : ProstValue) : json :=
  match v with
  | VNull => JNull
  | VNumber n => f64_to_json n
  | VString s => JString s
  | VBool b => JBool b
  | VStruct fields => JObject (map (fun kv => (fst kv, prost_value_to_json_value (snd kv))) fields)
  | VList l => JArray (map prost_value_to_json_value l)
  | VUnset => JNull
  end.

Definition prost_struct_to_json_value `{F64Ops} (fields : list (string * ProstValue)) : json :=
  JObject (map (fun kv => (fst kv, prost_value_to_json_value (snd kv))) fields).

(** ** Answers *)

(** [map_domain_*] and [map_proto_*]: the numbers of the enumerations in
    messages *)
Definition map_domain_account_type (t : AccountType) : Z := account_type_as_i32 t.
Definition map_proto_transaction_type (t : Z) : option TransactionType := transaction_type_from_i32 t.
Definition map_domain_transaction_type (t : TransactionType) : Z := transaction_type_as_i32 t.
Definition map_proto_virtual_account_type (t : Z) : option VirtualAccountType := virtual_account_type_from_i32 t.
Definition map_domain_virtual_account_type (t : VirtualAccountType) : Z := virtual_account_type_as_i32 t.
Definition map_proto_virtual_account_status (t : Z) : option VirtualAccountStatus := virtual_account_status_from_i32 t.
Definition map_domain_virtual_account_status (t : VirtualAccountStatus) : Z := virtual_account_status_as_i32 t.
Definition map_proto_liquidity_position_type (t : Z) : option LiquidityPositionType := liquidity_position_type_from_i32 t.
Definition map_domain_liquidity_position_type (t : LiquidityPositionType) : Z := liquidity_position_type_as_i32 t.
Definition map_proto_liquidity_position_status (t : Z) : option LiquidityPositionStatus := liquidity_position_status_from_i32 t.
Definition map_domain_liquidity_position_status (t : LiquidityPositionStatus) : Z := liquidity_position_status_as_i32 t.
Definition map_proto_settlement_type (t : Z) : option SettlementType := settlement_type_from_i32 t.
Definition map_domain_settlement_type (t : SettlementType) : Z := settlement_type_as_i32 t.
Definition map_proto_settlement_status (t : Z) : option SettlementStatus := settlement_status_from_i32 t.
Definition map_domain_settlement_status (t : SettlementStatus) : Z := settlement_status_as_i32 t.
Definition map_proto_suspense_category (t : Z) : option SuspenseCategory := suspense_category_from_i32 t.
Definition map_domain_suspense_category (t : SuspenseCategory) : Z := suspense_category_as_i32 t.
Definition map_proto_suspense_status (t : Z) : option SuspenseStatus := suspense_status_from_i32 t.
Definition map_domain_suspense_status (t : SuspenseStatus) : Z := suspense_status_as_i32 t.
Definition map_proto_suspense_resolution_type (t : Z) : option SuspenseResolutionType := suspense_resolution_type_from_i32 t.
Definition map_domain_suspense_resolution_type (t : SuspenseResolutionType) : Z := suspense_resolution_type_as_i32 t.

Section conversions.
Context `{DecimalOps} `{!DecimalRounding} `{F64Ops} `{UuidOps}.
Context {E : Type}.

(** [decimal_to_money]; the product panics when it overflows, and an amount
    whose cents are no [i64] is shown as zero. *)
Definition decimal_to_money (amount : Dec) (currency : string) : Result E (option ProtoMoney) :=
  match dec_mul amount (dec_new 100 0) with
  | Some cents => Ok (Some (mkProtoMoney currency (unwrap_or (dec_to_i64 (dec_round_dp cents 0)) 0%Z) 0))
  | None => Panic
  end.

(** [money_to_decimal] *)
Definition money_to_decimal (money : option ProtoMoney) : Result Status Dec :=
  ok_or ((fun m => dec_new (pm_amount_cents m) 2) <$> money)
    (mkStatus CodeInvalidArgument "Money amount is required").

(** [map_domain_transaction] *)
Definition map_domain_transaction (t : Transaction) : Result E ProtoTransaction :=
  amount ← decimal_to_money (tx_amount t) "USD";
  balance_after ← decimal_to_money (tx_balance_after t) "USD";
  mret (mkProtoTransaction (uuid_to_string (tx_transaction_id t)) (tx_transaction_uuid t)
    (uuid_to_string (tx_tenant_id t)) (uuid_to_string (tx_account_id t))
    (map_domain_transaction_type (tx_transaction_type t)) amount balance_after
    (tx_description t) (tx_reference t) (Some (chrono_to_prost (tx_posted_at t)))
    (Some (chrono_to_prost (tx_effective_at t))) (tx_session_id t) (tx_payment_id t)
    (tx_metadata t) (tx_version t) (tx_correlation_id t) (tx_idempotency_key t)
    (tx_status t) (tx_record_hash t) (tx_previous_hash t) None).

Definition account_balance_to_proto (b : AccountBalance) : Result E ProtoAccountBalance :=
  current ← decimal_to_money (ab_current_balance b) (ab_currency_code b);
  available ← decimal_to_money (ab_available_balance b) (ab_currency_code b);
  hold ← decimal_to_money (ab_hold_balance b) (ab_currency_code b);
  mret (mkProtoAccountBalance (uuid_to_string (ab_account_id b)) (uuid_to_string (ab_tenant_id b))
    (map_domain_account_type (ab_account_type b)) current available hold (ab_currency_code b)
    (Some (chrono_to_prost (ab_as_of b))) (ab_version b) None).

Definition balance_by_type_to_proto (b : BalanceByType) : Result E ProtoBalanceByType :=
  balance ← decimal_to_money (bt_balance b) "USD";
  mret (mkProtoBalanceByType (map_domain_account_type (bt_account_type b)) balance (bt_account_count b)).

Definition account_summary_to_proto (s : AccountSummary) : Result E ProtoAccountSummary :=
  balances ← collect (map balance_by_type_to_proto (asu_balances s));
  liabilities ← decimal_to_money (asu_total_liabilities s) "USD";
  assets ← decimal_to_money (asu_total_assets s) "USD";
  mret (mkProtoAccountSummary (uuid_to_string (asu_tenant_id s)) (asu_total_accounts s) balances
    liabilities assets (Some (chrono_to_prost (asu_as_of s))) None).

Definition movement_leg_to_proto (l : MovementLeg) : Result E ProtoMovementLeg :=
  amount ← decimal_to_money (ml_amount l) (ml_currency l);
  mret (mkProtoMovementLeg (ml_leg_id l) (ml_leg_sequence l) (ml_account_id l) (ml_direction l)
    amount (ml_currency l) (ml_coa_code l) (ml_description l)
    (Some (chrono_to_prost (ml_posted_at l)))).

Definition virtual_account_to_proto (v : VirtualAccount) : Result E ProtoVirtualAccount :=
  current ← decimal_to_money (va_current_balance v) (va_currency v);
  available ← decimal_to_money (va_available_balance v) (va_currency v);
  held ← decimal_to_money (va_held_amount v) (va_currency v);
  target ← decimal_to_money (va_target_amount v) (va_currency v);
  mret (mkProtoVirtualAccount (uuid_to_string (va_virtual_account_id v))
    (uuid_to_string (va_parent_account_id v)) (va_virtual_account_name v)
    (va_virtual_account_number v) (map_domain_virtual_account_type (va_virtual_account_type v))
    (map_domain_virtual_account_status (va_status v)) current available held (va_currency v) target
    (chrono_to_prost <$> va_target_date v) (va_progress_percentage v) (va_auto_sweep_enabled v)
    (Some (chrono_to_prost (va_opened_at v))) (chrono_to_prost <$> va_closed_at v)
    (chrono_to_prost <$> va_matured_at v) None).

Definition virtual_account_currency_summary_to_proto (s : VirtualAccountCurrencySummary)
    : Result E ProtoVirtualAccountCurrencySummary :=
  balance ← decimal_to_money (vcs_total_balance s) (vcs_currency s);
  available ← decimal_to_money (vcs_total_available s) (vcs_currency s);
  held ← decimal_to_money (vcs_total_held s) (vcs_currency s);
  mret (mkProtoVirtualAccountCurrencySummary (vcs_currency s) balance available held
    (vcs_account_count s)).

Definition liquidity_position_to_proto (p : LiquidityPosition) : Result E ProtoLiquidityPosition :=
  amount ← decimal_to_money (lp_amount p) (lp_currency p);
  mret (mkProtoLiquidityPosition (uuid_to_string (lp_position_id p)) (lp_position_reference p)
    (uuid_to_string (lp_account_id p)) (uuid_to_string (lp_tenant_id p))
    (map_domain_liquidity_position_type (lp_position_type p)) amount (lp_currency p)
    (map_domain_liquidity_position_status (lp_status p)) (lp_purpose_code p) (lp_description p)
    (Some (chrono_to_prost (lp_created_at p))) (Some (chrono_to_prost (lp_effective_date p)))
    (chrono_to_prost <$> lp_expires_at p) (chrono_to_prost <$> lp_released_at p)
    (lp_auto_release p) (lp_release_reason p) None).

Definition liquidity_summary_item_to_proto (i : LiquiditySummaryItem)
    : Result E ProtoLiquiditySummaryItem :=
  amount ← decimal_to_money (lsi_total_amount i) (lsi_currency i);
  mret (mkProtoLiquiditySummaryItem (map_domain_liquidity_position_type (lsi_position_type i))
    (lsi_currency i) amount (lsi_position_count i)).

Definition expiring_position_to_proto (p : ExpiringPosition) : Result E ProtoExpiringPosition :=
  amount ← decimal_to_money (ep_amount p) (ep_currency p);
  mret (mkProtoExpiringPosition (uuid_to_string (ep_position_id p)) (uuid_to_string (ep_account_id p))
    (map_domain_liquidity_position_type (ep_position_type p)) amount (ep_currency p)
    (Some (chrono_to_prost (ep_expires_at p))) (ep_minutes_until_expiry p)).

Definition settlement_instruction_to_proto (s : SettlementInstruction)
    : Result E ProtoSettlementInstruction :=
  amount ← decimal_to_money (si_amount s) (si_currency s);
  gross ← decimal_to_money (si_gross_amount s) (si_currency s);
  net ← decimal_to_money (si_net_amount s) (si_currency s);
  fees ← decimal_to_money (si_fees_amount s) (si_currency s);
  mret (mkProtoSettlementInstruction (uuid_to_string (si_settlement_id s))
    (si_settlement_reference s) (uuid_to_string (si_tenant_id s)) (si_counterparty_id s)
    (si_counterparty_name s) (map_domain_settlement_type (si_settlement_type s)) (si_direction s) amount
    (si_currency s) (map_domain_settlement_status (si_status s)) (chrono_to_prost <$> si_scheduled_at s)
    (chrono_to_prost <$> si_settlement_date s) (chrono_to_prost <$> si_executed_at s)
    (chrono_to_prost <$> si_completed_at s) (si_settlement_account s) (si_counterparty_account s)
    (si_transaction_count s) gross net fees (si_confirmation_reference s) (si_failure_reason s)
    (si_retry_count s) None).

Definition settlement_summary_item_to_proto (i : SettlementSummaryItem)
    : Result E ProtoSettlementSummaryItem :=
  amount ← decimal_to_money (ssi_total_amount i) (ssi_currency i);
  mret (mkProtoSettlementSummaryItem (map_domain_settlement_type (ssi_settlement_type i))
    (ssi_direction i) (ssi_currency i) amount (ssi_count i) (ssi_completed_count i)
    (ssi_failed_count i)).

Definition suspense_item_to_proto (i : SuspenseItem) : Result E ProtoSuspenseItem :=
  amount ← decimal_to_money (su_amount i) (su_currency i);
  mret (mkProtoSuspenseItem (uuid_to_string (su_suspense_id i)) (su_suspense_reference i)
    (su_source_transaction_id i) amount (su_currency i) (map_domain_suspense_category (su_category i))
    (su_priority i) (map_domain_suspense_status (su_status i)) (su_description i)
    (su_days_in_suspense i) (su_escalation_level i)
    (unwrap_or (map_domain_suspense_resolution_type <$> su_resolution_type i) 0%Z)
    (chrono_to_prost <$> su_resolution_date i) (su_resolution_notes i)
    (Some (chrono_to_prost (su_created_at i))) None).

Definition suspense_aging_bucket_to_proto (b : SuspenseAgingBucket)
    : Result E ProtoSuspenseAgingBucket :=
  amount ← decimal_to_money (sab_total_amount b) "USD";
  mret (mkProtoSuspenseAgingBucket (sab_category b) (sab_days_range_start b) (sab_days_range_end b)
    (sab_count b) amount).

Definition suspense_activity_entry_to_proto (e : SuspenseActivityEntry)
    : ProtoSuspenseActivityEntry :=
  mkProtoSuspenseActivityEntry (sae_activity_id e) (sae_suspense_id e) (sae_activity_type e)
    (sae_from_status e) (sae_to_status e) (sae_performed_by e) (sae_notes e)
    (Some (chrono_to_prost (sae_created_at e))).

Definition coa_entry_to_proto (e : COAEntry) : ProtoCOAEntry :=
  mkProtoCOAEntry (coa_coa_code e) (uuid_to_string (coa_tenant_id e)) (coa_account_name e)
    (coa_account_category e) (coa_parent_code e) (coa_level e) (coa_is_leaf e)
    (coa_normal_balance e) (coa_is_active e) None.

Definition period_end_balance_to_proto (b : PeriodEndBalance) : Result E ProtoPeriodEndBalance :=
  opening ← decimal_to_money (peb_opening_balance b) (peb_currency b);
  closing ← decimal_to_money (peb_closing_balance b) (peb_currency b);
  debits ← decimal_to_money (peb_total_debits b) (peb_currency b);
  credits ← decimal_to_money (peb_total_credits b) (peb_currency b);
  mret (mkProtoPeriodEndBalance (peb_balance_id b) (uuid_to_string (peb_account_id b))
    (uuid_to_string (peb_tenant_id b)) (peb_fiscal_period_id b) opening closing debits credits
    (peb_currency b) (peb_is_adjusted b) (Some (chrono_to_prost (peb_created_at b))) None).

End conversions.
