(* ===== verification/LedgerGrpc.v ===== *)
(** * Ledger query service: gRPC methods

    [ledger-query-service/src/ports/grpc.rs]: the 29 data methods of the six
    services, over the handler's read model.  Each method converts the request
    (a malformed one is refused with a status), calls the handler, and answers
    with the converted result or with a message that carries the error block:
    an error of the read model is never a status.  ([LedgerSpec] collects the
    methods in one type of requests, so that its theorems speak of every method
    at once.) *)

From Stdlib Require Import ZArith Lia.
From stdpp Require Import base list strings numbers.
From S2P Require Import Prelude RustStr External Reference Grpc Ledger LedgerStore LedgerProto.

Local Open Scope string_scope.

(** [SystemTime::now()] *)
Class WallClock (W : Type) := {
  wall_now : W -> DateTime * W;
}.

Section methods.
Context `{DecimalOps} `{!DecimalRounding} `{F64Ops} `{UuidOps} `{TimeOps}.
Context {W : Type} `{!ReadModelPort W} `{!WallClock W}.

Definition system_now : M W Status DateTime := fun w =>
  let '(now, w') := wall_now w in (Ok now, w').

(** The [match] on the handler's result in every method. *)
Definition answer {A B} (trace_id : string) (call : M W LedgerQueryError A)
    (convert : A -> M W Status B) (failed : option ProtoError -> B) : M W Status B :=
  r ← attempt call;
  match r with
  | Ok a => convert a
  | Err e => mret (failed (snd (map_error e trace_id)))
  | Panic => lift Panic
  end.

(** ** LedgerQueryService *)

Definition get_account_balance_rpc (trace_id account_id tenant_id : string)
    (as_of : option Timestamp) : M W Status ProtoAccountBalance :=
  account ← lift (parse_uuid account_id);
  tenant ← lift (parse_uuid tenant_id);
  let as_of := prost_to_chrono as_of in
  answer trace_id (get_account_balance account tenant as_of)
    (fun balance => lift (account_balance_to_proto balance))
    (mkProtoAccountBalance account_id tenant_id 0 None None None "" None 0).

Definition get_account_statement_rpc (trace_id account_id tenant_id : string)
    (from_date to_date : option Timestamp) (pagination : option ProtoPagination)
    : M W Status GetAccountStatementResponse :=
  account ← lift (parse_uuid account_id);
  tenant ← lift (parse_uuid tenant_id);
  from ← lift (required_date from_date "from_date is required");
  to ← lift (required_date to_date "to_date is required");
  let page := map_proto_pagination pagination in
  answer trace_id (get_account_statement account tenant from to page)
    (fun '(transactions, meta, opening, closing, credits, debits, fees) => lift (
      txns ← collect (map map_domain_transaction transactions);
      opening ← decimal_to_money opening "USD";
      closing ← decimal_to_money closing "USD";
      credits ← decimal_to_money credits "USD";
      debits ← decimal_to_money debits "USD";
      fees ← decimal_to_money fees "USD";
      mret (mkGetAccountStatementResponse account_id txns (Some (map_domain_pagination meta))
        opening closing credits debits fees (pgm_total_count meta) None)))
    (mkGetAccountStatementResponse account_id [] None None None None None None 0).

(** The message of a transaction of which only the identifier is known. *)
Definition transaction_failed (transaction_id : string) (error : option ProtoError)
    : ProtoTransaction :=
  mkProtoTransaction transaction_id "" "" "" 0 None None "" "" None None "" "" [] 0 "" "" "" "" ""
    error.

Definition get_transaction_by_id_rpc (trace_id transaction_id tenant_id : string)
    : M W Status ProtoTransaction :=
  transaction ← lift (parse_uuid transaction_id);
  tenant ← lift (parse_uuid tenant_id);
  answer trace_id (get_transaction_by_id transaction tenant)
    (fun txn => lift (map_domain_transaction txn))
    (transaction_failed transaction_id).

(** The answer of the three listings of transactions. *)
Definition transactions_answer (trace_id : string) (call : M W LedgerQueryError TransactionPage)
    : M W Status ListTransactionsResponse :=
  answer trace_id call
    (fun '(transactions, meta, total_count, credits, debits, fees) => lift (
      txns ← collect (map map_domain_transaction transactions);
      credits ← decimal_to_money credits "USD";
      debits ← decimal_to_money debits "USD";
      fees ← decimal_to_money fees "USD";
      mret (mkListTransactionsResponse txns (Some (map_domain_pagination meta)) total_count
        credits debits fees None)))
    (mkListTransactionsResponse [] None 0 None None None).

Definition list_transactions_rpc (trace_id tenant_id : string) (account_ids : list string)
    (types : list Z) (from_date to_date : option Timestamp) (pagination : option ProtoPagination)
    : M W Status ListTransactionsResponse :=
  tenant ← lift (parse_uuid tenant_id);
  account_ids ← lift (collect (map parse_uuid account_ids));
  let types := filter_map map_proto_transaction_type types in
  from ← lift (required_date from_date "from_date is required");
  to ← lift (required_date to_date "to_date is required");
  let page := map_proto_pagination pagination in
  transactions_answer trace_id (list_transactions tenant account_ids types from to page).

Definition search_transactions_rpc (trace_id tenant_id query : string)
    (filters : option (list (string * ProstValue))) (pagination : option ProtoPagination)
    : M W Status ListTransactionsResponse :=
  tenant ← lift (parse_uuid tenant_id);
  let filters := prost_struct_to_json_value <$> filters in
  let page := map_proto_pagination pagination in
  transactions_answer trace_id (search_transactions tenant query filters page).

Definition get_account_summary_rpc (trace_id tenant_id : string) (as_of : option Timestamp)
    : M W Status ProtoAccountSummary :=
  tenant ← lift (parse_uuid tenant_id);
  let as_of := prost_to_chrono as_of in
  answer trace_id (get_account_summary tenant as_of)
    (fun summary => lift (account_summary_to_proto summary))
    (mkProtoAccountSummary tenant_id 0 [] None None None).

Definition rebuild_account_view_rpc (trace_id account_id tenant_id : string) (dry_run : bool)
    : M W Status RebuildAccountViewResponse :=
  account ← lift (parse_uuid account_id);
  tenant ← lift (parse_uuid tenant_id);
  answer trace_id (rebuild_account_view account tenant dry_run)
    (fun '(success, events_replayed, reconciled_balance) =>
      now ← system_now;
      balance ← lift (decimal_to_money reconciled_balance "USD");
      mret (mkRebuildAccountViewResponse account_id success events_replayed
        (Some (chrono_to_prost now)) balance None))
    (mkRebuildAccountViewResponse account_id false 0 None None).

Definition get_movement_legs_rpc (trace_id transaction_id tenant_id : string)
    : M W Status GetMovementLegsResponse :=
  transaction ← lift (parse_uuid transaction_id);
  tenant ← lift (parse_uuid tenant_id);
  answer trace_id (get_movement_legs transaction tenant)
    (fun legs => lift (
      legs ← collect (map movement_leg_to_proto legs);
      mret (mkGetMovementLegsResponse transaction_id legs None)))
    (mkGetMovementLegsResponse transaction_id []).

Definition verify_double_entry_rpc (trace_id transaction_id tenant_id : string)
    : M W Status VerifyDoubleEntryResponse :=
  transaction ← lift (parse_uuid transaction_id);
  tenant ← lift (parse_uuid tenant_id);
  answer trace_id (verify_double_entry transaction tenant)
    (fun '(is_balanced, total_debits, total_credits, difference) => lift (
      debits ← decimal_to_money total_debits "USD";
      credits ← decimal_to_money total_credits "USD";
      difference ← decimal_to_money difference "USD";
      mret (mkVerifyDoubleEntryResponse transaction_id is_balanced debits credits difference None)))
    (mkVerifyDoubleEntryResponse transaction_id false None None None).

(** [health], the same in the six services *)
Definition ledger_health : M W Status HealthResponse :=
  now ← system_now;
  mret (serving [] now).

(** ** VirtualAccountService *)

Definition get_virtual_account_rpc (trace_id virtual_account_id tenant_id : string)
    : M W Status ProtoVirtualAccount :=
  account ← lift (parse_uuid virtual_account_id);
  tenant ← lift (parse_uuid tenant_id);
  answer trace_id (get_virtual_account account tenant)
    (fun va => lift (virtual_account_to_proto va))
    (mkProtoVirtualAccount virtual_account_id "" "" "" 0 0 None None None "" None None f64_zero false
      None None None).

Definition list_virtual_accounts_rpc (trace_id tenant_id parent_account_id : string)
    (types statuses : list Z) (pagination : option ProtoPagination)
    : M W Status ListVirtualAccountsResponse :=
  tenant ← lift (parse_uuid tenant_id);
  parent ← lift (optional_uuid parent_account_id);
  let types := filter_map map_proto_virtual_account_type types in
  let statuses := filter_map map_proto_virtual_account_status statuses in
  let page := map_proto_pagination pagination in
  answer trace_id (list_virtual_accounts tenant parent types statuses page)
    (fun '(accounts, meta) => lift (
      vas ← collect (map virtual_account_to_proto accounts);
      mret (mkListVirtualAccountsResponse vas (Some (map_domain_pagination meta)) None)))
    (mkListVirtualAccountsResponse [] None).

Definition get_virtual_account_summary_rpc (trace_id parent_account_id tenant_id : string)
    : M W Status GetVirtualAccountSummaryResponse :=
  parent ← lift (parse_uuid parent_account_id);
  tenant ← lift (parse_uuid tenant_id);
  answer trace_id (get_virtual_account_summary parent tenant)
    (fun summaries => lift (
      items ← collect (map virtual_account_currency_summary_to_proto summaries);
      mret (mkGetVirtualAccountSummaryResponse parent_account_id items None)))
    (mkGetVirtualAccountSummaryResponse parent_account_id []).

Definition get_virtual_account_transactions_rpc (trace_id virtual_account_id tenant_id : string)
    (from_date to_date : option Timestamp) (pagination : option ProtoPagination)
    : M W Status ListTransactionsResponse :=
  account ← lift (parse_uuid virtual_account_id);
  tenant ← lift (parse_uuid tenant_id);
  from ← lift (required_date from_date "from_date is required");
  to ← lift (required_date to_date "to_date is required");
  let page := map_proto_pagination pagination in
  transactions_answer trace_id (get_virtual_account_transactions account tenant from to page).

(** ** LiquidityPositionService *)

Definition get_liquidity_position_rpc (trace_id position_id tenant_id : string)
    : M W Status ProtoLiquidityPosition :=
  position ← lift (parse_uuid position_id);
  tenant ← lift (parse_uuid tenant_id);
  answer trace_id (get_liquidity_position position tenant)
    (fun pos => lift (liquidity_position_to_proto pos))
    (mkProtoLiquidityPosition position_id "" "" "" 0 None "" 0 "" "" None None None None false "").

Definition list_liquidity_positions_rpc (trace_id tenant_id account_id : string)
    (types statuses : list Z) (pagination : option ProtoPagination)
    : M W Status ListLiquidityPositionsResponse :=
  tenant ← lift (parse_uuid tenant_id);
  account ← lift (optional_uuid account_id);
  let types := filter_map map_proto_liquidity_position_type types in
  let statuses := filter_map map_proto_liquidity_position_status statuses in
  let page := map_proto_pagination pagination in
  answer trace_id (list_liquidity_positions tenant account types statuses page)
    (fun '(positions, meta) => lift (
      pps ← collect (map liquidity_position_to_proto positions);
      mret (mkListLiquidityPositionsResponse pps (Some (map_domain_pagination meta)) None)))
    (mkListLiquidityPositionsResponse [] None).

Definition get_liquidity_summary_rpc (trace_id account_id tenant_id : string)
    : M W Status GetLiquiditySummaryResponse :=
  account ← lift (parse_uuid account_id);
  tenant ← lift (parse_uuid tenant_id);
  answer trace_id (get_liquidity_summary account tenant)
    (fun items => lift (
      items ← collect (map liquidity_summary_item_to_proto items);
      mret (mkGetLiquiditySummaryResponse account_id items None)))
    (mkGetLiquiditySummaryResponse account_id []).

Definition get_expiring_positions_rpc (trace_id tenant_id : string) (lookahead_minutes : Z)
    : M W Status GetExpiringPositionsResponse :=
  tenant ← lift (parse_uuid tenant_id);
  answer trace_id (get_expiring_positions tenant lookahead_minutes)
    (fun positions => lift (
      positions ← collect (map expiring_position_to_proto positions);
      mret (mkGetExpiringPositionsResponse positions None)))
    (mkGetExpiringPositionsResponse []).

(** ** SettlementService *)

Definition get_settlement_instruction_rpc (trace_id settlement_id tenant_id : string)
    : M W Status ProtoSettlementInstruction :=
  settlement ← lift (parse_uuid settlement_id);
  tenant ← lift (parse_uuid tenant_id);
  answer trace_id (get_settlement_instruction settlement tenant)
    (fun si => lift (settlement_instruction_to_proto si))
    (mkProtoSettlementInstruction settlement_id "" "" "" "" 0 "" None "" 0 None None None None "" "" 0
      None None None "" "" 0).

Definition list_settlement_instructions_rpc (trace_id tenant_id : string) (settlement_type : Z)
    (statuses : list Z) (from_date to_date : option Timestamp) (pagination : option ProtoPagination)
    : M W Status ListSettlementInstructionsResponse :=
  tenant ← lift (parse_uuid tenant_id);
  let settlement_type :=
    if (settlement_type =? 0)%Z then None else map_proto_settlement_type settlement_type in
  let statuses := filter_map map_proto_settlement_status statuses in
  from ← lift (required_date from_date "from_date is required");
  to ← lift (required_date to_date "to_date is required");
  let page := map_proto_pagination pagination in
  answer trace_id (list_settlement_instructions tenant settlement_type statuses from to page)
    (fun '(settlements, meta) => lift (
      items ← collect (map settlement_instruction_to_proto settlements);
      mret (mkListSettlementInstructionsResponse items (Some (map_domain_pagination meta)) None)))
    (mkListSettlementInstructionsResponse [] None).

Definition get_pending_settlements_rpc (trace_id tenant_id : string)
    : M W Status GetPendingSettlementsResponse :=
  tenant ← lift (parse_uuid tenant_id);
  answer trace_id (get_pending_settlements tenant)
    (fun settlements => lift (
      items ← collect (map settlement_instruction_to_proto settlements);
      mret (mkGetPendingSettlementsResponse items None)))
    (mkGetPendingSettlementsResponse []).

Definition get_settlement_summary_rpc (trace_id tenant_id : string)
    (start_date end_date : option Timestamp) : M W Status GetSettlementSummaryResponse :=
  tenant ← lift (parse_uuid tenant_id);
  start ← lift (required_date start_date "start_date is required");
  until ← lift (required_date end_date "end_date is required");
  answer trace_id (get_settlement_summary tenant start until)
    (fun items => lift (
      items ← collect (map settlement_summary_item_to_proto items);
      mret (mkGetSettlementSummaryResponse items None)))
    (mkGetSettlementSummaryResponse []).

(** ** SuspenseService *)

Definition get_suspense_item_rpc (trace_id suspense_id tenant_id : string)
    : M W Status ProtoSuspenseItem :=
  suspense ← lift (parse_uuid suspense_id);
  tenant ← lift (parse_uuid tenant_id);
  answer trace_id (get_suspense_item suspense tenant)
    (fun item => lift (suspense_item_to_proto item))
    (mkProtoSuspenseItem suspense_id "" "" None "" 0 "" 0 "" 0 0 0 None "" None).

Definition list_suspense_items_rpc (trace_id tenant_id : string) (statuses categories : list Z)
    (priority : string) (pagination : option ProtoPagination)
    : M W Status ListSuspenseItemsResponse :=
  tenant ← lift (parse_uuid tenant_id);
  let statuses := filter_map map_proto_suspense_status statuses in
  let categories := filter_map map_proto_suspense_category categories in
  let page := map_proto_pagination pagination in
  answer trace_id (list_suspense_items tenant statuses categories (non_empty priority) page)
    (fun '(items, meta) => lift (
      its ← collect (map suspense_item_to_proto items);
      mret (mkListSuspenseItemsResponse its (Some (map_domain_pagination meta)) None)))
    (mkListSuspenseItemsResponse [] None).

Definition get_suspense_aging_report_rpc (trace_id tenant_id : string)
    : M W Status GetSuspenseAgingReportResponse :=
  tenant ← lift (parse_uuid tenant_id);
  answer trace_id (get_suspense_aging_report tenant)
    (fun buckets => lift (
      buckets ← collect (map suspense_aging_bucket_to_proto buckets);
      mret (mkGetSuspenseAgingReportResponse buckets None)))
    (mkGetSuspenseAgingReportResponse []).

Definition get_suspense_activity_log_rpc (trace_id suspense_id tenant_id : string)
    (pagination : option ProtoPagination) : M W Status GetSuspenseActivityLogResponse :=
  suspense ← lift (parse_uuid suspense_id);
  tenant ← lift (parse_uuid tenant_id);
  let page := map_proto_pagination pagination in
  answer trace_id (get_suspense_activity_log suspense tenant page)
    (fun '(entries, meta) =>
      mret (mkGetSuspenseActivityLogResponse (map suspense_activity_entry_to_proto entries)
        (Some (map_domain_pagination meta)) None))
    (mkGetSuspenseActivityLogResponse [] None).

(** ** ChartOfAccountsService *)

Definition get_coa_entry_rpc (trace_id coa_code tenant_id : string) : M W Status ProtoCOAEntry :=
  tenant ← lift (parse_uuid tenant_id);
  answer trace_id (get_coa_entry coa_code tenant)
    (fun entry => mret (coa_entry_to_proto entry))
    (mkProtoCOAEntry coa_code "" "" "" "" 0 false "" false).

Definition list_coa_entries_rpc (trace_id tenant_id parent_code account_category : string)
    (pagination : option ProtoPagination) : M W Status ListCOAEntriesResponse :=
  tenant ← lift (parse_uuid tenant_id);
  let page := map_proto_pagination pagination in
  answer trace_id
    (list_coa_entries tenant (non_empty parent_code) (non_empty account_category) page)
    (fun '(entries, meta) =>
      mret (mkListCOAEntriesResponse (map coa_entry_to_proto entries)
        (Some (map_domain_pagination meta)) None))
    (mkListCOAEntriesResponse [] None).

Definition get_period_end_balance_rpc (trace_id account_id tenant_id fiscal_period_id : string)
    : M W Status ProtoPeriodEndBalance :=
  account ← lift (parse_uuid account_id);
  tenant ← lift (parse_uuid tenant_id);
  answer trace_id (get_period_end_balance account tenant fiscal_period_id)
    (fun bal => lift (period_end_balance_to_proto bal))
    (mkProtoPeriodEndBalance "" account_id tenant_id fiscal_period_id None None None None "" false
      None).

Definition list_period_end_balances_rpc (trace_id tenant_id fiscal_period_id : string)
    (pagination : option ProtoPagination) : M W Status ListPeriodEndBalancesResponse :=
  tenant ← lift (parse_uuid tenant_id);
  let page := map_proto_pagination pagination in
  answer trace_id (list_period_end_balances tenant fiscal_period_id page)
    (fun '(balances, meta) => lift (
      bs ← collect (map period_end_balance_to_proto balances);
      mret (mkListPeriodEndBalancesResponse bs (Some (map_domain_pagination meta)) None)))
    (mkListPeriodEndBalancesResponse [] None).

End methods.
