(* ===== verification/LedgerSpec.v ===== *)
(** * Ledger query service: what its methods promise

    The methods of [LedgerGrpc] as one function of the request, the conditions
    under which a request is malformed, and the theorems about the service: for
    an arbitrary read model, and composed with the PostgreSQL one. *)

From Stdlib Require Import ZArith Lia.
From stdpp Require Import base list strings numbers.
From S2P Require Import Prelude RustStr External Reference Grpc Ledger LedgerStore LedgerProto LedgerGrpc.

Local Open Scope string_scope.

(** ** Requests and answers *)

Section service.
Context `{DecimalOps} `{!DecimalRounding} `{F64Ops} `{UuidOps} `{TimeOps}.

Inductive LedgerRequest : Type :=
  | GetAccountBalance (account_id : string) (tenant_id : string) (as_of : option Timestamp)
  | GetAccountStatement (account_id : string) (tenant_id : string) (from_date : option Timestamp)
      (to_date : option Timestamp) (pagination : option ProtoPagination)
  | GetTransactionById (transaction_id : string) (tenant_id : string)
  | ListTransactions (tenant_id : string) (account_ids : list string) (types : list Z)
      (from_date : option Timestamp) (to_date : option Timestamp)
      (pagination : option ProtoPagination)
  | SearchTransactions (tenant_id : string) (query : string)
      (filters : option (list (string * ProstValue))) (pagination : option ProtoPagination)
  | GetAccountSummary (tenant_id : string) (as_of : option Timestamp)
  | RebuildAccountView (account_id : string) (tenant_id : string) (dry_run : bool)
  | GetMovementLegs (transaction_id : string) (tenant_id : string)
  | VerifyDoubleEntry (transaction_id : string) (tenant_id : string)
  | GetVirtualAccount (virtual_account_id : string) (tenant_id : string)
  | ListVirtualAccounts (tenant_id : string) (parent_account_id : string) (types : list Z)
      (statuses : list Z) (pagination : option ProtoPagination)
  | GetVirtualAccountSummary (parent_account_id : string) (tenant_id : string)
  | GetVirtualAccountTransactions (virtual_account_id : string) (tenant_id : string)
      (from_date : option Timestamp) (to_date : option Timestamp)
      (pagination : option ProtoPagination)
  | GetLiquidityPosition (position_id : string) (tenant_id : string)
  | ListLiquidityPositions (tenant_id : string) (account_id : string) (types : list Z)
      (statuses : list Z) (pagination : option ProtoPagination)
  | GetLiquiditySummary (account_id : string) (tenant_id : string)
  | GetExpiringPositions (tenant_id : string) (lookahead_minutes : Z)
  | GetSettlementInstruction (settlement_id : string) (tenant_id : string)
  | ListSettlementInstructions (tenant_id : string) (settlement_type : Z) (statuses : list Z)
      (from_date : option Timestamp) (to_date : option Timestamp)
      (pagination : option ProtoPagination)
  | GetPendingSettlements (tenant_id : string)
  | GetSettlementSummary (tenant_id : string) (start_date : option Timestamp)
      (end_date : option Timestamp)
  | GetSuspenseItem (suspense_id : string) (tenant_id : string)
  | ListSuspenseItems (tenant_id : string) (statuses : list Z) (categories : list Z)
      (priority : string) (pagination : option ProtoPagination)
  | GetSuspenseAgingReport (tenant_id : string)
  | GetSuspenseActivityLog (suspense_id : string) (tenant_id : string)
      (pagination : option ProtoPagination)
  | GetCoaEntry (coa_code : string) (tenant_id : string)
  | ListCoaEntries (tenant_id : string) (parent_code : string) (account_category : string)
      (pagination : option ProtoPagination)
  | GetPeriodEndBalance (account_id : string) (tenant_id : string) (fiscal_period_id : string)
  | ListPeriodEndBalances (tenant_id : string) (fiscal_period_id : string)
      (pagination : option ProtoPagination).

Inductive LedgerResponse : Type :=
  | RAccountBalance (m : ProtoAccountBalance)
  | RGetAccountStatement (m : GetAccountStatementResponse)
  | RTransaction (m : ProtoTransaction)
  | RListTransactions (m : ListTransactionsResponse)
  | RAccountSummary (m : ProtoAccountSummary)
  | RRebuildAccountView (m : RebuildAccountViewResponse)
  | RGetMovementLegs (m : GetMovementLegsResponse)
  | RVerifyDoubleEntry (m : VerifyDoubleEntryResponse)
  | RVirtualAccount (m : ProtoVirtualAccount)
  | RListVirtualAccounts (m : ListVirtualAccountsResponse)
  | RGetVirtualAccountSummary (m : GetVirtualAccountSummaryResponse)
  | RLiquidityPosition (m : ProtoLiquidityPosition)
  | RListLiquidityPositions (m : ListLiquidityPositionsResponse)
  | RGetLiquiditySummary (m : GetLiquiditySummaryResponse)
  | RGetExpiringPositions (m : GetExpiringPositionsResponse)
  | RSettlementInstruction (m : ProtoSettlementInstruction)
  | RListSettlementInstructions (m : ListSettlementInstructionsResponse)
  | RGetPendingSettlements (m : GetPendingSettlementsResponse)
  | RGetSettlementSummary (m : GetSettlementSummaryResponse)
  | RSuspenseItem (m : ProtoSuspenseItem)
  | RListSuspenseItems (m : ListSuspenseItemsResponse)
  | RGetSuspenseAgingReport (m : GetSuspenseAgingReportResponse)
  | RGetSuspenseActivityLog (m : GetSuspenseActivityLogResponse)
  | RCOAEntry (m : ProtoCOAEntry)
  | RListCOAEntries (m : ListCOAEntriesResponse)
  | RPeriodEndBalance (m : ProtoPeriodEndBalance)
  | RListPeriodEndBalances (m : ListPeriodEndBalancesResponse).

(** The error block of an answer. *)
Definition response_error (r : LedgerResponse) : option ProtoError :=
  match r with
  | RAccountBalance m => pab_error m
  | RGetAccountStatement m => gas_error m
  | RTransaction m => ptx_error m
  | RListTransactions m => ltr_error m
  | RAccountSummary m => pasu_error m
  | RRebuildAccountView m => rav_error m
  | RGetMovementLegs m => gml_error m
  | RVerifyDoubleEntry m => vde_error m
  | RVirtualAccount m => pva_error m
  | RListVirtualAccounts m => lva_error m
  | RGetVirtualAccountSummary m => gvs_error m
  | RLiquidityPosition m => plp_error m
  | RListLiquidityPositions m => llp_error m
  | RGetLiquiditySummary m => gls_error m
  | RGetExpiringPositions m => gep_error m
  | RSettlementInstruction m => psi_error m
  | RListSettlementInstructions m => lsr_error m
  | RGetPendingSettlements m => gps_error m
  | RGetSettlementSummary m => gss_error m
  | RSuspenseItem m => psu_error m
  | RListSuspenseItems m => lsu_error m
  | RGetSuspenseAgingReport m => gsa_error m
  | RGetSuspenseActivityLog m => gsl_error m
  | RCOAEntry m => pcoa_error m
  | RListCOAEntries m => lce_error m
  | RPeriodEndBalance m => ppeb_error m
  | RListPeriodEndBalances m => lpb_error m
  end.

(** The number of entries of an answer that lists some. *)
Definition response_entries (r : LedgerResponse) : nat :=
  match r with
  | RGetAccountStatement m => length (gas_transactions m)
  | RListTransactions m => length (ltr_transactions m)
  | RAccountSummary m => length (pasu_balances m)
  | RGetMovementLegs m => length (gml_legs m)
  | RListVirtualAccounts m => length (lva_virtual_accounts m)
  | RGetVirtualAccountSummary m => length (gvs_summaries m)
  | RListLiquidityPositions m => length (llp_positions m)
  | RGetLiquiditySummary m => length (gls_items m)
  | RGetExpiringPositions m => length (gep_positions m)
  | RListSettlementInstructions m => length (lsr_settlements m)
  | RGetPendingSettlements m => length (gps_settlements m)
  | RGetSettlementSummary m => length (gss_items m)
  | RListSuspenseItems m => length (lsu_items m)
  | RGetSuspenseAgingReport m => length (gsa_buckets m)
  | RGetSuspenseActivityLog m => length (gsl_entries m)
  | RListCOAEntries m => length (lce_entries m)
  | RListPeriodEndBalances m => length (lpb_balances m)
  | _ => 0
  end.

(** ** Malformed requests *)

Definition bad_uuid (s : string) : option Status :=
  match uuid_parse s with
  | Some _ => None
  | None => Some (mkStatus CodeInvalidArgument ("Invalid UUID: " +:+ s))
  end.

Definition bad_optional_uuid (s : string) : option Status :=
  if is_empty s then None else bad_uuid s.

Definition bad_date (ts : option Timestamp) (what : string) : option Status :=
  match ts ≫= (fun t => from_timestamp (seconds t) (as_u32 (nanos t))) with
  | Some _ => None
  | None => Some (mkStatus CodeInvalidArgument what)
  end.

Fixpoint first_some {A} (l : list (option A)) : option A :=
  match l with
  | [] => None
  | Some a :: _ => Some a
  | None :: l' => first_some l'
  end.

(** What is checked of a request, in the order in which it is. *)
Definition checks (req : LedgerRequest) : list (option Status) :=
  match req with
  | GetAccountBalance account_id tenant_id _ =>
      [bad_uuid account_id; bad_uuid tenant_id]
  | GetAccountStatement account_id tenant_id from_date to_date _ =>
      [bad_uuid account_id; bad_uuid tenant_id; bad_date from_date "from_date is required";
       bad_date to_date "to_date is required"]
  | GetTransactionById transaction_id tenant_id =>
      [bad_uuid transaction_id; bad_uuid tenant_id]
  | ListTransactions tenant_id account_ids _ from_date to_date _ =>
      [bad_uuid tenant_id; first_some (map bad_uuid account_ids);
       bad_date from_date "from_date is required"; bad_date to_date "to_date is required"]
  | SearchTransactions tenant_id _ _ _ =>
      [bad_uuid tenant_id]
  | GetAccountSummary tenant_id _ =>
      [bad_uuid tenant_id]
  | RebuildAccountView account_id tenant_id _ =>
      [bad_uuid account_id; bad_uuid tenant_id]
  | GetMovementLegs transaction_id tenant_id =>
      [bad_uuid transaction_id; bad_uuid tenant_id]
  | VerifyDoubleEntry transaction_id tenant_id =>
      [bad_uuid transaction_id; bad_uuid tenant_id]
  | GetVirtualAccount virtual_account_id tenant_id =>
      [bad_uuid virtual_account_id; bad_uuid tenant_id]
  | ListVirtualAccounts tenant_id parent_account_id _ _ _ =>
      [bad_uuid tenant_id; bad_optional_uuid parent_account_id]
  | GetVirtualAccountSummary parent_account_id tenant_id =>
      [bad_uuid parent_account_id; bad_uuid tenant_id]
  | GetVirtualAccountTransactions virtual_account_id tenant_id from_date to_date _ =>
      [bad_uuid virtual_account_id; bad_uuid tenant_id; bad_date from_date "from_date is required";
       bad_date to_date "to_date is required"]
  | GetLiquidityPosition position_id tenant_id =>
      [bad_uuid position_id; bad_uuid tenant_id]
  | ListLiquidityPositions tenant_id account_id _ _ _ =>
      [bad_uuid tenant_id; bad_optional_uuid account_id]
  | GetLiquiditySummary account_id tenant_id =>
      [bad_uuid account_id; bad_uuid tenant_id]
  | GetExpiringPositions tenant_id _ =>
      [bad_uuid tenant_id]
  | GetSettlementInstruction settlement_id tenant_id =>
      [bad_uuid settlement_id; bad_uuid tenant_id]
  | ListSettlementInstructions tenant_id _ _ from_date to_date _ =>
      [bad_uuid tenant_id; bad_date from_date "from_date is required";
       bad_date to_date "to_date is required"]
  | GetPendingSettlements tenant_id =>
      [bad_uuid tenant_id]
  | GetSettlementSummary tenant_id start_date end_date =>
      [bad_uuid tenant_id; bad_date start_date "start_date is required";
       bad_date end_date "end_date is required"]
  | GetSuspenseItem suspense_id tenant_id =>
      [bad_uuid suspense_id; bad_uuid tenant_id]
  | ListSuspenseItems tenant_id _ _ _ _ =>
      [bad_uuid tenant_id]
  | GetSuspenseAgingReport tenant_id =>
      [bad_uuid tenant_id]
  | GetSuspenseActivityLog suspense_id tenant_id _ =>
      [bad_uuid suspense_id; bad_uuid tenant_id]
  | GetCoaEntry _ tenant_id =>
      [bad_uuid tenant_id]
  | ListCoaEntries tenant_id _ _ _ =>
      [bad_uuid tenant_id]
  | GetPeriodEndBalance account_id tenant_id _ =>
      [bad_uuid account_id; bad_uuid tenant_id]
  | ListPeriodEndBalances tenant_id _ _ =>
      [bad_uuid tenant_id]
  end.

Definition malformed (req : LedgerRequest) : option Status := first_some (checks req).

Context {W : Type} `{!ReadModelPort W} `{!WallClock W}.

Definition serve (trace_id : string) (req : LedgerRequest) : M W Status LedgerResponse :=
  match req with
  | GetAccountBalance account_id tenant_id as_of =>
      m ← get_account_balance_rpc trace_id account_id tenant_id as_of; mret (RAccountBalance m)
  | GetAccountStatement account_id tenant_id from_date to_date pagination =>
      m ← get_account_statement_rpc trace_id account_id tenant_id from_date to_date pagination;
        mret (RGetAccountStatement m)
  | GetTransactionById transaction_id tenant_id =>
      m ← get_transaction_by_id_rpc trace_id transaction_id tenant_id; mret (RTransaction m)
  | ListTransactions tenant_id account_ids types from_date to_date pagination =>
      m ← list_transactions_rpc trace_id tenant_id account_ids types from_date to_date pagination;
        mret (RListTransactions m)
  | SearchTransactions tenant_id query filters pagination =>
      m ← search_transactions_rpc trace_id tenant_id query filters pagination;
        mret (RListTransactions m)
  | GetAccountSummary tenant_id as_of =>
      m ← get_account_summary_rpc trace_id tenant_id as_of; mret (RAccountSummary m)
  | RebuildAccountView account_id tenant_id dry_run =>
      m ← rebuild_account_view_rpc trace_id account_id tenant_id dry_run;
        mret (RRebuildAccountView m)
  | GetMovementLegs transaction_id tenant_id =>
      m ← get_movement_legs_rpc trace_id transaction_id tenant_id; mret (RGetMovementLegs m)
  | VerifyDoubleEntry transaction_id tenant_id =>
      m ← verify_double_entry_rpc trace_id transaction_id tenant_id; mret (RVerifyDoubleEntry m)
  | GetVirtualAccount virtual_account_id tenant_id =>
      m ← get_virtual_account_rpc trace_id virtual_account_id tenant_id; mret (RVirtualAccount m)
  | ListVirtualAccounts tenant_id parent_account_id types statuses pagination =>
      m ← list_virtual_accounts_rpc trace_id tenant_id parent_account_id types statuses pagination;
        mret (RListVirtualAccounts m)
  | GetVirtualAccountSummary parent_account_id tenant_id =>
      m ← get_virtual_account_summary_rpc trace_id parent_account_id tenant_id;
        mret (RGetVirtualAccountSummary m)
  | GetVirtualAccountTransactions virtual_account_id tenant_id from_date to_date pagination =>
      m ← get_virtual_account_transactions_rpc trace_id virtual_account_id tenant_id from_date
        to_date pagination; mret (RListTransactions m)
  | GetLiquidityPosition position_id tenant_id =>
      m ← get_liquidity_position_rpc trace_id position_id tenant_id; mret (RLiquidityPosition m)
  | ListLiquidityPositions tenant_id account_id types statuses pagination =>
      m ← list_liquidity_positions_rpc trace_id tenant_id account_id types statuses pagination;
        mret (RListLiquidityPositions m)
  | GetLiquiditySummary account_id tenant_id =>
      m ← get_liquidity_summary_rpc trace_id account_id tenant_id; mret (RGetLiquiditySummary m)
  | GetExpiringPositions tenant_id lookahead_minutes =>
      m ← get_expiring_positions_rpc trace_id tenant_id lookahead_minutes;
        mret (RGetExpiringPositions m)
  | GetSettlementInstruction settlement_id tenant_id =>
      m ← get_settlement_instruction_rpc trace_id settlement_id tenant_id;
        mret (RSettlementInstruction m)
  | ListSettlementInstructions tenant_id settlement_type statuses from_date to_date pagination =>
      m ← list_settlement_instructions_rpc trace_id tenant_id settlement_type statuses from_date
        to_date pagination; mret (RListSettlementInstructions m)
  | GetPendingSettlements tenant_id =>
      m ← get_pending_settlements_rpc trace_id tenant_id; mret (RGetPendingSettlements m)
  | GetSettlementSummary tenant_id start_date end_date =>
      m ← get_settlement_summary_rpc trace_id tenant_id start_date end_date;
        mret (RGetSettlementSummary m)
  | GetSuspenseItem suspense_id tenant_id =>
      m ← get_suspense_item_rpc trace_id suspense_id tenant_id; mret (RSuspenseItem m)
  | ListSuspenseItems tenant_id statuses categories priority pagination =>
      m ← list_suspense_items_rpc trace_id tenant_id statuses categories priority pagination;
        mret (RListSuspenseItems m)
  | GetSuspenseAgingReport tenant_id =>
      m ← get_suspense_aging_report_rpc trace_id tenant_id; mret (RGetSuspenseAgingReport m)
  | GetSuspenseActivityLog suspense_id tenant_id pagination =>
      m ← get_suspense_activity_log_rpc trace_id suspense_id tenant_id pagination;
        mret (RGetSuspenseActivityLog m)
  | GetCoaEntry coa_code tenant_id =>
      m ← get_coa_entry_rpc trace_id coa_code tenant_id; mret (RCOAEntry m)
  | ListCoaEntries tenant_id parent_code account_category pagination =>
      m ← list_coa_entries_rpc trace_id tenant_id parent_code account_category pagination;
        mret (RListCOAEntries m)
  | GetPeriodEndBalance account_id tenant_id fiscal_period_id =>
      m ← get_period_end_balance_rpc trace_id account_id tenant_id fiscal_period_id;
        mret (RPeriodEndBalance m)
  | ListPeriodEndBalances tenant_id fiscal_period_id pagination =>
      m ← list_period_end_balances_rpc trace_id tenant_id fiscal_period_id pagination;
        mret (RListPeriodEndBalances m)
  end.

(** A read model that panics when it is asked for a page of another size than
    1 to 1000. *)
Definition page_ok (p : Pagination) : bool :=
  ((1 <=? pgn_page_size p) && (pgn_page_size p <=? 1000))%Z.

Definition strict (rm : ReadModelPort W) : ReadModelPort W := {|
  rm_get_account_balance := rm_get_account_balance;
  rm_get_account_statement a b c d p := if page_ok p
    then rm_get_account_statement a b c d p else lift Panic;
  rm_get_transaction_by_id := rm_get_transaction_by_id;
  rm_list_transactions a b c d e p := if page_ok p
    then rm_list_transactions a b c d e p else lift Panic;
  rm_search_transactions a b c p := if page_ok p
    then rm_search_transactions a b c p else lift Panic;
  rm_get_account_summary := rm_get_account_summary;
  rm_get_movement_legs := rm_get_movement_legs;
  rm_verify_double_entry := rm_verify_double_entry;
  rm_get_virtual_account := rm_get_virtual_account;
  rm_list_virtual_accounts a b c d p := if page_ok p
    then rm_list_virtual_accounts a b c d p else lift Panic;
  rm_get_virtual_account_summary := rm_get_virtual_account_summary;
  rm_get_liquidity_position := rm_get_liquidity_position;
  rm_list_liquidity_positions a b c d p := if page_ok p
    then rm_list_liquidity_positions a b c d p else lift Panic;
  rm_get_liquidity_summary := rm_get_liquidity_summary;
  rm_get_expiring_positions := rm_get_expiring_positions;
  rm_get_settlement_instruction := rm_get_settlement_instruction;
  rm_list_settlement_instructions a b c d e p := if page_ok p
    then rm_list_settlement_instructions a b c d e p else lift Panic;
  rm_get_pending_settlements := rm_get_pending_settlements;
  rm_get_settlement_summary := rm_get_settlement_summary;
  rm_get_suspense_item := rm_get_suspense_item;
  rm_list_suspense_items a b c d p := if page_ok p
    then rm_list_suspense_items a b c d p else lift Panic;
  rm_get_suspense_aging_report := rm_get_suspense_aging_report;
  rm_get_suspense_activity_log a b p := if page_ok p
    then rm_get_suspense_activity_log a b p else lift Panic;
  rm_get_coa_entry := rm_get_coa_entry;
  rm_list_coa_entries a b c p := if page_ok p then rm_list_coa_entries a b c p else lift Panic;
  rm_get_period_end_balance := rm_get_period_end_balance;
  rm_list_period_end_balances a b p := if page_ok p
    then rm_list_period_end_balances a b p else lift Panic;
|}.

End service.

(** ** Calls that never end in a status *)

(** [silent r]: the result is a value or a panic. *)
Definition silent {E A} (r : Result E A) : Prop :=
  match r with Err _ => False | _ => True end.
Definition never_err {W E A} (m : M W E A) : Prop := forall w, silent (fst (m w)).

Create HintDb silent.

Section silent.
Context {W E : Type}.

Lemma silent_ret {A} (a : A) : silent (E := E) (mret a).
Proof. exact I. Qed.
Lemma silent_bind {A B} (r : Result E A) (f : A -> Result E B) :
  silent r -> (forall a, silent (f a)) -> silent (r ≫= f).
Proof. destruct r; simpl; auto. Qed.
Lemma silent_collect {A B} (f : A -> Result E B) l :
  (forall a, silent (f a)) -> silent (collect (map f l)).
Proof.
  intros Hf. induction l as [|a l IH]; simpl; [done|].
  apply silent_bind; [done | intros b]. by apply silent_bind.
Qed.
Lemma silent_money `{DecimalOps} `{!DecimalRounding} d c :
  silent (E := E) (decimal_to_money d c).
Proof. unfold decimal_to_money. by destruct (dec_mul _ _). Qed.

Lemma never_ret {A} (a : A) : never_err (mret a : M W E A).
Proof. intros w. exact I. Qed.
Lemma never_bind {A B} (m : M W E A) (f : A -> M W E B) :
  never_err m -> (forall a, never_err (f a)) -> never_err (m ≫= f).
Proof.
  intros Hm Hf w. unfold mbind, M_bind. specialize (Hm w).
  destruct (m w) as [[a|e|] w']; simpl in *; [apply Hf | done | done].
Qed.
Lemma never_lift {A} (r : Result E A) : silent r -> never_err (lift r : M W E A).
Proof. intros Hr w. exact Hr. Qed.
End silent.

(** [quiet]: discharge a [silent] or [never_err] goal by its structure. *)
Ltac quiet := repeat (intros; first
  [ apply silent_ret | apply silent_money | apply silent_collect | apply silent_bind
  | apply never_ret | apply never_lift | apply never_bind
  | match goal with
    | |- silent (let '(_, _) := ?x in _) => destruct x
    | |- never_err (let '(_, _) := ?x in _) => destruct x
    end ]).

Section conversions.
Context `{DecimalOps} `{!DecimalRounding} `{F64Ops} `{UuidOps} {E : Type}.

Lemma silent_conversions :
  (forall t, silent (E := E) (map_domain_transaction t))
  /\ (forall b, silent (E := E) (account_balance_to_proto b))
  /\ (forall s, silent (E := E) (account_summary_to_proto s))
  /\ (forall l, silent (E := E) (movement_leg_to_proto l))
  /\ (forall v, silent (E := E) (virtual_account_to_proto v))
  /\ (forall s, silent (E := E) (virtual_account_currency_summary_to_proto s))
  /\ (forall p, silent (E := E) (liquidity_position_to_proto p))
  /\ (forall i, silent (E := E) (liquidity_summary_item_to_proto i))
  /\ (forall p, silent (E := E) (expiring_position_to_proto p))
  /\ (forall s, silent (E := E) (settlement_instruction_to_proto s))
  /\ (forall i, silent (E := E) (settlement_summary_item_to_proto i))
  /\ (forall i, silent (E := E) (suspense_item_to_proto i))
  /\ (forall b, silent (E := E) (suspense_aging_bucket_to_proto b))
  /\ (forall b, silent (E := E) (period_end_balance_to_proto b)).
Proof.
  split_and!; intros x; unfold map_domain_transaction, account_balance_to_proto,
    account_summary_to_proto, movement_leg_to_proto, virtual_account_to_proto,
    virtual_account_currency_summary_to_proto, liquidity_position_to_proto,
    liquidity_summary_item_to_proto, expiring_position_to_proto, settlement_instruction_to_proto,
    settlement_summary_item_to_proto, suspense_item_to_proto, suspense_aging_bucket_to_proto,
    period_end_balance_to_proto, balance_by_type_to_proto; quiet.
Qed.
End conversions.

Section refusals.
Context `{DecimalOps} `{!DecimalRounding} `{F64Ops} `{UuidOps} `{TimeOps}.
Context {W : Type} `{!ReadModelPort W} `{!WallClock W}.

Lemma never_answer {A B} trace (call : M W LedgerQueryError A) (k : A -> M W Status B) failed :
  (forall a, never_err (k a)) -> never_err (answer trace call k failed).
Proof.
  intros Hk. apply never_bind.
  - intros w. unfold attempt. by destruct (call w) as [[]?].
  - intros [a|e|]; [apply Hk | apply never_ret | by apply never_lift].
Qed.

Lemma never_now : never_err (system_now (W := W)).
Proof. intros w. unfold system_now. by destruct (wall_now w). Qed.

(** [guarded m l]: [m] stops with the first refusal of [l], before any effect,
    and with no status when there is none. *)
Definition guarded {A} (m : M W Status A) (l : list (option Status)) : Prop :=
  match first_some l with
  | Some s => forall w, m w = (Err s, w)
  | None => never_err m
  end.

(** [refuses r bad]: the parser [r] fails exactly with the refusal [bad]. *)
Definition refuses {A} (r : Result Status A) (bad : option Status) : Prop :=
  match bad with
  | Some s => r = Err s
  | None => exists a, r = Ok a
  end.

Lemma guarded_bind {A B} (r : Result Status A) bad (k : A -> M W Status B) l :
  refuses r bad -> (forall a, guarded (k a) l) -> guarded (lift r ≫= k) (bad :: l).
Proof.
  unfold refuses, guarded. destruct bad as [s|]; simpl.
  - by intros ->.
  - intros [a ->] Hk. specialize (Hk a). by destruct (first_some l).
Qed.

Lemma guarded_nil {A} (m : M W Status A) : never_err m -> guarded m [].
Proof. done. Qed.

Lemma guarded_then {A B} (m : M W Status A) (f : A -> B) l :
  guarded m l -> guarded (a ← m; mret (f a)) l.
Proof.
  unfold guarded. destruct (first_some l) as [s|]; intros Hm.
  - intros w. unfold mbind, M_bind. by rewrite Hm.
  - apply never_bind; [done | intros; apply never_ret].
Qed.

Lemma refuses_uuid s : refuses (parse_uuid s) (bad_uuid s).
Proof. unfold parse_uuid, bad_uuid. destruct (uuid_parse s); simpl; eauto. Qed.

Lemma refuses_optional s : refuses (optional_uuid s) (bad_optional_uuid s).
Proof.
  unfold optional_uuid, bad_optional_uuid, parse_uuid, bad_uuid.
  destruct (is_empty s); [|destruct (uuid_parse s)]; simpl; eauto.
Qed.

Lemma refuses_date ts what : refuses (required_date ts what) (bad_date ts what).
Proof.
  unfold required_date, bad_date, prost_to_chrono. destruct (ts ≫= _); simpl; eauto.
Qed.

#[local] Hint Resolve refuses_uuid refuses_optional refuses_date : silent.

Lemma refuses_uuids l : refuses (collect (map parse_uuid l)) (first_some (map bad_uuid l)).
Proof.
  induction l as [|s l IH]; simpl; [eauto|].
  pose proof (refuses_uuid s) as Hs. destruct (bad_uuid s); simpl in *; [by rewrite Hs|].
  destruct Hs as [u ->]. simpl. destruct (first_some (map bad_uuid l)); simpl in *.
  - by rewrite IH.
  - destruct IH as [us ->]. simpl. eauto.
Qed.

#[local] Hint Resolve refuses_uuids : silent.

Lemma first_some_Some {A} (l : list (option A)) a : first_some l = Some a -> Some a ∈ l.
Proof.
  induction l as [|[b|] l IH]; simpl; intros E; simplify_eq; [by left | right; auto].
Qed.

(** Every refusal is an INVALID_ARGUMENT. *)
Lemma malformed_code req s : malformed req = Some s -> st_code s = CodeInvalidArgument.
Proof.
  assert (forall t s, bad_uuid t = Some s -> st_code s = CodeInvalidArgument) as Hu.
  { intros t s'. unfold bad_uuid. by destruct (uuid_parse t); intros; simplify_eq. }
  assert (forall t s, bad_optional_uuid t = Some s -> st_code s = CodeInvalidArgument) as Ho.
  { intros t s'. unfold bad_optional_uuid. destruct (is_empty t); [done | apply Hu]. }
  assert (forall t what s, bad_date t what = Some s -> st_code s = CodeInvalidArgument) as Hd.
  { intros t what s'. unfold bad_date. by destruct (t ≫= _); intros; simplify_eq. }
  assert (forall l s, first_some (map bad_uuid l) = Some s -> st_code s = CodeInvalidArgument) as Hl.
  { intros l s' E. apply first_some_Some, list_elem_of_fmap_1 in E as (t & E & _). eauto. }
  intros E. apply first_some_Some in E. destruct req; simpl in E;
    repeat (apply elem_of_cons in E as [E|E]; [symmetry in E; eauto|]); by apply not_elem_of_nil in E.
Qed.

Lemma ledger_guarded trace req : guarded (serve trace req) (checks req).
Proof.
  destruct req; cbn [serve checks]; apply guarded_then; unfold
    get_account_balance_rpc, get_account_statement_rpc, get_transaction_by_id_rpc,
    list_transactions_rpc, search_transactions_rpc, get_account_summary_rpc,
    rebuild_account_view_rpc, get_movement_legs_rpc, verify_double_entry_rpc,
    get_virtual_account_rpc, list_virtual_accounts_rpc, get_virtual_account_summary_rpc,
    get_virtual_account_transactions_rpc, get_liquidity_position_rpc,
    list_liquidity_positions_rpc, get_liquidity_summary_rpc, get_expiring_positions_rpc,
    get_settlement_instruction_rpc, list_settlement_instructions_rpc,
    get_pending_settlements_rpc, get_settlement_summary_rpc, get_suspense_item_rpc,
    list_suspense_items_rpc, get_suspense_aging_report_rpc, get_suspense_activity_log_rpc,
    get_coa_entry_rpc, list_coa_entries_rpc, get_period_end_balance_rpc,
    list_period_end_balances_rpc.
  all: repeat (apply guarded_bind; [auto with silent|intros ?]); apply guarded_nil;
    unfold transactions_answer; apply never_answer; intros; quiet; try apply never_now;
    apply silent_conversions.
Qed.
End refusals.

(** C33. Every method of the six services refuses exactly the malformed
    requests: the first check that fails decides the status, always
    INVALID_ARGUMENT, and nothing is read before; a well-formed request is never
    answered by a status, whatever the read model does. *)
Theorem ledger_refusals `{DecimalOps} `{!DecimalRounding} `{F64Ops} `{UuidOps} `{TimeOps}
    {W : Type} `{!ReadModelPort W} `{!WallClock W} (trace : string) (req : LedgerRequest) (w : W) :
  match malformed req with
  | Some s => serve trace req w = (Err s, w) /\ st_code s = CodeInvalidArgument
  | None => forall s w', serve trace req w <> (Err s, w')
  end.
Proof.
  pose proof (ledger_guarded trace req) as Hg. unfold guarded in Hg. fold (malformed req) in Hg.
  destruct (malformed req) as [s|] eqn:Hm.
  - split; [apply Hg | by eapply malformed_code].
  - intros s w' E. specialize (Hg w). by rewrite E in Hg.
Qed.

(** ** Page sizes *)

Section pages.
Context `{DecimalOps} `{!DecimalRounding} `{F64Ops} `{UuidOps} `{TimeOps}.
Context {W : Type} (rm : ReadModelPort W) `{!WallClock W}.

Lemma page_clamped p : page_ok (map_proto_pagination p) = true.
Proof.
  destruct p as [p|]; [|done]. unfold page_ok. simpl.
  apply andb_true_intro. split; apply Z.leb_le; lia.
Qed.

Lemma bind_ext {A B} (m : M W Status A) (f g : A -> M W Status B) w :
  (forall a w, f a w = g a w) -> (m ≫= f) w = (m ≫= g) w.
Proof. intros Hfg. unfold mbind, M_bind. destruct (m w) as [[a|e|] w']; auto. Qed.

Lemma bind_cong {A B} (m m' : M W Status A) (f : A -> M W Status B) w :
  m w = m' w -> (m ≫= f) w = (m' ≫= f) w.
Proof. intros E. unfold mbind, M_bind. by rewrite E. Qed.

(** A listing whose page is clamped does not meet the panic. *)
Lemma strict_page {A} p (m : M W LedgerQueryError A) :
  (if page_ok (map_proto_pagination p) then m else lift Panic) = m.
Proof. by rewrite page_clamped. Qed.
End pages.

(** C34. Whatever page size a client asks for (negative, zero, huge, or none),
    the read model is only ever asked for pages of 1 to 1000 entries: replacing
    it by one that panics on any other page size changes no answer of any
    method and no effect. *)
Theorem ledger_page_bounds `{DecimalOps} `{!DecimalRounding} `{F64Ops} `{UuidOps} `{TimeOps}
    {W : Type} (rm : ReadModelPort W) `{!WallClock W} (trace : string) (req : LedgerRequest) (w : W) :
  serve (ReadModelPort0 := strict rm) trace req w = serve (ReadModelPort0 := rm) trace req w.
Proof.
  destruct req; cbn [serve]; apply bind_cong; unfold
    get_account_balance_rpc, get_account_statement_rpc, get_transaction_by_id_rpc,
    list_transactions_rpc, search_transactions_rpc, get_account_summary_rpc,
    rebuild_account_view_rpc, get_movement_legs_rpc, verify_double_entry_rpc,
    get_virtual_account_rpc, list_virtual_accounts_rpc, get_virtual_account_summary_rpc,
    get_virtual_account_transactions_rpc, get_liquidity_position_rpc,
    list_liquidity_positions_rpc, get_liquidity_summary_rpc, get_expiring_positions_rpc,
    get_settlement_instruction_rpc, list_settlement_instructions_rpc,
    get_pending_settlements_rpc, get_settlement_summary_rpc, get_suspense_item_rpc,
    list_suspense_items_rpc, get_suspense_aging_report_rpc, get_suspense_activity_log_rpc,
    get_coa_entry_rpc, list_coa_entries_rpc, get_period_end_balance_rpc,
    list_period_end_balances_rpc;
    repeat (apply bind_ext; intros ? ?);
    unfold transactions_answer, answer; try (apply bind_cong; unfold attempt; f_equal);
    unfold
    get_account_balance, get_account_statement, get_transaction_by_id, list_transactions,
    search_transactions, get_account_summary, rebuild_account_view, get_movement_legs,
    verify_double_entry, get_virtual_account, list_virtual_accounts,
    get_virtual_account_summary, get_virtual_account_transactions, get_liquidity_position,
    list_liquidity_positions, get_liquidity_summary, get_expiring_positions,
    get_settlement_instruction, list_settlement_instructions, get_pending_settlements,
    get_settlement_summary, get_suspense_item, list_suspense_items, get_suspense_aging_report,
    get_suspense_activity_log, get_coa_entry, list_coa_entries, get_period_end_balance,
    list_period_end_balances; cbn [strict
    rm_get_account_statement rm_list_transactions rm_search_transactions rm_list_virtual_accounts
    rm_list_liquidity_positions rm_list_settlement_instructions rm_list_suspense_items
    rm_get_suspense_activity_log rm_list_coa_entries rm_list_period_end_balances];
    rewrite ?strict_page; done.
Qed.

(** ** The service on the PostgreSQL read model *)

(** A read model that answers one statement, and otherwise as [rm]. *)
Definition with_statement `{DecimalOps} `{F64Ops} {W} (st : Statement) (rm : ReadModelPort W)
    : ReadModelPort W :=
  match rm with
  | Build_ReadModelPort _ f1 _ f3 f4 f5 f6 f7 f8 f9 f10 f11 f12 f13 f14 f15 f16 f17 f18 f19
      f20 f21 f22 f23 f24 f25 f26 f27 =>
      Build_ReadModelPort _ f1 (fun _ _ _ _ _ => mret st) f3 f4 f5 f6 f7 f8 f9 f10 f11 f12
        f13 f14 f15 f16 f17 f18 f19 f20 f21 f22 f23 f24 f25 f26 f27
  end.

#[export] Instance ledger_clock `{LedgerEnv} : WallClock LedgerWorld := {|
  wall_now w := (l_clock (l_tick w), mkLedgerWorld (l_tenants w) (S (l_tick w)));
|}.

Section composed.
Context `{DecimalOps} `{!DecimalRounding} `{F64Ops} `{UuidOps} `{TimeOps} `{LedgerEnv}.

(** The tenant field of a request. *)
Definition request_tenant (req : LedgerRequest) : string :=
  match req with
  | GetAccountBalance _ tenant_id _
  | GetAccountStatement _ tenant_id _ _ _
  | GetTransactionById _ tenant_id
  | ListTransactions tenant_id _ _ _ _ _
  | SearchTransactions tenant_id _ _ _
  | GetAccountSummary tenant_id _
  | RebuildAccountView _ tenant_id _
  | GetMovementLegs _ tenant_id
  | VerifyDoubleEntry _ tenant_id
  | GetVirtualAccount _ tenant_id
  | ListVirtualAccounts tenant_id _ _ _ _
  | GetVirtualAccountSummary _ tenant_id
  | GetVirtualAccountTransactions _ tenant_id _ _ _
  | GetLiquidityPosition _ tenant_id
  | ListLiquidityPositions tenant_id _ _ _ _
  | GetLiquiditySummary _ tenant_id
  | GetExpiringPositions tenant_id _
  | GetSettlementInstruction _ tenant_id
  | ListSettlementInstructions tenant_id _ _ _ _ _
  | GetPendingSettlements tenant_id
  | GetSettlementSummary tenant_id _ _
  | GetSuspenseItem _ tenant_id
  | ListSuspenseItems tenant_id _ _ _ _
  | GetSuspenseAgingReport tenant_id
  | GetSuspenseActivityLog _ tenant_id _
  | GetCoaEntry _ tenant_id
  | ListCoaEntries tenant_id _ _ _
  | GetPeriodEndBalance _ tenant_id _
  | ListPeriodEndBalances tenant_id _ _ => tenant_id
  end.

(** An identifier as the service writes it back. *)
Definition canonical (s : string) : string := unwrap_or (uuid_to_string <$> uuid_parse s) s.

Definition reversed_range (from_date to_date : option Timestamp) : option LedgerQueryError :=
  match prost_to_chrono from_date, prost_to_chrono to_date with
  | Some from, Some to =>
      if (to <? from)%Z then Some (InvalidDateRange "from_date must be before to_date") else None
  | _, _ => None
  end.

(** The error of a well-formed request when the database works: everything that
    is looked up by its key is missing, and a reversed range of dates is
    reported by the listings of transactions. *)
Definition read_side_error (req : LedgerRequest) : option LedgerQueryError :=
  match req with
  | GetAccountBalance account_id _ _ => Some (AccountNotFound (canonical account_id))
  | GetAccountStatement _ _ from_date to_date _ => reversed_range from_date to_date
  | GetTransactionById transaction_id _ => Some (TransactionNotFound (canonical transaction_id))
  | ListTransactions _ _ _ from_date to_date _ => reversed_range from_date to_date
  | RebuildAccountView account_id _ _ => Some (AccountNotFound (canonical account_id))
  | GetVirtualAccount virtual_account_id _ =>
      Some (VirtualAccountNotFound (canonical virtual_account_id))
  | GetVirtualAccountTransactions _ _ from_date to_date _ => reversed_range from_date to_date
  | GetLiquidityPosition position_id _ => Some (LiquidityPositionNotFound (canonical position_id))
  | GetSettlementInstruction settlement_id _ => Some (SettlementNotFound (canonical settlement_id))
  | GetSuspenseItem suspense_id _ => Some (SuspenseItemNotFound (canonical suspense_id))
  | GetCoaEntry coa_code _ => Some (CoaEntryNotFound coa_code)
  | GetPeriodEndBalance account_id _ fiscal_period_id =>
      Some (PeriodEndBalanceNotFound
        ("account:" +:+ canonical account_id +:+ " period:" +:+ fiscal_period_id))
  | _ => None
  end.

(** The error of a well-formed request, given the failure of the statement that
    sets the tenant. *)
Definition expected_error (fault : option string) (req : LedgerRequest) : option LedgerQueryError :=
  match fault with
  | Some why => Some (DatabaseError why)
  | None => read_side_error req
  end.

Context `{!DecimalLaws} `{!RoundingLaws}.

Lemma money_exact {E} d c cur : money d c -> in_i64 c ->
  decimal_to_money (E := E) d cur = Ok (Some (mkProtoMoney cur c 0)).
Proof.
  intros Hm Hc. unfold decimal_to_money. destruct (money_cents d c Hm Hc) as (p & Hp & Hv).
  by rewrite Hp, (round_cents _ _ _ Hm Hc Hp), Hv.
Qed.

Lemma money_of_zero {E} cur :
  decimal_to_money (E := E) dec_zero cur = Ok (Some (mkProtoMoney cur 0 0)).
Proof. apply money_exact; [apply money_zero | unfold in_i64; lia]. Qed.

Lemma good_uuid s : bad_uuid s = None -> exists u, parse_uuid s = Ok u /\ canonical s = uuid_to_string u.
Proof. unfold bad_uuid, parse_uuid, canonical. destruct (uuid_parse s); [eauto | done]. Qed.

Lemma good_optional s : bad_optional_uuid s = None -> exists u, optional_uuid s = Ok u.
Proof. intros E. pose proof (refuses_optional s) as Hr. by rewrite E in Hr. Qed.

Lemma good_date ts what : bad_date ts what = None -> exists d, prost_to_chrono ts = Some d.
Proof. unfold bad_date, prost_to_chrono. destruct (ts ≫= _); eauto; done. Qed.

Lemma good_uuids l : first_some (map bad_uuid l) = None -> exists us, collect (map parse_uuid l) = Ok us.
Proof. intros E. pose proof (refuses_uuids l) as Hr. by rewrite E in Hr. Qed.

Lemma first_none {A} (x : option A) l : first_some (x :: l) = None -> x = None /\ first_some l = None.
Proof. by destruct x. Qed.

(** The equations of the read model's constant answers. *)
Lemma set_tenant_fault t why (w : LedgerWorld) : l_fault (l_tick w) = Some why ->
  set_tenant t w = (Err (DatabaseError why), mkLedgerWorld (l_tenants w) (S (l_tick w))).
Proof. intros E. unfold set_tenant. by rewrite E. Qed.

Lemma set_tenant_ok t (w : LedgerWorld) : l_fault (l_tick w) = None ->
  set_tenant t w = (Ok tt, mkLedgerWorld (uuid_to_string t :: l_tenants w) (S (l_tick w))).
Proof. intros E. unfold set_tenant. by rewrite E. Qed.

(** A transaction with exact amounts, in cents, and its message. *)
Definition exact_tx (t : Transaction) (ab : Z * Z) : Prop :=
  money (tx_amount t) (fst ab) /\ in_i64 (fst ab)
  /\ money (tx_balance_after t) (snd ab) /\ in_i64 (snd ab).

Definition tx_message (t : Transaction) (ab : Z * Z) : ProtoTransaction :=
  mkProtoTransaction (uuid_to_string (tx_transaction_id t)) (tx_transaction_uuid t)
    (uuid_to_string (tx_tenant_id t)) (uuid_to_string (tx_account_id t))
    (transaction_type_as_i32 (tx_transaction_type t))
    (Some (mkProtoMoney "USD" (fst ab) 0)) (Some (mkProtoMoney "USD" (snd ab) 0))
    (tx_description t) (tx_reference t) (Some (chrono_to_prost (tx_posted_at t)))
    (Some (chrono_to_prost (tx_effective_at t))) (tx_session_id t) (tx_payment_id t)
    (tx_metadata t) (tx_version t) (tx_correlation_id t) (tx_idempotency_key t)
    (tx_status t) (tx_record_hash t) (tx_previous_hash t) None.

Lemma map_tx_exact {E} t ab : exact_tx t ab -> map_domain_transaction (E := E) t = Ok (tx_message t ab).
Proof.
  intros (Ha & Ia & Hb & Ib). unfold map_domain_transaction.
  by rewrite (money_exact _ _ _ Ha Ia), (money_exact _ _ _ Hb Ib).
Qed.

Lemma map_txs_exact {E} txs abs : Forall2 exact_tx txs abs ->
  collect (map (map_domain_transaction (E := E)) txs) = Ok (zip_with tx_message txs abs).
Proof.
  induction 1 as [|t ab txs abs Ht _ IH]; [done|]. simpl.
  rewrite (map_tx_exact _ _ Ht), IH. done.
Qed.

End composed.

(** [parsed H]: the fields of the request of [H : malformed _ = None]. *)
Ltac parsed Hm :=
  unfold malformed, checks in Hm;
  repeat (let Hb := fresh "Hb" in apply first_none in Hm as [Hb Hm]);
  repeat match goal with
  | Hb : bad_uuid _ = None |- _ =>
      let Hc := fresh "Hc" in apply good_uuid in Hb as (? & Hb & Hc)
  | Hb : bad_optional_uuid _ = None |- _ => apply good_optional in Hb as [? Hb]
  | Hb : bad_date _ _ = None |- _ => apply good_date in Hb as [? Hb]
  | Hb : first_some (map bad_uuid _) = None |- _ => apply good_uuids in Hb as [? Hb]
  end.

(** [run_query Hf]: run a method on the read model, with the equation [Hf] of
    its one statement. *)
Ltac run_query Hf :=
  unfold transactions_answer, answer, required_date, reversed_range;
  repeat match goal with Hb : ?x = _ |- context [?x] => rewrite Hb end;
  unfold mbind, M_bind, lift, attempt, rebuild_account_view, get_virtual_account_transactions, mbind, M_bind; simpl;
  unfold
    pg_get_account_balance, pg_get_account_statement, pg_get_transaction_by_id,
    pg_list_transactions, pg_search_transactions, pg_get_account_summary, pg_get_movement_legs,
    pg_verify_double_entry, pg_get_virtual_account, pg_list_virtual_accounts,
    pg_get_virtual_account_summary, pg_get_liquidity_position, pg_list_liquidity_positions,
    pg_get_liquidity_summary, pg_get_expiring_positions, pg_get_settlement_instruction,
    pg_list_settlement_instructions, pg_get_pending_settlements, pg_get_settlement_summary,
    pg_get_suspense_item, pg_list_suspense_items, pg_get_suspense_aging_report,
    pg_get_suspense_activity_log, pg_get_coa_entry, pg_list_coa_entries,
    pg_get_period_end_balance, pg_list_period_end_balances;
  unfold mbind, M_bind, lift, attempt; rewrite ?Hf; simpl;
  try match goal with |- context [(?a <? ?b)%Z] => destruct (a <? b)%Z end;
  unfold account_summary_to_proto; simpl; rewrite ?money_of_zero; simpl;
  (eexists _, _; split_and!; [reflexivity | reflexivity | reflexivity | reflexivity |];
   intros; by simplify_eq).

(** C35. What the service answers when it runs on its PostgreSQL read model: a
    well-formed request sends one statement, the one that sets the tenant; when
    that fails the answer carries an INTERNAL error block; otherwise whatever is
    looked up by its key is answered as missing, a reversed range of dates is
    reported by the listings of transactions, every other answer is an empty
    one, and any transaction at all is declared balanced. *)
Theorem ledger_read_side `{DecimalOps} `{!DecimalRounding} `{F64Ops} `{UuidOps} `{TimeOps}
    `{LedgerEnv} `{!DecimalLaws} `{!RoundingLaws} trace req (w : LedgerWorld) :
  malformed req = None ->
  exists resp w',
    serve trace req w = (Ok resp, w')
    /\ response_error resp
       = (expected_error (l_fault (l_tick w)) req ≫= fun e => snd (map_error e trace))
    /\ response_entries resp = 0
    /\ l_tenants w' = (match l_fault (l_tick w) with
                       | Some _ => l_tenants w
                       | None => canonical (request_tenant req) :: l_tenants w
                       end)
    /\ (forall m, resp = RVerifyDoubleEntry m -> l_fault (l_tick w) = None ->
         vde_is_balanced m = true).
Proof.
  intros Hm. unfold expected_error. destruct req; cbn [serve request_tenant read_side_error]; parsed Hm;
    unfold
    get_account_balance_rpc, get_account_statement_rpc, get_transaction_by_id_rpc,
    list_transactions_rpc, search_transactions_rpc, get_account_summary_rpc,
    rebuild_account_view_rpc, get_movement_legs_rpc, verify_double_entry_rpc,
    get_virtual_account_rpc, list_virtual_accounts_rpc, get_virtual_account_summary_rpc,
    get_virtual_account_transactions_rpc, get_liquidity_position_rpc,
    list_liquidity_positions_rpc, get_liquidity_summary_rpc, get_expiring_positions_rpc,
    get_settlement_instruction_rpc, list_settlement_instructions_rpc,
    get_pending_settlements_rpc, get_settlement_summary_rpc, get_suspense_item_rpc,
    list_suspense_items_rpc, get_suspense_aging_report_rpc, get_suspense_activity_log_rpc,
    get_coa_entry_rpc, list_coa_entries_rpc, get_period_end_balance_rpc,
    list_period_end_balances_rpc.
  all: destruct (l_fault (l_tick w)) as [why|] eqn:Hf;
    [pose proof (fun t => set_tenant_fault t why w Hf) as Ht
    |pose proof (fun t => set_tenant_ok t w Hf) as Ht].
  all: run_query Ht.
Qed.

(** C36. Amounts survive the way to the client: when the read model answers a
    statement whose amounts are whole cents within 64 bits, the answer lists its
    transactions in order with exactly those cents, and the five totals are
    exact; every amount is labelled USD, whatever the account's currency. *)
Theorem statement_exact `{DecimalOps} `{!DecimalRounding} `{F64Ops} `{UuidOps} `{TimeOps}
    `{!DecimalLaws} `{!RoundingLaws} {W : Type} (rm : ReadModelPort W)
    trace account_id tenant_id t1 t2 p account tenant from to
    txs abs meta o c cr db fe o' c' cr' db' fe' (w w' : W) :
  uuid_parse account_id = Some account -> uuid_parse tenant_id = Some tenant ->
  from_timestamp (seconds t1) (as_u32 (nanos t1)) = Some from ->
  from_timestamp (seconds t2) (as_u32 (nanos t2)) = Some to ->
  rm_get_account_statement account tenant from to (map_proto_pagination p) w
    = (Ok (txs, meta, o, c, cr, db, fe), w') ->
  Forall2 exact_tx txs abs ->
  Forall2 (fun d x => money d x /\ in_i64 x) [o; c; cr; db; fe] [o'; c'; cr'; db'; fe'] ->
  exists r, get_account_statement_rpc trace account_id tenant_id (Some t1) (Some t2) p w = (Ok r, w')
    /\ gas_account_id r = account_id
    /\ gas_transactions r = zip_with tx_message txs abs
    /\ [gas_opening_balance r; gas_closing_balance r; gas_total_credits r; gas_total_debits r;
        gas_total_fees r] = map (fun x => Some (mkProtoMoney "USD" x 0)) [o'; c'; cr'; db'; fe']
    /\ gas_pagination r = Some (map_domain_pagination meta)
    /\ gas_error r = None.
Proof.
  intros Ha Ht Hfrom Hto Hrm Htx Htot. unfold get_account_statement_rpc, parse_uuid, required_date,
    prost_to_chrono. rewrite Ha, Ht. simpl. rewrite Hfrom, Hto.
  repeat (erewrite bind_ok; [|reflexivity]). unfold answer. erewrite bind_ok.
  2: { unfold attempt, get_account_statement. rewrite Hrm. reflexivity. }
  cbv beta iota. unfold lift. rewrite (map_txs_exact _ _ Htx).
  repeat match goal with
  | Hf : Forall2 _ (_ :: _) (_ :: _) |- _ => apply Forall2_cons_1 in Hf as [[? ?] Hf]
  end. simpl.
  rewrite (money_exact o o'), (money_exact c c'), (money_exact cr cr'), (money_exact db db'),
    (money_exact fe fe') by done.
  simpl. eexists. split_and!; reflexivity.
Qed.

(** A clock and a database that work, and a transaction of 12.50. *)
#[export] Instance test_ledger_env : LedgerEnv := {|
  l_fault _ := None;
  l_clock n := Z.of_nat n;
|}.

Definition sample_tx : Transaction :=
  mkTransaction 7%N "7" 5%N 1%N TtCredit (dec_new 1250 2) (dec_new 5000 2) "top up" "ref" 0 0 "" ""
    [] 1 "" "" "posted" "" "".

Definition sample_statement : Statement :=
  ([sample_tx], no_pages, dec_new 3750 2, dec_new 5000 2, dec_new 1250 2, dec_zero, dec_zero).

Lemma statement_exact_witness :
  exists r, get_account_statement_rpc
      (ReadModelPort0 := with_statement sample_statement postgres_read_model)
      "t" (uuid_to_string 1) (uuid_to_string 5) (Some (mkTimestamp 0 0)) (Some (mkTimestamp 1 0))
      None (mkLedgerWorld [] 0) = (Ok r, mkLedgerWorld [] 0)
    /\ gas_account_id r = uuid_to_string 1
    /\ gas_transactions r = zip_with tx_message [sample_tx] [(1250, 5000)%Z]
    /\ [gas_opening_balance r; gas_closing_balance r; gas_total_credits r; gas_total_debits r;
        gas_total_fees r]
       = map (fun x => Some (mkProtoMoney "USD" x 0)) [3750; 5000; 1250; 0; 0]%Z
    /\ gas_pagination r = Some (map_domain_pagination no_pages)
    /\ gas_error r = None.
Proof.
  apply (statement_exact (with_statement sample_statement postgres_read_model) "t" (uuid_to_string 1)
    (uuid_to_string 5) (mkTimestamp 0 0) (mkTimestamp 1 0) None 1%N 5%N 0 nanos_per_sec [sample_tx]
    [(1250, 5000)%Z] no_pages (dec_new 3750 2) (dec_new 5000 2) (dec_new 1250 2) dec_zero dec_zero
    3750 5000 1250 0 0); [reflexivity | reflexivity | reflexivity | reflexivity | reflexivity | |];
    repeat constructor; try apply money_new; try apply money_zero; unfold in_i64; simpl; lia.
Defined.

Lemma ledger_read_side_witness :
  exists resp w',
    serve "t" (VerifyDoubleEntry (uuid_to_string 9) (uuid_to_string 5)) (mkLedgerWorld [] 0)
      = (Ok resp, w')
    /\ response_error resp
       = (expected_error (l_fault (l_tick (mkLedgerWorld [] 0)))
           (VerifyDoubleEntry (uuid_to_string 9) (uuid_to_string 5)) ≫= fun e => snd (map_error e "t"))
    /\ response_entries resp = 0
    /\ l_tenants w' = (match l_fault (l_tick (mkLedgerWorld [] 0)) with
                       | Some _ => l_tenants (mkLedgerWorld [] 0)
                       | None => canonical (request_tenant
                           (VerifyDoubleEntry (uuid_to_string 9) (uuid_to_string 5)))
                           :: l_tenants (mkLedgerWorld [] 0)
                       end)
    /\ (forall m, resp = RVerifyDoubleEntry m -> l_fault (l_tick (mkLedgerWorld [] 0)) = None ->
         vde_is_balanced m = true).
Proof.
  apply (ledger_read_side "t" (VerifyDoubleEntry (uuid_to_string 9) (uuid_to_string 5))
    (mkLedgerWorld [] 0)).
  reflexivity.
Defined.

(** An amount of more than 2^63 cents is shown to the client as zero. *)
Example oversized_amount_shown_as_zero :
  decimal_to_money (E := Status) (dec_new (2 ^ 62) 0) "USD" = Ok (Some (mkProtoMoney "USD" 0 0)).
Proof. reflexivity. Qed.
