(* ===== verification/SocketAddr.v ===== *)
(** * Socket addresses

    What the start-up code uses of the standard library to find the address it
    listens on: [str::parse::<u16>()], and [SocketAddr::from_str], the
    backtracking parser of [core::net::parser] for dotted quads, bracketed
    IPv6 addresses (compressed groups, an embedded dotted quad, a scope) and
    ports.  A parser that fails consumes nothing. *)

From Stdlib Require Import ZArith Lia Ascii.
From stdpp Require Import base list strings numbers pretty.
From S2P Require Import Prelude RustStr.

Local Open Scope string_scope.
Local Open Scope Z_scope.

(** [str::parse::<u16>()]: an optional [+] and decimal digits, in range. *)
Definition parse_u16 (s : string) : option Z :=
  let digits := match s with
    | String c s' => if Ascii.eqb c "+" then s' else s
    | EmptyString => s
    end in
  if is_empty digits then None
  else z ← parse_digits 0 digits; if z <? 65536 then Some z else None.

(** ** The parser *)

Definition Parser (A : Type) : Type := string -> option (A * string).

Definition p_ret {A} (a : A) : Parser A := fun s => Some (a, s).
Definition p_bind {A B} (p : Parser A) (f : A -> Parser B) : Parser B := fun s =>
  match p s with Some (a, s') => f a s' | None => None end.

Local Notation "x <-- p ; q" := (p_bind p (fun x => q))
  (at level 100, p at next level, q at level 200, right associativity).

Definition read_given_char (c : ascii) : Parser unit := fun s =>
  match s with
  | String c' s' => if Ascii.eqb c' c then Some (tt, s') else None
  | EmptyString => None
  end.

(** [char::to_digit(radix)] *)
Definition to_digit (radix : Z) (c : ascii) : option Z :=
  let n := Z.of_N (byte_at c) in
  let d := if (48 <=? n) && (n <=? 57) then n - 48
    else if (97 <=? n) && (n <=? 122) then n - 87
    else if (65 <=? n) && (n <=? 90) then n - 55
    else radix in
  if d <? radix then Some d else None.

(** The digits at the front: their value, how many there are, the rest. *)
Fixpoint read_digits (radix acc : Z) (count : nat) (s : string) : Z * nat * string :=
  match s with
  | String c s' =>
      match to_digit radix c with
      | Some d => read_digits radix (acc * radix + d) (S count) s'
      | None => (acc, count, s)
      end
  | EmptyString => (acc, count, s)
  end.

(** [read_number]: at most [max_digits] of them, a value of at most [max]. *)
Definition read_number (radix : Z) (max_digits : option nat) (allow_zero_prefix : bool) (max : Z)
    : Parser Z := fun s =>
  let '(value, count, rest) := read_digits radix 0 O s in
  let too_long := match max_digits with Some m => Nat.ltb m count | None => false end in
  let zero_prefix := starts_with "0" s && Nat.ltb 1 count in
  if Nat.eqb count 0 || too_long || (negb allow_zero_prefix && zero_prefix) || (max <? value)
  then None
  else Some (value, rest).

(** [read_separator(sep, index, inner)]: a separator before every item but the
    first. *)
Definition read_separator {A} (sep : ascii) (first : bool) (inner : Parser A) : Parser A :=
  if first then inner else _ <-- read_given_char sep; inner.

Definition read_octet (first : bool) : Parser Z :=
  read_separator "." first (read_number 10 (Some 3%nat) false 255).

Definition read_ipv4_addr : Parser (Z * Z * Z * Z) :=
  a <-- read_octet true; b <-- read_octet false; c <-- read_octet false; d <-- read_octet false;
  p_ret (a, b, c, d).

(** [read_groups]: up to [n] groups; whether the last two were a dotted quad. *)
Fixpoint read_groups (n : nat) (first : bool) (s : string) : list Z * bool * string :=
  match n with
  | O => ([], false, s)
  | S n' =>
      let ipv4 := if Nat.ltb 0 n' then read_separator ":" first read_ipv4_addr s else None in
      match ipv4 with
      | Some ((a, b, c, d), s') => ([a * 256 + b; c * 256 + d], true, s')
      | None =>
          match read_separator ":" first (read_number 16 (Some 4%nat) true 65535) s with
          | Some (g, s') =>
              let '(gs, v4, rest) := read_groups n' false s' in (g :: gs, v4, rest)
          | None => ([], false, s)
          end
      end
  end.

Definition read_ipv6_addr : Parser (list Z) := fun s =>
  let '(head, head_ipv4, s1) := read_groups 8 true s in
  if Nat.eqb (length head) 8 then Some (head, s1)
  else if head_ipv4 then None
  else (_ <-- read_given_char ":"; _ <-- read_given_char ":";
        (fun s2 =>
          let '(tail, _, s3) := read_groups (8 - (length head + 1)) true s2 in
          Some ((head ++ repeat 0 (8 - length head - length tail) ++ tail)%list, s3))) s1.

Definition read_port : Parser Z := _ <-- read_given_char ":"; read_number 10 None true 65535.

(** [read_scope_id().unwrap_or(0)] *)
Definition read_scope_id : Parser Z := fun s =>
  match (_ <-- read_given_char "%"; read_number 10 None true (2 ^ 32 - 1)) s with
  | Some r => Some r
  | None => Some (0, s)
  end.

Inductive SocketAddr : Type :=
  | SocketV4 (a b c d : Z) (port : Z)
  | SocketV6 (groups : list Z) (scope_id port : Z).

Definition read_socket_addr_v4 : Parser SocketAddr :=
  ip <-- read_ipv4_addr; port <-- read_port;
  let '(a, b, c, d) := ip in p_ret (SocketV4 a b c d port).

Definition read_socket_addr_v6 : Parser SocketAddr :=
  _ <-- read_given_char "["; ip <-- read_ipv6_addr; scope <-- read_scope_id;
  _ <-- read_given_char "]"; port <-- read_port; p_ret (SocketV6 ip scope port).

Definition read_socket_addr : Parser SocketAddr := fun s =>
  match read_socket_addr_v4 s with Some r => Some r | None => read_socket_addr_v6 s end.

(** [s.parse::<SocketAddr>()]: the whole text *)
Definition parse_socket_addr (s : string) : option SocketAddr :=
  match read_socket_addr s with
  | Some (a, rest) => if is_empty rest then Some a else None
  | None => None
  end.

(** [format!("{}:{}", host, port)] *)
Definition host_port (host : string) (port : Z) : string := host +:+ ":" +:+ pretty port.

(** The text of an IPv4 address. *)
Definition dotted_quad (a b c d : Z) : string :=
  pretty a +:+ "." +:+ pretty b +:+ "." +:+ pretty c +:+ "." +:+ pretty d.

Example parse_addresses :
  map parse_socket_addr ["127.0.0.1:50052"; "0.0.0.0:0"; "localhost:50052"; "127.0.0.1";
    "::1:50052"; "[::1]:50052"; "[fe80::1%3]:80"; "[::ffff:10.0.0.1]:9"; "127.0.0.01:80";
    "1.2.3.4:65536"; " 127.0.0.1:80"]
  = [Some (SocketV4 127 0 0 1 50052); Some (SocketV4 0 0 0 0 0); None; None;
     None; Some (SocketV6 [0; 0; 0; 0; 0; 0; 0; 1] 0 50052);
     Some (SocketV6 [65152; 0; 0; 0; 0; 0; 0; 1] 3 80);
     Some (SocketV6 [0; 0; 0; 0; 0; 65535; 2560; 1] 0 9); None; None; None].
Proof. vm_compute. reflexivity. Qed.

Example parse_u16s :
  map parse_u16 ["50052"; "+80"; "65535"; "65536"; "-0"; ""; "+"; "80 "; "007"]
  = [Some 50052; Some 80; Some 65535; None; None; None; None; None; Some 7].
Proof. vm_compute. reflexivity. Qed.

(** ** Reading printed numbers *)

Lemma pretty_go_app x s : pretty_N_go x s = pretty_N_go x "" +:+ s.
Proof.
  revert s. induction (N.lt_wf_0 x) as [x _ IH]; intros s.
  destruct (N.eq_0_gt_0_cases x) as [->|Hx]; [done|].
  rewrite (pretty_N_go_step x s), (pretty_N_go_step x "") by done.
  assert (Hl : (x / 10 < x)%N) by (by apply N.div_lt).
  rewrite (IH _ Hl), (IH _ Hl (String _ "")).
  by rewrite append_assoc.
Qed.

Lemma to_digit_char n : (n < 10)%N -> to_digit 10 (pretty_N_char n) = Some (Z.of_N n).
Proof. intros Hn. destruct n as [|p]; [done|]. do 4 (try (destruct p as [p|p|]; try done; try lia)). Qed.

Lemma read_digits_go x s c :
  read_digits 10 0 c (pretty_N_go x s)
  = read_digits 10 (Z.of_N x) (c + String.length (pretty_N_go x "")) s.
Proof.
  revert s c. induction (N.lt_wf_0 x) as [x _ IH]; intros s c.
  destruct (N.eq_0_gt_0_cases x) as [->|Hx]; [by rewrite Nat.add_0_r|].
  rewrite (pretty_N_go_step x s), (pretty_N_go_step x "") by done.
  rewrite IH by (by apply N.div_lt). rewrite (pretty_go_app _ (String _ "")).
  cbn [read_digits]. rewrite to_digit_char by (by apply N.mod_lt).
  rewrite string_length_app. simpl String.length. rewrite Nat.add_1_r, Nat.add_succ_r.
  f_equal. rewrite N2Z.inj_div, N2Z.inj_mod.
  pose proof (Z.div_mod (Z.of_N x) 10). lia.
Qed.

Lemma pretty_go_length x k : (x < 10 ^ N.of_nat k)%N -> (String.length (pretty_N_go x "") <= k)%nat.
Proof.
  revert k. induction (N.lt_wf_0 x) as [x _ IH]; intros k Hk.
  destruct (N.eq_0_gt_0_cases x) as [->|Hx]; [simpl; lia|].
  destruct k as [|k]; [simpl in Hk; lia|].
  rewrite pretty_N_go_step, pretty_go_app, string_length_app by done. simpl.
  enough (String.length (pretty_N_go (x / 10) "") <= k)%nat by lia.
  apply IH; [by apply N.div_lt|]. apply N.Div0.div_lt_upper_bound.
  rewrite Nat2N.inj_succ, N.pow_succ_r' in Hk. lia.
Qed.

Lemma pretty_go_head x s : (0 < x)%N -> starts_with "0" (pretty_N_go x s) = false.
Proof.
  revert s. induction (N.lt_wf_0 x) as [x _ IH]; intros s Hx.
  rewrite pretty_N_go_step by done.
  destruct (N.eq_0_gt_0_cases (x / 10)) as [E|Hd]; [|apply IH; [by apply N.div_lt | done]].
  rewrite E, pretty_N_go_0. pose proof (N.div_mod x 10 ltac:(done)) as Hm. rewrite E in Hm.
  pose proof (N.mod_lt x 10 ltac:(done)).
  assert (Hr : (x `mod` 10 <> 0)%N) by lia. unfold pretty_N_char. by repeat case_match.
Qed.

(** The text does not start with a decimal digit. *)
Definition no_digit (s : string) : Prop := forall v c, read_digits 10 v c s = (v, c, s).

(** A printed number is read back, whatever follows that is no digit. *)
Lemma read_number_pretty m zp max z s :
  0 <= z <= max -> (forall k, m = Some k -> z < 10 ^ Z.of_nat k /\ (0 < k)%nat) -> no_digit s ->
  read_number 10 m zp max (pretty z +:+ s) = Some (z, s).
Proof.
  intros Hz Hm Hs. unfold read_number.
  assert (Hmax : (max <? z) = false) by lia.
  destruct z as [|p|p]; [| |lia].
  - change (pretty 0 +:+ s) with (String "0" s). cbn [read_digits].
    change (to_digit 10 "0") with (Some 0). cbn iota. rewrite Hs. cbn - [Z.ltb].
    change (0 * 10 + 0) with 0. rewrite Hmax, andb_false_r, !orb_false_r.
    destruct m as [[|k]|]; [by destruct (Hm _ eq_refl); lia | done | done].
  - change (pretty (Z.pos p)) with (pretty_N_go (N.pos p) ""). rewrite <- pretty_go_app.
    rewrite read_digits_go, Hs. rewrite pretty_go_head by done.
    change (0 + ?n)%nat with n. simpl Z.of_N.
    assert (String.length (pretty_N_go (N.pos p) "") <> 0%nat) as Hl.
    { rewrite pretty_N_go_step, pretty_go_app, string_length_app by done. simpl. lia. }
    rewrite (proj2 (Nat.eqb_neq _ _) Hl), Hmax, andb_false_l, andb_false_r, orb_false_r. simpl.
    destruct m as [k|]; [|done]. destruct (Hm k eq_refl) as [Hk _].
    rewrite (proj2 (Nat.ltb_ge _ _)); [done|]. apply pretty_go_length.
    apply N2Z.inj_lt. rewrite N2Z.inj_pow, nat_N_Z. done.
Qed.

Definition octet (z : Z) : Prop := 0 <= z < 256.

Lemma read_octet_pretty z s :
  octet z -> no_digit s ->
  read_octet true (pretty z +:+ s) = Some (z, s)
  /\ read_octet false ("." +:+ pretty z +:+ s) = Some (z, s).
Proof.
  intros Hz Hs. unfold octet in Hz.
  assert (E : read_number 10 (Some 3%nat) false 255 (pretty z +:+ s) = Some (z, s)).
  { apply read_number_pretty; [lia | | done]. intros k [= <-]. simpl. lia. }
  done.
Qed.

(** What is printed as an IPv4 address and a port is read as them. *)
Lemma parse_host_port a b c d p :
  octet a -> octet b -> octet c -> octet d -> 0 <= p < 65536 ->
  parse_socket_addr (host_port (dotted_quad a b c d) p) = Some (SocketV4 a b c d p).
Proof.
  intros Ha Hb Hc Hd Hp. unfold parse_socket_addr, read_socket_addr, read_socket_addr_v4.
  unfold host_port, dotted_quad, p_bind at 1, read_ipv4_addr.
  rewrite !append_assoc. unfold p_bind at 1.
  rewrite (fun s H => proj1 (read_octet_pretty a s Ha H)) by done.
  unfold p_bind at 1. rewrite (fun s H => proj2 (read_octet_pretty b s Hb H)) by done.
  unfold p_bind at 1. rewrite (fun s H => proj2 (read_octet_pretty c s Hc H)) by done.
  unfold p_bind at 1. rewrite (fun s H => proj2 (read_octet_pretty d s Hd H)) by done.
  cbn [p_ret]. unfold p_bind, read_port, read_given_char, p_bind.
  change (":" +:+ ?x) with (String ":" x). cbn [Ascii.eqb Bool.eqb].
  assert (E : read_number 10 None true 65535 (pretty p) = Some (p, "")).
  { rewrite <- (append_nil_r (pretty p)).
    apply read_number_pretty; [lia | done | done]. }
  by rewrite E.
Qed.

(** A port read from the environment is a port. *)
Lemma parse_u16_range s z : parse_u16 s = Some z -> 0 <= z < 65536.
Proof.
  assert (Hd : forall s acc v, 0 <= acc -> parse_digits acc s = Some v -> 0 <= v).
  { clear. induction s as [|c s IH]; simpl; intros acc v Ha E; [by simplify_eq|].
    destruct (digit_of c) as [d|] eqn:Ed; [|done]. eapply IH; [|done].
    unfold digit_of in Ed. destruct (_ && _)%N eqn:Eb; simplify_eq.
    apply andb_true_iff in Eb as [Hb _]. apply N.leb_le in Hb. lia. }
  unfold parse_u16. destruct (is_empty _); [done|].
  destruct (parse_digits 0 _) as [v|] eqn:E; simpl; [|done].
  destruct (Z.ltb_spec v 65536); intros [= <-]. split; [by eapply Hd, E | done].
Qed.

Lemma digit_of_char n : (n < 10)%N -> digit_of (pretty_N_char n) = Some (Z.of_N n).
Proof. intros Hn. destruct n as [|p]; [done|]. do 4 (try (destruct p as [p|p|]; try done; try lia)). Qed.

Lemma parse_digits_go x s : parse_digits 0 (pretty_N_go x s) = parse_digits (Z.of_N x) s.
Proof.
  revert s. induction (N.lt_wf_0 x) as [x _ IH]; intros s.
  destruct (N.eq_0_gt_0_cases x) as [->|Hx]; [done|].
  rewrite pretty_N_go_step, IH by (done || by apply N.div_lt).
  cbn [parse_digits]. rewrite digit_of_char by (by apply N.mod_lt).
  f_equal. rewrite N2Z.inj_div, N2Z.inj_mod. pose proof (Z.div_mod (Z.of_N x) 10). lia.
Qed.

Lemma pretty_go_plus x s : (0 < x)%N -> starts_with "+" (pretty_N_go x s) = false
  /\ is_empty (pretty_N_go x s) = false.
Proof.
  revert s. induction (N.lt_wf_0 x) as [x _ IH]; intros s Hx. rewrite pretty_N_go_step by done.
  destruct (N.eq_0_gt_0_cases (x / 10)) as [E|Hd]; [|apply IH; [by apply N.div_lt | done]].
  rewrite E, pretty_N_go_0. unfold pretty_N_char. by repeat case_match.
Qed.

(** A port printed in the environment is read back. *)
Lemma parse_u16_pretty z : 0 <= z < 65536 -> parse_u16 (pretty z) = Some z.
Proof.
  intros Hz. destruct z as [|p|p]; [done | | lia].
  change (pretty (Z.pos p)) with (pretty_N_go (N.pos p) "").
  destruct (pretty_go_plus (N.pos p) "" ltac:(done)) as [Hp He].
  pose proof (parse_digits_go (N.pos p) "") as Hd. unfold parse_u16.
  destruct (pretty_N_go (N.pos p) "") as [|c s]; [done|].
  assert (Hc : Ascii.eqb c "+" = false).
  { destruct (Ascii.eqb_spec c "+") as [->|]; [by destruct s | done]. }
  rewrite Hc, He, Hd. simpl. destruct (Z.ltb_spec (Z.pos p) 65536); [done | lia].
Qed.
