(* ===== verification/Host.v ===== *)
(** * The host of a service

    What a starting process uses of its machine: environment variables, files,
    the Vault server, TLS material ([common/src/tls.rs]), the signing key of the
    audit service ([audit/src/infrastructure/signing_backend.rs] and
    [signing.rs]) and the credentials of the payment provider
    ([payment-engine/src/infrastructure/vault.rs]).  The operating system, the
    network and the random generator are the class [Host]; the files and what
    the process has done so far are the state [Machine]. *)

From Stdlib Require Import ZArith Lia Ascii.
From stdpp Require Import base list strings gmap numbers pretty.
From S2P Require Import Prelude RustStr External Reference AuditStore AuditHandler EcoCash SocketAddr.

Local Open Scope string_scope.
Local Open Scope Z_scope.

(** ** The machine *)

Inductive FileNode : Type :=
  | File (content : bytestring)
  | Directory.

(** PEM texts; [Identity::from_pem], [Certificate::from_pem] keep them as they
    are, [Server::tls_config] reads them. *)
Record ServerTlsConfig := mkServerTls {
  tls_cert : bytestring;
  tls_key : bytestring;
  tls_client_ca : bytestring;
}.

Inductive Signal : Type := SIGINT | SIGTERM.

(** The answer to an HTTP request: not sent, or received with the error of
    [error_for_status] if there is one, and its body parsed as JSON (an object
    with the entries of the text). *)
Inductive Reply : Type :=
  | SendFailed (e : string)
  | Received (status_error : option string) (body : Result string json).

Class Host := {
  (** [std::env::var] *)
  env_var : string -> option string;
  (** the error of the [n]-th operation of the process, if it fails *)
  file_fault : nat -> string -> option string;
  pg_connect_fault : nat -> string -> option string;
  serve_fault : nat -> SocketAddr -> option string;
  (** [Server::tls_config] *)
  tls_config_fault : ServerTlsConfig -> option string;
  (** [Channel::from_shared(target)?.tls_config(..)?.connect().await] *)
  channel_connect : nat -> ServerTlsConfig -> string -> Result string unit;
  (** [rand::thread_rng().gen::<[u8; 32]>()] *)
  random_key : nat -> bytestring;
  (** [client.post(url).json(body).send()] and [get] with headers *)
  post_json : nat -> string -> json -> Reply;
  get_json : nat -> string -> list (string * string) -> Reply;
  (** the message of [serde] for a body of another shape *)
  kv2_error : json -> string;
  (** the signal that ends the process when it serves *)
  stop_signal : nat -> Signal;
}.

Class HostLaws `{Host} : Prop := {
  random_key_length : forall n, length (random_key n) = 32%nat;
}.

(** What a service serves. *)
Inductive Server : Type :=
  | PaymentServer (credentials : ProviderCredentials)
  | AuditServer (backend : SigningBackend)
  | MessagingServer (ecocash onemoney : string * string * string) (telecash : string * string)
  | LedgerServer
  | ReconciliationServer
  | SessionServer.

Inductive Transport : Type :=
  | Plaintext
  | MutualTls (config : ServerTlsConfig).

(** What a starting process does to the outside. *)
Inductive Action : Type :=
  | SpawnMetrics (addr : option SocketAddr)
  | Connected (max_connections : Z) (acquire_timeout_secs : option Z) (url : string)
  | SpawnCron
  | Serving (addr : SocketAddr) (transport : Transport) (server : Server).

Record Machine := mkMachine {
  files : gmap string FileNode;
  actions : list Action;
  h_tick : nat;
}.

Section host.
Context `{Host}.

Definition h_bump (w : Machine) : Machine := mkMachine (files w) (actions w) (S (h_tick w)).

Definition h_next {E} : M Machine E nat := fun w => (Ok (h_tick w), h_bump w).

Lemma h_next_bind {E A} (f : nat -> M Machine E A) w : (h_next ≫= f) w = f (h_tick w) (h_bump w).
Proof. done. Qed.

Definition act {E} (a : Action) : M Machine E unit :=
  modify (fun w => mkMachine (files w) (actions w ++ [a])%list (h_tick w)).

(** [std::fs::read] *)
Definition fs_read (path : string) : M Machine string bytestring :=
  n ← h_next;
  match file_fault n path with
  | Some e => throw e
  | None =>
      node ← gets (fun w => files w !! path);
      match node with
      | Some (File content) => mret content
      | Some Directory => throw "Is a directory (os error 21)"
      | None => throw "No such file or directory (os error 2)"
      end
  end.

(** [Path::exists]: false also when the metadata cannot be read *)
Definition fs_exists {E} (path : string) : M Machine E bool :=
  n ← h_next;
  match file_fault n path with
  | Some _ => mret false
  | None => node ← gets (fun w => files w !! path); mret (bool_decide (is_Some node))
  end.

(** [std::fs::write]; a missing directory is one of the faults *)
Definition fs_write (path : string) (content : bytestring) : M Machine string unit :=
  n ← h_next;
  match file_fault n path with
  | Some e => throw e
  | None =>
      node ← gets (fun w => files w !! path);
      match node with
      | Some Directory => throw "Is a directory (os error 21)"
      | _ => modify (fun w => mkMachine (<[path := File content]> (files w)) (actions w) (h_tick w))
      end
  end.

(** [std::fs::create_dir_all]: only its failure is seen, directories on the way
    are not kept *)
Definition create_dir_all (path : string) : M Machine string unit :=
  n ← h_next;
  match file_fault n path with Some e => throw e | None => mret tt end.

(** ** [tls.rs] *)

Definition load_server_tls_config (cert_path key_path ca_path : string)
    : M Machine string ServerTlsConfig :=
  cert ← fs_read cert_path;
  key ← fs_read key_path;
  ca ← fs_read ca_path;
  mret (mkServerTls cert key ca).

Definition load_client_tls_config (cert_path key_path ca_path target : string)
    : M Machine string unit :=
  cert ← fs_read cert_path;
  key ← fs_read key_path;
  ca ← fs_read ca_path;
  n ← h_next;
  lift (channel_connect n (mkServerTls cert key ca) target).

(** ** [vault.rs]: the exchange with the Vault server *)

(** [v[key]] *)
Definition json_index (key : string) (v : json) : json := unwrap_or (json_get key v) JNull.

(** [HttpVaultClient::login] *)
Definition login (n : nat) (role_id secret_id : string) : Result string string :=
  let url := vault_addr env_var +:+ "/v1/auth/approle/login" in
  let body := JObject [("role_id", JString role_id); ("secret_id", JString secret_id)] in
  match post_json n url body with
  | SendFailed e => Err ("vault login request failed: " +:+ e)
  | Received (Some e) _ => Err ("vault login returned error: " +:+ e)
  | Received None body =>
      resp ← map_err (fun e => "failed to parse vault login response: " +:+ e) body;
      ok_or (as_str (json_index "client_token" (json_index "auth" resp)))
        "missing client_token in vault login response"
  end.

(** The one field of a derived [Deserialize]: from an object that has it once,
    or from a sequence of one element. *)
Definition only_field (key : string) (v : json) : option json :=
  match v with
  | JObject fields =>
      match List.filter (fun kv => String.eqb (fst kv) key) fields with
      | [(_, x)] => Some x
      | _ => None
      end
  | JArray [x] => Some x
  | _ => None
  end.

(** [VaultKv2Response]: [data.data] *)
Definition kv2_response (v : json) : Result string json :=
  ok_or (only_field "data" v ≫= only_field "data") (kv2_error v).

(** [HttpVaultClient::read_secret] *)
Definition read_secret (n : nat) (address token path : string) : Result string json :=
  let url := address +:+ "/v1/secret/data/" +:+ path in
  match get_json n url [("X-Vault-Token", token)] with
  | SendFailed e => Err ("vault read request failed: " +:+ e)
  | Received (Some e) _ => Err ("vault read returned error: " +:+ e)
  | Received None body =>
      map_err (fun e => "failed to parse vault read response: " +:+ e)
        (v ← body; kv2_response v)
  end.

(** [get_vault_client().await], then [vault.get_credentials(provider).await] *)
Definition get_vault : M Machine string VaultClient :=
  n ← h_next; lift (get_vault_client env_var (login n)).

Definition get_credentials (vault : VaultClient) (provider : string)
    : M Machine string ProviderCredentials :=
  n ← h_next;
  lift match vault with
  | MockVault => mock_credentials env_var provider
  | HttpVault address token => http_credentials (read_secret n address token) provider
  end.

End host.

(** ** The signing key of the audit service *)

(** [SigningKey::from_bytes] and [to_bytes] *)
Class Ed25519Keys `{Ed25519} := {
  key_from_bytes : bytestring -> SigningKey;
  key_to_bytes : SigningKey -> bytestring;
}.

Class Ed25519KeyLaws `{Ed25519Keys} : Prop := {
  key_to_from_bytes : forall b, length b = 32%nat -> key_to_bytes (key_from_bytes b) = b;
}.

Section signing.
Context `{Host} `{HexOps} `{Ed25519Keys}.

Fixpoint before_last_slash (s : string) : option string :=
  match s with
  | EmptyString => None
  | String c s' =>
      match before_last_slash s' with
      | Some p => Some (String c p)
      | None => if Ascii.eqb c "/" then Some "" else None
      end
  end.

(** [Path::parent], for a path without doubled or trailing slashes *)
Definition path_parent (s : string) : option string :=
  if is_empty s || String.eqb s "/" then None
  else match before_last_slash s with
  | None => Some ""
  | Some p => Some (if is_empty p then "/" else p)
  end.

Definition signing_key_path : string :=
  unwrap_or (env_var "AUDIT_SIGNING_KEY_PATH") "/vault/secrets/audit-signing-key".

(** [.expect(..)] panics on an error. *)
Definition expect {E A} (m : M Machine string A) : M Machine E A := fun w =>
  match m w with (Ok a, w') => (Ok a, w') | (_, w') => (Panic, w') end.

(** The key of the file, which must have 32 bytes. *)
Definition load_key_file {E} (key_path : string) : M Machine E SigningKey :=
  bytes ← expect (fs_read key_path);
  lift (if Nat.eqb (length bytes) 32 then Ok (key_from_bytes bytes) else Panic).

(** A new key, written to the file if that is possible. *)
Definition generate_key {E} (key_path : string) : M Machine E SigningKey :=
  n ← h_next;
  let key := key_from_bytes (random_key n) in
  _ ← attempt (create_dir_all (unwrap_or (path_parent key_path) "."));
  _ ← attempt (fs_write key_path (key_to_bytes key));
  mret key.

(** [load_backend], as built without the feature [hsm] *)
Definition load_backend {E} : M Machine E SigningBackend :=
  let key_id := unwrap_or (env_var "AUDIT_SIGNING_KEY_ID") "audit-key-001" in
  let key_path := signing_key_path in
  there ← fs_exists key_path;
  signing_key ← (if there : bool then load_key_file key_path else generate_key key_path);
  mret (software_backend key_id signing_key).

(** [load_signing_key] *)
Definition load_signing_key {E} : M Machine E SigningBackend := load_backend.

End signing.
