(* ===== verification/Startup.v ===== *)
(** * Start-up of the six services

    The [main] of every service: the variables it reads and their defaults, the
    connection to the database, the credentials and keys it loads, the address
    it listens on, plaintext or mutual TLS, and how a signal ends it
    ([main.rs] of payment-engine, audit, messaging-engine,
    ledger-query-service, reconciliation-engine and session-reconstructor). *)

From Stdlib Require Import ZArith Lia Ascii.
From stdpp Require Import base list strings gmap numbers pretty.
From S2P Require Import Prelude RustStr External Reference AuditStore AuditHandler EcoCash SocketAddr Host.

Local Open Scope string_scope.
Local Open Scope Z_scope.

(** How a process ends other than by returning from [main]. *)
Inductive MainError : Type :=
  | ExitProcess (code : Z)
  | MainFailed (message : string)
  | KilledBy (s : Signal).

Inductive Service : Type :=
  | PaymentEngine
  | AuditService
  | MessagingEngine
  | LedgerQueryService
  | ReconciliationEngine
  | SessionReconstructor.

Section main.
Context `{Host} `{HexOps} `{Ed25519Keys}.

(** [env::var(name).ok().and_then(|p| p.parse().ok()).unwrap_or(default)] *)
Definition port_var (name : string) (default : Z) : Z :=
  unwrap_or (env_var name ≫= parse_u16) default.

(** [start_metrics_server(metrics_port)]: a task that listens on every
    interface *)
Definition start_metrics_server {E} : M Machine E unit :=
  act (SpawnMetrics (parse_socket_addr (host_port "0.0.0.0" (port_var "METRICS_PORT" 9090)))).

(** [env::var("DATABASE_URL").unwrap_or_else(|_| exit(1))] *)
Definition database_url : M Machine MainError string :=
  match env_var "DATABASE_URL" with Some url => mret url | None => throw (ExitProcess 1) end.

(** [PgPoolOptions::new().max_connections(20)..connect(&url).await?] *)
Definition connect_pool (acquire_timeout : option Z) (url : string) : M Machine MainError unit :=
  n ← h_next;
  match pg_connect_fault n url with
  | Some e => throw (MainFailed e)
  | None => act (Connected 20 acquire_timeout url)
  end.

(** [format!("{}:{}", bind_addr, port).parse()?] *)
Definition listen_addr (port : Z) : M Machine MainError SocketAddr :=
  let bind_addr := unwrap_or (env_var "BIND_ADDRESS") "127.0.0.1" in
  lift (ok_or (parse_socket_addr (host_port bind_addr port))
          (MainFailed "invalid socket address syntax")).

Definition tls_path (name : string) : string := unwrap_or (env_var name) "".

Definition tls_enabled : bool :=
  negb (is_empty (tls_path "TLS_CERT_FILE")) && negb (is_empty (tls_path "TLS_KEY_FILE"))
  && negb (is_empty (tls_path "TLS_CA_FILE")).

(** [.tls_config(tls_config)?] on the files of the environment, or no TLS *)
Definition transport (prefix : string) : M Machine MainError Transport :=
  if tls_enabled then
    config ← with_err (fun e => MainFailed (prefix +:+ e))
      (load_server_tls_config (tls_path "TLS_CERT_FILE") (tls_path "TLS_KEY_FILE")
         (tls_path "TLS_CA_FILE"));
    match tls_config_fault config with
    | Some e => throw (MainFailed e)
    | None => mret (MutualTls config)
    end
  else mret Plaintext.

(** [serve_with_shutdown(addr, shutdown_signal()).await?]: the handled signals
    end the server, any other ends the process. *)
Definition serve (handled : Signal -> bool) (addr : SocketAddr) (t : Transport) (server : Server)
    : M Machine MainError unit :=
  n ← h_next;
  match serve_fault n addr with
  | Some e => throw (MainFailed e)
  | None =>
      act (Serving addr t server) ;;
      k ← h_next;
      let s := stop_signal k in
      if handled s then mret tt else throw (KilledBy s)
  end.

(** [shutdown_signal] of the five services: Ctrl+C or SIGTERM *)
Definition shutdown_signal (s : Signal) : bool := true.

(** [shutdown_signal] of the session reconstructor: Ctrl+C *)
Definition session_shutdown_signal (s : Signal) : bool :=
  match s with SIGINT => true | SIGTERM => false end.

(** From the address on, the same in five services. *)
Definition listen (port : Z) (server : Server) : M Machine MainError unit :=
  addr ← listen_addr port;
  t ← transport "";
  serve shutdown_signal addr t server.

Definition payment_main : M Machine MainError unit :=
  start_metrics_server ;;
  url ← database_url;
  let grpc_port := port_var "GRPC_PORT" 50052 in
  connect_pool (Some 5) url ;;
  vault ← with_err MainFailed get_vault;
  ecocash_creds ← with_err MainFailed (get_credentials vault "ecocash");
  listen grpc_port (PaymentServer ecocash_creds).

Definition audit_main : M Machine MainError unit :=
  start_metrics_server ;;
  url ← database_url;
  let grpc_port := port_var "GRPC_PORT" 50054 in
  connect_pool (Some 5) url ;;
  signer ← load_signing_key;
  act SpawnCron ;;
  listen grpc_port (AuditServer signer).

(** The adapters with the settings of the environment or those of a demo. *)
Definition messaging_server : Server :=
  MessagingServer
    (unwrap_or (env_var "ECOCASH_BASE_URL") "https://api.ecocash.co.zw",
     unwrap_or (env_var "ECOCASH_API_KEY") "demo-key",
     unwrap_or (env_var "ECOCASH_API_SECRET") "demo-secret")
    (unwrap_or (env_var "ONEMONEY_BASE_URL") "https://api.onemoney.co.zw",
     unwrap_or (env_var "ONEMONEY_USERNAME") "demo-user",
     unwrap_or (env_var "ONEMONEY_PASSWORD") "demo-pass")
    (unwrap_or (env_var "TELECASH_BASE_URL") "https://api.telecash.co.zw",
     unwrap_or (env_var "TELECASH_BEARER_TOKEN") "demo-token").

Definition messaging_main : M Machine MainError unit :=
  start_metrics_server ;;
  url ← database_url;
  let grpc_port := port_var "GRPC_PORT" 50055 in
  connect_pool (Some 5) url ;;
  listen grpc_port messaging_server.

Definition ledger_main : M Machine MainError unit :=
  start_metrics_server ;;
  url ← database_url;
  let grpc_port := port_var "GRPC_PORT" 50057 in
  connect_pool (Some 5) url ;;
  listen grpc_port LedgerServer.

Definition reconciliation_main : M Machine MainError unit :=
  start_metrics_server ;;
  url ← database_url;
  let grpc_port := port_var "GRPC_PORT" 50058 in
  connect_pool (Some 5) url ;;
  listen grpc_port ReconciliationServer.

(** [.context(message)?] on an error *)
Definition context {A} (message : string) (m : M Machine MainError A) : M Machine MainError A :=
  with_err (fun e => match e with MainFailed _ => MainFailed message | _ => e end) m.

Definition session_main : M Machine MainError unit :=
  url ← lift (ok_or (env_var "DATABASE_URL") (MainFailed "DATABASE_URL must be set"));
  context "failed to connect to postgres" (connect_pool None url) ;;
  addr ← listen_addr 50051;
  start_metrics_server ;;
  t ← transport "failed to load TLS config: ";
  context "server error" (serve session_shutdown_signal addr t SessionServer).

Definition main (s : Service) : M Machine MainError unit :=
  match s with
  | PaymentEngine => payment_main
  | AuditService => audit_main
  | MessagingEngine => messaging_main
  | LedgerQueryService => ledger_main
  | ReconciliationEngine => reconciliation_main
  | SessionReconstructor => session_main
  end.

(** ** Safety: what holds whenever a server is started *)

(** From [P], [m] ends in [Q] when it returns and in [X] when it does not. *)
Definition triple {A} (P : Machine -> Prop) (m : M Machine MainError A) (Q : A -> Machine -> Prop)
    (X : Machine -> Prop) : Prop :=
  forall w, P w -> match m w with (Ok a, w') => Q a w' | (_, w') => X w' end.

Lemma triple_bind {A B} P (m : M Machine MainError A) Q (f : A -> M Machine MainError B) R X :
  triple P m Q X -> (forall a, triple (Q a) (f a) R X) -> triple P (m ≫= f) R X.
Proof.
  intros Hm Hf w Hw. specialize (Hm w Hw). unfold mbind, M_bind.
  destruct (m w) as [[a|e|] w']; [by apply Hf | done | done].
Qed.

Lemma triple_err {A E'} P (f : E' -> MainError) (m : M Machine E' A) Q (X : Machine -> Prop) :
  (forall w, P w -> match m w with (Ok a, w') => Q a w' | (_, w') => X w' end) ->
  triple P (with_err f m) Q X.
Proof.
  intros Hm w Hw. specialize (Hm w Hw). unfold with_err. by destruct (m w) as [[a|e|] w'].
Qed.

(** Steps that only read, write files or fail. *)
Definition quiet {E A} (m : M Machine E A) : Prop := forall w, actions (snd (m w)) = actions w.

Lemma quiet_bind {E A B} (m : M Machine E A) (f : A -> M Machine E B) :
  quiet m -> (forall a, quiet (f a)) -> quiet (m ≫= f).
Proof.
  intros Hm Hf w. specialize (Hm w). unfold mbind, M_bind.
  destruct (m w) as [[a|e|] w']; [|done|done]. rewrite Hf. done.
Qed.

Lemma quiet_err {E E' A} (f : E' -> E) (m : M Machine E' A) : quiet m -> quiet (with_err f m).
Proof. intros Hm w. specialize (Hm w). unfold with_err. by destruct (m w) as [r w']. Qed.

Lemma quiet_attempt {E E' A} (m : M Machine E' A) : quiet m -> quiet (E := E) (attempt m).
Proof. intros Hm w. specialize (Hm w). unfold attempt. by destruct (m w) as [[] w']. Qed.

Lemma quiet_expect {E A} (m : M Machine string A) : quiet m -> quiet (E := E) (expect m).
Proof. intros Hm w. specialize (Hm w). unfold expect. by destruct (m w) as [[] w']. Qed.

Ltac quiet := repeat first
  [ done | apply quiet_bind; [|intros ?] | apply quiet_err | apply quiet_attempt | apply quiet_expect
  | match goal with |- quiet (match ?x with _ => _ end) => destruct x end ].

Lemma fs_read_quiet path : quiet (fs_read path).
Proof. unfold fs_read. quiet. Qed.

Lemma transport_quiet prefix : quiet (transport prefix).
Proof. unfold transport, load_server_tls_config. pose proof fs_read_quiet. quiet; auto. Qed.

Lemma load_signing_key_quiet {E} : quiet (E := E) load_signing_key.
Proof.
  unfold load_signing_key, load_backend, fs_exists, load_key_file, generate_key, fs_read,
    create_dir_all, fs_write. quiet.
Qed.

(** No server yet; with [c], the pool of the configured database is open. *)
Definition connected (w : Machine) : Prop :=
  exists url timeout, env_var "DATABASE_URL" = Some url /\ Connected 20 timeout url ∈ actions w.

Definition before_serving (c : bool) (w : Machine) : Prop :=
  (forall addr t server, Serving addr t server ∉ actions w) /\ (c = true -> connected w).

(** Without a configured address only this machine can connect. *)
Definition default_is_local (addr : SocketAddr) : Prop :=
  env_var "BIND_ADDRESS" = None -> exists p, addr = SocketV4 127 0 0 1 p /\ 0 <= p < 65536.

(** Mutual TLS with the three files, or plaintext if one is not configured. *)
Definition tls_as_configured (t : Transport) (w : Machine) : Prop :=
  match t with
  | MutualTls c => tls_enabled = true
      /\ files w !! tls_path "TLS_CERT_FILE" = Some (File (tls_cert c))
      /\ files w !! tls_path "TLS_KEY_FILE" = Some (File (tls_key c))
      /\ files w !! tls_path "TLS_CA_FILE" = Some (File (tls_client_ca c))
  | Plaintext =>
      tls_path "TLS_CERT_FILE" = "" \/ tls_path "TLS_KEY_FILE" = "" \/ tls_path "TLS_CA_FILE" = ""
  end.

Definition served_safely (w : Machine) : Prop :=
  forall addr t server, Serving addr t server ∈ actions w ->
  connected w /\ default_is_local addr /\ tls_as_configured t w.

Lemma before_safe c w : before_serving c w -> served_safely w.
Proof. intros [Hs _] addr t server Ha. by destruct (Hs addr t server). Qed.

Lemma before_quiet c w w' :
  actions w' = actions w -> before_serving c w -> before_serving c w'.
Proof. unfold before_serving, connected. by intros ->. Qed.

Lemma triple_quiet {A} c (m : M Machine MainError A) :
  quiet m -> triple (before_serving c) m (fun _ => before_serving c) served_safely.
Proof.
  intros Hm w Hw. specialize (Hm w). destruct (m w) as [r w']. simpl in Hm.
  pose proof (before_quiet c w w' Hm Hw) as Hb. destruct r; eauto using before_safe.
Qed.

Lemma triple_act c a :
  (forall addr t server, a <> Serving addr t server) ->
  triple (before_serving c) (act a) (fun _ => before_serving c) served_safely.
Proof.
  intros Ha w [Hs Hc]. simpl. split.
  - intros addr t server [Hin|Hin%list_elem_of_singleton]%elem_of_app; [by eapply Hs | by eapply Ha].
  - intros E. destruct (Hc E) as (url & to & He & Hin). exists url, to. split; [done|].
    apply elem_of_app. by left.
Qed.

Lemma connect_pool_triple timeout url :
  env_var "DATABASE_URL" = Some url ->
  triple (before_serving false) (connect_pool timeout url) (fun _ => before_serving true) served_safely.
Proof.
  intros Hu w Hw. unfold connect_pool. rewrite h_next_bind.
  destruct (pg_connect_fault (h_tick w) url); [by eapply before_safe, (before_quiet _ w)|]. cbn. destruct Hw as [Hs _]. split.
  - intros addr t server [Hin|Hin%list_elem_of_singleton]%elem_of_app; [by eapply Hs | done].
  - intros _. exists url, timeout. split; [done|]. apply elem_of_app. right. by apply list_elem_of_singleton.
Qed.

Lemma listen_addr_triple port :
  0 <= port < 65536 ->
  triple (before_serving true) (listen_addr port)
    (fun addr w => before_serving true w /\ default_is_local addr) served_safely.
Proof.
  intros Hp w Hw. unfold listen_addr, lift. pose proof (before_safe _ _ Hw) as Hss.
  destruct (parse_socket_addr _) as [addr|] eqn:E; [|done]. split; [done|].
  intros Hb. rewrite Hb in E. simpl in E. exists port. split; [|done].
  change "127.0.0.1" with (dotted_quad 127 0 0 1) in E.
  rewrite parse_host_port in E by (done || lia). by simplify_eq.
Qed.

Lemma tls_enabled_spec : tls_enabled = true <->
  tls_path "TLS_CERT_FILE" <> "" /\ tls_path "TLS_KEY_FILE" <> "" /\ tls_path "TLS_CA_FILE" <> "".
Proof.
  unfold tls_enabled. rewrite !andb_true_iff, !negb_true_iff.
  rewrite <- !is_empty_spec, !not_true_iff_false. tauto.
Qed.

Lemma tls_disabled : tls_enabled = false ->
  tls_path "TLS_CERT_FILE" = "" \/ tls_path "TLS_KEY_FILE" = "" \/ tls_path "TLS_CA_FILE" = "".
Proof.
  unfold tls_enabled. rewrite !andb_false_iff, !negb_false_iff, !is_empty_spec. tauto.
Qed.

Lemma fs_read_inv path w c w' :
  fs_read path w = (Ok c, w') -> files w !! path = Some (File c) /\ files w' = files w.
Proof.
  unfold fs_read. rewrite h_next_bind. destruct (file_fault (h_tick w) path); [done|]. cbn.
  erewrite bind_ok by reflexivity. cbv beta. change (files (h_bump w)) with (files w).
  destruct (files w !! path) as [[]|]; [intros [= <- <-]|..]; done.
Qed.

Lemma bind_inv {E A B} (m : M Machine E A) (f : A -> M Machine E B) w b w' :
  (m ≫= f) w = (Ok b, w') -> exists a w1, m w = (Ok a, w1) /\ f a w1 = (Ok b, w').
Proof.
  unfold mbind, M_bind. destruct (m w) as [[a|e|] w1] eqn:Em; intros E0; [eauto | done | done].
Qed.

Lemma transport_inv prefix w t w' :
  transport prefix w = (Ok t, w') -> tls_as_configured t w'.
Proof.
  unfold transport. destruct tls_enabled eqn:He; [|intros [= <- <-]; by apply tls_disabled].
  intros (config & w1 & Hc & E)%bind_inv. unfold with_err in Hc.
  destruct (load_server_tls_config _ _ _ w) as [[c|e|] w2] eqn:Hl; simplify_eq/=.
  destruct (tls_config_fault config); [done|]. injection E as [= <- <-]. split; [done|].
  unfold load_server_tls_config in Hl.
  apply bind_inv in Hl as (cert & wa & [Ha Fa]%fs_read_inv & Hl).
  apply bind_inv in Hl as (key & wb & [Hb Fb]%fs_read_inv & Hl).
  apply bind_inv in Hl as (ca & wc & [Hc Fc]%fs_read_inv & Hl).
  injection Hl as [= <- <-]. cbn. by rewrite Fc, Fb, Fa in *.
Qed.

Lemma serve_triple handled addr t server :
  triple (fun w => before_serving true w /\ default_is_local addr /\ tls_as_configured t w)
    (serve handled addr t server) (fun _ => served_safely) served_safely.
Proof.
  intros w (Hb & Ha & Ht). unfold serve. rewrite h_next_bind.
  destruct (serve_fault (h_tick w) addr); [by eapply before_safe, (before_quiet _ w)|].
  assert (Hsafe : served_safely (mkMachine (files w) (actions w ++ [Serving addr t server])%list
                                   (S (S (h_tick w))))).
  { intros addr' t' server' Hin. cbn in Hin.
    apply elem_of_app in Hin as [Hin|Hin%list_elem_of_singleton]; [by destruct Hb as [Hs _]; edestruct Hs|].
    simplify_eq. destruct Hb as [_ Hc]. destruct (Hc eq_refl) as (url & to & Hu & Hin).
    split_and!; [|done|done]. exists url, to. split; [done|]. apply elem_of_app. by left. }
  erewrite bind_ok by reflexivity. cbv beta. rewrite h_next_bind. cbn [h_tick h_bump].
  destruct (handled (stop_signal (S (h_tick w)))); exact Hsafe.
Qed.

(** The last part of every [main]. *)
Lemma transport_triple {A} c prefix addr (f : Transport -> M Machine MainError A) (Q : A -> Machine -> Prop) :
  (forall t, triple (fun w => before_serving c w /\ default_is_local addr /\ tls_as_configured t w)
               (f t) Q served_safely) ->
  triple (fun w => before_serving c w /\ default_is_local addr) (transport prefix ≫= f) Q served_safely.
Proof.
  intros Hf. eapply triple_bind; [|exact Hf]. intros w [Hb Ha].
  pose proof (triple_quiet c _ (transport_quiet prefix) w Hb) as Hq.
  destruct (transport prefix w) as [[t|e|] w'] eqn:E; [|done|done].
  split_and!; [done | done | by eapply transport_inv].
Qed.

Lemma port_var_range name d : 0 <= d < 65536 -> 0 <= port_var name d < 65536.
Proof.
  intros Hd. unfold port_var. destruct (env_var name) as [s|]; [simpl | done].
  destruct (parse_u16 s) eqn:E; [by eapply parse_u16_range | done].
Qed.

Lemma listen_triple name d server :
  0 <= d < 65536 ->
  triple (before_serving true) (listen (port_var name d) server) (fun _ => served_safely) served_safely.
Proof.
  intros Hd. eapply triple_bind; [by apply listen_addr_triple, port_var_range|]. intros addr. simpl.
  apply (transport_triple true). intros t. apply serve_triple.
Qed.

(** The first part of five of them. *)
Lemma open_triple {A} (k : M Machine MainError A) (Q : A -> Machine -> Prop) :
  triple (before_serving true) k Q served_safely ->
  triple (before_serving false)
    (start_metrics_server ;; url ← database_url; connect_pool (Some 5) url ;; k) Q served_safely.
Proof.
  intros Hk. eapply triple_bind; [by apply triple_act|]. intros []. simpl.
  unfold database_url. destruct (env_var "DATABASE_URL") as [url|] eqn:Hu.
  - eapply (triple_bind _ _ (fun u w => u = url /\ before_serving false w)); [by intros w Hw|].
    intros u w [-> Hw]. revert w Hw. eapply triple_bind; [by apply connect_pool_triple|]. by intros [].
  - intros w Hw. by eapply before_safe.
Qed.

Lemma context_triple {A} P message (m : M Machine MainError A) Q X :
  triple P m Q X -> triple P (context message m) Q X.
Proof. apply triple_err. Qed.

Lemma main_safe s : triple (before_serving false) (main s) (fun _ => served_safely) served_safely.
Proof.
  destruct s; simpl.
  - apply open_triple. eapply triple_bind; [apply triple_quiet; unfold get_vault; quiet|]. intros v.
    eapply triple_bind; [apply triple_quiet; unfold get_credentials; quiet|]. intros c.
    by apply listen_triple.
  - apply open_triple. eapply triple_bind; [apply triple_quiet, load_signing_key_quiet|]. intros b.
    eapply triple_bind; [by apply triple_act|]. intros []. by apply listen_triple.
  - by apply open_triple, listen_triple.
  - by apply open_triple, listen_triple.
  - by apply open_triple, listen_triple.
  - unfold session_main. destruct (env_var "DATABASE_URL") as [url|] eqn:Hu;
      [|intros w Hw; by eapply before_safe].
    eapply (triple_bind _ _ (fun u w => u = url /\ before_serving false w)); [by intros w Hw|].
    intros u w [-> Hw]. revert w Hw.
    eapply triple_bind; [by apply context_triple, connect_pool_triple|]. intros []. simpl.
    eapply triple_bind; [by apply listen_addr_triple|]. intros addr. simpl.
    eapply (triple_bind _ _ (fun _ w => before_serving true w /\ default_is_local addr)).
    + intros w [Hw Ha]. split; [|done]. by apply (triple_act true (SpawnMetrics _) ltac:(done) w).
    + intros []. apply (transport_triple true). intros t. apply context_triple, serve_triple.
Qed.

(** ** Progress: a configured service on a working host serves *)

Definition host_up : Prop :=
  (forall n path, file_fault n path = None) /\ (forall n url, pg_connect_fault n url = None)
  /\ (forall n addr, serve_fault n addr = None) /\ (forall c, tls_config_fault c = None)
  /\ (forall n, stop_signal n = SIGINT).

(** The file at [path] can be read. *)
Definition readable (path : string) (w : Machine) : Prop :=
  exists content, files w !! path = Some (File content).

Definition tls_ready (w : Machine) : Prop := tls_enabled = true ->
  Forall (fun name => readable (tls_path name) w) ["TLS_CERT_FILE"; "TLS_KEY_FILE"; "TLS_CA_FILE"].

Lemma fs_read_run path w : (forall n path, file_fault n path = None) -> readable path w ->
  exists content, fs_read path w = (Ok content, h_bump w) /\ files w !! path = Some (File content).
Proof.
  intros Hf [content Hc]. exists content. split; [|done]. unfold fs_read.
  rewrite h_next_bind, Hf. erewrite bind_ok by reflexivity. cbv beta.
  change (files (h_bump w)) with (files w). by rewrite Hc.
Qed.

Lemma transport_run prefix w : host_up -> tls_ready w ->
  exists t w', transport prefix w = (Ok t, w') /\ actions w' = actions w
    /\ (t = Plaintext <-> tls_enabled = false).
Proof.
  intros (Hf & _ & _ & Ht & _) Hr. unfold transport, tls_ready in *.
  destruct tls_enabled; [|by exists Plaintext, w]. specialize (Hr eq_refl).
  rewrite !Forall_cons in Hr. destruct Hr as (H1' & H2' & H3' & _).
  destruct (fs_read_run _ w Hf H1') as (cert & R1 & _).
  destruct (fs_read_run _ (h_bump w) Hf H2') as (key & R2 & _).
  destruct (fs_read_run _ (h_bump (h_bump w)) Hf H3') as (ca & R3 & _).
  exists (MutualTls (mkServerTls cert key ca)), (h_bump (h_bump (h_bump w))).
  split_and!; [|done|done]. erewrite bind_ok.
  2: { unfold with_err, load_server_tls_config.
       run_step R1. cbv beta. run_step R2. cbv beta. run_step R3. reflexivity. }
  cbv beta. by rewrite Ht.
Qed.

Lemma serve_run handled addr t server w : host_up -> handled SIGINT = true ->
  exists w', serve handled addr t server w = (Ok tt, w')
    /\ actions w' = (actions w ++ [Serving addr t server])%list.
Proof.
  intros (_ & _ & Hs & _ & Hg) Hh. eexists. unfold serve. rewrite h_next_bind, Hs.
  erewrite bind_ok by reflexivity. cbv beta. rewrite h_next_bind, Hg, Hh. done.
Qed.

Lemma listen_addr_run a b c d port w :
  env_var "BIND_ADDRESS" = Some (dotted_quad a b c d) ->
  octet a -> octet b -> octet c -> octet d -> 0 <= port < 65536 ->
  listen_addr port w = (Ok (SocketV4 a b c d port), w).
Proof.
  intros Hb Ha' Hb' Hc' Hd' Hp. unfold listen_addr. rewrite Hb. simpl unwrap_or.
  by rewrite parse_host_port.
Qed.

(** Served at an address at the end of a run of [m]. *)
Definition serves (m : M Machine MainError unit) (w : Machine) (addr : SocketAddr) (server : Server)
    : Prop :=
  exists t w', m w = (Ok tt, w') /\ list.last (actions w') = Some (Serving addr t server)
    /\ (t = Plaintext <-> tls_enabled = false).

Lemma serves_step {A} (m : M Machine MainError A) f w x w' addr server :
  m w = (Ok x, w') -> serves (f x) w' addr server -> serves (m ≫= f) w addr server.
Proof. intros Hm (t & w2 & Hr & Hl). exists t, w2. by erewrite bind_ok. Qed.

Lemma listen_serves a b c d port server w :
  host_up -> tls_ready w -> env_var "BIND_ADDRESS" = Some (dotted_quad a b c d) ->
  octet a -> octet b -> octet c -> octet d -> 0 <= port < 65536 ->
  serves (listen port server) w (SocketV4 a b c d port) server.
Proof.
  intros Hup Ht Hb Ha' Hb' Hc' Hd' Hp. eapply serves_step; [by apply listen_addr_run|].
  destruct (transport_run "" w Hup Ht) as (t & w1 & R & Hacts & Hplain).
  eapply serves_step; [exact R|].
  destruct (serve_run shutdown_signal (SocketV4 a b c d port) t server w1 Hup eq_refl)
    as (w2 & R2 & Hacts2).
  exists t, w2. split_and!; [done | by rewrite Hacts2, last_snoc | done].
Qed.

Lemma open_serves url w :
  host_up -> env_var "DATABASE_URL" = Some url ->
  exists w1, files w1 = files w /\ forall k addr server, serves k w1 addr server ->
    serves (start_metrics_server ;; url ← database_url; connect_pool (Some 5) url ;; k) w addr server.
Proof.
  intros (_ & Hc & _) Hu. eexists. split; [|intros k addr server Hk; eapply serves_step; [done|];
    cbv beta; unfold database_url; rewrite Hu; eapply serves_step; [done|]; cbv beta;
    eapply serves_step; [unfold connect_pool; rewrite h_next_bind, Hc; done | exact Hk]]. done.
Qed.

(** The signing key: the file has 32 bytes, or there is none. *)
Definition key_ready (w : Machine) : Prop :=
  files w !! signing_key_path = None
  \/ exists b, files w !! signing_key_path = Some (File b) /\ length b = 32%nat.

Definition backend_of (bytes : bytestring) : SigningBackend :=
  software_backend (unwrap_or (env_var "AUDIT_SIGNING_KEY_ID") "audit-key-001") (key_from_bytes bytes).

Lemma exists_run {E} path w : (forall n path, file_fault n path = None) ->
  fs_exists (E := E) path w = (Ok (bool_decide (is_Some (files w !! path))), h_bump w).
Proof. intros Hf. unfold fs_exists. by rewrite h_next_bind, Hf. Qed.

Lemma load_existing {E} b w : (forall n path, file_fault n path = None) ->
  files w !! signing_key_path = Some (File b) -> length b = 32%nat ->
  load_backend (E := E) w = (Ok (backend_of b), h_bump (h_bump w)).
Proof.
  intros Hf Hb Hl. unfold load_backend. run_step (exists_run _ _ Hf). cbv beta. rewrite Hb.
  rewrite bool_decide_true by (by eexists).
  destruct (fs_read_run signing_key_path (h_bump w) Hf ltac:(by exists b)) as (b' & R & Hb').
  change (files (h_bump w)) with (files w) in Hb'. rewrite Hb in Hb'. injection Hb' as <-.
  erewrite bind_ok; [reflexivity|]. unfold load_key_file. erewrite bind_ok.
  2: { unfold expect. by rewrite R. }
  cbv beta. unfold lift. by rewrite Hl.
Qed.

Lemma load_missing {E} `{!HostLaws} `{!Ed25519KeyLaws} w : (forall n path, file_fault n path = None) ->
  files w !! signing_key_path = None ->
  exists b w', load_backend (E := E) w = (Ok (backend_of b), w') /\ length b = 32%nat
    /\ files w' = <[signing_key_path := File b]> (files w) /\ actions w' = actions w.
Proof.
  intros Hf Hn. pose proof (random_key_length (S (h_tick w))) as Hl.
  exists (random_key (S (h_tick w))), (mkMachine (<[signing_key_path := File (random_key (S (h_tick w)))]>
    (files w)) (actions w) (S (S (S (S (h_tick w)))))).
  split_and!; [|done|done|done].
  unfold load_backend. run_step (exists_run _ _ Hf). cbv beta. rewrite Hn. simpl bool_decide.
  erewrite bind_ok; [reflexivity|]. unfold generate_key. rewrite h_next_bind. cbv zeta.
  erewrite bind_ok.
  2: { apply (attempt_ok _ _ (Ok tt)); [|done]. unfold create_dir_all. by rewrite h_next_bind, Hf. }
  cbv beta. erewrite bind_ok.
  2: { apply (attempt_ok _ _ (Ok tt)); [|done]. unfold fs_write. rewrite h_next_bind, Hf.
       erewrite bind_ok by reflexivity. cbv beta. cbn [files h_bump]. by rewrite Hn. }
  cbv beta. rewrite key_to_from_bytes by done. done.
Qed.

(** The key is loaded, whether its file is there or not, and is in the file
    afterwards. *)
Lemma load_ready {E} `{!HostLaws} `{!Ed25519KeyLaws} w : (forall n path, file_fault n path = None) ->
  key_ready w ->
  exists b w', load_backend (E := E) w = (Ok (backend_of b), w') /\ length b = 32%nat
    /\ files w' = <[signing_key_path := File b]> (files w) /\ actions w' = actions w.
Proof.
  intros Hf [Hn|(b & Hb & Hl)]; [by apply load_missing|].
  exists b. eexists. split_and!; [by apply load_existing | done | | done].
  cbn [files h_bump]. by rewrite insert_id.
Qed.

Lemma tls_ready_insert path b w w' :
  files w' = <[path := File b]> (files w) -> tls_ready w -> tls_ready w'.
Proof.
  intros Hw Ht He. specialize (Ht He). eapply Forall_impl; [exact Ht|]. intros name [content Hc].
  unfold readable. rewrite Hw. destruct (decide (tls_path name = path)) as [<-|Hne].
  - exists b. by rewrite lookup_insert_eq.
  - exists content. by rewrite lookup_insert_ne.
Qed.

(** The credentials without a vault. *)
Definition environment_credentials : ProviderCredentials :=
  mkCredentials (unwrap_or (env_var "ECOCASH_BASE_URL") "https://api.example.com")
    (unwrap_or (env_var "ECOCASH_MERCHANT_ID") "") (unwrap_or (env_var "ECOCASH_API_KEY") "")
    (unwrap_or (env_var "ECOCASH_SECRET_KEY") "").

(** The provider credentials can be had: from the environment when the role or
    its secret is not set, else from a Vault server that answers. *)
Definition credentials_ready (creds : ProviderCredentials) : Prop :=
  let role_id := unwrap_or (env_var "VAULT_ROLE_ID") "" in
  let secret_id := unwrap_or (env_var "VAULT_SECRET_ID") "" in
  if is_empty role_id || is_empty secret_id then creds = environment_credentials
  else exists token, (forall n, login n role_id secret_id = Ok token)
    /\ forall n, http_credentials (read_secret n (vault_addr env_var) token) "ecocash" = Ok creds.

(** The port of a service, and what it needs beside its configuration. *)
Definition service_port (s : Service) : Z :=
  match s with
  | PaymentEngine => port_var "GRPC_PORT" 50052
  | AuditService => port_var "GRPC_PORT" 50054
  | MessagingEngine => port_var "GRPC_PORT" 50055
  | LedgerQueryService => port_var "GRPC_PORT" 50057
  | ReconciliationEngine => port_var "GRPC_PORT" 50058
  | SessionReconstructor => 50051
  end.

Definition prerequisites (s : Service) (w : Machine) : Prop :=
  match s with
  | PaymentEngine => exists creds, credentials_ready creds
  | AuditService => key_ready w
  | _ => True
  end.

Definition serves_of (s : Service) (server : Server) : Prop :=
  match s, server with
  | PaymentEngine, PaymentServer _ | AuditService, AuditServer _
  | MessagingEngine, MessagingServer _ _ _ | LedgerQueryService, LedgerServer
  | ReconciliationEngine, ReconciliationServer | SessionReconstructor, SessionServer => True
  | _, _ => False
  end.

Lemma service_port_range s : 0 <= service_port s < 65536.
Proof. destruct s; simpl; [by apply port_var_range..|done]. Qed.

Lemma audit_serves `{!HostLaws} `{!Ed25519KeyLaws} a b c d url w :
  host_up -> tls_ready w -> env_var "DATABASE_URL" = Some url -> key_ready w ->
  env_var "BIND_ADDRESS" = Some (dotted_quad a b c d) -> octet a -> octet b -> octet c -> octet d ->
  exists backend, serves audit_main w (SocketV4 a b c d (service_port AuditService)) (AuditServer backend).
Proof.
  intros Hup Ht Hu Hk Hb Ha' Hb' Hc' Hd'. destruct (open_serves url w Hup Hu) as (w1 & Hw1 & Hopen).
  assert (Hk1 : key_ready w1) by (unfold key_ready in *; by rewrite Hw1).
  destruct (load_ready (E := MainError) w1 (proj1 Hup) Hk1) as (key & w2 & R & _ & Hw2 & _).
  exists (backend_of key). apply Hopen. eapply serves_step; [exact R|].
  eapply serves_step; [done|].
  apply listen_serves; try done; [|apply (service_port_range AuditService)].
  eapply (tls_ready_insert signing_key_path key w); [|done]. simpl. by rewrite Hw2, Hw1.
Qed.

Lemma session_serves a b c d url w :
  host_up -> tls_ready w -> env_var "DATABASE_URL" = Some url ->
  env_var "BIND_ADDRESS" = Some (dotted_quad a b c d) -> octet a -> octet b -> octet c -> octet d ->
  serves session_main w (SocketV4 a b c d 50051) SessionServer.
Proof.
  intros Hup Ht Hu Hb Ha' Hb' Hc' Hd'. unfold session_main. rewrite Hu.
  eapply serves_step; [done|]. cbv beta. eapply serves_step.
  { unfold context, with_err, connect_pool. by rewrite h_next_bind, (proj1 (proj2 Hup)). }
  cbv beta. eapply serves_step; [by apply listen_addr_run|]. cbv beta.
  eapply serves_step; [done|]. cbv beta.
  match goal with |- serves _ ?x _ _ => destruct (transport_run "failed to load TLS config: " x Hup Ht)
    as (t & w1 & R & Hacts & Hplain) end.
  eapply serves_step; [exact R|].
  destruct (serve_run session_shutdown_signal (SocketV4 a b c d 50051) t SessionServer w1 Hup eq_refl)
    as (w2 & R2 & Hacts2).
  exists t, w2. split_and!; [by unfold context, with_err; rewrite R2 | by rewrite Hacts2, last_snoc | done].
Qed.

Lemma credentials_run creds w : credentials_ready creds ->
  exists vault, get_vault w = (Ok vault, h_bump w)
    /\ forall w', get_credentials vault "ecocash" w' = (Ok creds, h_bump w').
Proof.
  unfold credentials_ready, get_vault, get_credentials, get_vault_client. intros Hc.
  rewrite h_next_bind. unfold lift. destruct (is_empty _ || is_empty _).
  - exists MockVault. split; [done|]. intros w'. rewrite h_next_bind. by rewrite Hc.
  - destruct Hc as (token & Hl & Hr). rewrite Hl. exists (HttpVault (vault_addr env_var) token).
    split; [done|]. intros w'. rewrite h_next_bind. by rewrite Hr.
Qed.

Lemma payment_serves creds a b c d url w :
  host_up -> tls_ready w -> env_var "DATABASE_URL" = Some url -> credentials_ready creds ->
  env_var "BIND_ADDRESS" = Some (dotted_quad a b c d) -> octet a -> octet b -> octet c -> octet d ->
  serves payment_main w (SocketV4 a b c d (service_port PaymentEngine)) (PaymentServer creds).
Proof.
  intros Hup Ht Hu Hv Hb Ha' Hb' Hc' Hd'. destruct (open_serves url w Hup Hu) as (w1 & Hw1 & Hopen).
  apply Hopen. destruct (credentials_run creds w1 Hv) as (vault & Rv & Rc).
  eapply serves_step; [unfold with_err; by rewrite Rv|].
  eapply serves_step; [unfold with_err; by rewrite Rc|].
  apply listen_serves; try done; [|apply (service_port_range PaymentEngine)].
  unfold tls_ready, readable in *. simpl. by rewrite Hw1.
Qed.
End main.

(** ** A host for the witnesses *)

Definition test_vars : list (string * string) :=
  [("DATABASE_URL", "postgres://db/ussd"); ("BIND_ADDRESS", "0.0.0.0"); ("GRPC_PORT", "6000")].

Definition lookup_var (vars : list (string * string)) (name : string) : option string :=
  snd <$> List.find (fun kv => String.eqb (fst kv) name) vars.

Definition host_with (vars : list (string * string)) : Host := {|
  env_var := lookup_var vars;
  file_fault _ _ := None;
  pg_connect_fault _ _ := None;
  serve_fault _ _ := None;
  tls_config_fault _ := None;
  channel_connect _ _ _ := Ok tt;
  random_key n := repeat (if Nat.even n then Byte.x01 else Byte.x02) 32;
  post_json _ _ _ := SendFailed "unreachable";
  get_json _ _ _ := SendFailed "unreachable";
  kv2_error _ := "missing field";
  stop_signal _ := SIGINT;
|}.

#[export] Instance test_host : Host := host_with test_vars.

#[export] Instance test_host_laws : HostLaws.
Proof. constructor. reflexivity. Qed.

#[export] Instance toy_keys : @Ed25519Keys toy_ed := {|
  key_from_bytes b := b : @SigningKey toy_ed;
  key_to_bytes k := k;
|}.

#[export] Instance toy_key_laws : @Ed25519KeyLaws toy_ed toy_keys.
Proof. by constructor. Qed.

Definition new_machine : Machine := mkMachine ∅ [] 0.

Lemma test_host_up : host_up.
Proof. by repeat split. Qed.

Lemma test_tls_ready : tls_ready new_machine.
Proof. intros E. vm_compute in E. discriminate E. Qed.

(** ** Theorems *)

(** C29. Whatever the host does, a service that starts serving has opened the
    pool of the configured database before, listens for gRPC only on the
    loopback address when no address is configured, and serves mutual TLS with exactly
    the certificate, key and client authority in the configured files, or
    plaintext when one of the three variables is missing or empty. *)
Theorem startup_safety `{Host} `{HexOps} `{Ed25519Keys} (s : Service) (w w' : Machine) r addr t server :
  actions w = [] -> main s w = (r, w') -> Serving addr t server ∈ actions w' ->
  connected w' /\ default_is_local addr /\ tls_as_configured t w'.
Proof.
  intros Hw Hm Hin. assert (Hb : before_serving false w).
  { split; [|done]. intros addr' t' server' Ha. rewrite Hw in Ha. by apply not_elem_of_nil in Ha. }
  pose proof (main_safe s w Hb) as Hs. rewrite Hm in Hs. by destruct r; eapply Hs.
Qed.

Lemma startup_safety_witness : exists r w' t,
  main (H2 := toy_keys) LedgerQueryService new_machine = (r, w')
  /\ connected w' /\ default_is_local (SocketV4 0 0 0 0 6000) /\ tls_as_configured t w'.
Proof.
  exists (fst (main (H2 := toy_keys) LedgerQueryService new_machine)),
    (snd (main (H2 := toy_keys) LedgerQueryService new_machine)), Plaintext.
  split; [apply surjective_pairing|].
  apply (startup_safety (H2 := toy_keys) LedgerQueryService new_machine _
    (fst (main (H2 := toy_keys) LedgerQueryService new_machine)) _ _ LedgerServer).
  - reflexivity.
  - apply surjective_pairing.
  - apply (list_elem_of_lookup_2 _ 2%nat). reflexivity.
Defined.

(** C30. On a working host every service with a database, an IPv4 address,
    readable TLS files, and for the payment engine provider credentials (of the
    environment, or of a Vault server that answers), for the audit service a
    signing key file that is usable or absent, reaches its serving state on
    exactly that address, in plaintext exactly when TLS is not fully configured,
    and returns after an interrupt.  The port is that of [GRPC_PORT], except
    that the session reconstructor always listens on 50051. *)
Theorem startup_listens `{Host} `{!HostLaws} `{HexOps} `{Ed25519Keys} `{!Ed25519KeyLaws}
    (s : Service) (w : Machine) url a b c d :
  host_up -> tls_ready w -> prerequisites s w -> env_var "DATABASE_URL" = Some url ->
  env_var "BIND_ADDRESS" = Some (dotted_quad a b c d) -> octet a -> octet b -> octet c -> octet d ->
  (exists server, serves_of s server
    /\ serves (main s) w (SocketV4 a b c d (service_port s)) server)
  /\ (forall p, env_var "GRPC_PORT" = Some (pretty p) -> 0 <= p < 65536 ->
       service_port s = match s with SessionReconstructor => 50051 | _ => p end).
Proof.
  intros Hup Ht Hpre Hu Hb Ha' Hb' Hc' Hd'. split.
  - destruct (open_serves url w Hup Hu) as (w1 & Hw1 & Hopen).
    assert (Hr1 : tls_ready w1) by (unfold tls_ready, readable in *; by rewrite Hw1).
    pose proof (service_port_range s) as Hp. destruct s; simpl in Hpre.
    + destruct Hpre as [creds Hpre]. eexists. split; [|by eapply payment_serves]. done.
    + destruct (audit_serves a b c d url w) as [be He]; try done. by exists (AuditServer be).
    + eexists. split; [|by apply Hopen, listen_serves]. done.
    + eexists. split; [|by apply Hopen, listen_serves]. done.
    + eexists. split; [|by apply Hopen, listen_serves]. done.
    + eexists. split; [|by eapply session_serves]. done.
  - intros p Hg Hp. destruct s; simpl; try done; unfold port_var; rewrite Hg; simpl;
      by rewrite parse_u16_pretty.
Qed.

(** A payment engine whose credentials come from a Vault server. *)
Definition vault_host : Host := {|
  env_var := lookup_var (test_vars ++ [("VAULT_ROLE_ID", "role"); ("VAULT_SECRET_ID", "secret")]);
  file_fault _ _ := None;
  pg_connect_fault _ _ := None;
  serve_fault _ _ := None;
  tls_config_fault _ := None;
  channel_connect _ _ _ := Ok tt;
  random_key n := repeat Byte.x01 32;
  post_json _ _ _ :=
    Received None (Ok (JObject [("auth", JObject [("client_token", JString "token")])]));
  get_json _ _ _ := Received None (Ok (JObject [("data", JObject [("data",
    JObject [("secret_key", JString "s3cret")])])]));
  kv2_error _ := "missing field";
  stop_signal _ := SIGINT;
|}.

Lemma vault_host_laws : @HostLaws vault_host.
Proof. constructor. reflexivity. Qed.

Lemma startup_listens_witness :
  (exists server, serves_of PaymentEngine server
    /\ serves (main (H := vault_host) (H2 := toy_keys) PaymentEngine) new_machine
         (SocketV4 0 0 0 0 6000) server)
  /\ exists server, serves_of AuditService server
    /\ serves (main (H2 := toy_keys) AuditService) new_machine (SocketV4 0 0 0 0 6000) server.
Proof.
  split.
  - eapply proj1, (@startup_listens vault_host vault_host_laws _ _ toy_keys _ PaymentEngine
      new_machine "postgres://db/ussd" 0 0 0 0); try reflexivity; try (unfold octet; lia).
    + by repeat split.
    + intros E. vm_compute in E. discriminate E.
    + exists (mkCredentials "https://api.example.com" "" "" "s3cret"). exists "token".
      split; intros n; reflexivity.
  - eapply proj1, (@startup_listens test_host test_host_laws _ _ toy_keys _ AuditService
      new_machine "postgres://db/ussd" 0 0 0 0); try reflexivity; try (unfold octet; lia).
    + exact test_host_up.
    + exact test_tls_ready.
    + left. reflexivity.
Defined.

(** C31. The signing key survives a restart: a service that finds no key file
    makes a key and writes it, and every later start on a machine that still
    has this file loads the same backend, so that signatures made before the
    restart verify after it.  A key file already there is used as it is.  (The
    comment above [load_backend] calls the generated key ephemeral.) *)
Theorem signing_key_survives_restart `{Host} `{!HostLaws} `{HexOps} `{Ed25519Keys}
    `{!Ed25519KeyLaws} `{!Ed25519Laws} {E : Type} (w : Machine) :
  (forall n path, file_fault n path = None) -> key_ready w ->
  exists backend w', load_signing_key (E := E) w = (Ok backend, w')
    /\ (forall path, path <> signing_key_path -> files w' !! path = files w !! path)
    /\ (is_Some (files w !! signing_key_path) -> files w' = files w)
    /\ forall w2, files w2 !! signing_key_path = files w' !! signing_key_path ->
       exists w2', load_signing_key (E := E) w2 = (Ok backend, w2') /\ files w2' = files w2
       /\ forall hash, exists signature, @sign_batch_hash backend hash = Ok (signature, @sb_fingerprint backend)
            /\ @verify_batch_hash backend hash signature = Ok true.
Proof.
  intros Hf Hk. destruct (load_ready (E := E) w Hf Hk) as (b & w' & R & Hl & Hw & _).
  exists (backend_of b), w'. split_and!; [exact R | | |].
  - intros path Hp. by rewrite Hw, lookup_insert_ne.
  - intros Hs. destruct Hk as [Hn|(b' & Hb' & Hl')]; [rewrite Hn in Hs; by destruct Hs|].
    pose proof (load_existing (E := E) b' w Hf Hb' Hl') as R'.
    pose proof (f_equal snd (eq_trans (eq_sym R) R')) as Ew. simpl in Ew. by rewrite Ew.
  - intros w2 Hw2. rewrite Hw, lookup_insert_eq in Hw2.
    exists (h_bump (h_bump w2)). split_and!; [by apply load_existing | done |].
    intros hash. exists (ed_sign (key_from_bytes b) (as_bytes hash)). split; [done|].
    by apply (@sign_verifies _ (software_laws _ _)).
Qed.

Lemma signing_key_survives_restart_witness :
  exists backend w', load_signing_key (H2 := toy_keys) (E := MainError) new_machine = (Ok backend, w')
    /\ (forall path, path <> signing_key_path -> files w' !! path = files new_machine !! path)
    /\ (is_Some (files new_machine !! signing_key_path) -> files w' = files new_machine)
    /\ forall w2, files w2 !! signing_key_path = files w' !! signing_key_path ->
       exists w2', load_signing_key (H2 := toy_keys) (E := MainError) w2 = (Ok backend, w2') /\ files w2' = files w2
       /\ forall hash, exists signature, @sign_batch_hash backend hash = Ok (signature, @sb_fingerprint backend)
            /\ @verify_batch_hash backend hash signature = Ok true.
Proof.
  apply (signing_key_survives_restart (H3 := toy_keys) (E := MainError) new_machine).
  - intros n path. reflexivity.
  - left. reflexivity.
Defined.

(** C32. A payment engine started without a vault and with
    [ECOCASH_SECRET_KEY] missing or empty does not refuse to start: it serves, and the only
    callback signatures it accepts are HMACs under the empty key, which anyone
    can compute. *)
Theorem keyless_engine_forgeable `{Host} `{HexOps} `{HashOps} `{CtEqOps} `{!CtEqLaws}
    (w : Machine) url a b c d :
  host_up -> tls_ready w -> env_var "DATABASE_URL" = Some url -> env_var "VAULT_ROLE_ID" = None ->
  unwrap_or (env_var "ECOCASH_SECRET_KEY") "" = "" ->
  env_var "BIND_ADDRESS" = Some (dotted_quad a b c d) -> octet a -> octet b -> octet c -> octet d ->
  exists creds, serves payment_main w (SocketV4 a b c d (service_port PaymentEngine)) (PaymentServer creds)
    /\ forall payload signature,
         ecocash_verify creds payload signature = true <-> signature = hex_encode (hmac_sha256 [] payload).
Proof.
  intros Hup Ht Hu Hv Hs Hb Ha' Hb' Hc' Hd'. exists environment_credentials.
  split; [eapply payment_serves; try done; unfold credentials_ready; by rewrite Hv|].
  intros payload signature.
  pose proof (ecocash_verify_spec environment_credentials payload signature) as Hspec.
  unfold generate_signature, environment_credentials in *. rewrite Hs in *. exact Hspec.
Qed.

Lemma keyless_engine_forgeable_witness :
  exists creds, serves (payment_main (H := test_host)) new_machine
      (SocketV4 0 0 0 0 (service_port PaymentEngine)) (PaymentServer creds)
    /\ forall payload signature,
         ecocash_verify creds payload signature = true <-> signature = hex_encode (hmac_sha256 [] payload).
Proof.
  apply (keyless_engine_forgeable new_machine "postgres://db/ussd" 0 0 0 0).
  - exact test_host_up.
  - exact test_tls_ready.
  - reflexivity.
  - reflexivity.
  - reflexivity.
  - reflexivity.
  - unfold octet. lia.
  - unfold octet. lia.
  - unfold octet. lia.
  - unfold octet. lia.
Defined.
