(* ===== verification/Methods.v ===== *)
(** * Methods without data, and the interceptor

    The rest of the gRPC surfaces: the methods of the payment engine and the
    session reconstructor that are declared and not implemented, the health
    methods, the key listing of the audit service, and the interceptor of
    [common/src/interceptors.rs].  The messages of methods that are not
    implemented are never read, so their types are arguments. *)

From Stdlib Require Import ZArith Lia Ascii.
From stdpp Require Import base list strings gmap numbers.
From S2P Require Import Prelude RustStr External Reference Grpc PaymentStore.
From S2P Require Import AuditStore Session SessionService Recon Messaging.

Local Open Scope string_scope.
Local Open Scope Z_scope.

(** [Err(Status::unimplemented(message))] *)
Definition unimplemented {W A} (message : string) : M W Status A :=
  throw (mkStatus CodeUnimplemented message).

(** ** Payment engine, [ports/grpc.rs] *)

Module PaymentMethods.
Import PaymentStore.

Definition payment_health `{!Env} : M World Status HealthResponse := fun w =>
  (Ok (serving [] (clock (tick w))), next_tick w).

Definition preview_payment {W Req Resp} (request : Req) : M W Status Resp :=
  unimplemented "preview_payment not implemented".

Definition bulk_initiate_payment {W Req Resp} (request : Req) : M W Status Resp :=
  unimplemented "bulk_initiate_payment not implemented".

Definition initiate_disbursement {W Req Resp} (request : Req) : M W Status Resp :=
  unimplemented "initiate_disbursement not implemented".

Definition bulk_initiate_disbursement {W Req Resp} (request : Req) : M W Status Resp :=
  unimplemented "bulk_initiate_disbursement not implemented".

Definition get_payment_details {W Req Resp} (request : Req) : M W Status Resp :=
  unimplemented "get_payment_details not implemented".

Definition refund_payment {W Req Resp} (request : Req) : M W Status Resp :=
  unimplemented "refund_payment not implemented".

Definition reverse_payment {W Req Resp} (request : Req) : M W Status Resp :=
  unimplemented "reverse_payment not implemented".

Definition list_payments {W Req Resp} (request : Req) : M W Status Resp :=
  unimplemented "list_payments not implemented".

Definition get_payment_analytics {W Req Resp} (request : Req) : M W Status Resp :=
  unimplemented "get_payment_analytics not implemented".

Definition validate_phone_number {W Req Resp} (request : Req) : M W Status Resp :=
  unimplemented "validate_phone_number not implemented".

Definition get_provider_balance {W Req Resp} (request : Req) : M W Status Resp :=
  unimplemented "get_provider_balance not implemented".

Definition get_provider_capabilities {W Req Resp} (request : Req) : M W Status Resp :=
  unimplemented "get_provider_capabilities not implemented".

Definition report_dispute {W Req Resp} (request : Req) : M W Status Resp :=
  unimplemented "report_dispute not implemented".

Definition update_dispute {W Req Resp} (request : Req) : M W Status Resp :=
  unimplemented "update_dispute not implemented".

Definition upload_dispute_evidence {W Req Resp} (request : Req) : M W Status Resp :=
  unimplemented "upload_dispute_evidence not implemented".

Definition get_dispute_status {W Req Resp} (request : Req) : M W Status Resp :=
  unimplemented "get_dispute_status not implemented".

Definition list_disputes {W Req Resp} (request : Req) : M W Status Resp :=
  unimplemented "list_disputes not implemented".

Definition generate_settlement_file {W Req Resp} (request : Req) : M W Status Resp :=
  unimplemented "generate_settlement_file not implemented".

Definition get_settlement_file {W Req Resp} (request : Req) : M W Status Resp :=
  unimplemented "get_settlement_file not implemented".

Definition list_settlement_files {W Req Resp} (request : Req) : M W Status Resp :=
  unimplemented "list_settlement_files not implemented".

End PaymentMethods.

(** ** Session reconstructor, [ports/grpc.rs] *)

Module SessionMethods.
Import Session SessionService.

(** [health]: the database is reported to be well without asking it *)
Definition session_health `{!SessionEnv} : M SessionWorld Status HealthResponse :=
  now ← s_now;
  mret (serving [("postgres", "ok")] now).

(** [hashmap_to_struct]: every value is a string value *)
Definition hashmap_to_struct (map : SessionState) : gmap string json := JString <$> map.

Definition reconstruct_sessions {W Req Resp} (request : Req) : M W Status Resp :=
  unimplemented "reconstruct_sessions not implemented".

Definition get_session_events {W Req Resp} (request : Req) : M W Status Resp :=
  unimplemented "get_session_events not implemented".

Definition create_checkpoint {W Req Resp} (request : Req) : M W Status Resp :=
  unimplemented "create_checkpoint not implemented".

Definition restore_checkpoint {W Req Resp} (request : Req) : M W Status Resp :=
  unimplemented "restore_checkpoint not implemented".

Definition list_active_sessions {W Req Resp} (request : Req) : M W Status Resp :=
  unimplemented "list_active_sessions not implemented".

Definition search_sessions {W Req Resp} (request : Req) : M W Status Resp :=
  unimplemented "search_sessions not implemented".

Definition get_concurrent_sessions {W Req Resp} (request : Req) : M W Status Resp :=
  unimplemented "get_concurrent_sessions not implemented".

Definition merge_sessions {W Req Resp} (request : Req) : M W Status Resp :=
  unimplemented "merge_sessions not implemented".

Definition get_session_metrics {W Req Resp} (request : Req) : M W Status Resp :=
  unimplemented "get_session_metrics not implemented".

End SessionMethods.

(** ** Audit service, [ports/grpc.rs] *)

Module AuditMethods.
Import AuditStore.

Record SigningKeyInfo := mkSigningKeyInfo {
  sk_key_id : string;
  sk_algorithm : string;
  sk_created_at : option Timestamp;
  sk_expires_at : option Timestamp;
  sk_is_active : bool;
  sk_public_key_pem : string;
}.

Definition audit_clock `{!AuditEnv} : M AuditWorld Status DateTime := fun w =>
  (Ok (a_clock (a_tick w)), a_next w).

(** [get_signing_keys]: one key, created now, for 365 days, whatever key the
    service signs with *)
Definition get_signing_keys `{!AuditEnv} : M AuditWorld Status (list SigningKeyInfo) :=
  created ← audit_clock;
  now ← audit_clock;
  mret [mkSigningKeyInfo "primary-audit-key-001" "ed25519" (Some (chrono_to_prost created))
          (Some (chrono_to_prost (now + 365 * nanos_per_day))) true ""].

Definition audit_health `{!AuditEnv} : M AuditWorld Status HealthResponse :=
  now ← audit_clock;
  mret (serving [] now).

End AuditMethods.

(** ** Reconciliation and messaging engines, [ports/grpc.rs] *)

Module OtherMethods.

(** The clock of the ports never fails. *)
Definition reconciliation_health {W} `{!Recon.ReconPorts W} : M W Status HealthResponse :=
  now ← with_err (fun _ => mkStatus CodeInternal "clock") Recon.rp_now;
  mret (serving [] now).

Definition messaging_health {W} `{!Messaging.MsgPorts W} : M W Status HealthResponse :=
  now ← with_err (fun _ => mkStatus CodeInternal "clock") Messaging.mp_now;
  mret (serving [] now).

End OtherMethods.

(** ** [common/src/interceptors.rs] *)

(** [MetadataMap]: names and values in order *)
Definition Metadata : Type := list (string * string).

Definition metadata_get (key : string) (md : Metadata) : option string :=
  snd <$> List.find (fun kv => String.eqb (fst kv) key) md.

(** [insert] replaces the values the name had. *)
Definition metadata_insert (key value : string) (md : Metadata) : Metadata :=
  (List.filter (fun kv => negb (String.eqb (fst kv) key)) md ++ [(key, value)])%list.

(** The bytes of a header value *)
Definition header_byte (n : N) : bool := ((32 <=? n) && negb (n =? 127))%N || (n =? 9)%N.

(** [tracing_auth_interceptor]; [request_id] is the fresh identifier *)
Definition tracing_auth_interceptor `{UuidOps} (request_id : Uuid) (md : Metadata)
    : Result Status Metadata :=
  match metadata_get "x-request-id" md with
  | Some _ => Ok md
  | None =>
      let value := uuid_to_string request_id in
      if forallb header_byte (bytes value)
      then Ok (metadata_insert "x-request-id" value md)
      else Err (mkStatus CodeInternal "invalid metadata value: failed to parse metadata value")
  end.

Lemma find_filter_ne key other md : other <> key ->
  metadata_get other (List.filter (fun kv => negb (String.eqb (fst kv) key)) md) = metadata_get other md.
Proof.
  intros Hne. unfold metadata_get. f_equal. induction md as [|[k v] md IH]; [done|]. simpl.
  destruct (String.eqb_spec k key) as [->|]; simpl.
  - rewrite IH. destruct (String.eqb_spec key other); [congruence | done].
  - by destruct (String.eqb k other).
Qed.

(** The interceptor authenticates nobody: with identifiers that print as
    header text it accepts every request, also one without authorization, keeps
    every other header, and makes sure there is a request id. *)
Theorem interceptor_accepts_all `{UuidOps} (request_id : Uuid) (md : Metadata) :
  forallb header_byte (bytes (uuid_to_string request_id)) = true ->
  exists md', tracing_auth_interceptor request_id md = Ok md'
    /\ metadata_get "x-request-id" md'
       = Some (unwrap_or (metadata_get "x-request-id" md) (uuid_to_string request_id))
    /\ forall other, other <> "x-request-id" -> metadata_get other md' = metadata_get other md.
Proof.
  intros Hu. unfold tracing_auth_interceptor.
  destruct (metadata_get "x-request-id" md) as [v|] eqn:Hg; [by exists md|]. rewrite Hu.
  eexists. split; [done|]. split.
  - unfold metadata_insert, metadata_get. rewrite find_app_r; [done|].
    induction md as [|[k x] md IH]; [done|]. simpl.
    destruct (String.eqb k "x-request-id") eqn:E; simpl; [|rewrite E]; apply IH; revert Hg;
      unfold metadata_get; simpl; rewrite E; done.
  - intros other Hne. rewrite <- (find_filter_ne "x-request-id" other md Hne).
    unfold metadata_insert, metadata_get.
    assert (Hx : String.eqb "x-request-id" other = false) by (by apply String.eqb_neq).
    f_equal. induction (List.filter _ md) as [|[k x] l IH]; cbn [List.find app fst].
    + by rewrite Hx.
    + by destruct (String.eqb k other).
Qed.
