(* ===== verification/Telemetry.v ===== *)
(** * The common crate: metrics, tracing, layers

    [common/src/metrics.rs]: the three metrics of the process, what records them
    and the page that is served; [common/src/telemetry.rs]: the metric lines of
    the log and the trace header; the layer of [common/src/interceptors.rs].
    Prometheus is a parameter: registries, and the text of what a registry has
    been told. *)

From Stdlib Require Import ZArith Lia.
From stdpp Require Import base list strings numbers pretty relations.
From S2P Require Import Prelude RustStr External Reference Grpc Methods.

Local Open Scope string_scope.

(** ** [metrics.rs] *)

(** The statics of the crate *)
Inductive Metric := GRPC_REQUESTS_TOTAL | GRPC_REQUEST_DURATION | DB_QUERY_DURATION.

#[export] Instance metric_eq_dec : EqDecision Metric.
Proof. solve_decision. Defined.

Definition metric_labels (m : Metric) : list string :=
  match m with
  | GRPC_REQUESTS_TOTAL => ["service"; "method"; "status"]
  | GRPC_REQUEST_DURATION => ["service"; "method"]
  | DB_QUERY_DURATION => ["operation"; "table"]
  end.

(** [.inc()] of a counter, [.observe(v)] of a histogram *)
Inductive Sample `{F64Ops} := Inc | Observe (v : F64).

Record Observation `{F64Ops} := mkObservation {
  obs_metric : Metric;
  obs_labels : list string;
  obs_sample : Sample;
}.

Arguments mkObservation {_}.
Arguments obs_metric {_}.

(** [prometheus::Registry]: what is registered, and [TextEncoder::encode] of
    [gather] with the observations made so far; the encoder may fail. *)
Class Prometheus `{F64Ops} := {
  Registry : Type;
  registry_new : Registry;
  registered : Registry -> Metric -> bool;
  register : Metric -> Registry -> Registry;
  (** The registry [prometheus::gather] reads, as the process starts. *)
  default_registry : Registry;
  encode_gathered : Registry -> list Observation -> option bytestring;
  from_utf8_lossy : bytestring -> string;
}.

Definition of_metric `{F64Ops} (m : Metric) (l : list Observation) : list Observation :=
  List.filter (fun o => bool_decide (obs_metric o = m)) l.

(** A registry gathers the metrics registered in it, and no others; the default
    registry starts without those of this crate; text survives the lossy
    conversion. *)
Class PrometheusLaws `{Prometheus} : Prop := {
  default_foreign : forall m, registered default_registry m = false;
  gather_registered : forall r l l',
    (forall m, registered r m = true -> of_metric m l = of_metric m l') ->
    encode_gathered r l = encode_gathered r l';
  lossy_text : forall s, from_utf8_lossy (as_bytes s) = s;
  encoded_text : forall r l buf, encode_gathered r l = Some buf -> exists s, buf = as_bytes s;
}.

(** A line written with [info!], as its fields *)
Record LogLine := mkLogLine { log_message : string; log_fields : list (string * string) }.

Section telemetry.
Context `{Prometheus}.

Record Process := mkProcess {
  REGISTRY : Registry;
  gathered : Registry;
  observations : list Observation;
  logged : list LogLine;
  (** the filter of the global subscriber, once one is set *)
  subscriber : option string;
}.

(** The process as it starts *)
Definition fresh_process : Process := mkProcess registry_new default_registry [] [] None.

Definition set_registry (r : Registry) (w : Process) : Process :=
  mkProcess r (gathered w) (observations w) (logged w) (subscriber w).

(** [REGISTRY.register(..).unwrap_or_default()]: a metric already there is
    refused, and the error dropped *)
Definition register_one {E} (m : Metric) : M Process E unit :=
  modify (fun w => if registered (REGISTRY w) m then w else set_registry (register m (REGISTRY w)) w).

(** [register_metrics] *)
Definition register_metrics {E} : M Process E unit :=
  register_one GRPC_REQUESTS_TOTAL ;;
  register_one GRPC_REQUEST_DURATION ;;
  register_one DB_QUERY_DURATION.

(** [with_label_values(labels)] panics unless there is a value per label. *)
Definition observe {E} (m : Metric) (labels : list string) (s : Sample) : M Process E unit :=
  if Nat.eqb (length labels) (length (metric_labels m))
  then modify (fun w => mkProcess (REGISTRY w) (gathered w)
         (observations w ++ [mkObservation m labels s])%list (logged w) (subscriber w))
  else lift Panic.

(** [record_grpc_request] *)
Definition record_grpc_request {E} (service method status : string) (duration : F64)
    : M Process E unit :=
  observe GRPC_REQUESTS_TOTAL [service; method; status] Inc ;;
  observe GRPC_REQUEST_DURATION [service; method] (Observe duration).

(** [record_db_query] *)
Definition record_db_query {E} (operation table : string) (duration : F64) : M Process E unit :=
  observe DB_QUERY_DURATION [operation; table] (Observe duration).

(** [instrument_grpc!]; [elapsed] is the time the block took *)
Definition instrument_grpc {E A} (service method : string) (elapsed : F64) (block : M Process E A)
    : M Process E A := fun w =>
  let '(result, w') := block w in
  match result with
  | Panic => (Panic, w')
  | _ =>
      let status := match result with Ok _ => "ok" | _ => "error" end in
      let '(recorded, w'') := record_grpc_request (E := E) service method status elapsed w' in
      match recorded with Panic => (Panic, w'') | _ => (result, w'') end
  end.

(** What is written to a connection; nothing when the encoder fails *)
Definition metrics_page (w : Process) : option string :=
  buffer ← encode_gathered (gathered w) (observations w);
  let crlf := String (Ascii.ascii_of_nat 13) (String (Ascii.ascii_of_nat 10) "") in
  mret ("HTTP/1.1 200 OK" +:+ crlf +:+ "Content-Type: text/plain; charset=utf-8" +:+ crlf
        +:+ "Content-Length: " +:+ pretty (length buffer) +:+ crlf +:+ crlf +:+ from_utf8_lossy buffer).

(** The loop of [start_metrics_server] over what [accept] returns: an error is
    passed over, a connection gets the page. *)
Fixpoint serve_metrics {E} (accepted : list bool) : M Process E (list string) :=
  match accepted with
  | [] => mret []
  | false :: rest => serve_metrics rest
  | true :: rest =>
      page ← gets metrics_page;
      pages ← serve_metrics rest;
      mret (match page with Some p => p :: pages | None => pages end)
  end.

(** ** [telemetry.rs] *)

(** [labels.map(|(k, v)| format!("{}={}", k, v)).join(",")] *)
Definition labels_str (labels : list (string * string)) : string :=
  String.concat "," (map (fun kv => fst kv +:+ "=" +:+ snd kv) labels).

(** [record_metric]; [value] is the number as it is printed *)
Definition record_metric {E} (name value : string) (labels : list (string * string))
    : M Process E unit :=
  modify (fun w => mkProcess (REGISTRY w) (gathered w) (observations w) (logged w ++
    [mkLogLine "metric" [("metric_name", name); ("metric_value", value);
                         ("metric_labels", labels_str labels)]])%list (subscriber w)).

(** [init_tracing]: [rust_log] is the filter of the environment when it is set
    and parses; a process has one global subscriber, and setting another
    panics *)
Definition init_tracing {E} (rust_log : option string) (service_name : string) : M Process E unit :=
  let env_filter := unwrap_or rust_log "info" in
  current ← gets subscriber;
  match current with
  | Some _ => lift Panic
  | None =>
      modify (fun w => mkProcess (REGISTRY w) (gathered w) (observations w)
        (logged w ++ [mkLogLine "tracing initialized" [("service", service_name)]])%list
        (Some env_filter))
  end.

(** [MetadataValue::to_str]: visible ASCII only *)
Definition to_str (value : string) : option string :=
  if forallb (fun n => header_byte n && (n <? 128)%N) (bytes value) then Some value else None.

(** [extract_trace_context]: the field of the new span *)
Definition extract_trace_context (md : Metadata) : option string :=
  let trace_id := unwrap_or (metadata_get "x-trace-id" md ≫= to_str) "" in
  if is_empty trace_id then None else Some trace_id.

End telemetry.

(** ** [interceptors.rs]: the layer *)

(** [tower::Service]: readiness and the answer, each changing the service *)
Record TowerService (S Req Resp : Type) := mkService {
  poll_ready : S -> bool * S;
  call : S -> Req -> Resp * S;
}.
Arguments mkService {S Req Resp}.
Arguments poll_ready {S Req Resp}.
Arguments call {S Req Resp}.

Record TracingService (S : Type) := mkTracing { inner : S }.
Arguments mkTracing {S}.
Arguments inner {S}.

(** [TracingLayer::layer] *)
Definition layer {S} (s : S) : TracingService S := mkTracing s.

Definition tracing_service {S Req Resp} (t : TowerService S Req Resp)
    : TowerService (TracingService S) Req Resp :=
  mkService
    (fun s => let '(ready, i) := poll_ready t (inner s) in (ready, mkTracing i))
    (fun s req => let '(resp, i) := call t (inner s) req in (resp, mkTracing i)).

(** The layer changes nothing: a service behind it gives the answers it gives
    alone. *)
Fixpoint answers {S Req Resp} (t : TowerService S Req Resp) (s : S) (reqs : list Req) : list Resp :=
  match reqs with
  | [] => []
  | r :: rest =>
      let '(_, s1) := poll_ready t s in
      let '(resp, s2) := call t s1 r in
      resp :: answers t s2 rest
  end.

Lemma layer_transparent {S Req Resp} (t : TowerService S Req Resp) s reqs :
  answers (tracing_service t) (layer s) reqs = answers t s reqs.
Proof.
  revert s. induction reqs as [|r reqs IH]; intros s; simpl; [done|].
  destruct (poll_ready t s) as [ready s1]; simpl. destruct (call t s1 r) as [resp s2]; simpl.
  f_equal. apply IH.
Qed.

(** ** What the page shows *)

Section pages.
Context `{Prometheus}.

(** A process that starts its tracing first, once, has it for good. *)
Lemma init_tracing_once {E} rust_log name w : subscriber w = None ->
  exists w', init_tracing (E := E) rust_log name w = (Ok tt, w')
    /\ subscriber w' = Some (unwrap_or rust_log "info")
    /\ forall name', fst (init_tracing (E := E) rust_log name' w') = Panic.
Proof.
  intros Hs. unfold init_tracing. eexists. split; [|split].
  - erewrite bind_ok; [|reflexivity]. rewrite Hs. reflexivity.
  - done.
  - done.
Qed.

(** What the engines do with the crate *)
Inductive recorded : Process -> Process -> Prop :=
  | recorded_tracing rust_log name w : recorded w (snd (init_tracing (E := unit) rust_log name w))
  | recorded_register w : recorded w (snd (register_metrics (E := unit) w))
  | recorded_request service method status d w :
      recorded w (snd (record_grpc_request (E := unit) service method status d w))
  | recorded_query operation table d w :
      recorded w (snd (record_db_query (E := unit) operation table d w))
  | recorded_metric name value labels w :
      recorded w (snd (record_metric (E := unit) name value labels w)).

Lemma recorded_gathered w w' : recorded w w' -> gathered w' = gathered w.
Proof.
  intros [rl nm w1|w1|svc meth st d w1|op tb d w1|n v ls w1]; try done.
  { unfold init_tracing, mbind, M_bind, gets. simpl. by case_match. }
  unfold register_metrics, register_one, modify, mbind, M_bind. simpl. by repeat case_match.
Qed.

Lemma rtc_gathered w w' : rtc recorded w w' -> gathered w' = gathered w.
Proof. induction 1 as [|w1 w2 w3 Hs _ IH]; [done|]. by rewrite IH, (recorded_gathered _ _ Hs). Qed.

(** What is recorded has its labels, so nothing panics. *)
Lemma record_request_ok {E} service method status d w :
  fst (record_grpc_request (E := E) service method status d w) = Ok tt.
Proof. done. Qed.

(** Whatever was recorded, the page is that of the process at its start. *)
Lemma page_fixed `{!PrometheusLaws} w : rtc recorded fresh_process w ->
  metrics_page w = metrics_page fresh_process.
Proof.
  intros Hr. unfold metrics_page. rewrite (rtc_gathered _ _ Hr). simpl.
  rewrite (gather_registered default_registry (observations w) []); [done|].
  intros m Hm. by rewrite default_foreign in Hm.
Qed.

(** A page: the head announces the length of the body. *)
Definition page_of_text (body : string) : string :=
  let crlf := String (Ascii.ascii_of_nat 13) (String (Ascii.ascii_of_nat 10) "") in
  "HTTP/1.1 200 OK" +:+ crlf +:+ "Content-Type: text/plain; charset=utf-8" +:+ crlf
  +:+ "Content-Length: " +:+ pretty (String.length body) +:+ crlf +:+ crlf +:+ body.

Lemma as_bytes_length s : length (as_bytes s) = String.length s.
Proof.
  unfold as_bytes, String.list_byte_of_string. rewrite length_map.
  induction s; simpl; [done | by f_equal].
Qed.

Lemma page_text `{!PrometheusLaws} w p : metrics_page w = Some p -> exists body, p = page_of_text body.
Proof.
  unfold metrics_page. destruct (encode_gathered _ _) as [buf|] eqn:E; [|done]. intros [= <-].
  destruct (encoded_text _ _ _ E) as [s ->]. exists s. by rewrite lossy_text, as_bytes_length.
Qed.

End pages.

(** A registry that lists the labels it was told, for the witness *)
Definition all_metrics : list Metric := [GRPC_REQUESTS_TOTAL; GRPC_REQUEST_DURATION; DB_QUERY_DURATION].

#[export] Instance test_prometheus `{F64Ops} : Prometheus := {|
  Registry := list Metric;
  registry_new := [];
  registered r m := bool_decide (m ∈ r);
  register m r := m :: r;
  default_registry := [];
  encode_gathered r l := Some (as_bytes (String.concat " " (concat (map (fun m =>
    if bool_decide (m ∈ r)
    then map (fun o => String.concat "," (obs_labels o)) (of_metric m l) else []) all_metrics))));
  from_utf8_lossy b := String.string_of_list_byte b;
|}.

#[export] Instance test_prometheus_laws `{F64Ops} : PrometheusLaws.
Proof.
  constructor.
  - done.
  - intros r l l' Hm. cbn [encode_gathered test_prometheus registered] in *. do 4 f_equal.
    apply map_ext. intros m. case_bool_decide as Hin; [|done].
    rewrite (Hm m); [done|]. by apply bool_decide_eq_true.
  - intros s. apply String.string_of_list_byte_of_string.
  - intros r l buf [= <-]. by eexists.
Qed.

(** ** Theorems *)

(** The page for Prometheus never shows the metrics of the engines: they are
    registered in a registry of their own, while the page gathers the default
    one.  After any recordings every connection gets the page of the process at
    its start, and the page announces the length of its body. *)
Theorem metrics_page_blind `{PrometheusLaws} (accepted : list bool) (w : Process) :
  rtc recorded fresh_process w ->
  exists pages, serve_metrics (E := unit) accepted w = (Ok pages, w)
    /\ Forall (fun p => metrics_page fresh_process = Some p /\ exists body, p = page_of_text body) pages.
Proof.
  intros Hr. rewrite <- (page_fixed w Hr). clear Hr.
  induction accepted as [|[] rest (l & Hl & Hp)]; [by exists []| |by exists l].
  cbn [serve_metrics]. erewrite bind_ok; [|reflexivity]. erewrite bind_ok; [|exact Hl].
  destruct (metrics_page w) as [p|] eqn:E; eexists; (split; [reflexivity|]); [|done].
  constructor; [split; [done | by eapply page_text] | done].
Qed.

Lemma metrics_page_blind_witness :
  let w := snd (record_grpc_request (E := unit) "payment" "initiate" "ok" f64_zero
             (snd (register_metrics (E := unit) fresh_process))) in
  exists pages, serve_metrics (E := unit) [true; false; true] w = (Ok pages, w)
    /\ Forall (fun p => metrics_page fresh_process = Some p /\ exists body, p = page_of_text body) pages.
Proof.
  intros w. apply (metrics_page_blind [true; false; true] w).
  eapply rtc_l; [apply recorded_register|]. apply rtc_once, recorded_request.
Defined.
